(* ===== verification/_CoqProject ===== *)
-Q . S2P
Prelude.v
GoStd.v
TextLemmas.v
Duration.v
Url.v
Hash.v
KubeTypes.v
ApiV1beta2.v
ApiV1beta1.v
Conversion.v
Client.v
ClientRules.v
FakeClient.v
Common.v
Recreate.v
Json.v
Hashing.v
Rbac.v
Secrets.v
Resources.v
Containers.v
Pods.v
NetworkPolicies.v
Services.v
Pvc.v
Openshift.v
Console.v
CryostatWebhook.v
ConfigMaps.v
Certmanager.v
PodProps.v
AgentWebhook.v
Startup.v
ServerOptions.v
Scorecard.v
AgentProps.v
Deployments.v
Conditions.v
Reconciler.v
Footprint.v
Reconciled.v
Tenants.v
Access.v
Admission.v
Steps.v
Setup.v
GoHeap.v
DeepCopyV1beta1.v
DeepCopyV1beta2.v
DeepCopies.v
