(* ===== verification/Prelude.v ===== *)
(** * Cryostat operator: a verification development (root file)

    The operator keeps installations of Cryostat on Kubernetes and OpenShift. Users write
    [Cryostat] custom resources (CRs); a reconciler creates, updates and removes the objects
    each one needs; admission webhooks check the CRs and inject the Cryostat agent into
    labelled pods; a conversion webhook translates between two versions of the CR. This
    library is a shallow embedding of that program in Go: one definition per Go function,
    under the name it has in the source, and the theorems that make it correct.

    ** The program and its files

    Paths are relative to src/. A file that is listed after another may use it.

    - Foundations. Prelude.v: record update, the state monad [M W A] and the result type.
      GoStd.v: errors, machine integers, [strconv], [strings], [path], [slices]. TextLemmas.v,
      Duration.v ([time.ParseDuration] with its overflow checks), Url.v ([net/url]), Hash.v
      (SHA-256, FNV-1), Json.v ([encoding/json], base64).
    - Data. KubeTypes.v: the API objects, with the fields the operator touches.
      ApiV1beta2.v and ApiV1beta1.v: api/*/cryostat_types.go. Conversion.v:
      api/v1beta1/cryostat_conversion.go. GoHeap.v, DeepCopyV1beta1.v, DeepCopyV1beta2.v and
      DeepCopies.v: api/*/zz_generated.deepcopy.go, as operations on a heap of cells.
    - The cluster. Client.v: the API server and the client libraries as a class [Kube W]
      over an abstract world, with their documented behaviour as [KubeLaws]. ClientRules.v:
      the rules for reasoning about programs over it. FakeClient.v: an API server in
      memory that satisfies every law, on which the witnesses run.
    - The reconciler, internal/controller. Common.v (constants, model/instance.go,
      common_utils.go, naming.go, finalizer_utils.go, tls.go), Recreate.v (what the
      create-or-recreate functions share), Hashing.v (common_utils.go), Rbac.v (rbac.go),
      Secrets.v (secrets.go), Resources.v, Containers.v and Pods.v (resource_definitions),
      NetworkPolicies.v (networkpolicy.go), Services.v (services.go, routes.go,
      ingresses.go), Pvc.v (pvc.go), Openshift.v (openshift.go), ConfigMaps.v
      (configmaps.go), Certmanager.v (certmanager.go), Deployments.v, Conditions.v and
      Reconciler.v (reconciler.go, cryostat_controller.go), Setup.v (the watches).
    - The webhooks. CryostatWebhook.v (internal/webhook/v1beta2), AgentWebhook.v
      (internal/webhook/agent).
    - The process. Console.v (internal/console/plugin.go), Startup.v (internal/fips and the
      decisions of cmd/main.go), ServerOptions.v (its servers and their TLS options),
      Scorecard.v (internal/images/custom-scorecard-tests/main.go).
    - Theorems across components. PodProps.v, AgentProps.v, Footprint.v, Reconciled.v,
      Tenants.v, Access.v, Admission.v, Steps.v.

    ** How the code is rendered

    A Go struct is a record, a pointer an [option], a map a [gmap] (with [None] for nil where
    it matters), an [int32] a [Z] with [to_int32] written out where it can wrap. A function
    that returns an error returns a [result]; one that talks to the cluster is a state
    transformer [E W A] over a world [W]. A function that changes an object it was passed
    returns the changed object, error or not: [CrE A] does so for the CR that a pass carries
    through its steps. Maps are visited in an order that the world chooses ([go_range]), and
    random numbers come from it too. Where sharing matters memory is explicit: GoHeap.v has
    the cells that pointers, slices and maps refer to, ServerOptions.v the arrays of slices.
    Log calls are left out.

    Code of other modules is a class with operations and laws: [Kube], [QuantityOps],
    [ConsoleLibs], [Discovery], [ControllerRuntime], [CertWatchers], [Manager],
    [ScorecardTests], [LibTypes]. The laws say what the documentation of those libraries
    says. The laws of the API server describe runs in which nobody else writes to the objects
    that the operator reads; theorems about what the operator does not touch need no laws of
    that sort. Every theorem with a hypothesis has a witness, run on concrete instances.

    ** What the theorems show

    - Whole passes (Reconciled.v, Tenants.v, Access.v): a pass touches only the footprint of
      its CR; a pass that completes has granted, revoked and recorded what the spec asks; the
      finalizer waits for the cleanup of what the spec names; a lock that belongs to another
      object, unless it is marked immutable, keeps a CR out; CRs of
      different namespaces leave each other's objects alone; any history of edits, complete
      passes and passes for other CRs refines an abstract machine for the granted namespaces.
      The machine has no step for a pass over the CR itself that stops half way: Access.v
      ends with a run in which such a pass leaves access behind.
      Steps.v: a failed TLS set-up ends the pass. Setup.v: a change of what a pass keeps wakes
      the controller, except for network policies, which have no watch.
    - Access (Rbac.v, CryostatWebhook.v, Admission.v): bindings exactly in the target
      namespaces; a user cannot reach, through the operator, a namespace in which they may
      not create Cryostats.
    - Objects: generated credentials never change (Secrets.v); claims keep their volumes
      (Pvc.v); deployments are recreated only for their selector and carry the hashes of what
      they mount (Deployments.v, Hashing.v); certificates reach the target namespaces, and a
      changed authority reissues its chain (Certmanager.v); policies, configuration files and
      services say what they should (NetworkPolicies.v, ConfigMaps.v, Services.v).
    - Pods (Pods.v, PodProps.v): every mount has its volume, every secret key that is read
      exists (when the generated secrets that were there had theirs), services reach the ports that are listened on, pods are restricted unless the
      user says otherwise, and the discovery settings read back.
    - Agents (AgentProps.v): the injection changes nothing else, keeps pods well formed, is
      confined to target namespaces, and meets the gateway of the Cryostat it names.
    - Data (Conversion.v, DeepCopies.v): what survives a conversion round trip, exactly; deep
      copies share nothing with their originals.
    - Process (Startup.v, ServerOptions.v, Console.v, Scorecard.v): the FIPS expression,
      the TLS options of the two servers, the console plugin and its version gate, and
      that the scorecard image runs what is asked.

    Conditions. The theorems about what a call leaves usually ask that the objects it writes
    were not held by finalizers or under deletion when it started ([quiet], [unheld] in
    ClientRules.v): the API server answers the deletion of a held object with success and
    keeps the object, and an update of an object under deletion may remove it. Each theorem's
    comment states the conditions it has. What texts and decisions must be is written out
    next to their theorems, without the functions it specifies ([create_cryostats],
    [nginx_reference], [oauth2_reference], [bounds], [egress_asked], [asked]).

    ** Fuel

    Three recursions are not structural. [createOrUpdateX] and [recreateX] call each other, for
    five kinds of objects: they take the number of attempts, and the reconciler passes
    [recreate_fuel], 2. Theorems next to each pair show that more attempts give the same
    outcome as two, as long as no finalizer holds the deleted object back: after the deletion
    the second attempt creates. [time.ParseDuration] consumes at least one character per
    iteration; it gets the length of the text as fuel, and Duration.v shows that it never
    runs out. SHA-256 cuts the message into blocks of 16 words, with the number of words as
    fuel.

    ** Not modelled

    - Logging, metrics, the manager's own loop (queues, back-off, leader election, caches),
      flag parsing and scheme registration: library set-up without a decision of this program.
    - cert-manager, the OpenShift operators, the garbage collector, kubelets and the images
      that run in the pods: they are other programs; what the operator relies on of the
      first three is a law.
    - internal/tools/const_generator.go, a build tool: the model has its output.
    - internal/test and the tests of the scorecard image: fixtures and end-to-end tests.
    - JSON decoding of admission requests and the registration of the webhooks. *)

From stdpp Require Export prelude strings gmap list pretty sorting.

(** ** Record update

    [r <| f := v |>] is [r] with field [f] replaced; [r <| f ::= g |>] applies
    [g] to the field.  The setter of a projection is found by instance search,
    which rebuilds the record field by field. *)

Class FieldUpdate {R T : Type} (proj : R → T) := field_update : (T → T) → R → R.

Ltac rebuild_record R :=
  let s := constr:(ltac:(
    let r := fresh "r" in
    intro r; unshelve refine (exist _ _ _);
    [ constructor; destruct r | destruct r; exact eq_refl ]) : ∀ r : R, { r' | r' = r }) in
  lazymatch s with (fun x => exist _ (@?body x) _) => body end.

Ltac head_of t := lazymatch t with ?f _ => head_of f | _ => t end.

Ltac derive_field_update R T proj :=
  let h := head_of proj in
  let body := rebuild_record R in
  exact (fun (upd : T → T) (r : R) => ltac:(
    let whole := eval cbv beta in (body r) in
    let field := eval cbv beta delta [h] in (proj r) in
    match whole with
    | context C [ ?x ] =>
      constr_eq x field; let t := context C [ upd x ] in exact t
    end)).

#[global] Hint Extern 1 (@FieldUpdate ?R ?T ?proj) =>
  derive_field_update R T proj : typeclass_instances.
#[global] Arguments field_update {R T} proj {_} upd r : simpl never.

Notation "r <| f ::= g |>" := (field_update f g r)
  (at level 1, f at level 1, left associativity, format "r  <| f  ::=  g |>").
Notation "r <| f := v |>" := (field_update f (λ _, v) r)
  (at level 1, f at level 1, left associativity, format "r  <| f  :=  v |>").

(** ** Results and the state monad

    A Go function returning [(T, error)] is a [result]; a function that talks
    to the API server is a state transformer [M W _] over a world [W]. *)

Inductive result (E A : Type) : Type :=
| Ok (a : A)
| Err (e : E).
Arguments Ok {E A} a.
Arguments Err {E A} e.

(** Without the reductions of [injection]. *)
Lemma Ok_inj {E A} (a b : A) : Ok (E := E) a = Ok b → a = b.
Proof. intros H. exact (f_equal (λ r, match r with Ok x => x | Err _ => a end) H). Qed.

Definition is_ok {E A} (r : result E A) : bool :=
  match r with Ok _ => true | Err _ => false end.

#[global] Instance result_eq_dec `{EqDecision E, EqDecision A} : EqDecision (result E A).
Proof. solve_decision. Defined.

(** [r]'s value, or the error the caller returns at once ([if err != nil]). *)
Definition rbind {E A B} (r : result E A) (k : A → result E B) : result E B :=
  match r with Ok a => k a | Err e => Err e end.

Definition M (W A : Type) : Type := W → A * W.

Definition mretM {W A} (a : A) : M W A := λ w, (a, w).
Definition mbindM {W A B} (m : M W A) (k : A → M W B) : M W B :=
  λ w, let '(a, w') := m w in k a w'.

(** Sequencing with the early return on error. *)
Definition mtry {W E A B} (m : M W (result E A)) (k : A → M W (result E B)) : M W (result E B) :=
  mbindM m (λ r, match r with Ok a => k a | Err e => mretM (Err e) end).

Declare Scope go_scope.
Delimit Scope go_scope with go.
Open Scope go_scope.

Notation "'let*' x := m 'in' k" := (mbindM m (λ x, k))
  (at level 10, x name, m at level 100, k at level 200) : go_scope.
Notation "'let*' ' p := m 'in' k" := (mbindM m (λ a, let p := a in k))
  (at level 10, p strict pattern, m at level 100, k at level 200) : go_scope.
Notation "'let?' x := m 'in' k" := (mtry m (λ x, k))
  (at level 10, x name, m at level 100, k at level 200) : go_scope.
Notation "'let?' ' p := m 'in' k" := (mtry m (λ a, let p := a in k))
  (at level 10, p strict pattern, m at level 100, k at level 200) : go_scope.
Notation "'do?' m 'in' k" := (mtry m (λ _, k))
  (at level 10, m at level 100, k at level 200) : go_scope.
Notation "'ok?' x := r 'in' k" := (rbind r (λ x, k))
  (at level 10, x name, r at level 100, k at level 200) : go_scope.

(** [for _, x := range l { if err := f(x); err != nil { return err } }] *)
Fixpoint for_each {W E A} (l : list A) (f : A → M W (result E ())) : M W (result E ()) :=
  match l with
  | [] => mretM (Ok ())
  | x :: l' => do? f x in for_each l' f
  end.

(** ** Relations kept by a computation

    [keeps R m]: however [m] ends, the world it leaves is [R]-related to the
    world it started from.  For a preorder [R] the rules below follow the
    syntax of the program. *)
Definition keeps {W A} (R : relation W) (m : M W A) : Prop :=
  ∀ w a w', m w = (a, w') → R w w'.

Section keeps.
  Context {W : Type} (R : relation W) `{!PreOrder R}.

Lemma keeps_ret {A} (a : A) : keeps R (mretM a).
Proof. intros w a' w' [= _ <-]. reflexivity. Qed.

Lemma keeps_bind {A B} (m : M W A) (k : A → M W B) :
  keeps R m → (∀ a, keeps R (k a)) → keeps R (mbindM m k).
Proof.
  intros Hm Hk w b w2 Hrun. unfold mbindM in Hrun.
  destruct (m w) as [a w1] eqn:E.
  transitivity w1; [exact (Hm _ _ _ E) | exact (Hk _ _ _ _ Hrun)].
Qed.

Lemma keeps_try {E A B} (m : M W (result E A)) (k : A → M W (result E B)) :
  keeps R m → (∀ a, keeps R (k a)) → keeps R (mtry m k).
Proof.
  intros Hm Hk. apply keeps_bind; [done|].
  intros [a|e]; [apply Hk | apply keeps_ret].
Qed.

Lemma keeps_for_each {E A} (l : list A) (f : A → M W (result E ())) :
  (∀ x, x ∈ l → keeps R (f x)) → keeps R (for_each l f).
Proof.
  induction l as [|x l IH]; intros Hf; simpl; [apply keeps_ret|].
  apply keeps_try; [apply Hf; left|].
  intros _. apply IH. intros y Hy. apply Hf. by right.
Qed.
End keeps.

Lemma keeps_weaken {W A} (R R' : relation W) (m : M W A) :
  (∀ w w', R w w' → R' w w') → keeps R m → keeps R' m.
Proof. intros HR Hm w a w' Hrun. apply HR. exact (Hm _ _ _ Hrun). Qed.

Create HintDb keeps.
#[export] Hint Resolve keeps_ret keeps_bind keeps_try keeps_for_each : keeps.

(** ** Running a computation: inversion of the binds *)

Lemma mbindM_inv {W A B} (m : M W A) (k : A → M W B) w b w' :
  mbindM m k w = (b, w') → ∃ a w1, m w = (a, w1) ∧ k a w1 = (b, w').
Proof. unfold mbindM. destruct (m w) as [a w1]. eauto. Qed.

Lemma mtry_ok_inv {W E A B} (m : M W (result E A)) (k : A → M W (result E B)) w b w' :
  mtry m k w = (Ok b, w') → ∃ a w1, m w = (Ok a, w1) ∧ k a w1 = (Ok b, w').
Proof.
  intros (r & w1 & Hm & Hk)%mbindM_inv.
  destruct r as [a|e]; [eauto | discriminate].
Qed.

Lemma mtry_inv {W E A B} (m : M W (result E A)) (k : A → M W (result E B)) w r w' :
  mtry m k w = (r, w') →
  (∃ a w1, m w = (Ok a, w1) ∧ k a w1 = (r, w')) ∨ (∃ e, m w = (Err e, w') ∧ r = Err e).
Proof.
  intros (q & w1 & Hm & Hk)%mbindM_inv.
  destruct q as [a|e]; [eauto|]. injection Hk as <- <-. eauto.
Qed.

Lemma run_snd {W A} (m : M W A) w a : (m w).1 = a → m w = (a, (m w).2).
Proof. intros <-. apply surjective_pairing. Qed.

Lemma run_snd_snd {W A B} (m : M W (A * B)) w b : (m w).1.2 = b → m w = (((m w).1.1, b), (m w).2).
Proof. intros <-. rewrite <-!surjective_pairing. reflexivity. Qed.

(** The end of a run: [H : mretM a w = (b, w')] gives the equalities, or a contradiction. *)
Ltac ret_inv H :=
  unfold mretM in H; simpl in H; first [ discriminate H | injection H; clear H; intros; subst ].

(** The loop succeeds only through successful runs of every iteration: [P] is
    established for each element as it is visited and kept by the later ones. *)
Lemma for_each_ok {W E A} (P : A → W → Prop) (f : A → M W (result E ())) l w w' :
  (∀ x u u', x ∈ l → f x u = (Ok (), u') → P x u') →
  (∀ x y u r u', y ∈ l → P x u → f y u = (r, u') → P x u') →
  for_each l f w = (Ok (), w') → ∀ x, x ∈ l → P x w'.
Proof.
  revert w. induction l as [|y l IH]; intros w Hest Hkeep Hrun x Hx; simpl in Hrun.
  { by apply elem_of_nil in Hx. }
  apply mtry_ok_inv in Hrun as ([] & w1 & Hy & Hl).
  assert (Hkeeps : keeps (λ u u', P x u → P x u') (for_each l f)).
  { apply keeps_for_each.
    - split; [intros u Hu; exact Hu | intros u1 u2 u3 H12 H23 Hu; auto].
    - intros z Hz u r u' Hf HP. eapply Hkeep; [by right | exact HP | exact Hf]. }
  apply elem_of_cons in Hx as [->|Hx].
  - eapply Hkeeps; [exact Hl|]. eapply Hest; [by left | exact Hy].
  - eapply IH; [| | exact Hl | exact Hx].
    + intros z u u' Hz. apply Hest. by right.
    + intros z z' u r u' Hz. apply Hkeep. by right.
Qed.

(** The same with a precondition for each element, which the other iterations keep. *)
Lemma for_each_run {W E A} (Pre Post : A → W → Prop) (f : A → M W (result E ())) l w w' :
  NoDup l → (∀ x, x ∈ l → Pre x w) →
  (∀ x u u', x ∈ l → Pre x u → f x u = (Ok (), u') → Post x u') →
  (∀ x y u r u', x ≠ y → f y u = (r, u') → (Pre x u → Pre x u') ∧ (Post x u → Post x u')) →
  for_each l f w = (Ok (), w') → ∀ x, x ∈ l → Post x w'.
Proof.
  intros Hnd Hpre Hest Hkeep Hrun. revert w Hpre Hrun.
  induction Hnd as [|y l Hy Hnd IH]; intros w Hpre Hrun x Hx; simpl in Hrun.
  { by apply elem_of_nil in Hx. }
  apply mtry_ok_inv in Hrun as ([] & w1 & Hf & Hl).
  assert (Hpost : Post y w1) by (eapply Hest; [left | apply Hpre; left | exact Hf]).
  apply elem_of_cons in Hx as [->|Hx].
  - assert (Hkeeps : keeps (λ u u', Post y u → Post y u') (for_each l f)).
    { apply keeps_for_each.
      - split; [intros u Hu; exact Hu | intros u1 u2 u3 H12 H23 Hu; auto].
      - intros z Hz u r u' Hfz. eapply (Hkeep y z); [by intros -> | exact Hfz]. }
    by eapply Hkeeps.
  - eapply IH; [| | exact Hl | exact Hx].
    + intros z u u' Hz. apply Hest. by right.
    + intros z Hz. eapply (Hkeep z y); [by intros -> | exact Hf | apply Hpre; by right].
Qed.

(** A loop that may visit an element twice: a successful iteration keeps the
    preconditions and establishes the element's postcondition. *)
Lemma for_each_all {W E A} (Pre Post : A → W → Prop) (f : A → M W (result E ())) l w w' :
  (∀ x, x ∈ l → Pre x w) →
  (∀ y u u', y ∈ l → Pre y u → f y u = (Ok (), u') →
     Post y u' ∧ ∀ x, (Pre x u → Pre x u') ∧ (Post x u → Post x u')) →
  for_each l f w = (Ok (), w') → ∀ x, x ∈ l → Post x w'.
Proof.
  intros Hpre Hstep Hrun.
  assert (Hall : (∀ x, x ∈ l → Post x w') ∧ ∀ x, Post x w → Post x w'); [|by apply Hall].
  revert w Hpre Hstep Hrun. induction l as [|y l IH]; intros w Hpre Hstep Hrun; simpl in Hrun.
  { injection Hrun as ->. split; [|done]. intros x Hx. by apply elem_of_nil in Hx. }
  apply mtry_ok_inv in Hrun as ([] & w1 & Hf & Hl).
  destruct (Hstep y w w1) as [Hy Hkeep]; [left | apply Hpre; left | exact Hf |].
  destruct (IH w1) as [IH1 IH2]; [| |exact Hl|].
  - intros x Hx. apply Hkeep, Hpre. by right.
  - intros z u u' Hz. apply Hstep. by right.
  - split.
    + intros x [->|Hx]%elem_of_cons; [by apply IH2 | by apply IH1].
    + intros x Hx. by apply IH2, Hkeep.
Qed.

(** A list is recovered from what surrounds its first separator. *)
Lemma app_sep_inj {A} (x : A) (l1 l2 k1 k2 : list A) :
  x ∉ l1 → x ∉ k1 → l1 ++ x :: l2 = k1 ++ x :: k2 → l1 = k1 ∧ l2 = k2.
Proof.
  revert k1. induction l1 as [|a l1 IH]; intros [|b k1] Hl Hk E; simplify_eq/=; [done|..].
  - by destruct Hk; left.
  - by destruct Hl; left.
  - rewrite not_elem_of_cons in Hl, Hk.
    destruct (IH k1) as [-> ->]; [tauto..|done|done].
Qed.

(** An association list without repeated keys is a function. *)
Lemma NoDup_fst_functional {A B} (l : list (A * B)) x y z :
  NoDup (map fst l) → (x, y) ∈ l → (x, z) ∈ l → y = z.
Proof.
  intros Hnd (i & Hi)%list_elem_of_lookup (j & Hj)%list_elem_of_lookup.
  assert (i = j) as ->; [|congruence].
  eapply (NoDup_lookup (fst <$> l)); [exact Hnd| |]; by rewrite list_lookup_fmap, ?Hi, ?Hj.
Qed.

(** ** Options standing for Go pointers and nil maps *)

(** The target of a pointer, with the value Go uses when it is nil. *)
Definition deref {A} (dflt : A) (p : option A) : A := default dflt p.

(** When [p] is not nil, a pointer to [f] of its target. *)
Notation "f <?> p" := (option_map f p) (at level 61, left associativity).

(** A Go [map[string]V], where [None] is the nil map. *)
Abbreviation gomap V := (option (gmap string V)).

(** [m[k]] with the comma-ok form: reading a nil map finds nothing. *)
Definition gm_lookup {V} (m : gomap V) (k : string) : option V :=
  m ≫= λ g, g !! k.

(** [make(map)] when nil. *)
Definition gm_make {V} (m : gomap V) : gmap string V := default ∅ m.

(** A map literal: later entries win. *)
Definition gm_of_list {V} (l : list (string * V)) : gmap string V :=
  foldl (λ g kv, <[kv.1 := kv.2]> g) ∅ l.
