(* ===== verification/GoStd.v ===== *)
(** * The parts of Go and its standard library the operator uses

    Error values, fixed-width integers, [strconv], [strings], [path], [slices],
    [net/url] and the regular expressions of the program.  Strings are byte strings. *)

From S2P Require Export Prelude.
From Stdlib Require Import Ascii ZArith.
Open Scope Z_scope.

(** ** Errors

    [errors.New] in a package-level [var] makes a value compared by identity:
    it is named by the variable.  [Errorf] keeps the format and arguments (the
    text is not rendered), [Wrapf] is [fmt.Errorf] with [%w].  [StatusError] is an
    error of the API machinery, [NumError] an error of [strconv], [Panic] a run-time
    panic (which the manager recovers and reports as an error). *)
Inductive error : Type :=
| Sentinel (var : string) (text : string)
| Errorf (format : string) (args : list string)
| Wrapf (format : string) (cause : error)
| NumError (func : string) (num : string) (out_of_range : bool)
| StatusError (reason : string) (message : string)
| Panic (what : string).

#[global] Instance error_eq_dec : EqDecision error.
Proof. solve_decision. Defined.

Abbreviation res A := (result error A).
(** A function with the single result [error]; [Ok ()] is nil. *)
Abbreviation E W A := (M W (res A)).

(** ** Fixed-width integers *)

(** Conversion to a signed [w]-bit integer: the low [w] bits, in two's complement. *)
Definition wrap_signed (w : Z) (z : Z) : Z :=
  let m := z mod 2 ^ w in if m <? 2 ^ (w - 1) then m else m - 2 ^ w.
Definition to_int32 (z : Z) : Z := wrap_signed 32 z.
Definition to_int64 (z : Z) : Z := wrap_signed 64 z.

Lemma wrap_signed_range w z : 0 < w → - 2 ^ (w - 1) ≤ wrap_signed w z < 2 ^ (w - 1).
Proof.
  intros Hw. unfold wrap_signed.
  assert (H2 : 2 ^ w = 2 * 2 ^ (w - 1)) by (rewrite <-Z.pow_succ_r by lia; f_equal; lia).
  assert (0 < 2 ^ (w - 1)) by (apply Z.pow_pos_nonneg; lia).
  pose proof (Z.mod_pos_bound z (2 ^ w)).
  destruct (Z.ltb_spec (z mod 2 ^ w) (2 ^ (w - 1))); lia.
Qed.

Lemma wrap_signed_id w z : 0 < w → - 2 ^ (w - 1) ≤ z < 2 ^ (w - 1) → wrap_signed w z = z.
Proof.
  intros Hw Hz. unfold wrap_signed.
  assert (H2 : 2 ^ w = 2 * 2 ^ (w - 1)) by (rewrite <-Z.pow_succ_r by lia; f_equal; lia).
  destruct (decide (0 ≤ z)).
  - rewrite Z.mod_small by lia. destruct (Z.ltb_spec z (2 ^ (w - 1))); lia.
  - assert (Hm : z mod 2 ^ w = z + 2 ^ w).
    { symmetry. apply (Z.mod_unique _ _ (-1)); lia. }
    rewrite Hm. destruct (Z.ltb_spec (z + 2 ^ w) (2 ^ (w - 1))); lia.
Qed.

Lemma to_int32_id z : - 2147483648 ≤ z ≤ 2147483647 → to_int32 z = z.
Proof. intros Hz. apply wrap_signed_id; simpl; lia. Qed.

Lemma to_int32_range z : - 2147483648 ≤ to_int32 z ≤ 2147483647.
Proof. pose proof (wrap_signed_range 32 z). unfold to_int32. simpl in *. lia. Qed.

(** ** Bytes of a string *)

Definition bytes (s : string) : list ascii := String.list_ascii_of_string s.
Definition of_bytes (l : list ascii) : string := String.string_of_list_ascii l.
Definition byte_val (c : ascii) : Z := Z.of_N (N_of_ascii c).
Definition byte_of (z : Z) : ascii := ascii_of_N (Z.to_N (z mod 256)).

Lemma of_bytes_bytes s : of_bytes (bytes s) = s.
Proof. apply String.string_of_list_ascii_of_string. Qed.
Lemma bytes_of_bytes l : bytes (of_bytes l) = l.
Proof. apply String.list_ascii_of_string_of_list_ascii. Qed.

Lemma bytes_app s t : bytes (s +:+ t) = bytes s ++ bytes t.
Proof.
  induction s as [|c s IH]; [done|].
  change (c :: bytes (s +:+ t) = c :: (bytes s ++ bytes t)). by rewrite IH.
Qed.
Lemma of_bytes_app l k : of_bytes (l ++ k) = of_bytes l +:+ of_bytes k.
Proof. induction l as [|c l IH]; simpl; [done|]. by rewrite IH. Qed.

Lemma bytes_inj s t : bytes s = bytes t → s = t.
Proof. intros H. by rewrite <-(of_bytes_bytes s), <-(of_bytes_bytes t), H. Qed.

Lemma append_assoc (s t u : string) : (s +:+ t) +:+ u = s +:+ (t +:+ u).
Proof. apply bytes_inj. by rewrite !bytes_app, (assoc (++)). Qed.

Lemma append_nil_r (s : string) : s +:+ "" = s.
Proof. apply bytes_inj. rewrite bytes_app. apply app_nil_r. Qed.

(** [len(s)] in bytes. *)
Definition len (s : string) : Z := Z.of_nat (String.length s).

Lemma length_bytes s : length (bytes s) = String.length s.
Proof. induction s; simpl; congruence. Qed.

Lemma len_app s t : len (s +:+ t) = len s + len t.
Proof. unfold len. rewrite <-!length_bytes, bytes_app, length_app. lia. Qed.

Definition is_digit (c : ascii) : bool := (48 <=? byte_val c) && (byte_val c <=? 57).
Definition digit_val (c : ascii) : Z := byte_val c - 48.

(** The double-quote character (kept out of string literals). *)
Definition dquote : string := String (byte_of 34) EmptyString.
(** The verb [%s] between quotation marks. *)
Definition quoted : string := dquote +:+ "%s" +:+ dquote.
(** [err.Error()] of the parsers' errors; of the others, the unrendered format. *)
Definition err_Error (e : error) : string :=
  match e with
  | NumError func num out_of_range =>
      "strconv." +:+ func +:+ ": parsing " +:+ dquote +:+ num +:+ dquote +:+ ": " +:+
      (if out_of_range then "value out of range" else "invalid syntax")
  | Sentinel _ text => text | Errorf format _ => format | Wrapf format _ => format
  | StatusError _ message => message | Panic what => what
  end.
Definition newline : string := String (byte_of 10) EmptyString.

(** ** strconv *)
Module strconv.

(** [strconv.Itoa]: decimal, with a minus sign when negative. *)
Definition Itoa (z : Z) : string := pretty z.

Definition FormatBool (b : bool) : string := if b then "true" else "false".

Definition ParseBool (s : string) : res bool :=
  if bool_decide (s ∈ ["1"; "t"; "T"; "TRUE"; "true"; "True"]) then Ok true
  else if bool_decide (s ∈ ["0"; "f"; "F"; "FALSE"; "false"; "False"]) then Ok false
  else Err (NumError "ParseBool" s false).

(** The digit loop of [ParseUint] in base 10: a character that is not a digit is
    a syntax error, and exceeding [max] a range error, at the first digit that
    shows it. *)
Fixpoint digits_loop (max n : Z) (cs : list ascii) : result bool Z :=
  match cs with
  | [] => Ok n
  | c :: cs' =>
      if is_digit c then
        let n1 := n * 10 + digit_val c in
        if max <? n1 then Err true else digits_loop max n1 cs'
      else Err false
  end.

Definition ParseUint10 (bitSize : Z) (cs : list ascii) : result bool Z :=
  match cs with [] => Err false | _ => digits_loop (2 ^ bitSize - 1) 0 cs end.

(** [strconv.ParseInt(s, 10, bitSize)] *)
Definition ParseInt10 (bitSize : Z) (s : string) : res Z :=
  let fail r := Err (NumError "ParseInt" s r) in
  let parse (neg : bool) cs :=
    match ParseUint10 bitSize cs with
    | Err r => fail r
    | Ok un =>
        let cutoff := 2 ^ (bitSize - 1) in
        if negb neg && (cutoff <=? un) then fail true
        else if neg && (cutoff <? un) then fail true
        else Ok (if neg then - un else un)
    end in
  match bytes s with
  | [] => fail false
  | c :: cs =>
      if Ascii.eqb c "+" then parse false cs
      else if Ascii.eqb c "-" then parse true cs
      else parse false (c :: cs)
  end.

Lemma digits_loop_range max n cs z :
  0 ≤ n ≤ max → digits_loop max n cs = Ok z → n ≤ z ≤ max.
Proof.
  revert n. induction cs as [|c cs IH]; intros n Hn Hd; simpl in Hd.
  { injection Hd as <-. lia. }
  destruct (is_digit c) eqn:Hc; [|done].
  destruct (Z.ltb_spec max (n * 10 + digit_val c)); [done|].
  apply andb_prop in Hc as [Hc1 Hc2].
  apply Z.leb_le in Hc1. apply Z.leb_le in Hc2. unfold digit_val in *.
  apply IH in Hd; lia.
Qed.

Lemma ParseUint10_range bits cs z :
  0 ≤ bits → ParseUint10 bits cs = Ok z → 0 ≤ z < 2 ^ bits.
Proof.
  intros Hb. unfold ParseUint10. destruct cs as [|c cs]; [done|].
  assert (0 < 2 ^ bits) by (apply Z.pow_pos_nonneg; lia).
  intros H'. apply digits_loop_range in H'; lia.
Qed.

(** What is parsed fits the requested width. *)
Lemma ParseInt10_range bits s z :
  0 < bits → ParseInt10 bits s = Ok z → - 2 ^ (bits - 1) ≤ z < 2 ^ (bits - 1).
Proof.
  intros Hb. unfold ParseInt10.
  assert (0 < 2 ^ (bits - 1)) by (apply Z.pow_pos_nonneg; lia).
  assert (Hp : ∀ (neg : bool) cs,
    match ParseUint10 bits cs with
    | Err r => Err (NumError "ParseInt" s r)
    | Ok un => if negb neg && (2 ^ (bits - 1) <=? un) then Err (NumError "ParseInt" s true)
      else if neg && (2 ^ (bits - 1) <? un) then Err (NumError "ParseInt" s true)
      else Ok (if neg then - un else un) end = Ok z →
    - 2 ^ (bits - 1) ≤ z < 2 ^ (bits - 1)).
  { intros neg cs. destruct (ParseUint10 bits cs) as [un|] eqn:Hu; [|done].
    apply ParseUint10_range in Hu; [|lia].
    destruct neg; simpl.
    - destruct (Z.ltb_spec (2 ^ (bits - 1)) un); [done|]. intros [= <-]. lia.
    - destruct (Z.leb_spec (2 ^ (bits - 1)) un); [done|]. intros [= <-]. lia. }
  destruct (bytes s) as [|c cs]; [done|].
  destruct (Ascii.eqb c "+"); [apply (Hp false)|].
  destruct (Ascii.eqb c "-"); [apply (Hp true) | apply (Hp false)].
Qed.

End strconv.

(** ** strings *)
Module strings.

(** ASCII lower-casing; bytes outside [A-Z] are kept (the program only lower-cases
    ASCII constants and compares the result with an ASCII constant none of whose
    letters is the lower case of a non-ASCII letter). *)
Definition lower_byte (c : ascii) : ascii :=
  if (65 <=? byte_val c) && (byte_val c <=? 90) then byte_of (byte_val c + 32) else c.
Definition ToLower (s : string) : string := of_bytes (map lower_byte (bytes s)).

Fixpoint Join (l : list string) (sep : string) : string :=
  match l with
  | [] => ""
  | [x] => x
  | x :: l' => x +:+ sep +:+ Join l' sep
  end.

(** [strings.Split] for a separator of one byte: always at least one piece. *)
Fixpoint split_bytes (sep : ascii) (cs : list ascii) : list (list ascii) :=
  match cs with
  | [] => [[]]
  | c :: cs' =>
      if Ascii.eqb c sep then [] :: split_bytes sep cs'
      else match split_bytes sep cs' with
           | [] => [[c]]
           | p :: ps => (c :: p) :: ps
           end
  end.
Definition Split (s : string) (sep : ascii) : list string :=
  map of_bytes (split_bytes sep (bytes s)).

Definition HasPrefix (s prefix : string) : bool :=
  bool_decide (take (length (bytes prefix)) (bytes s) = bytes prefix).
Definition HasSuffix (s suffix : string) : bool :=
  let n := (length (bytes s) - length (bytes suffix))%nat in
  bool_decide (drop n (bytes s) = bytes suffix).

(** [strings.ReplaceAll] of one byte by one byte. *)
Definition ReplaceAllByte (s : string) (old new : ascii) : string :=
  of_bytes (map (λ c, if Ascii.eqb c old then new else c) (bytes s)).

Fixpoint trim_left (cut : list ascii) (cs : list ascii) : list ascii :=
  match cs with
  | c :: cs' => if bool_decide (c ∈ cut) then trim_left cut cs' else cs
  | [] => []
  end.
(** [strings.Trim(s, cutset)] *)
Definition Trim (s : string) (cutset : string) : string :=
  of_bytes (reverse (trim_left (bytes cutset) (reverse (trim_left (bytes cutset) (bytes s))))).

Lemma split_bytes_nonempty sep cs : split_bytes sep cs ≠ [].
Proof.
  induction cs as [|c cs IH]; simpl; [done|].
  destruct (Ascii.eqb c sep); [done|]. by destruct (split_bytes sep cs).
Qed.

Lemma split_bytes_no_sep sep cs p : p ∈ split_bytes sep cs → sep ∉ p.
Proof.
  revert p. induction cs as [|c cs IH]; intros p; simpl.
  { intros ->%list_elem_of_singleton. apply not_elem_of_nil. }
  destruct (Ascii.eqb_spec c sep) as [->|Hne].
  - intros [->|Hp]%elem_of_cons; [apply not_elem_of_nil | auto].
  - pose proof (split_bytes_nonempty sep cs).
    destruct (split_bytes sep cs) as [|q ps]; [done|].
    intros [->|Hp]%elem_of_cons.
    + apply not_elem_of_cons. split; [done|]. apply IH. left.
    + apply IH. by right.
Qed.

End strings.

(** ** path: slash-separated paths *)
Module path.

Definition slash : ascii := "/".

(** One path element against the stack of elements kept so far (innermost first). *)
Definition clean_step (rooted : bool) (st : list (list ascii)) (seg : list ascii) : list (list ascii) :=
  if bool_decide (seg = []) || bool_decide (seg = bytes ".") then st
  else if bool_decide (seg = bytes "..") then
    match st with
    | top :: st' => if bool_decide (top = bytes "..") then seg :: st else st'
    | [] => if rooted then [] else [seg]
    end
  else seg :: st.

Fixpoint join_bytes (l : list (list ascii)) : list ascii :=
  match l with
  | [] => []
  | [x] => x
  | x :: l' => x ++ slash :: join_bytes l'
  end.

Definition is_rooted (cs : list ascii) : bool :=
  match cs with c :: _ => Ascii.eqb c slash | [] => false end.

(** The elements [path.Clean] keeps: no empty or dot element, and a dot-dot only at
    the front of a relative path. *)
Definition clean_segs (cs : list ascii) : list (list ascii) :=
  reverse (foldl (clean_step (is_rooted cs)) [] (strings.split_bytes slash cs)).

Definition clean_bytes (cs : list ascii) : list ascii :=
  let body := join_bytes (clean_segs cs) in
  if is_rooted cs then slash :: body
  else match body with [] => bytes "." | _ => body end.

Definition Clean (s : string) : string := of_bytes (clean_bytes (bytes s)).

(** [path.Join] *)
Definition Join (elems : list string) : string :=
  if forallb (λ e, bool_decide (e = "")) elems then ""
  else
    let step (buf : list ascii) (e : string) :=
      match buf with
      | [] => bytes e
      | _ => buf ++ slash :: bytes e
      end in
    of_bytes (clean_bytes (foldl step [] elems)).

End path.

Example path_join_1 :
  path.Join ["/var/run/secrets/operator.cryostat.io"; "cryostat-tls"; "tls.crt"]
  = "/var/run/secrets/operator.cryostat.io/cryostat-tls/tls.crt".
Proof. reflexivity. Qed.
Example path_clean_1 : map path.Clean ["a//b/../c/."; "/../a"; "../x/.."; ""; "/"; "a/.."]
  = ["a/c"; "/a"; ".."; "."; "/"; "."].
Proof. reflexivity. Qed.

(** ** slices *)
Module slices.

Definition Contains (l : list string) (x : string) : bool := bool_decide (x ∈ l).

(** [slices.Sort] on strings: ascending byte order. *)
Definition Sort (l : list string) : list string := merge_sort String.le l.

(** [slices.Compact]: runs of equal elements become one. *)
Fixpoint Compact (l : list string) : list string :=
  match l with
  | [] => []
  | x :: l' =>
      match l' with
      | y :: _ => if bool_decide (x = y) then Compact l' else x :: Compact l'
      | [] => [x]
      end
  end.

(** [slices.Index]: -1 when absent. *)
Fixpoint index_from (i : Z) (l : list string) (x : string) : Z :=
  match l with
  | [] => -1
  | y :: l' => if bool_decide (y = x) then i else index_from (i + 1) l' x
  end.
Definition Index (l : list string) (x : string) : Z := index_from 0 l x.

(** [slices.Delete(s, i, i+1)] for an index in range. *)
Definition DeleteAt {A} (l : list A) (i : nat) : list A := take i l ++ drop (S i) l.

Lemma elem_of_Sort x l : x ∈ Sort l ↔ x ∈ l.
Proof. unfold Sort. by rewrite merge_sort_Permutation. Qed.

Lemma elem_of_Compact x l : x ∈ Compact l ↔ x ∈ l.
Proof.
  induction l as [|y l IH]; [done|].
  destruct l as [|z l]; [done|].
  change (Compact (y :: z :: l)) with
    (if bool_decide (y = z) then Compact (z :: l) else y :: Compact (z :: l)).
  case_bool_decide as Heq.
  - subst y. rewrite IH. rewrite !elem_of_cons. tauto.
  - by rewrite (elem_of_cons (Compact _)), (elem_of_cons (z :: l)), IH.
Qed.

Lemma Sorted_Sort l : StronglySorted String.le (Sort l).
Proof. apply StronglySorted_merge_sort; apply _. Qed.

(** A sorted list, compacted, has no duplicates. *)
Lemma NoDup_Compact l : StronglySorted String.le l → NoDup (Compact l).
Proof.
  induction 1 as [|x l Hl IH Hx]; [constructor|].
  destruct l as [|y l]; [apply NoDup_singleton|].
  change (Compact (x :: y :: l)) with
    (if bool_decide (x = y) then Compact (y :: l) else x :: Compact (y :: l)).
  case_bool_decide as Heq; [done|].
  constructor; [|done]. rewrite elem_of_Compact. intros Hin.
  apply StronglySorted_inv in Hl as [_ Hy].
  apply elem_of_cons in Hin as [->|Hin]; [done|].
  rewrite Forall_forall in Hx, Hy.
  apply Heq. apply (anti_symm String.le); [apply Hx; left | by apply Hy].
Qed.

(** A sorted list stays sorted when it is compacted. *)
Lemma Sorted_Compact l : StronglySorted String.le l → StronglySorted String.le (Compact l).
Proof.
  induction 1 as [|x l Hl IH Hx]; [constructor|]. destruct l as [|y l]; [by repeat constructor|].
  change (Compact (x :: y :: l)) with
    (if bool_decide (x = y) then Compact (y :: l) else x :: Compact (y :: l)).
  case_bool_decide; [done|]. constructor; [done|]. rewrite Forall_forall in Hx. apply Forall_forall.
  intros z. rewrite elem_of_Compact. apply Hx.
Qed.

(** The index of the first occurrence splits the list. *)
Lemma Index_split l x :
  (Index l x <? 0) = false →
  ∃ before after, l = before ++ x :: after ∧ x ∉ before ∧
    DeleteAt l (Z.to_nat (Index l x)) = before ++ after.
Proof.
  assert (Hfrom : ∀ i, 0 ≤ i → (index_from i l x <? 0) = false →
    ∃ before after, l = before ++ x :: after ∧ x ∉ before ∧
      Z.to_nat (index_from i l x) = (Z.to_nat i + length before)%nat).
  { induction l as [|y l IH]; intros i Hi; simpl; [done|]. case_bool_decide as Hy.
    - intros _. exists [], l. subst y. simpl. split_and!; [done|apply not_elem_of_nil|lia].
    - intros Hl. destruct (IH (i + 1)) as (b & a & -> & Hb & Hn); [lia|done|].
      exists (y :: b), a. split_and!; [done| |simpl; lia]. by apply not_elem_of_cons. }
  intros Hl. destruct (Hfrom 0) as (b & a & -> & Hb & Hn); [lia|exact Hl|].
  exists b, a. split_and!; [done..|]. unfold DeleteAt, Index. rewrite Hn. simpl.
  rewrite take_app_length. f_equal.
  replace (b ++ x :: a) with ((b ++ [x]) ++ a) by by rewrite <-(assoc app).
  replace (S (length b)) with (length (b ++ [x])) by (rewrite length_app; simpl; lia).
  apply drop_app_length.
Qed.
Lemma Index_absent l x : (Index l x <? 0) = true → x ∉ l.
Proof.
  assert (Hfrom : ∀ i, 0 ≤ i → (index_from i l x <? 0) = true → x ∉ l).
  { induction l as [|y l IH]; intros i Hi; simpl; [intros _; apply not_elem_of_nil|].
    case_bool_decide as Hy; [intros Hlt; apply Z.ltb_lt in Hlt; lia|].
    intros Hl. apply not_elem_of_cons. split; [congruence|]. apply (IH (i + 1)); [lia|done]. }
  by apply Hfrom.
Qed.

End slices.

(** ** maps: filled entry by entry *)
Lemma foldl_insert {V} (l : list (string * V)) (m : gmap string V) : NoDup (l.*1) → (∀ k, k ∈ l.*1 → m !! k = None) →
  foldl (λ result kv, <[kv.1 := kv.2]> result) m l = list_to_map l ∪ m.
Proof.
  revert m. induction l as [|[k v] l IH]; intros m Hnd Hm; simpl; [by rewrite (left_id_L ∅ (∪))|].
  apply NoDup_cons in Hnd as [Hk Hnd]. rewrite IH; [|done|].
  - rewrite <-insert_union_r, insert_union_l; [done|]. by apply not_elem_of_list_to_map.
  - intros k' Hk'. rewrite lookup_insert_ne by (intros ->; done). apply Hm. by right.
Qed.
Lemma foldl_map_to_list {V} (m : gmap string V) :
  foldl (λ result kv, <[kv.1 := kv.2]> result) ∅ (map_to_list m) = m.
Proof.
  rewrite foldl_insert by (apply NoDup_fst_map_to_list || (intros; apply lookup_empty)).
  by rewrite (right_id_L ∅ (∪)), list_to_map_to_list.
Qed.

(** ** Regular expressions of the program *)
Module regexp.

(** A match of [^\d+]: the longest run of digits at the start. *)
Fixpoint leading_digits (cs : list ascii) : list ascii :=
  match cs with
  | c :: cs' => if is_digit c then c :: leading_digits cs' else []
  | [] => []
  end.

(** [regexp.QuoteMeta]: a backslash before every metacharacter. *)
Definition metachars : list ascii := bytes "\.+*?()|[]{}^$".
Definition QuoteMeta (s : string) : string :=
  of_bytes (concat (map (λ c, if bool_decide (c ∈ metachars) then ["\"%char; c] else [c]) (bytes s))).

End regexp.
