(* ===== verification/TextLemmas.v ===== *)
(** * Texts

    Facts about the string functions of GoStd.v that several components use: what was
    joined splits back, the characters of a number, the trimming of brackets, and the lines
    of a text that is put together from pieces. *)

From S2P Require Export GoStd.
From Stdlib Require Import Ascii.
Open Scope Z_scope.

(** *** Splitting what was joined *)
Lemma split_bytes_piece sep p rest : sep ∉ p →
  strings.split_bytes sep (p ++ sep :: rest) = p :: strings.split_bytes sep rest.
Proof.
  induction p as [|c p IH]; intros Hp; simpl; [by rewrite Ascii.eqb_refl|].
  apply not_elem_of_cons in Hp as [Hc Hp]. destruct (Ascii.eqb_spec c sep); [congruence|].
  by rewrite IH.
Qed.
Lemma split_bytes_last sep p : sep ∉ p → strings.split_bytes sep p = [p].
Proof.
  induction p as [|c p IH]; intros Hp; simpl; [done|].
  apply not_elem_of_cons in Hp as [Hc Hp]. destruct (Ascii.eqb_spec c sep); [congruence|]. by rewrite IH.
Qed.
Lemma Split_Join l sep : l ≠ [] → Forall (λ x, sep ∉ bytes x) l →
  strings.Split (strings.Join l (String sep "")) sep = l.
Proof.
  intros Hne Hl. unfold strings.Split.
  assert (E : strings.split_bytes sep (bytes (strings.Join l (String sep ""))) = map bytes l).
  { induction Hl as [|x l Hx Hl IH]; [done|]. destruct l as [|y l]; [by apply split_bytes_last|].
    change (strings.Join (x :: y :: l) (String sep "")) with (x +:+ String sep "" +:+ strings.Join (y :: l) (String sep "")).
    rewrite !bytes_app. change (bytes (String sep "")) with [sep]. simpl app. rewrite split_bytes_piece by done.
    simpl map. f_equal. by apply IH. }
  rewrite E, map_map. rewrite <-(map_id l) at 2. apply map_ext. intros x. apply of_bytes_bytes.
Qed.

(** *** The digits of a number *)
Definition number_char (c : ascii) : bool := is_digit c || Ascii.eqb c "-".
Lemma pretty_N_go_chars x s : Forall (λ c, number_char c = true) (bytes s) →
  Forall (λ c, number_char c = true) (bytes (pretty_N_go x s)).
Proof.
  revert s. induction (N.lt_wf_0 x) as [x _ IH]; intros s Hs.
  destruct (decide (x = 0)%N) as [->|Hx]; [done|]. rewrite pretty_N_go_step by lia.
  apply IH; [by apply N.div_lt; lia|]. apply Forall_cons. split; [|done].
  assert (Hm : (x `mod` 10 < 10)%N) by by apply N.mod_lt. revert Hm. generalize (x `mod` 10)%N. intros m Hm.
  destruct m as [|p]; [done|]. do 4 (destruct p as [p|p|]; try done; try lia).
Qed.
Lemma Itoa_chars z : Forall (λ c, number_char c = true) (bytes (strconv.Itoa z)).
Proof.
  assert (HN : ∀ n : N, Forall (λ c, number_char c = true) (bytes (pretty n))).
  { intros n. unfold pretty, pretty_N. destruct (decide _); [by constructor|]. apply pretty_N_go_chars. constructor. }
  unfold strconv.Itoa. destruct z as [|p|p]; [by constructor|apply (HN (Npos p))|].
  change (pretty (Zneg p)) with ("-" +:+ pretty (Npos p)). rewrite bytes_app. apply Forall_app. split; [by constructor|apply HN].
Qed.
Lemma pretty_N_go_nonempty x s : s ≠ "" → pretty_N_go x s ≠ "".
Proof.
  revert s. induction (N.lt_wf_0 x) as [x _ IH]; intros s Hs.
  destruct (decide (x = 0)%N) as [->|Hx]; [done|]. rewrite pretty_N_go_step by lia.
  apply IH; [by apply N.div_lt; lia|done].
Qed.
Lemma Itoa_nonempty z : strconv.Itoa z ≠ "".
Proof.
  unfold strconv.Itoa. destruct z as [|p|p]; [done| |done].
  change (pretty (Zpos p)) with (pretty (Npos p)). unfold pretty, pretty_N. destruct (decide _); [done|].
  rewrite pretty_N_go_step by done. by apply pretty_N_go_nonempty.
Qed.
Lemma trim_left_id cut cs : Forall (λ c, c ∉ cut) cs → strings.trim_left cut cs = cs.
Proof. intros [|c cs' Hc _]; [done|]. simpl. by rewrite bool_decide_false. Qed.
Lemma Trim_brackets cut a b cs : a ∈ bytes cut → b ∈ bytes cut → Forall (λ c, c ∉ bytes cut) cs →
  strings.Trim (of_bytes (a :: cs ++ [b])) cut = of_bytes cs.
Proof.
  intros Ha Hb Hcs. unfold strings.Trim. rewrite bytes_of_bytes. simpl. rewrite bool_decide_true by done.
  assert (E : strings.trim_left (bytes cut) (cs ++ [b]) = match cs with [] => [] | _ => cs ++ [b] end).
  { destruct Hcs as [|c cs Hc Hcs]; simpl; [by rewrite bool_decide_true|by rewrite bool_decide_false]. }
  rewrite E. destruct cs as [|c cs]; [done|]. rewrite reverse_app. simpl. rewrite bool_decide_true by done.
  rewrite trim_left_id by (apply Forall_reverse; done). by rewrite reverse_involutive.
Qed.
Lemma replace_Join l old new : Forall (λ x, old ∉ bytes x) l →
  map (λ c, if Ascii.eqb c old then new else c) (bytes (strings.Join l (String old ""))) =
  bytes (strings.Join l (String new "")).
Proof.
  assert (Hx : ∀ cs, old ∉ cs → map (λ c, if Ascii.eqb c old then new else c) cs = cs).
  { intros cs Hcs. rewrite <-(map_id cs) at 2. apply map_ext_in. intros c Hc%list_elem_of_In.
    destruct (Ascii.eqb_spec c old); [congruence|done]. }
  intros Hl. induction Hl as [|x l Hl Hls IH]; [done|]. destruct l as [|y l]; [by apply Hx|].
  change (strings.Join (x :: y :: l) (String old "")) with (x +:+ String old "" +:+ strings.Join (y :: l) (String old "")).
  change (strings.Join (x :: y :: l) (String new "")) with (x +:+ String new "" +:+ strings.Join (y :: l) (String new "")).
  rewrite !bytes_app, !map_app, IH, Hx by done. simpl. by rewrite Ascii.eqb_refl.
Qed.
Lemma Forall_Join (P : ascii → Prop) l sep : P sep → Forall (λ x, Forall P (bytes x)) l →
  Forall P (bytes (strings.Join l (String sep ""))).
Proof.
  intros Hs Hl. induction Hl as [|x l Hx Hl IH]; [constructor|]. destruct l as [|y l]; [done|].
  change (strings.Join (x :: y :: l) (String sep "")) with (x +:+ String sep "" +:+ strings.Join (y :: l) (String sep "")).
  rewrite !bytes_app. repeat (apply Forall_app; split); [done|by constructor|done].
Qed.
Lemma number_not c z : number_char c = false → c ∉ bytes (strconv.Itoa z).
Proof. intros Hc Hin. pose proof (Itoa_chars z) as H. rewrite Forall_forall in H. apply H in Hin. congruence. Qed.

(** *** Reading a number back *)

(** The value of a run of digits after [acc]. *)
Definition digits_value (acc : Z) (cs : list ascii) : Z := foldl (λ a c, a * 10 + digit_val c) acc cs.
Lemma digits_value_grows cs acc : Forall (λ c, is_digit c = true) cs → 0 ≤ acc → acc ≤ digits_value acc cs.
Proof.
  intros Hcs. revert acc. induction Hcs as [|c cs Hc _ IH]; intros acc Ha; simpl; [lia|].
  apply andb_prop in Hc as [Hc%Z.leb_le _]. unfold digit_val in *. specialize (IH (acc * 10 + (byte_val c - 48))). lia.
Qed.
Lemma digit_of_N (m : N) : (m < 10)%N →
  is_digit (pretty_N_char m) = true ∧ digit_val (pretty_N_char m) = Z.of_N m.
Proof. intros Hm. destruct m as [|p]; [done|]. do 4 (destruct p as [p|p|]; try done; try lia). Qed.
Lemma pretty_N_go_digits x s : Forall (λ c, is_digit c = true) (bytes s) →
  Forall (λ c, is_digit c = true) (bytes (pretty_N_go x s)) ∧
  digits_value 0 (bytes (pretty_N_go x s)) = digits_value (Z.of_N x) (bytes s).
Proof.
  revert s. induction (N.lt_wf_0 x) as [x _ IH]; intros s Hs.
  destruct (decide (x = 0)%N) as [->|Hx]; [done|]. rewrite pretty_N_go_step by lia.
  assert (Hm : (x `mod` 10 < 10)%N) by by apply N.mod_lt. apply digit_of_N in Hm as [Hd Hv].
  destruct (IH (x / 10)%N) with (s := String (pretty_N_char (x `mod` 10)) s) as [H1 H2].
  { by apply N.div_lt; lia. }
  { by apply Forall_cons. }
  split; [done|]. rewrite H2. simpl. rewrite Hv. f_equal. rewrite (N.div_mod x 10) at 3 by done. lia.
Qed.
(** The digits of a positive number. *)
Lemma Itoa_pos p : ∃ c cs, bytes (strconv.Itoa (Zpos p)) = c :: cs ∧ Forall (λ c, is_digit c = true) (c :: cs) ∧
  digits_value 0 (c :: cs) = Zpos p.
Proof.
  change (strconv.Itoa (Zpos p)) with (pretty_N_go (Npos p) "").
  destruct (pretty_N_go_digits (Npos p) "") as [H1 H2]; [constructor|].
  destruct (bytes (pretty_N_go (Npos p) "")) as [|c cs]; [done|]. by exists c, cs.
Qed.
Lemma digits_loop_value max n cs : Forall (λ c, is_digit c = true) cs → 0 ≤ n → digits_value n cs ≤ max →
  strconv.digits_loop max n cs = Ok (digits_value n cs).
Proof.
  intros Hcs. revert n. induction Hcs as [|c cs Hc Hcs IH]; intros n Hn Hmax; simpl; [done|]. rewrite Hc.
  assert (0 ≤ digit_val c) by (apply andb_prop in Hc as [Hc%Z.leb_le _]; unfold digit_val; lia).
  pose proof (digits_value_grows cs (n * 10 + digit_val c) Hcs). simpl in Hmax.
  change (digits_value (n * 10 + digit_val c) cs ≤ max) in Hmax.
  destruct (Z.ltb_spec max (n * 10 + digit_val c)); [lia|]. apply IH; lia.
Qed.
Lemma digit_sign c : is_digit c = true → Ascii.eqb c "+" = false ∧ Ascii.eqb c "-" = false.
Proof. destruct (Ascii.eqb_spec c "+") as [->|]; [done|]. by destruct (Ascii.eqb_spec c "-") as [->|]. Qed.

(** What is printed in decimal parses back, at any width it fits. *)
Lemma ParseInt10_Itoa bits z : 0 < bits → - 2 ^ (bits - 1) ≤ z < 2 ^ (bits - 1) →
  strconv.ParseInt10 bits (strconv.Itoa z) = Ok z.
Proof.
  intros Hb Hz. unfold strconv.ParseInt10.
  assert (H2 : 2 ^ bits = 2 * 2 ^ (bits - 1)) by (rewrite <-Z.pow_succ_r by lia; f_equal; lia).
  assert (0 < 2 ^ (bits - 1)) by (apply Z.pow_pos_nonneg; lia).
  destruct z as [|p|p].
  - change (bytes (strconv.Itoa 0)) with ["0"%char]. cbn [Ascii.eqb Bool.eqb strconv.ParseUint10 strconv.digits_loop].
    change (is_digit "0") with true. change (0 * 10 + digit_val "0") with 0. cbv iota zeta.
    destruct (Z.ltb_spec (2 ^ bits - 1) 0); [lia|]. simpl. destruct (Z.leb_spec (2 ^ (bits - 1)) 0); [lia|]. done.
  - destruct (Itoa_pos p) as (c & cs & -> & Hd & Hv). destruct (digit_sign c (Forall_inv Hd)) as [-> ->].
    unfold strconv.ParseUint10. rewrite digits_loop_value, Hv by (done || lia). simpl.
    destruct (Z.leb_spec (2 ^ (bits - 1)) (Zpos p)); [lia|]. done.
  - destruct (Itoa_pos p) as (c & cs & Ep & Hd & Hv).
    assert (En : bytes (strconv.Itoa (Zneg p)) = "-"%char :: c :: cs).
    { change (strconv.Itoa (Zneg p)) with ("-" +:+ strconv.Itoa (Zpos p)). by rewrite bytes_app, Ep. }
    rewrite En. change (Ascii.eqb "-" "+") with false. change (Ascii.eqb "-" "-") with true. cbv iota.
    unfold strconv.ParseUint10. rewrite digits_loop_value, Hv by (done || lia). simpl.
    destruct (Z.ltb_spec (2 ^ (bits - 1)) (Zpos p)); [lia|]. done.
Qed.

(** *** The lines of a text *)
Definition newline_byte : ascii := byte_of 10.
Definition one_line (s : string) : Prop := newline_byte ∉ bytes s.
(** The two lists of lines, the last of the first one continued by the first of the second. *)
Fixpoint glue (l1 l2 : list string) : list string :=
  match l1 with
  | [] => l2
  | [x] => match l2 with [] => [x] | y :: l2 => (x +:+ y) :: l2 end
  | x :: l1 => x :: glue l1 l2
  end.
Definition text_of (s : string) (l : list string) : Prop := s = strings.Join l newline ∧ l ≠ [] ∧ Forall one_line l.
Lemma string_app_assoc (a b c : string) : (a +:+ b) +:+ c = a +:+ b +:+ c.
Proof. induction a as [|x a IH]; [done|]. change (String x ((a +:+ b) +:+ c) = String x (a +:+ b +:+ c)). by rewrite IH. Qed.
Lemma Join_cons x l sep : l ≠ [] → strings.Join (x :: l) sep = x +:+ sep +:+ strings.Join l sep.
Proof. by destruct l. Qed.
Lemma glue_cons x y l1 l2 : glue (x :: y :: l1) l2 = x :: glue (y :: l1) l2.
Proof. done. Qed.
Lemma text_app s1 l1 s2 l2 : text_of s1 l1 → text_of s2 l2 → text_of (s1 +:+ s2) (glue l1 l2).
Proof.
  intros (-> & Hne1 & H1) (-> & Hne2 & H2). induction H1 as [|x l1 Hx H1 IH]; [done|].
  destruct l1 as [|y l1].
  - destruct H2 as [|z l2 Hz H2]; [done|]. simpl glue. split; [|split; [done|]].
    + destruct l2 as [|u l2]; [done|]. simpl. by rewrite string_app_assoc.
    + constructor; [|done]. unfold one_line. rewrite bytes_app, elem_of_app. by intros [?|?].
  - destruct IH as (E & Hne & H); [done|]. rewrite glue_cons. split; [|split; [done|by constructor]].
    rewrite (Join_cons x (y :: l1)) by done. rewrite (Join_cons x (glue (y :: l1) l2)) by done.
    by rewrite <-E, !string_app_assoc.
Qed.
Lemma text_one s : one_line s → text_of s [s].
Proof. intros Hs. split; [done|]. split; [done|]. by constructor. Qed.
Lemma text_lines l : forallb (λ s, negb (bool_decide (newline_byte ∈ bytes s))) l = true → l ≠ [] → text_of (strings.Join l newline) l.
Proof.
  intros Hl Hne. split; [done|]. split; [done|]. apply Forall_forall. intros x Hx.
  rewrite forallb_forall in Hl. apply list_elem_of_In, Hl in Hx. by apply negb_true_iff, bool_decide_eq_false in Hx.
Qed.
Lemma text_split s l : text_of s l → strings.Split s newline_byte = l.
Proof. intros (-> & Hne & Hl). by apply Split_Join. Qed.
