(* ===== verification/Duration.v ===== *)
(** * time.ParseDuration

    The standard library's parser of durations, which the agent webhook applies to the
    labels of a pod: signed sequences of decimal numbers with a unit, in nanoseconds, with
    the checks for overflow and the binary64 arithmetic of the fractions.  Then the
    conversion of a duration to an [int32] of milliseconds. *)

From S2P Require Export TextLemmas.
From Stdlib Require Import Ascii SpecFloat.
Open Scope Z_scope.

Module time.

(** ** float64 *)
Definition float64 (z : Z) : spec_float := binary_normalize 53 1024 z 0 false.
Definition float64_mul : spec_float → spec_float → spec_float := SFmul 53 1024.
Definition float64_div : spec_float → spec_float → spec_float := SFdiv 53 1024.
(** [uint64(f)] of a float that fits. *)
Definition uint64_of_float (f : spec_float) : Z :=
  match f with
  | S754_finite false m e => if 0 <=? e then Zpos m * 2 ^ e else Zpos m / 2 ^ (- e)
  | _ => 0
  end.

(** ** Numbers *)
Fixpoint leadingInt (x : Z) (cs : list ascii) : option (Z * list ascii) :=
  match cs with
  | c :: cs' =>
      if is_digit c then
        if 2 ^ 63 / 10 <? x then None
        else let x := x * 10 + digit_val c in
             if 2 ^ 63 <? x then None else leadingInt x cs'
      else Some (x, cs)
  | [] => Some (x, [])
  end.
(** The digits after the point, and ten to their number, up to the first that overflows. *)
Fixpoint leadingFraction (x : Z) (scale : spec_float) (overflow : bool) (cs : list ascii)
  : Z * spec_float * list ascii :=
  match cs with
  | c :: cs' =>
      if is_digit c then
        if overflow then leadingFraction x scale true cs'
        else if (2 ^ 63 - 1) / 10 <? x then leadingFraction x scale true cs'
        else let y := x * 10 + digit_val c in
             if 2 ^ 63 <? y then leadingFraction x scale true cs'
             else leadingFraction y (float64_mul scale (float64 10)) false cs'
      else (x, scale, cs)
  | [] => (x, scale, [])
  end.

(** ** Units *)
Definition unitMap : list (list ascii * Z) := [
  (bytes "ns", 1); (bytes "us", 1000);
  ([byte_of 194; byte_of 181; "s"%char], 1000); (* the micro sign *)
  ([byte_of 206; byte_of 188; "s"%char], 1000); (* the Greek letter *)
  (bytes "ms", 1000000); (bytes "s", 1000000000); (bytes "m", 60000000000); (bytes "h", 3600000000000)].
Definition lookup_unit (u : list ascii) : option Z := snd <$> List.find (λ p, bool_decide (p.1 = u)) unitMap.
Definition is_number_char (c : ascii) : bool := Ascii.eqb c "." || is_digit c.
Fixpoint span_unit (cs : list ascii) : list ascii * list ascii :=
  match cs with
  | c :: cs' => if is_number_char c then ([], cs)
                else let '(u, rest) := span_unit cs' in (c :: u, rest)
  | [] => ([], [])
  end.

(** ** The parser *)
Definition ErrInvalid (orig : string) : error := Errorf "time: invalid duration %q" [orig].

(** From the unit on: [v + f/scale] units, in nanoseconds, and the rest. *)
Definition parse_unit (orig : string) (v f : Z) (scale : spec_float) (cs : list ascii) : res (Z * list ascii) :=
  let '(u, rest) := span_unit cs in
  if bool_decide (u = []) then Err (Errorf "time: missing unit in duration %q" [orig])
  else match lookup_unit u with
  | None => Err (Errorf "time: unknown unit %q in duration %q" [of_bytes u; orig])
  | Some unit =>
      if 2 ^ 63 / unit <? v then Err (ErrInvalid orig)
      else
        let v := v * unit in
        if 0 <? f then
          let v := v + uint64_of_float (float64_mul (float64 f) (float64_div (float64 unit) scale)) in
          if 2 ^ 63 <? v then Err (ErrInvalid orig) else Ok (v, rest)
        else Ok (v, rest)
  end.
(** The fraction, its scale and whether it had digits. *)
Definition parse_fraction (cs : list ascii) : Z * spec_float * bool * list ascii :=
  match cs with
  | c :: cs' =>
      if Ascii.eqb c "." then
        let '(f, scale, rest) := leadingFraction 0 (float64 1) false cs' in
        (f, scale, negb (bool_decide (length rest = length cs')), rest)
      else (0, float64 1, false, cs)
  | [] => (0, float64 1, false, cs)
  end.
(** One number with its unit, in nanoseconds, and the rest. *)
Definition parse_component (orig : string) (cs : list ascii) : res (Z * list ascii) :=
  match cs with
  | [] => Err (ErrInvalid orig)
  | c :: _ =>
      if negb (is_number_char c) then Err (ErrInvalid orig)
      else match leadingInt 0 cs with
      | None => Err (ErrInvalid orig)
      | Some (v, cs1) =>
          let pre := negb (bool_decide (length cs1 = length cs)) in
          let '(f, scale, post, cs2) := parse_fraction cs1 in
          if negb pre && negb post then Err (ErrInvalid orig) else parse_unit orig v f scale cs2
      end
  end.

(** [for s != ""]; every round consumes at least a character: the length of the text is
    fuel enough. *)
Fixpoint parse_components (fuel : nat) (orig : string) (d : Z) (cs : list ascii) : option (res Z) :=
  match cs with
  | [] => Some (Ok d)
  | _ =>
      match fuel with
      | O => None
      | S fuel =>
          match parse_component orig cs with
          | Err e => Some (Err e)
          | Ok (v, cs') => if 2 ^ 63 <? d + v then Some (Err (ErrInvalid orig))
                           else parse_components fuel orig (d + v) cs'
          end
      end
  end.

Definition parse_signed (s : string) (neg : bool) (cs : list ascii) : option (res Z) :=
  if bool_decide (cs = bytes "0") then Some (Ok 0)
  else match cs with
  | [] => Some (Err (ErrInvalid s))
  | _ =>
      match parse_components (length cs) s 0 cs with
      | None => None
      | Some (Err e) => Some (Err e)
      | Some (Ok d) => Some (if neg then Ok (- d)
                             else if 2 ^ 63 - 1 <? d then Err (ErrInvalid s) else Ok d)
      end
  end.
(** [None] is a run out of fuel: see [ParseDuration_total]. *)
Definition ParseDuration_fuel (s : string) : option (res Z) :=
  match bytes s with
  | c :: cs => if Ascii.eqb c "-" then parse_signed s true cs
               else if Ascii.eqb c "+" then parse_signed s false cs
               else parse_signed s false (c :: cs)
  | [] => parse_signed s false []
  end.
Definition ParseDuration (s : string) : res Z := default (Err (Panic "out of fuel")) (ParseDuration_fuel s).

(** [d.Milliseconds()]: toward zero. *)
Definition Milliseconds (d : Z) : Z := Z.quot d 1000000.

(** ** Lemmas *)

Lemma leadingInt_spec x cs y rest : leadingInt x cs = Some (y, rest) → 0 ≤ x →
  0 ≤ y ∧ (length rest ≤ length cs)%nat.
Proof.
  revert x. induction cs as [|c cs IH]; intros x; simpl; [intros [= <- <-]; simpl; lia|].
  destruct (is_digit c) eqn:Hc; [|intros [= <- <-]; simpl; lia].
  apply andb_prop in Hc as [Hc%Z.leb_le _]. unfold digit_val.
  destruct (_ <? x); [done|]. destruct (2 ^ 63 <? _); [done|]. intros Hl Hx. apply IH in Hl; lia.
Qed.
Lemma leadingFraction_length x scale o cs y scale' rest :
  leadingFraction x scale o cs = (y, scale', rest) → (length rest ≤ length cs)%nat.
Proof.
  revert x scale o. induction cs as [|c cs IH]; intros x scale o; simpl; [intros [= _ _ <-]; simpl; lia|].
  destruct (is_digit c); [|intros [= _ _ <-]; simpl; lia].
  destruct o; [|destruct (_ <? x); [|destruct (2 ^ 63 <? _)]]; intros Hl; apply IH in Hl; lia.
Qed.
Lemma span_unit_length cs u rest : span_unit cs = (u, rest) → (length u + length rest = length cs)%nat.
Proof.
  revert u rest. induction cs as [|c cs IH]; intros u rest; simpl; [intros [= <- <-]; done|].
  destruct (is_number_char c); [intros [= <- <-]; simpl; lia|].
  destruct (span_unit cs) as [u' rest'] eqn:E. intros [= <- <-]. specialize (IH _ _ eq_refl). simpl. lia.
Qed.
Lemma uint64_of_float_nonneg f : 0 ≤ uint64_of_float f.
Proof.
  unfold uint64_of_float. destruct f as [| | |[] m e]; try lia.
  destruct (Z.leb_spec 0 e); [apply Z.mul_nonneg_nonneg; lia|]. apply Z.div_pos; [lia|]. apply Z.pow_pos_nonneg; lia.
Qed.

Lemma lookup_unit_pos u n : lookup_unit u = Some n → 0 < n.
Proof.
  unfold lookup_unit. intros Hn. apply fmap_Some in Hn as ([u' n'] & Hf & ->).
  apply List.find_some in Hf as [Hin _]. simpl in Hin. 
  repeat (destruct Hin as [[= _ <-]|Hin]; [simpl; lia|]). done.
Qed.
Lemma parse_unit_spec orig v f scale cs v' rest : 0 ≤ v → parse_unit orig v f scale cs = Ok (v', rest) →
  0 ≤ v' ∧ (length rest < length cs)%nat.
Proof.
  intros Hv. unfold parse_unit. destruct (span_unit cs) as [u cs3] eqn:Eu. apply span_unit_length in Eu.
  case_bool_decide as Hu; [done|]. destruct u as [|u0 u]; [done|]. simpl in Eu.
  destruct (lookup_unit _) as [unit|] eqn:El; [|done]. apply lookup_unit_pos in El.
  destruct (_ <? v); [done|]. destruct (0 <? f).
  - destruct (2 ^ 63 <? _); [done|]. intros [= <- <-].
    pose proof (uint64_of_float_nonneg (float64_mul (float64 f) (float64_div (float64 unit) scale))).
    split; [nia|lia].
  - intros [= <- <-]. split; [nia|lia].
Qed.
Lemma parse_fraction_length cs f scale post rest : parse_fraction cs = (f, scale, post, rest) →
  (length rest ≤ length cs)%nat.
Proof.
  unfold parse_fraction. destruct cs as [|c cs]; [by intros [= _ _ _ <-]|].
  destruct (Ascii.eqb c "."); [|by intros [= _ _ _ <-]].
  destruct (leadingFraction _ _ _ _) as [[y s] r] eqn:E. apply leadingFraction_length in E.
  intros [= _ _ _ <-]. simpl. lia.
Qed.
(** A component is not negative and consumes at least a character. *)
Lemma parse_component_spec orig cs v rest : parse_component orig cs = Ok (v, rest) →
  0 ≤ v ∧ (length rest < length cs)%nat.
Proof.
  unfold parse_component. destruct cs as [|c cs]; [done|]. destruct (negb _); [done|].
  destruct (leadingInt 0 (c :: cs)) as [[v0 cs1]|] eqn:Hi; [|done]. apply leadingInt_spec in Hi as [Hv Hl1]; [|lia].
  destruct (parse_fraction cs1) as [[[f scale] post] cs2] eqn:Ef. apply parse_fraction_length in Ef.
  destruct (negb _ && negb _); [done|]. intros Hu. apply parse_unit_spec in Hu as [? ?]; [split; [done|lia]|done].
Qed.
Lemma parse_components_total fuel orig d cs : (length cs ≤ fuel)%nat → is_Some (parse_components fuel orig d cs).
Proof.
  revert d cs. induction fuel as [|fuel IH]; intros d cs Hl.
  { destruct cs; [by eexists|]. simpl in Hl. lia. }
  destruct cs as [|c cs]; [by eexists|]. cbn [parse_components].
  destruct (parse_component orig (c :: cs)) as [[v rest]|e] eqn:E; [|by eexists].
  apply parse_component_spec in E as [_ E]. destruct (_ <? _); [by eexists|]. apply IH. simpl in *. lia.
Qed.
Lemma parse_components_range fuel orig d cs z : 0 ≤ d ≤ 2 ^ 63 →
  parse_components fuel orig d cs = Some (Ok z) → 0 ≤ z ≤ 2 ^ 63.
Proof.
  revert d cs. induction fuel as [|fuel IH]; intros d cs Hd.
  { destruct cs; [|done]. by intros [= <-]. }
  destruct cs as [|c cs]; [by intros [= <-]|]. cbn [parse_components].
  destruct (parse_component orig (c :: cs)) as [[v rest]|e] eqn:E; [|done].
  apply parse_component_spec in E as [Hv _]. destruct (Z.ltb_spec (2 ^ 63) (d + v)); [done|]. apply IH. lia.
Qed.
Lemma parse_signed_spec s neg cs : ∃ r, parse_signed s neg cs = Some r ∧ ∀ z, r = Ok z → - 2 ^ 63 ≤ z < 2 ^ 63.
Proof.
  unfold parse_signed. case_bool_decide; [eexists; split; [done|]; intros z [= <-]; lia|].
  destruct cs as [|c cs]; [by eexists|].
  destruct (parse_components_total (length (c :: cs)) s 0 (c :: cs)) as [r Hr]; [done|]. rewrite Hr.
  destruct r as [d|e]; [|by eexists]. apply parse_components_range in Hr; [|lia].
  eexists. split; [done|]. intros z. destruct neg; [intros [= <-]; lia|].
  destruct (Z.ltb_spec (2 ^ 63 - 1) d); [done|]. intros [= <-]. lia.
Qed.
Lemma ParseDuration_fuel_spec s : ∃ r, ParseDuration_fuel s = Some r ∧ ∀ z, r = Ok z → - 2 ^ 63 ≤ z < 2 ^ 63.
Proof.
  unfold ParseDuration_fuel. destruct (bytes s) as [|c cs]; [apply parse_signed_spec|].
  destruct (Ascii.eqb c "-"); [apply parse_signed_spec|]. destruct (Ascii.eqb c "+"); apply parse_signed_spec.
Qed.

Lemma parse_components_nil fuel orig d : parse_components fuel orig d [] = Some (Ok d).
Proof. by destruct fuel. Qed.
(** A number of milliseconds. *)
Lemma leadingInt_digits x cs rest : Forall (λ c, is_digit c = true) cs → 0 ≤ x → digits_value x cs ≤ 2 ^ 63 →
  match rest with c :: _ => is_digit c = false | [] => True end →
  leadingInt x (cs ++ rest) = Some (digits_value x cs, rest).
Proof.
  intros Hcs Hx Hmax Hrest. revert x Hx Hmax. induction Hcs as [|c cs Hc Hcs IH]; intros x Hx Hmax.
  - simpl. destruct rest as [|c rest]; [done|]. simpl. by rewrite Hrest.
  - simpl. rewrite Hc. assert (0 ≤ digit_val c) by (apply andb_prop in Hc as [Hc%Z.leb_le _]; unfold digit_val; lia).
    pose proof (digits_value_grows cs (x * 10 + digit_val c) Hcs). simpl in Hmax.
    change (digits_value (x * 10 + digit_val c) cs ≤ 2 ^ 63) in Hmax.
    assert (x ≤ 2 ^ 63 / 10) by (apply Z.div_le_lower_bound; lia).
    destruct (Z.ltb_spec (2 ^ 63 / 10) x); [lia|].
    destruct (Z.ltb_spec (2 ^ 63) (x * 10 + digit_val c)); [lia|]. apply IH; lia.
Qed.
Lemma parse_component_ms s p : Zpos p * 1000000 ≤ 2 ^ 63 →
  parse_component s (bytes (strconv.Itoa (Zpos p)) ++ bytes "ms") = Ok (Zpos p * 1000000, []).
Proof.
  intros Hp. destruct (Itoa_pos p) as (c & cs & E & Hd & Hv). rewrite E.
  pose proof (leadingInt_digits 0 (c :: cs) (bytes "ms") Hd) as Hl. rewrite Hv in Hl. specialize (Hl ltac:(lia) ltac:(lia) eq_refl).
  unfold parse_component. simpl app in *. rewrite Hl. unfold is_number_char. rewrite (Forall_inv Hd), orb_true_r.
  rewrite bool_decide_false by (simpl; rewrite length_app; simpl; lia).
  change (parse_unit s (Zpos p) 0 (float64 1) (bytes "ms") = Ok (Zpos p * 1000000, [])).
  unfold parse_unit. change (span_unit (bytes "ms")) with (bytes "ms", @nil ascii).
  cbv beta iota zeta. rewrite bool_decide_false by done.
  change (lookup_unit (bytes "ms")) with (Some 1000000). cbv beta iota zeta.
  destruct (Z.ltb_spec (2 ^ 63 / 1000000) (Zpos p)) as [Hlt|]; [|done].
  assert (Zpos p ≤ 2 ^ 63 / 1000000) by (apply Z.div_le_lower_bound; lia). lia.
Qed.
Lemma ParseDuration_ms z : 0 ≤ z → z * 1000000 < 2 ^ 63 → ParseDuration (strconv.Itoa z +:+ "ms") = Ok (z * 1000000).
Proof.
  intros Hz Hmax. destruct z as [|p|p]; [reflexivity| |lia].
  unfold ParseDuration, ParseDuration_fuel. rewrite bytes_app.
  pose proof (parse_component_ms (strconv.Itoa (Zpos p) +:+ "ms") p ltac:(lia)) as Hc.
  destruct (Itoa_pos p) as (c & cs & E & Hd & _). rewrite E in *. simpl app in *.
  destruct (digit_sign c (Forall_inv Hd)) as [-> ->]. unfold parse_signed.
  rewrite bool_decide_false by (intros Heq; apply (f_equal length) in Heq; revert Heq; simpl; rewrite length_app; simpl; lia).
  simpl length. cbn [parse_components]. rewrite Hc. rewrite Z.add_0_l.
  destruct (Z.ltb_spec (2 ^ 63) (Zpos p * 1000000)); [lia|].
  rewrite parse_components_nil.
  destruct (Z.ltb_spec (2 ^ 63 - 1) (Zpos p * 1000000)); [lia|]. done.
Qed.
End time.
