(* ===== verification/Url.v ===== *)
(** * net/url

    [url.Parse] and [URL.String], which the controllers call on the address of an external
    object store and on the address of the application.  Text is a list of bytes. *)

From S2P Require Export GoStd.
From Stdlib Require Import Ascii.
Open Scope Z_scope.

Record URL := {
  url_Scheme : string; url_Opaque : string; url_User : option (string * option string);
  url_Host : string; url_Path : string; url_RawPath : string; url_OmitHost : bool;
  url_ForceQuery : bool; url_RawQuery : string; url_Fragment : string; url_RawFragment : string }.

(** [url.URL{Scheme: scheme, Host: host, Path: path}] *)
Definition URL_of (scheme host path : string) : URL := {|
  url_Scheme := scheme; url_Opaque := ""; url_User := None; url_Host := host; url_Path := path;
  url_RawPath := ""; url_OmitHost := false; url_ForceQuery := false; url_RawQuery := "";
  url_Fragment := ""; url_RawFragment := "" |}.
Definition zero_URL : URL := URL_of "" "" "".

Module url.

(** ** Bytes *)
Definition between (lo hi : Z) (c : ascii) : bool := (lo <=? byte_val c) && (byte_val c <=? hi).
Definition is_letter (c : ascii) : bool := between 65 90 c || between 97 122 c.
Definition alnum (c : ascii) : bool := is_letter c || is_digit c.
Definition one_of (set : string) (c : ascii) : bool := bool_decide (c ∈ bytes set).

(** [strings.Cut] at a byte: before, after, found. *)
Fixpoint cut (sep : ascii) (cs : list ascii) : list ascii * list ascii * bool :=
  match cs with
  | [] => ([], [], false)
  | c :: cs' => if Ascii.eqb c sep then ([], cs', true)
                else let '(b, a, f) := cut sep cs' in (c :: b, a, f)
  end.
(** The same at the last occurrence. *)
Definition cut_last (sep : ascii) (cs : list ascii) : list ascii * list ascii * bool :=
  let '(a, b, f) := cut sep (reverse cs) in
  if f then (reverse b, reverse a, true) else (cs, [], false).
(** [strings.Index] of a text, as the two parts around its start. *)
Fixpoint find_text (t cs : list ascii) : option (list ascii * list ascii) :=
  if bool_decide (take (length t) cs = t) then Some ([], cs)
  else match cs with
       | [] => None
       | c :: cs' => option_map (λ p, (c :: p.1, p.2)) (find_text t cs')
       end.
Definition starts (t : string) (cs : list ascii) : bool :=
  bool_decide (take (String.length t) cs = bytes t).

(** ** Percent-encoding *)
Inductive encoding := encodePath | encodeHost | encodeZone | encodeUserPassword | encodeFragment.
#[global] Instance encoding_eq_dec : EqDecision encoding.
Proof. solve_decision. Defined.

Definition shouldEscape (mode : encoding) (c : ascii) : bool :=
  let host := bool_decide (mode = encodeHost) || bool_decide (mode = encodeZone) in
  if alnum c then false
  else if host && (one_of "!$&'()*+,;=:[]<>" c || (byte_val c =? 34)) then false
  else if one_of "-_.~" c then false
  else if one_of "$&+,/:;=?@" c then
    match mode with
    | encodePath => Ascii.eqb c "?"
    | encodeUserPassword => one_of "@/?:" c
    | encodeFragment => false
    | encodeHost | encodeZone => true
    end
  else if bool_decide (mode = encodeFragment) && one_of "!()*" c then false
  else true.

Definition hex_val (c : ascii) : option Z :=
  if is_digit c then Some (digit_val c)
  else if between 97 102 c then Some (byte_val c - 87)
  else if between 65 70 c then Some (byte_val c - 55)
  else None.
Definition upper_hex (d : Z) : ascii := byte_of (if d <? 10 then 48 + d else 55 + d).
Definition escape (mode : encoding) (cs : list ascii) : list ascii :=
  concat (map (λ c, if shouldEscape mode c
                    then ["%"%char; upper_hex (byte_val c / 16); upper_hex (byte_val c mod 16)]
                    else [c]) cs).

Definition EscapeError (cs : list ascii) : error := Errorf "invalid URL escape %q" [of_bytes (take 3 cs)].
Definition InvalidHostError (c : ascii) : error := Errorf "invalid character %q in host name" [of_bytes [c]].
Fixpoint unescape (mode : encoding) (cs : list ascii) : res (list ascii) :=
  let host := bool_decide (mode = encodeHost) || bool_decide (mode = encodeZone) in
  match cs with
  | [] => Ok []
  | c :: cs' =>
      if Ascii.eqb c "%" then
        match cs' with
        | h :: l :: cs'' =>
            match hex_val h, hex_val l with
            | Some x, Some y =>
                let v := 16 * x + y in
                if bool_decide (mode = encodeHost) && (x <? 8) && negb (v =? 37) then Err (EscapeError cs)
                else if bool_decide (mode = encodeZone) && negb (v =? 37) && negb (v =? 32) &&
                        shouldEscape encodeHost (byte_of v) then Err (EscapeError cs)
                else ok? r := unescape mode cs'' in Ok (byte_of v :: r)
            | _, _ => Err (EscapeError cs)
            end
        | _ => Err (EscapeError cs)
        end
      else if host && (byte_val c <? 128) && shouldEscape mode c then Err (InvalidHostError c)
      else ok? r := unescape mode cs' in Ok (c :: r)
  end.

(** ** Parsing *)
Definition parse_error (raw : list ascii) (what : string) : error := Errorf what [of_bytes raw].

(** The scheme and what follows it. *)
Fixpoint scheme_loop (acc cs raw : list ascii) : res (list ascii * list ascii) :=
  match cs with
  | [] => Ok ([], raw)
  | c :: cs' =>
      if is_letter c then scheme_loop (acc ++ [c]) cs' raw
      else if is_digit c || one_of "+-." c then
        match acc with [] => Ok ([], raw) | _ => scheme_loop (acc ++ [c]) cs' raw end
      else if Ascii.eqb c ":" then
        match acc with [] => Err (parse_error raw "missing protocol scheme") | _ => Ok (acc, cs') end
      else Ok ([], raw)
  end.
Definition getScheme (raw : list ascii) : res (list ascii * list ascii) := scheme_loop [] raw raw.

Definition validOptionalPort (port : list ascii) : bool :=
  match port with [] => true | c :: ds => Ascii.eqb c ":" && forallb is_digit ds end.
Definition validUserinfo (cs : list ascii) : bool := forallb (λ c, alnum c || one_of "-._:~!$&'()*+,;=%@" c) cs.

Definition parseHost (host : list ascii) : res (list ascii) :=
  if starts "[" host then
    let '(inside, colonPort, found) := cut_last "]" host in
    if negb found then Err (parse_error host "missing ']' in host")
    else if negb (validOptionalPort colonPort) then Err (parse_error host "invalid port %q after host")
    else match find_text (bytes "%25") inside with
         | Some (before, zone) =>
             ok? host1 := unescape encodeHost before in
             ok? host2 := unescape encodeZone zone in
             ok? host3 := unescape encodeHost ("]"%char :: colonPort) in
             Ok (host1 ++ host2 ++ host3)
         | None => unescape encodeHost host
         end
  else
    let '(_, port, found) := cut_last ":" host in
    if found && negb (validOptionalPort (":"%char :: port))
    then Err (parse_error host "invalid port %q after host")
    else unescape encodeHost host.

Definition parseAuthority (authority : list ascii) : res (option (string * option string) * list ascii) :=
  let '(userinfo, after, found) := cut_last "@" authority in
  if negb found then ok? host := parseHost authority in Ok (None, host)
  else
    ok? host := parseHost after in
    if negb (validUserinfo userinfo) then Err (parse_error userinfo "net/url: invalid userinfo")
    else
      let '(username, password, has) := cut ":" userinfo in
      ok? u := unescape encodeUserPassword username in
      if negb has then Ok (Some (of_bytes u, None), host)
      else ok? p := unescape encodeUserPassword password in Ok (Some (of_bytes u, Some (of_bytes p)), host).

Definition setPath (u : URL) (p : list ascii) : res URL :=
  ok? path := unescape encodePath p in
  Ok (u <| url_Path := of_bytes path |>
        <| url_RawPath := if bool_decide (p = escape encodePath path) then "" else of_bytes p |>).
Definition setFragment (u : URL) (f : list ascii) : res URL :=
  ok? frag := unescape encodeFragment f in
  Ok (u <| url_Fragment := of_bytes frag |>
        <| url_RawFragment := if bool_decide (f = escape encodeFragment frag) then "" else of_bytes f |>).

(** The query is cut off at the first question mark; a lone one at the end is noted. *)
Definition split_query (rest : list ascii) : list ascii * string * bool :=
  let '(before, after, found) := cut "?" rest in
  match found, after with
  | true, [] => (before, "", true)
  | _, _ => (before, of_bytes after, false)
  end.

Definition parse (raw : list ascii) : res URL :=
  if existsb (λ c, (byte_val c <? 32) || (byte_val c =? 127)) raw
  then Err (parse_error raw "net/url: invalid control character in URL")
  else if bool_decide (raw = ["*"%char]) then Ok (zero_URL <| url_Path := "*" |>)
  else
    ok? sr := getScheme raw in
    let '(scheme, rest) := sr in
    let '(rest, query, force) := split_query rest in
    let u := zero_URL <| url_Scheme := of_bytes (map strings.lower_byte scheme) |>
                      <| url_RawQuery := query |> <| url_ForceQuery := force |> in
    let has_scheme := match scheme with [] => false | _ => true end in
    if negb (starts "/" rest) && has_scheme then Ok (u <| url_Opaque := of_bytes rest |>)
    else if negb (starts "/" rest) && (let '(segment, _, _) := cut "/" rest in existsb (Ascii.eqb ":") segment)
    then Err (parse_error raw "first path segment in URL cannot contain colon")
    else if (has_scheme || negb (starts "///" rest)) && starts "//" rest then
      let '(authority, after, found) := cut "/" (drop 2 rest) in
      ok? uh := parseAuthority authority in
      setPath (u <| url_User := uh.1 |> <| url_Host := of_bytes uh.2 |>)
        (if found : bool then "/"%char :: after else [])
    else setPath (u <| url_OmitHost := has_scheme && starts "/" rest |>) rest.

Definition Parse (rawURL : string) : res URL :=
  let '(u, frag, _) := cut "#" (bytes rawURL) in
  ok? url := parse u in
  match frag with [] => Ok url | _ => setFragment url frag end.

(** ** Printing *)
Definition validEncoded (mode : encoding) (cs : list ascii) : bool :=
  forallb (λ c, one_of "!$&'()*+,;=:@[]%" c || negb (shouldEscape mode c)) cs.
Definition escaped_or (mode : encoding) (raw decoded : string) : list ascii :=
  if bool_decide (raw ≠ "") && validEncoded mode (bytes raw) &&
     bool_decide (unescape mode (bytes raw) = Ok (bytes decoded))
  then bytes raw else escape mode (bytes decoded).
Definition EscapedPath (u : URL) : list ascii :=
  if bool_decide (url_Path u = "*") then bytes "*" else escaped_or encodePath (url_RawPath u) (url_Path u).
Definition EscapedFragment (u : URL) : list ascii := escaped_or encodeFragment (url_RawFragment u) (url_Fragment u).
Definition Userinfo_String (ui : string * option string) : list ascii :=
  escape encodeUserPassword (bytes ui.1) ++
  match ui.2 with Some p => ":"%char :: escape encodeUserPassword (bytes p) | None => [] end.

Definition String_bytes (u : URL) : list ascii :=
  let user := bool_decide (url_User u ≠ None) in
  let host := bool_decide (url_Host u ≠ "") in
  let scheme := if bool_decide (url_Scheme u ≠ "") then bytes (url_Scheme u) ++ [":"%char] else [] in
  let body :=
    if bool_decide (url_Opaque u ≠ "") then bytes (url_Opaque u)
    else
      let authority :=
        if (bool_decide (url_Scheme u ≠ "") || host || user) &&
           negb (url_OmitHost u && negb host && negb user) then
          (if host || bool_decide (url_Path u ≠ "") || user then bytes "//" else []) ++
          match url_User u with Some ui => Userinfo_String ui ++ ["@"%char] | None => [] end ++
          escape encodeHost (bytes (url_Host u))
        else [] in
      let path := EscapedPath u in
      let slash := if negb (bool_decide (path = [])) && negb (starts "/" path) && host then ["/"%char] else [] in
      let dot :=
        if bool_decide (scheme ++ authority ++ slash = []) &&
           (let '(segment, _, _) := cut "/" path in existsb (Ascii.eqb ":") segment)
        then bytes "./" else [] in
      authority ++ slash ++ dot ++ path in
  scheme ++ body ++
  (if url_ForceQuery u || bool_decide (url_RawQuery u ≠ "") then "?"%char :: bytes (url_RawQuery u) else []) ++
  (if bool_decide (url_Fragment u ≠ "") then "#"%char :: EscapedFragment u else []).
Definition String (u : URL) : string := of_bytes (String_bytes u).

Example parsed :
  map (λ s, match Parse s with Ok u => Some (url_Scheme u, url_Host u, url_Path u, String u) | Err _ => None end)
    ["https://s3.example.com:9000/a%20b?x=1#f"; "HTTP://[fe80::1%25en0]:8080"; "https://h:port/"; "a b"; "1:2"; "mailto:x"] =
  [Some ("https", "s3.example.com:9000", "/a b", "https://s3.example.com:9000/a%20b?x=1#f");
   Some ("http", "[fe80::1%en0]:8080", "", "http://[fe80::1%25en0]:8080"); None;
   Some ("", "", "a b", "a%20b"); None; Some ("mailto", "", "", "mailto:x")].
Proof. vm_compute. reflexivity. Qed.
End url.
