(* ===== verification/Hash.v ===== *)
(** * Hash functions and hexadecimal output

    [crypto/sha256.Sum256] (FIPS 180-4), [hash/fnv.New128] (FNV-1) and the [%x]
    verb on byte slices, as the operator uses them to build names and annotations.
    Both hashes compute, so names can be evaluated on concrete inputs. *)

From S2P Require Export GoStd.
From Stdlib Require Import Ascii ZArith.
Open Scope Z_scope.

(** ** [%x] on bytes *)

Definition hex_digit (n : Z) : ascii := byte_of (if n <? 10 then 48 + n else 87 + n).
Definition hex_byte (b : Z) : list ascii := [hex_digit (b / 16); hex_digit (b mod 16)].
(** Lower-case hexadecimal, two digits for a byte. *)
Definition hex_of (bs : list Z) : string := of_bytes (concat (map hex_byte bs)).

(** The [n] bytes of [z], most significant first. *)
Fixpoint be_bytes (n : nat) (z : Z) : list Z :=
  match n with
  | O => []
  | S n' => Z.shiftr z (8 * Z.of_nat n') mod 256 :: be_bytes n' z
  end.

Lemma length_hex_of bs : String.length (hex_of bs) = (2 * length bs)%nat.
Proof.
  rewrite <-length_bytes. unfold hex_of. rewrite bytes_of_bytes.
  induction bs as [|b bs IH]; simpl in *; lia.
Qed.

(** On bytes, the hexadecimal form can be read back. *)
Lemma byte_of_inj a b : 0 ≤ a < 256 → 0 ≤ b < 256 → byte_of a = byte_of b → a = b.
Proof.
  intros Ha Hb E. unfold byte_of in E. rewrite !Z.mod_small in E by lia.
  apply (f_equal N_of_ascii) in E.
  rewrite !N_ascii_embedding in E by (change 256%N with (Z.to_N 256); apply Z2N.inj_lt; lia).
  apply Z2N.inj in E; lia.
Qed.
Lemma hex_digit_inj a b : 0 ≤ a < 16 → 0 ≤ b < 16 → hex_digit a = hex_digit b → a = b.
Proof.
  intros Ha Hb E. unfold hex_digit in E.
  apply byte_of_inj in E; repeat case_match; lia.
Qed.
Lemma hex_of_inj l k :
  Forall (λ b, 0 ≤ b < 256) l → Forall (λ b, 0 ≤ b < 256) k → hex_of l = hex_of k → l = k.
Proof.
  intros Hl Hk E. apply (f_equal bytes) in E. unfold hex_of in E. rewrite !bytes_of_bytes in E.
  revert k Hk E. induction Hl as [|a l Ha Hl IH]; intros [|b k] Hk E; try discriminate; [done|].
  apply Forall_cons in Hk as [Hb Hk]. simpl in E. injection E as E1 E2 E3.
  apply hex_digit_inj in E1; [|split; [apply Z.div_pos | apply Z.div_lt_upper_bound]; lia..].
  apply hex_digit_inj in E2; [|apply Z.mod_pos_bound; lia..].
  f_equal; [|by apply IH].
  rewrite (Z.div_mod a 16), (Z.div_mod b 16) by lia. congruence.
Qed.
Lemma be_bytes_range n z : Forall (λ b, 0 ≤ b < 256) (be_bytes n z).
Proof.
  revert z. induction n as [|n IH]; intros z; simpl; [constructor|].
  constructor; [apply Z.mod_pos_bound; lia | apply IH].
Qed.

Lemma length_be_bytes n z : length (be_bytes n z) = n.
Proof. induction n; simpl; congruence. Qed.

(** ** FNV-1, 128 bits *)
Module fnv.

Definition offset_basis : Z := 0x6c62272e07bb014262b821756295c58d.
Definition prime : Z := 0x0000000001000000000000000000013B.

(** Multiply, then xor the byte into the low octet. *)
Definition step (h : Z) (c : ascii) : Z := Z.lxor (h * prime mod 2 ^ 128) (byte_val c).
Definition Sum128 (s : string) : list Z := be_bytes 16 (foldl step offset_basis (bytes s)).

End fnv.

(** ** SHA-256 *)
Module sha256.

Definition add32 (a b : Z) : Z := (a + b) mod 2 ^ 32.
Definition rotr (n x : Z) : Z := Z.lor (Z.shiftr x n) (Z.shiftl x (32 - n) mod 2 ^ 32).
Definition not32 (x : Z) : Z := 2 ^ 32 - 1 - x.

Definition Ch (x y z : Z) : Z := Z.lxor (Z.land x y) (Z.land (not32 x) z).
Definition Maj (x y z : Z) : Z := Z.lxor (Z.lxor (Z.land x y) (Z.land x z)) (Z.land y z).
Definition Sigma0 (x : Z) : Z := Z.lxor (Z.lxor (rotr 2 x) (rotr 13 x)) (rotr 22 x).
Definition Sigma1 (x : Z) : Z := Z.lxor (Z.lxor (rotr 6 x) (rotr 11 x)) (rotr 25 x).
Definition sigma0 (x : Z) : Z := Z.lxor (Z.lxor (rotr 7 x) (rotr 18 x)) (Z.shiftr x 3).
Definition sigma1 (x : Z) : Z := Z.lxor (Z.lxor (rotr 17 x) (rotr 19 x)) (Z.shiftr x 10).

(** The round constants are the first 32 fractional bits of the cube roots of the first
    64 primes, the initial state those of the square roots of the first 8. *)
Definition primes : list Z :=
  filter (λ p, Forall (λ d, Z.rem p d ≠ 0) (seqZ 2 (Z.sqrt p - 1))) (seqZ 2 310).

(** The integer cube root, from the bit of weight [2^(n-1)] down. *)
Fixpoint icbrt (n : nat) (acc x : Z) : Z :=
  match n with
  | O => acc
  | S n' => let t := acc + 2 ^ Z.of_nat n' in icbrt n' (if t ^ 3 <=? x then t else acc) x
  end.

Definition K : list Z :=
  Eval vm_compute in map (λ p, icbrt 36 0 (p * 2 ^ 96) mod 2 ^ 32) primes.
Definition H0 : list Z :=
  Eval vm_compute in map (λ p, Z.sqrt (p * 2 ^ 64) mod 2 ^ 32) (take 8 primes).

(** Padding: the bit one, zeros, and the bit length on 64 bits. *)
Definition pad (msg : list Z) : list Z :=
  let l := Z.of_nat (length msg) in
  msg ++ 0x80 :: replicate (Z.to_nat ((55 - l) mod 64)) 0 ++ be_bytes 8 (8 * l).

Fixpoint words (bs : list Z) : list Z :=
  match bs with
  | a :: b :: c :: d :: bs' =>
      Z.lor (Z.lor (Z.shiftl a 24) (Z.shiftl b 16)) (Z.lor (Z.shiftl c 8) d) :: words bs'
  | _ => []
  end.

Fixpoint chunks (fuel : nat) (ws : list Z) : list (list Z) :=
  match fuel, ws with
  | _, [] | O, _ => []
  | S fuel', _ => take 16 ws :: chunks fuel' (drop 16 ws)
  end.

(** The message schedule, kept reversed (latest word first). *)
Fixpoint expand (n : nat) (rev_w : list Z) : list Z :=
  match n with
  | O => rev_w
  | S n' =>
      let w i := nth i rev_w 0 in
      expand n' (add32 (add32 (sigma1 (w 1%nat)) (w 6%nat))
                       (add32 (sigma0 (w 14%nat)) (w 15%nat)) :: rev_w)
  end.

Definition round (st : list Z) (kw : Z * Z) : list Z :=
  match st with
  | [a; b; c; d; e; f; g; h] =>
      let t1 := add32 (add32 (add32 h (Sigma1 e)) (Ch e f g)) (add32 kw.1 kw.2) in
      let t2 := add32 (Sigma0 a) (Maj a b c) in
      [add32 t1 t2; a; b; c; add32 d t1; e; f; g]
  | _ => st
  end.

Definition compress (st : list Z) (chunk : list Z) : list Z :=
  let w := reverse (expand 48 (reverse chunk)) in
  zip_with add32 st (foldl round st (zip K w)).

Definition Sum256 (s : string) : list Z :=
  let ws := words (pad (map byte_val (bytes s))) in
  concat (map (be_bytes 4) (foldl compress H0 (chunks (length ws) ws))).

Lemma length_round st kw : length st = 8%nat → length (round st kw) = 8%nat.
Proof.
  intros Hst. do 8 (destruct st as [|? st]; [done|]). by destruct st.
Qed.

Lemma length_compress st chunk : length st = 8%nat → length (compress st chunk) = 8%nat.
Proof.
  intros Hst. unfold compress. rewrite length_zip_with, Hst.
  assert (Hr : ∀ l st', length st' = 8%nat → length (foldl round st' l) = 8%nat).
  { induction l as [|kw l IH]; intros st' Hl; simpl; [done|]. by apply IH, length_round. }
  by rewrite Hr.
Qed.

(** The digest has 32 bytes. *)
Lemma length_Sum256 s : length (Sum256 s) = 32%nat.
Proof.
  unfold Sum256. generalize (words (pad (map byte_val (bytes s)))). intros ws.
  assert (H : ∀ cs st, length st = 8%nat → length (foldl compress st cs) = 8%nat).
  { induction cs as [|c cs IH]; intros st Hst; simpl; [done|]. by apply IH, length_compress. }
  specialize (H (chunks (length ws) ws) H0 eq_refl). revert H.
  generalize (foldl compress H0 (chunks (length ws) ws)). intros st Hst.
  do 8 (destruct st as [|? st]; [done|]). destruct st; [|done]. reflexivity.
Qed.

Lemma Sum256_range s : Forall (λ b, 0 ≤ b < 256) (Sum256 s).
Proof.
  unfold Sum256. generalize (foldl compress H0 (chunks (length (words (pad (map byte_val (bytes s)))))
    (words (pad (map byte_val (bytes s)))))). intros l.
  induction l as [|z l IH]; cbn [map concat]; [constructor|].
  apply Forall_app. split; [apply be_bytes_range | done].
Qed.

End sha256.

Lemma Sum128_range s : Forall (λ b, 0 ≤ b < 256) (fnv.Sum128 s).
Proof. apply be_bytes_range. Qed.

Example sha256_abc :
  hex_of (sha256.Sum256 "abc")
  = "ba7816bf8f01cfea414140de5dae2223b00361a396177a9cb410ff61f20015ad".
Proof. vm_compute. reflexivity. Qed.
Example sha256_two_blocks :
  hex_of (sha256.Sum256 "abcdbcdecdefdefgefghfghighijhijkijkljklmklmnlmnomnopnopq")
  = "248d6a61d20638b8e5c026930c3e6039a33ce45964ff2167f6ecedd419db06c1".
Proof. vm_compute. reflexivity. Qed.
Example fnv128_empty : hex_of (fnv.Sum128 "") = "6c62272e07bb014262b821756295c58d".
Proof. vm_compute. reflexivity. Qed.
Example fnv128_a : hex_of (fnv.Sum128 "a") = "d228cb69101a8caf78912b704e4a141e".
Proof. vm_compute. reflexivity. Qed.
