(* ===== verification/KubeTypes.v ===== *)
(** * Kubernetes, OpenShift and cert-manager API types

    The Go structs of the API packages the operator imports, with the fields the
    operator reads or writes.  A struct that reaches the operator from a user or
    from the API server also has other fields: they are carried, unread, in a
    field [.._rest].  A nil map is [None]; a slice is a list, and an [option] of a
    list where the operator distinguishes nil from empty; a pointer is an
    [option]; an [int32] or [int64] is a [Z]. *)

From S2P Require Export GoStd.
Open Scope Z_scope.

(** Fields of an API struct that the operator only carries. *)
Definition Opaque : Type := list (string * string).

(** ** Quantities

    A [resource.Quantity] is an exact amount, here in nano-units, with the format it
    is printed in. *)
Inductive QFormat := DecimalSI | BinarySI | DecimalExponent.
Record Quantity := { q_nano : Z; q_format : QFormat }.

Abbreviation ResourceList := (gomap Quantity).
Record ResourceRequirements := {
  rr_Limits : ResourceList; rr_Requests : ResourceList; rr_rest : Opaque }.
Definition zero_ResourceRequirements : ResourceRequirements :=
  {| rr_Limits := None; rr_Requests := None; rr_rest := [] |}.
Definition ResourceCPU : string := "cpu".
Definition ResourceMemory : string := "memory".
Definition ResourceStorage : string := "storage".

(** ** Object metadata *)
Record OwnerReference := {
  ref_APIVersion : string; ref_Kind : string; ref_Name : string; ref_UID : string;
  ref_Controller : option bool; ref_BlockOwnerDeletion : option bool }.

Record ObjectMeta := {
  om_Name : string; om_GenerateName : string; om_Namespace : string;
  om_UID : string; om_ResourceVersion : string;
  om_CreationTimestamp : option Z; om_DeletionTimestamp : option Z;
  om_Labels : gomap string; om_Annotations : gomap string;
  om_OwnerReferences : list OwnerReference; om_Finalizers : list string }.

(** [metav1.ObjectMeta{Name: name, Namespace: namespace}] *)
Definition NewObjectMeta (name namespace : string) : ObjectMeta := {|
  om_Name := name; om_GenerateName := ""; om_Namespace := namespace;
  om_UID := ""; om_ResourceVersion := "";
  om_CreationTimestamp := None; om_DeletionTimestamp := None;
  om_Labels := None; om_Annotations := None;
  om_OwnerReferences := []; om_Finalizers := [] |}.

(** [obj.CreationTimestamp.IsZero()] *)
Definition CreationTimestamp_IsZero (m : ObjectMeta) : bool := bool_decide (om_CreationTimestamp m = None).

Record NamespacedName := { nn_Namespace : string; nn_Name : string }.
#[global] Instance NamespacedName_eq_dec : EqDecision NamespacedName.
Proof. solve_decision. Defined.
#[global] Instance NamespacedName_countable : Countable NamespacedName.
Proof.
  refine (inj_countable' (λ n, (nn_Namespace n, nn_Name n))
    (λ p, {| nn_Namespace := p.1; nn_Name := p.2 |}) _). by intros [].
Defined.

Definition key_of_meta (m : ObjectMeta) : NamespacedName :=
  {| nn_Namespace := om_Namespace m; nn_Name := om_Name m |}.

Inductive IntOrString := IntVal (z : Z) | StrVal (s : string).
#[global] Instance IntOrString_eq_dec : EqDecision IntOrString.
Proof. solve_decision. Defined.

Record LabelSelectorRequirement := { lsr_Key : string; lsr_Operator : string; lsr_Values : list string }.
Record LabelSelector := {
  ls_MatchLabels : gomap string; ls_MatchExpressions : list LabelSelectorRequirement }.
#[global] Instance LabelSelectorRequirement_eq_dec : EqDecision LabelSelectorRequirement.
Proof. solve_decision. Defined.
#[global] Instance LabelSelector_eq_dec : EqDecision LabelSelector.
Proof. solve_decision. Defined.
Definition MatchLabelsSelector (l : gmap string string) : LabelSelector :=
  {| ls_MatchLabels := Some l; ls_MatchExpressions := [] |}.

(** ** Core objects *)
Record Secret := {
  sec_meta : ObjectMeta; sec_Immutable : option bool;
  sec_Data : gomap string; sec_StringData : gomap string; sec_Type : string }.
Record ConfigMap := {
  cm_meta : ObjectMeta; cm_Immutable : option bool; cm_Data : gomap string }.

Record ServicePort := {
  sp_Name : string; sp_Port : Z; sp_TargetPort : IntOrString;
  sp_AppProtocol : option string; sp_rest : Opaque }.
Record ServiceSpec := {
  svs_Ports : list ServicePort; svs_Selector : gomap string;
  svs_Type : string; svs_ClusterIP : string; svs_rest : Opaque }.
Record Service := { svc_meta : ObjectMeta; svc_Spec : ServiceSpec }.

Record ServiceAccount := { sa_meta : ObjectMeta; sa_rest : Opaque }.
Record Namespace := { ns_meta : ObjectMeta }.

Record VolumeResourceRequirements := { vrr_Requests : ResourceList; vrr_Limits : ResourceList }.
Record PersistentVolumeClaimSpec := {
  pvs_AccessModes : option (list string); pvs_Resources : VolumeResourceRequirements;
  pvs_VolumeName : string; pvs_StorageClassName : option string; pvs_rest : Opaque }.
Record PersistentVolumeClaim := { pvc_meta : ObjectMeta; pvc_Spec : PersistentVolumeClaimSpec }.

Record EndpointSlice := { eps_meta : ObjectMeta; eps_Endpoints : list (list string) (* addresses *) }.

(** ** Pods *)
Record KeyToPath := { kp_Key : string; kp_Path : string; kp_Mode : option Z }.
Record SecretVolumeSource := {
  svo_SecretName : string; svo_Items : list KeyToPath; svo_DefaultMode : option Z }.
Record ConfigMapVolumeSource := {
  cvo_Name : string; cvo_Items : list KeyToPath; cvo_DefaultMode : option Z }.
Record VolumeProjection := {
  vp_Secret : option (string * list KeyToPath); vp_ConfigMap : option (string * list KeyToPath);
  vp_rest : Opaque }.
Record EmptyDirVolumeSource := { ed_Medium : string; ed_SizeLimit : option Quantity }.
Record Volume := {
  vol_Name : string;
  vol_Secret : option SecretVolumeSource; vol_ConfigMap : option ConfigMapVolumeSource;
  vol_Projected : option (list VolumeProjection); vol_EmptyDir : option EmptyDirVolumeSource;
  vol_PersistentVolumeClaim : option string (* claim name *); vol_rest : Opaque }.
(** A volume with no source yet. *)
Definition NewVolume (name : string) : Volume := {|
  vol_Name := name; vol_Secret := None; vol_ConfigMap := None; vol_Projected := None;
  vol_EmptyDir := None; vol_PersistentVolumeClaim := None; vol_rest := [] |}.
Record VolumeMount := {
  vm_Name : string; vm_MountPath : string; vm_SubPath : string; vm_ReadOnly : bool }.

Record KeySelector := { ks_Name : string; ks_Key : string; ks_Optional : option bool }.
Record EnvVarSource := {
  evs_SecretKeyRef : option KeySelector; evs_ConfigMapKeyRef : option KeySelector;
  evs_FieldRef : option string (* field path *); evs_rest : Opaque }.
Record EnvVar := { env_Name : string; env_Value : string; env_ValueFrom : option EnvVarSource }.
(** [corev1.EnvVar{Name: n, Value: v}] *)
Definition Env (n v : string) : EnvVar := {| env_Name := n; env_Value := v; env_ValueFrom := None |}.
Definition EnvFromSecretKey (n : string) (k : KeySelector) : EnvVar := {|
  env_Name := n; env_Value := "";
  env_ValueFrom := Some {| evs_SecretKeyRef := Some k; evs_ConfigMapKeyRef := None;
    evs_FieldRef := None; evs_rest := [] |} |}.
Definition EnvFromField (n path : string) : EnvVar := {|
  env_Name := n; env_Value := "";
  env_ValueFrom := Some {| evs_SecretKeyRef := None; evs_ConfigMapKeyRef := None;
    evs_FieldRef := Some path; evs_rest := [] |} |}.
Record EnvFromSource := {
  ef_SecretRef : option (string * option bool); ef_ConfigMapRef : option (string * option bool) }.

Record HTTPGetAction := { hg_Path : string; hg_Port : IntOrString; hg_Scheme : string }.
Record ProbeHandler := { ph_Exec : option (list string); ph_HTTPGet : option HTTPGetAction }.
Record Probe := { pr_Handler : ProbeHandler; pr_FailureThreshold : Z; pr_rest : Opaque }.

Record SecurityContext := {
  sc_AllowPrivilegeEscalation : option bool; sc_RunAsNonRoot : option bool;
  sc_Drop : option (list string) (* Capabilities.Drop; None: no Capabilities *); sc_rest : Opaque }.
Record PodSecurityContext := {
  psc_FSGroup : option Z; psc_RunAsNonRoot : option bool;
  psc_SeccompProfile : option string (* type *); psc_rest : Opaque }.

Record ContainerPort := { cp_Name : string; cp_ContainerPort : Z; cp_Protocol : string }.
Record Container := {
  ct_Name : string; ct_Image : string; ct_ImagePullPolicy : string;
  ct_Command : list string; ct_Args : list string;
  ct_Ports : list ContainerPort; ct_EnvFrom : list EnvFromSource; ct_Env : list EnvVar;
  ct_Resources : ResourceRequirements; ct_VolumeMounts : list VolumeMount;
  ct_LivenessProbe : option Probe; ct_ReadinessProbe : option Probe; ct_StartupProbe : option Probe;
  ct_SecurityContext : option SecurityContext; ct_rest : Opaque }.
Definition NewContainer (name image pull : string) : Container := {|
  ct_Name := name; ct_Image := image; ct_ImagePullPolicy := pull;
  ct_Command := []; ct_Args := []; ct_Ports := []; ct_EnvFrom := []; ct_Env := [];
  ct_Resources := zero_ResourceRequirements; ct_VolumeMounts := [];
  ct_LivenessProbe := None; ct_ReadinessProbe := None; ct_StartupProbe := None;
  ct_SecurityContext := None; ct_rest := [] |}.

Record Toleration := { tol_rest : Opaque }.
Record Affinity := {
  aff_NodeAffinity : option Opaque; aff_PodAffinity : option Opaque; aff_PodAntiAffinity : option Opaque }.
Record PodSpec := {
  ps_ServiceAccountName : string; ps_AutomountServiceAccountToken : option bool;
  ps_Volumes : list Volume; ps_InitContainers : list Container; ps_Containers : list Container;
  ps_SecurityContext : option PodSecurityContext;
  ps_NodeSelector : gomap string; ps_Affinity : option Affinity;
  ps_Tolerations : list Toleration; ps_rest : Opaque }.
Record PodTemplateSpec := { pts_meta : ObjectMeta; pts_Spec : PodSpec }.
Record Pod := { pod_meta : ObjectMeta; pod_Spec : PodSpec }.

Record DeploymentCondition := {
  dc_Type : string; dc_Status : string; dc_Reason : string; dc_Message : string }.
Record DeploymentSpec := {
  ds_Replicas : option Z; ds_Selector : option LabelSelector;
  ds_Template : PodTemplateSpec; ds_Strategy : string (* type *); ds_rest : Opaque }.
Record Deployment := {
  dep_meta : ObjectMeta; dep_Spec : DeploymentSpec; dep_Conditions : list DeploymentCondition }.

(** ** RBAC *)
Record Subject := { sub_Kind : string; sub_Name : string; sub_Namespace : string }.
Record RoleRef := { rref_APIGroup : string; rref_Kind : string; rref_Name : string }.
#[global] Instance RoleRef_eq_dec : EqDecision RoleRef.
Proof. solve_decision. Defined.
Record Role := { role_meta : ObjectMeta; role_rest : Opaque }.
Record RoleBinding := { rb_meta : ObjectMeta; rb_Subjects : list Subject; rb_RoleRef : RoleRef }.
Record ClusterRoleBinding := {
  crb_meta : ObjectMeta; crb_Subjects : list Subject; crb_RoleRef : RoleRef }.

(** ** Networking *)
Record IngressRule := { igr_Host : string; igr_rest : Opaque }.
Record IngressSpec := {
  igs_Rules : option (list IngressRule); igs_TLS : option (list Opaque); igs_rest : Opaque }.
Record Ingress := { ing_meta : ObjectMeta; ing_Spec : IngressSpec }.

Record NetworkPolicyPeer := {
  npp_PodSelector : option LabelSelector; npp_NamespaceSelector : option LabelSelector;
  npp_IPBlock : option string (* CIDR *) }.
Record NetworkPolicyRule := { npr_Ports : list IntOrString; npr_Peers : list NetworkPolicyPeer }.
Record NetworkPolicySpec := {
  nps_PolicyTypes : list string; nps_PodSelector : LabelSelector;
  nps_Ingress : list NetworkPolicyRule; nps_Egress : list NetworkPolicyRule }.
Record NetworkPolicy := { np_meta : ObjectMeta; np_Spec : NetworkPolicySpec }.

(** ** OpenShift *)
Record RouteTLSConfig := {
  rtls_Termination : string; rtls_DestinationCACertificate : string;
  rtls_InsecureEdgeTerminationPolicy : string }.
Record RouteSpec := {
  rts_Host : string; rts_To_Kind : string; rts_To_Name : string;
  rts_Port : option IntOrString; rts_TLS : option RouteTLSConfig; rts_rest : Opaque }.
Record Route := { rt_meta : ObjectMeta; rt_Spec : RouteSpec; rt_Status_Ingress : list string (* hosts *) }.
Record ConsoleLink := {
  cl_meta : ObjectMeta; cl_Text : string; cl_Href : string; cl_Location : string;
  cl_NamespaceDashboard : option (list string) }.
Record APIServer := { as_meta : ObjectMeta; as_AdditionalCORSAllowedOrigins : list string; as_rest : Opaque }.
(** The console plugin, the console's configuration and the version of the cluster. *)
Record ConsolePluginService := {
  cps_BasePath : string; cps_Name : string; cps_Namespace : string; cps_Port : Z }.
Record ConsolePluginBackend := { cpb_Type : string; cpb_Service : option ConsolePluginService }.
Record ConsolePluginProxyServiceConfig := { cpps_Name : string; cpps_Namespace : string; cpps_Port : Z }.
Record ConsolePluginProxy := {
  cpp_Alias : string; cpp_Authorization : string; cpp_EndpointType : string;
  cpp_EndpointService : option ConsolePluginProxyServiceConfig; cpp_rest : Opaque }.
Record ConsolePlugin := {
  cpl_meta : ObjectMeta; cpl_DisplayName : string; cpl_Backend : ConsolePluginBackend; cpl_I18nLoadType : string;
  cpl_Proxy : list ConsolePluginProxy; cpl_rest : Opaque }.
Record Console := { con_meta : ObjectMeta; con_Plugins : list string; con_rest : Opaque }.
Record ClusterVersion := { cv_meta : ObjectMeta; cv_DesiredVersion : string; cv_rest : Opaque }.
(** [FieldSelectorAttributes] and [LabelSelectorAttributes], which have the same shape. *)
Record SelectorAttributes := { sa_RawSelector : string; sa_Requirements : list LabelSelectorRequirement }.
Record ResourceAttributes := {
  ra_Namespace : string; ra_Verb : string; ra_Group : string; ra_Version : string;
  ra_Resource : string; ra_Subresource : string; ra_Name : string;
  ra_FieldSelector : option SelectorAttributes; ra_LabelSelector : option SelectorAttributes }.

(** ** cert-manager *)
Record IssuerSpec := { iss_SelfSigned : bool; iss_CA : option string (* secret name *) }.
Record Issuer := { issu_meta : ObjectMeta; issu_Spec : IssuerSpec }.
Record PKCS12Keystore := {
  pk_Create : bool; pk_PasswordSecretName : string; pk_PasswordSecretKey : string; pk_Profile : string }.
(** [CertificateKeystores], of which only [PKCS12] is used. *)
Record CertificateKeystores := { cks_PKCS12 : option PKCS12Keystore }.
Record CertificateSpec := {
  cs_CommonName : string; cs_DNSNames : list string; cs_SecretName : string;
  cs_Keystores : option CertificateKeystores; cs_IssuerRef : string; cs_IsCA : bool;
  cs_Usages : list string; cs_rest : Opaque }.
#[global] Instance PKCS12Keystore_eq_dec : EqDecision PKCS12Keystore.
Proof. solve_decision. Defined.
#[global] Instance CertificateKeystores_eq_dec : EqDecision CertificateKeystores.
Proof. solve_decision. Defined.
#[global] Instance CertificateSpec_eq_dec : EqDecision CertificateSpec.
Proof. solve_decision. Defined.
Record CertificateCondition := { cc_Type : string; cc_Status : string }.
Record Certificate := {
  cert_meta : ObjectMeta; cert_Spec : CertificateSpec; cert_Conditions : list CertificateCondition }.

(** A condition of a custom resource's status. *)
Record Condition := { cond_Type : string; cond_Status : string; cond_Reason : string; cond_Message : string }.
#[global] Instance Condition_eq_dec : EqDecision Condition.
Proof. solve_decision. Defined.
