(* ===== verification/ApiV1beta2.v ===== *)
(** * The Cryostat custom resource, version v1beta2 (the hub version)

    One record per struct of [api/v1beta2/cryostat_types.go], with the struct's
    fields under a prefix; an embedded struct is a field of its own. *)

From S2P Require Export KubeTypes.
Open Scope Z_scope.

Record ResourceMetadata := { md_Annotations : gomap string; md_Labels : gomap string }.
Record OperandMetadata := {
  opm_DeploymentMetadata : option ResourceMetadata; opm_PodMetadata : option ResourceMetadata }.

Record ResourceConfigList := {
  rcl_AuthProxyResources : ResourceRequirements; rcl_CoreResources : ResourceRequirements;
  rcl_DataSourceResources : ResourceRequirements; rcl_GrafanaResources : ResourceRequirements;
  rcl_DatabaseResources : ResourceRequirements; rcl_ObjectStorageResources : ResourceRequirements;
  rcl_AgentProxyResources : ResourceRequirements }.

Record PersistentVolumeClaimConfig := {
  pcc_Spec : option PersistentVolumeClaimSpec; pcc_Metadata : ResourceMetadata }.
Record EmptyDirConfig := { edc_Enabled : bool; edc_Medium : string; edc_SizeLimit : string }.
Record StorageConfiguration := {
  stc_PVC : option PersistentVolumeClaimConfig; stc_EmptyDir : option EmptyDirConfig }.
Record LegacyStorageConfiguration := {
  lst_PVC : option PersistentVolumeClaimConfig; lst_EmptyDir : option EmptyDirConfig }.
Record StorageConfigurations := {
  sto_Database : option StorageConfiguration; sto_ObjectStorage : option StorageConfiguration;
  sto_Legacy : LegacyStorageConfiguration }.

(** The API's own [Affinity] struct has the three fields of [corev1.Affinity]. *)
Record SchedulingConfiguration := {
  sch_NodeSelector : gomap string; sch_Affinity : option Affinity; sch_Tolerations : list Toleration }.
Record ReportsSecurityOptions := {
  rso_PodSecurityContext : option PodSecurityContext;
  rso_ReportsSecurityContext : option SecurityContext }.
Record ReportConfiguration := {
  rpc_Replicas : Z; rpc_Resources : ResourceRequirements; rpc_SubProcessMaxHeapSize : Z;
  rpc_SecurityOptions : option ReportsSecurityOptions;
  rpc_SchedulingOptions : option SchedulingConfiguration }.

Record ServiceConfig := { svc_ServiceType : option string; svc_Metadata : ResourceMetadata }.
Record CoreServiceConfig := { csc_HTTPPort : option Z; csc_Service : ServiceConfig }.
Record ReportsServiceConfig := { rsc_HTTPPort : option Z; rsc_Service : ServiceConfig }.
Record DatabaseServiceConfig := { dsc_DatabasePort : option Z; dsc_Service : ServiceConfig }.
Record StorageServiceConfig := { ssc_HTTPPort : option Z; ssc_Service : ServiceConfig }.
Record AgentGatewayServiceConfig := { agc_HTTPPort : option Z; agc_Service : ServiceConfig }.
Record AgentCallbackServiceConfig := { acc_Metadata : ResourceMetadata }.
Record ServiceConfigList := {
  scl_CoreConfig : option CoreServiceConfig; scl_ReportsConfig : option ReportsServiceConfig;
  scl_DatabaseConfig : option DatabaseServiceConfig; scl_StorageConfig : option StorageServiceConfig;
  scl_AgentGatewayConfig : option AgentGatewayServiceConfig;
  scl_AgentCallbackConfig : option AgentCallbackServiceConfig }.

Record NetworkPolicyConfig := {
  npc_Disabled : option bool; npc_IngressDisabled : option bool; npc_EgressEnabled : option bool }.
Record NetworkPoliciesList := {
  npl_CoreConfig : option NetworkPolicyConfig; npl_ReportsConfig : option NetworkPolicyConfig;
  npl_DatabaseConfig : option NetworkPolicyConfig; npl_StorageConfig : option NetworkPolicyConfig }.
Record NetworkConfiguration := {
  nwc_ExternalHost : option string; nwc_IngressSpec : option IngressSpec;
  nwc_Metadata : ResourceMetadata }.
Record NetworkConfigurationList := { nwl_CoreConfig : option NetworkConfiguration }.

Record TargetConnectionCacheOptions := { tcc_TargetCacheSize : Z; tcc_TargetCacheTTL : Z }.
Record CertificateSecret := {
  cse_SecretName : string; cse_ConfigMapName : string; cse_CertificateKey : option string }.
Record DeclarativeCredential := { dcr_SecretName : string }.
Record ProbeTemplateConfigMap := { ptc_ConfigMapName : string; ptc_Filename : string }.
Record TemplateConfigMap := { tcm_ConfigMapName : string; tcm_Filename : string }.
Record AutomatedRuleConfigMap := { arc_ConfigMapName : string; arc_Filename : string }.

Record SecretFile := { sfi_SecretName : option string; sfi_Filename : option string }.
Record OpenShiftSSOConfig := { sso_Disable : option bool; sso_AccessReview : option ResourceAttributes }.
Record AuthorizationOptions := {
  auo_OpenShiftSSO : option OpenShiftSSOConfig; auo_BasicAuth : option SecretFile }.

Record SecurityOptions := {
  seo_PodSecurityContext : option PodSecurityContext;
  seo_AuthProxySecurityContext : option SecurityContext;
  seo_CoreSecurityContext : option SecurityContext;
  seo_DataSourceSecurityContext : option SecurityContext;
  seo_GrafanaSecurityContext : option SecurityContext;
  seo_StorageSecurityContext : option SecurityContext;
  seo_DatabaseSecurityContext : option SecurityContext;
  seo_AgentProxySecurityContext : option SecurityContext }.

Record TargetDiscoveryOptions := {
  tdo_DisableBuiltInDiscovery : bool; tdo_DisableBuiltInPortNames : bool;
  tdo_DiscoveryPortNames : list string; tdo_DisableBuiltInPortNumbers : bool;
  tdo_DiscoveryPortNumbers : list Z }.
Record DatabaseOptions := { dbo_SecretName : option string }.

Record ObjectStorageProviderOptions := {
  osp_URL : option string; osp_UseVirtualHostAccess : option bool;
  osp_DisablePresignedFileTransfers : option bool; osp_DisablePresignedDownloads : option bool;
  osp_Region : option string; osp_TLSTrustAll : option bool; osp_MetadataMode : option string }.
Record StorageBucketNameOptions := {
  sbn_ArchivedRecordings : option string; sbn_ArchivedReports : option string;
  sbn_EventTemplates : option string; sbn_JMCAgentProbeTemplates : option string;
  sbn_HeapDumps : option string; sbn_ThreadDumps : option string; sbn_Metadata : option string }.
Record ObjectStorageOptions := {
  oso_SecretName : option string; oso_Provider : option ObjectStorageProviderOptions;
  oso_StorageBucketNameOptions : option StorageBucketNameOptions }.

Record AgentOptions := {
  ago_DisableHostnameVerification : bool; ago_AllowInsecure : bool;
  ago_Resources : ResourceRequirements }.
Record LoggingOptions := { lgo_CoreLogLevel : option string }.

Record CryostatSpec := {
  spec_TargetNamespaces : option (list string);
  spec_TrustedCertSecrets : option (list CertificateSecret);
  spec_AutomatedRules : list AutomatedRuleConfigMap;
  spec_EventTemplates : option (list TemplateConfigMap);
  spec_ProbeTemplates : list ProbeTemplateConfigMap;
  spec_DeclarativeCredentials : list DeclarativeCredential;
  spec_EnableCertManager : option bool;
  spec_StorageOptions : option StorageConfigurations;
  spec_ServiceOptions : option ServiceConfigList;
  spec_NetworkPolicies : option NetworkPoliciesList;
  spec_NetworkOptions : option NetworkConfigurationList;
  spec_ReportOptions : option ReportConfiguration;
  spec_EnableAudit : option bool;
  spec_TargetConnectionCacheOptions : option TargetConnectionCacheOptions;
  spec_Resources : option ResourceConfigList;
  spec_AuthorizationOptions : option AuthorizationOptions;
  spec_SecurityOptions : option SecurityOptions;
  spec_SchedulingOptions : option SchedulingConfiguration;
  spec_TargetDiscoveryOptions : option TargetDiscoveryOptions;
  spec_DatabaseOptions : option DatabaseOptions;
  spec_ObjectStorageOptions : option ObjectStorageOptions;
  spec_OperandMetadata : option OperandMetadata;
  spec_AgentOptions : option AgentOptions;
  spec_LoggingOptions : option LoggingOptions }.

Record CryostatStatus := {
  st_TargetNamespaces : list string; st_Conditions : list Condition;
  st_ApplicationURL : string; st_StorageSecret : string; st_DatabaseSecret : string }.

Record Cryostat := { cr_meta : ObjectMeta; cr_Spec : CryostatSpec; cr_Status : CryostatStatus }.

(** The zero value of each struct that is allocated empty. *)
Definition zero_ResourceMetadata : ResourceMetadata := {| md_Annotations := None; md_Labels := None |}.
Definition zero_ServiceConfig : ServiceConfig :=
  {| svc_ServiceType := None; svc_Metadata := zero_ResourceMetadata |}.
Definition zero_LegacyStorageConfiguration : LegacyStorageConfiguration :=
  {| lst_PVC := None; lst_EmptyDir := None |}.
Definition zero_CryostatSpec : CryostatSpec := {|
  spec_TargetNamespaces := None; spec_TrustedCertSecrets := None; spec_AutomatedRules := [];
  spec_EventTemplates := None; spec_ProbeTemplates := []; spec_DeclarativeCredentials := [];
  spec_EnableCertManager := None; spec_StorageOptions := None; spec_ServiceOptions := None;
  spec_NetworkPolicies := None; spec_NetworkOptions := None; spec_ReportOptions := None;
  spec_EnableAudit := None; spec_TargetConnectionCacheOptions := None; spec_Resources := None;
  spec_AuthorizationOptions := None; spec_SecurityOptions := None; spec_SchedulingOptions := None;
  spec_TargetDiscoveryOptions := None; spec_DatabaseOptions := None;
  spec_ObjectStorageOptions := None; spec_OperandMetadata := None; spec_AgentOptions := None;
  spec_LoggingOptions := None |}.
Definition zero_CryostatStatus : CryostatStatus := {|
  st_TargetNamespaces := []; st_Conditions := []; st_ApplicationURL := "";
  st_StorageSecret := ""; st_DatabaseSecret := "" |}.

(** The condition types the operator sets. *)
Definition ConditionTypeMainDeploymentAvailable : string := "MainDeploymentAvailable".
Definition ConditionTypeMainDeploymentProgressing : string := "MainDeploymentProgressing".
Definition ConditionTypeMainDeploymentReplicaFailure : string := "MainDeploymentReplicaFailure".
Definition ConditionTypeDatabaseDeploymentAvailable : string := "DatabaseDeploymentAvailable".
Definition ConditionTypeDatabaseDeploymentProgressing : string := "DatabaseDeploymentProgressing".
Definition ConditionTypeDatabaseDeploymentReplicaFailure : string := "DatabaseDeploymentReplicaFailure".
Definition ConditionTypeStorageDeploymentAvailable : string := "StorageDeploymentAvailable".
Definition ConditionTypeStorageDeploymentProgressing : string := "StorageDeploymentProgressing".
Definition ConditionTypeStorageDeploymentReplicaFailure : string := "StorageDeploymentReplicaFailure".
Definition ConditionTypeReportsDeploymentAvailable : string := "ReportsDeploymentAvailable".
Definition ConditionTypeReportsDeploymentProgressing : string := "ReportsDeploymentProgressing".
Definition ConditionTypeReportsDeploymentReplicaFailure : string := "ReportsDeploymentReplicaFailure".
Definition ConditionTypeTLSSetupComplete : string := "TLSSetupComplete".

Definition DefaultCertificateKey : string := "tls.crt".
Definition DefaultConfigMapCertificateKey : string := "service-ca.crt".
