(* ===== verification/ApiV1beta1.v ===== *)
(** * The Cryostat custom resource, version v1beta1 (the spoke version)

    One record per struct of [api/v1beta1/cryostat_types.go].  Other files refer to
    these records by qualified names, since v1beta2 has most of the same ones. *)

From S2P Require Export KubeTypes.
Open Scope Z_scope.

Record ResourceMetadata := { md_Annotations : gomap string; md_Labels : gomap string }.
Record OperandMetadata := {
  opm_DeploymentMetadata : option ResourceMetadata; opm_PodMetadata : option ResourceMetadata }.
Record ResourceConfigList := {
  rcl_CoreResources : ResourceRequirements; rcl_DataSourceResources : ResourceRequirements;
  rcl_GrafanaResources : ResourceRequirements }.

Record PersistentVolumeClaimConfig := {
  pcc_Annotations : gomap string; pcc_Labels : gomap string;
  pcc_Spec : option PersistentVolumeClaimSpec }.
Record EmptyDirConfig := { edc_Enabled : bool; edc_Medium : string; edc_SizeLimit : string }.
Record StorageConfiguration := {
  stc_PVC : option PersistentVolumeClaimConfig; stc_EmptyDir : option EmptyDirConfig }.

Record SchedulingConfiguration := {
  sch_NodeSelector : gomap string; sch_Affinity : option Affinity; sch_Tolerations : list Toleration }.
Record ReportsSecurityOptions := {
  rso_PodSecurityContext : option PodSecurityContext;
  rso_ReportsSecurityContext : option SecurityContext }.
Record ReportConfiguration := {
  rpc_Replicas : Z; rpc_Resources : ResourceRequirements; rpc_SubProcessMaxHeapSize : Z;
  rpc_SecurityOptions : option ReportsSecurityOptions;
  rpc_SchedulingOptions : option SchedulingConfiguration }.

Record ServiceConfig := {
  svc_ServiceType : option string; svc_Annotations : gomap string; svc_Labels : gomap string }.
Record CoreServiceConfig := {
  csc_HTTPPort : option Z; csc_JMXPort : option Z; csc_Service : ServiceConfig }.
Record GrafanaServiceConfig := { gsc_HTTPPort : option Z; gsc_Service : ServiceConfig }.
Record StorageServiceConfig := { ssc_HTTPPort : option Z; ssc_Service : ServiceConfig }.
Record ReportsServiceConfig := { rsc_HTTPPort : option Z; rsc_Service : ServiceConfig }.
Record ServiceConfigList := {
  scl_CoreConfig : option CoreServiceConfig; scl_GrafanaConfig : option GrafanaServiceConfig;
  scl_ReportsConfig : option ReportsServiceConfig; scl_StorageConfig : option StorageServiceConfig }.

Record NetworkConfiguration := {
  nwc_IngressSpec : option IngressSpec; nwc_Annotations : gomap string; nwc_Labels : gomap string }.
Record NetworkConfigurationList := {
  nwl_CoreConfig : option NetworkConfiguration; nwl_CommandConfig : option NetworkConfiguration;
  nwl_GrafanaConfig : option NetworkConfiguration }.

Record JmxCacheOptions := { jco_TargetCacheSize : Z; jco_TargetCacheTTL : Z }.
Record CertificateSecret := { cse_SecretName : string; cse_CertificateKey : option string }.
Record TemplateConfigMap := { tcm_ConfigMapName : string; tcm_Filename : string }.
Record AuthorizationProperties := {
  aup_ClusterRoleName : string; aup_ConfigMapName : string; aup_Filename : string }.
Record SecurityOptions := {
  seo_PodSecurityContext : option PodSecurityContext;
  seo_CoreSecurityContext : option SecurityContext;
  seo_DataSourceSecurityContext : option SecurityContext;
  seo_GrafanaSecurityContext : option SecurityContext;
  seo_StorageSecurityContext : option SecurityContext;
  seo_DatabaseSecurityContext : option SecurityContext }.
Record TargetDiscoveryOptions := {
  tdo_BuiltInDiscoveryDisabled : bool; tdo_DisableBuiltInPortNames : bool;
  tdo_DiscoveryPortNames : list string; tdo_DisableBuiltInPortNumbers : bool;
  tdo_DiscoveryPortNumbers : list Z }.
Record JmxCredentialsDatabaseOptions := { jcd_DatabaseSecretName : option string }.

Record CryostatSpec := {
  spec_Minimal : bool;
  spec_TrustedCertSecrets : option (list CertificateSecret);
  spec_EventTemplates : option (list TemplateConfigMap);
  spec_EnableCertManager : option bool;
  spec_StorageOptions : option StorageConfiguration;
  spec_ServiceOptions : option ServiceConfigList;
  spec_NetworkOptions : option NetworkConfigurationList;
  spec_ReportOptions : option ReportConfiguration;
  spec_MaxWsConnections : Z;
  spec_JmxCacheOptions : option JmxCacheOptions;
  spec_Resources : option ResourceConfigList;
  spec_AuthProperties : option AuthorizationProperties;
  spec_SecurityOptions : option SecurityOptions;
  spec_SchedulingOptions : option SchedulingConfiguration;
  spec_TargetDiscoveryOptions : option TargetDiscoveryOptions;
  spec_JmxCredentialsDatabaseOptions : option JmxCredentialsDatabaseOptions;
  spec_OperandMetadata : option OperandMetadata }.

Record CryostatStatus := {
  st_Conditions : list Condition; st_GrafanaSecret : string; st_ApplicationURL : string }.
Record Cryostat := { cr_meta : ObjectMeta; cr_Spec : CryostatSpec; cr_Status : CryostatStatus }.

Definition zero_CryostatSpec : CryostatSpec := {|
  spec_Minimal := false; spec_TrustedCertSecrets := None; spec_EventTemplates := None;
  spec_EnableCertManager := None; spec_StorageOptions := None; spec_ServiceOptions := None;
  spec_NetworkOptions := None; spec_ReportOptions := None; spec_MaxWsConnections := 0;
  spec_JmxCacheOptions := None; spec_Resources := None; spec_AuthProperties := None;
  spec_SecurityOptions := None; spec_SchedulingOptions := None;
  spec_TargetDiscoveryOptions := None; spec_JmxCredentialsDatabaseOptions := None;
  spec_OperandMetadata := None |}.
Definition zero_CryostatStatus : CryostatStatus :=
  {| st_Conditions := []; st_GrafanaSecret := ""; st_ApplicationURL := "" |}.
