(* ===== verification/Conversion.v ===== *)
(** * Conversion between v1beta1 and v1beta2

    [api/v1beta1/cryostat_conversion.go]: [ConvertTo] (spoke to hub), [ConvertFrom]
    (hub to spoke) and their helpers.  A converter receives the destination object and
    assigns some of its fields, so the destination is an argument and the fields that
    are not assigned keep its values.  The theorems say exactly which v1beta1 resources
    survive a round trip, and what every other one becomes. *)

From S2P Require Export KubeTypes.
From S2P Require ApiV1beta1 ApiV1beta2.
Open Scope Z_scope.

Module V1 := ApiV1beta1.
Module V2 := ApiV1beta2.

(** ** v1beta1 to v1beta2 *)

Definition convertCertSecretsTo (srcCerts : option (list V1.CertificateSecret))
  : option (list V2.CertificateSecret) :=
  (λ l, (λ cert, {| V2.cse_SecretName := V1.cse_SecretName cert;
                    V2.cse_ConfigMapName := "";
                    V2.cse_CertificateKey := V1.cse_CertificateKey cert |}) <$> l) <?> srcCerts.

Definition convertEventTemplatesTo (srcTemplates : option (list V1.TemplateConfigMap))
  : option (list V2.TemplateConfigMap) :=
  (λ l, (λ t, {| V2.tcm_ConfigMapName := V1.tcm_ConfigMapName t;
                 V2.tcm_Filename := V1.tcm_Filename t |}) <$> l) <?> srcTemplates.

Definition convertStorageOptionsTo (srcOpts : option V1.StorageConfiguration)
  : option V2.StorageConfigurations :=
  (λ o, {| V2.sto_Database := None; V2.sto_ObjectStorage := None;
           V2.sto_Legacy := {|
             V2.lst_PVC := (λ p, {| V2.pcc_Spec := V1.pcc_Spec p;
               V2.pcc_Metadata := {| V2.md_Annotations := V1.pcc_Annotations p;
                                     V2.md_Labels := V1.pcc_Labels p |} |}) <?> V1.stc_PVC o;
             V2.lst_EmptyDir := (λ e, {| V2.edc_Enabled := V1.edc_Enabled e;
               V2.edc_Medium := V1.edc_Medium e;
               V2.edc_SizeLimit := V1.edc_SizeLimit e |}) <?> V1.stc_EmptyDir o |} |}) <?> srcOpts.

Definition convertServiceConfigTo (srcConfig : V1.ServiceConfig) : V2.ServiceConfig :=
  {| V2.svc_ServiceType := V1.svc_ServiceType srcConfig;
     V2.svc_Metadata := {| V2.md_Annotations := V1.svc_Annotations srcConfig;
                           V2.md_Labels := V1.svc_Labels srcConfig |} |}.

Definition convertServiceOptionsTo (srcOpts : option V1.ServiceConfigList)
  : option V2.ServiceConfigList :=
  (λ o, {| V2.scl_CoreConfig := (λ c, {| V2.csc_HTTPPort := V1.csc_HTTPPort c;
             V2.csc_Service := convertServiceConfigTo (V1.csc_Service c) |}) <?> V1.scl_CoreConfig o;
           V2.scl_ReportsConfig := (λ c, {| V2.rsc_HTTPPort := V1.rsc_HTTPPort c;
             V2.rsc_Service := convertServiceConfigTo (V1.rsc_Service c) |}) <?> V1.scl_ReportsConfig o;
           V2.scl_DatabaseConfig := None; V2.scl_StorageConfig := None;
           V2.scl_AgentGatewayConfig := None; V2.scl_AgentCallbackConfig := None |}) <?> srcOpts.

Definition convertNetworkConfigTo (srcConfig : option V1.NetworkConfiguration)
  : option V2.NetworkConfiguration :=
  (λ c, {| V2.nwc_ExternalHost := None; V2.nwc_IngressSpec := V1.nwc_IngressSpec c;
           V2.nwc_Metadata := {| V2.md_Annotations := V1.nwc_Annotations c;
                                 V2.md_Labels := V1.nwc_Labels c |} |}) <?> srcConfig.

Definition convertNetworkOptionsTo (srcOpts : option V1.NetworkConfigurationList)
  : option V2.NetworkConfigurationList :=
  (λ o, {| V2.nwl_CoreConfig := convertNetworkConfigTo (V1.nwl_CoreConfig o) |}) <?> srcOpts.

Definition convertSchedulingOptionsTo (srcOpts : option V1.SchedulingConfiguration)
  : option V2.SchedulingConfiguration :=
  (λ o, {| V2.sch_NodeSelector := V1.sch_NodeSelector o;
           V2.sch_Affinity := (λ a, {| aff_NodeAffinity := aff_NodeAffinity a;
             aff_PodAffinity := aff_PodAffinity a;
             aff_PodAntiAffinity := aff_PodAntiAffinity a |}) <?> V1.sch_Affinity o;
           V2.sch_Tolerations := V1.sch_Tolerations o |}) <?> srcOpts.

Definition convertReportOptionsTo (srcOpts : option V1.ReportConfiguration)
  : option V2.ReportConfiguration :=
  (λ o, {| V2.rpc_Replicas := V1.rpc_Replicas o; V2.rpc_Resources := V1.rpc_Resources o;
           V2.rpc_SubProcessMaxHeapSize := V1.rpc_SubProcessMaxHeapSize o;
           V2.rpc_SecurityOptions := (λ s, {|
             V2.rso_PodSecurityContext := V1.rso_PodSecurityContext s;
             V2.rso_ReportsSecurityContext := V1.rso_ReportsSecurityContext s |})
               <?> V1.rpc_SecurityOptions o;
           V2.rpc_SchedulingOptions := convertSchedulingOptionsTo (V1.rpc_SchedulingOptions o) |})
    <?> srcOpts.

Definition convertJmxCacheOptionsTo (srcOpts : option V1.JmxCacheOptions)
  : option V2.TargetConnectionCacheOptions :=
  (λ o, {| V2.tcc_TargetCacheSize := V1.jco_TargetCacheSize o;
           V2.tcc_TargetCacheTTL := V1.jco_TargetCacheTTL o |}) <?> srcOpts.

Definition convertResourceOptionsTo (srcOpts : option V1.ResourceConfigList)
  : option V2.ResourceConfigList :=
  (λ o, {| V2.rcl_AuthProxyResources := zero_ResourceRequirements;
           V2.rcl_CoreResources := V1.rcl_CoreResources o;
           V2.rcl_DataSourceResources := V1.rcl_DataSourceResources o;
           V2.rcl_GrafanaResources := V1.rcl_GrafanaResources o;
           V2.rcl_DatabaseResources := zero_ResourceRequirements;
           V2.rcl_ObjectStorageResources := zero_ResourceRequirements;
           V2.rcl_AgentProxyResources := zero_ResourceRequirements |}) <?> srcOpts.

Definition convertSecurityOptionsTo (srcOpts : option V1.SecurityOptions)
  : option V2.SecurityOptions :=
  (λ o, {| V2.seo_PodSecurityContext := V1.seo_PodSecurityContext o;
           V2.seo_AuthProxySecurityContext := None;
           V2.seo_CoreSecurityContext := V1.seo_CoreSecurityContext o;
           V2.seo_DataSourceSecurityContext := V1.seo_DataSourceSecurityContext o;
           V2.seo_GrafanaSecurityContext := V1.seo_GrafanaSecurityContext o;
           V2.seo_StorageSecurityContext := None;
           V2.seo_DatabaseSecurityContext := None;
           V2.seo_AgentProxySecurityContext := None |}) <?> srcOpts.

Definition convertTargetDiscoveryTo (srcOpts : option V1.TargetDiscoveryOptions)
  : option V2.TargetDiscoveryOptions :=
  (λ o, {| V2.tdo_DisableBuiltInDiscovery := V1.tdo_BuiltInDiscoveryDisabled o;
           V2.tdo_DisableBuiltInPortNames := V1.tdo_DisableBuiltInPortNames o;
           V2.tdo_DiscoveryPortNames := V1.tdo_DiscoveryPortNames o;
           V2.tdo_DisableBuiltInPortNumbers := V1.tdo_DisableBuiltInPortNumbers o;
           V2.tdo_DiscoveryPortNumbers := V1.tdo_DiscoveryPortNumbers o |}) <?> srcOpts.

Definition convertDatabaseOptionsTo (srcOpts : option V1.JmxCredentialsDatabaseOptions)
  : option V2.DatabaseOptions :=
  (λ o, {| V2.dbo_SecretName := V1.jcd_DatabaseSecretName o |}) <?> srcOpts.

Definition convertResourceMetadataTo (srcMeta : option V1.ResourceMetadata)
  : option V2.ResourceMetadata :=
  (λ m, {| V2.md_Annotations := V1.md_Annotations m; V2.md_Labels := V1.md_Labels m |}) <?> srcMeta.

Definition convertOperandMetadataTo (srcOpts : option V1.OperandMetadata)
  : option V2.OperandMetadata :=
  (λ o, {| V2.opm_DeploymentMetadata := convertResourceMetadataTo (V1.opm_DeploymentMetadata o);
           V2.opm_PodMetadata := convertResourceMetadataTo (V1.opm_PodMetadata o) |}) <?> srcOpts.

Definition convertSpecTo (src : V1.CryostatSpec) (dst : V2.CryostatSpec) : V2.CryostatSpec :=
  dst <| V2.spec_EnableCertManager := V1.spec_EnableCertManager src |>
      <| V2.spec_TrustedCertSecrets := convertCertSecretsTo (V1.spec_TrustedCertSecrets src) |>
      <| V2.spec_EventTemplates := convertEventTemplatesTo (V1.spec_EventTemplates src) |>
      <| V2.spec_StorageOptions := convertStorageOptionsTo (V1.spec_StorageOptions src) |>
      <| V2.spec_ServiceOptions := convertServiceOptionsTo (V1.spec_ServiceOptions src) |>
      <| V2.spec_NetworkOptions := convertNetworkOptionsTo (V1.spec_NetworkOptions src) |>
      <| V2.spec_ReportOptions := convertReportOptionsTo (V1.spec_ReportOptions src) |>
      <| V2.spec_TargetConnectionCacheOptions := convertJmxCacheOptionsTo (V1.spec_JmxCacheOptions src) |>
      <| V2.spec_Resources := convertResourceOptionsTo (V1.spec_Resources src) |>
      <| V2.spec_SecurityOptions := convertSecurityOptionsTo (V1.spec_SecurityOptions src) |>
      <| V2.spec_SchedulingOptions := convertSchedulingOptionsTo (V1.spec_SchedulingOptions src) |>
      <| V2.spec_TargetDiscoveryOptions := convertTargetDiscoveryTo (V1.spec_TargetDiscoveryOptions src) |>
      <| V2.spec_DatabaseOptions := convertDatabaseOptionsTo (V1.spec_JmxCredentialsDatabaseOptions src) |>
      <| V2.spec_OperandMetadata := convertOperandMetadataTo (V1.spec_OperandMetadata src) |>.

Definition convertStatusTo (src : V1.CryostatStatus) (dst : V2.CryostatStatus) : V2.CryostatStatus :=
  dst <| V2.st_ApplicationURL := V1.st_ApplicationURL src |>
      <| V2.st_Conditions := V1.st_Conditions src |>.

Definition ConvertTo (src : V1.Cryostat) (dst : V2.Cryostat) : res V2.Cryostat :=
  let spec := convertSpecTo (V1.cr_Spec src) (V2.cr_Spec dst) in
  let status := convertStatusTo (V1.cr_Status src) (V2.cr_Status dst) in
  let ns := om_Namespace (V1.cr_meta src) in
  Ok {| V2.cr_meta := V1.cr_meta src;
        V2.cr_Spec := spec <| V2.spec_TargetNamespaces := Some [ns] |>;
        V2.cr_Status := status <| V2.st_TargetNamespaces := [ns] |> |}.

(** ** v1beta2 to v1beta1 *)

Definition convertCertSecretsFrom (srcCerts : option (list V2.CertificateSecret))
  : option (list V1.CertificateSecret) :=
  (λ l, (λ cert, {| V1.cse_SecretName := V2.cse_SecretName cert;
                    V1.cse_CertificateKey := V2.cse_CertificateKey cert |}) <$> l) <?> srcCerts.

Definition convertEventTemplatesFrom (srcTemplates : option (list V2.TemplateConfigMap))
  : option (list V1.TemplateConfigMap) :=
  (λ l, (λ t, {| V1.tcm_ConfigMapName := V2.tcm_ConfigMapName t;
                 V1.tcm_Filename := V2.tcm_Filename t |}) <$> l) <?> srcTemplates.

(** [srcOpts.PVC] and [srcOpts.EmptyDir] are the fields promoted from the embedded
    legacy configuration. *)
Definition convertStorageOptionsFrom (srcOpts : option V2.StorageConfigurations)
  : option V1.StorageConfiguration :=
  (λ o, {| V1.stc_PVC := (λ p, {|
             V1.pcc_Annotations := V2.md_Annotations (V2.pcc_Metadata p);
             V1.pcc_Labels := V2.md_Labels (V2.pcc_Metadata p);
             V1.pcc_Spec := V2.pcc_Spec p |}) <?> V2.lst_PVC (V2.sto_Legacy o);
           V1.stc_EmptyDir := (λ e, {| V1.edc_Enabled := V2.edc_Enabled e;
             V1.edc_Medium := V2.edc_Medium e;
             V1.edc_SizeLimit := V2.edc_SizeLimit e |}) <?> V2.lst_EmptyDir (V2.sto_Legacy o) |})
    <?> srcOpts.

Definition convertServiceConfigFrom (srcConfig : V2.ServiceConfig) : V1.ServiceConfig :=
  {| V1.svc_ServiceType := V2.svc_ServiceType srcConfig;
     V1.svc_Annotations := V2.md_Annotations (V2.svc_Metadata srcConfig);
     V1.svc_Labels := V2.md_Labels (V2.svc_Metadata srcConfig) |}.

Definition convertServiceOptionsFrom (srcOpts : option V2.ServiceConfigList)
  : option V1.ServiceConfigList :=
  (λ o, {| V1.scl_CoreConfig := (λ c, {| V1.csc_HTTPPort := V2.csc_HTTPPort c; V1.csc_JMXPort := None;
             V1.csc_Service := convertServiceConfigFrom (V2.csc_Service c) |}) <?> V2.scl_CoreConfig o;
           V1.scl_GrafanaConfig := None;
           V1.scl_ReportsConfig := (λ c, {| V1.rsc_HTTPPort := V2.rsc_HTTPPort c;
             V1.rsc_Service := convertServiceConfigFrom (V2.rsc_Service c) |}) <?> V2.scl_ReportsConfig o;
           V1.scl_StorageConfig := None |}) <?> srcOpts.

Definition convertNetworkConfigFrom (srcConfig : option V2.NetworkConfiguration)
  : option V1.NetworkConfiguration :=
  (λ c, {| V1.nwc_IngressSpec := V2.nwc_IngressSpec c;
           V1.nwc_Annotations := V2.md_Annotations (V2.nwc_Metadata c);
           V1.nwc_Labels := V2.md_Labels (V2.nwc_Metadata c) |}) <?> srcConfig.

Definition convertNetworkOptionsFrom (srcOpts : option V2.NetworkConfigurationList)
  : option V1.NetworkConfigurationList :=
  (λ o, {| V1.nwl_CoreConfig := convertNetworkConfigFrom (V2.nwl_CoreConfig o);
           V1.nwl_CommandConfig := None; V1.nwl_GrafanaConfig := None |}) <?> srcOpts.

Definition convertSchedulingOptionsFrom (srcOpts : option V2.SchedulingConfiguration)
  : option V1.SchedulingConfiguration :=
  (λ o, {| V1.sch_NodeSelector := V2.sch_NodeSelector o;
           V1.sch_Affinity := (λ a, {| aff_NodeAffinity := aff_NodeAffinity a;
             aff_PodAffinity := aff_PodAffinity a;
             aff_PodAntiAffinity := aff_PodAntiAffinity a |}) <?> V2.sch_Affinity o;
           V1.sch_Tolerations := V2.sch_Tolerations o |}) <?> srcOpts.

Definition convertReportOptionsFrom (srcOpts : option V2.ReportConfiguration)
  : option V1.ReportConfiguration :=
  (λ o, {| V1.rpc_Replicas := V2.rpc_Replicas o; V1.rpc_Resources := V2.rpc_Resources o;
           V1.rpc_SubProcessMaxHeapSize := V2.rpc_SubProcessMaxHeapSize o;
           V1.rpc_SecurityOptions := (λ s, {|
             V1.rso_PodSecurityContext := V2.rso_PodSecurityContext s;
             V1.rso_ReportsSecurityContext := V2.rso_ReportsSecurityContext s |})
               <?> V2.rpc_SecurityOptions o;
           V1.rpc_SchedulingOptions := convertSchedulingOptionsFrom (V2.rpc_SchedulingOptions o) |})
    <?> srcOpts.

Definition convertJmxCacheOptionsFrom (srcOpts : option V2.TargetConnectionCacheOptions)
  : option V1.JmxCacheOptions :=
  (λ o, {| V1.jco_TargetCacheSize := V2.tcc_TargetCacheSize o;
           V1.jco_TargetCacheTTL := V2.tcc_TargetCacheTTL o |}) <?> srcOpts.

Definition convertResourceOptionsFrom (srcOpts : option V2.ResourceConfigList)
  : option V1.ResourceConfigList :=
  (λ o, {| V1.rcl_CoreResources := V2.rcl_CoreResources o;
           V1.rcl_DataSourceResources := V2.rcl_DataSourceResources o;
           V1.rcl_GrafanaResources := V2.rcl_GrafanaResources o |}) <?> srcOpts.

Definition convertSecurityOptionsFrom (srcOpts : option V2.SecurityOptions)
  : option V1.SecurityOptions :=
  (λ o, {| V1.seo_PodSecurityContext := V2.seo_PodSecurityContext o;
           V1.seo_CoreSecurityContext := V2.seo_CoreSecurityContext o;
           V1.seo_DataSourceSecurityContext := V2.seo_DataSourceSecurityContext o;
           V1.seo_GrafanaSecurityContext := V2.seo_GrafanaSecurityContext o;
           V1.seo_StorageSecurityContext := None;
           V1.seo_DatabaseSecurityContext := None |}) <?> srcOpts.

Definition convertTargetDiscoveryFrom (srcOpts : option V2.TargetDiscoveryOptions)
  : option V1.TargetDiscoveryOptions :=
  (λ o, {| V1.tdo_BuiltInDiscoveryDisabled := V2.tdo_DisableBuiltInDiscovery o;
           V1.tdo_DisableBuiltInPortNames := V2.tdo_DisableBuiltInPortNames o;
           V1.tdo_DiscoveryPortNames := V2.tdo_DiscoveryPortNames o;
           V1.tdo_DisableBuiltInPortNumbers := V2.tdo_DisableBuiltInPortNumbers o;
           V1.tdo_DiscoveryPortNumbers := V2.tdo_DiscoveryPortNumbers o |}) <?> srcOpts.

Definition convertDatabaseOptionsFrom (srcOpts : option V2.DatabaseOptions)
  : option V1.JmxCredentialsDatabaseOptions :=
  (λ o, {| V1.jcd_DatabaseSecretName := V2.dbo_SecretName o |}) <?> srcOpts.

Definition convertResourceMetadataFrom (srcMeta : option V2.ResourceMetadata)
  : option V1.ResourceMetadata :=
  (λ m, {| V1.md_Annotations := V2.md_Annotations m; V1.md_Labels := V2.md_Labels m |}) <?> srcMeta.

Definition convertOperandMetadataFrom (srcOpts : option V2.OperandMetadata)
  : option V1.OperandMetadata :=
  (λ o, {| V1.opm_DeploymentMetadata := convertResourceMetadataFrom (V2.opm_DeploymentMetadata o);
           V1.opm_PodMetadata := convertResourceMetadataFrom (V2.opm_PodMetadata o) |}) <?> srcOpts.

Definition convertSpecFrom (src : V2.CryostatSpec) (dst : V1.CryostatSpec) : V1.CryostatSpec :=
  dst <| V1.spec_EnableCertManager := V2.spec_EnableCertManager src |>
      <| V1.spec_TrustedCertSecrets := convertCertSecretsFrom (V2.spec_TrustedCertSecrets src) |>
      <| V1.spec_EventTemplates := convertEventTemplatesFrom (V2.spec_EventTemplates src) |>
      <| V1.spec_StorageOptions := convertStorageOptionsFrom (V2.spec_StorageOptions src) |>
      <| V1.spec_ServiceOptions := convertServiceOptionsFrom (V2.spec_ServiceOptions src) |>
      <| V1.spec_NetworkOptions := convertNetworkOptionsFrom (V2.spec_NetworkOptions src) |>
      <| V1.spec_ReportOptions := convertReportOptionsFrom (V2.spec_ReportOptions src) |>
      <| V1.spec_JmxCacheOptions := convertJmxCacheOptionsFrom (V2.spec_TargetConnectionCacheOptions src) |>
      <| V1.spec_Resources := convertResourceOptionsFrom (V2.spec_Resources src) |>
      <| V1.spec_SecurityOptions := convertSecurityOptionsFrom (V2.spec_SecurityOptions src) |>
      <| V1.spec_SchedulingOptions := convertSchedulingOptionsFrom (V2.spec_SchedulingOptions src) |>
      <| V1.spec_TargetDiscoveryOptions := convertTargetDiscoveryFrom (V2.spec_TargetDiscoveryOptions src) |>
      <| V1.spec_JmxCredentialsDatabaseOptions := convertDatabaseOptionsFrom (V2.spec_DatabaseOptions src) |>
      <| V1.spec_OperandMetadata := convertOperandMetadataFrom (V2.spec_OperandMetadata src) |>.

Definition convertStatusFrom (src : V2.CryostatStatus) (dst : V1.CryostatStatus) : V1.CryostatStatus :=
  dst <| V1.st_ApplicationURL := V2.st_ApplicationURL src |>
      <| V1.st_Conditions := V2.st_Conditions src |>.

Definition ConvertFrom (src : V2.Cryostat) (dst : V1.Cryostat) : res V1.Cryostat :=
  Ok {| V1.cr_meta := V2.cr_meta src;
        V1.cr_Spec := convertSpecFrom (V2.cr_Spec src) (V1.cr_Spec dst);
        V1.cr_Status := convertStatusFrom (V2.cr_Status src) (V1.cr_Status dst) |}.

(** ** Helpers that convert back what they converted *)

Lemma convertCertSecrets_inverse o : convertCertSecretsFrom (convertCertSecretsTo o) = o.
Proof.
  destruct o as [l|]; [|done]. simpl. f_equal. rewrite <-list_fmap_compose.
  rewrite <-(list_fmap_id l) at 2. apply list_fmap_ext. by intros _ [] _.
Qed.

Lemma convertEventTemplates_inverse o : convertEventTemplatesFrom (convertEventTemplatesTo o) = o.
Proof.
  destruct o as [l|]; [|done]. simpl. f_equal. rewrite <-list_fmap_compose.
  rewrite <-(list_fmap_id l) at 2. apply list_fmap_ext. by intros _ [] _.
Qed.

Lemma convertStorageOptions_inverse o : convertStorageOptionsFrom (convertStorageOptionsTo o) = o.
Proof. destruct o as [[[[]|] [[]|]]|]; reflexivity. Qed.
Lemma convertServiceConfig_inverse c : convertServiceConfigFrom (convertServiceConfigTo c) = c.
Proof. by destruct c. Qed.
Lemma convertNetworkConfig_inverse o : convertNetworkConfigFrom (convertNetworkConfigTo o) = o.
Proof. destruct o as [[]|]; reflexivity. Qed.
Lemma convertSchedulingOptions_inverse o :
  convertSchedulingOptionsFrom (convertSchedulingOptionsTo o) = o.
Proof. destruct o as [[? [[]|] ?]|]; reflexivity. Qed.
Lemma convertReportOptions_inverse o : convertReportOptionsFrom (convertReportOptionsTo o) = o.
Proof.
  destruct o as [[r1 r2 r3 s t]|]; [|done]. unfold convertReportOptionsFrom, convertReportOptionsTo.
  simpl. rewrite convertSchedulingOptions_inverse. by destruct s as [[]|].
Qed.
Lemma convertJmxCacheOptions_inverse o : convertJmxCacheOptionsFrom (convertJmxCacheOptionsTo o) = o.
Proof. destruct o as [[]|]; reflexivity. Qed.
Lemma convertResourceOptions_inverse o : convertResourceOptionsFrom (convertResourceOptionsTo o) = o.
Proof. destruct o as [[]|]; reflexivity. Qed.
Lemma convertTargetDiscovery_inverse o : convertTargetDiscoveryFrom (convertTargetDiscoveryTo o) = o.
Proof. destruct o as [[]|]; reflexivity. Qed.
Lemma convertDatabaseOptions_inverse o : convertDatabaseOptionsFrom (convertDatabaseOptionsTo o) = o.
Proof. destruct o as [[]|]; reflexivity. Qed.
Lemma convertResourceMetadata_inverse o : convertResourceMetadataFrom (convertResourceMetadataTo o) = o.
Proof. destruct o as [[]|]; reflexivity. Qed.
Lemma convertOperandMetadata_inverse o : convertOperandMetadataFrom (convertOperandMetadataTo o) = o.
Proof. destruct o as [[[[]|] [[]|]]|]; reflexivity. Qed.

Create Rewrite HintDb conversion.
#[local] Hint Rewrite convertCertSecrets_inverse convertEventTemplates_inverse
  convertStorageOptions_inverse convertNetworkConfig_inverse
  convertSchedulingOptions_inverse convertReportOptions_inverse convertJmxCacheOptions_inverse
  convertResourceOptions_inverse convertTargetDiscovery_inverse convertDatabaseOptions_inverse
  convertOperandMetadata_inverse : conversion.

(** ** What a round trip through the hub keeps

    The helpers that lose information: the v1beta1 structs with the fields that have no
    counterpart assigned by the converters set to nil. *)
Definition keep_core (c : V1.CoreServiceConfig) : V1.CoreServiceConfig := c <| V1.csc_JMXPort := None |>.
Definition keep_services (o : V1.ServiceConfigList) : V1.ServiceConfigList :=
  o <| V1.scl_CoreConfig ::= option_map keep_core |>
    <| V1.scl_GrafanaConfig := None |> <| V1.scl_StorageConfig := None |>.
Definition keep_networks (o : V1.NetworkConfigurationList) : V1.NetworkConfigurationList :=
  o <| V1.nwl_CommandConfig := None |> <| V1.nwl_GrafanaConfig := None |>.
Definition keep_security (o : V1.SecurityOptions) : V1.SecurityOptions :=
  o <| V1.seo_StorageSecurityContext := None |> <| V1.seo_DatabaseSecurityContext := None |>.

Definition survives_hub (src dst : V1.Cryostat) : V1.Cryostat :=
  {| V1.cr_meta := V1.cr_meta src;
     V1.cr_Spec :=
       (V1.cr_Spec src)
         <| V1.spec_ServiceOptions ::= option_map keep_services |>
         <| V1.spec_NetworkOptions ::= option_map keep_networks |>
         <| V1.spec_SecurityOptions ::= option_map keep_security |>
         <| V1.spec_Minimal := V1.spec_Minimal (V1.cr_Spec dst) |>
         <| V1.spec_MaxWsConnections := V1.spec_MaxWsConnections (V1.cr_Spec dst) |>
         <| V1.spec_AuthProperties := V1.spec_AuthProperties (V1.cr_Spec dst) |>;
     V1.cr_Status :=
       (V1.cr_Status src) <| V1.st_GrafanaSecret := V1.st_GrafanaSecret (V1.cr_Status dst) |> |}.

Lemma convertServiceOptions_keep o :
  convertServiceOptionsFrom (convertServiceOptionsTo o) = option_map keep_services o.
Proof. destruct o as [[[[? ? []]|] ? [[? []]|] ?]|]; reflexivity. Qed.
Lemma convertNetworkOptions_keep o :
  convertNetworkOptionsFrom (convertNetworkOptionsTo o) = option_map keep_networks o.
Proof. destruct o as [[[[]|] ? ?]|]; reflexivity. Qed.
Lemma convertSecurityOptions_keep o :
  convertSecurityOptionsFrom (convertSecurityOptionsTo o) = option_map keep_security o.
Proof. destruct o as [[]|]; reflexivity. Qed.

Definition empty_V1 : V1.Cryostat :=
  {| V1.cr_meta := NewObjectMeta "" ""; V1.cr_Spec := V1.zero_CryostatSpec;
     V1.cr_Status := V1.zero_CryostatStatus |}.
Definition empty_V2 : V2.Cryostat :=
  {| V2.cr_meta := NewObjectMeta "" ""; V2.cr_Spec := V2.zero_CryostatSpec;
     V2.cr_Status := V2.zero_CryostatStatus |}.

(** A conversion to the hub and back, into freshly allocated objects. *)
Definition round_trip (src : V1.Cryostat) : res V1.Cryostat :=
  rbind (ConvertTo src empty_V2) (λ hub, ConvertFrom hub empty_V1).

Lemma survives_hub_idemp src dst :
  survives_hub (survives_hub src dst) dst = survives_hub src dst.
Proof.
  destruct src as [m [? ? ? ? ? so no ? ? ? ? ? sec ? ? ? ?] []].
  unfold survives_hub; simpl. f_equal.
  destruct so as [[[[]|] ? ? ?]|], no as [[]|], sec as [[]|]; reflexivity.
Qed.

#[local] Opaque
  convertCertSecretsTo convertCertSecretsFrom convertEventTemplatesTo
  convertEventTemplatesFrom convertStorageOptionsTo convertStorageOptionsFrom
  convertServiceOptionsTo convertServiceOptionsFrom convertNetworkOptionsTo
  convertNetworkOptionsFrom convertReportOptionsTo convertReportOptionsFrom
  convertJmxCacheOptionsTo convertJmxCacheOptionsFrom convertResourceOptionsTo
  convertResourceOptionsFrom convertSecurityOptionsTo convertSecurityOptionsFrom
  convertSchedulingOptionsTo convertSchedulingOptionsFrom convertTargetDiscoveryTo
  convertTargetDiscoveryFrom convertDatabaseOptionsTo convertDatabaseOptionsFrom
  convertOperandMetadataTo convertOperandMetadataFrom.

Lemma convertSpec_survives s hub dst :
  convertSpecFrom (convertSpecTo s hub) dst
  = V1.cr_Spec (survives_hub {| V1.cr_meta := NewObjectMeta "" ""; V1.cr_Spec := s;
                                V1.cr_Status := V1.zero_CryostatStatus |}
                             {| V1.cr_meta := NewObjectMeta "" ""; V1.cr_Spec := dst;
                                V1.cr_Status := V1.zero_CryostatStatus |}).
Proof.
  destruct s, hub, dst. unfold convertSpecFrom, convertSpecTo, survives_hub. simpl.
  autorewrite with conversion.
  by rewrite convertServiceOptions_keep, convertNetworkOptions_keep, convertSecurityOptions_keep.
Qed.

#[local] Transparent
  convertCertSecretsTo convertCertSecretsFrom convertEventTemplatesTo
  convertEventTemplatesFrom convertStorageOptionsTo convertStorageOptionsFrom
  convertServiceOptionsTo convertServiceOptionsFrom convertNetworkOptionsTo
  convertNetworkOptionsFrom convertReportOptionsTo convertReportOptionsFrom
  convertJmxCacheOptionsTo convertJmxCacheOptionsFrom convertResourceOptionsTo
  convertResourceOptionsFrom convertSecurityOptionsTo convertSecurityOptionsFrom
  convertSchedulingOptionsTo convertSchedulingOptionsFrom convertTargetDiscoveryTo
  convertTargetDiscoveryFrom convertDatabaseOptionsTo convertDatabaseOptionsFrom
  convertOperandMetadataTo convertOperandMetadataFrom.

Lemma spoke_round_trip_lemma src hub dst :
  rbind (ConvertTo src hub) (λ h, ConvertFrom h dst) = Ok (survives_hub src dst).
Proof.
  unfold ConvertTo, ConvertFrom. simpl rbind. f_equal. unfold survives_hub. f_equal.
  transitivity (convertSpecFrom (convertSpecTo (V1.cr_Spec src) (V2.cr_Spec hub)) (V1.cr_Spec dst)).
  - by destruct (convertSpecTo _ _).
  - by rewrite convertSpec_survives.
Qed.

(** ** What a round trip through the spoke keeps

    The other direction: the v1beta2 structs with the fields that the conversion to v1beta1
    drops set to their zero values: those that v1beta1 does not have, and in [hold_services]
    and [hold_security] also the storage service's options and the security contexts of the
    storage and the database, which it has. *)
Definition hold_cert (c : V2.CertificateSecret) : V2.CertificateSecret :=
  c <| V2.cse_ConfigMapName := "" |>.
Definition hold_storage (o : V2.StorageConfigurations) : V2.StorageConfigurations :=
  o <| V2.sto_Database := None |> <| V2.sto_ObjectStorage := None |>.
Definition hold_services (o : V2.ServiceConfigList) : V2.ServiceConfigList :=
  o <| V2.scl_DatabaseConfig := None |> <| V2.scl_StorageConfig := None |>
    <| V2.scl_AgentGatewayConfig := None |> <| V2.scl_AgentCallbackConfig := None |>.
Definition hold_network (c : V2.NetworkConfiguration) : V2.NetworkConfiguration :=
  c <| V2.nwc_ExternalHost := None |>.
Definition hold_networks (o : V2.NetworkConfigurationList) : V2.NetworkConfigurationList :=
  o <| V2.nwl_CoreConfig ::= option_map hold_network |>.
Definition hold_resources (o : V2.ResourceConfigList) : V2.ResourceConfigList :=
  o <| V2.rcl_AuthProxyResources := zero_ResourceRequirements |>
    <| V2.rcl_DatabaseResources := zero_ResourceRequirements |>
    <| V2.rcl_ObjectStorageResources := zero_ResourceRequirements |>
    <| V2.rcl_AgentProxyResources := zero_ResourceRequirements |>.
Definition hold_security (o : V2.SecurityOptions) : V2.SecurityOptions :=
  o <| V2.seo_AuthProxySecurityContext := None |> <| V2.seo_StorageSecurityContext := None |>
    <| V2.seo_DatabaseSecurityContext := None |> <| V2.seo_AgentProxySecurityContext := None |>.

Lemma convertCertSecrets_hold o :
  convertCertSecretsTo (convertCertSecretsFrom o) = option_map (fmap hold_cert) o.
Proof.
  destruct o as [l|]; [|done]. simpl. f_equal. rewrite <-list_fmap_compose.
  apply list_fmap_ext. by intros _ [] _.
Qed.
Lemma convertEventTemplates_hold o : convertEventTemplatesTo (convertEventTemplatesFrom o) = o.
Proof.
  destruct o as [l|]; [|done]. simpl. f_equal. rewrite <-list_fmap_compose.
  rewrite <-(list_fmap_id l) at 2. apply list_fmap_ext. by intros _ [] _.
Qed.
Lemma convertStorageOptions_hold o :
  convertStorageOptionsTo (convertStorageOptionsFrom o) = option_map hold_storage o.
Proof. destruct o as [[? ? [[[? []]|] [[]|]]]|]; reflexivity. Qed.
Lemma convertServiceOptions_hold o :
  convertServiceOptionsTo (convertServiceOptionsFrom o) = option_map hold_services o.
Proof. destruct o as [[[[? [? []]]|] [[? [? []]]|] ? ? ? ?]|]; reflexivity. Qed.
Lemma convertNetworkOptions_hold o :
  convertNetworkOptionsTo (convertNetworkOptionsFrom o) = option_map hold_networks o.
Proof. destruct o as [[[[? ? []]|]]|]; reflexivity. Qed.
Lemma convertSchedulingOptions_hold o :
  convertSchedulingOptionsTo (convertSchedulingOptionsFrom o) = o.
Proof. destruct o as [[? [[]|] ?]|]; reflexivity. Qed.
Lemma convertReportOptions_hold o : convertReportOptionsTo (convertReportOptionsFrom o) = o.
Proof.
  destruct o as [[r1 r2 r3 s t]|]; [|done]. unfold convertReportOptionsFrom, convertReportOptionsTo.
  simpl. rewrite convertSchedulingOptions_hold. by destruct s as [[]|].
Qed.
Lemma convertJmxCacheOptions_hold o : convertJmxCacheOptionsTo (convertJmxCacheOptionsFrom o) = o.
Proof. destruct o as [[]|]; reflexivity. Qed.
Lemma convertResourceOptions_hold o :
  convertResourceOptionsTo (convertResourceOptionsFrom o) = option_map hold_resources o.
Proof. destruct o as [[]|]; reflexivity. Qed.
Lemma convertSecurityOptions_hold o :
  convertSecurityOptionsTo (convertSecurityOptionsFrom o) = option_map hold_security o.
Proof. destruct o as [[]|]; reflexivity. Qed.
Lemma convertTargetDiscovery_hold o : convertTargetDiscoveryTo (convertTargetDiscoveryFrom o) = o.
Proof. destruct o as [[]|]; reflexivity. Qed.
Lemma convertDatabaseOptions_hold o : convertDatabaseOptionsTo (convertDatabaseOptionsFrom o) = o.
Proof. destruct o as [[]|]; reflexivity. Qed.
Lemma convertOperandMetadata_hold o : convertOperandMetadataTo (convertOperandMetadataFrom o) = o.
Proof. destruct o as [[[[]|] [[]|]]|]; reflexivity. Qed.

(** What comes back of a v1beta2 resource that a client read as v1beta1 and wrote back,
    [dst] being the object the result is decoded into. *)
Definition survives_spoke (src dst : V2.Cryostat) : V2.Cryostat :=
  {| V2.cr_meta := V2.cr_meta src;
     V2.cr_Spec :=
       (V2.cr_Spec dst)
         <| V2.spec_TargetNamespaces := Some [om_Namespace (V2.cr_meta src)] |>
         <| V2.spec_EnableCertManager := V2.spec_EnableCertManager (V2.cr_Spec src) |>
         <| V2.spec_TrustedCertSecrets :=
              option_map (fmap hold_cert) (V2.spec_TrustedCertSecrets (V2.cr_Spec src)) |>
         <| V2.spec_EventTemplates := V2.spec_EventTemplates (V2.cr_Spec src) |>
         <| V2.spec_StorageOptions := option_map hold_storage (V2.spec_StorageOptions (V2.cr_Spec src)) |>
         <| V2.spec_ServiceOptions := option_map hold_services (V2.spec_ServiceOptions (V2.cr_Spec src)) |>
         <| V2.spec_NetworkOptions := option_map hold_networks (V2.spec_NetworkOptions (V2.cr_Spec src)) |>
         <| V2.spec_ReportOptions := V2.spec_ReportOptions (V2.cr_Spec src) |>
         <| V2.spec_TargetConnectionCacheOptions :=
              V2.spec_TargetConnectionCacheOptions (V2.cr_Spec src) |>
         <| V2.spec_Resources := option_map hold_resources (V2.spec_Resources (V2.cr_Spec src)) |>
         <| V2.spec_SecurityOptions := option_map hold_security (V2.spec_SecurityOptions (V2.cr_Spec src)) |>
         <| V2.spec_SchedulingOptions := V2.spec_SchedulingOptions (V2.cr_Spec src) |>
         <| V2.spec_TargetDiscoveryOptions := V2.spec_TargetDiscoveryOptions (V2.cr_Spec src) |>
         <| V2.spec_DatabaseOptions := V2.spec_DatabaseOptions (V2.cr_Spec src) |>
         <| V2.spec_OperandMetadata := V2.spec_OperandMetadata (V2.cr_Spec src) |>;
     V2.cr_Status :=
       (V2.cr_Status dst)
         <| V2.st_TargetNamespaces := [om_Namespace (V2.cr_meta src)] |>
         <| V2.st_ApplicationURL := V2.st_ApplicationURL (V2.cr_Status src) |>
         <| V2.st_Conditions := V2.st_Conditions (V2.cr_Status src) |> |}.

Lemma round_trip_eq src : round_trip src = Ok (survives_hub src empty_V1).
Proof. apply spoke_round_trip_lemma. Qed.

(** ** Properties *)

(** C15. Round trip of the spoke version: converting a v1beta1 resource to the hub and
    back always succeeds, and gives the same resource except for the fields
    [survives_hub] resets (JMX port, Grafana/storage service configuration, command and
    Grafana network configuration, storage and database security contexts), and the
    fields the destination keeps (minimal, max WS connections, auth properties, Grafana
    secret); whatever the destination objects held before. *)
Theorem spoke_round_trip src hub dst :
  rbind (ConvertTo src hub) (λ h, ConvertFrom h dst) = Ok (survives_hub src dst).
Proof. apply spoke_round_trip_lemma. Qed.
(** The fields a round trip loses are all unset. *)
Definition nothing_to_lose (src : V1.Cryostat) : Prop :=
  let s := V1.cr_Spec src in
  V1.spec_Minimal s = false ∧ V1.spec_MaxWsConnections s = 0 ∧ V1.spec_AuthProperties s = None ∧
  V1.st_GrafanaSecret (V1.cr_Status src) = "" ∧
  (∀ o, V1.spec_ServiceOptions s = Some o →
     V1.scl_GrafanaConfig o = None ∧ V1.scl_StorageConfig o = None ∧
     ∀ c, V1.scl_CoreConfig o = Some c → V1.csc_JMXPort c = None) ∧
  (∀ o, V1.spec_NetworkOptions s = Some o →
     V1.nwl_CommandConfig o = None ∧ V1.nwl_GrafanaConfig o = None) ∧
  (∀ o, V1.spec_SecurityOptions s = Some o →
     V1.seo_StorageSecurityContext o = None ∧ V1.seo_DatabaseSecurityContext o = None).

(** An optional struct is kept when the fields it would lose are nil. *)
Lemma option_map_fixpoint {A} (f : A → A) (o : option A) :
  option_map f o = o ↔ ∀ x, o = Some x → f x = x.
Proof.
  destruct o as [a|]; simpl; [|split; [intros _ x [=] | done]].
  split; [intros [= H] x [= <-]; exact H | intros H; f_equal; by apply H].
Qed.

Lemma keep_core_id c : keep_core c = c ↔ V1.csc_JMXPort c = None.
Proof. destruct c. unfold keep_core; simpl. split; [by intros [=] | by intros ->]. Qed.
Lemma keep_services_id o :
  keep_services o = o ↔
  V1.scl_GrafanaConfig o = None ∧ V1.scl_StorageConfig o = None ∧
  ∀ c, V1.scl_CoreConfig o = Some c → V1.csc_JMXPort c = None.
Proof.
  setoid_rewrite <-keep_core_id. rewrite <-option_map_fixpoint.
  destruct o. unfold keep_services, field_update; simpl. split.
  - intros [= H <- <-]. by repeat split.
  - intros (-> & -> & H). by f_equal.
Qed.
Lemma keep_networks_id o :
  keep_networks o = o ↔ V1.nwl_CommandConfig o = None ∧ V1.nwl_GrafanaConfig o = None.
Proof. destruct o. unfold keep_networks; simpl. split; [by intros [= <- <-] | by intros (-> & ->)]. Qed.
Lemma keep_security_id o :
  keep_security o = o ↔
  V1.seo_StorageSecurityContext o = None ∧ V1.seo_DatabaseSecurityContext o = None.
Proof. destruct o. unfold keep_security; simpl. split; [by intros [= <- <-] | by intros (-> & ->)]. Qed.

(** The round trip of a v1beta1 resource is lossless exactly when none of the fields
    without a converted counterpart is set: no other field is ever lost, and any of these
    being set makes the result differ. *)
Theorem spoke_round_trip_lossless src :
  round_trip src = Ok src ↔ nothing_to_lose src.
Proof.
  rewrite round_trip_eq.
  unfold nothing_to_lose. setoid_rewrite <-keep_services_id.
  setoid_rewrite <-keep_networks_id. setoid_rewrite <-keep_security_id.
  rewrite <-!option_map_fixpoint.
  destruct src as [m [] []]. unfold survives_hub, field_update; simpl. split.
  - intros [=]. by repeat split.
  - intros (-> & -> & -> & -> & Hs & Hn & Hc). by repeat f_equal.
Qed.

(** A second round trip changes nothing more: what the first one keeps is stable. *)
Theorem round_trip_stable src :
  rbind (round_trip src) round_trip = round_trip src.
Proof.
  rewrite round_trip_eq. simpl rbind. by rewrite round_trip_eq, survives_hub_idemp.
Qed.

#[local] Opaque
  convertCertSecretsTo convertCertSecretsFrom convertEventTemplatesTo
  convertEventTemplatesFrom convertStorageOptionsTo convertStorageOptionsFrom
  convertServiceOptionsTo convertServiceOptionsFrom convertNetworkOptionsTo
  convertNetworkOptionsFrom convertReportOptionsTo convertReportOptionsFrom
  convertJmxCacheOptionsTo convertJmxCacheOptionsFrom convertResourceOptionsTo
  convertResourceOptionsFrom convertSecurityOptionsTo convertSecurityOptionsFrom
  convertSchedulingOptionsTo convertSchedulingOptionsFrom convertTargetDiscoveryTo
  convertTargetDiscoveryFrom convertDatabaseOptionsTo convertDatabaseOptionsFrom
  convertOperandMetadataTo convertOperandMetadataFrom.

(** C16. Round trip of the hub version: a v1beta2 resource read as v1beta1 and written back
    always succeeds, and gives what [survives_spoke] says field by field, whatever the
    objects held before: the metadata, the application's URL and the conditions are kept,
    and so is every field of the spec that is not named here.  Reset are the fields that
    v1beta1 does not have (the config map of a trusted certificate; the database's and the
    object storage's own storage options; the service options of the database, the agent
    gateway and the agent callbacks; the external host; the resources of the proxies, the
    database and the object storage; the security contexts of the two proxies) and three
    that it has: the storage service's options and the security contexts of the storage and
    the database.  The other fields that v1beta1 lacks come from the destination.  The
    target namespaces, in the spec and in the status, become the resource's own namespace. *)
Theorem hub_round_trip src spoke dst :
  rbind (ConvertFrom src spoke) (λ s, ConvertTo s dst) = Ok (survives_spoke src dst).
Proof.
  unfold ConvertTo, ConvertFrom. simpl rbind. f_equal. unfold survives_spoke. f_equal.
  destruct src as [m [] []], spoke as [m' [] []], dst as [m'' [] []].
  unfold convertSpecTo, convertSpecFrom, field_update; simpl.
  by rewrite convertCertSecrets_hold, convertEventTemplates_hold, convertStorageOptions_hold,
    convertServiceOptions_hold, convertNetworkOptions_hold, convertReportOptions_hold,
    convertJmxCacheOptions_hold, convertResourceOptions_hold, convertSecurityOptions_hold,
    convertSchedulingOptions_hold, convertTargetDiscovery_hold, convertDatabaseOptions_hold,
    convertOperandMetadata_hold.
Qed.
