(* ===== verification/Client.v ===== *)
(** * The API server and the libraries that talk to it

    The operator reaches the cluster through controller-runtime's client.  Client, API
    server and libraries are not part of this repository: here they are the operations of
    the class [Kube], over an abstract world [W], and [KubeLaws] states their documented
    behaviour.  [stored] is not an operation: it is the object the API server holds, in
    terms of which the laws and the theorems are written.

    The laws say that a read returns what is stored: they describe runs of the operator
    during which nobody else writes to the objects it reads, through a cache that is up to
    date.  The theorems that only say what the operator does not touch need none of this. *)

From S2P Require Export KubeTypes.
From S2P Require ApiV1beta2.
Open Scope Z_scope.

Module V2 := ApiV1beta2.

(** ** Kinds and their objects *)
Inductive Kind :=
| KCryostat | KSecret | KConfigMap | KService | KServiceAccount | KNamespace | KPVC
| KEndpointSlice | KDeployment | KRole | KRoleBinding | KClusterRoleBinding | KIngress
| KNetworkPolicy | KRoute | KConsoleLink | KAPIServer | KIssuer | KCertificate
| KConsolePlugin | KConsole | KClusterVersion.
#[global] Instance Kind_eq_dec : EqDecision Kind.
Proof. solve_decision. Defined.

Definition obj (k : Kind) : Type :=
  match k with
  | KCryostat => V2.Cryostat | KSecret => Secret | KConfigMap => ConfigMap
  | KService => Service | KServiceAccount => ServiceAccount | KNamespace => Namespace
  | KPVC => PersistentVolumeClaim | KEndpointSlice => EndpointSlice
  | KDeployment => Deployment | KRole => Role | KRoleBinding => RoleBinding
  | KClusterRoleBinding => ClusterRoleBinding | KIngress => Ingress
  | KNetworkPolicy => NetworkPolicy | KRoute => Route | KConsoleLink => ConsoleLink
  | KAPIServer => APIServer | KIssuer => Issuer | KCertificate => Certificate
  | KConsolePlugin => ConsolePlugin | KConsole => Console | KClusterVersion => ClusterVersion
  end.

(** The metadata of an object, and the object with other metadata. *)
Definition om (k : Kind) : obj k → ObjectMeta :=
  match k with
  | KCryostat => V2.cr_meta | KSecret => sec_meta | KConfigMap => cm_meta
  | KService => svc_meta | KServiceAccount => sa_meta | KNamespace => ns_meta
  | KPVC => pvc_meta | KEndpointSlice => eps_meta
  | KDeployment => dep_meta | KRole => role_meta | KRoleBinding => rb_meta
  | KClusterRoleBinding => crb_meta | KIngress => ing_meta
  | KNetworkPolicy => np_meta | KRoute => rt_meta | KConsoleLink => cl_meta
  | KAPIServer => as_meta | KIssuer => issu_meta | KCertificate => cert_meta
  | KConsolePlugin => cpl_meta | KConsole => con_meta | KClusterVersion => cv_meta
  end.
Definition with_om (k : Kind) (m : ObjectMeta) : obj k → obj k :=
  match k with
  | KCryostat => λ o, o <| V2.cr_meta := m |> | KSecret => λ o, o <| sec_meta := m |>
  | KConfigMap => λ o, o <| cm_meta := m |> | KService => λ o, o <| svc_meta := m |>
  | KServiceAccount => λ o, o <| sa_meta := m |> | KNamespace => λ o, o <| ns_meta := m |>
  | KPVC => λ o, o <| pvc_meta := m |> | KEndpointSlice => λ o, o <| eps_meta := m |>
  | KDeployment => λ o, o <| dep_meta := m |> | KRole => λ o, o <| role_meta := m |>
  | KRoleBinding => λ o, o <| rb_meta := m |>
  | KClusterRoleBinding => λ o, o <| crb_meta := m |>
  | KIngress => λ o, o <| ing_meta := m |> | KNetworkPolicy => λ o, o <| np_meta := m |>
  | KRoute => λ o, o <| rt_meta := m |> | KConsoleLink => λ o, o <| cl_meta := m |>
  | KAPIServer => λ o, o <| as_meta := m |> | KIssuer => λ o, o <| issu_meta := m |>
  | KCertificate => λ o, o <| cert_meta := m |>
  | KConsolePlugin => λ o, o <| cpl_meta := m |> | KConsole => λ o, o <| con_meta := m |>
  | KClusterVersion => λ o, o <| cv_meta := m |>
  end.

Lemma om_with_om k m o : om k (with_om k m o) = m.
Proof. by destruct k. Qed.

Definition key (k : Kind) (o : obj k) : NamespacedName := key_of_meta (om k o).
Definition nn (ns name : string) : NamespacedName := {| nn_Namespace := ns; nn_Name := name |}.

Inductive OperationResult := OperationResultNone | OperationResultCreated | OperationResultUpdated.

(** ** Operations *)
Class Kube (W : Type) := {
  stored : W → ∀ k : Kind, NamespacedName → option (obj k);

  (** controller-runtime's client.  The object passed to a write is overwritten with the
      server's answer: it is returned. *)
  client_Get : ∀ k, NamespacedName → E W (obj k);
  client_Create : ∀ k, obj k → M W (obj k * res ());
  client_Update : ∀ k, obj k → M W (obj k * res ());
  client_StatusUpdate : V2.Cryostat → M W (V2.Cryostat * res ());
  client_Delete : ∀ k, obj k → E W ();
  client_ListCertificates : string → E W (list Certificate);
  (** [Create] through a dry-run client with strict field validation *)
  client_DryRunStrictCreate : Certificate → E W ();
  RESTMapping_Issuer : E W ();
  EventRecorder_Event : V2.Cryostat → string → string → string → M W ();

  (** controllerutil; the callback mutates the object in place *)
  controllerutil_CreateOrUpdate : ∀ k, obj k → (obj k → M W (obj k * res ())) →
    M W (obj k * res OperationResult);
  controllerutil_SetControllerReference : ObjectMeta → ObjectMeta → res ObjectMeta;
  controllerutil_ContainsFinalizer : ObjectMeta → string → bool;
  controllerutil_AddFinalizer : ObjectMeta → string → ObjectMeta;
  controllerutil_RemoveFinalizer : ObjectMeta → string → ObjectMeta;
  equality_Semantic_DeepEqual : ∀ k, obj k → obj k → bool;

  (** apimachinery *)
  kerrors_IsNotFound : error → bool;
  kerrors_IsBadRequest : error → bool;
  kerrors_IsInvalid : error → bool;
  meta_IsNoMatchError : error → bool;
  metav1_IsControlledBy : ObjectMeta → ObjectMeta → bool;
  metav1_GetControllerOf : ObjectMeta → option OwnerReference;
  metav1_SetMetaDataLabel : ObjectMeta → string → string → ObjectMeta;
  metav1_SetMetaDataAnnotation : ObjectMeta → string → string → ObjectMeta;
  meta_SetStatusCondition : list Condition → Condition → list Condition;
  meta_FindStatusCondition : list Condition → string → option Condition;
  meta_RemoveStatusCondition : list Condition → string → list Condition;

  (** [json.Marshal] of OpenShift's [OAuthRedirectReference] to a kind and a name *)
  json_Marshal_OAuthRedirectReference : string → string → res string;

  (** cert-manager's [DefaultKeyUsages] *)
  certv1_DefaultKeyUsages : list string;

  (** go-cmp *)
  cmp_Equal : ∀ {A : Type} `{EqDecision A}, A → A → bool;

  (** the run-time and the process: math/rand, the order in which a run visits the entries
      of a map, the environment *)
  rand_Intn : Z → M W Z;
  go_range : ∀ {A : Type}, list A → M W (list A);
  os_Getenv : string → string;
}.

(** ** What a write keeps of the object it sends

    After a successful write the stored object has, at least, the labels and annotations
    that were sent, the owner references, and the fields below; the server may set others.
    A secret's [StringData] is write-only and merged over [Data]. *)
Definition keeps_map {V} (sent got : gomap V) : Prop :=
  ∀ key v, gm_lookup sent key = Some v → gm_lookup got key = Some v.
Definition keeps_meta (sent got : ObjectMeta) : Prop :=
  keeps_map (om_Labels sent) (om_Labels got) ∧
  keeps_map (om_Annotations sent) (om_Annotations got) ∧
  om_OwnerReferences got = om_OwnerReferences sent.
(** A label selector up to a nil or empty map. *)
Definition canon_selector (s : LabelSelector) : LabelSelector :=
  s <| ls_MatchLabels := Some (gm_make (ls_MatchLabels s)) |>.
Definition canon_peer (p : NetworkPolicyPeer) : NetworkPolicyPeer :=
  p <| npp_PodSelector ::= option_map canon_selector |>
    <| npp_NamespaceSelector ::= option_map canon_selector |>.
Definition canon_rule (r : NetworkPolicyRule) : NetworkPolicyRule := r <| npr_Peers ::= map canon_peer |>.
(** An unset target port is defaulted, another is kept. *)
Definition keeps_target (sent got : ServicePort) : Prop :=
  sp_TargetPort sent ≠ IntVal 0 → sp_TargetPort sent ≠ StrVal "" → sp_TargetPort got = sp_TargetPort sent.
Lemma keeps_target_refl l : Forall2 keeps_target l l.
Proof. induction l; by constructor. Qed.
(** The keystores of a certificate but for the profile, which an old cert-manager drops. *)
Definition sans_profile (ks : option CertificateKeystores) : option CertificateKeystores :=
  option_map (λ ks, ks <| cks_PKCS12 ::= option_map (λ p, p <| pk_Profile := "" |>) |>) ks.
Definition keeps_fields (k : Kind) : obj k → obj k → Prop :=
  match k with
  | KSecret => λ sent got,
      gm_make (sec_Data got) = gm_make (sec_StringData sent) ∪ gm_make (sec_Data sent)
  | KConfigMap => λ sent got, gm_make (cm_Data got) = gm_make (cm_Data sent)
  | KRoleBinding => λ sent got, rb_Subjects got = rb_Subjects sent ∧ rb_RoleRef got = rb_RoleRef sent
  | KClusterRoleBinding => λ sent got,
      crb_Subjects got = crb_Subjects sent ∧ crb_RoleRef got = crb_RoleRef sent
  | KService => λ sent got,
      map sp_Name (svs_Ports (svc_Spec got)) = map sp_Name (svs_Ports (svc_Spec sent)) ∧
      map sp_Port (svs_Ports (svc_Spec got)) = map sp_Port (svs_Ports (svc_Spec sent)) ∧
      gm_make (svs_Selector (svc_Spec got)) = gm_make (svs_Selector (svc_Spec sent)) ∧
      (svs_ClusterIP (svc_Spec sent) ≠ "" → svs_ClusterIP (svc_Spec got) = svs_ClusterIP (svc_Spec sent)) ∧
      Forall2 keeps_target (svs_Ports (svc_Spec sent)) (svs_Ports (svc_Spec got))
  | KPVC => λ sent got,
      vrr_Requests (pvs_Resources (pvc_Spec got)) = vrr_Requests (pvs_Resources (pvc_Spec sent)) ∧
      pvs_AccessModes (pvc_Spec got) = pvs_AccessModes (pvc_Spec sent) ∧
      (pvs_VolumeName (pvc_Spec sent) ≠ "" → pvs_VolumeName (pvc_Spec got) = pvs_VolumeName (pvc_Spec sent)) ∧
      (pvs_StorageClassName (pvc_Spec sent) ≠ None →
       pvs_StorageClassName (pvc_Spec got) = pvs_StorageClassName (pvc_Spec sent))
  | KDeployment => λ sent got,
      ds_Selector (dep_Spec got) = ds_Selector (dep_Spec sent) ∧
      ds_Replicas (dep_Spec got) = ds_Replicas (dep_Spec sent) ∧
      keeps_map (om_Labels (pts_meta (ds_Template (dep_Spec sent))))
                (om_Labels (pts_meta (ds_Template (dep_Spec got)))) ∧
      keeps_map (om_Annotations (pts_meta (ds_Template (dep_Spec sent))))
                (om_Annotations (pts_meta (ds_Template (dep_Spec got))))
  | KConsoleLink => λ sent got, cl_Text got = cl_Text sent ∧ cl_Href got = cl_Href sent ∧
      cl_Location got = cl_Location sent ∧ cl_NamespaceDashboard got = cl_NamespaceDashboard sent
  | KAPIServer => λ sent got,
      as_AdditionalCORSAllowedOrigins got = as_AdditionalCORSAllowedOrigins sent
  | KCertificate => λ sent got,
      cs_SecretName (cert_Spec got) = cs_SecretName (cert_Spec sent) ∧
      cs_CommonName (cert_Spec got) = cs_CommonName (cert_Spec sent) ∧
      cs_DNSNames (cert_Spec got) = cs_DNSNames (cert_Spec sent) ∧
      cs_IssuerRef (cert_Spec got) = cs_IssuerRef (cert_Spec sent) ∧
      cs_IsCA (cert_Spec got) = cs_IsCA (cert_Spec sent) ∧
      cs_Usages (cert_Spec got) = cs_Usages (cert_Spec sent) ∧
      sans_profile (cs_Keystores (cert_Spec got)) = sans_profile (cs_Keystores (cert_Spec sent))
  | KConsolePlugin => λ sent got,
      cpl_DisplayName got = cpl_DisplayName sent ∧ cpl_Backend got = cpl_Backend sent ∧
      cpl_I18nLoadType got = cpl_I18nLoadType sent ∧ cpl_Proxy got = cpl_Proxy sent
  | KConsole => λ sent got, con_Plugins got = con_Plugins sent
  | KNetworkPolicy => λ sent got,
      nps_PolicyTypes (np_Spec got) = nps_PolicyTypes (np_Spec sent) ∧
      canon_selector (nps_PodSelector (np_Spec got)) = canon_selector (nps_PodSelector (np_Spec sent)) ∧
      map canon_rule (nps_Ingress (np_Spec got)) = map canon_rule (nps_Ingress (np_Spec sent)) ∧
      map canon_rule (nps_Egress (np_Spec got)) = map canon_rule (nps_Egress (np_Spec sent))
  | _ => λ _ _, True
  end.
Definition kept (k : Kind) (sent got : obj k) : Prop :=
  keeps_meta (om k sent) (om k got) ∧ keeps_fields k sent got.

(** The two worlds hold the same objects, except possibly those in [S]. *)
Definition same_except `{Kube W} (S : Kind → NamespacedName → Prop) (w w' : W) : Prop :=
  ∀ k n, ¬ S k n → stored w' k n = stored w k n.
Abbreviation same_store := (same_except (λ _ _, False)).
(** One object. *)
Definition only (k0 : Kind) (n0 : NamespacedName) : Kind → NamespacedName → Prop :=
  λ k n, k = k0 ∧ n = n0.

Section CreateOrUpdate.
Context `{Kube W}.

(** The callback may not rename the object. *)
Definition mutate k (n : NamespacedName) (f : obj k → M W (obj k * res ())) (o : obj k)
  : M W (obj k * res ()) :=
  let* r := f o in
  mretM (r.1, match r.2 with
              | Err e => Err e
              | Ok _ => if bool_decide (key k r.1 = n) then Ok ()
                        else Err (Errorf "MutateFn cannot mutate object name and/or object namespace" [])
              end).

(** [CreateOrUpdate] as documented: read, mutate, then create, or update if the
    mutation changed something. *)
Definition CreateOrUpdate_doc k (o : obj k) f : M W (obj k * res OperationResult) :=
  let n := key k o in
  let* got := client_Get k n in
  match got with
  | Err e =>
      if kerrors_IsNotFound e then
        let* m := mutate k n f o in
        match m.2 with
        | Err e => mretM (m.1, Err e)
        | Ok _ =>
            let* c := client_Create k m.1 in
            mretM (c.1, match c.2 with Ok _ => Ok OperationResultCreated | Err e => Err e end)
        end
      else mretM (o, Err e)
  | Ok existing =>
      let* m := mutate k n f existing in
      match m.2 with
      | Err e => mretM (m.1, Err e)
      | Ok _ =>
          if equality_Semantic_DeepEqual k existing m.1 then mretM (m.1, Ok OperationResultNone)
          else
            let* u := client_Update k m.1 in
            mretM (u.1, match u.2 with Ok _ => Ok OperationResultUpdated | Err e => Err e end)
      end
  end.
End CreateOrUpdate.

(** An error that is not one of the operator's own error variables. *)
Definition foreign (e : error) : Prop :=
  match e with Sentinel _ _ => False | _ => True end.

(** ** Documented behaviour *)
Class KubeLaws (W : Type) `{Kube W} := {
  (** Only writes change the stored objects, and only the object they name. *)
  Get_reads k n w r w' : client_Get k n w = (r, w') → same_store w w';
  List_reads ns w r w' : client_ListCertificates ns w = (r, w') → same_store w w';
  DryRun_reads c w r w' : client_DryRunStrictCreate c w = (r, w') → same_store w w';
  RESTMapping_reads w r w' : RESTMapping_Issuer w = (r, w') → same_store w w';
  Event_reads c t r m w x w' : EventRecorder_Event c t r m w = (x, w') → same_store w w';
  rand_reads n w z w' : rand_Intn n w = (z, w') → same_store w w';
  range_reads A (l : list A) w l' w' : go_range l w = (l', w') → same_store w w';
  Create_touches k o w r w' : client_Create k o w = (r, w') → same_except (only k (key k o)) w w';
  Update_touches k o w r w' : client_Update k o w = (r, w') → same_except (only k (key k o)) w w';
  StatusUpdate_touches o w r w' :
    client_StatusUpdate o w = (r, w') → same_except (only KCryostat (key KCryostat o)) w w';
  Delete_touches k o w r w' : client_Delete k o w = (r, w') → same_except (only k (key k o)) w w';

  (** Reads. *)
  Get_Ok k n w o w' : client_Get k n w = (Ok o, w') → stored w k n = Some o;
  Get_NotFound k n w e w' :
    client_Get k n w = (Err e, w') → kerrors_IsNotFound e = true → stored w k n = None;
  List_Ok ns w l w' : ns ≠ "" → client_ListCertificates ns w = (Ok l, w') →
    ∀ c, c ∈ l ↔ om_Namespace (cert_meta c) = ns ∧
                 stored w KCertificate (key KCertificate c) = Some c;
  stored_key w k n o : stored w k n = Some o → key k o = n;
  stored_created w k n o : stored w k n = Some o → CreationTimestamp_IsZero (om k o) = false;
  stored_StringData w n s : stored w KSecret n = Some s → gm_make (sec_StringData s) = ∅;

  (** No error of these libraries is a value declared in the operator's sources. *)
  Get_foreign k n w e w' : client_Get k n w = (Err e, w') → foreign e;
  Create_foreign k o w o' e w' : client_Create k o w = ((o', Err e), w') → foreign e;
  Update_foreign k o w o' e w' : client_Update k o w = ((o', Err e), w') → foreign e;
  StatusUpdate_foreign o w o' e w' : client_StatusUpdate o w = ((o', Err e), w') → foreign e;
  DryRun_foreign c w e w' : client_DryRunStrictCreate c w = (Err e, w') → foreign e;
  Delete_foreign k o w e w' : client_Delete k o w = (Err e, w') → foreign e;
  SetControllerReference_foreign owner m e :
    controllerutil_SetControllerReference owner m = Err e → foreign e;

  (** Writes.  An update of an object that is being deleted may complete its deletion. *)
  Create_Ok k o w o' w' : client_Create k o w = ((o', Ok ()), w') →
    stored w k (key k o) = None ∧ stored w' k (key k o) = Some o' ∧ kept k o o';
  Update_key k o w o' w' : client_Update k o w = ((o', Ok ()), w') → key k o' = key k o;
  Update_Ok k o old w o' w' : client_Update k o w = ((o', Ok ()), w') →
    stored w k (key k o) = Some old → om_DeletionTimestamp (om k old) = None →
    stored w' k (key k o) = Some o' ∧ kept k o o';
  (** The status is a subresource: an update leaves it alone. *)
  Update_status (o : V2.Cryostat) old w o' w' : client_Update KCryostat o w = ((o', Ok ()), w') →
    stored w KCryostat (key KCryostat o) = Some old → V2.cr_Status o' = V2.cr_Status old;
  Update_deleting k o old w o' w' : client_Update k o w = ((o', Ok ()), w') →
    stored w k (key k o) = Some old → om_DeletionTimestamp (om k old) ≠ None →
    stored w' k (key k o) = None ∨
    stored w' k (key k o) = Some o' ∧ om_Finalizers (om k o') = om_Finalizers (om k o);
  StatusUpdate_Ok o w o' w' : client_StatusUpdate o w = ((o', Ok ()), w') →
    stored w' KCryostat (key KCryostat o) = Some o' ∧
    V2.cr_Status o' = V2.cr_Status o ∧
    ∃ old, stored w KCryostat (key KCryostat o) = Some old ∧ V2.cr_Spec o' = V2.cr_Spec old ∧
           key_of_meta (V2.cr_meta o') = key_of_meta (V2.cr_meta old);
  (** A deletion is complete, unless finalizers hold the object back. *)
  Delete_Ok k o w w' : client_Delete k o w = (Ok (), w') →
    stored w' k (key k o) = None ∨
    (∃ old, stored w k (key k o) = Some old ∧ om_Finalizers (om k old) ≠ []);
  Delete_NotFound k o w e w' : client_Delete k o w = (Err e, w') → kerrors_IsNotFound e = true →
    stored w' k (key k o) = None;

  (** controllerutil and apimachinery *)
  CreateOrUpdate_documented k o f w :
    controllerutil_CreateOrUpdate k o f w = CreateOrUpdate_doc k o f w;
  DeepEqual_kept w k n existing o : stored w k n = Some existing →
    equality_Semantic_DeepEqual k existing o = true → kept k o existing;
  SetControllerReference_Ok owner m m' : controllerutil_SetControllerReference owner m = Ok m' →
    m' = m <| om_OwnerReferences := om_OwnerReferences m' |> ∧
    metav1_IsControlledBy m' owner = true;
  IsControlledBy_refs m m' owner : om_OwnerReferences m = om_OwnerReferences m' →
    metav1_IsControlledBy m owner = metav1_IsControlledBy m' owner;
  ContainsFinalizer_spec m f : controllerutil_ContainsFinalizer m f = bool_decide (f ∈ om_Finalizers m);
  AddFinalizer_spec m f : controllerutil_AddFinalizer m f =
    if bool_decide (f ∈ om_Finalizers m) then m
    else m <| om_Finalizers := om_Finalizers m ++ [f] |>;
  RemoveFinalizer_spec m f : controllerutil_RemoveFinalizer m f =
    m <| om_Finalizers := filter (λ g, g ≠ f) (om_Finalizers m) |>;
  SetMetaDataLabel_spec m k v : metav1_SetMetaDataLabel m k v =
    m <| om_Labels ::= λ l, Some (<[k := v]> (gm_make l)) |>;
  SetMetaDataAnnotation_spec m k v : metav1_SetMetaDataAnnotation m k v =
    m <| om_Annotations ::= λ l, Some (<[k := v]> (gm_make l)) |>;
  SetStatusCondition_find l c t :
    meta_FindStatusCondition (meta_SetStatusCondition l c) t =
    if bool_decide (t = cond_Type c) then Some c else meta_FindStatusCondition l t;
  RemoveStatusCondition_find l t t' :
    meta_FindStatusCondition (meta_RemoveStatusCondition l t) t' =
    if bool_decide (t' = t) then None else meta_FindStatusCondition l t';
  cmp_Equal_sound A `{EqDecision A} (x y : A) : cmp_Equal x y = true → x = y;

  rand_range n w z w' : 0 < n → rand_Intn n w = (z, w') → 0 ≤ z < n;
  range_perm A (l : list A) w l' w' : go_range l w = (l', w') → l' ≡ₚ l;
}.

(** ** Quantities

    [resource.Quantity] is a library type: parsing and comparing are parameters. *)
Class QuantityOps := {
  resource_MustParse : string → Quantity;
  resource_ParseQuantity : string → res Quantity;
  Quantity_Cmp : Quantity → Quantity → Z;
  (** [Value]: the amount as an integer, rounded up *)
  Quantity_Value : Quantity → Z;
  (** [ResourceList.Cpu] and [ResourceList.Memory] *)
  ResourceList_Cpu : gmap string Quantity → Quantity;
  ResourceList_Memory : gmap string Quantity → Quantity;
  ResourceList_Storage : gmap string Quantity → Quantity;
  resource_NewQuantity : Z → QFormat → Quantity }.
Class QuantityLaws `{QuantityOps} := {
  Cmp_order a b : Quantity_Cmp a b < 0 ↔ q_nano a < q_nano b;
  Value_up q : (Quantity_Value q - 1) * 10 ^ 9 < q_nano q ≤ Quantity_Value q * 10 ^ 9;
  Cpu_found l q : l !! ResourceCPU = Some q → ResourceList_Cpu l = q;
  Cpu_absent l : l !! ResourceCPU = None → q_nano (ResourceList_Cpu l) = 0;
  Memory_found l q : l !! ResourceMemory = Some q → ResourceList_Memory l = q;
  Storage_found l q : l !! ResourceStorage = Some q → ResourceList_Storage l = q }.
