(* ===== verification/ClientRules.v ===== *)
(** * Reasoning about programs over the API server

    [touches S m]: however [m] ends, only the objects in [S] may have changed.  Then what a
    successful [CreateOrUpdate] and a successful deletion leave stored.  [touch] proves a
    [touches] goal by following the syntax of the program. *)

From S2P Require Export Client.
Open Scope Z_scope.

Section rules.
Context `{KubeLaws W}.
Implicit Types (S : Kind → NamespacedName → Prop) (k : Kind) (n : NamespacedName) (w : W).

#[export] Instance same_except_preorder S : PreOrder (same_except (W:=W) S).
Proof.
  split; [by intros w k n _|]. intros w1 w2 w3 H12 H23 k n Hn. by rewrite H23, H12.
Qed.

Lemma same_except_weaken S S' w w' :
  (∀ k n, S k n → S' k n) → same_except S w w' → same_except S' w w'.
Proof. intros HS Hw k n Hn. apply Hw. intros Hs. by apply Hn, HS. Qed.

Lemma same_store_eq w w' k n : same_store w w' → stored w' k n = stored w k n.
Proof. intros Hw. by apply Hw; intros []. Qed.

Definition touches {A} S (m : M W A) : Prop := keeps (same_except S) m.

Lemma touches_weaken {A} S S' (m : M W A) :
  (∀ k n, S k n → S' k n) → touches S m → touches S' m.
Proof. intros HS. apply keeps_weaken. intros w w'. by apply same_except_weaken. Qed.

Lemma touches_ret {A} S (a : A) : touches S (mretM a).
Proof. apply keeps_ret, _. Qed.
Lemma touches_bind {A B} S (m : M W A) (f : A → M W B) :
  touches S m → (∀ a, touches S (f a)) → touches S (mbindM m f).
Proof. apply keeps_bind, _. Qed.
Lemma touches_try {A B} S (m : E W A) (f : A → E W B) :
  touches S m → (∀ a, touches S (f a)) → touches S (mtry m f).
Proof. apply keeps_try, _. Qed.
(** The same, using that the first part ran. *)
Lemma touches_bind_ran {A B} S (m : M W A) (f : A → M W B) :
  touches S m → (∀ a w w', m w = (a, w') → touches S (f a)) → touches S (mbindM m f).
Proof.
  intros Hm Hf w b w' (a & w1 & Ha & Hb)%mbindM_inv.
  transitivity w1; [by eapply Hm | by eapply (Hf a w w1)].
Qed.
Lemma touches_try_ran {A B} S (m : E W A) (f : A → E W B) :
  touches S m → (∀ a w w', m w = (Ok a, w') → touches S (f a)) → touches S (mtry m f).
Proof.
  intros Hm Hf. apply touches_bind_ran; [done|]. intros [a|e] w w' Hr; [by eapply Hf | apply touches_ret].
Qed.
Lemma touches_for_each {A} S (l : list A) (f : A → E W ()) :
  (∀ x, x ∈ l → touches S (f x)) → touches S (for_each l f).
Proof. apply keeps_for_each, _. Qed.

(** The reads. *)
Lemma touches_reads {A} S (m : M W A) :
  (∀ w a w', m w = (a, w') → same_store w w') → touches S m.
Proof. intros Hm w a w' Hrun. eapply same_except_weaken; [|by eapply Hm]. done. Qed.
Lemma touches_Get S k n : touches S (client_Get k n).
Proof. apply touches_reads, Get_reads. Qed.
Lemma touches_List S ns : touches S (client_ListCertificates ns).
Proof. apply touches_reads, List_reads. Qed.
Lemma touches_DryRun S c : touches S (client_DryRunStrictCreate c).
Proof. apply touches_reads, DryRun_reads. Qed.
Lemma touches_RESTMapping S : touches S RESTMapping_Issuer.
Proof. apply touches_reads, RESTMapping_reads. Qed.
Lemma touches_Event S c t r m : touches S (EventRecorder_Event c t r m).
Proof. apply touches_reads, Event_reads. Qed.
Lemma touches_rand S z : touches S (rand_Intn z).
Proof. apply touches_reads, rand_reads. Qed.
Lemma touches_range S A (l : list A) : touches S (go_range l).
Proof. apply touches_reads, range_reads. Qed.

(** The writes. *)
Lemma touches_only {A} S k n (m : M W A) :
  (∀ w a w', m w = (a, w') → same_except (only k n) w w') → S k n → touches S m.
Proof.
  intros Hm HS w a w' Hrun. eapply same_except_weaken; [|by eapply Hm].
  by intros k' n' [-> ->].
Qed.
Lemma touches_Create S k o : S k (key k o) → touches S (client_Create k o).
Proof. apply touches_only, Create_touches. Qed.
Lemma touches_Update S k o : S k (key k o) → touches S (client_Update k o).
Proof. apply touches_only, Update_touches. Qed.
Lemma touches_Delete S k o : S k (key k o) → touches S (client_Delete k o).
Proof. apply touches_only, Delete_touches. Qed.
Lemma touches_StatusUpdate S o : S KCryostat (key KCryostat o) → touches S (client_StatusUpdate o).
Proof. apply touches_only, StatusUpdate_touches. Qed.

Lemma touches_mutate S k n f o : touches S (f o) → touches S (mutate k n f o).
Proof. intros Hf. apply touches_bind; [exact Hf|]. intros [o1 [[]|e]]; apply touches_ret. Qed.

Lemma mutate_ok k n f o w o1 w1 :
  mutate k n f o w = ((o1, Ok ()), w1) → f o w = ((o1, Ok ()), w1) ∧ key k o1 = n.
Proof.
  intros ([o2 r] & w2 & Hf & Hr)%mbindM_inv. destruct r as [[]|e]; simpl in Hr; [case_bool_decide as Hk|]; by ret_inv Hr.
Qed.

Lemma touches_CreateOrUpdate_at S k o f :
  (∀ o', key k o' = key k o → touches S (f o')) → S k (key k o) →
  touches S (controllerutil_CreateOrUpdate k o f).
Proof.
  intros Hf HS w a w'. rewrite CreateOrUpdate_documented. unfold CreateOrUpdate_doc.
  intros (got & w1 & Hget & Hrun)%mbindM_inv.
  transitivity w1; [by eapply touches_Get|].
  assert (Hmut : ∀ base mkR (wr : obj k → M W (obj k * res ())) ,
    key k base = key k o → (∀ o1, key k o1 = key k o → touches S (wr o1)) →
    (let* m := mutate k (key k o) f base in
     match m.2 with
     | Err e => mretM (m.1, Err e)
     | Ok _ => mkR m.1 (wr m.1)
     end) w1 = (a, w') →
    (∀ o1 (m : M W (obj k * res ())), touches S m → touches S (mkR o1 m)) →
    same_except S w1 w').
  { intros base mkR wr Hbase Hwr ([o1 [[]|e]] & w2 & Hm & Hk)%mbindM_inv HmkR.
    - transitivity w2; [eapply touches_mutate; [by apply Hf | exact Hm]|].
      apply mutate_ok in Hm as [_ Hkey]. eapply HmkR; [by apply Hwr | exact Hk].
    - ret_inv Hk. eapply touches_mutate; [by apply Hf | exact Hm]. }
  destruct got as [existing|e]; [|destruct (kerrors_IsNotFound e)].
  - eapply (Hmut existing (λ o1 m, if equality_Semantic_DeepEqual k existing o1
                 then mretM (o1, Ok OperationResultNone)
                 else let* u := m in mretM (u.1, match u.2 with Ok _ => Ok OperationResultUpdated
                                                            | Err e => Err e end))).
    + by eapply stored_key, Get_Ok.
    + intros o1 Hk. apply touches_Update. by rewrite Hk.
    + exact Hrun.
    + intros o1 m Hm. destruct (equality_Semantic_DeepEqual _ _ _); [apply touches_ret|].
      apply touches_bind; [done|]. intros; apply touches_ret.
  - eapply (Hmut o (λ o1 m, let* u := m in mretM (u.1, match u.2 with Ok _ => Ok OperationResultCreated
                                                            | Err e => Err e end))).
    + done.
    + intros o1 Hk. apply touches_Create. by rewrite Hk.
    + exact Hrun.
    + intros o1 m Hm. apply touches_bind; [done|]. intros; apply touches_ret.
  - ret_inv Hrun. reflexivity.
Qed.
Lemma touches_CreateOrUpdate S k o f :
  (∀ o', touches S (f o')) → S k (key k o) → touches S (controllerutil_CreateOrUpdate k o f).
Proof. intros Hf. apply touches_CreateOrUpdate_at. intros o' _. apply Hf. Qed.

(** The answer is an object with the same key. *)
Lemma CreateOrUpdate_key k o f w o' op w' :
  controllerutil_CreateOrUpdate k o f w = ((o', Ok op), w') → key k o' = key k o.
Proof.
  rewrite CreateOrUpdate_documented. unfold CreateOrUpdate_doc.
  intros (got & w1 & _ & Hrun)%mbindM_inv.
  destruct got as [existing|e]; [|destruct (kerrors_IsNotFound e); [|by ret_inv Hrun]];
    apply mbindM_inv in Hrun as ([o1 [[]|e']] & w2 & Hm & Hrun); cbn [fst snd] in Hrun; try by ret_inv Hrun.
  - apply mutate_ok in Hm as [_ Hkey].
    destruct (equality_Semantic_DeepEqual _ _ _); [by ret_inv Hrun|].
    apply mbindM_inv in Hrun as ([o2 [[]|e']] & w3 & Hu & Hrun); ret_inv Hrun.
    rewrite <-Hkey. by eapply Update_key.
  - apply mutate_ok in Hm as [_ Hkey].
    apply mbindM_inv in Hrun as ([o2 [[]|e']] & w3 & Hc & Hrun); ret_inv Hrun.
    apply Create_Ok in Hc as (_ & Hc & _). rewrite <-Hkey. by eapply stored_key.
Qed.

(** What a successful [CreateOrUpdate] leaves stored: an object that keeps what the
    callback made of the stored object, or of [o] when there was none.  The callback must
    leave the object itself alone in the store, and the object must not be under
    deletion.  The object in memory is the server's answer, or the callback's when it
    changed nothing. *)
Lemma CreateOrUpdate_answer k o f w o' op w' :
  (∀ base u r u', f base u = (r, u') → stored u' k (key k o) = stored u k (key k o)) →
  (∀ old, stored w k (key k o) = Some old → om_DeletionTimestamp (om k old) = None) →
  controllerutil_CreateOrUpdate k o f w = ((o', Ok op), w') →
  ∃ base w1 o1 w2 got,
    same_store w w1 ∧
    (stored w k (key k o) = None ∧ base = o ∨ stored w k (key k o) = Some base) ∧
    f base w1 = ((o1, Ok ()), w2) ∧ key k o1 = key k o ∧
    stored w' k (key k o) = Some got ∧ kept k o1 got ∧
    same_except (only k (key k o)) w2 w' ∧ (o' = got ∨ o' = o1).
Proof.
  intros Hf Hdel. rewrite CreateOrUpdate_documented. unfold CreateOrUpdate_doc.
  intros (got & w1 & Hget & Hrun)%mbindM_inv.
  pose proof (Get_reads _ _ _ _ _ Hget) as Hw1.
  assert (Hs1 : stored w1 k (key k o) = stored w k (key k o)) by exact (same_store_eq _ _ _ _ Hw1).
  destruct got as [existing|e].
  - apply Get_Ok in Hget.
    apply mbindM_inv in Hrun as ([o1 [[]|e]] & w2 & Hm & Hrun); simpl in Hrun; [|by ret_inv Hrun].
    apply mutate_ok in Hm as [Hm Hkey].
    assert (Hs2 : stored w2 k (key k o) = Some existing) by (by rewrite (Hf _ _ _ _ Hm), Hs1).
    destruct (equality_Semantic_DeepEqual k existing o1) eqn:Heq.
    + unfold mretM in Hrun. injection Hrun as <- <- <-. exists existing, w1, o1, w2, existing.
      split_and!; auto; [by eapply DeepEqual_kept | reflexivity].
    + apply mbindM_inv in Hrun as ([o2 [[]|e]] & w3 & Hu & Hrun);
        unfold mretM in Hrun; simpl in Hrun; [|discriminate]. injection Hrun as <- <- <-.
      pose proof (Update_touches _ _ _ _ _ Hu) as Hu'.
      rewrite <-Hkey in Hs2. eapply Update_Ok in Hu as [Hu Hk]; [|exact Hs2 | by apply Hdel].
      rewrite Hkey in Hu, Hu'. exists existing, w1, o1, w2, o2. by split_and!; auto.
  - destruct (kerrors_IsNotFound e) eqn:He; [|by ret_inv Hrun].
    pose proof (Get_NotFound _ _ _ _ _ Hget He) as Hnone.
    apply mbindM_inv in Hrun as ([o1 [[]|e']] & w2 & Hm & Hrun); simpl in Hrun; [|by ret_inv Hrun].
    apply mutate_ok in Hm as [Hm Hkey].
    apply mbindM_inv in Hrun as ([o2 [[]|e']] & w3 & Hc & Hrun);
      unfold mretM in Hrun; simpl in Hrun; [|discriminate]. injection Hrun as <- <- <-.
    pose proof (Create_touches _ _ _ _ _ Hc) as Hc'.
    apply Create_Ok in Hc as (_ & Hc & Hk). rewrite Hkey in Hc, Hc'.
    exists o, w1, o1, w2, o2. by split_and!; auto.
Qed.

Lemma CreateOrUpdate_ok k o f w o' op w' :
  (∀ base u r u', f base u = (r, u') → stored u' k (key k o) = stored u k (key k o)) →
  (∀ old, stored w k (key k o) = Some old → om_DeletionTimestamp (om k old) = None) →
  controllerutil_CreateOrUpdate k o f w = ((o', Ok op), w') →
  ∃ base w1 o1 w2 got,
    same_store w w1 ∧
    (stored w k (key k o) = None ∧ base = o ∨ stored w k (key k o) = Some base) ∧
    f base w1 = ((o1, Ok ()), w2) ∧ key k o1 = key k o ∧
    stored w' k (key k o) = Some got ∧ kept k o1 got ∧
    same_except (only k (key k o)) w2 w'.
Proof.
  intros Hf Hd Hrun.
  destruct (CreateOrUpdate_answer _ _ _ _ _ _ _ Hf Hd Hrun)
    as (base & w1 & o1 & w2 & got & H1 & H2 & H3 & H4 & H5 & H6 & H7 & _).
  by exists base, w1, o1, w2, got.
Qed.

(** A failed [CreateOrUpdate] reports an error of the libraries, or the callback's own. *)
Lemma CreateOrUpdate_err k o f w o' e w' :
  controllerutil_CreateOrUpdate k o f w = ((o', Err e), w') →
  foreign e ∨
  ∃ base w1, same_store w w1 ∧
    (stored w k (key k o) = None ∧ base = o ∨ stored w k (key k o) = Some base) ∧
    f base w1 = ((o', Err e), w').
Proof.
  rewrite CreateOrUpdate_documented. unfold CreateOrUpdate_doc.
  intros (got & w1 & Hget & Hrun)%mbindM_inv.
  pose proof (Get_reads _ _ _ _ _ Hget) as Hw1.
  assert (Hmut : ∀ base o1 e1 w2, mutate k (key k o) f base w1 = ((o1, Err e1), w2) →
    foreign e1 ∨ f base w1 = ((o1, Err e1), w2)).
  { intros base o1 e1 w2 ([o2 [[]|e2]] & w3 & Hf & Hr)%mbindM_inv; simpl in Hr.
    - case_bool_decide; ret_inv Hr. by left.
    - ret_inv Hr. by right. }
  destruct got as [existing|e1].
  - apply Get_Ok in Hget.
    apply mbindM_inv in Hrun as ([o1 [[]|e1]] & w2 & Hm & Hrun); simpl in Hrun.
    + destruct (equality_Semantic_DeepEqual k existing o1); [by ret_inv Hrun|].
      apply mbindM_inv in Hrun as ([o2 [[]|e2]] & w3 & Hu & Hrun); ret_inv Hrun.
      left. by eapply Update_foreign.
    + ret_inv Hrun. apply Hmut in Hm as [?|Hm]; [by left|]. right. exists existing, w1. auto.
  - destruct (kerrors_IsNotFound e1) eqn:He.
    2:{ ret_inv Hrun. left. by eapply Get_foreign. }
    apply Get_NotFound in Hget; [|done].
    apply mbindM_inv in Hrun as ([o1 [[]|e2]] & w2 & Hm & Hrun); simpl in Hrun.
    + apply mbindM_inv in Hrun as ([o2 [[]|e2]] & w3 & Hc & Hrun); ret_inv Hrun.
      left. by eapply Create_foreign.
    + ret_inv Hrun. apply Hmut in Hm as [?|Hm]; [by left|]. right. exists o, w1. auto.
Qed.

(** A callback that fails on the stored object leaves the cluster as it was. *)
Lemma CreateOrUpdate_refused k o f w old o1 e o' q w' :
  stored w k (key k o) = Some old → (∀ u, f old u = ((o1, Err e), u)) →
  controllerutil_CreateOrUpdate k o f w = ((o', q), w') →
  same_store w w' ∧ ∃ e', q = Err e' ∧ (foreign e' ∨ e' = e).
Proof.
  intros Ho Hf. rewrite CreateOrUpdate_documented. unfold CreateOrUpdate_doc.
  intros (got & w1 & Hget & Hrun)%mbindM_inv. pose proof (Get_reads _ _ _ _ _ Hget) as Hw1.
  destruct got as [existing|e1].
  - apply Get_Ok in Hget. rewrite Ho in Hget. injection Hget as <-.
    apply mbindM_inv in Hrun as (m & w2 & Hm & Hrun). unfold mutate, mbindM in Hm. rewrite Hf in Hm.
    unfold mretM in Hm. injection Hm as <- <-. simpl in Hrun. ret_inv Hrun. eauto.
  - destruct (kerrors_IsNotFound e1) eqn:He; [apply Get_NotFound in Hget; [congruence|done]|].
    ret_inv Hrun. apply Get_foreign in Hget. eauto.
Qed.

Lemma CreateOrUpdate_created k o f w o' w' :
  controllerutil_CreateOrUpdate k o f w = ((o', Ok OperationResultCreated), w') →
  stored w k (key k o) = None.
Proof.
  rewrite CreateOrUpdate_documented. unfold CreateOrUpdate_doc.
  intros (got & w1 & Hget & Hrun)%mbindM_inv. destruct got as [existing|e].
  - apply mbindM_inv in Hrun as ([o1 [[]|e]] & w2 & Hm & Hrun); simpl in Hrun; [|by ret_inv Hrun].
    destruct (equality_Semantic_DeepEqual _ _ _); [by ret_inv Hrun|].
    apply mbindM_inv in Hrun as ([o2 [[]|e]] & w3 & Hu & Hrun); by ret_inv Hrun.
  - destruct (kerrors_IsNotFound e) eqn:He; [|by ret_inv Hrun].
    by eapply Get_NotFound.
Qed.

(** The owner reference changes nothing else of the object. *)
Lemma SetControllerReference_fields owner m m' :
  controllerutil_SetControllerReference owner m = Ok m' →
  om_Labels m' = om_Labels m ∧ om_Annotations m' = om_Annotations m ∧
  CreationTimestamp_IsZero m' = CreationTimestamp_IsZero m ∧ key_of_meta m' = key_of_meta m.
Proof.
  intros Hr. apply SetControllerReference_Ok in Hr as [E _]. rewrite E.
  destruct m. unfold field_update. done.
Qed.

(** A loop over an absent object: a deletion that succeeds, or finds nothing, leaves
    nothing, as long as no finalizer holds the object back. *)
Definition unheld w k n : Prop :=
  ∀ old, stored w k n = Some old → om_Finalizers (om k old) = [].

(** An object that no finalizer holds and that is not under deletion. *)
Definition quiet w k n : Prop :=
  ∀ old, stored w k n = Some old →
    om_Finalizers (om k old) = [] ∧ om_DeletionTimestamp (om k old) = None.
Lemma quiet_unheld w k n : quiet w k n → unheld w k n.
Proof. intros Hq old Ho. by apply Hq in Ho as [? _]. Qed.
Lemma quiet_eq w w' k n : stored w' k n = stored w k n → quiet w k n → quiet w' k n.
Proof. intros E Hq old Ho. apply Hq. by rewrite <-E. Qed.
Lemma same_except_out S w w' k n : same_except S w w' → ¬ S k n → stored w' k n = stored w k n.
Proof. intros Hw. apply Hw. Qed.

Lemma Delete_gone k o w r w' :
  unheld w k (key k o) → client_Delete k o w = (r, w') →
  (r = Ok () ∨ ∃ e, r = Err e ∧ kerrors_IsNotFound e = true) → stored w' k (key k o) = None.
Proof.
  intros Hh Hrun [->|(e & -> & He)]; [|by eapply Delete_NotFound].
  destruct (Delete_Ok _ _ _ _ Hrun) as [?|(old & Ho & Hne)]; [done|].
  by destruct Hne; apply Hh.
Qed.
(** ** One object in each target namespace

    [grant] creates or updates the object of a namespace, [revoke] deletes it; they are
    run over the namespaces of the spec, then over those that were dropped. *)
Section per_namespace.
Context (k : Kind) (at_ns : string → NamespacedName) (grant revoke : string → E W ()) (Q : obj k → Prop).
Context (Hinj : ∀ x y, at_ns x = at_ns y → x = y).
Context (grant_touches : ∀ ns, touches (only k (at_ns ns)) (grant ns)).
Context (revoke_touches : ∀ ns, touches (only k (at_ns ns)) (revoke ns)).
Context (grant_ok : ∀ ns w w', quiet w k (at_ns ns) → grant ns w = (Ok (), w') →
  ∃ got, stored w' k (at_ns ns) = Some got ∧ Q got).
Context (revoke_ok : ∀ ns w w', unheld w k (at_ns ns) → revoke ns w = (Ok (), w') →
  stored w' k (at_ns ns) = None).

Lemma per_namespace_other {A} (m : M W A) x y w q w' :
  touches (only k (at_ns y)) m → m w = (q, w') → x ≠ y → stored w' k (at_ns x) = stored w k (at_ns x).
Proof.
  intros Hm Hu Hxy. eapply same_except_out; [by eapply Hm|]. intros [_ Hn]. by apply Hxy, Hinj.
Qed.
Lemma per_namespace_others (f : string → E W ()) l x w q w' :
  (∀ y, touches (only k (at_ns y)) (f y)) → for_each l f w = (q, w') → x ∉ l →
  stored w' k (at_ns x) = stored w k (at_ns x).
Proof.
  intros Hf Hu Hx. eapply (same_except_out (λ k' n, k' = k ∧ ∃ y, y ∈ l ∧ n = at_ns y)).
  2:{ intros (_ & y & Hy & E). by apply Hinj in E as ->. }
  eapply touches_for_each; [|exact Hu]. intros y Hy.
  eapply touches_weaken; [|apply Hf]. intros k' n [-> ->]. eauto.
Qed.

Lemma grant_all l w w' :
  NoDup l → (∀ ns, ns ∈ l → quiet w k (at_ns ns)) → for_each l grant w = (Ok (), w') →
  ∀ ns, ns ∈ l → ∃ got, stored w' k (at_ns ns) = Some got ∧ Q got.
Proof.
  intros Hnd Hq.
  apply (for_each_run (λ ns u, quiet u k (at_ns ns)) (λ ns u, ∃ got, stored u k (at_ns ns) = Some got ∧ Q got));
    [done..| |].
  - intros ns u u' _. apply grant_ok.
  - intros x y u q u' Hxy Hf. pose proof (per_namespace_other _ _ _ _ _ _ (grant_touches y) Hf Hxy) as E.
    split; [by apply quiet_eq|]. by rewrite E.
Qed.

Lemma revoke_all l w w' :
  (∀ ns, ns ∈ l → unheld w k (at_ns ns)) → for_each l revoke w = (Ok (), w') →
  ∀ ns, ns ∈ l → stored w' k (at_ns ns) = None.
Proof.
  intros Hq.
  apply (for_each_all (λ ns u, unheld u k (at_ns ns)) (λ ns u, stored u k (at_ns ns) = None)); [done|].
  intros y u u' _ Hu Hf. pose proof (revoke_ok _ _ _ Hu Hf) as Hg.
  split; [done|]. intros x. destruct (decide (x = y)) as [->|Hxy].
  - split; [|done]. intros _ old. by rewrite Hg.
  - unfold unheld. by rewrite (per_namespace_other _ _ _ _ _ _ (revoke_touches y) Hf Hxy).
Qed.

Lemma per_namespace_ok l dropped w w' :
  NoDup l → (∀ ns, ns ∈ dropped → ns ∉ l) → (∀ ns, ns ∈ l ∨ ns ∈ dropped → quiet w k (at_ns ns)) →
  (do? for_each l grant in for_each dropped revoke) w = (Ok (), w') →
  (∀ ns, ns ∈ l → ∃ got, stored w' k (at_ns ns) = Some got ∧ Q got) ∧
  (∀ ns, ns ∈ dropped → stored w' k (at_ns ns) = None).
Proof.
  intros Hnd Hdis Hq Hrun. apply mtry_ok_inv in Hrun as ([] & w1 & Hgrant & Hrevoke). split.
  - intros ns Hns. rewrite (per_namespace_others revoke _ ns _ _ _ revoke_touches Hrevoke)
      by (intros Hd; by apply (Hdis ns)).
    eapply grant_all; [exact Hnd| |exact Hgrant|exact Hns]. auto.
  - eapply revoke_all; [|exact Hrevoke]. intros ns Hd. apply quiet_unheld.
    eapply quiet_eq; [|by apply Hq; right].
    exact (per_namespace_others grant _ ns _ _ _ grant_touches Hgrant (Hdis ns Hd)).
Qed.
End per_namespace.
End rules.

Create HintDb touches.
#[export] Hint Resolve touches_Get touches_List touches_DryRun touches_RESTMapping
  touches_Event touches_rand touches_range touches_ret : touches.

(** One step of the syntax-directed proof of [touches]; [touch] leaves the membership
    goals [S k n] that it cannot close by reflexivity. *)
Ltac touch_step :=
  lazymatch goal with
  | |- touches _ (mretM _) => apply touches_ret
  | |- touches _ (mbindM _ _) => apply touches_bind; [|intros ?]
  | |- touches _ (mtry _ _) => apply touches_try; [|intros ?]
  | |- touches _ (for_each _ _) => apply touches_for_each; intros ? ?
  | |- touches _ (controllerutil_CreateOrUpdate _ _ _) => apply touches_CreateOrUpdate; [intros ?|]
  | |- touches _ (client_Create _ _) => apply touches_Create
  | |- touches _ (client_Update _ _) => apply touches_Update
  | |- touches _ (client_Delete _ _) => apply touches_Delete
  | |- touches _ (client_StatusUpdate _) => apply touches_StatusUpdate
  | |- touches _ (match ?x with _ => _ end) => destruct x
  | |- touches _ (let '(_, _) := ?x in _) => destruct x
  | |- touches _ _ => first [ solve [eauto with touches] | progress simpl ]
  end.
Ltac touch := repeat touch_step.
