(* ===== verification/FakeClient.v ===== *)
(** * An in-memory API server

    A concrete world that obeys [KubeLaws]: the hypotheses about the cluster hold
    together, and the theorems that need them can be run on it.  An object is stored under
    the key it was written with; what is read is the stored object with its key, a creation
    timestamp and, for a secret, [StringData] merged into [Data]. *)

From S2P Require Export ClientRules.
Open Scope Z_scope.

Definition objects : Type := ∀ k : Kind, gmap NamespacedName (obj k).

(** [fk_seed] drives the random numbers. *)
Record fake := { fk_objs : objects; fk_seed : Z }.

Definition upd (k : Kind) (m : gmap NamespacedName (obj k)) (s : objects) : objects :=
  λ k', match decide (k = k') with
        | left e => eq_rect k (λ j, gmap NamespacedName (obj j)) m k' e
        | right _ => s k'
        end.

Lemma upd_same k m s : upd k m s k = m.
Proof. unfold upd. destruct (decide (k = k)) as [e|]; [by rewrite (proof_irrel e eq_refl) | done]. Qed.
Lemma upd_other k k' m s : k ≠ k' → upd k m s k' = s k'.
Proof. intros Hne. unfold upd. by destruct (decide (k = k')). Qed.

(** What the server makes of an object written under [n]. *)
Definition admit_fields (k : Kind) : obj k → obj k :=
  match k with
  | KSecret => λ o, o <| sec_Data := Some (gm_make (sec_StringData o) ∪ gm_make (sec_Data o)) |>
                      <| sec_StringData := None |>
  | _ => λ o, o
  end.
Definition admit_meta (n : NamespacedName) (m : ObjectMeta) : ObjectMeta :=
  m <| om_Name := nn_Name n |> <| om_Namespace := nn_Namespace n |>
    <| om_CreationTimestamp := Some (default 0 (om_CreationTimestamp m)) |>.
Definition admitted (k : Kind) (n : NamespacedName) (o : obj k) : obj k :=
  admit_fields k (with_om k (admit_meta n (om k o)) o).

Definition fk_stored (w : fake) (k : Kind) (n : NamespacedName) : option (obj k) :=
  admitted k n <$> fk_objs w k !! n.
Definition fk_put (k : Kind) (n : NamespacedName) (o : obj k) (w : fake) : fake :=
  {| fk_objs := upd k (<[n := o]> (fk_objs w k)) (fk_objs w); fk_seed := fk_seed w |}.
Definition fk_drop (k : Kind) (n : NamespacedName) (w : fake) : fake :=
  {| fk_objs := upd k (delete n (fk_objs w k)) (fk_objs w); fk_seed := fk_seed w |}.

Definition NotFound : error := StatusError "NotFound" "".
Definition AlreadyExists : error := StatusError "AlreadyExists" "".

Definition fk_Get (k : Kind) (n : NamespacedName) : E fake (obj k) :=
  λ w, (match fk_stored w k n with Some o => Ok o | None => Err NotFound end, w).
Definition fk_Create (k : Kind) (o : obj k) : M fake (obj k * res ()) := λ w,
  let n := key k o in
  match fk_stored w k n with
  | Some _ => ((o, Err AlreadyExists), w)
  | None => ((admitted k n o, Ok ()), fk_put k n o w)
  end.
(** The status is a subresource. *)
Definition keep_status (k : Kind) : obj k → obj k → obj k :=
  match k with
  | KCryostat => λ old o, (o : V2.Cryostat) <| V2.cr_Status := V2.cr_Status old |>
  | _ => λ _ o, o
  end.
Definition fk_Update (k : Kind) (o : obj k) : M fake (obj k * res ()) := λ w,
  let n := key k o in
  match fk_stored w k n with
  | None => ((o, Err NotFound), w)
  | Some old =>
      let o1 := keep_status k old
        (with_om k ((om k o) <| om_DeletionTimestamp := om_DeletionTimestamp (om k old) |>) o) in
      if bool_decide (om_DeletionTimestamp (om k old) ≠ None) && bool_decide (om_Finalizers (om k o) = [])
      then ((admitted k n o1, Ok ()), fk_drop k n w)
      else ((admitted k n o1, Ok ()), fk_put k n o1 w)
  end.
Definition fk_StatusUpdate (o : V2.Cryostat) : M fake (V2.Cryostat * res ()) := λ w,
  let n := key KCryostat o in
  match fk_stored w KCryostat n with
  | None => ((o, Err NotFound), w)
  | Some old =>
      let o1 := (old : V2.Cryostat) <| V2.cr_Status := V2.cr_Status o |> in
      ((admitted KCryostat n o1, Ok ()), fk_put KCryostat n o1 w)
  end.
Definition fk_Delete (k : Kind) (o : obj k) : E fake () := λ w,
  let n := key k o in
  match fk_stored w k n with
  | None => (Err NotFound, w)
  | Some old =>
      if bool_decide (om_Finalizers (om k old) = []) then (Ok (), fk_drop k n w)
      else (Ok (), fk_put k n (with_om k ((om k old) <| om_DeletionTimestamp := Some 0 |>) old) w)
  end.
Definition fk_List (ns : string) : E fake (list Certificate) := λ w,
  (Ok (filter (λ c, om_Namespace (cert_meta c) = ns)
        (map (λ nc, admitted KCertificate nc.1 nc.2) (map_to_list (fk_objs w KCertificate)))), w).

(** A controller reference to [owner], identified by its UID. *)
Definition is_controller (r : OwnerReference) : bool := bool_decide (ref_Controller r = Some true).
Definition fk_GetControllerOf (m : ObjectMeta) : option OwnerReference :=
  head (List.filter is_controller (om_OwnerReferences m)).
Definition fk_IsControlledBy (m owner : ObjectMeta) : bool :=
  match fk_GetControllerOf m with
  | Some r => bool_decide (ref_UID r = om_UID owner)
  | None => false
  end.
Definition controller_ref (owner : ObjectMeta) : OwnerReference := {|
  ref_APIVersion := "operator.cryostat.io/v1beta2"; ref_Kind := "Cryostat";
  ref_Name := om_Name owner; ref_UID := om_UID owner;
  ref_Controller := Some true; ref_BlockOwnerDeletion := Some true |}.
Definition fk_SetControllerReference (owner m : ObjectMeta) : res ObjectMeta :=
  match fk_GetControllerOf m with
  | None => Ok (m <| om_OwnerReferences ::= λ l, l ++ [controller_ref owner] |>)
  | Some r => if bool_decide (ref_UID r = om_UID owner) then Ok m
              else Err (Errorf "AlreadyOwnedError" [om_Name m; ref_Name r])
  end.

Fixpoint fk_SetStatusCondition (l : list Condition) (c : Condition) : list Condition :=
  match l with
  | [] => [c]
  | c' :: l' => if bool_decide (cond_Type c' = cond_Type c) then c :: l'
                else c' :: fk_SetStatusCondition l' c
  end.
Fixpoint fk_FindStatusCondition (l : list Condition) (t : string) : option Condition :=
  match l with
  | [] => None
  | c :: l' => if bool_decide (cond_Type c = t) then Some c else fk_FindStatusCondition l' t
  end.
Definition has_reason (r : string) (e : error) : bool :=
  match e with StatusError r' _ => bool_decide (r' = r) | _ => false end.

(** The basic operations; [CreateOrUpdate] is added below, over them. *)
Definition fake_pre_kube : Kube fake := {|
  stored := fk_stored;
  client_Get := fk_Get; client_Create := fk_Create; client_Update := fk_Update;
  client_StatusUpdate := fk_StatusUpdate; client_Delete := fk_Delete;
  client_ListCertificates := fk_List;
  client_DryRunStrictCreate := λ _, mretM (Ok ());
  RESTMapping_Issuer := mretM (Ok ());
  EventRecorder_Event := λ _ _ _ _, mretM ();
  controllerutil_CreateOrUpdate := λ _ o _, mretM (o, Err NotFound);
  controllerutil_SetControllerReference := fk_SetControllerReference;
  controllerutil_ContainsFinalizer := λ m f, bool_decide (f ∈ om_Finalizers m);
  controllerutil_AddFinalizer := λ m f, if bool_decide (f ∈ om_Finalizers m) then m
                                       else m <| om_Finalizers := om_Finalizers m ++ [f] |>;
  controllerutil_RemoveFinalizer := λ m f, m <| om_Finalizers := filter (λ g, g ≠ f) (om_Finalizers m) |>;
  equality_Semantic_DeepEqual := λ _ _ _, false;
  kerrors_IsNotFound := has_reason "NotFound"; kerrors_IsBadRequest := has_reason "BadRequest";
  kerrors_IsInvalid := has_reason "Invalid"; meta_IsNoMatchError := has_reason "NoMatch";
  metav1_IsControlledBy := fk_IsControlledBy; metav1_GetControllerOf := fk_GetControllerOf;
  metav1_SetMetaDataLabel := λ m k v, m <| om_Labels ::= λ l, Some (<[k := v]> (gm_make l)) |>;
  metav1_SetMetaDataAnnotation := λ m k v, m <| om_Annotations ::= λ l, Some (<[k := v]> (gm_make l)) |>;
  certv1_DefaultKeyUsages := ["digital signature"; "key encipherment"];
  json_Marshal_OAuthRedirectReference := λ kind name, Ok (kind +:+ "/" +:+ name);
  meta_SetStatusCondition := fk_SetStatusCondition;
  meta_FindStatusCondition := fk_FindStatusCondition;
  meta_RemoveStatusCondition := λ l t, filter (λ c, cond_Type c ≠ t) l;
  cmp_Equal := λ A _ x y, bool_decide (x = y);
  rand_Intn := λ n w, (fk_seed w mod n, w <| fk_seed ::= Z.succ |>);
  go_range := λ _ l, mretM l;
  os_Getenv := λ _, "" |}.

(** The same world with the documented [CreateOrUpdate] over those operations. *)
#[export] Instance fake_kube : Kube fake := {|
  stored := fk_stored;
  client_Get := fk_Get; client_Create := fk_Create; client_Update := fk_Update;
  client_StatusUpdate := fk_StatusUpdate; client_Delete := fk_Delete;
  client_ListCertificates := fk_List;
  client_DryRunStrictCreate := @client_DryRunStrictCreate fake fake_pre_kube;
  RESTMapping_Issuer := @RESTMapping_Issuer fake fake_pre_kube;
  EventRecorder_Event := @EventRecorder_Event fake fake_pre_kube;
  controllerutil_CreateOrUpdate := @CreateOrUpdate_doc fake fake_pre_kube;
  controllerutil_SetControllerReference := fk_SetControllerReference;
  controllerutil_ContainsFinalizer := @controllerutil_ContainsFinalizer fake fake_pre_kube;
  controllerutil_AddFinalizer := @controllerutil_AddFinalizer fake fake_pre_kube;
  controllerutil_RemoveFinalizer := @controllerutil_RemoveFinalizer fake fake_pre_kube;
  equality_Semantic_DeepEqual := @equality_Semantic_DeepEqual fake fake_pre_kube;
  kerrors_IsNotFound := has_reason "NotFound"; kerrors_IsBadRequest := has_reason "BadRequest";
  kerrors_IsInvalid := has_reason "Invalid"; meta_IsNoMatchError := has_reason "NoMatch";
  metav1_IsControlledBy := fk_IsControlledBy; metav1_GetControllerOf := fk_GetControllerOf;
  metav1_SetMetaDataLabel := λ m k v, m <| om_Labels ::= λ l, Some (<[k := v]> (gm_make l)) |>;
  metav1_SetMetaDataAnnotation := λ m k v, m <| om_Annotations ::= λ l, Some (<[k := v]> (gm_make l)) |>;
  certv1_DefaultKeyUsages := ["digital signature"; "key encipherment"];
  json_Marshal_OAuthRedirectReference := λ kind name, Ok (kind +:+ "/" +:+ name);
  meta_SetStatusCondition := fk_SetStatusCondition;
  meta_FindStatusCondition := fk_FindStatusCondition;
  meta_RemoveStatusCondition := @meta_RemoveStatusCondition fake fake_pre_kube;
  cmp_Equal := @cmp_Equal fake fake_pre_kube;
  rand_Intn := @rand_Intn fake fake_pre_kube; go_range := @go_range fake fake_pre_kube;
  os_Getenv := @os_Getenv fake fake_pre_kube |}.

(** ** It obeys the laws *)

Lemma om_admitted k n o : om k (admitted k n o) = admit_meta n (om k o).
Proof. by destruct k. Qed.
Lemma key_admitted k n o : key k (admitted k n o) = n.
Proof. unfold key. rewrite om_admitted. by destruct n. Qed.

Lemma fk_stored_key w k n o : fk_stored w k n = Some o → key k o = n.
Proof.
  unfold fk_stored. destruct (fk_objs w k !! n); [|discriminate].
  intros [= <-]. apply key_admitted.
Qed.

Lemma stored_put k n o w : fk_stored (fk_put k n o w) k n = Some (admitted k n o).
Proof. unfold fk_stored, fk_put; simpl. by rewrite upd_same, lookup_insert_eq. Qed.
Lemma stored_drop k n w : fk_stored (fk_drop k n w) k n = None.
Proof. unfold fk_stored, fk_drop; simpl. by rewrite upd_same, lookup_delete_eq. Qed.
Lemma put_touches k n o w : same_except (only k n) w (fk_put k n o w).
Proof.
  intros k' n' Hn. unfold stored, fake_kube, fk_stored, fk_put; simpl.
  destruct (decide (k = k')) as [<-|Hk]; [|by rewrite upd_other].
  rewrite upd_same, lookup_insert_ne; [done|]. intros ->. by apply Hn.
Qed.
Lemma drop_touches k n w : same_except (only k n) w (fk_drop k n w).
Proof.
  intros k' n' Hn. unfold stored, fake_kube, fk_stored, fk_drop; simpl.
  destruct (decide (k = k')) as [<-|Hk]; [|by rewrite upd_other].
  rewrite upd_same, lookup_delete_ne; [done|]. intros ->. by apply Hn.
Qed.

Lemma keeps_map_refl {V} (m : gomap V) : keeps_map m m.
Proof. by intros ? ?. Qed.

Lemma kept_admitted k o : kept k o (admitted k (key k o) o).
Proof.
  unfold kept. rewrite om_admitted.
  split; [split; [|split]; try apply keeps_map_refl; reflexivity|].
  destruct k; first [done | simpl; split_and!; try apply keeps_map_refl; try apply keeps_target_refl; done].
Qed.

(** Changing the metadata that a write ignores changes nothing it keeps. *)
Lemma om_keep_status k old o : om k (keep_status k old o) = om k o.
Proof. by destruct k. Qed.
Lemma kept_with_om k old o m :
  om_Labels m = om_Labels (om k o) → om_Annotations m = om_Annotations (om k o) →
  om_OwnerReferences m = om_OwnerReferences (om k o) → key_of_meta m = key k o →
  kept k o (admitted k (key k o) (keep_status k old (with_om k m o))).
Proof.
  intros Hl Ha Hr Hk. unfold kept. rewrite om_admitted, om_keep_status, om_with_om.
  split; [|destruct k; first [done | simpl; split_and!; try apply keeps_map_refl; try apply keeps_target_refl; done]].
  unfold keeps_meta. rewrite <-Hl, <-Ha, <-Hr.
  split; [|split]; try apply keeps_map_refl. reflexivity.
Qed.

Lemma same_except_refl S (w : fake) : same_except S w w.
Proof. by intros ? ? ?. Qed.

Lemma find_SetStatusCondition l c t :
  fk_FindStatusCondition (fk_SetStatusCondition l c) t =
  if bool_decide (t = cond_Type c) then Some c else fk_FindStatusCondition l t.
Proof.
  revert t. induction l as [|c' l IH]; intros t; simpl.
  { by repeat case_bool_decide; congruence. }
  case_bool_decide as Hc; simpl; [|rewrite IH]; repeat case_bool_decide; congruence.
Qed.

Lemma find_RemoveStatusCondition l t t' :
  fk_FindStatusCondition (filter (λ c, cond_Type c ≠ t) l) t' =
  if bool_decide (t' = t) then None else fk_FindStatusCondition l t'.
Proof.
  revert t'. induction l as [|c l IH]; intros t'; [by repeat case_bool_decide|].
  rewrite filter_cons. destruct (decide (cond_Type c ≠ t)) as [Hc|Hc%dec_stable]; simpl; rewrite IH;
    repeat case_bool_decide; congruence.
Qed.

Lemma fk_SetControllerReference_Ok owner m m' :
  fk_SetControllerReference owner m = Ok m' →
  m' = m <| om_OwnerReferences := om_OwnerReferences m' |> ∧ fk_IsControlledBy m' owner = true.
Proof.
  unfold fk_SetControllerReference, fk_IsControlledBy, fk_GetControllerOf.
  destruct (head (List.filter is_controller (om_OwnerReferences m))) as [r|] eqn:E.
  - case_bool_decide as Hu; [|done]. intros [= <-]. rewrite E.
    split; [by destruct m | by case_bool_decide].
  - intros [= <-]. split; [by destruct m|].
    destruct m as [? ? ? ? ? ? ? ? ? refs ?]; unfold field_update; simpl in *.
    rewrite List.filter_app. destruct (List.filter is_controller refs); [|done].
    simpl. by case_bool_decide.
Qed.

Lemma fk_List_spec ns w c :
  c ∈ filter (λ c, om_Namespace (cert_meta c) = ns)
        (map (λ nc, admitted KCertificate nc.1 nc.2) (map_to_list (fk_objs w KCertificate)))
  ↔ om_Namespace (cert_meta c) = ns ∧ fk_stored w KCertificate (key KCertificate c) = Some c.
Proof.
  rewrite list_elem_of_filter. apply and_iff_compat_l.
  change (map ?f ?l) with (f <$> l). rewrite list_elem_of_fmap. unfold fk_stored. split.
  - intros ([n o] & -> & Hin). rewrite elem_of_map_to_list in Hin. cbn [fst snd].
    pose proof (key_admitted KCertificate n o) as Hkey. rewrite Hkey. by rewrite Hin.
  - intros Hs. destruct (fk_objs w KCertificate !! key KCertificate c) as [o|] eqn:E; [|done].
    simpl in Hs. injection Hs as Hs. exists (key KCertificate c, o). simpl.
    split; [by rewrite Hs | by apply elem_of_map_to_list].
Qed.

#[local] Ltac run :=
  repeat match goal with
  | H : mretM _ _ = _ |- _ => unfold mretM in H
  | H : (_, _) = (_, _) |- _ => injection H as; subst
  | H : Ok _ = Ok _ |- _ => injection H as; subst
  | H : Err _ = Err _ |- _ => injection H as; subst
  | H : _ = _ |- _ => discriminate H
  | H : (match ?x with _ => _ end) = _ |- _ => destruct x eqn:?
  | H : (if ?x then _ else _) = _ |- _ => destruct x eqn:?
  end.

#[export] Instance fake_laws : KubeLaws fake.
Proof.
  split.
  - intros k n w r w' Hr. unfold client_Get, fake_kube, fk_Get in Hr. run; apply same_except_refl.
  - intros ns w r w' Hr. injection Hr as <- <-. apply same_except_refl.
  - intros c w r w' Hr. injection Hr as <- <-. apply same_except_refl.
  - intros w r w' Hr. injection Hr as <- <-. apply same_except_refl.
  - intros c t r m w x w' Hr. injection Hr as <-. subst. apply same_except_refl.
  - intros n w z w' Hr. injection Hr as <- <-. by intros k' n' _.
  - intros A l w l' w' Hr. injection Hr as <- <-. apply same_except_refl.
  - intros k o w r w' Hr. unfold client_Create, fake_kube, fk_Create in Hr.
    run; [apply same_except_refl | apply put_touches].
  - intros k o w r w' Hr. unfold client_Update, fake_kube, fk_Update in Hr.
    run; [apply drop_touches | apply put_touches | apply same_except_refl].
  - intros o w r w' Hr. unfold client_StatusUpdate, fake_kube, fk_StatusUpdate in Hr.
    run; [apply put_touches | apply same_except_refl].
  - intros k o w r w' Hr. unfold client_Delete, fake_kube, fk_Delete in Hr.
    run; [apply drop_touches | apply put_touches | apply same_except_refl].
  - intros k n w o w' Hr. unfold client_Get, fake_kube, fk_Get in Hr. by run.
  - intros k n w e w' Hr. unfold client_Get, fake_kube, fk_Get in Hr. by run.
  - intros ns w l w' _ Hr c. injection Hr as <- <-. apply fk_List_spec.
  - apply fk_stored_key.
  - intros w k n o Hs. unfold stored, fake_kube, fk_stored in Hs.
    destruct (fk_objs w k !! n); [|done]. injection Hs as <-. by rewrite om_admitted.
  - intros w n s Hs. unfold stored, fake_kube, fk_stored in Hs.
    destruct (fk_objs w KSecret !! n); [|done]. by injection Hs as <-.
  - intros k n w e w' Hr. unfold client_Get, fake_kube, fk_Get in Hr. by run.
  - intros k o w o' e w' Hr. unfold client_Create, fake_kube, fk_Create in Hr. by run.
  - intros k o w o' e w' Hr. unfold client_Update, fake_kube, fk_Update in Hr. by run.
  - intros o w o' e w' Hr. unfold client_StatusUpdate, fake_kube, fk_StatusUpdate in Hr. by run.
  - intros c w e w' Hr. by run.
  - intros k o w e w' Hr. unfold client_Delete, fake_kube, fk_Delete in Hr. by run.
  - intros owner m e Hr. simpl in Hr. unfold fk_SetControllerReference in Hr. by run.
  - intros k o w o' w' Hr. unfold client_Create, fake_kube, fk_Create in Hr.
    run; try done. split; [done|]. split; [apply stored_put | apply kept_admitted].
  - intros k o w o' w' Hr. unfold client_Update, fake_kube, fk_Update in Hr. run; apply key_admitted.
  - intros k o old w o' w' Hr Hs Hd. unfold client_Update, fake_kube, fk_Update in Hr.
    simpl in Hs. rewrite Hs, Hd in Hr. run; try done.
    split; [apply stored_put | by apply kept_with_om].
  - intros o old w o' w' Hr Hs. unfold client_Update, fake_kube, fk_Update in Hr.
    simpl in Hs. rewrite Hs in Hr. run; try done.
  - intros k o old w o' w' Hr Hs Hd. unfold client_Update, fake_kube, fk_Update in Hr.
    simpl in Hs. rewrite Hs in Hr. run; try done.
    + left. apply stored_drop.
    + right. split; [apply stored_put|]. by rewrite om_admitted, om_keep_status, om_with_om.
  - intros o w o' w' Hr. unfold client_StatusUpdate, fake_kube, fk_StatusUpdate in Hr.
    destruct (fk_stored w KCryostat (key KCryostat o)) as [old|] eqn:E; [|done].
    injection Hr as <- <-. split; [apply stored_put|]. split; [done|].
    exists old. split; [done|]. split; [done|].
    transitivity (key KCryostat o); [exact (key_admitted KCryostat _ _)|].
    symmetry. exact (fk_stored_key _ _ _ _ E).
  - intros k o w w' Hr. unfold client_Delete, fake_kube, fk_Delete in Hr.
    run; try done; [left; apply stored_drop|]. right. eexists. split; [done|].
    by case_bool_decide.
  - intros k o w e w' Hr He. unfold client_Delete, fake_kube, fk_Delete in Hr. by run.
  - reflexivity.
  - done.
  - apply fk_SetControllerReference_Ok.
  - intros m m' owner Hr. unfold metav1_IsControlledBy, fake_kube, fk_IsControlledBy, fk_GetControllerOf.
    by rewrite Hr.
  - done.
  - done.
  - done.
  - done.
  - done.
  - apply find_SetStatusCondition.
  - apply find_RemoveStatusCondition.
  - intros A HA x y Hxy. simpl in Hxy. by apply bool_decide_eq_true in Hxy.
  - intros n w z w' Hn Hr. injection Hr as <- <-. by apply Z.mod_pos_bound.
  - intros A l w l' w' Hr. by injection Hr as <- <-.
Qed.

(** What can be read off the whole of a kind. *)
Lemma fk_quiet w k :
  map_Forall (λ _ o, om_Finalizers (om k o) = [] ∧ om_DeletionTimestamp (om k o) = None) (fk_objs w k) →
  ∀ n, quiet w k n.
Proof.
  intros Hall n old. unfold stored, fake_kube, fk_stored.
  destruct (fk_objs w k !! n) as [o|] eqn:E; [|done]. intros [= <-].
  apply Hall in E. rewrite om_admitted. exact E.
Qed.

(** The empty cluster. *)
Definition fk_empty : fake := {| fk_objs := λ k, ∅; fk_seed := 0 |}.
Lemma fk_empty_stored k n : stored fk_empty k n = None.
Proof. unfold stored, fake_kube, fk_stored; simpl. by rewrite lookup_empty. Qed.

(** A Cryostat installed in [ns] that watches [ns] and [a], and used to watch [b]. *)
Definition sample_Cryostat : V2.Cryostat := {|
  V2.cr_meta := (NewObjectMeta "cryostat" "ns") <| om_UID := "uid-1" |>
                  <| om_Finalizers := ["operator.cryostat.io/cryostat.finalizer"] |>;
  V2.cr_Spec := V2.zero_CryostatSpec <| V2.spec_TargetNamespaces := Some ["ns"; "a"] |>;
  V2.cr_Status := V2.zero_CryostatStatus <| V2.st_TargetNamespaces := ["a"; "b"] |> |}.
(** The cluster that holds it. *)
Definition fk_sample : fake := fk_put KCryostat (nn "ns" "cryostat") sample_Cryostat fk_empty.

(** ** Quantities

    A number followed by a suffix, in billionths. *)
Definition quantity_suffixes : list (string * Z) :=
  [("", 1000000000); ("m", 1000000); ("k", 1000000000000);
   ("Ki", 1024000000000); ("Mi", 1048576000000000); ("Gi", 1073741824000000000)].
Fixpoint quantity_of (n : Z) (s : string) : Z :=
  match s with
  | String c s' =>
      if is_digit c then quantity_of (10 * n + digit_val c) s'
      else n * default 0 (snd <$> List.find (λ p, bool_decide (p.1 = s)) quantity_suffixes)
  | EmptyString => n * 1000000000
  end.
#[export] Instance fake_quantity : QuantityOps := {|
  resource_MustParse := λ s, {| q_nano := quantity_of 0 s; q_format := DecimalSI |};
  resource_ParseQuantity := λ s, Ok {| q_nano := quantity_of 0 s; q_format := DecimalSI |};
  Quantity_Cmp := λ a b, q_nano a - q_nano b;
  Quantity_Value := λ q, - (- q_nano q / 10 ^ 9);
  ResourceList_Cpu := λ l, default {| q_nano := 0; q_format := DecimalSI |} (l !! ResourceCPU);
  ResourceList_Memory := λ l, default {| q_nano := 0; q_format := BinarySI |} (l !! ResourceMemory);
  ResourceList_Storage := λ l, default {| q_nano := 0; q_format := BinarySI |} (l !! ResourceStorage);
  resource_NewQuantity := λ z f, {| q_nano := z * 1000000000; q_format := f |} |}.
#[export] Instance fake_quantity_laws : QuantityLaws.
Proof.
  split; simpl.
  - intros a b. lia.
  - intros q. pose proof (Z.div_mod (- q_nano q) (10 ^ 9)). pose proof (Z.mod_pos_bound (- q_nano q) (10 ^ 9)). lia.
  - by intros l q ->.
  - by intros l ->.
  - by intros l q ->.
  - by intros l q ->.
Qed.
