(* ===== verification/Common.v ===== *)
(** * Helpers shared by the controllers

    [internal/controller/model/instance.go], [internal/controller/constants],
    [internal/controller/common/common_utils.go] (naming, metadata, pull policies, resource
    requests), [naming.go], [finalizer_utils.go] and [tls.go]. *)

From S2P Require Export ClientRules.
From S2P Require Import Hash FakeClient.
From Stdlib Require Import Ascii.
Open Scope Z_scope.

(** ** The Cryostat instance

    [Spec], [Status] and [TargetNamespaceStatus] are pointers into the CR object, so they
    are read and written through [ci_Object]; [TargetNamespaces] is a copy of the slice. *)
Record CryostatInstance := {
  ci_Name : string; ci_InstallNamespace : string; ci_TargetNamespaces : list string;
  ci_Object : V2.Cryostat }.
Definition ci_Spec (cr : CryostatInstance) : V2.CryostatSpec := V2.cr_Spec (ci_Object cr).
Definition ci_Status (cr : CryostatInstance) : V2.CryostatStatus := V2.cr_Status (ci_Object cr).
Definition ci_TargetNamespaceStatus (cr : CryostatInstance) : list string :=
  V2.st_TargetNamespaces (ci_Status cr).
Definition ci_meta (cr : CryostatInstance) : ObjectMeta := V2.cr_meta (ci_Object cr).

Definition FromCryostat (cr : V2.Cryostat) : CryostatInstance := {|
  ci_Name := om_Name (V2.cr_meta cr); ci_InstallNamespace := om_Namespace (V2.cr_meta cr);
  ci_TargetNamespaces := default [] (V2.spec_TargetNamespaces (V2.cr_Spec cr));
  ci_Object := cr |}.

(** The fields of the reconciler the controllers read; [r_Kind] is [gvk.Kind]. *)
Record Reconciler := {
  r_IsOpenShift : bool; r_IsCertManagerInstalled : bool; r_FIPSEnabled : bool;
  r_InsightsProxy : option string; r_Kind : string }.

(** ** Computations that also change the CR in memory

    A function that writes to [cr.Status] or [cr.Spec], or passes [cr.Object] to the
    client, returns the instance it leaves, with its result, errors included. *)
Definition CrE `{Kube W} (A : Type) : Type := M W (CryostatInstance * res A).
Definition cr_try `{Kube W} {A B} (m : CrE A) (k : CryostatInstance → A → CrE B) : CrE B :=
  let* r := m in
  match r.2 with Ok a => k r.1 a | Err e => mretM (r.1, Err e) end.
(** A call that leaves the instance alone. *)
Definition cr_call `{Kube W} {A} (cr : CryostatInstance) (m : E W A) : CrE A :=
  let* r := m in mretM (cr, r).
Definition cr_ret `{Kube W} {A} (cr : CryostatInstance) (a : A) : CrE A := mretM (cr, Ok a).

Notation "'let^' cr , x := m 'in' k" := (cr_try m (λ cr x, k))
  (at level 10, cr name, x name, m at level 100, k at level 200) : go_scope.
Notation "'do^' cr := m 'in' k" := (cr_try m (λ cr _, k))
  (at level 10, cr name, m at level 100, k at level 200) : go_scope.

(** ** Constants *)
Definition AuthProxyHttpContainerPort : Z := 4180.
Definition CryostatHTTPContainerPort : Z := 8181.
Definition GrafanaContainerPort : Z := 3000.
Definition DatasourceContainerPort : Z := 8989.
Definition ReportsContainerPort : Z := 10000.
Definition StoragePort : Z := 8333.
Definition DatabasePort : Z := 5432.
Definition OperatorDeploymentName : string := "cryostat-operator-controller".
Definition AgentProxyContainerPort : Z := 8282.
Definition AgentProxyHealthPort : Z := 8281.
Definition AgentCallbackContainerPort : Z := 9977.
Definition AgentCallbackPortName : string := "cryostat-cb".
Definition LoopbackAddress : string := "127.0.0.1".
Definition HttpPortName : string := "http".
Definition HttpsPortName : string := "https".
Definition LabelAppName : string := "cryostat".
Definition CAKey : string := "ca.crt".
Definition TLSCertKey : string := "tls.crt".
Definition TLSPrivateKeyKey : string := "tls.key".
Definition DatabaseSecretConnectionKey : string := "CONNECTION_KEY".
Definition DatabaseSecretEncryptionKey : string := "ENCRYPTION_KEY".
Definition KeyStoreFile : string := "keystore.p12".
Definition KeystorePassSecretKey : string := "KEYSTORE_PASS".
Definition KeystorePassFile : string := "keystore.pass".
Definition CapabilityAll : string := "ALL".
Definition AgentEmptyDirBasePath : string := "/tmp/cryostat-agent".
Definition AgentJarPath : string := "/tmp/cryostat-agent/cryostat-agent-shaded.jar".
Definition AgentLabelPrefix : string := "cryostat.io/".
Definition AgentLabelCryostatName : string := "cryostat.io/name".
Definition AgentLabelCryostatNamespace : string := "cryostat.io/namespace".
Definition AgentLabelLogLevel : string := "cryostat.io/log-level".
Definition AgentLabelCallbackPort : string := "cryostat.io/callback-port".
Definition AgentLabelContainer : string := "cryostat.io/container".
Definition AgentLabelReadOnly : string := "cryostat.io/read-only".
Definition AgentLabelJavaOptionsVar : string := "cryostat.io/java-options-var".
Definition AgentLabelHarvesterTemplate : string := "cryostat.io/harvester-template".
Definition AgentLabelHarvesterPeriod : string := "cryostat.io/harvester-period".
Definition AgentLabelHarvesterMaxFiles : string := "cryostat.io/harvester-max-files".
Definition AgentLabelHarvesterExitMaxAge : string := "cryostat.io/harvester-exit-max-age".
Definition AgentLabelHarvesterExitMaxSize : string := "cryostat.io/harvester-exit-max-size".
Definition AgentLabelSmartTriggersConfigMaps : string := "cryostat.io/smart-triggers".
Definition AgentProxyConfigFilePath : string := "/etc/nginx-cryostat".
Definition AgentProxyConfigFileName : string := "nginx.conf".
Definition targetNamespaceCRLabelPrefix : string := "operator.cryostat.io/".
Definition TargetNamespaceCRNameLabel : string := targetNamespaceCRLabelPrefix +:+ "name".
Definition TargetNamespaceCRNamespaceLabel : string := targetNamespaceCRLabelPrefix +:+ "namespace".
Definition CryostatCATLSCommonName : string := "cryostat-ca-cert-manager".
Definition CryostatTLSCommonName : string := "cryostat".
Definition DatabaseTLSCommonName : string := "cryostat-db".
Definition StorageTLSCommonName : string := "cryostat-storage".
Definition ReportsTLSCommonName : string := "cryostat-reports".
Definition AgentsTLSCommonName : string := "cryostat-agent".
Definition AgentAuthProxyTLSCommonName : string := "cryostat-agent-proxy".

(** ** Unique names *)

(** [fmt.Sprintf("%x", sum)] of the checksum of the namespaced name. *)
Definition clusterUniqueName (kind prefix name namespace targetNS : string) (short : bool) : string :=
  let prefixWithKind := strings.ToLower kind in
  let prefixWithKind := if 0 <? len prefix then prefixWithKind +:+ "-" +:+ prefix else prefixWithKind in
  let toHash := namespace +:+ "/" +:+ name in
  let toHash := if 0 <? len targetNS then toHash +:+ "/" +:+ targetNS else toHash in
  let suffix := if short then hex_of (fnv.Sum128 toHash) else hex_of (sha256.Sum256 toHash) in
  prefixWithKind +:+ "-" +:+ suffix.

Definition ClusterUniqueNameWithPrefixTargetNS (kind prefix name namespace targetNS : string) : string :=
  clusterUniqueName kind prefix name namespace targetNS false.
Definition ClusterUniqueNameWithPrefix (kind prefix name namespace : string) : string :=
  ClusterUniqueNameWithPrefixTargetNS kind prefix name namespace "".
Definition ClusterUniqueName (kind name namespace : string) : string :=
  ClusterUniqueNameWithPrefix kind "" name namespace.
Definition ClusterUniqueShortNameWithPrefix (kind prefix name namespace : string) : string :=
  clusterUniqueName kind prefix name namespace "" true.

Definition AgentCallbackServiceName (kind : string) (cr : CryostatInstance) : string :=
  ClusterUniqueShortNameWithPrefix kind "agent" (ci_Name cr) (ci_InstallNamespace cr).
Definition AgentGatewayServiceName (cr : CryostatInstance) : string := ci_Name cr +:+ "-agent".
Definition AgentCertificateName (kind : string) (cr : CryostatInstance) (targetNamespace : string) : string :=
  ClusterUniqueNameWithPrefixTargetNS kind "agent" (ci_Name cr) (ci_InstallNamespace cr) targetNamespace.

(** ** Labels and annotations *)

(** Merging over a map: the entries of the source win. *)
Definition merge_map (dest : gomap string) (src : gomap string) : gomap string :=
  Some (gm_make src ∪ gm_make dest).
Definition MergeLabelsAndAnnotations (dest : ObjectMeta) (srcLabels srcAnnotations : gomap string)
  : ObjectMeta :=
  dest <| om_Labels ::= λ d, merge_map d srcLabels |>
       <| om_Annotations ::= λ d, merge_map d srcAnnotations |>.

Definition LabelsForTargetNamespaceObject (cr : CryostatInstance) : gomap string :=
  Some (gm_of_list [(TargetNamespaceCRNameLabel, ci_Name cr);
                    (TargetNamespaceCRNamespaceLabel, ci_InstallNamespace cr)]).

(** ** Image pull policy *)

(** Case folding as the regular expression does it: ASCII letters in lower case, and the
    long s (two bytes in UTF-8), the one other character that folds to a letter of the
    pattern. *)
Fixpoint fold_case (cs : list ascii) : list ascii :=
  match cs with
  | c1 :: ((c2 :: cs'') as cs') =>
      if (byte_val c1 =? 0xC5) && (byte_val c2 =? 0xBF) then "s"%char :: fold_case cs''
      else strings.lower_byte c1 :: fold_case cs'
  | _ => map strings.lower_byte cs
  end.

Fixpoint strip_digits (rev : list ascii) : nat * list ascii :=
  match rev with
  | c :: rev' => if is_digit c then let '(n, r) := strip_digits rev' in (S n, r) else (O, rev)
  | [] => (O, [])
  end.

Definition ends_with (cs : list ascii) (suffix : string) : bool :=
  bool_decide (take (String.length suffix) (reverse cs) = reverse (bytes suffix)).

(** [(?i)(:latest|SNAPSHOT|dev|BETA\d+)$] *)
Definition develVerRegexp_MatchString (imageTag : string) : bool :=
  let cs := fold_case (bytes imageTag) in
  ends_with cs ":latest" || ends_with cs "snapshot" || ends_with cs "dev" ||
  (let '(n, r) := strip_digits (reverse cs) in (0 <? n)%nat && ends_with (reverse r) "beta").

Definition GetPullPolicy (imageTag : string) : string :=
  if develVerRegexp_MatchString imageTag then "Always" else "IfNotPresent".

Example pull_policies :
  map GetPullPolicy ["quay.io/cryostat/cryostat:latest"; "cryostat:4.1.0-snapshot"; "c:4.0.0-dev";
    "c:4.0.0-Beta12"; "c:4.0.0-BETA"; "c:4.0.0"; "latest"; "c:12"] =
  ["Always"; "Always"; "Always"; "Always"; "IfNotPresent"; "IfNotPresent"; "IfNotPresent"; "IfNotPresent"].
Proof. reflexivity. Qed.

(** ** Resource requests *)
Section resources.
Context `{QuantityOps}.

(** [limits] is a map (not nil) or nothing happens; [requests] is updated in place. *)
Definition checkResourceRequestWithLimit (requests : gmap string Quantity) (limits : ResourceList)
  : gmap string Quantity :=
  match limits with
  | None => requests
  | Some limits =>
      let requests :=
        match limits !! ResourceCPU with
        | Some limitCpu =>
            if Quantity_Cmp limitCpu (ResourceList_Cpu requests) <? 0
            then <[ResourceCPU := limitCpu]> requests else requests
        | None => requests
        end in
      match limits !! ResourceMemory with
      | Some limitMemory =>
          if Quantity_Cmp limitMemory (ResourceList_Memory requests) <? 0
          then <[ResourceMemory := limitMemory]> requests else requests
      | None => requests
      end
  end.

(** [if _, found := requests[k]; !found { requests[k] = v }] *)
Definition set_default (k : string) (v : Quantity) (m : gmap string Quantity) : gmap string Quantity :=
  match m !! k with Some _ => m | None => <[k := v]> m end.

Definition PopulateResourceRequest (resources : ResourceRequirements)
    (defaultCpuRequest defaultMemoryRequest defaultCpuLimit defaultMemoryLimit : string)
  : ResourceRequirements :=
  let custom := bool_decide (rr_Requests resources ≠ None) || bool_decide (rr_Limits resources ≠ None) in
  let requests := gm_make (rr_Requests resources) in
  let requests := set_default ResourceCPU (resource_MustParse defaultCpuRequest) requests in
  let requests := set_default ResourceMemory (resource_MustParse defaultMemoryRequest) requests in
  let limits := if custom then rr_Limits resources
                else Some (gm_of_list [(ResourceCPU, resource_MustParse defaultCpuLimit);
                                       (ResourceMemory, resource_MustParse defaultMemoryLimit)]) in
  resources <| rr_Limits := limits |>
            <| rr_Requests := Some (checkResourceRequestWithLimit requests limits) |>.
End resources.

(** ** Seccomp *)
Definition SeccompProfile (openshift : bool) : option string :=
  if openshift then None else Some "RuntimeDefault".

(** ** The process environment and generated passwords *)
Section process.
Context `{Kube W}.

Definition GetEnv (name : string) : string := os_Getenv name.
Definition GetEnvOrDefault (name defaultVal : string) : string :=
  let val := GetEnv name in if 0 <? len val then val else defaultVal.

Definition passwd_chars : string := "abcdefghijklmnopqrstuvwxyzABCDEFGHIJKLMNOPQRSTUVWXYZ0123456789-_".

(** One character per index, each drawn from [chars]. *)
Fixpoint gen_chars (n : nat) : M W (list ascii) :=
  match n with
  | O => mretM []
  | S n' =>
      let* i := rand_Intn (len passwd_chars) in
      let* rest := gen_chars n' in
      mretM (nth (Z.to_nat i) (bytes passwd_chars) "000"%char :: rest)
  end.
Definition GenPasswd (length : Z) : M W string :=
  let* b := gen_chars (Z.to_nat length) in mretM (of_bytes b).

(** ** Finalizers: the updated object is the caller's *)
Definition AddFinalizer k (o : obj k) (finalizer : string) : M W (obj k * res ()) :=
  client_Update k (with_om k (controllerutil_AddFinalizer (om k o) finalizer) o).
Definition RemoveFinalizer k (o : obj k) (finalizer : string) : M W (obj k * res ()) :=
  client_Update k (with_om k (controllerutil_RemoveFinalizer (om k o) finalizer) o).

(** ** TLS *)
Definition IsCertManagerEnabled (cr : CryostatInstance) : bool :=
  match V2.spec_EnableCertManager (ci_Spec cr) with
  | Some b => b
  | None => negb (bool_decide (strings.ToLower (GetEnv "DISABLE_SERVICE_TLS") = "true"))
  end.

Definition ErrCertNotReady : error :=
  Sentinel "common.ErrCertNotReady" "certificate secret not yet ready".

Definition isCertificateReady (cert : Certificate) : bool :=
  existsb (λ c, bool_decide (cc_Type c = "Ready") && bool_decide (cc_Status c = "True"))
    (cert_Conditions cert).

Definition GetCertificateSecret (cert : Certificate) : E W Secret :=
  if isCertificateReady cert then
    client_Get KSecret (nn (om_Namespace (cert_meta cert)) (cs_SecretName (cert_Spec cert)))
  else mretM (Err ErrCertNotReady).
End process.

Definition sample_cr : CryostatInstance := FromCryostat sample_Cryostat.
Definition sample_r : Reconciler := {|
  r_IsOpenShift := false; r_IsCertManagerInstalled := true; r_FIPSEnabled := false;
  r_InsightsProxy := None; r_Kind := "Cryostat" |}.

(** ** Lemmas *)

(** *** Computations over the instance *)
Lemma cr_try_inv `{Kube W} {A B} (m : CrE A) (k : CryostatInstance → A → CrE B) w cr r w' :
  cr_try m k w = ((cr, r), w') →
  (∃ cr1 a w1, m w = ((cr1, Ok a), w1) ∧ k cr1 a w1 = ((cr, r), w')) ∨
  (∃ e, m w = ((cr, Err e), w') ∧ r = Err e).
Proof.
  intros ([cr1 [a|e]] & w1 & Hm & Hk)%mbindM_inv; [left; eauto|].
  simpl in Hk. ret_inv Hk. right. eauto.
Qed.
Lemma cr_call_inv `{Kube W} {A} cr0 (m : E W A) w cr r w' :
  cr_call cr0 m w = ((cr, r), w') → cr = cr0 ∧ m w = (r, w').
Proof. intros (r1 & w1 & Hm & Hk)%mbindM_inv. by ret_inv Hk. Qed.

Section touches_cr.
Context `{KubeLaws W}.
Implicit Types (S : Kind → NamespacedName → Prop).
Lemma touches_cr_try {A B} S (m : CrE A) (k : CryostatInstance → A → CrE B) :
  touches S m → (∀ cr a, touches S (k cr a)) → touches S (cr_try m k).
Proof. intros Hm Hk. apply touches_bind; [done|]. intros [cr [a|e]]; [apply Hk|apply touches_ret]. Qed.
Lemma touches_cr_call {A} S cr (m : E W A) : touches S m → touches S (cr_call cr m).
Proof. intros Hm. apply touches_bind; [done|]. intros; apply touches_ret. Qed.
Lemma touches_cr_ret {A} S cr (a : A) : touches S (cr_ret cr a).
Proof. apply touches_ret. Qed.
End touches_cr.

(** *** Strings without a slash are recovered from their slash-separated concatenation. *)
Lemma bytes_cons c s : bytes (String c s) = c :: bytes s.
Proof. reflexivity. Qed.

(** A Kubernetes name or namespace has no slash. *)
Definition no_slash (s : string) : Prop := "/"%char ∉ bytes s.

(** The text that is hashed, and the hash that is taken of it. *)
Definition hashed_name (name namespace targetNS : string) : string :=
  let toHash := namespace +:+ "/" +:+ name in
  if 0 <? len targetNS then toHash +:+ "/" +:+ targetNS else toHash.
Definition name_hash (short : bool) (s : string) : list Z :=
  if short then fnv.Sum128 s else sha256.Sum256 s.

Lemma bytes_slash s : bytes ("/" +:+ s) = "/"%char :: bytes s.
Proof. reflexivity. Qed.

Lemma len_nonempty s : (0 <? len s) = bool_decide (s ≠ "").
Proof. destruct s; [done|]. rewrite bool_decide_true by done. apply Z.ltb_lt. unfold len; simpl; lia. Qed.

Lemma hashed_name_inj n ns t n' ns' t' :
  no_slash n → no_slash ns → no_slash n' → no_slash ns' →
  hashed_name n ns t = hashed_name n' ns' t' → n = n' ∧ ns = ns' ∧ t = t'.
Proof.
  unfold no_slash, hashed_name. intros Hn Hns Hn' Hns' E. apply (f_equal bytes) in E.
  rewrite !len_nonempty in E.
  repeat case_bool_decide; rewrite ?bytes_app, ?bytes_slash, <-?(assoc app) in E; simpl in E;
    apply app_sep_inj in E as [E1 E2]; try done; apply bytes_inj in E1 as ->.
  - apply app_sep_inj in E2 as [->%bytes_inj ->%bytes_inj]; done.
  - destruct Hn'. rewrite <-E2. set_solver.
  - destruct Hn. rewrite E2. set_solver.
  - apply bytes_inj in E2 as ->. split_and!; [done..|]. repeat match goal with
    | H : ¬ _ ≠ _ |- _ => apply dec_stable in H end. congruence.
Qed.

Lemma clusterUniqueName_eq kind prefix name ns t short :
  clusterUniqueName kind prefix name ns t short =
  (if 0 <? len prefix then strings.ToLower kind +:+ "-" +:+ prefix else strings.ToLower kind)
    +:+ "-" +:+ hex_of (name_hash short (hashed_name name ns t)).
Proof. unfold clusterUniqueName, hashed_name, name_hash. by destruct short. Qed.
(** The texts of two objects collide under the hash. *)
Definition names_collide (short : bool) (x y : string) : Prop := x ≠ y ∧ name_hash short x = name_hash short y.

Lemma length_name_hash short s : length (name_hash short s) = (if short then 16 else 32)%nat.
Proof. destruct short; [reflexivity | apply sha256.length_Sum256]. Qed.
Lemma name_hash_range short s : Forall (λ b, 0 ≤ b < 256) (name_hash short s).
Proof. destruct short; [apply Sum128_range | apply sha256.Sum256_range]. Qed.
Lemma clusterUniqueName_hash kind short p n ns t p' n' ns' t' :
  clusterUniqueName kind p n ns t short = clusterUniqueName kind p' n' ns' t' short →
  p = p' ∧ name_hash short (hashed_name n ns t) = name_hash short (hashed_name n' ns' t').
Proof.
  rewrite !clusterUniqueName_eq. intros E.
  apply (f_equal bytes) in E. rewrite !bytes_app, !(assoc app) in E.
  apply app_inj_2 in E as [E1 E2].
  2:{ rewrite !length_bytes, !length_hex_of, !length_name_hash. done. }
  apply bytes_inj, hex_of_inj in E2; [|apply name_hash_range..]. split; [|done].
  rewrite !len_nonempty in E1. apply app_inj_2 in E1 as [E1 _]; [|done].
  repeat case_bool_decide; rewrite ?bytes_app in E1.
  - apply app_inj_1 in E1 as [_ E1]; [|done].
    apply app_inj_1 in E1 as [_ E1]; [|done]. by apply bytes_inj.
  - apply (f_equal length) in E1. rewrite !length_app in E1. simpl in E1. lia.
  - apply (f_equal length) in E1. rewrite !length_app in E1. simpl in E1. lia.
  - repeat match goal with H : ¬ _ ≠ _ |- _ => apply dec_stable in H end. congruence.
Qed.

(** *** Generated passwords *)
Lemma nth_passwd_chars i d :
  0 ≤ i < len passwd_chars → nth (Z.to_nat i) (bytes passwd_chars) d ∈ bytes passwd_chars.
Proof.
  intros Hi. apply list_elem_of_In, nth_In. change (len passwd_chars) with 64 in Hi.
  change (length (bytes passwd_chars)) with 64%nat. lia.
Qed.
Lemma gen_chars_spec `{KubeLaws W} n w l w' :
  gen_chars n w = (l, w') → length l = n ∧ (∀ c, c ∈ l → c ∈ bytes passwd_chars) ∧ same_store w w'.
Proof.
  revert l w. induction n as [|n IH]; intros l w Hrun; simpl in Hrun.
  { ret_inv Hrun. split; [done|]. split; [set_solver|]. reflexivity. }
  apply mbindM_inv in Hrun as (i & w1 & Hi & Hrun).
  apply mbindM_inv in Hrun as (rest & w2 & Hr & Hrun). ret_inv Hrun.
  apply IH in Hr as (<- & Hin & Hs). split_and!; [done| |].
  - intros c [->|Hc]%elem_of_cons; [|by apply Hin].
    apply nth_passwd_chars. eapply rand_range; [|exact Hi]. by vm_compute.
  - transitivity w1; [by eapply rand_reads | exact Hs].
Qed.
Lemma touches_GenPasswd `{KubeLaws W} S n : touches S (GenPasswd n).
Proof.
  unfold GenPasswd. apply touches_bind; [|intros; apply touches_ret].
  apply touches_reads. intros w a w' Hrun. by apply gen_chars_spec in Hrun as (_ & _ & Hs).
Qed.
#[export] Hint Resolve touches_GenPasswd : touches.

(** *** Resource requests *)
Section request_lemmas.
Context `{QuantityLaws}.

(** The request for [k], lowered to the limit when it exceeds it. *)
Definition capped (limit : option Quantity) (wanted : Quantity) : Quantity :=
  match limit with
  | Some l => if q_nano l <? q_nano wanted then l else wanted
  | None => wanted
  end.

Lemma set_default_lookup k v m k' :
  set_default k v m !! k' = if bool_decide (k' = k) then Some (default v (m !! k)) else m !! k'.
Proof.
  unfold set_default. destruct (m !! k) as [v'|] eqn:E; case_bool_decide; subst; simpl; try done.
  - by rewrite lookup_insert_eq.
  - by rewrite lookup_insert_ne.
Qed.

Lemma Cmp_ltb a b : (Quantity_Cmp a b <? 0) = (q_nano a <? q_nano b).
Proof.
  destruct (Z.ltb_spec (Quantity_Cmp a b) 0) as [Hlt|Hge], (Z.ltb_spec (q_nano a) (q_nano b));
    try done; pose proof (Cmp_order a b); lia.
Qed.

Lemma checkResourceRequestWithLimit_lookup requests limits cpu mem k :
  requests !! ResourceCPU = Some cpu → requests !! ResourceMemory = Some mem →
  checkResourceRequestWithLimit requests limits !! k =
    if bool_decide (k = ResourceCPU) then Some (capped (gm_lookup limits ResourceCPU) cpu)
    else if bool_decide (k = ResourceMemory) then Some (capped (gm_lookup limits ResourceMemory) mem)
    else requests !! k.
Proof.
  intros Hc Hm. unfold checkResourceRequestWithLimit, gm_lookup.
  assert (Hne : ResourceCPU ≠ ResourceMemory) by done.
  destruct limits as [l|]; simpl; [|repeat case_bool_decide; by subst].
  set (r1 := match l !! ResourceCPU with Some _ => _ | None => _ end).
  assert (Hr1 : ∀ k', r1 !! k' = if bool_decide (k' = ResourceCPU)
                 then Some (capped (l !! ResourceCPU) cpu) else requests !! k').
  { intros k'. unfold r1, capped. rewrite (Cpu_found _ _ Hc).
    destruct (l !! ResourceCPU) as [q|]; [|case_bool_decide; by subst].
    rewrite Cmp_ltb. destruct (q_nano q <? q_nano cpu); case_bool_decide; subst; try done.
    - by rewrite lookup_insert_eq.
    - by rewrite lookup_insert_ne. }
  clearbody r1. pose proof (Hr1 ResourceMemory) as Hm1. rewrite bool_decide_false in Hm1 by done.
  rewrite Hm in Hm1. rewrite (Memory_found _ _ Hm1). unfold capped at 2.
  destruct (l !! ResourceMemory) as [q|].
  - rewrite Cmp_ltb. destruct (q_nano q <? q_nano mem).
    + destruct (decide (k = ResourceMemory)) as [->|Hk].
      * by rewrite lookup_insert_eq.
      * rewrite lookup_insert_ne by done. rewrite Hr1. repeat case_bool_decide; done.
    + rewrite Hr1. repeat case_bool_decide; subst; done.
  - rewrite Hr1. repeat case_bool_decide; subst; done.
Qed.
End request_lemmas.

(** ** Properties *)

(** Cluster-unique names of a kind are equal exactly when the prefixes are, and so are
    the hashes of the texts that identify the objects; and these texts are equal exactly when
    the names, the namespaces and the target namespaces are: nothing in the name is
    ambiguous but what the hash makes so. *)
Theorem clusterUniqueName_unique kind short p n ns t p' n' ns' t' :
  no_slash n → no_slash ns → no_slash n' → no_slash ns' →
  (clusterUniqueName kind p n ns t short = clusterUniqueName kind p' n' ns' t' short ↔
   p = p' ∧ name_hash short (hashed_name n ns t) = name_hash short (hashed_name n' ns' t')) ∧
  (hashed_name n ns t = hashed_name n' ns' t' ↔ n = n' ∧ ns = ns' ∧ t = t').
Proof.
  intros Hn Hns Hn' Hns'. split.
  - split; [apply clusterUniqueName_hash|]. intros [-> Hh]. by rewrite !clusterUniqueName_eq, Hh.
  - split; [by apply hashed_name_inj|]. by intros (-> & -> & ->).
Qed.
Lemma clusterUniqueName_unique_witness :
  clusterUniqueName "Cryostat" "agent" "a" "ns" "t" false ≠ clusterUniqueName "Cryostat" "agent" "a" "ns" "u" false.
Proof.
  intros E. apply (clusterUniqueName_unique "Cryostat" false "agent" "a" "ns" "t" "agent" "a" "ns" "u") in E as [_ E];
    [vm_compute in E; discriminate E|unfold no_slash; refine (bool_decide_unpack _ _); exact I..].
Defined.

(** C40. A short unique name is a valid service name as far as its length goes: at most 63
    characters whenever the kind and the prefix together have at most 29, and exactly 47
    for the agent callback service of a Cryostat. *)
Theorem short_name_length kind p n ns :
  len (ClusterUniqueShortNameWithPrefix kind p n ns) ≤ len kind + len p + 34 ∧
  ∀ cr, len (AgentCallbackServiceName "Cryostat" cr) = 47.
Proof.
  assert (Hlower : ∀ s, len (strings.ToLower s) = len s).
  { intros s. unfold strings.ToLower, len. rewrite <-!length_bytes, bytes_of_bytes, length_map. done. }
  assert (Hhash : ∀ s, len (hex_of (name_hash true s)) = 32).
  { intros s. unfold len. by rewrite length_hex_of, length_name_hash. }
  unfold AgentCallbackServiceName, ClusterUniqueShortNameWithPrefix. split.
  - rewrite clusterUniqueName_eq, len_nonempty.
    case_bool_decide; rewrite !len_app, Hlower, Hhash; unfold len; simpl; lia.
  - intros cr. rewrite clusterUniqueName_eq. change (0 <? len "agent") with true. cbn beta iota.
    rewrite !len_app, Hlower, Hhash. reflexivity.
Qed.

(** The CPU and memory requests that are computed: the user's request or else the
    default, lowered to the limit in force when it exceeds it; the limits are the user's as
    soon as anything was customised and the defaults otherwise; and no other request is
    touched. *)
Theorem PopulateResourceRequest_spec `{QuantityLaws} (res : ResourceRequirements) dcr dmr dcl dml :
  let res' := PopulateResourceRequest res dcr dmr dcl dml in
  let limit k := gm_lookup (rr_Limits res') k in
  let wanted k d := default (resource_MustParse d) (gm_lookup (rr_Requests res) k) in
  gm_lookup (rr_Requests res') ResourceCPU = Some (capped (limit ResourceCPU) (wanted ResourceCPU dcr)) ∧
  gm_lookup (rr_Requests res') ResourceMemory =
    Some (capped (limit ResourceMemory) (wanted ResourceMemory dmr)) ∧
  (∀ k, k ≠ ResourceCPU → k ≠ ResourceMemory →
     gm_lookup (rr_Requests res') k = gm_lookup (rr_Requests res) k) ∧
  rr_Limits res' =
    (match rr_Requests res, rr_Limits res with
     | None, None => Some {[ResourceCPU := resource_MustParse dcl; ResourceMemory := resource_MustParse dml]}
     | _, limits => limits
     end).
Proof.
  intros res' limit wanted.
  assert (Hlim : rr_Limits res' = (match rr_Requests res, rr_Limits res with
     | None, None => Some {[ResourceCPU := resource_MustParse dcl; ResourceMemory := resource_MustParse dml]}
     | _, limits => limits
     end)).
  { unfold res', PopulateResourceRequest, field_update. simpl.
    destruct (rr_Requests res), (rr_Limits res); simpl; done. }
  assert (Hreq : ∀ k, gm_lookup (rr_Requests res') k =
    if bool_decide (k = ResourceCPU) then Some (capped (limit ResourceCPU) (wanted ResourceCPU dcr))
    else if bool_decide (k = ResourceMemory)
      then Some (capped (limit ResourceMemory) (wanted ResourceMemory dmr))
    else gm_lookup (rr_Requests res) k).
  { intros k.
    change (gm_lookup (rr_Requests res') k) with
      (checkResourceRequestWithLimit
        (set_default ResourceMemory (resource_MustParse dmr)
          (set_default ResourceCPU (resource_MustParse dcr) (gm_make (rr_Requests res))))
        (rr_Limits res') !! k).
    assert (Hw : ∀ j, gm_make (rr_Requests res) !! j = gm_lookup (rr_Requests res) j).
    { intros j. unfold gm_lookup, gm_make. destruct (rr_Requests res); [done|]. apply lookup_empty. }
    rewrite (checkResourceRequestWithLimit_lookup _ _ (wanted ResourceCPU dcr) (wanted ResourceMemory dmr));
      rewrite !set_default_lookup, ?Hw; try done.
    repeat case_bool_decide; done. }
  split_and!; [by rewrite Hreq.. | | exact Hlim].
  intros k Hc Hm. by rewrite Hreq, !bool_decide_false.
Qed.
Lemma PopulateResourceRequest_spec_witness :
  let res := {| rr_Requests := None; rr_rest := [];
                rr_Limits := Some {[ ResourceCPU := resource_MustParse "100m" ]} |} in
  gm_lookup (rr_Requests (PopulateResourceRequest res "500m" "256Mi" "1" "1Gi")) ResourceCPU
    = Some (resource_MustParse "100m") ∧
  gm_lookup (rr_Requests (PopulateResourceRequest res "500m" "256Mi" "1" "1Gi")) ResourceMemory
    = Some (resource_MustParse "256Mi").
Proof.
  intros res. destruct (PopulateResourceRequest_spec res "500m" "256Mi" "1" "1Gi") as (Hc & Hm & _).
  split; [exact Hc | exact Hm].
Defined.

(** A generated password has the requested length and only characters of the
    alphabet, and generating it changes nothing in the cluster. *)
Theorem GenPasswd_spec `{KubeLaws W} n w s w' :
  0 ≤ n → GenPasswd n w = (s, w') →
  len s = n ∧ (∀ c, c ∈ bytes s → c ∈ bytes passwd_chars) ∧ same_store w w'.
Proof.
  intros Hn Hrun. apply mbindM_inv in Hrun as (l & w1 & Hl & Hrun). ret_inv Hrun.
  apply gen_chars_spec in Hl as (Hlen & Hin & Hs). unfold len.
  rewrite <-length_bytes, bytes_of_bytes, Hlen. split_and!; [lia | done | done].
Qed.
Lemma GenPasswd_spec_witness :
  len (GenPasswd 32 fk_empty).1 = 32 ∧
  ∀ c, c ∈ bytes (GenPasswd 32 fk_empty).1 → c ∈ bytes passwd_chars.
Proof.
  destruct (GenPasswd_spec 32 fk_empty (GenPasswd 32 fk_empty).1 (GenPasswd 32 fk_empty).2)
    as (Hl & Hc & _); [lia | apply surjective_pairing | split; [exact Hl | exact Hc]].
Defined.
