(* ===== verification/Recreate.v ===== *)
(** * Functions that delete an object and try again

    Five kinds of objects have a field that cannot be changed once they are created:
    [createOrUpdateX] finds the change, [recreateX] deletes the object and calls
    [createOrUpdateX] again.  This file has what the five pairs share: two attempts are
    enough, and what a successful run leaves stored. *)

From S2P Require Export Common.
Open Scope Z_scope.

(** [createOrUpdateX] and [recreateX] call each other; the model counts the calls down
    from [recreate_fuel] and reports [out_of_fuel] when it gets to zero.  [managed_enough]
    shows that two attempts give the answer of any larger number. *)
Definition out_of_fuel : error := Panic "stack exhausted".
Definition recreate_fuel : nat := 2.

(** ** What the pairs have in common

    A call with [a] first reads and prepares what it wants ([pre]: the hashes of what a
    deployment mounts, whether the API server knows all the fields of a certificate); then
    it runs [CreateOrUpdate] with a callback that only computes ([mutated]).  The callback
    asks to recreate the object by failing with [modified], which it does not on a new
    object; then the object is deleted and the call repeated with [next b].  [P] holds of
    the arguments of the calls and [Q] of what they prepare. *)
Section managed.
Context `{KubeLaws W} {A B : Type}.
Context (k : Kind) (n : NamespacedName) (P : A → Prop) (Q : B → Prop).
Context (pre : A → E W B) (wanted : B → obj k) (mutated : B → obj k → obj k * res ()).
Context (modified : error) (delete : B → E W ()) (next : B → A) (f : nat → A → E W ()).

Definition managed_apply (b : B) : E W () :=
  let* ' (_, op) := controllerutil_CreateOrUpdate k (wanted b) (λ o, mretM (mutated b o)) in
  mretM (ok? _ := op in Ok ()).
Definition managed_step (again : A → E W ()) (a : A) : E W () :=
  let? b := pre a in
  let* r := managed_apply b in
  match r with
  | Err e => if decide (e = modified) then (do? delete b in again (next b)) else mretM (Err e)
  | Ok a => mretM (Ok a)
  end.

Context (Hzero : ∀ a, f O a = mretM (Err out_of_fuel)).
Context (Hsucc : ∀ m a w, f (S m) a w = managed_step (f m) a w).
Context (Hpre : ∀ a w q w', P a → pre a w = (q, w') →
  same_store w w' ∧ q ≠ Err modified ∧ ∀ b, q = Ok b → Q b ∧ P (next b)).
Context (Hkey : ∀ b, Q b → key k (wanted b) = n).
Context (Hfresh : ∀ b, Q b → (mutated b (wanted b)).2 ≠ Err modified).
Context (Hmodified : ¬ foreign modified).
Context (Hdelete : ∀ b w w', Q b → unheld w k n → delete b w = (Ok (), w') → stored w' k n = None).

(** A new object is never asked to be recreated. *)
Lemma managed_apply_fresh b w q w' :
  Q b → stored w k n = None → managed_apply b w = (q, w') → q ≠ Err modified.
Proof.
  intros Hb Hnone Ha ->. apply mbindM_inv in Ha as ([o [op|e]] & w2 & Hc & Hrun); ret_inv Hrun.
  apply CreateOrUpdate_err in Hc as [?|(base & w3 & _ & Hbase & Hf)]; [done|].
  rewrite Hkey, Hnone in Hbase by done. destruct Hbase as [[_ ->]|]; [|done].
  unfold mretM in Hf. injection Hf as Hf _. apply (Hfresh b Hb). by rewrite Hf.
Qed.

(** Asking for it changes nothing. *)
Lemma managed_apply_modified b w w1 :
  managed_apply b w = (Err modified, w1) → same_store w w1.
Proof.
  intros Ha. apply mbindM_inv in Ha as ([o [op|e]] & w3 & Hc & Hrun); ret_inv Hrun.
  apply CreateOrUpdate_err in Hc as [?|(base & w4 & Hs & _ & Hf)]; [done|].
  unfold mretM in Hf. by injection Hf as _ <-.
Qed.

(** After a deletion, one more call is enough. *)
Lemma managed_second m b w :
  P (next b) → stored w k n = None → f (S m) (next b) w = f 1 (next b) w.
Proof.
  intros HP Hnone. rewrite !Hsucc. unfold managed_step, mtry at 1 3. unfold mbindM.
  destruct (pre (next b) w) as [[b'|e] w1] eqn:Ep; [|done].
  pose proof (Hpre _ _ _ _ HP Ep) as (Hs & _ & Hb). destruct (Hb b') as [HQ _]; [done|].
  destruct (managed_apply b' w1) as [[a|e] w2] eqn:Ea; [done|].
  apply managed_apply_fresh in Ea; [|done|by rewrite (same_store_eq _ _ _ _ Hs)].
  by rewrite !decide_False by congruence.
Qed.

Lemma managed_enough m a w : P a → unheld w k n → f (S (S m)) a w = f recreate_fuel a w.
Proof.
  intros HP Hh. unfold recreate_fuel. rewrite (Hsucc (S m)), (Hsucc 1).
  unfold managed_step, mtry at 1 3. unfold mbindM.
  destruct (pre a w) as [[b|e] w1] eqn:Ep; [|done].
  pose proof (Hpre _ _ _ _ HP Ep) as (Hs1 & _ & Hb). destruct (Hb b) as [HQ HP']; [done|].
  destruct (managed_apply b w1) as [[x|e] w2] eqn:Ea; [done|].
  destruct (decide (e = modified)) as [->|]; [|done].
  unfold mtry, mbindM. destruct (delete b w2) as [[[]|e3] w3] eqn:Ed; [|done].
  apply managed_second; [done|]. eapply Hdelete; [done| |done].
  intros old Ho. apply Hh. rewrite <-(same_store_eq _ _ _ _ Hs1).
  by rewrite <-(same_store_eq _ _ _ _ (managed_apply_modified _ _ _ Ea)).
Qed.

Lemma managed_apply_ok b w w' :
  Q b → (∀ old, stored w k n = Some old → om_DeletionTimestamp (om k old) = None) →
  managed_apply b w = (Ok (), w') →
  ∃ base o1 got, mutated b base = (o1, Ok ()) ∧
    (base = wanted b ∧ stored w k n = None ∨ stored w k n = Some base) ∧
    stored w' k n = Some got ∧ kept k o1 got.
Proof.
  intros HQ Hd Ha.
  apply mbindM_inv in Ha as ([o [op|e]] & w2 & Hc & Hrun); ret_inv Hrun.
  apply CreateOrUpdate_ok in Hc as (base & w3 & o1 & w4 & got & _ & Hb & Hf & _ & Hgot & Hk & _).
  - rewrite (Hkey b HQ) in *. unfold mretM in Hf. injection Hf as Hf _.
    exists base, o1, got. split_and!; try done. naive_solver.
  - intros base' u q u' Hf. unfold mretM in Hf. by injection Hf as _ <-.
  - by rewrite (Hkey b HQ).
Qed.

(** What a successful run leaves: an object made by the callback from the stored object or
    from the wanted one, prepared in a world that differs from the first in what the
    deletion touches. *)
Lemma managed_ok_ran (T : Kind → NamespacedName → Prop) a w w' :
  T k n → (∀ b, Q b → touches T (delete b)) →
  P a → quiet w k n → f recreate_fuel a w = (Ok (), w') →
  ∃ b base o1 got a1 u u', Q b ∧ mutated b base = (o1, Ok ()) ∧ (base = wanted b ∨ stored w k n = Some base) ∧
    stored w' k n = Some got ∧ kept k o1 got ∧ P a1 ∧ pre a1 u = (Ok b, u') ∧ same_except T w u.
Proof.
  intros HT HTd HP Hq. unfold recreate_fuel. rewrite Hsucc. intros (b & w1 & Ep & Hrun)%mtry_ok_inv.
  pose proof (Hpre _ _ _ _ HP Ep) as (Hs1 & _ & Hb). destruct (Hb b) as [HQ HP']; [done|].
  assert (Hq1 : quiet w1 k n) by by eapply quiet_eq; [exact (same_store_eq _ _ _ _ Hs1)|].
  apply mbindM_inv in Hrun as ([[]|e] & w2 & Ea & Hrun).
  - ret_inv Hrun. apply managed_apply_ok in Ea as (base & o1 & got & Hf & Hbase & Hg & Hk);
      [|done|intros old Ho; by apply Hq1 in Ho as [_ ?]].
    rewrite (same_store_eq _ _ _ _ Hs1) in Hbase. exists b, base, o1, got, a, w, w1. naive_solver.
  - destruct (decide (e = modified)) as [->|]; [|ret_inv Hrun].
    apply mtry_ok_inv in Hrun as ([] & w3 & Ed & Hrun).
    pose proof (managed_apply_modified _ _ _ Ea) as Hs2.
    assert (Hw3 : same_except T w w3).
    { transitivity w1; [by eapply same_except_weaken; [|exact Hs1]|].
      transitivity w2; [by eapply same_except_weaken; [|exact Hs2]|]. by eapply HTd. }
    apply Hdelete in Ed; [|done|].
    2:{ apply quiet_unheld. eapply quiet_eq; [|exact Hq1]. exact (same_store_eq _ _ _ _ Hs2). }
    rewrite Hsucc in Hrun. apply mtry_ok_inv in Hrun as (b' & w4 & Ep' & Hrun).
    pose proof (Hpre _ _ _ _ HP' Ep') as (Hs3 & _ & Hb'). destruct (Hb' b') as [HQ' _]; [done|].
    apply mbindM_inv in Hrun as ([[]|e] & w5 & Ea' & Hrun).
    + ret_inv Hrun. apply managed_apply_ok in Ea' as (base & o1 & got & Hf & Hbase & Hg & Hk);
        [|done|by rewrite (same_store_eq _ _ _ _ Hs3), Ed].
      rewrite (same_store_eq _ _ _ _ Hs3), Ed in Hbase. exists b', base, o1, got, (next b), w3, w4. naive_solver.
    + destruct (decide (e = modified)); [|ret_inv Hrun].
      apply mtry_ok_inv in Hrun as ([] & w6 & _ & Hrun). rewrite Hzero in Hrun. ret_inv Hrun.
Qed.
Lemma managed_ok a w w' : P a → quiet w k n → f recreate_fuel a w = (Ok (), w') →
  ∃ b base o1 got, Q b ∧ mutated b base = (o1, Ok ()) ∧ (base = wanted b ∨ stored w k n = Some base) ∧
    stored w' k n = Some got ∧ kept k o1 got.
Proof.
  intros HP Hq Hrun. apply (managed_ok_ran (λ _ _, True)) in Hrun; [naive_solver|done| |done|done].
  intros b _ u q u' _ k' n' []. done.
Qed.

Lemma touches_managed (S : Kind → NamespacedName → Prop) m a :
  P a → S k n → (∀ b, Q b → touches S (delete b)) → touches S (f m a).
Proof.
  intros HP HS Hdel. revert a HP. induction m as [|m IH]; intros a HP.
  { rewrite Hzero. apply touches_ret. }
  intros w q w'. rewrite Hsucc. unfold managed_step. intros Hrun.
  apply mtry_inv in Hrun as [(b & w1 & Ep & Hrun)|(e & Ep & ->)].
  2:{ destruct (Hpre _ _ _ _ HP Ep) as (Hs & _). by eapply same_except_weaken; [|exact Hs]. }
  destruct (Hpre _ _ _ _ HP Ep) as (Hs & _ & Hb). destruct (Hb b) as [HQ HP']; [done|].
  transitivity w1; [by eapply same_except_weaken; [|exact Hs]|]. revert Hrun.
  apply touches_bind.
  - apply touches_bind; [|intros [? ?]; apply touches_ret].
    apply touches_CreateOrUpdate; [intros; apply touches_ret|by rewrite Hkey].
  - intros [[]|e]; [apply touches_ret|]. destruct (decide (e = modified)); [|apply touches_ret].
    apply touches_try; [by apply Hdel|intros _; by apply IH].
Qed.
End managed.
