(* ===== verification/Json.v ===== *)
(** * encoding/json and encoding/base64

    The texts the operator produces with [json.Marshal] and [json.MarshalIndent]: maps of
    strings, maps of byte slices, and structs of strings and booleans.  [quote] escapes as
    the encoder does by default, HTML characters included. *)

From S2P Require Export GoStd.
From Stdlib Require Import Ascii ZArith.
Open Scope Z_scope.

(** ** base64, with padding *)
Module base64.
Definition alphabet : string := "ABCDEFGHIJKLMNOPQRSTUVWXYZabcdefghijklmnopqrstuvwxyz0123456789+/".
Definition sym (n : Z) : ascii := nth (Z.to_nat n) (bytes alphabet) "A"%char.
(** The four symbols of three bytes. *)
Definition group (a b c : Z) : list ascii :=
  let n := a * 65536 + b * 256 + c in
  [sym (n / 262144); sym (n / 4096 mod 64); sym (n / 64 mod 64); sym (n mod 64)].
Fixpoint encode (cs : list ascii) : list ascii :=
  match cs with
  | a :: b :: c :: cs' => group (byte_val a) (byte_val b) (byte_val c) ++ encode cs'
  | [a; b] => take 3 (group (byte_val a) (byte_val b) 0) ++ ["="%char]
  | [a] => take 2 (group (byte_val a) 0 0) ++ ["="; "="]%char
  | [] => []
  end.
Definition EncodeToString (s : string) : string := of_bytes (encode (bytes s)).
End base64.

Example base64_rfc : map base64.EncodeToString ["f"; "fo"; "foo"; "foob"; "fooba"; "foobar"; ""]
  = ["Zg=="; "Zm8="; "Zm9v"; "Zm9vYg=="; "Zm9vYmE="; "Zm9vYmFy"; ""].
Proof. reflexivity. Qed.

Module json.

(** ** Strings *)

(** The length of the UTF-8 sequence at the head, or 0 when it is invalid. *)
Definition rune_len (cs : list ascii) : nat :=
  let cont lo hi l := match l with c :: _ => (lo <=? byte_val c) && (byte_val c <=? hi) | [] => false end in
  match cs with
  | [] => O
  | c :: r1 =>
      let b := byte_val c in
      let two lo hi := if cont lo hi r1 then 2%nat else O in
      let three lo hi := if cont lo hi r1 && cont 0x80 0xBF (drop 1 r1) then 3%nat else O in
      let four lo hi :=
        if cont lo hi r1 && cont 0x80 0xBF (drop 1 r1) && cont 0x80 0xBF (drop 2 r1) then 4%nat else O in
      if b <? 0x80 then 1%nat
      else if (0xC2 <=? b) && (b <=? 0xDF) then two 0x80 0xBF
      else if b =? 0xE0 then three 0xA0 0xBF
      else if b =? 0xED then three 0x80 0x9F
      else if (0xE1 <=? b) && (b <=? 0xEF) then three 0x80 0xBF
      else if b =? 0xF0 then four 0x90 0xBF
      else if (0xF1 <=? b) && (b <=? 0xF3) then four 0x80 0xBF
      else if b =? 0xF4 then four 0x80 0x8F
      else O
  end.

Definition hex (n : Z) : ascii := byte_of (if n <? 10 then 48 + n else 87 + n).
Definition unicode_escape (hi lo : Z) : list ascii :=
  bytes "\u" ++ [hex (hi / 16); hex (hi mod 16); hex (lo / 16); hex (lo mod 16)].

(** An ASCII character. *)
Definition escape_ascii (c : ascii) : list ascii :=
  let b := byte_val c in
  if (b =? 34) || (b =? 92) then ["\"%char; c]
  else if b =? 8 then bytes "\b"
  else if b =? 9 then bytes "\t"
  else if b =? 10 then bytes "\n"
  else if b =? 12 then bytes "\f"
  else if b =? 13 then bytes "\r"
  else if (b <? 32) || (b =? 60) || (b =? 62) || (b =? 38) then unicode_escape 0 b
  else [c].

(** What to do with the bytes that remain of the current character. *)
Inductive pending := Start | Copy (n : nat) | Skip (n : nat).
Definition line_separator (cs : list ascii) : bool :=
  match cs with
  | a :: b :: c :: _ => (byte_val a =? 0xE2) && (byte_val b =? 0x80) &&
                        ((byte_val c =? 0xA8) || (byte_val c =? 0xA9))
  | _ => false
  end.
Fixpoint escape (p : pending) (cs : list ascii) : list ascii :=
  match cs with
  | [] => []
  | c :: cs' =>
      match p with
      | Copy (S n) => c :: escape (if decide (n = O) then Start else Copy n) cs'
      | Skip (S n) => escape (if decide (n = O) then Start else Skip n) cs'
      | _ =>
          if byte_val c <? 0x80 then escape_ascii c ++ escape Start cs'
          else
            match rune_len cs with
            | O => unicode_escape 0xff 0xfd ++ escape Start cs'
            | S n =>
                if line_separator cs
                then unicode_escape 0x20 (byte_val (nth 2 cs c) - 0x80) ++ escape (Skip n) cs'
                else c :: escape (if decide (n = O) then Start else Copy n) cs'
            end
      end
  end.
Definition quote (s : string) : string := dquote +:+ of_bytes (escape Start (bytes s)) +:+ dquote.

(** ** Values *)
Inductive value :=
| Null
| Str (s : string)
| Bool (b : bool)
| Arr (l : list value)
| Obj (fields : list (string * value)).

Fixpoint Marshal (v : value) : string :=
  match v with
  | Null => "null"
  | Str s => quote s
  | Bool b => strconv.FormatBool b
  | Arr l => "[" +:+ strings.Join (map Marshal l) "," +:+ "]"
  | Obj fields =>
      "{" +:+ strings.Join (map (λ kv, let '(k, v) := kv in quote k +:+ ":" +:+ Marshal v) fields) "," +:+ "}"
  end.

Fixpoint blanks (n : nat) : string := match n with O => "" | S n => "  " +:+ blanks n end.
(** [MarshalIndent(v, "", "  ")]; [depth] is the number of open brackets. *)
Fixpoint indent (depth : nat) (v : value) : string :=
  let line n := newline +:+ blanks n in
  match v with
  | Arr [] => "[]"
  | Obj [] => "{}"
  | Arr l =>
      "[" +:+ line (S depth) +:+
      strings.Join (map (indent (S depth)) l) ("," +:+ line (S depth)) +:+ line depth +:+ "]"
  | Obj fields =>
      "{" +:+ line (S depth) +:+
      strings.Join (map (λ kv, let '(k, v) := kv in quote k +:+ ": " +:+ indent (S depth) v) fields)
        ("," +:+ line (S depth)) +:+ line depth +:+ "}"
  | _ => Marshal v
  end.
Definition MarshalIndent (v : value) : string := indent O v.

(** A map: its keys in ascending order; nil is null. *)
Definition of_map (elem : string → value) (m : gomap string) : value :=
  match m with
  | None => Null
  | Some g => Obj (map (λ k, (k, elem (default "" (g !! k)))) (slices.Sort (map fst (map_to_list g))))
  end.
(** [map[string]string] and [map[string][]byte] *)
Definition of_strings (m : gomap string) : value := of_map Str m.
Definition of_byte_slices (m : gomap string) : value := of_map (λ b, Str (base64.EncodeToString b)) m.

(** The fields of a struct that [omitempty] keeps. *)
Definition str_field (name value : string) : list (string * json.value) :=
  if bool_decide (value = "") then [] else [(name, Str value)].
Definition bool_field (name : string) (value : bool) : list (string * json.value) :=
  if value then [(name, Bool value)] else [].
Definition bool_ptr_field (name : string) (value : option bool) : list (string * json.value) :=
  match value with Some b => [(name, Bool b)] | None => [] end.
Definition arr_field (name : string) (value : list json.value) : list (string * json.value) :=
  match value with [] => [] | _ => [(name, Arr value)] end.

End json.

Example marshal_map :
  json.Marshal (json.of_strings (Some {[ "b" := "1<2"; "a" := newline ]}))
  = "{" +:+ dquote +:+ "a" +:+ dquote +:+ ":" +:+ dquote +:+ "\n" +:+ dquote +:+ "," +:+
    dquote +:+ "b" +:+ dquote +:+ ":" +:+ dquote +:+ "1\u003c2" +:+ dquote +:+ "}".
Proof. vm_compute. reflexivity. Qed.

(** ** Lemmas *)

(** *** base64 loses nothing *)
Lemma sym_inj n m : 0 ≤ n < 64 → 0 ≤ m < 64 → base64.sym n = base64.sym m → n = m.
Proof.
  intros Hn Hm E.
  assert (Hnd : NoDup (bytes base64.alphabet)) by by apply (bool_decide_unpack _).
  assert (Hlen : length (bytes base64.alphabet) = 64%nat) by done.
  assert (Hl : ∀ z, 0 ≤ z < 64 → bytes base64.alphabet !! Z.to_nat z = Some (base64.sym z)).
  { intros z Hz. unfold base64.sym.
    destruct (bytes base64.alphabet !! Z.to_nat z) as [c|] eqn:Ec.
    - f_equal. symmetry. by apply nth_lookup_Some.
    - apply lookup_ge_None in Ec. lia. }
  apply Z2Nat.inj; [lia..|]. eapply NoDup_lookup; [exact Hnd|by apply Hl|]. rewrite E. by apply Hl.
Qed.
Lemma sym_range n : base64.sym n ∈ bytes base64.alphabet.
Proof.
  unfold base64.sym. destruct (nth_in_or_default (Z.to_nat n) (bytes base64.alphabet) "A"%char) as [Hin| ->].
  - by apply list_elem_of_In.
  - apply (bool_decide_unpack _). exact I.
Qed.

Lemma byte_val_range c : 0 ≤ byte_val c < 256.
Proof.
  unfold byte_val. pose proof (N_ascii_bounded c). split; [lia|].
  change 256 with (Z.of_N 256). by apply N2Z.inj_lt.
Qed.
Lemma byte_val_inj a b : byte_val a = byte_val b → a = b.
Proof.
  unfold byte_val. intros E%N2Z.inj. by rewrite <-(ascii_N_embedding a), <-(ascii_N_embedding b), E.
Qed.

Lemma group_digits a b c : 0 ≤ a < 256 → 0 ≤ b < 256 → 0 ≤ c < 256 →
  let n := a * 65536 + b * 256 + c in
  (0 ≤ n / 262144 < 64 ∧ 0 ≤ n / 4096 mod 64 < 64 ∧ 0 ≤ n / 64 mod 64 < 64 ∧ 0 ≤ n mod 64 < 64) ∧
  n = n / 262144 * 262144 + n / 4096 mod 64 * 4096 + n / 64 mod 64 * 64 + n mod 64.
Proof. intros Ha Hb Hc n. unfold n. Z.to_euclidean_division_equations. lia. Qed.

Lemma group_inj a b c a' b' c' :
  base64.group (byte_val a) (byte_val b) (byte_val c) = base64.group (byte_val a') (byte_val b') (byte_val c') →
  a = a' ∧ b = b' ∧ c = c'.
Proof.
  pose proof (byte_val_range a). pose proof (byte_val_range b). pose proof (byte_val_range c).
  pose proof (byte_val_range a'). pose proof (byte_val_range b'). pose proof (byte_val_range c').
  destruct (group_digits (byte_val a) (byte_val b) (byte_val c)) as [(R1 & R2 & R3 & R4) En]; [done..|].
  destruct (group_digits (byte_val a') (byte_val b') (byte_val c')) as [(R1' & R2' & R3' & R4') En']; [done..|].
  unfold base64.group. cbv zeta. intros [= E1 E2 E3 E4].
  apply sym_inj in E1, E2, E3, E4; [|done..]. rewrite E1, E2, E3, E4, <-En' in En.
  assert (byte_val a = byte_val a' ∧ byte_val b = byte_val b' ∧ byte_val c = byte_val c') as (Ea & Eb & Ec) by lia.
  by apply byte_val_inj in Ea, Eb, Ec.
Qed.

Lemma sym_not_pad n : base64.sym n ≠ "="%char.
Proof.
  intros E. pose proof (sym_range n) as Hin. rewrite E in Hin. revert Hin.
  apply (bool_decide_unpack (¬ _)). exact I.
Qed.
(** A group of two bytes or one, read as a group of three. *)
Lemma group_two a b : base64.group a b 0 = take 3 (base64.group a b 0) ++ [base64.sym 0].
Proof.
  unfold base64.group. cbn [take app]. repeat f_equal.
  replace (a * 65536 + b * 256 + 0) with ((a * 1024 + b * 4) * 64) by lia. by rewrite Z.mod_mul.
Qed.
Lemma group_one a : base64.group a 0 0 = take 2 (base64.group a 0 0) ++ [base64.sym 0; base64.sym 0].
Proof.
  unfold base64.group. cbn [take app]. repeat f_equal.
  - replace (a * 65536 + 0 * 256 + 0) with (a * 1024 * 64) by lia. rewrite Z.div_mul by lia.
    replace (a * 1024) with (a * 16 * 64) by lia. by rewrite Z.mod_mul.
  - replace (a * 65536 + 0 * 256 + 0) with (a * 1024 * 64) by lia. by rewrite Z.mod_mul.
Qed.

Definition zero_byte : ascii := "000"%char.
Lemma encode_inj_fuel n cs cs' :
  (length cs < n)%nat → base64.encode cs = base64.encode cs' → cs = cs'.
Proof.
  assert (Hz : byte_val zero_byte = 0) by done.
  assert (H3 : ∀ x y z, base64.group x y z = base64.sym ((x * 65536 + y * 256 + z) / 262144) ::
     base64.sym ((x * 65536 + y * 256 + z) / 4096 mod 64) :: base64.sym ((x * 65536 + y * 256 + z) / 64 mod 64) ::
     [base64.sym ((x * 65536 + y * 256 + z) mod 64)]) by done.
  revert cs cs'. induction n as [|n IH]; intros cs cs' Hn E; [lia|].
  destruct cs as [|a [|b [|c cs]]], cs' as [|a' [|b' [|c' cs']]];
    cbn [base64.encode] in E; rewrite ?H3 in E; cbn [take app] in E; try discriminate E;
    try reflexivity;
    try (exfalso; injection E; intros; match goal with
      | Hx : base64.sym ?z = "="%char |- _ => exact (sym_not_pad z Hx)
      | Hx : "="%char = base64.sym ?z |- _ => exact (sym_not_pad z (eq_sym Hx))
      end).
  - assert (G : base64.group (byte_val a) (byte_val zero_byte) (byte_val zero_byte) =
                base64.group (byte_val a') (byte_val zero_byte) (byte_val zero_byte)).
    { rewrite Hz, (group_one (byte_val a)), (group_one (byte_val a')), !H3. cbn [take app]. by injection E as -> ->. }
    by apply group_inj in G as [-> _].
  - assert (G : base64.group (byte_val a) (byte_val b) (byte_val zero_byte) =
                base64.group (byte_val a') (byte_val b') (byte_val zero_byte)).
    { rewrite Hz, (group_two (byte_val a)), (group_two (byte_val a')), !H3. cbn [take app]. by injection E as -> -> ->. }
    by apply group_inj in G as (-> & -> & _).
  - assert (G : base64.group (byte_val a) (byte_val b) (byte_val c) =
                base64.group (byte_val a') (byte_val b') (byte_val c') ∧ base64.encode cs = base64.encode cs').
    { rewrite !H3. by injection E as -> -> -> -> ->. }
    destruct G as [(-> & -> & ->)%group_inj E']. f_equal; f_equal; f_equal. apply IH; [simpl in Hn; lia|done].
Qed.
Lemma EncodeToString_inj s t : base64.EncodeToString s = base64.EncodeToString t → s = t.
Proof.
  intros E. apply (f_equal bytes) in E. unfold base64.EncodeToString in E. rewrite !bytes_of_bytes in E.
  apply bytes_inj. by eapply (encode_inj_fuel (S (length (bytes s)))); [lia|].
Qed.

(** *** Strings that need no escape *)
Definition plain (c : ascii) : bool := (byte_val c <? 0x80) && bool_decide (json.escape_ascii c = [c]).
Lemma escape_plain cs : Forall (λ c, plain c = true) cs → json.escape json.Start cs = cs.
Proof.
  induction 1 as [|c cs Hc _ IH]; [done|]. apply andb_prop in Hc as [Ha He%bool_decide_eq_true].
  cbn [json.escape]. by rewrite Ha, He, IH.
Qed.
Definition quote_char : ascii := byte_of 34.
Lemma plain_not_quote c : plain c = true → c ≠ quote_char.
Proof. by intros Hc ->. Qed.
Lemma quote_plain s : Forall (λ c, plain c = true) (bytes s) →
  bytes (json.quote s) = quote_char :: bytes s ++ [quote_char].
Proof.
  intros Hs. unfold json.quote. rewrite !bytes_app, bytes_of_bytes, escape_plain by done. reflexivity.
Qed.
Lemma encode_plain cs : Forall (λ c, plain c = true) (base64.encode cs).
Proof.
  assert (Hs : ∀ z, plain (base64.sym z) = true).
  { intros z. pose proof (sym_range z) as Hin. revert Hin. generalize (base64.sym z).
    apply Forall_forall. apply (bool_decide_unpack _). vm_compute. exact I. }
  assert (Hg : ∀ a b c, Forall (λ c, plain c = true) (base64.group a b c)).
  { intros a b c. by repeat constructor. }
  assert (H3 : ∀ n cs, (length cs < n)%nat → Forall (λ c, plain c = true) (base64.encode cs)).
  { induction n as [|n IH]; intros [|a [|b [|c l]]] Hn; simpl in Hn; try lia; cbn [base64.encode]; [constructor|..].
    - apply Forall_app. split; [apply Forall_take, Hg|]. by repeat constructor.
    - apply Forall_app. split; [apply Forall_take, Hg|]. by repeat constructor.
    - apply Forall_app. split; [apply Hg|]. apply IH. lia. }
  by eapply (H3 (S (length cs))); lia.
Qed.

(** *** The text of a map of byte slices

    Keys of secrets are made of letters, digits and [-_.]: all plain. *)
Definition plain_keys (m : gomap string) : Prop :=
  ∀ g k v, m = Some g → g !! k = Some v → Forall (λ c, plain c = true) (bytes k).

(** The members of an object, as bytes. *)
Definition member (kv : string * string) : list ascii :=
  quote_char :: bytes kv.1 ++ quote_char :: ":"%char :: quote_char :: bytes kv.2 ++ [quote_char].
Fixpoint members (l : list (string * string)) : list ascii :=
  match l with
  | [] => ["}"%char]
  | kv :: l => member kv ++ match l with [] => ["}"%char] | _ => ","%char :: members l end
  end.
Definition unquoted (l : list (string * string)) : Prop :=
  Forall (λ kv, quote_char ∉ bytes kv.1 ∧ quote_char ∉ bytes kv.2) l.

(** The members of an object can be read back, and where they end. *)
Lemma members_inj l l' r r' : unquoted l → unquoted l' →
  members l ++ r = members l' ++ r' → l = l' ∧ r = r'.
Proof.
  intros Hl. revert l'. induction Hl as [|[k v] l [Hk Hv] Hl IH]; intros l' Hl' E.
  { destruct Hl' as [|[k' v'] l' _ _]; [by simplify_eq/=|discriminate E]. }
  destruct Hl' as [|[k' v'] l' [Hk' Hv'] Hl']; [discriminate E|].
  cbn [members] in E. unfold member in E. cbn [fst snd] in *.
  remember (match l with [] => ["}"%char] | _ => ","%char :: members l end) as t eqn:Ht.
  remember (match l' with [] => ["}"%char] | _ => ","%char :: members l' end) as t' eqn:Ht'.
  rewrite <-!app_assoc in E.
  simpl in E. injection E as E. rewrite <-!app_assoc in E. simpl in E.
  apply app_sep_inj in E as [->%bytes_inj E]; [|done..]. injection E as E.
  rewrite <-!app_assoc in E. simpl in E.
  apply app_sep_inj in E as [->%bytes_inj E]; [|done..].
  destruct l as [|kv l], l' as [|kv' l']; subst t t'; try discriminate E.
  - by injection E as ->.
  - by destruct (IH (kv' :: l') Hl' (f_equal (@List.tl ascii) E)) as [-> ->].
Qed.

Lemma Join_members (f : string → string) l :
  (∀ k v, (k, v) ∈ l → bytes (f k) = member (k, v)) →
  "{"%char :: members l =
  bytes ("{" +:+ strings.Join (map (λ kv, f kv.1) l) "," +:+ "}").
Proof.
  intros Hf. rewrite !bytes_app. simpl. f_equal.
  induction l as [|[k v] l IH]; [done|].
  assert (Hf' : ∀ k v, (k, v) ∈ l → bytes (f k) = member (k, v)) by (intros; apply Hf; by right).
  specialize (IH Hf'). cbn [members map fst]. rewrite <-(Hf k v) by left.
  destruct l as [|kv l]; [done|]. rewrite IH. cbn [map strings.Join].
  by rewrite !bytes_app, <-!app_assoc.
Qed.

(** The members of a map, as the encoder writes them. *)
Definition sorted_keys (g : gmap string string) : list string := slices.Sort (map fst (map_to_list g)).
Definition slice_members (g : gmap string string) : list (string * string) :=
  map (λ k, (k, base64.EncodeToString (default "" (g !! k)))) (sorted_keys g).

Lemma elem_of_sorted_keys g k : k ∈ sorted_keys g ↔ is_Some (g !! k).
Proof.
  unfold sorted_keys. rewrite slices.elem_of_Sort. change (map fst ?l) with (l.*1).
  rewrite list_elem_of_fmap. split.
  - intros ([k' v] & -> & Hin%elem_of_map_to_list). by exists v.
  - intros [v Hv]. exists (k, v). split; [done|]. by apply elem_of_map_to_list.
Qed.

Lemma slice_members_inj g g' : slice_members g = slice_members g' → g = g'.
Proof.
  intros E. assert (Ek : sorted_keys g = sorted_keys g').
  { apply (f_equal (map fst)) in E. unfold slice_members in E. rewrite !List.map_map in E. simpl in E.
    by rewrite !List.map_id in E. }
  apply map_eq. intros k. destruct (decide (k ∈ sorted_keys g)) as [Hk|Hk].
  - assert (Hv : default "" (g !! k) = default "" (g' !! k)).
    { unfold slice_members in E. rewrite <-Ek in E.
      apply ext_in_map with (a := k) in E; [|by apply list_elem_of_In]. injection E as E.
      by apply EncodeToString_inj. }
    assert (Hk' := Hk). rewrite Ek in Hk'. apply elem_of_sorted_keys in Hk as [v Hk], Hk' as [v' Hk'].
    rewrite Hk, Hk' in Hv. simpl in Hv. congruence.
  - assert (Hk' := Hk). rewrite Ek in Hk'. rewrite elem_of_sorted_keys, <-eq_None_not_Some in Hk, Hk'. congruence.
Qed.

Lemma plain_unquoted cs : Forall (λ c, plain c = true) cs → quote_char ∉ cs.
Proof. intros Hcs Hin. rewrite Forall_forall in Hcs. by apply Hcs in Hin. Qed.

Lemma Marshal_slices g : plain_keys (Some g) →
  bytes (json.Marshal (json.of_byte_slices (Some g))) = "{"%char :: members (slice_members g) ∧
  unquoted (slice_members g).
Proof.
  intros Hp. assert (Hk : ∀ k, k ∈ sorted_keys g → Forall (λ c, plain c = true) (bytes k)).
  { intros k [v Hv]%elem_of_sorted_keys. by eapply Hp. }
  assert (He : ∀ s, Forall (λ c, plain c = true) (bytes (base64.EncodeToString s))).
  { intros s. unfold base64.EncodeToString. rewrite bytes_of_bytes. apply encode_plain. }
  split.
  - symmetry. etransitivity; [apply (Join_members (λ k, json.quote k +:+ ":" +:+
      json.quote (base64.EncodeToString (default "" (g !! k)))))|].
    + intros k v. unfold slice_members. change (map ?f ?l) with (f <$> l).
      intros (k' & [= -> ->] & Hin)%list_elem_of_fmap.
      rewrite !bytes_app, !quote_plain by auto. unfold member. cbn [fst snd].
      change (bytes ":") with [":"%char]. cbn [app]. by rewrite <-!app_assoc.
    + unfold json.of_byte_slices, json.of_map, slice_members. cbn [json.Marshal].
      fold (sorted_keys g). by rewrite !List.map_map.
  - unfold unquoted, slice_members. change (map ?f ?l) with (f <$> l).
    apply Forall_fmap, Forall_forall. intros k Hin. cbn. split; apply plain_unquoted; auto.
Qed.

(** The text of a map of byte slices determines the map, and where the text ends. *)
Lemma Marshal_slices_inj m m' r r' : plain_keys m → plain_keys m' →
  bytes (json.Marshal (json.of_byte_slices m)) ++ r = bytes (json.Marshal (json.of_byte_slices m')) ++ r' →
  m = m' ∧ r = r'.
Proof.
  intros Hm Hm' E. destruct m as [g|], m' as [g'|].
  - apply Marshal_slices in Hm as [Eg Hu], Hm' as [Eg' Hu']. rewrite Eg, Eg' in E.
    destruct (members_inj _ _ _ _ Hu Hu' (f_equal (@List.tl ascii) E)) as [->%slice_members_inj ->]. done.
  - apply Marshal_slices in Hm as [Eg _]. rewrite Eg in E. discriminate E.
  - apply Marshal_slices in Hm' as [Eg _]. rewrite Eg in E. discriminate E.
  - by injection E as ->.
Qed.
