(* ===== verification/Hashing.v ===== *)
(** * Hashes of mounted objects

    [AnnotateWithObjRefHashes] of [internal/controller/common/common_utils.go]: a pod
    template is annotated with hashes of the data of the secrets and config maps it uses, so
    that a deployment rolls out again when the data changes. *)

From S2P Require Export Common.
From S2P Require Import Hash Json FakeClient.
Open Scope Z_scope.

(** The objects named by the environment and the volumes of a pod. *)
Definition env_secret (e : EnvVar) : list string :=
  match env_ValueFrom e with
  | Some src => match evs_SecretKeyRef src with Some k => [ks_Name k] | None => [] end
  | None => []
  end.
Definition env_configMap (e : EnvVar) : list string :=
  match env_ValueFrom e with
  | Some src =>
      match evs_SecretKeyRef src, evs_ConfigMapKeyRef src with
      | None, Some k => [ks_Name k]
      | _, _ => []
      end
  | None => []
  end.
Definition envFrom_secret (e : EnvFromSource) : list string :=
  match ef_SecretRef e with Some (n, _) => [n] | None => [] end.
Definition envFrom_configMap (e : EnvFromSource) : list string :=
  match ef_SecretRef e, ef_ConfigMapRef e with None, Some (n, _) => [n] | _, _ => [] end.
Definition source_secret (s : VolumeProjection) : list string :=
  match vp_Secret s with Some (n, _) => [n] | None => [] end.
Definition source_configMap (s : VolumeProjection) : list string :=
  match vp_Secret s, vp_ConfigMap s with None, Some (n, _) => [n] | _, _ => [] end.
Definition volume_secrets (v : Volume) : list string :=
  match vol_Secret v, vol_ConfigMap v, vol_Projected v with
  | Some s, _, _ => [svo_SecretName s]
  | None, None, Some sources => concat (map source_secret sources)
  | _, _, _ => []
  end.
Definition volume_configMaps (v : Volume) : list string :=
  match vol_Secret v, vol_ConfigMap v, vol_Projected v with
  | None, Some c, _ => [cvo_Name c]
  | None, None, Some sources => concat (map source_configMap sources)
  | _, _, _ => []
  end.
Definition container_secrets (c : Container) : list string :=
  concat (map env_secret (ct_Env c)) ++ concat (map envFrom_secret (ct_EnvFrom c)).
Definition container_configMaps (c : Container) : list string :=
  concat (map env_configMap (ct_Env c)) ++ concat (map envFrom_configMap (ct_EnvFrom c)).
Definition used_secrets (spec : PodSpec) : gset string :=
  list_to_set (concat (map container_secrets (ps_Containers spec)) ++
               concat (map volume_secrets (ps_Volumes spec))).
Definition used_configMaps (spec : PodSpec) : gset string :=
  list_to_set (concat (map container_configMaps (ps_Containers spec)) ++
               concat (map volume_configMaps (ps_Volumes spec))).
Definition toSortedSlice (s : gset string) : list string := slices.Sort (elements s).

Section hashing.
Context `{Kube W}.

(** The JSON of the data of the named objects, one after the other. *)
Fixpoint combine_json (k : Kind) (data : obj k → json.value) (namespace : string) (names : list string)
    (combinedJSON : string) : E W string :=
  match names with
  | [] => mretM (Ok combinedJSON)
  | name :: names =>
      let? o := client_Get k (nn namespace name) in
      combine_json k data namespace names (combinedJSON +:+ json.Marshal (data o))
  end.
Definition secret_json (s : Secret) : json.value := json.of_byte_slices (sec_Data s).
Definition configMap_json (cm : ConfigMap) : json.value := json.of_strings (cm_Data cm).

Definition hashSecrets (namespace : string) (secrets : gset string) : E W string :=
  let? combinedJSON := combine_json KSecret secret_json namespace (toSortedSlice secrets) "" in
  mretM (Ok (hex_of (sha256.Sum256 combinedJSON))).
Definition hashConfigMaps (namespace : string) (configMaps : gset string) : E W string :=
  let? combinedJSON := combine_json KConfigMap configMap_json namespace (toSortedSlice configMaps) "" in
  mretM (Ok (hex_of (fnv.Sum128 combinedJSON))).

Definition annotationSecretHash : string := "io.cryostat/secret-hash".
Definition annotationConfigMapHash : string := "io.cryostat/config-map-hash".

(** The annotated template. *)
Definition AnnotateWithObjRefHashes (namespace : string) (template : PodTemplateSpec) : E W PodTemplateSpec :=
  let? secretHash := hashSecrets namespace (used_secrets (pts_Spec template)) in
  let? configMapHash := hashConfigMaps namespace (used_configMaps (pts_Spec template)) in
  mretM (Ok (template <| pts_meta ::= λ m, m <| om_Annotations ::= λ a,
    Some (<[annotationConfigMapHash := configMapHash]> (<[annotationSecretHash := secretHash]> (gm_make a))) |> |>)).
End hashing.

(** ** Lemmas *)
Section hashing_lemmas.
Context `{KubeLaws W}.

(** The text that is hashed: a function of what is stored under the names. *)
Definition data_text (k : Kind) (data : obj k → json.value) (os : list (obj k)) : string :=
  foldr (λ o s, json.Marshal (data o) +:+ s) "" os.
Definition all_stored w (k : Kind) (ns : string) (names : list string) (os : list (obj k)) : Prop :=
  Forall2 (λ name o, stored w k (nn ns name) = Some o) names os.

Lemma combine_json_spec k data ns names acc w r w' :
  combine_json k data ns names acc w = (r, w') →
  same_store w w' ∧
  match r with
  | Ok s => ∃ os, all_stored w k ns names os ∧ s = acc +:+ data_text k data os
  | Err e => foreign e
  end.
Proof.
  revert acc w. induction names as [|name names IH]; intros acc w Hrun; simpl in Hrun.
  { ret_inv Hrun. split; [reflexivity|]. exists []. split; [constructor|].
    by rewrite append_nil_r. }
  apply mtry_inv in Hrun as [(o & w1 & Hg & Hrun)|(e & Hg & ->)].
  2:{ split; [by eapply Get_reads|by eapply Get_foreign]. }
  pose proof (Get_reads _ _ _ _ _ Hg) as Hs. apply Get_Ok in Hg.
  apply IH in Hrun as [Hs' Hd]. split; [by transitivity w1|].
  destruct r as [s|e]; [|done]. destruct Hd as (os & Hos & ->). exists (o :: os). split.
  - constructor; [done|]. eapply Forall2_impl; [exact Hos|]. intros n' o' <-.
    symmetry. exact (same_store_eq _ _ _ _ Hs).
  - simpl. by rewrite append_assoc.
Qed.

(** The annotations of a template that was annotated. *)
Lemma AnnotateWithObjRefHashes_spec ns t w r w' :
  AnnotateWithObjRefHashes ns t w = (r, w') →
  same_store w w' ∧
  match r with
  | Ok t' => ∃ ss cs,
      all_stored w KSecret ns (toSortedSlice (used_secrets (pts_Spec t))) ss ∧
      all_stored w KConfigMap ns (toSortedSlice (used_configMaps (pts_Spec t))) cs ∧
      t' = t <| pts_meta ::= λ m, m <| om_Annotations ::= λ a, Some
        (<[annotationConfigMapHash := hex_of (fnv.Sum128 (data_text KConfigMap configMap_json cs))]>
        (<[annotationSecretHash := hex_of (sha256.Sum256 (data_text KSecret secret_json ss))]> (gm_make a))) |> |>
  | Err e => foreign e
  end.
Proof.
  intros [(h & w1 & Hs & Hrun)|(e & Hs & ->)]%mtry_inv.
  - apply mtry_inv in Hs as [(s & w2 & Hs & Hr)|(e & _ & [=])]. ret_inv Hr.
    apply combine_json_spec in Hs as (Hw1 & ss & Hss & ->).
    apply mtry_inv in Hrun as [(h & w2 & Hc & Hrun)|(e & Hc & ->)].
    + apply mtry_inv in Hc as [(c & w3 & Hc & Hr)|(e & _ & [=])]. ret_inv Hr.
      apply combine_json_spec in Hc as (Hw2 & cs & Hcs & ->). ret_inv Hrun.
      split; [by transitivity w1|]. exists ss, cs. split_and!; [done| |done].
      eapply Forall2_impl; [exact Hcs|]. intros n' o' <-. symmetry. exact (same_store_eq _ _ _ _ Hw1).
    + apply mtry_inv in Hc as [(c & w3 & Hc & Hr)|(e' & Hc & [= <-])]; [ret_inv Hr|].
      apply combine_json_spec in Hc as [Hw2 He]. split; [by transitivity w1|done].
  - apply mtry_inv in Hs as [(s & w2 & Hs & Hr)|(e' & Hs & [= <-])]; [ret_inv Hr|].
    by apply combine_json_spec in Hs.
Qed.
End hashing_lemmas.

(** ** Properties *)
Section hashing_properties.
Context `{KubeLaws W}.

(** Writing the second annotation keeps the first. *)
Lemma annotated_hash (t : PodTemplateSpec) h c :
  gm_lookup (om_Annotations (pts_meta (t <| pts_meta ::= λ m, m <| om_Annotations ::= λ a, Some
    (<[annotationConfigMapHash := c]> (<[annotationSecretHash := h]> (gm_make a))) |> |>))) annotationSecretHash
  = Some h.
Proof.
  change (<[annotationConfigMapHash := c]> (<[annotationSecretHash := h]> (gm_make (om_Annotations (pts_meta t))))
    !! annotationSecretHash = Some h).
  by rewrite lookup_insert_ne, lookup_insert_eq.
Qed.

Lemma data_text_inj ss ss' : length ss = length ss' →
  Forall (λ s : Secret, plain_keys (sec_Data s)) ss → Forall (λ s : Secret, plain_keys (sec_Data s)) ss' →
  data_text KSecret secret_json ss = data_text KSecret secret_json ss' →
  map sec_Data ss = map sec_Data ss'.
Proof.
  revert ss'. induction ss as [|s ss IH]; intros [|s' ss'] Hlen Hs Hs' E; try discriminate Hlen; [done|].
  apply Forall_cons in Hs as [H1 Hs], Hs' as [H1' Hs']. simpl in E.
  apply (f_equal bytes) in E. rewrite !bytes_app in E.
  apply Marshal_slices_inj in E as [E1 E2%bytes_inj]; [|done..].
  simpl. rewrite E1. f_equal. apply IH; [by injection Hlen|done..].
Qed.

(** The text whose hash is annotated: a function of what is stored. *)
Definition secrets_text (w : W) (ns : string) (t : PodTemplateSpec) : string :=
  data_text KSecret secret_json
    (omap (λ name, stored w KSecret (nn ns name)) (toSortedSlice (used_secrets (pts_Spec t)))).
Lemma all_stored_omap w k ns names os : all_stored w k ns names os → omap (λ name, stored w k (nn ns name)) names = os.
Proof. induction 1 as [|name o names os Ho _ IH]; [done|]. csimpl. by rewrite Ho, IH. Qed.
Lemma data_text_map ss ss' : map sec_Data ss = map sec_Data ss' →
  data_text KSecret secret_json ss = data_text KSecret secret_json ss'.
Proof.
  revert ss'. induction ss as [|s ss IH]; intros [|s' ss']; simpl; try done.
  intros [= Hd Hs]. f_equal; [exact (f_equal (λ d, json.Marshal (json.of_byte_slices d)) Hd)|by apply IH].
Qed.
Lemma all_stored_map w w' ns names ss ss' : all_stored w KSecret ns names ss → all_stored w' KSecret ns names ss' →
  map sec_Data ss = map sec_Data ss' ↔
  ∀ name, name ∈ names → sec_Data <$> stored w KSecret (nn ns name) = sec_Data <$> stored w' KSecret (nn ns name).
Proof.
  intros Hss. revert ss'. induction Hss as [|name s names ss Hs _ IH]; intros ss' Hss'.
  { apply Forall2_nil_inv_l in Hss' as ->. split; [by intros _ name ?%elem_of_nil|done]. }
  apply Forall2_cons_inv_l in Hss' as (s' & ss'' & Hs' & Hss' & ->). simpl. split.
  - intros [= Hd Hm] x [->|Hx]%elem_of_cons; [rewrite Hs, Hs'; exact (f_equal Some Hd)|]. by apply (IH _ Hss').
  - intros Hall. f_equal; [|by apply (IH _ Hss'); intros x Hx; apply Hall; right].
    specialize (Hall name ltac:(by left)). rewrite Hs, Hs' in Hall. by injection Hall.
Qed.

(** C23. The secret hash of a deployment follows the data of the secrets its pods use: it is
    the SHA-256 of a text, and for two templates that use the same secrets, annotated at
    different times, the texts are equal exactly when every one of those secrets had the
    same data. The keys of a secret are letters, digits, dots, dashes and underscores. *)
Theorem secret_hash_tracks_data ns (t t' a a' : PodTemplateSpec) w w1 w' w1' :
  (∀ u n s, (u = w ∨ u = w') → stored u KSecret n = Some s → plain_keys (sec_Data s)) →
  used_secrets (pts_Spec t) = used_secrets (pts_Spec t') →
  AnnotateWithObjRefHashes ns t w = (Ok a, w1) → AnnotateWithObjRefHashes ns t' w' = (Ok a', w1') →
  gm_lookup (om_Annotations (pts_meta a)) annotationSecretHash = Some (hex_of (sha256.Sum256 (secrets_text w ns t))) ∧
  gm_lookup (om_Annotations (pts_meta a')) annotationSecretHash = Some (hex_of (sha256.Sum256 (secrets_text w' ns t'))) ∧
  (secrets_text w ns t = secrets_text w' ns t' ↔
   ∀ name, name ∈ used_secrets (pts_Spec t) →
     sec_Data <$> stored w KSecret (nn ns name) = sec_Data <$> stored w' KSecret (nn ns name)).
Proof.
  intros Hkeys Hused Ha Ha'.
  apply AnnotateWithObjRefHashes_spec in Ha as (_ & ss & cs & Hss & _ & ->).
  apply AnnotateWithObjRefHashes_spec in Ha' as (_ & ss' & cs' & Hss' & _ & ->).
  rewrite !annotated_hash. unfold secrets_text.
  rewrite (all_stored_omap _ _ _ _ _ Hss), (all_stored_omap _ _ _ _ _ Hss'). split_and!; [done..|].
  rewrite <-Hused in Hss'. assert (Hall : ∀ u os, (u = w ∨ u = w') →
    all_stored u KSecret ns (toSortedSlice (used_secrets (pts_Spec t))) os → Forall (λ s : Secret, plain_keys (sec_Data s)) os).
  { intros u os Hu Hos. eapply Forall2_Forall_r; [exact Hos|]. apply Forall_forall. intros name _ o Ho. by eapply Hkeys. }
  transitivity (map sec_Data ss = map sec_Data ss').
  - split; [|apply data_text_map]. apply data_text_inj; [|by eapply Hall; [left|]|by eapply Hall; [right|]].
    transitivity (length (toSortedSlice (used_secrets (pts_Spec t)))); [symmetry; exact (Forall2_length _ _ _ Hss)|exact (Forall2_length _ _ _ Hss')].
  - rewrite (all_stored_map _ _ _ _ _ _ Hss Hss'). unfold toSortedSlice. setoid_rewrite slices.elem_of_Sort.
    by setoid_rewrite elem_of_elements.
Qed.
End hashing_properties.

(** A pod that reads a secret. *)
Definition hashed_template : PodTemplateSpec := {|
  pts_meta := NewObjectMeta "p" "ns";
  pts_Spec := {| ps_ServiceAccountName := ""; ps_AutomountServiceAccountToken := None;
    ps_Volumes := [(NewVolume "v") <| vol_Secret := Some {| svo_SecretName := "s"; svo_Items := []; svo_DefaultMode := None |} |>];
    ps_InitContainers := []; ps_Containers := []; ps_SecurityContext := None; ps_NodeSelector := None;
    ps_Affinity := None; ps_Tolerations := []; ps_rest := [] |} |}.
Definition hashed_secret (v : string) : Secret := {|
  sec_meta := NewObjectMeta "s" "ns"; sec_Immutable := None; sec_Data := Some {[ "k" := v ]};
  sec_StringData := None; sec_Type := "" |}.
Definition hashed_world (v : string) : fake := fk_put KSecret (nn "ns" "s") (hashed_secret v) fk_empty.
Lemma hashed_world_plain v n s : stored (hashed_world v) KSecret n = Some s → plain_keys (sec_Data s).
Proof.
  intros Hn g k x Hg Hv. unfold stored, fake_kube, fk_stored, hashed_world, fk_put, fk_objs in Hn. rewrite upd_same in Hn.
  destruct (decide (n = nn "ns" "s")) as [->|Hne]; [|rewrite lookup_insert_ne in Hn by congruence; discriminate Hn].
  rewrite lookup_insert_eq in Hn. injection Hn as <-.
  assert (Hd : sec_Data (admitted KSecret (nn "ns" "s") (hashed_secret v)) = Some {[ "k" := v ]}) by (vm_compute; reflexivity).
  change (sec_Data (admitted KSecret (nn "ns" "s") (hashed_secret v)) = Some g) in Hg. rewrite Hd in Hg.
  injection Hg as <-. apply lookup_singleton_Some in Hv as [<- _]. apply (bool_decide_unpack _). exact I.
Qed.
(** The value of a key changes, and so does the text. *)
Lemma secret_hash_tracks_data_witness :
  secrets_text (hashed_world "v") "ns" hashed_template ≠ secrets_text (hashed_world "u") "ns" hashed_template.
Proof.
  destruct (AnnotateWithObjRefHashes "ns" hashed_template (hashed_world "v")) as [[a|e] w1] eqn:E;
    [|apply (f_equal fst) in E; vm_compute in E; discriminate E].
  destruct (AnnotateWithObjRefHashes "ns" hashed_template (hashed_world "u")) as [[a'|e] w1'] eqn:E';
    [|apply (f_equal fst) in E'; vm_compute in E'; discriminate E'].
  intros Heq.
  assert (sec_Data <$> stored (hashed_world "v") KSecret (nn "ns" "s") = sec_Data <$> stored (hashed_world "u") KSecret (nn "ns" "s")) as Hs;
    [refine (proj1 (proj2 (proj2 (secret_hash_tracks_data "ns" hashed_template hashed_template a a' (hashed_world "v") w1
    (hashed_world "u") w1' _ eq_refl E E'))) Heq "s" _)|vm_compute in Hs; discriminate Hs].
  - intros u n s [->| ->]; apply hashed_world_plain.
  - apply (bool_decide_unpack _); vm_compute; exact I.
Defined.
