(* ===== verification/Rbac.v ===== *)
(** * RBAC objects

    [internal/controller/rbac.go]: the service account, the role binding in each target
    namespace, the cluster role binding, the legacy role, and their removal. *)

From S2P Require Export Recreate.
From S2P Require Import FakeClient.
Open Scope Z_scope.

Section rbac.
Context `{Kube W}.
Implicit Types (r : Reconciler) (cr : CryostatInstance).

(** ** The target namespaces that are no longer requested *)
Fixpoint containsNamespace (namespaces : list string) (namespace : string) : bool :=
  match namespaces with
  | [] => false
  | ns :: rest => if bool_decide (ns = namespace) then true else containsNamespace rest namespace
  end.

Definition toDelete cr : list string :=
  foldl (λ acc ns, if negb (containsNamespace (ci_TargetNamespaces cr) ns) then acc ++ [ns] else acc)
    [] (ci_TargetNamespaceStatus cr).

(** ** Service account *)
Definition newServiceAccount cr : ServiceAccount :=
  {| sa_meta := NewObjectMeta (ci_Name cr) (ci_InstallNamespace cr); sa_rest := [] |}.

(** The name of [newCoreRoute(cr)] (routes.go). *)
Definition newCoreRoute cr : Route := {|
  rt_meta := NewObjectMeta (ci_Name cr) (ci_InstallNamespace cr);
  rt_Spec := {| rts_Host := ""; rts_To_Kind := ""; rts_To_Name := ""; rts_Port := None;
                rts_TLS := None; rts_rest := [] |};
  rt_Status_Ingress := [] |}.

Definition createOrUpdateServiceAccount (sa : ServiceAccount) (owner : V2.Cryostat)
    (labels annotations : gmap string string) : E W () :=
  let* ' (_, op) := controllerutil_CreateOrUpdate KServiceAccount sa (λ sa,
    let* ls := go_range (map_to_list labels) in
    let meta := foldl (λ m kv, metav1_SetMetaDataLabel m kv.1 kv.2) (sa_meta sa) ls in
    let* ans := go_range (map_to_list annotations) in
    let meta := foldl (λ m kv, metav1_SetMetaDataAnnotation m kv.1 kv.2) meta ans in
    let sa : ServiceAccount := sa <| sa_meta := meta |> in
    mretM (match controllerutil_SetControllerReference (V2.cr_meta owner) meta with
           | Err e => (sa, Err e)
           | Ok meta => (sa <| sa_meta := meta |>, Ok ())
           end)) in
  mretM (ok? _ := op in Ok ()).

Definition reconcileServiceAccount r cr : E W () :=
  let sa := newServiceAccount cr in
  let labels := gm_of_list [("app", ci_Name cr)] in
  let annotations : res (gmap string string) :=
    if r_IsOpenShift r then
      ok? ref := json_Marshal_OAuthRedirectReference "Route" (om_Name (rt_meta (newCoreRoute cr))) in
      Ok (gm_of_list [("serviceaccounts.openshift.io/oauth-redirectreference.route", ref)])
    else Ok ∅ in
  match annotations with
  | Err e => mretM (Err e)
  | Ok annotations => createOrUpdateServiceAccount sa (ci_Object cr) labels annotations
  end.

(** ** The legacy role

    An error of the deletion is logged and dropped. *)
Definition newRole cr : Role :=
  {| role_meta := NewObjectMeta (ci_Name cr) (ci_InstallNamespace cr); role_rest := [] |}.

Definition cleanUpRole cr (role : Role) : E W () :=
  let* got := client_Get KRole (key KRole role) in
  match got with
  | Err e =>
      if negb (kerrors_IsNotFound e) then mretM (Err e)
      else if metav1_IsControlledBy (role_meta role) (ci_meta cr)
      then let* _ := client_Delete KRole role in mretM (Ok ())
      else mretM (Ok ())
  | Ok role =>
      if metav1_IsControlledBy (role_meta role) (ci_meta cr)
      then let* _ := client_Delete KRole role in mretM (Ok ())
      else mretM (Ok ())
  end.
Definition reconcileRole cr : E W () := cleanUpRole cr (newRole cr).

(** ** Role references

    The role of a binding cannot be changed once it is created. *)
Definition errRoleRefModified : error :=
  Sentinel "errRoleRefModified" "role binding roleRef has been modified".

Definition getRoleRef (binding : ObjectMeta) (oldRef newRef : RoleRef) : res RoleRef :=
  if CreationTimestamp_IsZero binding then Ok newRef
  else if negb (cmp_Equal oldRef newRef) then Err errRoleRefModified
  else Ok oldRef.

(** ** Role bindings *)
Definition newRoleBinding r cr (namespace : string) : RoleBinding := {|
  rb_meta := NewObjectMeta (ClusterUniqueName (r_Kind r) (ci_Name cr) (ci_InstallNamespace cr)) namespace;
  rb_Subjects := [];
  rb_RoleRef := {| rref_APIGroup := ""; rref_Kind := ""; rref_Name := "" |} |}.

Definition deleteRoleBinding (binding : RoleBinding) : E W () :=
  let* err := client_Delete KRoleBinding binding in
  match err with
  | Err e => if kerrors_IsNotFound e then mretM (Ok ()) else mretM (Err e)
  | Ok _ => mretM (Ok ())
  end.

Definition mutateRoleBinding (subjects : list Subject) (roleRef : RoleRef) (labels : gomap string)
    (binding : RoleBinding) : RoleBinding * res () :=
  let binding := binding <| rb_meta ::= λ m, MergeLabelsAndAnnotations m labels (Some ∅) |> in
  let binding : RoleBinding := binding <| rb_Subjects := subjects |> in
  match getRoleRef (rb_meta binding) (rb_RoleRef binding) roleRef with
  | Err e => (binding, Err e)
  | Ok roleRef => (binding <| rb_RoleRef := roleRef |>, Ok ())
  end.

Definition recreateRoleBinding
    (createOrUpdateRoleBinding : RoleBinding → V2.Cryostat → list Subject → RoleRef → gomap string → E W ())
    (binding : RoleBinding) (owner : V2.Cryostat) (subjects : list Subject) (roleRef : RoleRef)
    (labels : gomap string) : E W () :=
  do? deleteRoleBinding binding in
  createOrUpdateRoleBinding binding owner subjects roleRef labels.

Fixpoint createOrUpdateRoleBinding (fuel : nat) (binding : RoleBinding) (owner : V2.Cryostat)
    (subjects : list Subject) (roleRef : RoleRef) (labels : gomap string) : E W () :=
  match fuel with
  | O => mretM (Err out_of_fuel)
  | S fuel =>
      let bindingCopy := binding in
      let* ' (_, op) := controllerutil_CreateOrUpdate KRoleBinding binding
                          (λ binding, mretM (mutateRoleBinding subjects roleRef labels binding)) in
      match op with
      | Err e =>
          if decide (e = errRoleRefModified)
          then recreateRoleBinding (createOrUpdateRoleBinding fuel) bindingCopy owner subjects roleRef labels
          else mretM (Err e)
      | Ok _ => mretM (Ok ())
      end
  end.

Definition namespacedRoleRef : RoleRef := {|
  rref_APIGroup := "rbac.authorization.k8s.io"; rref_Kind := "ClusterRole";
  rref_Name := "cryostat-operator-cryostat-namespaced" |}.
Definition serviceAccountSubjects cr : list Subject :=
  let sa := newServiceAccount cr in
  [{| sub_Kind := "ServiceAccount"; sub_Name := om_Name (sa_meta sa);
      sub_Namespace := om_Namespace (sa_meta sa) |}].

Definition reconcileRoleBinding r cr : E W () :=
  let subjects := serviceAccountSubjects cr in
  do? for_each (ci_TargetNamespaces cr) (λ ns,
        let binding := newRoleBinding r cr ns in
        createOrUpdateRoleBinding recreate_fuel binding (ci_Object cr) subjects namespacedRoleRef
          (LabelsForTargetNamespaceObject cr)) in
  for_each (toDelete cr) (λ ns, deleteRoleBinding (newRoleBinding r cr ns)).

Definition finalizeRoleBindings r cr : E W () :=
  for_each (ci_TargetNamespaces cr) (λ ns, deleteRoleBinding (newRoleBinding r cr ns)).

(** ** Cluster role binding: it cannot be owned by a namespaced CR *)
Definition clusterRoleName : string := "cryostat-operator-cryostat".

Definition newClusterRoleBinding r cr : ClusterRoleBinding := {|
  crb_meta := NewObjectMeta (ClusterUniqueName (r_Kind r) (ci_Name cr) (ci_InstallNamespace cr)) "";
  crb_Subjects := [];
  crb_RoleRef := {| rref_APIGroup := ""; rref_Kind := ""; rref_Name := "" |} |}.

Definition deleteClusterRoleBinding (clusterBinding : ClusterRoleBinding) : E W () :=
  let* err := client_Delete KClusterRoleBinding clusterBinding in
  match err with
  | Err e => if kerrors_IsNotFound e then mretM (Ok ()) else mretM (Err e)
  | Ok _ => mretM (Ok ())
  end.

Definition mutateClusterRoleBinding (subjects : list Subject) (roleRef : RoleRef)
    (binding : ClusterRoleBinding) : ClusterRoleBinding * res () :=
  let binding : ClusterRoleBinding := binding <| crb_Subjects := subjects |> in
  match getRoleRef (crb_meta binding) (crb_RoleRef binding) roleRef with
  | Err e => (binding, Err e)
  | Ok roleRef => (binding <| crb_RoleRef := roleRef |>, Ok ())
  end.

Definition recreateClusterRoleBinding
    (createOrUpdateClusterRoleBinding : ClusterRoleBinding → V2.Cryostat → list Subject → RoleRef → E W ())
    (binding : ClusterRoleBinding) (owner : V2.Cryostat) (subjects : list Subject) (roleRef : RoleRef)
    : E W () :=
  do? deleteClusterRoleBinding binding in
  createOrUpdateClusterRoleBinding binding owner subjects roleRef.

Fixpoint createOrUpdateClusterRoleBinding (fuel : nat) (binding : ClusterRoleBinding)
    (owner : V2.Cryostat) (subjects : list Subject) (roleRef : RoleRef) : E W () :=
  match fuel with
  | O => mretM (Err out_of_fuel)
  | S fuel =>
      let bindingCopy := binding in
      let* ' (_, op) := controllerutil_CreateOrUpdate KClusterRoleBinding binding
                          (λ binding, mretM (mutateClusterRoleBinding subjects roleRef binding)) in
      match op with
      | Err e =>
          if decide (e = errRoleRefModified)
          then recreateClusterRoleBinding (createOrUpdateClusterRoleBinding fuel) bindingCopy owner
                 subjects roleRef
          else mretM (Err e)
      | Ok _ => mretM (Ok ())
      end
  end.

Definition clusterRoleRef : RoleRef := {|
  rref_APIGroup := "rbac.authorization.k8s.io"; rref_Kind := "ClusterRole"; rref_Name := clusterRoleName |}.

Definition reconcileClusterRoleBinding r cr : E W () :=
  createOrUpdateClusterRoleBinding recreate_fuel (newClusterRoleBinding r cr) (ci_Object cr)
    (serviceAccountSubjects cr) clusterRoleRef.

(** ** Together *)
Definition reconcileRBAC r cr : E W () :=
  do? reconcileServiceAccount r cr in
  do? reconcileRole cr in
  do? reconcileRoleBinding r cr in
  do? reconcileClusterRoleBinding r cr in
  mretM (Ok ()).

Definition finalizeRBAC r cr : E W () :=
  do? deleteClusterRoleBinding (newClusterRoleBinding r cr) in
  finalizeRoleBindings r cr.
End rbac.

(** ** Lemmas *)
Section rbac_lemmas.
Context `{KubeLaws W}.
Implicit Types (r : Reconciler) (cr : CryostatInstance) (w : W).

Lemma containsNamespace_spec l ns : containsNamespace l ns = bool_decide (ns ∈ l).
Proof.
  induction l as [|x l IH]; [symmetry; apply bool_decide_eq_false; set_solver|].
  cbn [containsNamespace]. rewrite IH, (bool_decide_ext (ns ∈ x :: l) (ns = x ∨ ns ∈ l))
    by apply elem_of_cons.
  destruct (decide (x = ns)) as [->|Hx].
  - rewrite !bool_decide_true; tauto.
  - rewrite (bool_decide_false (x = ns)) by done. apply bool_decide_ext. naive_solver.
Qed.

Lemma toDelete_spec cr :
  toDelete cr = filter (λ ns, ns ∉ ci_TargetNamespaces cr) (ci_TargetNamespaceStatus cr).
Proof.
  unfold toDelete. generalize (ci_TargetNamespaceStatus cr) as l. intros l.
  assert (Hacc : ∀ acc, foldl (λ acc ns, if negb (containsNamespace (ci_TargetNamespaces cr) ns)
      then acc ++ [ns] else acc) acc l = acc ++ filter (λ ns, ns ∉ ci_TargetNamespaces cr) l).
  { induction l as [|x l IH]; intros acc; simpl; [by rewrite app_nil_r|].
    rewrite IH, containsNamespace_spec, filter_cons. case_bool_decide; simpl.
    - by rewrite decide_False by tauto.
    - rewrite decide_True by tauto. by rewrite <-(assoc app). }
  apply Hacc.
Qed.

Lemma elem_of_toDelete cr ns :
  ns ∈ toDelete cr ↔ ns ∈ ci_TargetNamespaceStatus cr ∧ ns ∉ ci_TargetNamespaces cr.
Proof. rewrite toDelete_spec, list_elem_of_filter. tauto. Qed.

(** *** Deletions *)
Lemma deleteRoleBinding_gone b w w' :
  unheld w KRoleBinding (key KRoleBinding b) → deleteRoleBinding b w = (Ok (), w') →
  stored w' KRoleBinding (key KRoleBinding b) = None.
Proof.
  intros Hh (res & w1 & Hd & Hrun)%mbindM_inv.
  destruct res as [[]|e]; [|destruct (kerrors_IsNotFound e) eqn:He]; ret_inv Hrun;
    eapply (Delete_gone KRoleBinding); eauto.
Qed.
Lemma deleteClusterRoleBinding_gone b w w' :
  unheld w KClusterRoleBinding (key KClusterRoleBinding b) →
  deleteClusterRoleBinding b w = (Ok (), w') →
  stored w' KClusterRoleBinding (key KClusterRoleBinding b) = None.
Proof.
  intros Hh (res & w1 & Hd & Hrun)%mbindM_inv.
  destruct res as [[]|e]; [|destruct (kerrors_IsNotFound e) eqn:He]; ret_inv Hrun;
    eapply (Delete_gone KClusterRoleBinding); eauto.
Qed.
Lemma touches_deleteRoleBinding (S : Kind → NamespacedName → Prop) b :
  S KRoleBinding (key KRoleBinding b) → touches S (deleteRoleBinding b).
Proof. intros HS. unfold deleteRoleBinding. touch. exact HS. Qed.
Lemma touches_deleteClusterRoleBinding (S : Kind → NamespacedName → Prop) b :
  S KClusterRoleBinding (key KClusterRoleBinding b) → touches S (deleteClusterRoleBinding b).
Proof. intros HS. unfold deleteClusterRoleBinding. touch. exact HS. Qed.

(** *** The role reference *)
Lemma getRoleRef_Ok m old new x : getRoleRef m old new = Ok x → x = new.
Proof.
  unfold getRoleRef. destruct (CreationTimestamp_IsZero m); [congruence|].
  destruct (cmp_Equal old new) eqn:E; simpl; [|done]. intros [= <-]. by eapply cmp_Equal_sound.
Qed.

(** *** One binding *)
Lemma getRoleRef_new m old new : CreationTimestamp_IsZero m = true → getRoleRef m old new = Ok new.
Proof. unfold getRoleRef. by intros ->. Qed.

(** The binding [n] gives [roleRef] to [subjects]. *)
Definition role_binding_granted w (n : NamespacedName) (subjects : list Subject) (roleRef : RoleRef)
    (labels : gomap string) : Prop :=
  ∃ got, stored w KRoleBinding n = Some got ∧ rb_Subjects got = subjects ∧ rb_RoleRef got = roleRef ∧
         keeps_map labels (om_Labels (rb_meta got)).
Definition cluster_role_binding_granted w (n : NamespacedName) (subjects : list Subject)
    (roleRef : RoleRef) : Prop :=
  ∃ got, stored w KClusterRoleBinding n = Some got ∧ crb_Subjects got = subjects ∧
         crb_RoleRef got = roleRef.

Lemma mutateRoleBinding_ok w n subjects roleRef labels base o1 got :
  mutateRoleBinding subjects roleRef labels base = (o1, Ok ()) →
  stored w KRoleBinding n = Some got → kept KRoleBinding o1 got →
  role_binding_granted w n subjects roleRef labels.
Proof.
  intros Hf Hgot [(Hl & _ & _) (Hsub & Href)]. exists got. simpl in Hl, Hsub, Href.
  unfold mutateRoleBinding in Hf.
  destruct (getRoleRef _ _ roleRef) as [x|e] eqn:E in Hf; [|done].
  apply getRoleRef_Ok in E as ->. injection Hf as <-. split_and!; [done..|].
  intros k v Hv. apply Hl. unfold gm_lookup, gm_make in *. simpl.
  destruct labels as [ls|]; [|done]. simpl in *. by apply lookup_union_Some_l.
Qed.

Section role_binding.
Context (binding : RoleBinding) (owner : V2.Cryostat) (subjects : list Subject) (roleRef : RoleRef)
        (labels : gomap string).
Context (Hnew : CreationTimestamp_IsZero (rb_meta binding) = true).
#[local] Abbreviation n := (key KRoleBinding binding).
#[local] Abbreviation run := (λ m (_ : ()), createOrUpdateRoleBinding m binding owner subjects roleRef labels).

Lemma createOrUpdateRoleBinding_step m a w : run (S m) a w =
  managed_step KRoleBinding (λ _, mretM (Ok ())) (λ _, binding)
    (λ _, mutateRoleBinding subjects roleRef labels) errRoleRefModified (λ _, deleteRoleBinding binding)
    (λ b, b) (run m) a w.
Proof.
  simpl. unfold managed_step, managed_apply, mtry, mbindM, mretM.
  destruct (controllerutil_CreateOrUpdate KRoleBinding binding _ w) as [[o [op|e]] w1]; [done|].
  simpl. by destruct (decide (e = errRoleRefModified)).
Qed.
Lemma mutateRoleBinding_fresh :
  (mutateRoleBinding subjects roleRef labels binding).2 ≠ Err errRoleRefModified.
Proof. unfold mutateRoleBinding. by rewrite getRoleRef_new. Qed.

Lemma createOrUpdateRoleBinding_enough m w :
  unheld w KRoleBinding n → run (S (S m)) () w = run recreate_fuel () w.
Proof.
  apply (managed_enough KRoleBinding n (λ _, True) (λ _, True) _ _ _ _ _ _ run createOrUpdateRoleBinding_step);
    try done; [by intros ? ? ? ? _ [= <- <-] | intros; apply mutateRoleBinding_fresh | by intros []
    | intros ??? _; apply deleteRoleBinding_gone].
Qed.
Lemma createOrUpdateRoleBinding_ok w w' :
  quiet w KRoleBinding n → run recreate_fuel () w = (Ok (), w') →
  role_binding_granted w' n subjects roleRef labels.
Proof.
  intros Hq Hrun.
  apply (managed_ok KRoleBinding n (λ _, True) (λ _, True) _ _ _ _ _ _ run (λ _, eq_refl) createOrUpdateRoleBinding_step)
    in Hrun as (b & base & o1 & got & _ & Hf & _ & Hgot & Hk);
    [|first [done | by intros ? ? ? ? _ [= <- <-] | by intros []
            | intros; apply mutateRoleBinding_fresh | intros ??? _; apply deleteRoleBinding_gone]..].
  by eapply mutateRoleBinding_ok.
Qed.
Lemma touches_createOrUpdateRoleBinding (S : Kind → NamespacedName → Prop) m :
  S KRoleBinding n → touches S (run m ()).
Proof.
  intros HS. apply (touches_managed KRoleBinding n (λ _, True) (λ _, True) _ _ _ _ _ _ run (λ _, eq_refl)
    createOrUpdateRoleBinding_step); try done; [by intros ? ? ? ? _ [= <- <-]|].
  intros _ _. by apply touches_deleteRoleBinding.
Qed.
End role_binding.

Section cluster_role_binding.
Context (binding : ClusterRoleBinding) (owner : V2.Cryostat) (subjects : list Subject) (roleRef : RoleRef).
Context (Hnew : CreationTimestamp_IsZero (crb_meta binding) = true).
#[local] Abbreviation n := (key KClusterRoleBinding binding).
#[local] Abbreviation run := (λ m (_ : ()), createOrUpdateClusterRoleBinding m binding owner subjects roleRef).

Lemma createOrUpdateClusterRoleBinding_step m a w : run (S m) a w =
  managed_step KClusterRoleBinding (λ _, mretM (Ok ())) (λ _, binding)
    (λ _, mutateClusterRoleBinding subjects roleRef) errRoleRefModified
    (λ _, deleteClusterRoleBinding binding) (λ b, b) (run m) a w.
Proof.
  simpl. unfold managed_step, managed_apply, mtry, mbindM, mretM.
  destruct (controllerutil_CreateOrUpdate KClusterRoleBinding binding _ w) as [[o [op|e]] w1]; [done|].
  simpl. by destruct (decide (e = errRoleRefModified)).
Qed.
Lemma mutateClusterRoleBinding_fresh :
  (mutateClusterRoleBinding subjects roleRef binding).2 ≠ Err errRoleRefModified.
Proof. unfold mutateClusterRoleBinding. by rewrite getRoleRef_new. Qed.
Lemma createOrUpdateClusterRoleBinding_ok w w' :
  quiet w KClusterRoleBinding n → run recreate_fuel () w = (Ok (), w') →
  cluster_role_binding_granted w' n subjects roleRef.
Proof.
  intros Hq Hrun.
  apply (managed_ok KClusterRoleBinding n (λ _, True) (λ _, True) _ _ _ _ _ _ run (λ _, eq_refl)
    createOrUpdateClusterRoleBinding_step)
    in Hrun as (b & base & o1 & got & _ & Hf & _ & Hgot & [_ [Hsub Href]]);
    [|first [done | by intros ? ? ? ? _ [= <- <-] | by intros []
            | intros; apply mutateClusterRoleBinding_fresh | intros ??? _; apply deleteClusterRoleBinding_gone]..].
  exists got. split; [done|]. simpl in Hsub, Href. unfold mutateClusterRoleBinding in Hf.
  destruct (getRoleRef _ _ roleRef) as [x|e] eqn:E in Hf; [|done].
  apply getRoleRef_Ok in E as ->. by injection Hf as <-.
Qed.
Lemma touches_createOrUpdateClusterRoleBinding (S : Kind → NamespacedName → Prop) m :
  S KClusterRoleBinding n → touches S (run m ()).
Proof.
  intros HS. apply (touches_managed KClusterRoleBinding n (λ _, True) (λ _, True) _ _ _ _ _ _ run (λ _, eq_refl)
    createOrUpdateClusterRoleBinding_step); try done; [by intros ? ? ? ? _ [= <- <-]|].
  intros _ _. by apply touches_deleteClusterRoleBinding.
Qed.
End cluster_role_binding.

(** *** The keys of the RBAC objects of a Cryostat *)
Definition rbac_name r cr : string := ClusterUniqueName (r_Kind r) (ci_Name cr) (ci_InstallNamespace cr).
Definition rbac_footprint r cr : Kind → NamespacedName → Prop := λ k n,
  match k with
  | KServiceAccount | KRole => n = nn (ci_InstallNamespace cr) (ci_Name cr)
  | KRoleBinding => nn_Name n = rbac_name r cr ∧
                    (nn_Namespace n ∈ ci_TargetNamespaces cr ∨ nn_Namespace n ∈ ci_TargetNamespaceStatus cr)
  | KClusterRoleBinding => n = nn "" (rbac_name r cr)
  | _ => False
  end.

Lemma touches_reconcileServiceAccount (S : Kind → NamespacedName → Prop) r cr :
  S KServiceAccount (nn (ci_InstallNamespace cr) (ci_Name cr)) → touches S (reconcileServiceAccount r cr).
Proof.
  intros HS. unfold reconcileServiceAccount, createOrUpdateServiceAccount.
  touch; exact HS.
Qed.
Lemma touches_reconcileRole (S : Kind → NamespacedName → Prop) cr :
  S KRole (nn (ci_InstallNamespace cr) (ci_Name cr)) → touches S (reconcileRole cr).
Proof.
  intros HS w q w'. unfold reconcileRole, cleanUpRole. intros (got & w1 & Hg & Hrun)%mbindM_inv.
  transitivity w1; [by eapply touches_Get|].
  destruct got as [role|e].
  - apply Get_Ok in Hg. pose proof (stored_key _ _ _ _ Hg) as Hk.
    revert Hrun. apply touches_weaken with (S := only KRole (key KRole role)).
    + intros k n [-> ->]. by rewrite Hk.
    + touch. done.
  - revert Hrun. apply touches_weaken with (S := only KRole (key KRole (newRole cr))).
    + by intros k n [-> ->].
    + touch. done.
Qed.

(** *** The loops *)
Definition rb_key r cr (ns : string) : NamespacedName := nn ns (rbac_name r cr).
Definition rb_granted r cr w ns : Prop :=
  role_binding_granted w (rb_key r cr ns) (serviceAccountSubjects cr) namespacedRoleRef
    (LabelsForTargetNamespaceObject cr).

Definition grant r cr ns : E W () :=
  createOrUpdateRoleBinding recreate_fuel (newRoleBinding r cr ns) (ci_Object cr)
    (serviceAccountSubjects cr) namespacedRoleRef (LabelsForTargetNamespaceObject cr).
Definition revoke r cr ns : E W () := deleteRoleBinding (newRoleBinding r cr ns).

Lemma touches_grant r cr ns : touches (only KRoleBinding (rb_key r cr ns)) (grant r cr ns).
Proof. by apply touches_createOrUpdateRoleBinding. Qed.
Lemma touches_revoke r cr ns : touches (only KRoleBinding (rb_key r cr ns)) (revoke r cr ns).
Proof. by apply touches_deleteRoleBinding. Qed.

Lemma rb_key_inj r cr x y : rb_key r cr x = rb_key r cr y → x = y.
Proof. unfold rb_key. by injection 1. Qed.

Lemma reconcileRoleBinding_ok r cr w w' :
  NoDup (ci_TargetNamespaces cr) →
  (∀ n, rbac_footprint r cr KRoleBinding n → quiet w KRoleBinding n) →
  reconcileRoleBinding r cr w = (Ok (), w') →
  (∀ ns, ns ∈ ci_TargetNamespaces cr → rb_granted r cr w' ns) ∧
  (∀ ns, ns ∈ toDelete cr → stored w' KRoleBinding (rb_key r cr ns) = None).
Proof.
  intros Hnd Hq. apply (per_namespace_ok KRoleBinding (rb_key r cr) (grant r cr) (revoke r cr) (λ got,
    rb_Subjects got = serviceAccountSubjects cr ∧ rb_RoleRef got = namespacedRoleRef ∧
    keeps_map (LabelsForTargetNamespaceObject cr) (om_Labels (rb_meta got)))
    (rb_key_inj r cr) (touches_grant r cr) (touches_revoke r cr)); [| |done| |].
  - intros ns u u'. by apply (createOrUpdateRoleBinding_ok (newRoleBinding r cr ns)).
  - intros ns u u'. by apply (deleteRoleBinding_gone (newRoleBinding r cr ns)).
  - by intros ns [_ ?]%elem_of_toDelete.
  - intros ns [Hns|[Hns _]%elem_of_toDelete]; apply Hq; simpl; auto.
Qed.

Lemma touches_reconcileRoleBinding r cr : touches (rbac_footprint r cr) (reconcileRoleBinding r cr).
Proof.
  apply touches_try; [|intros _]; apply touches_for_each; intros ns Hns.
  - apply touches_createOrUpdateRoleBinding. simpl. auto.
  - apply touches_deleteRoleBinding. simpl. apply elem_of_toDelete in Hns as [? _]. auto.
Qed.
Lemma touches_finalizeRBAC r cr : touches (rbac_footprint r cr) (finalizeRBAC r cr).
Proof.
  apply touches_try; [by apply touches_deleteClusterRoleBinding|].
  intros _. apply touches_for_each. intros ns Hns. apply touches_deleteRoleBinding. simpl. auto.
Qed.
Lemma touches_reconcileClusterRoleBinding (S : Kind → NamespacedName → Prop) r cr :
  S KClusterRoleBinding (nn "" (rbac_name r cr)) → touches S (reconcileClusterRoleBinding r cr).
Proof. apply (touches_createOrUpdateClusterRoleBinding (newClusterRoleBinding r cr)). Qed.
Lemma touches_reconcileRBAC r cr : touches (rbac_footprint r cr) (reconcileRBAC r cr).
Proof.
  unfold reconcileRBAC.
  apply touches_try; [by apply touches_reconcileServiceAccount|intros _].
  apply touches_try; [by apply touches_reconcileRole|intros _].
  apply touches_try; [by apply touches_reconcileRoleBinding|intros _].
  apply touches_try; [by apply touches_reconcileClusterRoleBinding|intros _]. apply touches_ret.
Qed.

(** The cleanup of a Cryostat that is being deleted. *)
Lemma finalizeRBAC_ok r cr w w' :
  unheld w KClusterRoleBinding (nn "" (rbac_name r cr)) →
  (∀ ns, ns ∈ ci_TargetNamespaces cr → unheld w KRoleBinding (rb_key r cr ns)) →
  finalizeRBAC r cr w = (Ok (), w') →
  stored w' KClusterRoleBinding (nn "" (rbac_name r cr)) = None ∧
  ∀ ns, ns ∈ ci_TargetNamespaces cr → stored w' KRoleBinding (rb_key r cr ns) = None.
Proof.
  intros Hc Hq Hrun. apply mtry_ok_inv in Hrun as ([] & w1 & Hd & Hrevoke).
  pose proof (touches_deleteClusterRoleBinding (only KClusterRoleBinding (nn "" (rbac_name r cr))) (newClusterRoleBinding r cr)
    ltac:(done) _ _ _ Hd) as Hw1.
  apply deleteClusterRoleBinding_gone in Hd; [|exact Hc]. split.
  - rewrite <-Hd. eapply (same_except_out (λ k n, k = KRoleBinding)); [|done].
    eapply touches_for_each; [|exact Hrevoke]. intros ns _. by apply touches_deleteRoleBinding.
  - refine (revoke_all KRoleBinding (rb_key r cr) (revoke r cr) (rb_key_inj r cr) (touches_revoke r cr)
      (λ ns u u', deleteRoleBinding_gone (newRoleBinding r cr ns) u u') _ _ _ _ Hrevoke).
    intros ns Hns old Ho. apply (Hq ns Hns).
    rewrite <-(same_except_out _ _ _ KRoleBinding (rb_key r cr ns) Hw1) by (by intros []). exact Ho.
Qed.

(** The role bindings of a Cryostat: one in each target namespace and none in those that
    were dropped, and the cluster role binding. *)
Definition granted r cr w : Prop :=
  (∀ ns, ns ∈ ci_TargetNamespaces cr → rb_granted r cr w ns) ∧
  (∀ ns, ns ∈ ci_TargetNamespaceStatus cr → ns ∉ ci_TargetNamespaces cr →
     stored w KRoleBinding (rb_key r cr ns) = None) ∧
  cluster_role_binding_granted w (nn "" (rbac_name r cr)) (serviceAccountSubjects cr) clusterRoleRef.
Lemma reconcileRBAC_ok r cr w w' :
  NoDup (ci_TargetNamespaces cr) → (∀ k n, rbac_footprint r cr k n → quiet w k n) →
  reconcileRBAC r cr w = (Ok (), w') → granted r cr w'.
Proof.
  intros Hnd Hq Hrun.
  apply mtry_ok_inv in Hrun as ([] & w1 & Hsa & Hrun).
  apply mtry_ok_inv in Hrun as ([] & w2 & Hrole & Hrun).
  apply mtry_ok_inv in Hrun as ([] & w3 & Hrb & Hrun).
  apply mtry_ok_inv in Hrun as ([] & w4 & Hcrb & Hrun). ret_inv Hrun.
  pose proof (touches_reconcileServiceAccount (only KServiceAccount (nn (ci_InstallNamespace cr) (ci_Name cr)))
    r cr ltac:(done) _ _ _ Hsa) as E1.
  pose proof (touches_reconcileRole (only KRole (nn (ci_InstallNamespace cr) (ci_Name cr)))
    cr ltac:(done) _ _ _ Hrole) as E2.
  pose proof (touches_reconcileClusterRoleBinding (only KClusterRoleBinding (nn "" (rbac_name r cr)))
    r cr ltac:(done) _ _ _ Hcrb) as E4.
  assert (Hq2 : ∀ k n, k ≠ KServiceAccount → k ≠ KRole → rbac_footprint r cr k n → quiet w2 k n).
  { intros k n Hk1 Hk2 Hn. eapply quiet_eq; [|by apply Hq].
    rewrite (same_except_out _ _ _ k n E2), (same_except_out _ _ _ k n E1); [done|by intros []..]. }
  assert (E3 : stored w3 KClusterRoleBinding (nn "" (rbac_name r cr)) =
               stored w2 KClusterRoleBinding (nn "" (rbac_name r cr))).
  { eapply (same_except_out (λ k n, k = KRoleBinding)); [|done]. revert Hrb.
    apply touches_try; [|intros _]; apply touches_for_each; intros ns _;
      [by apply touches_createOrUpdateRoleBinding | by apply touches_deleteRoleBinding]. }
  apply reconcileRoleBinding_ok in Hrb as [Hgr Hrv]; [|done|by intros n Hn; apply Hq2].
  assert (E : ∀ ns, stored w' KRoleBinding (rb_key r cr ns) = stored w3 KRoleBinding (rb_key r cr ns)).
  { intros ns. apply (same_except_out _ _ _ _ _ E4). by intros []. }
  split_and!.
  - intros ns Hns. unfold rb_granted, role_binding_granted. rewrite E. by apply Hgr.
  - intros ns Hst Hnt. rewrite E. apply Hrv. by apply elem_of_toDelete.
  - apply (createOrUpdateClusterRoleBinding_ok (newClusterRoleBinding r cr) _ _ _ _ _) in Hcrb; [exact Hcrb|].
    eapply quiet_eq; [exact E3|]. by apply Hq2.
Qed.
End rbac_lemmas.

(** ** Properties *)
Section rbac_properties.
Context `{KubeLaws W}.

(** C13. After a successful pass, every target namespace has the role binding that gives
    Cryostat's service account the namespaced role, with the labels that lead back to the
    CR; the namespaces of the status that are no longer targets have none; and the cluster
    role binding is in place.  The bindings must not be held by finalizers or be under
    deletion when the pass starts. Each
    target must be listed once. *)
Theorem reconcileRBAC_grants r cr w w' :
  NoDup (ci_TargetNamespaces cr) →
  (∀ k n, rbac_footprint r cr k n → quiet w k n) →
  reconcileRBAC r cr w = (Ok (), w') →
  (∀ ns, ns ∈ ci_TargetNamespaces cr →
     role_binding_granted w' (nn ns (rbac_name r cr)) (serviceAccountSubjects cr) namespacedRoleRef
       (LabelsForTargetNamespaceObject cr)) ∧
  (∀ ns, ns ∈ ci_TargetNamespaceStatus cr → ns ∉ ci_TargetNamespaces cr →
     stored w' KRoleBinding (nn ns (rbac_name r cr)) = None) ∧
  cluster_role_binding_granted w' (nn "" (rbac_name r cr)) (serviceAccountSubjects cr) clusterRoleRef.
Proof.
  apply reconcileRBAC_ok.
Qed.

(** Reconciling the RBAC objects touches only the Cryostat's own: its service account
    and legacy role in the install namespace, its cluster role binding, and its role
    binding in the namespaces of the spec and of the status. *)
Theorem reconcileRBAC_footprint r cr w q w' k n :
  reconcileRBAC r cr w = (q, w') → ¬ rbac_footprint r cr k n → stored w' k n = stored w k n.
Proof. intros Hrun. apply same_except_out. by eapply touches_reconcileRBAC. Qed.

(** Recreating a role binding terminates: as long as no finalizer holds the binding
    back, two attempts give the same outcome as any larger number, so the mutual recursion
    of [createOrUpdateRoleBinding] and [recreateRoleBinding] is at most two deep. *)
Theorem createOrUpdateRoleBinding_terminates r cr ns subjects roleRef labels m w :
  unheld w KRoleBinding (nn ns (rbac_name r cr)) →
  createOrUpdateRoleBinding (2 + m) (newRoleBinding r cr ns) (ci_Object cr) subjects roleRef labels w =
  createOrUpdateRoleBinding recreate_fuel (newRoleBinding r cr ns) (ci_Object cr) subjects roleRef labels w.
Proof. intros Hh. by apply (createOrUpdateRoleBinding_enough (newRoleBinding r cr ns)). Qed.
End rbac_properties.

(** ** Witnesses *)
Lemma reconcileRBAC_grants_witness :
  let w' := (reconcileRBAC sample_r sample_cr fk_sample).2 in
  (∀ ns, ns ∈ ["ns"; "a"] →
     role_binding_granted w' (nn ns (rbac_name sample_r sample_cr)) (serviceAccountSubjects sample_cr)
       namespacedRoleRef (LabelsForTargetNamespaceObject sample_cr)) ∧
  stored w' KRoleBinding (nn "b" (rbac_name sample_r sample_cr)) = None.
Proof.
  destruct (reconcileRBAC_grants sample_r sample_cr fk_sample
    (reconcileRBAC sample_r sample_cr fk_sample).2) as (Hg & Hr & _).
  - apply (bool_decide_unpack _). exact I.
  - intros k n Hn. destruct k; try destruct Hn; intros old Ho; discriminate Ho.
  - apply run_snd. vm_compute. reflexivity.
  - split; [exact Hg|]. apply Hr; apply (bool_decide_unpack _); exact I.
Defined.

Lemma reconcileRBAC_footprint_witness :
  stored (reconcileRBAC sample_r sample_cr fk_sample).2 KRoleBinding (nn "other" "x") =
  stored fk_sample KRoleBinding (nn "other" "x").
Proof.
  apply (reconcileRBAC_footprint sample_r sample_cr fk_sample
    (reconcileRBAC sample_r sample_cr fk_sample).1 (reconcileRBAC sample_r sample_cr fk_sample).2).
  - apply surjective_pairing.
  - intros [Hn _]. vm_compute in Hn. discriminate Hn.
Defined.

Lemma createOrUpdateRoleBinding_terminates_witness :
  createOrUpdateRoleBinding 9 (newRoleBinding sample_r sample_cr "a") sample_Cryostat [] namespacedRoleRef None
    fk_empty =
  createOrUpdateRoleBinding recreate_fuel (newRoleBinding sample_r sample_cr "a") sample_Cryostat []
    namespacedRoleRef None fk_empty.
Proof.
  apply (createOrUpdateRoleBinding_terminates sample_r sample_cr "a" [] namespacedRoleRef None 7).
  intros old Ho. by rewrite fk_empty_stored in Ho.
Defined.
