(* ===== verification/Secrets.v ===== *)
(** * Secrets

    [internal/controller/secrets.go]: the cookie secret of the auth proxy, the database
    credentials and the storage credentials.  The values are generated once: the theorems
    say that no pass changes them afterwards, and that a Cryostat never silently moves to
    another database secret. *)

From S2P Require Export Common.
From S2P Require Import FakeClient.
Open Scope Z_scope.

Section secrets.
Context `{Kube W}.
Implicit Types (r : Reconciler) (cr : CryostatInstance).

(** [r.Status().Update(ctx, cr.Object)]: the server's answer overwrites the object. *)
Definition Status_Update cr : CrE () :=
  let* ' (o, err) := client_StatusUpdate (ci_Object cr) in
  mretM (cr <| ci_Object := o |>, err).
(** An assignment to [cr.Status]. *)
Definition set_status cr (f : V2.CryostatStatus → V2.CryostatStatus) : CryostatInstance :=
  cr <| ci_Object ::= λ o, o <| V2.cr_Status ::= f |> |>.

Definition NewSecret (name namespace : string) : Secret := {|
  sec_meta := NewObjectMeta name namespace; sec_Immutable := None;
  sec_Data := None; sec_StringData := None; sec_Type := "" |}.

(** The secret in memory and the result of the operation. *)
Definition createOrUpdateSecret (secret : Secret) (owner : option V2.Cryostat)
    (delegate : Secret → M W (Secret * res ())) : M W (Secret * res ()) :=
  let* ' (secret, op) := controllerutil_CreateOrUpdate KSecret secret (λ secret,
    match owner with
    | Some owner =>
        match controllerutil_SetControllerReference (V2.cr_meta owner) (sec_meta secret) with
        | Err e => mretM (secret, Err e)
        | Ok meta => delegate (secret <| sec_meta := meta |>)
        end
    | None => delegate secret
    end) in
  mretM (secret, ok? _ := op in Ok ()).

Definition deleteSecret (secret : Secret) : E W () :=
  let* err := client_Delete KSecret secret in
  match err with
  | Err e => if kerrors_IsNotFound e then mretM (Ok ()) else mretM (Err e)
  | Ok _ => mretM (Ok ())
  end.

(** [secret.StringData[k] = v] *)
Definition set_string_data (secret : Secret) (k v : string) : Secret :=
  secret <| sec_StringData ::= λ d, Some (<[k := v]> (gm_make d)) |>.
Definition make_string_data (secret : Secret) : Secret :=
  secret <| sec_StringData ::= λ d, Some (gm_make d) |>.

(** ** Cookie secret of the auth proxy *)
Definition cookie_secret cr : Secret := NewSecret (ci_Name cr +:+ "-oauth2-cookie") (ci_InstallNamespace cr).

Definition mutate_cookie (secret : Secret) : M W (Secret * res ()) :=
  let secret := make_string_data secret in
  if CreationTimestamp_IsZero (sec_meta secret) then
    let* p := GenPasswd 32 in
    mretM (set_string_data secret "OAUTH2_PROXY_COOKIE_SECRET" p, Ok ())
  else mretM (secret, Ok ()).

Definition reconcileAuthProxyCookieSecret cr : E W () :=
  let* ' (_, err) := createOrUpdateSecret (cookie_secret cr) (Some (ci_Object cr)) mutate_cookie in
  mretM err.

(** ** Database secret *)
Definition databaseSecretNameSuffix : string := "-db".
Definition eventDatabaseSecretMismatchedType : string := "DatabaseSecretMismatched".
Definition eventDatabaseMismatchMsg : string :=
  dquote +:+ "databaseOptions.secretName" +:+ dquote +:+
  " field cannot be updated, please revert its value or re-create this Cryostat custom resource".
Definition errDatabaseSecretUpdated : error :=
  Sentinel "errDatabaseSecretUpdated"
    "database secret cannot be updated, but another secret is specified".

Definition database_secret cr : Secret :=
  NewSecret (ci_Name cr +:+ databaseSecretNameSuffix) (ci_InstallNamespace cr).
(** The name the user provides, if any. *)
Definition providedDatabaseSecret cr : option string :=
  V2.spec_DatabaseOptions (ci_Spec cr) ≫= V2.dbo_SecretName.

Definition mutate_database (secret : Secret) : M W (Secret * res ()) :=
  let secret := make_string_data secret in
  if CreationTimestamp_IsZero (sec_meta secret) then
    let* p := GenPasswd 32 in
    let secret := set_string_data secret DatabaseSecretConnectionKey p in
    let* p := GenPasswd 32 in
    let secret := set_string_data secret DatabaseSecretEncryptionKey p in
    mretM (secret <| sec_Immutable := Some true |>, Ok ())
  else mretM (secret <| sec_Immutable := Some true |>, Ok ()).

Definition reconcileDatabaseConnectionSecret cr : CrE () :=
  let secret := database_secret cr in
  let secretName := default (om_Name (sec_meta secret)) (providedDatabaseSecret cr) in
  let status := V2.st_DatabaseSecret (ci_Status cr) in
  if (0 <? len status) && negb (bool_decide (status = secretName)) then
    let* _ := EventRecorder_Event (ci_Object cr) "Warning" eventDatabaseSecretMismatchedType
                eventDatabaseMismatchMsg in
    mretM (cr, Err errDatabaseSecretUpdated)
  else
    do^ cr := cr_call cr (
      match providedDatabaseSecret cr with
      | Some _ => mretM (Ok ())
      | None =>
          let* ' (_, err) := createOrUpdateSecret secret (Some (ci_Object cr)) mutate_database in
          mretM err
      end) in
    Status_Update (set_status cr (λ st, st <| V2.st_DatabaseSecret := secretName |>)).

(** ** Storage secret *)
Definition storageSecretNameSuffix : string := "-storage".
Definition storageSecretAccessKey : string := "ACCESS_KEY".
Definition storageSecretPassKey : string := "SECRET_KEY".

Definition setDataIfNotPresent (secret : Secret) (key : string) (valueFunc : M W string) : M W Secret :=
  match gm_lookup (sec_Data secret) key with
  | Some _ => mretM secret
  | None => let* v := valueFunc in mretM (set_string_data secret key v)
  end.

Definition storage_secret cr : Secret :=
  NewSecret (ci_Name cr +:+ storageSecretNameSuffix) (ci_InstallNamespace cr).
Definition mutate_storage (secret : Secret) : M W (Secret * res ()) :=
  let secret := make_string_data secret in
  let* secret := setDataIfNotPresent secret storageSecretAccessKey (mretM "cryostat") in
  let* secret := setDataIfNotPresent secret storageSecretPassKey (GenPasswd 32) in
  mretM (secret, Ok ()).

Definition reconcileStorageSecret cr : CrE () :=
  let* ' (secret, err) := createOrUpdateSecret (storage_secret cr) (Some (ci_Object cr)) mutate_storage in
  match err with
  | Err e => mretM (cr, Err e)
  | Ok _ =>
      Status_Update (set_status cr (λ st, st <| V2.st_StorageSecret := om_Name (sec_meta secret) |>))
  end.

Definition reconcileSecrets cr : CrE () :=
  do^ cr := cr_call cr (reconcileAuthProxyCookieSecret cr) in
  do^ cr := reconcileDatabaseConnectionSecret cr in
  reconcileStorageSecret cr.
End secrets.

(** ** Lemmas *)
Section secret_lemmas.
Context `{KubeLaws W}.
Implicit Types (cr : CryostatInstance) (w : W).

Lemma touches_deleteSecret (S : Kind → NamespacedName → Prop) s :
  S KSecret (key KSecret s) → touches S (deleteSecret s).
Proof. intros HS. unfold deleteSecret. touch. exact HS. Qed.

Lemma deleteSecret_gone s w w' :
  unheld w KSecret (key KSecret s) → deleteSecret s w = (Ok (), w') →
  stored w' KSecret (key KSecret s) = None.
Proof.
  intros Hh (res & w1 & Hd & Hrun)%mbindM_inv.
  destruct res as [[]|e]; [|destruct (kerrors_IsNotFound e) eqn:He]; ret_inv Hrun;
    eapply (Delete_gone KSecret); eauto.
Qed.

Lemma touches_createOrUpdateSecret (S : Kind → NamespacedName → Prop) s owner delegate :
  (∀ s', touches S (delegate s')) → S KSecret (key KSecret s) →
  touches S (createOrUpdateSecret s owner delegate).
Proof.
  intros Hd HS. unfold createOrUpdateSecret. touch; auto.
Qed.
Lemma touches_Status_Update (S : Kind → NamespacedName → Prop) cr :
  S KCryostat (key KCryostat (ci_Object cr)) → touches S (Status_Update cr).
Proof. intros HS. unfold Status_Update. touch. exact HS. Qed.

Lemma touches_mutate_cookie S s : touches S (mutate_cookie s).
Proof. unfold mutate_cookie. touch. Qed.
Lemma touches_mutate_database S s : touches S (mutate_database s).
Proof. unfold mutate_database. touch. Qed.
Lemma touches_mutate_storage S s : touches S (mutate_storage s).
Proof. unfold mutate_storage, setDataIfNotPresent. touch. Qed.

(** A callback that changes nothing in the cluster. *)
Definition reads_only {A B} (f : A → M W B) : Prop :=
  ∀ a w b w', f a w = (b, w') → same_store w w'.
Lemma touches_reads_only {A B} (f : A → M W B) : (∀ a, touches (λ _ _, False) (f a)) → reads_only f.
Proof. intros Hf a w b w'. apply Hf. Qed.

(** What a successful [createOrUpdateSecret] leaves: the data of the callback's secret,
    made from the stored secret or from the new one. *)
Lemma createOrUpdateSecret_ok s owner delegate w s' w' :
  reads_only delegate →
  (∀ old, stored w KSecret (key KSecret s) = Some old → om_DeletionTimestamp (sec_meta old) = None) →
  createOrUpdateSecret s owner delegate w = ((s', Ok ()), w') →
  ∃ base meta o1 w1 w2 got,
    (stored w KSecret (key KSecret s) = None ∧ base = s ∨ stored w KSecret (key KSecret s) = Some base) ∧
    delegate (base <| sec_meta := meta |>) w1 = ((o1, Ok ()), w2) ∧
    CreationTimestamp_IsZero meta = CreationTimestamp_IsZero (sec_meta base) ∧
    om_Labels meta = om_Labels (sec_meta base) ∧
    stored w' KSecret (key KSecret s) = Some got ∧ kept KSecret o1 got ∧
    same_except (only KSecret (key KSecret s)) w w'.
Proof.
  intros Hdel Hd ([o [op|e]] & w1 & Hc & Hrun)%mbindM_inv; ret_inv Hrun.
  assert (Hcb : reads_only (λ secret : Secret,
    match owner with
    | Some owner =>
        match controllerutil_SetControllerReference (V2.cr_meta owner) (sec_meta secret) with
        | Err e => mretM (secret, Err e)
        | Ok meta => delegate (secret <| sec_meta := meta |>)
        end
    | None => delegate secret
    end)).
  { intros b u q u' Hu. destruct owner as [ow|]; [|by eapply Hdel].
    destruct (controllerutil_SetControllerReference _ _); [by eapply Hdel|]. ret_inv Hu. reflexivity. }
  apply CreateOrUpdate_ok in Hc as (base & w2 & o1 & w3 & got & Hw2 & Hb & Hf & _ & Hgot & Hk & Hw'); [| |exact Hd].
  - exists base. pose proof (Hcb _ _ _ _ Hf) as Hw3.
    assert (Hw : same_except (only KSecret (key KSecret s)) w w').
    { transitivity w2; [by eapply same_except_weaken; [|exact Hw2]|].
      transitivity w3; [by eapply same_except_weaken; [|exact Hw3]|exact Hw']. }
    destruct owner as [ow|].
    + destruct (controllerutil_SetControllerReference _ _) as [meta|] eqn:Er; [|by ret_inv Hf].
      apply SetControllerReference_fields in Er as (Hl & _ & Hz & _).
      exists meta, o1, w2, w3, got. by split_and!.
    + exists (sec_meta base), o1, w2, w3, got. split_and!; try done.
      by destruct base.
  - intros b u q u' Hu. exact (same_store_eq _ _ _ _ (Hcb _ _ _ _ Hu)).
Qed.

(** What the callbacks do to the data. *)
Lemma mutate_cookie_data s w o w' : mutate_cookie s w = ((o, Ok ()), w') →
  gm_make (sec_Data o) = gm_make (sec_Data s) ∧
  if CreationTimestamp_IsZero (sec_meta s)
  then ∃ p, len p = 32 ∧ gm_make (sec_StringData o) =
       <["OAUTH2_PROXY_COOKIE_SECRET" := p]> (gm_make (sec_StringData s))
  else gm_make (sec_StringData o) = gm_make (sec_StringData s).
Proof.
  unfold mutate_cookie. change (CreationTimestamp_IsZero (sec_meta (make_string_data s)))
    with (CreationTimestamp_IsZero (sec_meta s)).
  destruct (CreationTimestamp_IsZero (sec_meta s)).
  - intros (p & w1 & Hp & Hrun)%mbindM_inv. ret_inv Hrun. split; [done|].
    exists p. split; [|done].
    apply mbindM_inv in Hp as (l & w2 & Hl & Hp). ret_inv Hp.
    apply gen_chars_spec in Hl as (Hl & _). unfold len. by rewrite <-length_bytes, bytes_of_bytes, Hl.
  - intros Hrun. by ret_inv Hrun.
Qed.
Lemma mutate_database_data s w o w' : mutate_database s w = ((o, Ok ()), w') →
  gm_make (sec_Data o) = gm_make (sec_Data s) ∧ sec_Immutable o = Some true ∧
  (CreationTimestamp_IsZero (sec_meta s) = false →
   gm_make (sec_StringData o) = gm_make (sec_StringData s)).
Proof.
  unfold mutate_database. change (CreationTimestamp_IsZero (sec_meta (make_string_data s)))
    with (CreationTimestamp_IsZero (sec_meta s)).
  destruct (CreationTimestamp_IsZero (sec_meta s)).
  - intros (p & w1 & Hp & Hrun)%mbindM_inv. apply mbindM_inv in Hrun as (p' & w2 & Hp' & Hrun).
    by ret_inv Hrun.
  - intros Hrun. by ret_inv Hrun.
Qed.
Lemma setDataIfNotPresent_data s k v w o w' : setDataIfNotPresent s k v w = (o, w') →
  sec_Data o = sec_Data s ∧
  ∀ j, gm_make (sec_StringData o) !! j =
       (if decide (j = k ∧ gm_lookup (sec_Data s) k = None)
        then Some (v w).1 else gm_make (sec_StringData s) !! j).
Proof.
  unfold setDataIfNotPresent. destruct (gm_lookup (sec_Data s) k) eqn:E.
  - intros Hrun. ret_inv Hrun. split; [done|]. intros j. by rewrite decide_False by naive_solver.
  - intros (x & w1 & Hv & Hrun)%mbindM_inv. ret_inv Hrun. split; [done|]. intros j. simpl.
    rewrite Hv. simpl. destruct (decide (j = k)) as [->|Hj].
    + rewrite decide_True by done. apply lookup_insert_eq.
    + rewrite decide_False by tauto. by apply lookup_insert_ne.
Qed.
Lemma mutate_storage_data s w o w' : mutate_storage s w = ((o, Ok ()), w') →
  sec_Data o = sec_Data s ∧
  ∀ j x, gm_make (sec_StringData s) = ∅ → gm_make (sec_Data s) !! j = Some x →
    gm_make (sec_StringData o) !! j = None.
Proof.
  intros (s1 & w1 & H1 & Hrun)%mbindM_inv. apply mbindM_inv in Hrun as (s2 & w2 & H2 & Hrun).
  ret_inv Hrun. apply setDataIfNotPresent_data in H1 as [D1 L1].
  apply setDataIfNotPresent_data in H2 as [D2 L2]. rewrite D2, D1. split; [done|].
  intros j x He Hx. rewrite L2, L1, D1. simpl.
  assert (Hn : ∀ k, ¬ (j = k ∧ gm_lookup (sec_Data s) k = None)).
  { intros k [-> Hn]. unfold gm_lookup, gm_make in *. by destruct (sec_Data s); simplify_eq/=. }
  rewrite !decide_False by apply Hn.
  change (gm_make (sec_StringData s) !! j = None). rewrite He. apply lookup_empty.
Qed.
End secret_lemmas.

(** ** One step on one secret *)
Section secret_steps.
Context `{KubeLaws W}.
Implicit Types (cr : CryostatInstance) (w : W).

(** Every value of the secret [n] is still there. *)
Definition values_kept w w' (n : NamespacedName) : Prop :=
  ∀ old k v, stored w KSecret n = Some old → gm_make (sec_Data old) !! k = Some v →
  ∃ got, stored w' KSecret n = Some got ∧ gm_make (sec_Data got) !! k = Some v.
(** A callback that adds values to a stored secret, at most. *)
Definition adds_values (delegate : Secret → M W (Secret * res ())) : Prop :=
  ∀ s w o w', CreationTimestamp_IsZero (sec_meta s) = false → gm_make (sec_StringData s) = ∅ →
  delegate s w = ((o, Ok ()), w') →
  gm_make (sec_Data o) = gm_make (sec_Data s) ∧
  ∀ j x, gm_make (sec_Data s) !! j = Some x → gm_make (sec_StringData o) !! j = None.

Lemma values_kept_same w w' n :
  stored w' KSecret n = stored w KSecret n → values_kept w w' n.
Proof. intros E old k v Ho Hv. exists old. by rewrite E. Qed.

Lemma createOrUpdateSecret_values s owner delegate w s' w' :
  reads_only delegate → adds_values delegate →
  (∀ old, stored w KSecret (key KSecret s) = Some old → om_DeletionTimestamp (sec_meta old) = None) →
  createOrUpdateSecret s owner delegate w = ((s', Ok ()), w') →
  values_kept w w' (key KSecret s) ∧ same_except (only KSecret (key KSecret s)) w w'.
Proof.
  intros Hr Ha Hd Hrun.
  apply createOrUpdateSecret_ok in Hrun
    as (base & meta & o1 & w1 & w2 & got & Hb & Hf & Hz & _ & Hgot & [_ Hdata] & Hw); [|done..].
  split; [|done]. intros old k v Ho Hv. exists got. split; [done|]. simpl in Hdata. rewrite Hdata.
  destruct Hb as [[Hn _]|Hb]; [congruence|]. rewrite Ho in Hb. injection Hb as <-.
  pose proof (stored_created _ _ _ _ Ho) as Hc. simpl in Hc. rewrite Hc in Hz.
  apply Ha in Hf as [Hd1 Hd2]; [|exact Hz|exact (stored_StringData _ _ _ Ho)].
  change (gm_make (sec_Data (field_update _ _ _))) with (gm_make (sec_Data old)) in Hd1, Hd2.
  rewrite Hd1. apply lookup_union_Some_raw. right. eauto.
Qed.

Lemma mutate_cookie_adds : adds_values mutate_cookie.
Proof.
  intros s w o w' Hz He Hrun. apply mutate_cookie_data in Hrun as [Hd Hs]. rewrite Hz in Hs.
  split; [done|]. intros j x _. rewrite Hs, He. apply lookup_empty.
Qed.
Lemma mutate_database_adds : adds_values mutate_database.
Proof.
  intros s w o w' Hz He Hrun. apply mutate_database_data in Hrun as (Hd & _ & Hs).
  split; [done|]. intros j x _. rewrite (Hs Hz), He. apply lookup_empty.
Qed.
Lemma mutate_storage_adds : adds_values mutate_storage.
Proof.
  intros s w o w' Hz He Hrun. apply mutate_storage_data in Hrun as [Hd Hs].
  split; [by rewrite Hd|]. intros j x. by apply Hs.
Qed.

(** The three secrets have different names. *)
Lemma suffix_inj name ns s t : nn ns (name +:+ s) = nn ns (name +:+ t) → s = t.
Proof.
  intros [= E]. apply (f_equal bytes) in E. rewrite !bytes_app in E.
  by apply app_inv_head, bytes_inj in E.
Qed.
Definition secret_key cr (suffix : string) : NamespacedName :=
  nn (ci_InstallNamespace cr) (ci_Name cr +:+ suffix).
Lemma Status_Update_identity cr w cr' q w' : Status_Update cr w = ((cr', q), w') →
  ci_Name cr' = ci_Name cr ∧ ci_InstallNamespace cr' = ci_InstallNamespace cr ∧
  ci_TargetNamespaces cr' = ci_TargetNamespaces cr.
Proof. intros ([o err] & w1 & _ & Hrun)%mbindM_inv. by ret_inv Hrun. Qed.
Lemma Status_Update_secrets cr w cr' q w' n : Status_Update cr w = ((cr', q), w') →
  stored w' KSecret n = stored w KSecret n.
Proof.
  intros Hrun. eapply (same_except_out (λ k _, k = KCryostat)); [|done].
  by eapply touches_Status_Update.
Qed.

Lemma reconcileAuthProxyCookieSecret_values cr w w' :
  (∀ old, stored w KSecret (secret_key cr "-oauth2-cookie") = Some old →
     om_DeletionTimestamp (sec_meta old) = None) →
  reconcileAuthProxyCookieSecret cr w = (Ok (), w') →
  ∀ n, values_kept w w' n ∧ (n ≠ secret_key cr "-oauth2-cookie" → stored w' KSecret n = stored w KSecret n).
Proof.
  intros Hd ([s q] & w1 & Hc & Hrun)%mbindM_inv n. ret_inv Hrun.
  apply createOrUpdateSecret_values in Hc as [Hv Hw]; [|by apply touches_reads_only, touches_mutate_cookie|exact mutate_cookie_adds|exact Hd].
  assert (Hn : n ≠ secret_key cr "-oauth2-cookie" → stored w' KSecret n = stored w KSecret n).
  { intros Hn. apply (same_except_out _ _ _ _ _ Hw). by intros [_ ->]. }
  split; [|done]. destruct (decide (n = secret_key cr "-oauth2-cookie")) as [->|Hne]; [exact Hv|].
  by apply values_kept_same, Hn.
Qed.

Lemma reconcileDatabaseConnectionSecret_ok cr w cr' w' :
  (∀ old, stored w KSecret (secret_key cr "-db") = Some old → om_DeletionTimestamp (sec_meta old) = None) →
  reconcileDatabaseConnectionSecret cr w = ((cr', Ok ()), w') →
  (∀ n, values_kept w w' n ∧ (n ≠ secret_key cr "-db" → stored w' KSecret n = stored w KSecret n)) ∧
  ci_Name cr' = ci_Name cr ∧ ci_InstallNamespace cr' = ci_InstallNamespace cr.
Proof.
  intros Hd. unfold reconcileDatabaseConnectionSecret.
  set (mismatch := (0 <? _) && _). destruct mismatch.
  { intros (x & w1 & _ & Hrun)%mbindM_inv. by ret_inv Hrun. }
  intros [(cr1 & [] & w1 & Hc & Hst)|(e & _ & [=])]%cr_try_inv.
  apply cr_call_inv in Hc as [-> Hc].
  pose proof (Status_Update_identity _ _ _ _ _ Hst) as (Hn & Hi & _). split; [|done].
  assert (Hw : ∀ n, values_kept w w1 n ∧ (n ≠ secret_key cr "-db" → stored w1 KSecret n = stored w KSecret n)).
  { intros n. destruct (providedDatabaseSecret cr).
    - ret_inv Hc. split; [by apply values_kept_same|done].
    - apply mbindM_inv in Hc as ([s q] & w2 & Hc & Hrun). ret_inv Hrun.
      apply createOrUpdateSecret_values in Hc as [Hv Hw]; [|by apply touches_reads_only, touches_mutate_database|exact mutate_database_adds|exact Hd].
      assert (Hne : n ≠ secret_key cr "-db" → stored w1 KSecret n = stored w KSecret n).
      { intros Hne. apply (same_except_out _ _ _ _ _ Hw). by intros [_ ->]. }
      split; [|done]. destruct (decide (n = secret_key cr "-db")) as [->|]; [exact Hv|].
      by apply values_kept_same, Hne. }
  intros n. destruct (Hw n) as [Hv Hne]. pose proof (Status_Update_secrets _ _ _ _ _ n Hst) as E.
  unfold values_kept. rewrite E. by split.
Qed.

Lemma reconcileStorageSecret_ok cr w cr' w' :
  (∀ old, stored w KSecret (secret_key cr "-storage") = Some old →
     om_DeletionTimestamp (sec_meta old) = None) →
  reconcileStorageSecret cr w = ((cr', Ok ()), w') →
  ∀ n, values_kept w w' n ∧ (n ≠ secret_key cr "-storage" → stored w' KSecret n = stored w KSecret n).
Proof.
  intros Hd ([s q] & w1 & Hc & Hrun)%mbindM_inv n. destruct q as [[]|e]; [|by ret_inv Hrun].
  apply createOrUpdateSecret_values in Hc as [Hv Hw]; [|by apply touches_reads_only, touches_mutate_storage|exact mutate_storage_adds|exact Hd].
  pose proof (Status_Update_secrets _ _ _ _ _ n Hrun) as E. unfold values_kept. rewrite E.
  assert (Hne : n ≠ secret_key cr "-storage" → stored w1 KSecret n = stored w KSecret n).
  { intros Hne. apply (same_except_out _ _ _ _ _ Hw). by intros [_ ->]. }
  split; [|done]. destruct (decide (n = secret_key cr "-storage")) as [->|]; [exact Hv|].
  by apply values_kept_same, Hne.
Qed.

(** No generated secret is under deletion. *)
Definition secrets_live cr w : Prop := ∀ suffix old, suffix ∈ ["-oauth2-cookie"; "-db"; "-storage"] →
  stored w KSecret (secret_key cr suffix) = Some old → om_DeletionTimestamp (sec_meta old) = None.
(** A step that keeps every value and changes one secret at most. *)
Definition one_secret w w' (changed : NamespacedName) : Prop :=
  ∀ n, values_kept w w' n ∧ (n ≠ changed → stored w' KSecret n = stored w KSecret n).
(** The three steps of a successful pass, each on its own secret. *)
Lemma reconcileSecrets_steps cr w cr' w' :
  secrets_live cr w → reconcileSecrets cr w = ((cr', Ok ()), w') →
  ∃ w1 cr2 w2,
    reconcileAuthProxyCookieSecret cr w = (Ok (), w1) ∧
    reconcileDatabaseConnectionSecret cr w1 = ((cr2, Ok ()), w2) ∧
    reconcileStorageSecret cr2 w2 = ((cr', Ok ()), w') ∧
    (∀ s, secret_key cr2 s = secret_key cr s) ∧
    one_secret w w1 (secret_key cr "-oauth2-cookie") ∧ one_secret w1 w2 (secret_key cr "-db") ∧
    one_secret w2 w' (secret_key cr "-storage") ∧
    stored w1 KSecret (secret_key cr "-db") = stored w KSecret (secret_key cr "-db") ∧
    stored w2 KSecret (secret_key cr "-storage") = stored w KSecret (secret_key cr "-storage").
Proof.
  intros Hd [(cr1 & [] & w1 & H1 & Hrun)|(e & _ & [=])]%cr_try_inv.
  assert (Hd' : ∀ suffix u, suffix ∈ ["-oauth2-cookie"; "-db"; "-storage"] →
    stored u KSecret (secret_key cr suffix) = stored w KSecret (secret_key cr suffix) →
    ∀ old, stored u KSecret (secret_key cr suffix) = Some old → om_DeletionTimestamp (sec_meta old) = None).
  { intros suffix u Hs E old Ho. eapply (Hd suffix); [done|]. rewrite <-Ho. symmetry. exact E. }
  apply cr_call_inv in H1 as [-> H1].
  apply cr_try_inv in Hrun as [(cr2 & [] & w2 & H2 & H3)|(e & _ & [=])].
  pose proof (reconcileAuthProxyCookieSecret_values _ _ _ (Hd' "-oauth2-cookie" _ ltac:(set_solver) eq_refl) H1) as V1.
  assert (E2 : stored w1 KSecret (secret_key cr "-db") = stored w KSecret (secret_key cr "-db")).
  { apply V1. by intros [=]%suffix_inj. }
  pose proof (reconcileDatabaseConnectionSecret_ok _ _ _ _ (Hd' "-db" _ ltac:(set_solver) E2) H2) as (V2 & Hn & Hi).
  assert (Ek : ∀ s, secret_key cr2 s = secret_key cr s) by (intros s; unfold secret_key; by rewrite Hn, Hi).
  assert (E3 : stored w2 KSecret (secret_key cr "-storage") = stored w KSecret (secret_key cr "-storage")).
  { transitivity (stored w1 KSecret (secret_key cr "-storage")); [apply V2 | apply V1]; by intros [=]%suffix_inj. }
  pose proof (Hd' "-storage" _ ltac:(set_solver) E3) as D3. rewrite <-Ek in D3.
  pose proof (reconcileStorageSecret_ok _ _ _ _ D3 H3) as V3. rewrite Ek in V3.
  exists w1, cr2, w2. by split_and!.
Qed.

(** *** The keys a secret has *)
Definition has_keys (s : Secret) (keys : list string) : Prop := ∀ k, k ∈ keys → is_Some (gm_make (sec_Data s) !! k).
Definition holds w (n : NamespacedName) (keys : list string) : Prop :=
  ∃ s, stored w KSecret n = Some s ∧ has_keys s keys.
Lemma holds_has_keys w n keys : holds w n keys → ∀ s, stored w KSecret n = Some s → has_keys s keys.
Proof. intros (s' & Hs' & Hk) s Hs. by simplify_eq. Qed.
(** What is sent has the keys, in either map. *)
Definition sends_keys (s : Secret) (keys : list string) : Prop :=
  ∀ k, k ∈ keys → is_Some ((gm_make (sec_StringData s) ∪ gm_make (sec_Data s)) !! k).
Lemma holds_kept w w' n k keys : values_kept w w' n → holds w n (k :: keys) → holds w' n (k :: keys).
Proof.
  intros Hv (s & Hs & Hk). destruct (Hk k ltac:(left)) as [v Hkv].
  destruct (Hv s k v Hs Hkv) as (got & Hg & _). exists got. split; [done|]. intros k' Hin.
  destruct (Hk k' Hin) as [v' Hkv']. destruct (Hv s k' v' Hs Hkv') as (got' & Hg' & Hgv).
  rewrite Hg in Hg'. injection Hg' as <-. by exists v'.
Qed.
Lemma createOrUpdateSecret_fills s owner delegate keys w s' w' :
  reads_only delegate →
  (∀ old, stored w KSecret (key KSecret s) = Some old → om_DeletionTimestamp (sec_meta old) = None) →
  (∀ base meta u o u', (stored w KSecret (key KSecret s) = None ∧ base = s ∨ stored w KSecret (key KSecret s) = Some base) →
     CreationTimestamp_IsZero meta = CreationTimestamp_IsZero (sec_meta base) →
     delegate (base <| sec_meta := meta |>) u = ((o, Ok ()), u') → sends_keys o keys) →
  createOrUpdateSecret s owner delegate w = ((s', Ok ()), w') → holds w' (key KSecret s) keys.
Proof.
  intros Hr Hd Hs Hrun.
  apply createOrUpdateSecret_ok in Hrun
    as (base & meta & o1 & w1 & w2 & got & Hb & Hf & Hz & _ & Hgot & [_ Hdata] & _); [|done..].
  exists got. split; [done|]. intros k Hk. simpl in Hdata. rewrite Hdata. by eapply Hs.
Qed.
(** A key that is already there, or that the callback writes. *)
Lemma sends_data s keys : has_keys s keys → sends_keys s keys.
Proof. intros Hs k Hk. destruct (Hs k Hk) as [v Hv]. apply lookup_union_is_Some. right. by exists v. Qed.
Lemma generated_sends (delegate : Secret → M W (Secret * res ())) (new : Secret) keys w base meta u o u' :
  (stored w KSecret (key KSecret new) = None ∧ base = new ∨ stored w KSecret (key KSecret new) = Some base) →
  CreationTimestamp_IsZero (sec_meta new) = true →
  (∀ old, stored w KSecret (key KSecret new) = Some old → has_keys old keys) →
  CreationTimestamp_IsZero meta = CreationTimestamp_IsZero (sec_meta base) →
  delegate (base <| sec_meta := meta |>) u = ((o, Ok ()), u') →
  (∀ s v o v', delegate s v = ((o, Ok ()), v') → gm_make (sec_Data o) = gm_make (sec_Data s)) →
  (∀ s v o v', delegate s v = ((o, Ok ()), v') → CreationTimestamp_IsZero (sec_meta s) = true →
     ∀ k, k ∈ keys → is_Some (gm_make (sec_StringData o) !! k)) →
  sends_keys o keys.
Proof.
  intros Hb Hnew Hold Hz Hf Hdata Hfresh. destruct Hb as [[_ ->]|Hb].
  - intros k Hk. apply lookup_union_is_Some. left. eapply Hfresh; [exact Hf| |exact Hk].
    change (CreationTimestamp_IsZero meta = true). by rewrite Hz.
  - apply sends_data. intros k Hk. rewrite (Hdata _ _ _ _ Hf). by apply (Hold base).
Qed.

Definition cookie_keys : list string := ["OAUTH2_PROXY_COOKIE_SECRET"].
Definition database_keys : list string := [DatabaseSecretConnectionKey; DatabaseSecretEncryptionKey].
Definition storage_keys : list string := [storageSecretAccessKey; storageSecretPassKey].
Lemma mutate_cookie_fresh s v o v' : mutate_cookie s v = ((o, Ok ()), v') →
  CreationTimestamp_IsZero (sec_meta s) = true → ∀ k, k ∈ cookie_keys → is_Some (gm_make (sec_StringData o) !! k).
Proof.
  intros Hf Hz k ->%list_elem_of_singleton. apply mutate_cookie_data in Hf as [_ Hf]. rewrite Hz in Hf.
  destruct Hf as (p & _ & ->). rewrite lookup_insert_eq. by eexists.
Qed.
Lemma mutate_database_fresh s v o v' : mutate_database s v = ((o, Ok ()), v') →
  CreationTimestamp_IsZero (sec_meta s) = true → ∀ k, k ∈ database_keys → is_Some (gm_make (sec_StringData o) !! k).
Proof.
  unfold mutate_database. intros Hf Hz k Hk. change (CreationTimestamp_IsZero (sec_meta (make_string_data s)))
    with (CreationTimestamp_IsZero (sec_meta s)) in Hf. rewrite Hz in Hf.
  apply mbindM_inv in Hf as (p & w1 & _ & Hf). apply mbindM_inv in Hf as (p' & w2 & _ & Hf). ret_inv Hf.
  apply elem_of_cons in Hk as [->| ->%list_elem_of_singleton]; simpl.
  - rewrite lookup_insert_ne by done. rewrite lookup_insert_eq. by eexists.
  - rewrite lookup_insert_eq. by eexists.
Qed.
Lemma mutate_storage_sends s v o v' : mutate_storage s v = ((o, Ok ()), v') → sends_keys o storage_keys.
Proof.
  intros (s1 & w1 & F1 & Hrun)%mbindM_inv. apply mbindM_inv in Hrun as (s2 & w2 & F2 & Hrun). ret_inv Hrun.
  apply setDataIfNotPresent_data in F1 as [D1 L1]. apply setDataIfNotPresent_data in F2 as [D2 L2].
  assert (Hp : ∀ k, gm_lookup (sec_Data s) k ≠ None → is_Some (gm_make (sec_Data s) !! k)).
  { intros k Hn. unfold gm_lookup, gm_make in *. destruct (sec_Data s) as [d|]; [|done].
    by apply not_eq_None_Some. }
  intros k Hk. apply lookup_union_is_Some. rewrite L2, L1, D2, D1.
  change (sec_Data (make_string_data s)) with (sec_Data s).
  destruct (gm_lookup (sec_Data s) k) eqn:El; [right; apply Hp; congruence|left].
  apply elem_of_cons in Hk as [->| ->%list_elem_of_singleton].
  - rewrite decide_False by (by intros [[=] _]). rewrite decide_True by done. by eexists.
  - rewrite decide_True by done. by eexists.
Qed.

Lemma cookie_step_holds cr w w' :
  secrets_live cr w →
  (∀ old, stored w KSecret (secret_key cr "-oauth2-cookie") = Some old → has_keys old cookie_keys) →
  reconcileAuthProxyCookieSecret cr w = (Ok (), w') → holds w' (secret_key cr "-oauth2-cookie") cookie_keys.
Proof.
  intros Hd Hold ([s q] & w1 & Hc & Hrun)%mbindM_inv. ret_inv Hrun.
  eapply (createOrUpdateSecret_fills (cookie_secret cr)) in Hc; [exact Hc| | |].
  - by apply touches_reads_only, touches_mutate_cookie.
  - intros old. by apply Hd; left.
  - intros base meta u o u' Hb Hz Hf. eapply (generated_sends mutate_cookie (cookie_secret cr)); try done.
    + intros t v o' v' Ht. by apply mutate_cookie_data in Ht as [? _].
    + apply mutate_cookie_fresh.
Qed.
Lemma database_step_holds cr w cr' w' :
  (∀ old, stored w KSecret (secret_key cr "-db") = Some old → om_DeletionTimestamp (sec_meta old) = None) →
  (∀ old, stored w KSecret (secret_key cr "-db") = Some old → has_keys old database_keys) →
  providedDatabaseSecret cr = None →
  reconcileDatabaseConnectionSecret cr w = ((cr', Ok ()), w') → holds w' (secret_key cr "-db") database_keys.
Proof.
  intros Hd Hold Hp. unfold reconcileDatabaseConnectionSecret. rewrite Hp.
  set (mismatch := (0 <? _) && _). destruct mismatch.
  { intros (x & w1 & _ & Hrun)%mbindM_inv. by ret_inv Hrun. }
  intros [(cr1 & [] & w1 & Hc & Hst)|(e & _ & [=])]%cr_try_inv. apply cr_call_inv in Hc as [-> Hc].
  apply mbindM_inv in Hc as ([s q] & w2 & Hc & Hrun). ret_inv Hrun.
  eapply (createOrUpdateSecret_fills (database_secret cr)) in Hc as (got & Hgot & Hk); [| | |].
  - exists got. split; [|exact Hk]. by rewrite (Status_Update_secrets _ _ _ _ _ _ Hst).
  - by apply touches_reads_only, touches_mutate_database.
  - exact Hd.
  - intros base meta u o u' Hb Hz Hf. eapply (generated_sends mutate_database (database_secret cr)); try done.
    + intros t v o' v' Ht. by apply mutate_database_data in Ht as [? _].
    + apply mutate_database_fresh.
Qed.
Lemma storage_step_holds cr w cr' w' :
  (∀ old, stored w KSecret (secret_key cr "-storage") = Some old → om_DeletionTimestamp (sec_meta old) = None) →
  reconcileStorageSecret cr w = ((cr', Ok ()), w') → holds w' (secret_key cr "-storage") storage_keys.
Proof.
  intros Hd ([s q] & w1 & Hc & Hrun)%mbindM_inv. destruct q as [[]|e]; [|by ret_inv Hrun].
  eapply (createOrUpdateSecret_fills (storage_secret cr)) in Hc as (got & Hgot & Hk); [| | |].
  - exists got. split; [|exact Hk]. by rewrite (Status_Update_secrets _ _ _ _ _ _ Hrun).
  - by apply touches_reads_only, touches_mutate_storage.
  - exact Hd.
  - intros base meta u o u' _ _. apply mutate_storage_sends.
Qed.

(** After a successful pass the generated secrets have their keys, and so has every secret
    that had them. *)
Lemma reconcileSecrets_holds cr w cr' w' :
  secrets_live cr w →
  (∀ old, stored w KSecret (secret_key cr "-oauth2-cookie") = Some old → has_keys old cookie_keys) →
  (providedDatabaseSecret cr = None →
   ∀ old, stored w KSecret (secret_key cr "-db") = Some old → has_keys old database_keys) →
  reconcileSecrets cr w = ((cr', Ok ()), w') →
  holds w' (secret_key cr "-oauth2-cookie") cookie_keys ∧
  (providedDatabaseSecret cr = None → holds w' (secret_key cr "-db") database_keys) ∧
  holds w' (secret_key cr "-storage") storage_keys ∧
  (∀ n k keys, holds w n (k :: keys) → holds w' n (k :: keys)).
Proof.
  intros Hd Hc Hdb Hrun.
  apply reconcileSecrets_steps in Hrun as (w1 & cr2 & w2 & R1 & R2 & R3 & Ek & V1 & V2 & V3 & E2 & E3); [|done].
  assert (K2 : ∀ n k keys, holds w1 n (k :: keys) → holds w' n (k :: keys)).
  { intros n k keys Hh. by eapply holds_kept, holds_kept, Hh; [apply V3|apply V2]. }
  split_and!.
  - apply K2. by eapply cookie_step_holds.
  - intros Hp. eapply holds_kept; [apply V3|]. eapply database_step_holds; [| |exact Hp|exact R2]; intros old; rewrite E2.
    + apply Hd. by right; left.
    + by apply Hdb.
  - rewrite <-Ek. eapply storage_step_holds; [|exact R3]. intros old. rewrite Ek, E3. apply Hd. by right; right; left.
  - intros n k keys Hh. apply K2. eapply holds_kept; [apply V1|exact Hh].
Qed.
End secret_steps.

(** ** Properties *)
Section secret_properties.
Context `{KubeLaws W}.

(** C12. Generated credentials are generated once: a successful pass over the secrets
    keeps every value of every secret in the cluster (missing keys of the storage secret
    may be added), provided none of the three secrets is under deletion. *)
Theorem reconcileSecrets_keeps_values cr w cr' w' :
  (∀ suffix old, suffix ∈ ["-oauth2-cookie"; "-db"; "-storage"] →
     stored w KSecret (nn (ci_InstallNamespace cr) (ci_Name cr +:+ suffix)) = Some old →
     om_DeletionTimestamp (sec_meta old) = None) →
  reconcileSecrets cr w = ((cr', Ok ()), w') →
  ∀ n old k v, stored w KSecret n = Some old → gm_make (sec_Data old) !! k = Some v →
  ∃ got, stored w' KSecret n = Some got ∧ gm_make (sec_Data got) !! k = Some v.
Proof.
  intros Hd Hrun n old k v Ho Hv.
  apply reconcileSecrets_steps in Hrun as (w1 & cr2 & w2 & _ & _ & _ & _ & V1 & V2 & V3 & _); [|exact Hd].
  destruct (proj1 (V1 n) old k v Ho Hv) as (o1 & Ho1 & Hv1).
  destruct (proj1 (V2 n) o1 k v Ho1 Hv1) as (o2 & Ho2 & Hv2).
  exact (proj1 (V3 n) o2 k v Ho2 Hv2).
Qed.

(** C34. A Cryostat never moves to another database secret: when the status names one and
    the spec asks for another, the pass fails with [errDatabaseSecretUpdated] and changes
    nothing; and a pass that succeeds started without a recorded secret or with the one
    the spec asks for, and ends with that one recorded in the CR, in memory and stored. *)
Theorem database_secret_fixed cr w cr' q w' :
  reconcileDatabaseConnectionSecret cr w = ((cr', q), w') →
  let recorded := V2.st_DatabaseSecret (ci_Status cr) in
  let asked := default (ci_Name cr +:+ "-db") (providedDatabaseSecret cr) in
  (recorded ≠ "" → recorded ≠ asked → q = Err errDatabaseSecretUpdated ∧ cr' = cr ∧ same_store w w') ∧
  (q = Ok () → (recorded = "" ∨ recorded = asked) ∧ V2.st_DatabaseSecret (ci_Status cr') = asked ∧
     stored w' KCryostat (key KCryostat (ci_Object cr)) = Some (ci_Object cr')).
Proof.
  intros Hrun recorded asked. unfold reconcileDatabaseConnectionSecret in Hrun.
  change (default (om_Name _) _) with asked in Hrun.
  change (V2.st_DatabaseSecret (ci_Status cr)) with recorded in Hrun.
  rewrite len_nonempty in Hrun.
  destruct (decide (recorded ≠ "" ∧ recorded ≠ asked)) as [[Hne Hna]|Hok].
  - rewrite bool_decide_true, bool_decide_false in Hrun by done. simpl in Hrun.
    apply mbindM_inv in Hrun as (x & w1 & He & Hrun). ret_inv Hrun.
    split; [|by intros [=]]. intros _ _. split; [done|]. split; [done|]. by eapply Event_reads.
  - split; [intros; by destruct Hok|]. intros ->.
    replace (bool_decide (recorded ≠ "") && negb (bool_decide (recorded = asked))) with false in Hrun
      by (repeat case_bool_decide; tauto).
    apply cr_try_inv in Hrun as [(cr1 & [] & w1 & Hc & Hst)|(e & _ & [=])].
    apply cr_call_inv in Hc as [-> _].
    apply mbindM_inv in Hst as ([o err] & w2 & Hu & Hst). ret_inv Hst.
    apply StatusUpdate_Ok in Hu as (Hs & Hst & _).
    split; [destruct (decide (recorded = "")); destruct (decide (recorded = asked)); tauto|].
    split; [|exact Hs]. change (ci_Status _) with (V2.cr_Status o). by rewrite Hst.
Qed.
End secret_properties.

(** ** Witnesses *)
Definition secrets_sample : fake := (reconcileSecrets sample_cr fk_sample).2.
Definition storage_sample : option Secret := stored secrets_sample KSecret (nn "ns" "cryostat-storage").

Lemma reconcileSecrets_keeps_values_witness :
  ∃ got, stored (reconcileSecrets sample_cr secrets_sample).2 KSecret (nn "ns" "cryostat-storage")
           = Some got ∧
         gm_make (sec_Data got) !! "ACCESS_KEY" = Some "cryostat".
Proof.
  destruct storage_sample as [old|] eqn:Ho; [|vm_compute in Ho; discriminate Ho].
  refine (reconcileSecrets_keeps_values sample_cr secrets_sample
    (reconcileSecrets sample_cr secrets_sample).1.1 (reconcileSecrets sample_cr secrets_sample).2
    _ _ (nn "ns" "cryostat-storage") old "ACCESS_KEY" "cryostat" Ho _).
  - intros suffix o Hs Hso. repeat (apply elem_of_cons in Hs as [->|Hs];
      [vm_compute in Hso; injection Hso as <-; reflexivity|]).
    exfalso. clear -Hs. by apply elem_of_nil in Hs.
  - apply run_snd. vm_compute. reflexivity.
  - vm_compute in Ho. injection Ho as <-. vm_compute. reflexivity.
Defined.

Lemma database_secret_fixed_witness :
  (reconcileDatabaseConnectionSecret
     (set_status sample_cr (λ st, st <| V2.st_DatabaseSecret := "other" |>)) fk_sample).1.2
  = Err errDatabaseSecretUpdated.
Proof.
  destruct (database_secret_fixed (set_status sample_cr (λ st, st <| V2.st_DatabaseSecret := "other" |>)) fk_sample
    _ _ _ (run_snd _ _ _ (surjective_pairing _))) as [Hm _].
  apply Hm; vm_compute; discriminate.
Defined.
