(* ===== verification/Resources.v ===== *)
(** * Resource definitions

    [internal/controller/common/resource_definitions]: the configuration structs, the pod
    labels, what the deployments have in common, the names of the secrets, and the
    certificates and issuers ([certificates.go]).  Containers.v and Pods.v build the pods and
    the deployments. *)

From S2P Require Export Common Url.
Open Scope Z_scope.

Record ImageTags := {
  it_OAuth2ProxyImageTag : string; it_OpenShiftOAuthProxyImageTag : string;
  it_CoreImageTag : string; it_DatasourceImageTag : string; it_GrafanaImageTag : string;
  it_ReportsImageTag : string; it_StorageImageTag : string; it_DatabaseImageTag : string;
  it_AgentProxyImageTag : string }.

Record ServiceSpecs := {
  sps_AuthProxyURL : option URL; sps_CoreURL : option URL; sps_ReportsURL : option URL;
  sps_InsightsURL : option string; sps_StorageURL : option URL; sps_DatabaseURL : option URL }.

Definition zero_ServiceSpecs : ServiceSpecs := {|
  sps_AuthProxyURL := None; sps_CoreURL := None; sps_ReportsURL := None; sps_InsightsURL := None;
  sps_StorageURL := None; sps_DatabaseURL := None |}.

Record TLSConfig := {
  tls_CryostatSecret : string; tls_ReportsSecret : string; tls_DatabaseSecret : string;
  tls_StorageSecret : string; tls_AgentProxySecret : string; tls_KeystorePassSecret : string;
  tls_CACert : option string }.

Definition OAuth2ConfigFileName : string := "alpha_config.json".
Definition OAuth2ConfigFilePath : string := "/etc/oauth2_proxy/alpha_config".
Definition DatabaseName : string := "cryostat".
Definition SecretMountPrefix : string := "/var/run/secrets/operator.cryostat.io".

(** ** Pod labels *)
Definition component_labels (cr : CryostatInstance) (component : string) : gmap string string :=
  gm_of_list [("app", ci_Name cr); ("kind", "cryostat"); ("component", component)].
Definition CorePodLabels (cr : CryostatInstance) : gomap string := Some (component_labels cr "cryostat").
Definition DatabasePodLabels (cr : CryostatInstance) : gomap string := Some (component_labels cr "database").
Definition StoragePodLabels (cr : CryostatInstance) : gomap string := Some (component_labels cr "storage").
Definition ReportsPodLabels (cr : CryostatInstance) : gomap string := Some (component_labels cr "reports").

Definition DeployManagedStorage (cr : CryostatInstance) : bool :=
  match V2.spec_ObjectStorageOptions (ci_Spec cr) with
  | None => true
  | Some o =>
      match V2.oso_Provider o with
      | None => true
      | Some p => bool_decide (V2.osp_URL p = None)
      end
  end.

(** ** Deployments *)
Definition createMapCopy (in_ : gomap string) : gomap string := Some (gm_make in_).
Definition createMetadataCopy (in_ : option V2.ResourceMetadata) : V2.ResourceMetadata :=
  match in_ with
  | None => V2.zero_ResourceMetadata
  | Some m => {| V2.md_Labels := createMapCopy (V2.md_Labels m);
                 V2.md_Annotations := createMapCopy (V2.md_Annotations m) |}
  end.

(** The user's metadata for the deployment and for its pods. *)
Definition operand_DeploymentMetadata (cr : CryostatInstance) : V2.ResourceMetadata :=
  match V2.spec_OperandMetadata (ci_Spec cr) with
  | Some m => createMetadataCopy (V2.opm_DeploymentMetadata m)
  | None => V2.zero_ResourceMetadata
  end.
Definition operand_PodMetadata (cr : CryostatInstance) : V2.ResourceMetadata :=
  match V2.spec_OperandMetadata (ci_Spec cr) with
  | Some m => createMetadataCopy (V2.opm_PodMetadata m)
  | None => V2.zero_ResourceMetadata
  end.

(** An [ObjectMeta] literal with the user's labels and annotations. *)
Definition meta_with (name namespace : string) (md : V2.ResourceMetadata) : ObjectMeta :=
  (NewObjectMeta name namespace) <| om_Labels := V2.md_Labels md |>
                                 <| om_Annotations := V2.md_Annotations md |>.

(** What the four constructors share: metadata in which the defaults override the user's,
    and the selector. *)
Definition deployment_around (cr : CryostatInstance) (name component appName connectsTo : string)
    (podLabels : gomap string) (pod : PodSpec) (replicas : Z) (strategy : string) : Deployment :=
  let defaultDeploymentLabels := gm_of_list
    [("app", ci_Name cr); ("kind", "cryostat"); ("component", component);
     ("app.kubernetes.io/name", appName)] in
  let defaultDeploymentAnnotations := gm_of_list [("app.openshift.io/connects-to", connectsTo)] in
  let deploymentMeta :=
    MergeLabelsAndAnnotations (meta_with name (ci_InstallNamespace cr) (operand_DeploymentMetadata cr))
      (Some defaultDeploymentLabels) (Some defaultDeploymentAnnotations) in
  let podTemplateMeta :=
    MergeLabelsAndAnnotations (meta_with name (ci_InstallNamespace cr) (operand_PodMetadata cr))
      podLabels None in
  {| dep_meta := deploymentMeta;
     dep_Spec := {|
       ds_Selector := Some (MatchLabelsSelector (component_labels cr component));
       ds_Template := {| pts_meta := podTemplateMeta; pts_Spec := pod |};
       ds_Replicas := Some replicas; ds_Strategy := strategy; ds_rest := [] |};
     dep_Conditions := [] |}.

(** ** Secrets and authentication *)
Definition isBasicAuthEnabled (cr : CryostatInstance) : bool :=
  match V2.spec_AuthorizationOptions (ci_Spec cr) ≫= V2.auo_BasicAuth with
  | Some f => bool_decide (V2.sfi_SecretName f ≠ None) && bool_decide (V2.sfi_Filename f ≠ None)
  | None => false
  end.
Definition getDatabaseSecret (cr : CryostatInstance) : string :=
  default (ci_Name cr +:+ "-db") (V2.spec_DatabaseOptions (ci_Spec cr) ≫= V2.dbo_SecretName).
Definition getStorageSecret (cr : CryostatInstance) : string :=
  default (ci_Name cr +:+ "-storage") (V2.spec_ObjectStorageOptions (ci_Spec cr) ≫= V2.oso_SecretName).

(** ** Certificates and issuers *)
Section certificates.
Context `{Kube W}.
Implicit Types (kind : string) (cr : CryostatInstance).

Definition UsageServerAuth : string := "server auth".
Definition UsageClientAuth : string := "client auth".
Definition Modern2023PKCS12Profile : string := "Modern2023".

Definition dns_names (svc ns : string) : list string :=
  [svc; svc +:+ "." +:+ ns +:+ ".svc"; svc +:+ "." +:+ ns +:+ ".svc.cluster.local"].
(** A certificate with neither keystores nor usages, issued by [issuer]. *)
Definition plain_certificate (name namespace commonName secretName issuer : string) : Certificate := {|
  cert_meta := NewObjectMeta name namespace;
  cert_Spec := {| cs_CommonName := commonName; cs_DNSNames := []; cs_SecretName := secretName;
                  cs_Keystores := None; cs_IssuerRef := issuer; cs_IsCA := false;
                  cs_Usages := []; cs_rest := [] |};
  cert_Conditions := [] |}.
Definition certificate_for (name namespace commonName secretName issuer : string)
    (dnsNames usages : list string) : Certificate :=
  (plain_certificate name namespace commonName secretName issuer)
    <| cert_Spec ::= λ s, s <| cs_DNSNames := dnsNames |> <| cs_Usages := usages |> |>.

Definition NewSelfSignedIssuer cr : Issuer := {|
  issu_meta := NewObjectMeta (ci_Name cr +:+ "-self-signed") (ci_InstallNamespace cr);
  issu_Spec := {| iss_SelfSigned := true; iss_CA := None |} |}.
Definition NewCryostatCACert kind cr : Certificate :=
  (plain_certificate (ci_Name cr +:+ "-ca") (ci_InstallNamespace cr) CryostatCATLSCommonName
     (ClusterUniqueNameWithPrefix kind "ca" (ci_Name cr) (ci_InstallNamespace cr))
     (ci_Name cr +:+ "-self-signed"))
    <| cert_Spec ::= λ s, s <| cs_IsCA := true |> |>.
Definition NewCryostatCAIssuer kind cr : Issuer := {|
  issu_meta := NewObjectMeta (ci_Name cr +:+ "-ca") (ci_InstallNamespace cr);
  issu_Spec := {| iss_SelfSigned := false;
                  iss_CA := Some (cs_SecretName (cert_Spec (NewCryostatCACert kind cr))) |} |}.
Definition NewCryostatCert cr (keystoreSecretName : string) : Certificate :=
  (certificate_for (ci_Name cr) (ci_InstallNamespace cr) CryostatTLSCommonName (ci_Name cr +:+ "-tls")
     (ci_Name cr +:+ "-ca") (dns_names (ci_Name cr) (ci_InstallNamespace cr))
     (certv1_DefaultKeyUsages ++ [UsageServerAuth; UsageClientAuth]))
    <| cert_Spec ::= λ s, s <| cs_Keystores := Some {| cks_PKCS12 := Some {|
         pk_Create := true; pk_PasswordSecretName := keystoreSecretName;
         pk_PasswordSecretKey := KeystorePassSecretKey; pk_Profile := Modern2023PKCS12Profile |} |} |> |>.
Definition NewReportsCert cr : Certificate :=
  certificate_for (ci_Name cr +:+ "-reports") (ci_InstallNamespace cr) ReportsTLSCommonName
    (ci_Name cr +:+ "-reports-tls") (ci_Name cr +:+ "-ca")
    (dns_names (ci_Name cr +:+ "-reports") (ci_InstallNamespace cr))
    (certv1_DefaultKeyUsages ++ [UsageServerAuth]).
Definition NewDatabaseCert cr : Certificate :=
  certificate_for (ci_Name cr +:+ "-database") (ci_InstallNamespace cr) DatabaseTLSCommonName
    (ci_Name cr +:+ "-database-tls") (ci_Name cr +:+ "-ca")
    (dns_names (ci_Name cr +:+ "-database") (ci_InstallNamespace cr))
    (certv1_DefaultKeyUsages ++ [UsageServerAuth]).
Definition NewStorageCert cr : Certificate :=
  certificate_for (ci_Name cr +:+ "-storage") (ci_InstallNamespace cr) StorageTLSCommonName
    (ci_Name cr +:+ "-storage-tls") (ci_Name cr +:+ "-ca")
    (dns_names (ci_Name cr +:+ "-storage") (ci_InstallNamespace cr))
    (certv1_DefaultKeyUsages ++ [UsageServerAuth; UsageClientAuth]).
Definition NewAgentCert cr (namespace : string) kind : Certificate :=
  let svcName := AgentCallbackServiceName kind cr in
  let name := AgentCertificateName kind cr namespace in
  certificate_for name (ci_InstallNamespace cr) AgentsTLSCommonName name (ci_Name cr +:+ "-ca")
    ["*." +:+ svcName +:+ "." +:+ namespace +:+ ".svc"]
    (certv1_DefaultKeyUsages ++ [UsageServerAuth; UsageClientAuth]).
Definition NewAgentProxyCert cr : Certificate :=
  let svcName := AgentGatewayServiceName cr in
  certificate_for (ci_Name cr +:+ "-agent-proxy") (ci_InstallNamespace cr) AgentAuthProxyTLSCommonName
    (ci_Name cr +:+ "-agent-tls") (ci_Name cr +:+ "-ca") (dns_names svcName (ci_InstallNamespace cr))
    (certv1_DefaultKeyUsages ++ [UsageServerAuth]).
End certificates.

(** ** Lemmas *)
Lemma merge_map_src dest src k v : gm_lookup src k = Some v → gm_lookup (merge_map dest src) k = Some v.
Proof.
  unfold gm_lookup, merge_map. destruct src as [s|]; simpl; [|done]. intros Hs. by apply lookup_union_Some_l.
Qed.
Lemma merge_map_dest dest src k :
  gm_lookup src k = None → gm_lookup (merge_map dest src) k = gm_lookup dest k.
Proof.
  unfold gm_lookup, merge_map. intros Hs.
  assert (Hn : gm_make src !! k = None) by (destruct src; [done|apply lookup_empty]).
  simpl. rewrite lookup_union_r by done. destruct dest; [done|apply lookup_empty].
Qed.

(** The selector of a deployment. *)
Definition selected (d : Deployment) : Prop :=
  ∀ k v, gm_lookup (ds_Selector (dep_Spec d) ≫= ls_MatchLabels) k = Some v →
  gm_lookup (om_Labels (pts_meta (ds_Template (dep_Spec d)))) k = Some v.
Definition selected_component (d : Deployment) : option string :=
  gm_lookup (ds_Selector (dep_Spec d) ≫= ls_MatchLabels) "component".
Lemma deployment_around_component cr name component appName connectsTo labels pod replicas strategy :
  selected_component (deployment_around cr name component appName connectsTo labels pod replicas strategy)
  = Some component.
Proof. reflexivity. Qed.
Lemma deployment_around_selected cr name component appName connectsTo pod replicas strategy :
  selected (deployment_around cr name component appName connectsTo
              (Some (component_labels cr component)) pod replicas strategy).
Proof. intros k v Hs. by apply (merge_map_src (om_Labels _)). Qed.
