(* ===== verification/Containers.v ===== *)
(** * Containers

    The containers of [resource_definitions.go]: the authentication proxies, Cryostat itself
    with its environment, Grafana, the JFR datasource, the storage, the database and the
    agents' proxy, with their resources, mounts and probes. *)

From S2P Require Export Resources Json.
From Stdlib Require Import Ascii.
Open Scope Z_scope.

(** ** Default resources *)
Definition defaultAuthProxyCpuRequest : string := "100m".
Definition defaultAuthProxyMemoryRequest : string := "64Mi".
Definition defaultAuthProxyCpuLimit : string := "1000m".
Definition defaultAuthProxyMemoryLimit : string := "256Mi".
Definition defaultCoreCpuRequest : string := "1250m".
Definition defaultCoreMemoryRequest : string := "512Mi".
Definition defaultCoreCpuLimit : string := "2000m".
Definition defaultCoreMemoryLimit : string := "1Gi".
Definition defaultJfrDatasourceCpuRequest : string := "200m".
Definition defaultJfrDatasourceMemoryRequest : string := "200Mi".
Definition defaultJfrDatasourceCpuLimit : string := "500m".
Definition defaultJfrDatasourceMemoryLimit : string := "500Mi".
Definition defaultGrafanaCpuRequest : string := "100m".
Definition defaultGrafanaMemoryRequest : string := "192Mi".
Definition defaultGrafanaCpuLimit : string := "1000m".
Definition defaultGrafanaMemoryLimit : string := "384Mi".
Definition defaultDatabaseCpuRequest : string := "50m".
Definition defaultDatabaseMemoryRequest : string := "64Mi".
Definition defaultDatabaseCpuLimit : string := "500m".
Definition defaultDatabaseMemoryLimit : string := "200Mi".
Definition defaultStorageCpuRequest : string := "500m".
Definition defaultStorageMemoryRequest : string := "384Mi".
Definition defaultStorageCpuLimit : string := "1000m".
Definition defaultStorageMemoryLimit : string := "1Gi".
Definition defaultReportCpuRequest : string := "2000m".
Definition defaultReportMemoryRequest : string := "512Mi".
Definition defaultReportCpuLimit : string := "4000m".
Definition defaultReportMemoryLimit : string := "2Gi".
Definition defaultAgentProxyCpuRequest : string := "50m".
Definition defaultAgentProxyMemoryRequest : string := "64Mi".
Definition defaultAgentProxyCpuLimit : string := "500m".
Definition defaultAgentProxyMemoryLimit : string := "200Mi".

Definition configPath : string := "/opt/cryostat.d/conf.d".
Definition templatesPath : string := "/opt/cryostat.d/templates.d".
Definition rulesPath : string := "/opt/cryostat.d/rules.d".
Definition probeTemplatesPath : string := "/opt/cryostat.d/probes.d".
Definition credentialsPath : string := "/opt/cryostat.d/credentials.d".
Definition defaultTargetCacheSize : string := "-1".
Definition defaultTargetCacheTTL : string := "10".
Definition defaultK8SDiscoveryEnabled : bool := true.
Definition defaultK8SDiscoveryPortNames : string := "jfr-jmx".
Definition defaultK8SDiscoveryPortNumbers : string := "9091".
Definition datasourceURL : string := "http://" +:+ LoopbackAddress +:+ ":" +:+ strconv.Itoa DatasourceContainerPort.
Definition getInternalDashboardURL : string := "http://localhost:" +:+ strconv.Itoa GrafanaContainerPort.

(** ** Literals *)
Definition URISchemeHTTP : string := "HTTP".
Definition URISchemeHTTPS : string := "HTTPS".
(** The octal mode 0440. *)
Definition readOnlyMode : Z := 4 * 64 + 4 * 8.
(** [corev1.VolumeMount{Name: name, MountPath: p, ReadOnly: true}] *)
Definition ro_mount (name p : string) : VolumeMount :=
  {| vm_Name := name; vm_MountPath := p; vm_SubPath := ""; vm_ReadOnly := true |}.
Definition container_port (p : Z) : ContainerPort := {| cp_Name := ""; cp_ContainerPort := p; cp_Protocol := "" |}.
Definition http_get (p : string) (port : Z) (scheme : string) : ProbeHandler :=
  {| ph_Exec := None; ph_HTTPGet := Some {| hg_Path := p; hg_Port := IntVal port; hg_Scheme := scheme |} |}.
Definition exec_action (command : list string) : ProbeHandler := {| ph_Exec := Some command; ph_HTTPGet := None |}.
Definition probe (h : ProbeHandler) : Probe := {| pr_Handler := h; pr_FailureThreshold := 0; pr_rest := [] |}.
Definition secret_key_ref (env secretName key : string) : EnvVar :=
  EnvFromSecretKey env {| ks_Name := secretName; ks_Key := key; ks_Optional := Some false |}.

(** The user's security context for a container, or the restricted default. *)
Definition restricted_SecurityContext : SecurityContext := {|
  sc_AllowPrivilegeEscalation := Some false; sc_RunAsNonRoot := None; sc_Drop := Some [CapabilityAll]; sc_rest := [] |}.
Definition container_SecurityContext (field : V2.SecurityOptions → option SecurityContext) (cr : CryostatInstance)
  : option SecurityContext :=
  Some (default restricted_SecurityContext (V2.spec_SecurityOptions (ci_Spec cr) ≫= field)).

(** The secret and the file of basic authentication. *)
Definition basicAuth (cr : CryostatInstance) : option V2.SecretFile :=
  V2.spec_AuthorizationOptions (ci_Spec cr) ≫= V2.auo_BasicAuth.
Definition basicAuth_SecretName (cr : CryostatInstance) : string := default "" (basicAuth cr ≫= V2.sfi_SecretName).
Definition basicAuth_Filename (cr : CryostatInstance) : string := default "" (basicAuth cr ≫= V2.sfi_Filename).

Definition eventTemplates (cr : CryostatInstance) : list V2.TemplateConfigMap :=
  default [] (V2.spec_EventTemplates (ci_Spec cr)).

(** [if tls != nil { ... }] around something to append. *)
Definition with_tls {A} (tls : option TLSConfig) (f : TLSConfig → list A) : list A :=
  match tls with Some t => f t | None => [] end.
Definition probeScheme (tls : option TLSConfig) : string :=
  match tls with Some _ => URISchemeHTTPS | None => URISchemeHTTP end.

(** ** The JSON of an access review *)
Definition json_requirement (r : LabelSelectorRequirement) : json.value :=
  json.Obj ([("key", json.Str (lsr_Key r)); ("operator", json.Str (lsr_Operator r))] ++
            json.arr_field "values" (map json.Str (lsr_Values r))).
Definition json_selector (name : string) (s : option SelectorAttributes) : list (string * json.value) :=
  match s with
  | Some s => [(name, json.Obj (json.str_field "rawSelector" (sa_RawSelector s) ++
                                json.arr_field "requirements" (map json_requirement (sa_Requirements s))))]
  | None => []
  end.
Definition json_ResourceAttributes (a : ResourceAttributes) : json.value :=
  json.Obj (json.str_field "namespace" (ra_Namespace a) ++ json.str_field "verb" (ra_Verb a) ++
            json.str_field "group" (ra_Group a) ++ json.str_field "version" (ra_Version a) ++
            json.str_field "resource" (ra_Resource a) ++ json.str_field "subresource" (ra_Subresource a) ++
            json.str_field "name" (ra_Name a) ++ json_selector "fieldSelector" (ra_FieldSelector a) ++
            json_selector "labelSelector" (ra_LabelSelector a)).

Section containers.
Context `{QuantityOps}.
Implicit Types (cr : CryostatInstance) (specs : ServiceSpecs) (tls : option TLSConfig) (imageTag : string).

(** ** Resources *)
Definition user_resources (field : V2.ResourceConfigList → ResourceRequirements) cr : ResourceRequirements :=
  match V2.spec_Resources (ci_Spec cr) with Some l => field l | None => zero_ResourceRequirements end.
Definition NewReportContainerResource cr : ResourceRequirements :=
  PopulateResourceRequest
    (match V2.spec_ReportOptions (ci_Spec cr) with Some o => V2.rpc_Resources o | None => zero_ResourceRequirements end)
    defaultReportCpuRequest defaultReportMemoryRequest defaultReportCpuLimit defaultReportMemoryLimit.
Definition NewAuthProxyContainerResource cr : ResourceRequirements :=
  PopulateResourceRequest (user_resources V2.rcl_AuthProxyResources cr)
    defaultAuthProxyCpuRequest defaultAuthProxyMemoryRequest defaultAuthProxyCpuLimit defaultAuthProxyMemoryLimit.
Definition NewCoreContainerResource cr : ResourceRequirements :=
  PopulateResourceRequest (user_resources V2.rcl_CoreResources cr)
    defaultCoreCpuRequest defaultCoreMemoryRequest defaultCoreCpuLimit defaultCoreMemoryLimit.
Definition NewGrafanaContainerResource cr : ResourceRequirements :=
  PopulateResourceRequest (user_resources V2.rcl_GrafanaResources cr)
    defaultGrafanaCpuRequest defaultGrafanaMemoryRequest defaultGrafanaCpuLimit defaultGrafanaMemoryLimit.
Definition NewStorageContainerResource cr : ResourceRequirements :=
  PopulateResourceRequest (user_resources V2.rcl_ObjectStorageResources cr)
    defaultStorageCpuRequest defaultStorageMemoryRequest defaultStorageCpuLimit defaultStorageMemoryLimit.
Definition NewDatabaseContainerResource cr : ResourceRequirements :=
  PopulateResourceRequest (user_resources V2.rcl_DatabaseResources cr)
    defaultDatabaseCpuRequest defaultDatabaseMemoryRequest defaultDatabaseCpuLimit defaultDatabaseMemoryLimit.
Definition NewJfrDatasourceContainerResource cr : ResourceRequirements :=
  PopulateResourceRequest (user_resources V2.rcl_DataSourceResources cr)
    defaultJfrDatasourceCpuRequest defaultJfrDatasourceMemoryRequest
    defaultJfrDatasourceCpuLimit defaultJfrDatasourceMemoryLimit.
Definition newAgentProxyContainerResource cr : ResourceRequirements :=
  PopulateResourceRequest (user_resources V2.rcl_AgentProxyResources cr)
    defaultAgentProxyCpuRequest defaultAgentProxyMemoryRequest defaultAgentProxyCpuLimit defaultAgentProxyMemoryLimit.

(** ** The authentication proxy *)
Definition openShiftSSO cr : option V2.OpenShiftSSOConfig :=
  V2.spec_AuthorizationOptions (ci_Spec cr) ≫= V2.auo_OpenShiftSSO.
Definition isOpenShiftAuthProxyDisabled cr : bool := default false (openShiftSSO cr ≫= V2.sso_Disable).
Definition getDefaultOpenShiftAccessRole cr : ResourceAttributes := {|
  ra_Namespace := ci_InstallNamespace cr; ra_Verb := "create"; ra_Group := ""; ra_Version := "";
  ra_Resource := "pods"; ra_Subresource := "exec"; ra_Name := "";
  ra_FieldSelector := None; ra_LabelSelector := None |}.
Definition getOpenShiftAccessReview cr : ResourceAttributes :=
  default (getDefaultOpenShiftAccessRole cr) (openShiftSSO cr ≫= V2.sso_AccessReview).

(** The mount of the password file. *)
Definition htpasswd_mount cr : list VolumeMount :=
  if isBasicAuthEnabled cr then [ro_mount (ci_Name cr +:+ "-auth-proxy-htpasswd") SecretMountPrefix] else [].
Definition auth_proxy_tls_mount tls : list VolumeMount :=
  with_tls tls (λ t, [ro_mount "auth-proxy-tls-secret" (path.Join [SecretMountPrefix; tls_CryostatSecret t])]).

Definition openshift_proxy_args cr tls : list string :=
  ["--pass-access-token=false"; "--pass-user-bearer-token=false"; "--pass-basic-auth=false";
   "--upstream=http://localhost:" +:+ strconv.Itoa CryostatHTTPContainerPort +:+ "/";
   "--upstream=http://localhost:" +:+ strconv.Itoa GrafanaContainerPort +:+ "/grafana/";
   "--openshift-service-account=" +:+ ci_Name cr; "--proxy-websockets=true"; "--proxy-prefix=/oauth2"] ++
  [if isOpenShiftAuthProxyDisabled cr then "--bypass-auth-for=.*" else "--bypass-auth-for=^/health(/liveness)?$"] ++
  ["--openshift-sar=" +:+ json.Marshal (json.Arr [json_ResourceAttributes (getOpenShiftAccessReview cr)])] ++
  ["--openshift-delegate-urls=" +:+
     json.Marshal (json.Obj [("/", json_ResourceAttributes (getOpenShiftAccessReview cr))])] ++
  (if isBasicAuthEnabled cr
   then ["--htpasswd-file=" +:+ path.Join [SecretMountPrefix; basicAuth_Filename cr]] else []) ++
  ["--skip-provider-button=" +:+ strconv.FormatBool (negb (isBasicAuthEnabled cr))] ++
  match tls with
  | Some t =>
      ["--http-address="; "--https-address=0.0.0.0:" +:+ strconv.Itoa AuthProxyHttpContainerPort;
       "--tls-cert=" +:+ path.Join [SecretMountPrefix; tls_CryostatSecret t; TLSCertKey];
       "--tls-key=" +:+ path.Join [SecretMountPrefix; tls_CryostatSecret t; TLSPrivateKeyKey]]
  | None => ["--http-address=0.0.0.0:" +:+ strconv.Itoa AuthProxyHttpContainerPort; "--https-address="]
  end.
Definition NewOpenShiftAuthProxyContainer cr specs imageTag tls : res Container :=
  Ok ((NewContainer (ci_Name cr +:+ "-auth-proxy") imageTag (GetPullPolicy imageTag))
    <| ct_VolumeMounts := htpasswd_mount cr ++ auth_proxy_tls_mount tls |>
    <| ct_Ports := [container_port AuthProxyHttpContainerPort] |>
    <| ct_EnvFrom := [{| ef_SecretRef := Some (ci_Name cr +:+ "-oauth2-cookie", Some false); ef_ConfigMapRef := None |}] |>
    <| ct_Resources := NewAuthProxyContainerResource cr |>
    <| ct_LivenessProbe := Some (probe (http_get "/oauth2/healthz" AuthProxyHttpContainerPort (probeScheme tls))) |>
    <| ct_SecurityContext := container_SecurityContext V2.seo_AuthProxySecurityContext cr |>
    <| ct_Args := openshift_proxy_args cr tls |>).

Definition oauth2_proxy_env cr : list EnvVar :=
  [Env "OAUTH2_PROXY_REDIRECT_URL" ("http://localhost:" +:+ strconv.Itoa AuthProxyHttpContainerPort +:+ "/oauth2/callback");
   Env "OAUTH2_PROXY_EMAIL_DOMAINS" "*"] ++
  if isBasicAuthEnabled cr then
    [Env "OAUTH2_PROXY_HTPASSWD_FILE" (path.Join [SecretMountPrefix; basicAuth_Filename cr]);
     Env "OAUTH2_PROXY_HTPASSWD_USER_GROUP" "write";
     Env "OAUTH2_PROXY_SKIP_AUTH_ROUTES" "^/health(/liveness)?$"]
  else [Env "OAUTH2_PROXY_SKIP_AUTH_ROUTES" ".*"].
Definition NewOAuth2ProxyContainer cr specs imageTag tls : res Container :=
  Ok ((NewContainer (ci_Name cr +:+ "-auth-proxy") imageTag (GetPullPolicy imageTag))
    <| ct_VolumeMounts := [ro_mount (ci_Name cr +:+ "-oauth2-proxy-cfg") OAuth2ConfigFilePath] ++
                          auth_proxy_tls_mount tls ++ htpasswd_mount cr |>
    <| ct_Ports := [container_port AuthProxyHttpContainerPort] |>
    <| ct_Env := oauth2_proxy_env cr |>
    <| ct_EnvFrom := [{| ef_SecretRef := Some (ci_Name cr +:+ "-oauth2-cookie", Some false); ef_ConfigMapRef := None |}] |>
    <| ct_Resources := NewAuthProxyContainerResource cr |>
    <| ct_LivenessProbe := Some (probe (http_get "/ping" AuthProxyHttpContainerPort (probeScheme tls))) |>
    <| ct_SecurityContext := container_SecurityContext V2.seo_AuthProxySecurityContext cr |>
    <| ct_Args := ["--alpha-config=" +:+ path.Join [OAuth2ConfigFilePath; OAuth2ConfigFileName]] |>).

Definition NewAuthProxyContainer cr specs (oauth2ProxyImageTag openshiftAuthProxyImageTag : string) tls
    (openshift : bool) : res Container :=
  if openshift then NewOpenShiftAuthProxyContainer cr specs openshiftAuthProxyImageTag tls
  else NewOAuth2ProxyContainer cr specs oauth2ProxyImageTag tls.

(** ** Cryostat *)
Definition newDatabaseEnvForCoreContainer cr tls : list EnvVar :=
  let secretName := getDatabaseSecret cr in
  let jdbc := "jdbc:postgresql://" +:+ ci_Name cr +:+ "-database." +:+ ci_InstallNamespace cr +:+
              ".svc.cluster.local:5432/cryostat" in
  [secret_key_ref "QUARKUS_DATASOURCE_PASSWORD" secretName DatabaseSecretConnectionKey] ++
  match tls with
  | Some t =>
      let tlsPath := path.Join [SecretMountPrefix; tls_DatabaseSecret t] in
      [Env "QUARKUS_DATASOURCE_JDBC_URL"
         (jdbc +:+ "?ssl=true&sslmode=verify-full&sslcert=&sslrootcert=" +:+ tlsPath +:+ "/" +:+ CAKey)]
  | None => [Env "QUARKUS_DATASOURCE_JDBC_URL" jdbc]
  end.

(** [if p != nil { envs = append(envs, EnvVar{name, *p}) }] *)
Definition env_of_pointer (name : string) (p : option string) : list EnvVar :=
  match p with Some v => [Env name v] | None => [] end.

Definition bucket_env (o : V2.StorageBucketNameOptions) : list EnvVar :=
  env_of_pointer "STORAGE_BUCKETS_ARCHIVES_NAME" (V2.sbn_ArchivedRecordings o) ++
  env_of_pointer "CRYOSTAT_SERVICES_REPORTS_STORAGE_CACHE_NAME" (V2.sbn_ArchivedReports o) ++
  env_of_pointer "STORAGE_BUCKETS_EVENT_TEMPLATES_NAME" (V2.sbn_EventTemplates o) ++
  env_of_pointer "STORAGE_BUCKETS_PROBE_TEMPLATES_NAME" (V2.sbn_JMCAgentProbeTemplates o) ++
  env_of_pointer "STORAGE_BUCKETS_HEAP_DUMPS_NAME" (V2.sbn_HeapDumps o) ++
  env_of_pointer "STORAGE_BUCKETS_THREAD_DUMPS_NAME" (V2.sbn_ThreadDumps o) ++
  env_of_pointer "STORAGE_BUCKETS_METADATA_NAME" (V2.sbn_Metadata o).

(** The environment for an external provider. *)
Definition provider_env (o : V2.ObjectStorageOptions) (p : V2.ObjectStorageProviderOptions) : res (list EnvVar) :=
  match V2.osp_URL p with
  | None => Err (Errorf
      "cr.Spec.ObjectStorageOptions was not nil, but cr.Spec.ObjectStorageOptions.Provider.URL was nil" [])
  | Some URL =>
      match V2.osp_Region p with
      | None => Err (Errorf
          "cr.Spec.ObjectStorageOptions was not nil, but cr.Spec.ObjectStorageOptions.Provider.Region was nil" [])
      | Some Region => Ok (
          [Env "QUARKUS_S3_ENDPOINT_OVERRIDE" URL; Env "QUARKUS_S3_AWS_REGION" Region;
           Env "QUARKUS_S3_PATH_STYLE_ACCESS"
             (strconv.FormatBool (negb (default false (V2.osp_UseVirtualHostAccess p))));
           Env "STORAGE_PRESIGNED_TRANSFERS_ENABLED"
             (strconv.FormatBool (negb (default false (V2.osp_DisablePresignedFileTransfers p))))] ++
          env_of_pointer "STORAGE_PRESIGNED_DOWNLOADS_ENABLED"
            ((λ b, strconv.FormatBool (negb b)) <?> V2.osp_DisablePresignedDownloads p) ++
          [Env "STORAGE_METADATA_STORAGE_MODE" (default "tagging" (V2.osp_MetadataMode p))] ++
          (match V2.oso_StorageBucketNameOptions o with Some b => bucket_env b | None => [] end) ++
          (if default false (V2.osp_TLSTrustAll p)
           then [Env "QUARKUS_S3_SYNC_CLIENT_TLS_TRUST_MANAGERS_PROVIDER_TYPE" "trust-all"] else []))
      end
  end.
Definition managed_storage_env specs : res (list EnvVar) :=
  match sps_StorageURL specs with
  | None => Err (Panic "nil pointer dereference")
  | Some StorageURL => Ok
      [Env "QUARKUS_S3_ENDPOINT_OVERRIDE" (url.String StorageURL); Env "QUARKUS_S3_PATH_STYLE_ACCESS" "true";
       Env "QUARKUS_S3_AWS_REGION" "us-east-1"; Env "STORAGE_PRESIGNED_TRANSFERS_ENABLED" "true";
       Env "STORAGE_PRESIGNED_DOWNLOADS_ENABLED" "false"]
  end.
Definition newStorageEnvForCoreContainer cr specs : res (list EnvVar) :=
  let secretName := getStorageSecret cr in
  let envs :=
    [secret_key_ref "QUARKUS_S3_AWS_CREDENTIALS_STATIC_PROVIDER_ACCESS_KEY_ID" secretName "ACCESS_KEY";
     secret_key_ref "QUARKUS_S3_AWS_CREDENTIALS_STATIC_PROVIDER_SECRET_ACCESS_KEY" secretName "SECRET_KEY";
     Env "AWS_ACCESS_KEY_ID" "$(QUARKUS_S3_AWS_CREDENTIALS_STATIC_PROVIDER_ACCESS_KEY_ID)";
     Env "AWS_SECRET_ACCESS_KEY" "$(QUARKUS_S3_AWS_CREDENTIALS_STATIC_PROVIDER_SECRET_ACCESS_KEY)"] in
  ok? more :=
    (if DeployManagedStorage cr then managed_storage_env specs
     else match V2.spec_ObjectStorageOptions (ci_Spec cr) with
          | Some o => match V2.oso_Provider o with
                      | Some p => provider_env o p
                      | None => Err (Panic "nil pointer dereference")
                      end
          | None => Err (Panic "nil pointer dereference")
          end) in
  Ok (envs ++ more).

Definition newReportsEnvForCoreContainer specs : list EnvVar :=
  env_of_pointer "QUARKUS_REST_CLIENT_REPORTS_URL" (url.String <?> sps_ReportsURL specs).
Definition newInsightsEnvForCoreContainer specs : list EnvVar :=
  env_of_pointer "INSIGHTS_PROXY" (sps_InsightsURL specs).

Definition newTargetConnectionCacheEnvForCoreContainer cr : list EnvVar :=
  let or_default (z : Z) (d : string) := if z =? 0 then d else strconv.Itoa z in
  let '(targetCacheSize, targetCacheTTL) :=
    match V2.spec_TargetConnectionCacheOptions (ci_Spec cr) with
    | Some o => (or_default (V2.tcc_TargetCacheSize o) defaultTargetCacheSize,
                 or_default (V2.tcc_TargetCacheTTL o) defaultTargetCacheTTL)
    | None => (defaultTargetCacheSize, defaultTargetCacheTTL)
    end in
  [Env "CRYOSTAT_CONNECTIONS_MAX_OPEN" targetCacheSize; Env "CRYOSTAT_CONNECTIONS_TTL" targetCacheTTL].

(** [fmt.Sprint] of a slice of integers. *)
Definition fmt_Sprint_ints (l : list Z) : string := "[" +:+ strings.Join (map strconv.Itoa l) " " +:+ "]".
Definition port_numbers (l : list Z) : string :=
  strings.Trim (strings.ReplaceAllByte (fmt_Sprint_ints l) " "%char ","%char) "[]".
Definition newK8SDiscoveryEnvForCoreContainer cr : list EnvVar :=
  let '(k8sDiscoveryEnabled, k8sDiscoveryPortNames, k8sDiscoveryPortNumbers) :=
    match V2.spec_TargetDiscoveryOptions (ci_Spec cr) with
    | Some o =>
        (negb (V2.tdo_DisableBuiltInDiscovery o),
         match V2.tdo_DiscoveryPortNames o with
         | [] => if V2.tdo_DisableBuiltInPortNames o then "" else defaultK8SDiscoveryPortNames
         | names => strings.Join names ","
         end,
         match V2.tdo_DiscoveryPortNumbers o with
         | [] => if V2.tdo_DisableBuiltInPortNumbers o then "" else defaultK8SDiscoveryPortNumbers
         | numbers => port_numbers numbers
         end)
    | None => (defaultK8SDiscoveryEnabled, defaultK8SDiscoveryPortNames, defaultK8SDiscoveryPortNumbers)
    end in
  [Env "CRYOSTAT_DISCOVERY_KUBERNETES_ENABLED" (strconv.FormatBool k8sDiscoveryEnabled)] ++
  (if k8sDiscoveryEnabled then
     [Env "CRYOSTAT_DISCOVERY_KUBERNETES_NAMESPACES" (strings.Join (ci_TargetNamespaces cr) ",");
      Env "CRYOSTAT_DISCOVERY_KUBERNETES_PORT_NAMES" k8sDiscoveryPortNames;
      Env "CRYOSTAT_DISCOVERY_KUBERNETES_PORT_NUMBERS" k8sDiscoveryPortNumbers]
   else []).

Definition newGrafanaEnvForCoreContainer specs : list EnvVar :=
  [Env "GRAFANA_DATASOURCE_URL" datasourceURL] ++
  match sps_AuthProxyURL specs with
  | Some _ => [Env "GRAFANA_DASHBOARD_EXT_URL" "/grafana/"; Env "GRAFANA_DASHBOARD_URL" getInternalDashboardURL]
  | None => []
  end.

Definition newAgentEnvForCoreContainer cr : list EnvVar :=
  match V2.spec_AgentOptions (ci_Spec cr) with
  | Some o =>
      (if V2.ago_DisableHostnameVerification o then [Env "QUARKUS_REST_CLIENT_VERIFY_HOST" "false"] else []) ++
      (if V2.ago_AllowInsecure o then [Env "CRYOSTAT_AGENT_TLS_REQUIRED" "false"] else [])
  | None => []
  end.

Definition newEnvForCoreContainer cr specs tls : res (list EnvVar) :=
  let logLevel := default "INFO" (V2.spec_LoggingOptions (ci_Spec cr) ≫= V2.lgo_CoreLogLevel) in
  let envs :=
    [Env "QUARKUS_LOG_LEVEL" logLevel; Env "QUARKUS_HTTP_HOST" "localhost"; Env "QUARKUS_HTTP_PORT" "8181";
     Env "QUARKUS_HTTP_PROXY_PROXY_ADDRESS_FORWARDING" "true"; Env "QUARKUS_HTTP_PROXY_ALLOW_X_FORWARDED" "true";
     Env "QUARKUS_HTTP_PROXY_ENABLE_FORWARDED_HOST" "true"; Env "QUARKUS_HTTP_PROXY_ENABLE_FORWARDED_PREFIX" "true";
     Env "QUARKUS_HIBERNATE_ORM_DATABASE_GENERATION" "none"; Env "QUARKUS_HIBERNATE_ORM_SQL_LOAD_SCRIPT" "no-file";
     Env "QUARKUS_DATASOURCE_USERNAME" "cryostat"; Env "CRYOSTAT_CONFIG_PATH" configPath;
     Env "CRYOSTAT_TEMPLATE_PATH" templatesPath;
     Env "QUARKUS_S3_SYNC_CLIENT_TLS_KEY_MANAGERS_PROVIDER_TYPE" "none";
     Env "QUARKUS_S3_SYNC_CLIENT_TLS_TRUST_MANAGERS_PROVIDER_TYPE" "system-property";
     Env "QUARKUS_S3_AWS_CREDENTIALS_TYPE" "static"] ++
    env_of_pointer "CRYOSTAT_AUDIT_ENABLED" (strconv.FormatBool <?> V2.spec_EnableAudit (ci_Spec cr)) ++
    with_tls tls (λ t,
      [Env "SSL_KEYSTORE" (path.Join [SecretMountPrefix; "client-tls"; tls_CryostatSecret t; KeyStoreFile]);
       Env "SSL_KEYSTORE_PASS_FILE"
         (path.Join [SecretMountPrefix; "client-tls"; tls_KeystorePassSecret t; KeystorePassFile])]) in
  ok? storageEnv := newStorageEnvForCoreContainer cr specs in
  Ok (envs ++ newDatabaseEnvForCoreContainer cr tls ++ storageEnv ++ newReportsEnvForCoreContainer specs ++
      newInsightsEnvForCoreContainer specs ++ newTargetConnectionCacheEnvForCoreContainer cr ++
      newK8SDiscoveryEnvForCoreContainer cr ++ newGrafanaEnvForCoreContainer specs ++ newAgentEnvForCoreContainer cr).

(** A file of a config map, mounted at [dir/configMap_file]. *)
Definition file_mount (name dir configMap filename : string) : VolumeMount := {|
  vm_Name := name; vm_MountPath := path.Join [dir; configMap +:+ "_" +:+ filename]; vm_SubPath := filename;
  vm_ReadOnly := true |}.
Definition core_mounts cr tls : list VolumeMount :=
  [ro_mount "cert-secrets" "/truststore/operator"] ++
  with_tls tls (λ t,
    [ro_mount "storage-tls-secret" "/truststore/storage";
     ro_mount "keystore" (path.Join [SecretMountPrefix; "client-tls"; tls_CryostatSecret t]);
     ro_mount "keystore-pass" (path.Join [SecretMountPrefix; "client-tls"; tls_KeystorePassSecret t])]) ++
  map (λ t, file_mount ("template-" +:+ V2.tcm_ConfigMapName t) templatesPath (V2.tcm_ConfigMapName t) (V2.tcm_Filename t))
    (eventTemplates cr) ++
  map (λ r, file_mount ("rule-" +:+ V2.arc_ConfigMapName r) rulesPath (V2.arc_ConfigMapName r) (V2.arc_Filename r))
    (V2.spec_AutomatedRules (ci_Spec cr)) ++
  map (λ t, file_mount ("probe-template-" +:+ V2.ptc_ConfigMapName t) probeTemplatesPath
                       (V2.ptc_ConfigMapName t) (V2.ptc_Filename t))
    (V2.spec_ProbeTemplates (ci_Spec cr)) ++
  map (λ c, ro_mount (V2.dcr_SecretName c) (path.Join [credentialsPath; V2.dcr_SecretName c]))
    (V2.spec_DeclarativeCredentials (ci_Spec cr)) ++
  with_tls tls (λ t, [ro_mount "database-tls-secret" (path.Join [SecretMountPrefix; tls_DatabaseSecret t])]).

Definition NewCoreContainer cr specs imageTag tls (openshift : bool) : res Container :=
  let probeHandler := exec_action
    ["curl"; "--fail"; "http://localhost:" +:+ strconv.Itoa CryostatHTTPContainerPort +:+ "/health/liveness"] in
  ok? envs := newEnvForCoreContainer cr specs tls in
  Ok ((NewContainer (ci_Name cr) imageTag (GetPullPolicy imageTag))
    <| ct_VolumeMounts := core_mounts cr tls |>
    <| ct_Ports := [container_port CryostatHTTPContainerPort] |>
    <| ct_Env := envs |>
    <| ct_Resources := NewCoreContainerResource cr |>
    <| ct_LivenessProbe := Some (probe probeHandler) |>
    <| ct_StartupProbe := Some ((probe probeHandler) <| pr_FailureThreshold := 18 |>) |>
    <| ct_SecurityContext := container_SecurityContext V2.seo_CoreSecurityContext cr |>).

(** ** Grafana *)
Definition NewGrafanaContainer cr imageTag tls : Container :=
  let health := http_get "/api/health" 3000 URISchemeHTTP in
  (NewContainer (ci_Name cr +:+ "-grafana") imageTag (GetPullPolicy imageTag))
    <| ct_Ports := [container_port GrafanaContainerPort] |>
    <| ct_Env := [Env "GF_AUTH_ANONYMOUS_ENABLED" "true"; Env "GF_SERVER_DOMAIN" "localhost";
                  Env "GF_SERVER_SERVE_FROM_SUB_PATH" "true"; Env "JFR_DATASOURCE_URL" datasourceURL;
                  Env "GF_SERVER_ROOT_URL"
                    ("http" +:+ "://localhost:" +:+ strconv.Itoa AuthProxyHttpContainerPort +:+ "/grafana/")] |>
    <| ct_StartupProbe := Some ((probe health) <| pr_FailureThreshold := 30 |>) |>
    <| ct_LivenessProbe := Some (probe health) |>
    <| ct_SecurityContext := container_SecurityContext V2.seo_GrafanaSecurityContext cr |>
    <| ct_Resources := NewGrafanaContainerResource cr |>.

(** ** The storage *)
Definition NewStorageContainer cr imageTag tls : Container :=
  let secretName := ci_Name cr +:+ "-storage" in
  let handler p := http_get p StoragePort (probeScheme tls) in
  (NewContainer (ci_Name cr +:+ "-storage") imageTag (GetPullPolicy imageTag))
    <| ct_VolumeMounts :=
         [{| vm_Name := ci_Name cr +:+ "-storage"; vm_MountPath := "/data"; vm_SubPath := ""; vm_ReadOnly := false |}] ++
         with_tls tls (λ t, [ro_mount "storage-tls-secret" (path.Join [SecretMountPrefix; tls_StorageSecret t])]) |>
    <| ct_SecurityContext := container_SecurityContext V2.seo_StorageSecurityContext cr |>
    <| ct_Env :=
         [Env "CRYOSTAT_BUCKETS" "archivedrecordings,archivedreports,eventtemplates,probes,heapdumps,threaddumps,logs";
          Env "CRYOSTAT_ACCESS_KEY" "cryostat"; Env "DATA_DIR" "/data"; Env "IP_BIND" "0.0.0.0";
          Env "REST_ENCRYPTION_ENABLE" "1"; secret_key_ref "CRYOSTAT_SECRET_KEY" secretName "SECRET_KEY"] |>
    <| ct_Args := with_tls tls (λ t,
         ["-s3.port=" +:+ strconv.Itoa StoragePort; "-s3.port.https=0";
          "-s3.key.file=" +:+ path.Join [SecretMountPrefix; tls_StorageSecret t; TLSPrivateKeyKey];
          "-s3.cert.file=" +:+ path.Join [SecretMountPrefix; tls_StorageSecret t; TLSCertKey]]) |>
    <| ct_Ports := [container_port StoragePort] |>
    <| ct_LivenessProbe := Some ((probe (handler "/healthz")) <| pr_FailureThreshold := 2 |>) |>
    <| ct_StartupProbe := Some ((probe (handler "/healthz")) <| pr_FailureThreshold := 13 |>) |>
    <| ct_ReadinessProbe := Some (probe (handler "/readyz")) |>
    <| ct_Resources := NewStorageContainerResource cr |>.

(** ** The database *)
Definition NewDatabaseContainer cr imageTag tls : Container :=
  let secretName := getDatabaseSecret cr in
  let mountPath := "/var/lib/pgsql" in
  let dataDir := path.Join [mountPath; "data"] in
  let tlsPath t := path.Join [SecretMountPrefix; tls_DatabaseSecret t] in
  (NewContainer (ci_Name cr +:+ "-db") imageTag (GetPullPolicy imageTag))
    <| ct_VolumeMounts :=
         [{| vm_Name := ci_Name cr +:+ "-database"; vm_MountPath := mountPath; vm_SubPath := ""; vm_ReadOnly := false |}] ++
         with_tls tls (λ t, [ro_mount "database-tls-secret" (tlsPath t)]) |>
    <| ct_SecurityContext := container_SecurityContext V2.seo_DatabaseSecurityContext cr |>
    <| ct_Env :=
         [Env "PGDATA" dataDir; Env "POSTGRESQL_USER" "cryostat"; Env "POSTGRESQL_DATABASE" "cryostat";
          secret_key_ref "POSTGRESQL_PASSWORD" secretName DatabaseSecretConnectionKey;
          secret_key_ref "PG_ENCRYPT_KEY" secretName DatabaseSecretEncryptionKey] |>
    <| ct_Args := with_tls tls (λ t,
         ["-c"; "ssl=on"; "-c"; "ssl_cert_file=" +:+ path.Join [tlsPath t; TLSCertKey];
          "-c"; "ssl_key_file=" +:+ path.Join [tlsPath t; TLSPrivateKeyKey]]) |>
    <| ct_Ports := [container_port DatabasePort] |>
    <| ct_ReadinessProbe := Some (probe (exec_action ["pg_isready"; "-U"; "cryostat"; "-d"; "cryostat"])) |>
    <| ct_Resources := NewDatabaseContainerResource cr |>.

(** ** The JFR datasource *)
Definition NewJfrDatasourceContainer cr imageTag specs tls : Container :=
  (NewContainer (ci_Name cr +:+ "-jfr-datasource") imageTag (GetPullPolicy imageTag))
    <| ct_Ports := [container_port DatasourceContainerPort] |>
    <| ct_Env :=
         [Env "QUARKUS_HTTP_HOST" LoopbackAddress; Env "QUARKUS_HTTP_PORT" (strconv.Itoa DatasourceContainerPort)] ++
         with_tls tls (λ t,
           if DeployManagedStorage cr then
             [Env "CRYOSTAT_STORAGE_TLS_CA_PATH" (path.Join [SecretMountPrefix; tls_StorageSecret t; "s3"; "ca.crt"]);
              Env "CRYOSTAT_STORAGE_TLS_CERT_PATH" (path.Join [SecretMountPrefix; tls_StorageSecret t; "s3"; "tls.crt"])]
           else []) |>
    <| ct_VolumeMounts := with_tls tls (λ t,
         [ro_mount "storage-tls-secret" (path.Join [SecretMountPrefix; tls_StorageSecret t])]) |>
    <| ct_LivenessProbe := Some (probe (exec_action ["curl"; "--fail"; datasourceURL])) |>
    <| ct_SecurityContext := container_SecurityContext V2.seo_DataSourceSecurityContext cr |>
    <| ct_Resources := NewJfrDatasourceContainerResource cr |>.

(** ** The agents' proxy *)
Definition newAgentProxyContainer cr imageTag tls : Container :=
  (NewContainer (ci_Name cr +:+ "-agent-proxy") imageTag (GetPullPolicy imageTag))
    <| ct_Ports := [container_port AgentProxyContainerPort; container_port AgentProxyHealthPort] |>
    <| ct_Command := ["nginx"; "-c"; path.Join [AgentProxyConfigFilePath; AgentProxyConfigFileName];
                      "-g"; "daemon off;"] |>
    <| ct_LivenessProbe := Some (probe (http_get "/healthz" AgentProxyHealthPort URISchemeHTTP)) |>
    <| ct_SecurityContext := container_SecurityContext V2.seo_AgentProxySecurityContext cr |>
    <| ct_Resources := newAgentProxyContainerResource cr |>
    <| ct_VolumeMounts := [ro_mount "agent-proxy-config" AgentProxyConfigFilePath] ++
         with_tls tls (λ t, [ro_mount "agent-proxy-tls-secret" (path.Join [SecretMountPrefix; tls_AgentProxySecret t])]) |>.

(** ** The reports *)

(** [limits.Cpu()] is never nil: a limit without a CPU counts as zero. *)
Definition report_cpus cr : Z :=
  let resources := NewReportContainerResource cr in
  match rr_Limits resources with
  | Some limits => Quantity_Value (ResourceList_Cpu limits)
  | None => Quantity_Value (ResourceList_Cpu (gm_make (rr_Requests resources)))
  end.
Definition report_java_opts cr tls : string :=
  let cpus := report_cpus cr in
  "-XX:+PrintCommandLineFlags -XX:ActiveProcessorCount=" +:+ strconv.Itoa cpus +:+
  " -Dorg.openjdk.jmc.flightrecorder.parser.singlethreaded=" +:+ strconv.FormatBool (cpus <? 2) +:+
  match tls with
  | Some t =>
      " -Dquarkus.http.tls-configuration-name=https" +:+ " -Dquarkus.tls.https.reload-period=1h" +:+
      " -Dquarkus.tls.https.key-store.pem.0.cert=" +:+ path.Join [SecretMountPrefix; tls_ReportsSecret t; TLSCertKey] +:+
      " -Dquarkus.tls.https.key-store.pem.0.key=" +:+ path.Join [SecretMountPrefix; tls_ReportsSecret t; TLSPrivateKeyKey]
  | None => ""
  end.
Definition report_env cr tls : list EnvVar :=
  [Env "QUARKUS_HTTP_HOST" "0.0.0.0"] ++
  match tls with
  | Some t =>
      [Env "QUARKUS_HTTP_SSL_PORT" (strconv.Itoa ReportsContainerPort);
       Env "QUARKUS_HTTP_INSECURE_REQUESTS" "disabled"] ++
      (if DeployManagedStorage cr then
         [Env "CRYOSTAT_STORAGE_TLS_CA_PATH" (path.Join [SecretMountPrefix; tls_StorageSecret t; "ca.crt"]);
          Env "CRYOSTAT_STORAGE_TLS_CERT_PATH" (path.Join [SecretMountPrefix; tls_StorageSecret t; "tls.crt"])]
       else [])
  | None => [Env "QUARKUS_HTTP_PORT" (strconv.Itoa ReportsContainerPort)]
  end ++
  [Env "JAVA_OPTS_APPEND" (report_java_opts cr tls)].
Definition report_mounts tls : list VolumeMount :=
  with_tls tls (λ t,
    [ro_mount "storage-tls-truststore" (path.Join [SecretMountPrefix; tls_StorageSecret t]);
     ro_mount "reports-tls-secret" (path.Join [SecretMountPrefix; tls_ReportsSecret t])]).
Definition report_security cr : option V2.ReportsSecurityOptions :=
  V2.spec_ReportOptions (ci_Spec cr) ≫= V2.rpc_SecurityOptions.
Definition reports_container cr imageTag tls : Container :=
  let probeHandler := http_get "/health" ReportsContainerPort (probeScheme tls) in
  (NewContainer (ci_Name cr +:+ "-reports") imageTag (GetPullPolicy imageTag))
    <| ct_Ports := [container_port ReportsContainerPort] |>
    <| ct_Env := report_env cr tls |>
    <| ct_VolumeMounts := report_mounts tls |>
    <| ct_Resources := NewReportContainerResource cr |>
    <| ct_LivenessProbe := Some (probe probeHandler) |>
    <| ct_StartupProbe := Some (probe probeHandler) |>
    <| ct_SecurityContext :=
         Some (default restricted_SecurityContext (report_security cr ≫= V2.rso_ReportsSecurityContext)) |>.
End containers.
