(* ===== verification/Pods.v ===== *)
(** * Pods and deployments

    The pod specifications of [resource_definitions.go] with their volumes, and the four
    deployments around them. *)

From S2P Require Export Containers.
From S2P Require Import FakeClient.
Open Scope Z_scope.

(** ** Literals *)
Definition file_item (k p : string) : KeyToPath := {| kp_Key := k; kp_Path := p; kp_Mode := Some readOnlyMode |}.
Definition secret_volume (name secretName : string) (items : list KeyToPath) (mode : option Z) : Volume :=
  (NewVolume name) <| vol_Secret := Some {|
    svo_SecretName := secretName; svo_Items := items; svo_DefaultMode := mode |} |>.
Definition configMap_volume (name configMapName : string) (items : list KeyToPath) (mode : option Z) : Volume :=
  (NewVolume name) <| vol_ConfigMap := Some {|
    cvo_Name := configMapName; cvo_Items := items; cvo_DefaultMode := mode |} |>.

(** ** What the pods share *)
Definition pod_SecurityContext (cr : CryostatInstance) (openshift : bool) (fsGroup : Z) : option PodSecurityContext :=
  Some (default {| psc_FSGroup := Some fsGroup; psc_RunAsNonRoot := Some true;
                   psc_SeccompProfile := SeccompProfile openshift; psc_rest := [] |}
    (V2.spec_SecurityOptions (ci_Spec cr) ≫= V2.seo_PodSecurityContext)).
Definition copy_Affinity (a : Affinity) : Affinity := {|
  aff_NodeAffinity := aff_NodeAffinity a; aff_PodAffinity := aff_PodAffinity a;
  aff_PodAntiAffinity := aff_PodAntiAffinity a |}.
(** A pod with the user's scheduling options. *)
Definition scheduled_pod (options : option V2.SchedulingConfiguration) (containers : list Container)
    (volumes : list Volume) (podSc : option PodSecurityContext) : PodSpec := {|
  ps_ServiceAccountName := ""; ps_AutomountServiceAccountToken := None;
  ps_Volumes := volumes; ps_InitContainers := []; ps_Containers := containers; ps_SecurityContext := podSc;
  ps_NodeSelector := options ≫= V2.sch_NodeSelector;
  ps_Affinity := copy_Affinity <?> (options ≫= V2.sch_Affinity);
  ps_Tolerations := match options with Some o => V2.sch_Tolerations o | None => [] end; ps_rest := [] |}.

(** ** The volumes *)

(** A trusted certificate: from a secret, or from a config map. *)
Definition cert_projection (cert : V2.CertificateSecret) : list VolumeProjection :=
  if bool_decide (V2.cse_SecretName cert ≠ "") then
    let key := default V2.DefaultCertificateKey (V2.cse_CertificateKey cert) in
    [{| vp_Secret := Some (V2.cse_SecretName cert,
          [file_item key ("secret_" +:+ V2.cse_SecretName cert +:+ "_" +:+ key)]);
        vp_ConfigMap := None; vp_rest := [] |}]
  else if bool_decide (V2.cse_ConfigMapName cert ≠ "") then
    let key := default V2.DefaultConfigMapCertificateKey (V2.cse_CertificateKey cert) in
    [{| vp_Secret := None;
        vp_ConfigMap := Some (V2.cse_ConfigMapName cert,
          [file_item key ("configmap_" +:+ V2.cse_ConfigMapName cert +:+ "_" +:+ key)]);
        vp_rest := [] |}]
  else [].
Definition core_projections (cr : CryostatInstance) (tls : option TLSConfig) : list VolumeProjection :=
  concat (map cert_projection (default [] (V2.spec_TrustedCertSecrets (ci_Spec cr)))) ++
  with_tls tls (λ t,
    [{| vp_Secret := Some (tls_CryostatSecret t, [file_item CAKey (ci_Name cr +:+ "-" +:+ CAKey)]);
        vp_ConfigMap := None; vp_rest := [] |}]).
Definition core_tls_volumes (t : TLSConfig) : list Volume :=
  [secret_volume "auth-proxy-tls-secret" (tls_CryostatSecret t) [] (Some readOnlyMode);
   secret_volume "agent-proxy-tls-secret" (tls_AgentProxySecret t) [] (Some readOnlyMode);
   secret_volume "keystore" (tls_CryostatSecret t) [file_item "keystore.p12" "keystore.p12"] None;
   secret_volume "keystore-pass" (tls_KeystorePassSecret t) [file_item KeystorePassSecretKey KeystorePassFile] None;
   secret_volume "storage-tls-secret" (tls_StorageSecret t)
     [file_item TLSCertKey (path.Join ["s3"; TLSCertKey]); file_item CAKey (path.Join ["s3"; CAKey])] (Some readOnlyMode);
   secret_volume "database-tls-secret" (tls_DatabaseSecret t)
     [file_item TLSCertKey TLSCertKey; file_item CAKey CAKey] (Some readOnlyMode)].
(** A volume with one file of a config map. *)
Definition file_volume (name configMapName filename : string) : Volume :=
  configMap_volume name configMapName [file_item filename filename] None.
Definition core_volumes (cr : CryostatInstance) (tls : option TLSConfig) (openshift : bool) : list Volume :=
  with_tls tls core_tls_volumes ++
  [(NewVolume "cert-secrets") <| vol_Projected := Some (core_projections cr tls) |>;
   configMap_volume "agent-proxy-config" (ci_Name cr +:+ "-agent-proxy") [] (Some readOnlyMode)] ++
  (if negb openshift then
     [file_volume (ci_Name cr +:+ "-oauth2-proxy-cfg") (ci_Name cr +:+ "-oauth2-proxy-cfg") OAuth2ConfigFileName]
   else []) ++
  (if isBasicAuthEnabled cr then
     [secret_volume (ci_Name cr +:+ "-auth-proxy-htpasswd") (basicAuth_SecretName cr) [] None]
   else []) ++
  map (λ t, file_volume ("template-" +:+ V2.tcm_ConfigMapName t) (V2.tcm_ConfigMapName t) (V2.tcm_Filename t))
    (eventTemplates cr) ++
  map (λ r, file_volume ("rule-" +:+ V2.arc_ConfigMapName r) (V2.arc_ConfigMapName r) (V2.arc_Filename r))
    (V2.spec_AutomatedRules (ci_Spec cr)) ++
  map (λ t, file_volume ("probe-template-" +:+ V2.ptc_ConfigMapName t) (V2.ptc_ConfigMapName t) (V2.ptc_Filename t))
    (V2.spec_ProbeTemplates (ci_Spec cr)) ++
  map (λ c, secret_volume (V2.dcr_SecretName c) (V2.dcr_SecretName c) [] (Some readOnlyMode))
    (V2.spec_DeclarativeCredentials (ci_Spec cr)).

Section pods.
Context `{QuantityOps}.

(** The claim, or an empty directory. *)
Definition data_volume (cr : CryostatInstance) (config : V2.StorageConfigurations → option V2.StorageConfiguration)
    (name : string) : Volume :=
  let emptyDir :=
    match V2.spec_StorageOptions (ci_Spec cr) with
    | Some o => match config o with
                | Some cfg => V2.stc_EmptyDir cfg
                | None => V2.lst_EmptyDir (V2.sto_Legacy o)
                end
    | None => None
    end in
  let claim := (NewVolume name) <| vol_PersistentVolumeClaim := Some name |> in
  match emptyDir with
  | Some e =>
      if V2.edc_Enabled e then
        let sizeLimit := match resource_ParseQuantity (V2.edc_SizeLimit e) with
                         | Ok q => q
                         | Err _ => resource_NewQuantity 0 BinarySI
                         end in
        (NewVolume name) <| vol_EmptyDir := Some {| ed_Medium := V2.edc_Medium e; ed_SizeLimit := Some sizeLimit |} |>
      else claim
  | None => claim
  end.
Definition newVolumeForDatabase (cr : CryostatInstance) : list Volume :=
  [data_volume cr V2.sto_Database (ci_Name cr +:+ "-database")].
Definition newVolumeForStorage (cr : CryostatInstance) : list Volume :=
  [data_volume cr V2.sto_ObjectStorage (ci_Name cr +:+ "-storage")].

(** ** The pods *)
Definition NewPodForCR (cr : CryostatInstance) (specs : ServiceSpecs) (imageTags : ImageTags)
    (tls : option TLSConfig) (fsGroup : Z) (openshift : bool) : res PodSpec :=
  ok? authProxy := NewAuthProxyContainer cr specs (it_OAuth2ProxyImageTag imageTags)
                     (it_OpenShiftOAuthProxyImageTag imageTags) tls openshift in
  ok? coreContainer := NewCoreContainer cr specs (it_CoreImageTag imageTags) tls openshift in
  let containers :=
    [coreContainer;
     NewGrafanaContainer cr (it_GrafanaImageTag imageTags) tls;
     NewJfrDatasourceContainer cr (it_DatasourceImageTag imageTags) specs tls;
     authProxy;
     newAgentProxyContainer cr (it_AgentProxyImageTag imageTags) tls] in
  Ok ((scheduled_pod (V2.spec_SchedulingOptions (ci_Spec cr)) containers (core_volumes cr tls openshift)
         (pod_SecurityContext cr openshift fsGroup))
    <| ps_ServiceAccountName := ci_Name cr |> <| ps_AutomountServiceAccountToken := Some true |>).

Definition NewPodForDatabase (cr : CryostatInstance) (imageTags : ImageTags) (tls : option TLSConfig)
    (openshift : bool) (fsGroup : Z) : PodSpec :=
  scheduled_pod (V2.spec_SchedulingOptions (ci_Spec cr))
    [NewDatabaseContainer cr (it_DatabaseImageTag imageTags) tls]
    (newVolumeForDatabase cr ++ with_tls tls (λ t,
       [secret_volume "database-tls-secret" (tls_DatabaseSecret t) [] (Some readOnlyMode)]))
    (pod_SecurityContext cr openshift fsGroup).

Definition NewPodForStorage (cr : CryostatInstance) (imageTags : ImageTags) (tls : option TLSConfig)
    (openshift : bool) (fsGroup : Z) : PodSpec :=
  scheduled_pod (V2.spec_SchedulingOptions (ci_Spec cr))
    [NewStorageContainer cr (it_StorageImageTag imageTags) tls]
    (newVolumeForStorage cr ++ with_tls tls (λ t,
       [secret_volume "storage-tls-secret" (tls_StorageSecret t) [] (Some readOnlyMode)]))
    (pod_SecurityContext cr openshift fsGroup).

Definition NewPodForReports (cr : CryostatInstance) (imageTags : ImageTags) (serviceSpecs : ServiceSpecs)
    (tls : option TLSConfig) (openshift : bool) : PodSpec :=
  scheduled_pod (V2.spec_ReportOptions (ci_Spec cr) ≫= V2.rpc_SchedulingOptions)
    [reports_container cr (it_ReportsImageTag imageTags) tls]
    (with_tls tls (λ t,
       [secret_volume "storage-tls-truststore" (tls_StorageSecret t)
          [file_item "ca.crt" "ca.crt"; file_item "tls.crt" "tls.crt"] None;
        secret_volume "reports-tls-secret" (tls_ReportsSecret t) [] None]))
    (Some (default {| psc_FSGroup := None; psc_RunAsNonRoot := Some true;
                      psc_SeccompProfile := SeccompProfile openshift; psc_rest := [] |}
       (report_security cr ≫= V2.rso_PodSecurityContext))).

(** ** The deployments *)
Definition NewDeploymentForCR (cr : CryostatInstance) (specs : ServiceSpecs) (imageTags : ImageTags)
    (tls : option TLSConfig) (fsGroup : Z) (openshift : bool) : res Deployment :=
  ok? pod := NewPodForCR cr specs imageTags tls fsGroup openshift in
  Ok (deployment_around cr (ci_Name cr) "cryostat" "cryostat" "cryostat-operator-controller"
        (CorePodLabels cr) pod 1 "Recreate").
Definition NewDeploymentForDatabase (cr : CryostatInstance) (imageTags : ImageTags)
    (tls : option TLSConfig) (openshift : bool) (fsGroup : Z) : Deployment :=
  deployment_around cr (ci_Name cr +:+ "-database") "database" "cryostat-database" (ci_Name cr)
    (DatabasePodLabels cr) (NewPodForDatabase cr imageTags tls openshift fsGroup) 1 "Recreate".
Definition NewDeploymentForStorage (cr : CryostatInstance) (imageTags : ImageTags)
    (tls : option TLSConfig) (openshift : bool) (fsGroup : Z) : Deployment :=
  deployment_around cr (ci_Name cr +:+ "-storage") "storage" "cryostat-storage" (ci_Name cr)
    (StoragePodLabels cr) (NewPodForStorage cr imageTags tls openshift fsGroup) 1 "Recreate".
Definition NewDeploymentForReports (cr : CryostatInstance) (imageTags : ImageTags)
    (serviceSpecs : ServiceSpecs) (tls : option TLSConfig) (openshift : bool) : Deployment :=
  let replicas := match V2.spec_ReportOptions (ci_Spec cr) with
                  | Some o => V2.rpc_Replicas o | None => 0 end in
  deployment_around cr (ci_Name cr +:+ "-reports") "reports" "cryostat-reports" (ci_Name cr)
    (ReportsPodLabels cr) (NewPodForReports cr imageTags serviceSpecs tls openshift) replicas "".
End pods.

(** ** Lemmas *)

(** The inclusion of a list of names in another, name by name. *)
Ltac incl := simpl; refine (proj1 (Forall_forall _ _) _); repeat first [ apply Forall_nil; exact I
  | apply Forall_cons; split; [repeat first [ left | right ]|] ].

(** Every mount of the pod's containers names one of its volumes. *)
Definition mounts (p : PodSpec) : list string := concat (map (λ c, map vm_Name (ct_VolumeMounts c)) (ps_Containers p)).
Definition volume_names (p : PodSpec) : list string := map vol_Name (ps_Volumes p).

Lemma map_with_tls {A B} tls (g : A → B) f : map g (with_tls tls f) = with_tls tls (map g ∘ f).
Proof. by destruct tls. Qed.
Lemma map_names {A B} (f : A → B) (g : B → string) l : map g (map f l) = map (g ∘ f) l.
Proof. apply map_map. Qed.

(** The names of the volumes, and of the mounts, of the main pod. *)
Definition user_volume_names (cr : CryostatInstance) : list string :=
  map (λ t, "template-" +:+ V2.tcm_ConfigMapName t) (eventTemplates cr) ++
  map (λ r, "rule-" +:+ V2.arc_ConfigMapName r) (V2.spec_AutomatedRules (ci_Spec cr)) ++
  map (λ t, "probe-template-" +:+ V2.ptc_ConfigMapName t) (V2.spec_ProbeTemplates (ci_Spec cr)) ++
  map V2.dcr_SecretName (V2.spec_DeclarativeCredentials (ci_Spec cr)).
Definition own_volume_names (cr : CryostatInstance) (tls : option TLSConfig) (openshift : bool) : list string :=
  with_tls tls (λ _, ["auth-proxy-tls-secret"; "agent-proxy-tls-secret"; "keystore"; "keystore-pass";
                      "storage-tls-secret"; "database-tls-secret"]) ++
  ["cert-secrets"; "agent-proxy-config"] ++
  (if negb openshift then [ci_Name cr +:+ "-oauth2-proxy-cfg"] else []) ++
  (if isBasicAuthEnabled cr then [ci_Name cr +:+ "-auth-proxy-htpasswd"] else []).
Lemma core_volume_names cr tls openshift :
  map vol_Name (core_volumes cr tls openshift) = own_volume_names cr tls openshift ++ user_volume_names cr.
Proof.
  unfold core_volumes, own_volume_names, user_volume_names. rewrite !map_app, !map_map, <-!app_assoc.
  by destruct tls, openshift, (isBasicAuthEnabled cr).
Qed.
Lemma core_mount_names cr tls :
  map vm_Name (core_mounts cr tls) =
  ("cert-secrets" :: with_tls tls (λ _, ["storage-tls-secret"; "keystore"; "keystore-pass"])) ++
  user_volume_names cr ++ with_tls tls (λ _, ["database-tls-secret"]).
Proof.
  unfold core_mounts, user_volume_names. rewrite !map_app, !map_map, <-!app_assoc. by destruct tls.
Qed.

(** The main pod, when it is built. *)
Lemma core_pod `{QuantityOps} cr specs tags tls fsGroup openshift core :
  NewPodForCR cr specs tags tls fsGroup openshift = Ok core →
  ∃ auth c, 
    NewAuthProxyContainer cr specs (it_OAuth2ProxyImageTag tags) (it_OpenShiftOAuthProxyImageTag tags) tls openshift = Ok auth ∧
    NewCoreContainer cr specs (it_CoreImageTag tags) tls openshift = Ok c ∧
    ps_Volumes core = core_volumes cr tls openshift ∧
    ps_SecurityContext core = pod_SecurityContext cr openshift fsGroup ∧
    ps_Containers core = [c; NewGrafanaContainer cr (it_GrafanaImageTag tags) tls;
      NewJfrDatasourceContainer cr (it_DatasourceImageTag tags) specs tls; auth;
      newAgentProxyContainer cr (it_AgentProxyImageTag tags) tls].
Proof.
  unfold NewPodForCR. intros Hcore.
  destruct (NewAuthProxyContainer _ _ _ _ _ _) as [auth|e]; [|done]. cbn [rbind] in Hcore.
  destruct (NewCoreContainer _ _ _ _ _) as [c|e]; [|done]. injection Hcore as <-. by exists auth, c.
Qed.
Lemma core_container `{QuantityOps} cr specs tag tls openshift c : NewCoreContainer cr specs tag tls openshift = Ok c →
  newEnvForCoreContainer cr specs tls = Ok (ct_Env c) ∧ ct_VolumeMounts c = core_mounts cr tls ∧
  ct_SecurityContext c = container_SecurityContext V2.seo_CoreSecurityContext cr ∧
  ct_Ports c = [container_port CryostatHTTPContainerPort] ∧ ct_EnvFrom c = [].
Proof. unfold NewCoreContainer. destruct (newEnvForCoreContainer _ _ _) as [env|e]; [|done]. by intros [= <-]. Qed.
Lemma auth_container `{QuantityOps} cr specs tag1 tag2 tls openshift c :
  NewAuthProxyContainer cr specs tag1 tag2 tls openshift = Ok c →
  map vm_Name (ct_VolumeMounts c) ⊆ own_volume_names cr tls openshift ∧
  ct_SecurityContext c = container_SecurityContext V2.seo_AuthProxySecurityContext cr ∧
  ct_Ports c = [container_port AuthProxyHttpContainerPort].
Proof.
  unfold NewAuthProxyContainer, NewOpenShiftAuthProxyContainer, NewOAuth2ProxyContainer, own_volume_names, htpasswd_mount.
  destruct openshift; intros [= <-]; (split; [|done]); destruct tls, (isBasicAuthEnabled cr); incl.
Qed.

Lemma data_volume_name `{QuantityOps} cr config name : vol_Name (data_volume cr config name) = name.
Proof.
  unfold data_volume. destruct (V2.spec_StorageOptions _) as [o|]; [|done].
  destruct (config o) as [c|]; [destruct (V2.stc_EmptyDir c) as [e|]|destruct (V2.lst_EmptyDir _) as [e|]]; try done;
    by destruct (V2.edc_Enabled e).
Qed.
Lemma database_mounts `{QuantityOps} cr tags tls openshift g :
  mounts (NewPodForDatabase cr tags tls openshift g) = volume_names (NewPodForDatabase cr tags tls openshift g).
Proof. unfold volume_names. simpl. rewrite data_volume_name. by destruct tls. Qed.
Lemma storage_mounts `{QuantityOps} cr tags tls openshift g :
  mounts (NewPodForStorage cr tags tls openshift g) = volume_names (NewPodForStorage cr tags tls openshift g).
Proof. unfold volume_names. simpl. rewrite data_volume_name. by destruct tls. Qed.
Lemma reports_mounts `{QuantityOps} cr tags specs tls openshift :
  mounts (NewPodForReports cr tags specs tls openshift) = volume_names (NewPodForReports cr tags specs tls openshift).
Proof. by destruct tls. Qed.

(** ** Properties *)

(** Whatever labels the user asks for, each of the four deployments selects the pods
    it creates, its selector depends on the name of the Cryostat and the component only
    (so it never changes under a running deployment), and no two of them select the same
    pods. *)
Theorem deployments_select_their_pods `{QuantityOps} cr specs tags tls fsGroup openshift core :
  NewDeploymentForCR cr specs tags tls fsGroup openshift = Ok core →
  let all := [core; NewDeploymentForDatabase cr tags tls openshift fsGroup;
              NewDeploymentForStorage cr tags tls openshift fsGroup;
              NewDeploymentForReports cr tags specs tls openshift] in
  Forall selected all ∧
  map (λ d, ds_Selector (dep_Spec d)) all =
    map (λ c, Some (MatchLabelsSelector (component_labels cr c))) ["cryostat"; "database"; "storage"; "reports"] ∧
  NoDup (map selected_component all).
Proof.
  unfold NewDeploymentForCR. destruct (NewPodForCR _ _ _ _ _ _) as [pod|e]; [|done].
  simpl rbind. intros Hcore. injection Hcore as <-.
  unfold NewDeploymentForDatabase, NewDeploymentForStorage, NewDeploymentForReports.
  split; [|split].
  - do 4 (apply Forall_cons; split; [apply deployment_around_selected|]). apply Forall_nil. exact I.
  - reflexivity.
  - cbn [map]. rewrite !deployment_around_component. apply (bool_decide_unpack _). exact I.
Qed.

(** C18. The pods are well formed: every volume that one of a pod's containers mounts is a
    volume of the pod, whatever the TLS state, the platform and the options of the CR. *)
Theorem mounts_resolve `{QuantityOps} cr specs tags tls fsGroup openshift core :
  NewPodForCR cr specs tags tls fsGroup openshift = Ok core →
  Forall (λ p, mounts p ⊆ volume_names p)
    [core; NewPodForDatabase cr tags tls openshift fsGroup; NewPodForStorage cr tags tls openshift fsGroup;
     NewPodForReports cr tags specs tls openshift].
Proof.
  intros Hcore. repeat (apply Forall_cons; split);
    [|by rewrite database_mounts|by rewrite storage_mounts|by rewrite reports_mounts|apply Forall_nil; exact I].
  unfold mounts, volume_names.
  apply core_pod in Hcore as (auth & c & Ha & Hc & Hv & _ & Hp). apply auth_container in Ha as [Ha _].
  apply core_container in Hc as (_ & Hm & _ & _).
  rewrite Hv, Hp, core_volume_names. cbn [map concat].
  rewrite Hm, core_mount_names. generalize (user_volume_names cr) as user. unfold own_volume_names in *. intros user.
  repeat (apply list_subseteq_app_iff_l; split);
    first [ apply list_subseteq_app_r; reflexivity | apply list_subseteq_app_l; exact Ha
          | apply list_subseteq_app_l; destruct tls; incl | apply list_subseteq_nil ].
Qed.

(** ** Witnesses *)
Definition sample_ImageTags : ImageTags := {|
  it_OAuth2ProxyImageTag := ""; it_OpenShiftOAuthProxyImageTag := ""; it_CoreImageTag := "";
  it_DatasourceImageTag := ""; it_GrafanaImageTag := ""; it_ReportsImageTag := "";
  it_StorageImageTag := ""; it_DatabaseImageTag := ""; it_AgentProxyImageTag := "" |}.
Definition sample_specs : ServiceSpecs :=
  zero_ServiceSpecs <| sps_StorageURL := Some (URL_of "http" "cryostat-storage.ns.svc:8333" "") |>.
Lemma deployments_select_their_pods_witness :
  ∃ core, NewDeploymentForCR sample_cr sample_specs sample_ImageTags None 1 false = Ok core ∧
          selected core.
Proof.
  destruct (NewDeploymentForCR sample_cr sample_specs sample_ImageTags None 1 false)
    as [core|e] eqn:E; [|discriminate E].
  exists core. split; [reflexivity|].
  destruct (deployments_select_their_pods _ _ _ _ _ _ _ E) as (Hs & _).
  exact (Forall_inv Hs).
Defined.
Lemma mounts_resolve_witness :
  ∃ core, NewPodForCR sample_cr sample_specs sample_ImageTags None 1 false = Ok core ∧
          mounts core ⊆ volume_names core.
Proof.
  destruct (NewPodForCR sample_cr sample_specs sample_ImageTags None 1 false) as [core|e] eqn:E; [|discriminate E].
  exists core. split; [reflexivity|]. exact (Forall_inv (mounts_resolve _ _ _ _ _ _ _ E)).
Defined.
