(* ===== verification/NetworkPolicies.v ===== *)
(** * Network policies

    [internal/controller/networkpolicy.go]: the ingress and egress policies of the core,
    and the ingress policies of the database, the storage and the reports generator. *)

From S2P Require Export Resources.
From S2P Require Import FakeClient.
Open Scope Z_scope.

Section network_policies.
Context `{Kube W}.
Implicit Types (r : Reconciler) (cr : CryostatInstance).

Definition NewNetworkPolicy (name namespace : string) : NetworkPolicy := {|
  np_meta := NewObjectMeta name namespace;
  np_Spec := {| nps_PolicyTypes := []; nps_PodSelector := {| ls_MatchLabels := None; ls_MatchExpressions := [] |};
                nps_Ingress := []; nps_Egress := [] |} |}.

Definition namespace_peer (s : LabelSelector) : NetworkPolicyPeer :=
  {| npp_PodSelector := None; npp_NamespaceSelector := Some s; npp_IPBlock := None |}.
Definition AllNamespacesSelector : NetworkPolicyPeer :=
  namespace_peer {| ls_MatchLabels := None; ls_MatchExpressions := [] |}.
Definition RouteSelector : NetworkPolicyPeer :=
  namespace_peer (MatchLabelsSelector {[ "policy-group.network.openshift.io/ingress" := "" ]}).

Definition namespaceNameLabel : string := "kubernetes.io/metadata.name".
Definition namespaceOriginSelector (namespace : string) : LabelSelector :=
  MatchLabelsSelector {[ namespaceNameLabel := namespace ]}.
Definition installationNamespaceSelector cr : LabelSelector :=
  namespaceOriginSelector (ci_InstallNamespace cr).

(** The namespaces named in a list. *)
Definition namespaces_in (values : list string) : LabelSelector :=
  {| ls_MatchLabels := None;
     ls_MatchExpressions := [{| lsr_Key := namespaceNameLabel; lsr_Operator := "In"; lsr_Values := values |}] |}.
Definition pod_selector (labels : gomap string) : LabelSelector :=
  {| ls_MatchLabels := labels; ls_MatchExpressions := [] |}.

(** ** Creation and deletion *)
Definition createOrUpdatePolicy (networkPolicy : NetworkPolicy) (owner : option V2.Cryostat)
    (delegate : NetworkPolicy → NetworkPolicy) : E W () :=
  let* ' (_, op) := controllerutil_CreateOrUpdate KNetworkPolicy networkPolicy (λ np, mretM (
    match owner with
    | Some owner =>
        match controllerutil_SetControllerReference (V2.cr_meta owner) (np_meta np) with
        | Err e => (np, Err e)
        | Ok meta => (delegate (np <| np_meta := meta |>), Ok ())
        end
    | None => (delegate np, Ok ())
    end)) in
  mretM (ok? _ := op in Ok ()).

Definition deletePolicy (networkPolicy : NetworkPolicy) : E W () :=
  let* err := client_Delete KNetworkPolicy networkPolicy in
  match err with
  | Err e => if kerrors_IsNotFound e then mretM (Ok ()) else mretM (Err e)
  | Ok _ => mretM (Ok ())
  end.

(** ** The switches of the spec *)
Definition flag (f : V2.NetworkPolicyConfig → option bool) (c : option V2.NetworkPolicyConfig) : bool :=
  default false (c ≫= f).
Definition policy_config cr (f : V2.NetworkPoliciesList → option V2.NetworkPolicyConfig)
  : option V2.NetworkPolicyConfig := V2.spec_NetworkPolicies (ci_Spec cr) ≫= f.

(** ** Core *)
Definition core_ingress_policy cr : NetworkPolicy :=
  NewNetworkPolicy (ci_Name cr +:+ "-internal-ingress") (ci_InstallNamespace cr).
Definition core_egress_policy cr : NetworkPolicy :=
  NewNetworkPolicy (ci_Name cr +:+ "-internal-egress") (ci_InstallNamespace cr).
Definition core_allDisabled cr : bool := flag V2.npc_Disabled (policy_config cr V2.npl_CoreConfig).
Definition core_ingressDisabled cr : bool :=
  core_allDisabled cr || flag V2.npc_IngressDisabled (policy_config cr V2.npl_CoreConfig).
Definition core_egressEnabled cr : bool :=
  negb (core_allDisabled cr) && flag V2.npc_EgressEnabled (policy_config cr V2.npl_CoreConfig).

Definition core_ingress_spec cr : NetworkPolicySpec := {|
  nps_PolicyTypes := ["Ingress"];
  nps_PodSelector := pod_selector (CorePodLabels cr);
  nps_Ingress := [
    {| npr_Peers := [AllNamespacesSelector; RouteSelector]; npr_Ports := [IntVal AuthProxyHttpContainerPort] |};
    {| npr_Peers := [namespace_peer (namespaces_in (default [] (V2.spec_TargetNamespaces (ci_Spec cr))))];
       npr_Ports := [IntVal AgentProxyContainerPort] |}];
  nps_Egress := [] |}.

Definition egress_namespaces r cr : list string :=
  let egressNamespaces := [ci_InstallNamespace cr] in
  let egressNamespaces := egressNamespaces ++ ["kube-system"] in
  let egressNamespaces := if r_IsOpenShift r then egressNamespaces ++ ["openshift"] else egressNamespaces in
  let egressNamespaces := egressNamespaces ++ ci_TargetNamespaces cr in
  slices.Compact (slices.Sort egressNamespaces).

Definition core_egress_spec r cr (apiAddress : string) : NetworkPolicySpec := {|
  nps_PolicyTypes := ["Egress"];
  nps_PodSelector := pod_selector (CorePodLabels cr);
  nps_Ingress := [];
  nps_Egress := map (λ rule, {| npr_Peers := [rule]; npr_Ports := [] |}) [
    namespace_peer (namespaces_in (egress_namespaces r cr));
    {| npp_PodSelector := None; npp_NamespaceSelector := None;
       npp_IPBlock := Some (apiAddress +:+ "/32") |}] |}.

Definition set_spec (spec : NetworkPolicySpec) (np : NetworkPolicy) : NetworkPolicy :=
  np <| np_Spec := spec |>.

(** The rules name the address of the API server. *)
Definition createEgressPolicy r cr : E W () :=
  let? k8sApiEndpoint := client_Get KEndpointSlice (nn "default" "kubernetes") in
  match eps_Endpoints k8sApiEndpoint with
  | (address :: _) :: _ =>
      createOrUpdatePolicy (core_egress_policy cr) (Some (ci_Object cr))
        (set_spec (core_egress_spec r cr address))
  | _ => mretM (Err (Errorf "EndpointSlice 'kubernetes' had no .Endpoints or endpoint .Addresses" []))
  end.

Definition reconcileCoreNetworkPolicy r cr : E W () :=
  do? (if core_ingressDisabled cr then deletePolicy (core_ingress_policy cr) else mretM (Ok ())) in
  do? (if negb (core_egressEnabled cr) then deletePolicy (core_egress_policy cr) else mretM (Ok ())) in
  do? (if negb (core_ingressDisabled cr)
       then createOrUpdatePolicy (core_ingress_policy cr) (Some (ci_Object cr)) (set_spec (core_ingress_spec cr))
       else mretM (Ok ())) in
  if core_egressEnabled cr then createEgressPolicy r cr else mretM (Ok ()).

(** ** Database, storage and reports *)
Definition from_pods cr (labels : gomap string) : NetworkPolicyPeer := {|
  npp_NamespaceSelector := Some (installationNamespaceSelector cr);
  npp_PodSelector := Some (pod_selector labels); npp_IPBlock := None |}.
Definition component_ingress_spec (labels : gomap string) (peers : list NetworkPolicyPeer) (port : Z)
  : NetworkPolicySpec := {|
  nps_PolicyTypes := ["Ingress"]; nps_PodSelector := pod_selector labels;
  nps_Ingress := [{| npr_Peers := peers; npr_Ports := [IntVal port] |}]; nps_Egress := [] |}.

Definition reconcileDatabaseNetworkPolicy cr : E W () :=
  let ingressPolicy := NewNetworkPolicy (ci_Name cr +:+ "-db-internal-ingress") (ci_InstallNamespace cr) in
  let allDisabled := flag V2.npc_Disabled (policy_config cr V2.npl_DatabaseConfig) in
  let ingressDisabled := flag V2.npc_IngressDisabled (policy_config cr V2.npl_DatabaseConfig) in
  if allDisabled || ingressDisabled then deletePolicy ingressPolicy
  else createOrUpdatePolicy ingressPolicy (Some (ci_Object cr))
         (set_spec (component_ingress_spec (DatabasePodLabels cr) [from_pods cr (CorePodLabels cr)] DatabasePort)).

Definition reconcileStorageNetworkPolicy cr : E W () :=
  let ingressPolicy := NewNetworkPolicy (ci_Name cr +:+ "-storage-internal-ingress") (ci_InstallNamespace cr) in
  let allDisabled := flag V2.npc_Disabled (policy_config cr V2.npl_StorageConfig) in
  let deployManagedStorage := DeployManagedStorage cr in
  let ingressDisabled := flag V2.npc_IngressDisabled (policy_config cr V2.npl_StorageConfig) in
  if allDisabled || negb deployManagedStorage || ingressDisabled then deletePolicy ingressPolicy
  else createOrUpdatePolicy ingressPolicy (Some (ci_Object cr))
         (set_spec (component_ingress_spec (StoragePodLabels cr)
            [from_pods cr (CorePodLabels cr); from_pods cr (ReportsPodLabels cr)] StoragePort)).

Definition reconcileReportsNetworkPolicy cr : E W () :=
  let ingressPolicy := NewNetworkPolicy (ci_Name cr +:+ "-reports-internal-ingress") (ci_InstallNamespace cr) in
  let allDisabled := flag V2.npc_Disabled (policy_config cr V2.npl_ReportsConfig) in
  let ingressDisabled := flag V2.npc_IngressDisabled (policy_config cr V2.npl_ReportsConfig) in
  if allDisabled || ingressDisabled then deletePolicy ingressPolicy
  else createOrUpdatePolicy ingressPolicy (Some (ci_Object cr))
         (set_spec (component_ingress_spec (ReportsPodLabels cr) [from_pods cr (CorePodLabels cr)]
            ReportsContainerPort)).
End network_policies.

(** ** Lemmas *)
Section network_policy_lemmas.
Context `{KubeLaws W}.
Implicit Types (r : Reconciler) (cr : CryostatInstance) (w : W).

Lemma touches_createOrUpdatePolicy (S : Kind → NamespacedName → Prop) np owner f :
  S KNetworkPolicy (key KNetworkPolicy np) → touches S (createOrUpdatePolicy np owner f).
Proof. intros HS. unfold createOrUpdatePolicy. touch. exact HS. Qed.
Lemma touches_deletePolicy (S : Kind → NamespacedName → Prop) np :
  S KNetworkPolicy (key KNetworkPolicy np) → touches S (deletePolicy np).
Proof. intros HS. unfold deletePolicy. touch. exact HS. Qed.

Lemma deletePolicy_gone np w w' :
  unheld w KNetworkPolicy (key KNetworkPolicy np) → deletePolicy np w = (Ok (), w') →
  stored w' KNetworkPolicy (key KNetworkPolicy np) = None.
Proof.
  intros Hh (res & w1 & Hd & Hrun)%mbindM_inv.
  destruct res as [[]|e]; [|destruct (kerrors_IsNotFound e) eqn:He]; ret_inv Hrun;
    eapply (Delete_gone KNetworkPolicy); eauto.
Qed.

(** A policy equal to [spec] up to nil and empty label maps. *)
Definition policy_is w (n : NamespacedName) (spec : NetworkPolicySpec) : Prop :=
  ∃ got, stored w KNetworkPolicy n = Some got ∧
    nps_PolicyTypes (np_Spec got) = nps_PolicyTypes spec ∧
    canon_selector (nps_PodSelector (np_Spec got)) = canon_selector (nps_PodSelector spec) ∧
    map canon_rule (nps_Ingress (np_Spec got)) = map canon_rule (nps_Ingress spec) ∧
    map canon_rule (nps_Egress (np_Spec got)) = map canon_rule (nps_Egress spec).

Lemma createOrUpdatePolicy_ok np owner spec w w' :
  (∀ old, stored w KNetworkPolicy (key KNetworkPolicy np) = Some old →
     om_DeletionTimestamp (np_meta old) = None) →
  createOrUpdatePolicy np owner (set_spec spec) w = (Ok (), w') →
  policy_is w' (key KNetworkPolicy np) spec.
Proof.
  intros Hd ([o [op|e]] & w1 & Hc & Hrun)%mbindM_inv; ret_inv Hrun.
  apply CreateOrUpdate_ok in Hc as (base & w2 & o1 & w3 & got & _ & _ & Hf & _ & Hgot & [_ Hk] & _);
    [|by intros ???? [= _ <-]|exact Hd].
  exists got. split; [done|]. simpl in Hk. unfold mretM in Hf. injection Hf as Hf _.
  assert (Hs : np_Spec o1 = spec).
  { destruct owner as [ow|]; [destruct (controllerutil_SetControllerReference _ _)|];
      by injection Hf as <-. }
  rewrite <-Hs. exact Hk.
Qed.

(** [createOrUpdate] or [delete], as the spec asks. *)
Lemma policy_switch (off : bool) np owner spec w w' :
  quiet w KNetworkPolicy (key KNetworkPolicy np) →
  (if off then deletePolicy np else createOrUpdatePolicy np owner (set_spec spec)) w = (Ok (), w') →
  if off then stored w' KNetworkPolicy (key KNetworkPolicy np) = None
  else policy_is w' (key KNetworkPolicy np) spec.
Proof.
  intros Hq. destruct off.
  - apply deletePolicy_gone. by apply quiet_unheld.
  - apply createOrUpdatePolicy_ok. intros old Ho. by apply Hq in Ho as [_ ?].
Qed.

(** *** The core *)
Lemma policy_is_eq w w' n spec :
  stored w' KNetworkPolicy n = stored w KNetworkPolicy n → policy_is w n spec → policy_is w' n spec.
Proof. unfold policy_is. by intros ->. Qed.
Lemma quiet_no_deletion w k n :
  quiet w k n → ∀ old, stored w k n = Some old → om_DeletionTimestamp (om k old) = None.
Proof. intros Hq old Ho. by apply Hq in Ho as [_ ?]. Qed.

Lemma touches_createEgressPolicy r cr :
  touches (only KNetworkPolicy (key KNetworkPolicy (core_egress_policy cr))) (createEgressPolicy r cr).
Proof.
  unfold createEgressPolicy. apply touches_try; [apply touches_Get|]. intros slice.
  destruct (eps_Endpoints slice) as [|[|address more] others]; try apply touches_ret.
  by apply touches_createOrUpdatePolicy.
Qed.
Lemma createEgressPolicy_ok r cr w w' :
  quiet w KNetworkPolicy (key KNetworkPolicy (core_egress_policy cr)) →
  createEgressPolicy r cr w = (Ok (), w') →
  ∃ slice address more others, stored w KEndpointSlice (nn "default" "kubernetes") = Some slice ∧
    eps_Endpoints slice = (address :: more) :: others ∧
    policy_is w' (key KNetworkPolicy (core_egress_policy cr)) (core_egress_spec r cr address).
Proof.
  intros Hq (slice & w1 & Hg & Hrun)%mtry_ok_inv.
  pose proof (same_store_eq _ _ KNetworkPolicy (key KNetworkPolicy (core_egress_policy cr))
                (Get_reads _ _ _ _ _ Hg)) as E.
  apply Get_Ok in Hg. destruct (eps_Endpoints slice) as [|[|address more] others] eqn:Es; try by ret_inv Hrun.
  exists slice, address, more, others. split_and!; [done..|].
  apply createOrUpdatePolicy_ok in Hrun; [done|]. apply quiet_no_deletion. by eapply quiet_eq.
Qed.

(** The ingress part and the egress part of a pass, each with what the other leaves alone. *)
Section core_pass.
Context (r : Reconciler) (cr : CryostatInstance).
#[local] Abbreviation ingress := (key KNetworkPolicy (core_ingress_policy cr)).
#[local] Abbreviation egress := (key KNetworkPolicy (core_egress_policy cr)).

Lemma egress_not_ingress : egress ≠ ingress.
Proof.
  intros [= E]. apply (f_equal bytes) in E. rewrite !bytes_app in E. apply app_inv_head in E. discriminate E.
Qed.

Lemma ingress_pass w w1 w2 w3 :
  quiet w KNetworkPolicy ingress →
  (if core_ingressDisabled cr then deletePolicy (core_ingress_policy cr) else mretM (Ok ())) w = (Ok (), w1) →
  same_except (only KNetworkPolicy egress) w1 w2 →
  (if negb (core_ingressDisabled cr)
   then createOrUpdatePolicy (core_ingress_policy cr) (Some (ci_Object cr)) (set_spec (core_ingress_spec cr))
   else mretM (Ok ())) w2 = (Ok (), w3) →
  (if core_ingressDisabled cr then stored w3 KNetworkPolicy ingress = None
   else policy_is w3 ingress (core_ingress_spec cr)) ∧
  same_except (only KNetworkPolicy ingress) w w1 ∧ same_except (only KNetworkPolicy ingress) w2 w3.
Proof.
  intros Hq H1 E2 H3.
  assert (E : stored w2 KNetworkPolicy ingress = stored w1 KNetworkPolicy ingress).
  { apply (same_except_out _ _ _ _ _ E2). intros [_ Hn]. by apply egress_not_ingress. }
  destruct (core_ingressDisabled cr); simpl in H1, H3.
  - ret_inv H3. split_and!; [|by eapply touches_deletePolicy|reflexivity].
    rewrite E. by apply deletePolicy_gone in H1; [|apply quiet_unheld].
  - ret_inv H1. split_and!; [|reflexivity|by eapply touches_createOrUpdatePolicy].
    apply createOrUpdatePolicy_ok in H3; [done|]. apply quiet_no_deletion. by eapply quiet_eq.
Qed.

Lemma egress_pass w1 w2 w3 w' :
  quiet w1 KNetworkPolicy egress →
  (if negb (core_egressEnabled cr) then deletePolicy (core_egress_policy cr) else mretM (Ok ())) w1 = (Ok (), w2) →
  same_except (only KNetworkPolicy ingress) w2 w3 →
  (if core_egressEnabled cr then createEgressPolicy r cr else mretM (Ok ())) w3 = (Ok (), w') →
  (if core_egressEnabled cr then
     ∃ slice address more others, stored w1 KEndpointSlice (nn "default" "kubernetes") = Some slice ∧
       eps_Endpoints slice = (address :: more) :: others ∧
       policy_is w' egress (core_egress_spec r cr address)
   else stored w' KNetworkPolicy egress = None) ∧
  same_except (only KNetworkPolicy egress) w1 w2 ∧ same_except (only KNetworkPolicy egress) w3 w'.
Proof.
  intros Hq H2 E3 H4.
  assert (E : stored w3 KNetworkPolicy egress = stored w2 KNetworkPolicy egress).
  { apply (same_except_out _ _ _ _ _ E3). intros [_ Hn]. by apply egress_not_ingress. }
  destruct (core_egressEnabled cr); simpl in H2, H4.
  - ret_inv H2. split_and!; [|reflexivity|by eapply touches_createEgressPolicy].
    rewrite <-(same_except_out _ _ _ KEndpointSlice (nn "default" "kubernetes") E3) by by intros [].
    apply createEgressPolicy_ok; [|done]. by eapply quiet_eq.
  - ret_inv H4. split_and!; [|by eapply touches_deletePolicy|reflexivity].
    rewrite E. by apply deletePolicy_gone in H2; [|apply quiet_unheld].
Qed.
End core_pass.
End network_policy_lemmas.

(** ** Properties *)
Section network_policy_properties.
Context `{KubeLaws W}.

(** The CR asks for the egress policy, and its policies are not disabled altogether. *)
Definition egress_asked (cr : CryostatInstance) : Prop :=
  ∃ c, V2.spec_NetworkPolicies (ci_Spec cr) ≫= V2.npl_CoreConfig = Some c ∧
    V2.npc_Disabled c ≠ Some true ∧ V2.npc_EgressEnabled c = Some true.
Lemma core_egressEnabled_asked cr : core_egressEnabled cr = true ↔ egress_asked cr.
Proof.
  unfold core_egressEnabled, core_allDisabled, egress_asked, flag, policy_config.
  destruct (_ ≫= V2.npl_CoreConfig) as [[[[]|] i [[]|]]|]; simpl; naive_solver.
Qed.
(** The namespaces that the core may have to reach. *)
Definition reachable r cr (ns : string) : Prop :=
  ns = ci_InstallNamespace cr ∨ ns = "kube-system" ∨ (r_IsOpenShift r = true ∧ ns = "openshift") ∨
  ns ∈ ci_TargetNamespaces cr.
Lemma egress_namespaces_spec r cr :
  (∀ ns, ns ∈ egress_namespaces r cr ↔ reachable r cr ns) ∧
  StronglySorted String.le (egress_namespaces r cr) ∧ NoDup (egress_namespaces r cr).
Proof.
  unfold egress_namespaces, reachable. split_and!.
  - intros ns. rewrite slices.elem_of_Compact, slices.elem_of_Sort. destruct (r_IsOpenShift r); set_solver.
  - apply slices.Sorted_Compact, slices.Sorted_Sort.
  - apply slices.NoDup_Compact, slices.Sorted_Sort.
Qed.

(** C27. Where the core may connect to.  After a successful pass over its policies, with
    egress policies asked for, the stored policy selects the core's pods and allows two
    destinations: the namespaces that are the install namespace, [kube-system], [openshift]
    on OpenShift, or a target, in ascending order and each once; and the /32 block at the
    first address that the cluster publishes for its API server (which, when that is an
    IPv6 address, is wider than the address).  When it is not asked for, or the policies are
    disabled, there is no such policy.  The policy must not be held by a finalizer or under
    deletion when the pass starts. *)
Theorem core_egress_destinations r cr w w' :
  let egress := nn (ci_InstallNamespace cr) (ci_Name cr +:+ "-internal-egress") in
  quiet w KNetworkPolicy egress → reconcileCoreNetworkPolicy r cr w = (Ok (), w') →
  (egress_asked cr →
   ∃ slice address more others namespaces,
     stored w KEndpointSlice (nn "default" "kubernetes") = Some slice ∧ eps_Endpoints slice = (address :: more) :: others ∧
     policy_is w' egress {|
       nps_PolicyTypes := ["Egress"];
       nps_PodSelector := {| ls_MatchLabels := CorePodLabels cr; ls_MatchExpressions := [] |};
       nps_Ingress := [];
       nps_Egress := [
         {| npr_Peers := [{| npp_PodSelector := None; npp_IPBlock := None; npp_NamespaceSelector := Some {|
              ls_MatchLabels := None; ls_MatchExpressions := [
                {| lsr_Key := "kubernetes.io/metadata.name"; lsr_Operator := "In"; lsr_Values := namespaces |}] |} |}];
            npr_Ports := [] |};
         {| npr_Peers := [{| npp_PodSelector := None; npp_NamespaceSelector := None;
                             npp_IPBlock := Some (address +:+ "/32") |}]; npr_Ports := [] |}] |} ∧
     (∀ ns, ns ∈ namespaces ↔ reachable r cr ns) ∧ StronglySorted String.le namespaces ∧ NoDup namespaces) ∧
  (¬ egress_asked cr → stored w' KNetworkPolicy egress = None).
Proof.
  intros egress Hq ([] & w1 & H1 & ([] & w2 & H2 & ([] & w3 & H3 & H4)%mtry_ok_inv)%mtry_ok_inv)%mtry_ok_inv.
  assert (Hne := egress_not_ingress cr). change (key KNetworkPolicy (core_egress_policy cr)) with egress in Hne.
  assert (E1 : same_except (only KNetworkPolicy (key KNetworkPolicy (core_ingress_policy cr))) w w1).
  { destruct (core_ingressDisabled cr); [by eapply touches_deletePolicy|by ret_inv H1]. }
  assert (E3 : same_except (only KNetworkPolicy (key KNetworkPolicy (core_ingress_policy cr))) w2 w3).
  { destruct (core_ingressDisabled cr); simpl in H3; [by ret_inv H3|by eapply touches_createOrUpdatePolicy]. }
  assert (Es : stored w1 KEndpointSlice (nn "default" "kubernetes") = stored w KEndpointSlice (nn "default" "kubernetes"))
    by (apply (same_except_out _ _ _ _ _ E1); by intros []).
  destruct (egress_pass r cr w1 w2 w3 w') as (He & _); [|done..|].
  { eapply quiet_eq; [|exact Hq]. apply (same_except_out _ _ _ _ _ E1). by intros [_ ?]. }
  rewrite <-core_egressEnabled_asked. destruct (core_egressEnabled cr); [|by split].
  split; [intros _|done]. destruct He as (slice & address & more & others & Hs & Ha & Hp).
  exists slice, address, more, others, (egress_namespaces r cr). rewrite <-Es. split; [done|]. split; [done|].
  split; [exact Hp|apply egress_namespaces_spec].
Qed.

(** After a successful pass over the core's policies: the ingress policy is there
    unless it is disabled, open on the proxy's port to every namespace and to the router and
    on the agent gateway's port to the target namespaces; the egress policy is there exactly
    when it is enabled (and the policies are not disabled altogether), towards the address
    the cluster publishes for its API server. *)
Theorem core_policies r cr w w' :
  let ingress := nn (ci_InstallNamespace cr) (ci_Name cr +:+ "-internal-ingress") in
  let egress := nn (ci_InstallNamespace cr) (ci_Name cr +:+ "-internal-egress") in
  quiet w KNetworkPolicy ingress → quiet w KNetworkPolicy egress →
  reconcileCoreNetworkPolicy r cr w = (Ok (), w') →
  (if core_ingressDisabled cr then stored w' KNetworkPolicy ingress = None
   else policy_is w' ingress (core_ingress_spec cr)) ∧
  (if core_egressEnabled cr then
     ∃ slice address more others, stored w KEndpointSlice (nn "default" "kubernetes") = Some slice ∧
       eps_Endpoints slice = (address :: more) :: others ∧
       policy_is w' egress (core_egress_spec r cr address)
   else stored w' KNetworkPolicy egress = None).
Proof.
  intros ingress egress Qi Qe Hrun.
  apply mtry_ok_inv in Hrun as ([] & w1 & H1 & Hrun).
  apply mtry_ok_inv in Hrun as ([] & w2 & H2 & Hrun).
  apply mtry_ok_inv in Hrun as ([] & w3 & H3 & H4).
  assert (E2 : same_except (only KNetworkPolicy egress) w1 w2).
  { clear H3 H4. destruct (core_egressEnabled cr); [by ret_inv H2|]. revert H2. by apply touches_deletePolicy. }
  destruct (ingress_pass cr w w1 w2 w3 Qi H1 E2 H3) as (Hi & E1 & E3).
  assert (Hne := egress_not_ingress cr).
  destruct (egress_pass r cr w1 w2 w3 w') as (He & _ & E4); [|done..|].
  { eapply quiet_eq; [|exact Qe]. apply (same_except_out _ _ _ _ _ E1). by intros [_ ?]. }
  assert (E : stored w' KNetworkPolicy ingress = stored w3 KNetworkPolicy ingress).
  { apply (same_except_out _ _ _ _ _ E4). intros [_ ?]. by apply Hne. }
  split.
  - destruct (core_ingressDisabled cr); [by rewrite E|]. by eapply policy_is_eq.
  - rewrite <-(same_except_out _ _ _ KEndpointSlice (nn "default" "kubernetes") E1) by by intros [].
    exact He.
Qed.

(** The database, storage and reports policies follow the switches of the spec: a
    successful pass leaves no policy when it is disabled (for the storage, also when
    storage is external), and otherwise one that lets in only the pods of the same
    installation that need the component, on its port. *)
Theorem component_policies cr w1 w1' w2 w2' w3 w3' :
  let db := nn (ci_InstallNamespace cr) (ci_Name cr +:+ "-db-internal-ingress") in
  let st := nn (ci_InstallNamespace cr) (ci_Name cr +:+ "-storage-internal-ingress") in
  let rp := nn (ci_InstallNamespace cr) (ci_Name cr +:+ "-reports-internal-ingress") in
  let off c := flag V2.npc_Disabled (policy_config cr c) || flag V2.npc_IngressDisabled (policy_config cr c) in
  quiet w1 KNetworkPolicy db → quiet w2 KNetworkPolicy st → quiet w3 KNetworkPolicy rp →
  reconcileDatabaseNetworkPolicy cr w1 = (Ok (), w1') →
  reconcileStorageNetworkPolicy cr w2 = (Ok (), w2') →
  reconcileReportsNetworkPolicy cr w3 = (Ok (), w3') →
  (if off V2.npl_DatabaseConfig then stored w1' KNetworkPolicy db = None
   else policy_is w1' db (component_ingress_spec (DatabasePodLabels cr)
          [from_pods cr (CorePodLabels cr)] DatabasePort)) ∧
  (if off V2.npl_StorageConfig || negb (DeployManagedStorage cr) then stored w2' KNetworkPolicy st = None
   else policy_is w2' st (component_ingress_spec (StoragePodLabels cr)
          [from_pods cr (CorePodLabels cr); from_pods cr (ReportsPodLabels cr)] StoragePort)) ∧
  (if off V2.npl_ReportsConfig then stored w3' KNetworkPolicy rp = None
   else policy_is w3' rp (component_ingress_spec (ReportsPodLabels cr)
          [from_pods cr (CorePodLabels cr)] ReportsContainerPort)).
Proof.
  intros db st rp off Q1 Q2 Q3 H1 H2 H3. split; [|split].
  - by apply policy_switch in H1.
  - apply policy_switch in H2; [|done]. unfold off.
    destruct (flag V2.npc_Disabled _), (flag V2.npc_IngressDisabled _), (DeployManagedStorage cr); exact H2.
  - by apply policy_switch in H3.
Qed.
End network_policy_properties.

Lemma component_policies_witness :
  policy_is (reconcileDatabaseNetworkPolicy sample_cr fk_sample).2
    (nn "ns" "cryostat-db-internal-ingress")
    (component_ingress_spec (DatabasePodLabels sample_cr) [from_pods sample_cr (CorePodLabels sample_cr)]
       DatabasePort).
Proof.
  assert (Hq : ∀ n, quiet fk_sample KNetworkPolicy n) by (intros n old Ho; discriminate Ho).
  exact (proj1 (component_policies sample_cr fk_sample _ fk_sample _ fk_sample _ (Hq _) (Hq _) (Hq _)
    (run_snd _ _ _ eq_refl) (run_snd _ _ _ eq_refl) (run_snd _ _ _ eq_refl))).
Defined.

(** With egress enabled and the address of the API server published. *)
Definition egress_cr : CryostatInstance :=
  sample_cr <| ci_Object ::= λ o, o <| V2.cr_Spec ::= λ s, s <| V2.spec_NetworkPolicies := Some {|
    V2.npl_CoreConfig := Some {| V2.npc_Disabled := None; V2.npc_IngressDisabled := None;
                                 V2.npc_EgressEnabled := Some true |};
    V2.npl_ReportsConfig := None; V2.npl_DatabaseConfig := None; V2.npl_StorageConfig := None |} |> |> |>.
Definition egress_world : fake :=
  fk_put KEndpointSlice (nn "default" "kubernetes")
    {| eps_meta := NewObjectMeta "kubernetes" "default"; eps_Endpoints := [["10.0.0.1"]] |} fk_sample.
Lemma core_egress_destinations_witness : ∃ namespaces,
  (∀ ns, ns ∈ namespaces ↔ reachable sample_r egress_cr ns) ∧ StronglySorted String.le namespaces.
Proof.
  destruct (core_egress_destinations sample_r egress_cr egress_world
    (reconcileCoreNetworkPolicy sample_r egress_cr egress_world).2) as [Hon _].
  - intros old Ho. discriminate Ho.
  - apply run_snd. vm_compute. reflexivity.
  - destruct Hon as (slice & address & more & others & namespaces & _ & _ & _ & Hin & Hs & _).
    + eexists. split; [reflexivity|]. split; [discriminate|reflexivity].
    + exists namespaces. split; [exact Hin|exact Hs].
Defined.
Lemma core_policies_witness :
  policy_is (reconcileCoreNetworkPolicy sample_r egress_cr egress_world).2
    (nn "ns" "cryostat-internal-ingress") (core_ingress_spec egress_cr) ∧
  ∃ slice address more others, stored egress_world KEndpointSlice (nn "default" "kubernetes") = Some slice ∧
    eps_Endpoints slice = (address :: more) :: others ∧
    policy_is (reconcileCoreNetworkPolicy sample_r egress_cr egress_world).2
      (nn "ns" "cryostat-internal-egress") (core_egress_spec sample_r egress_cr address).
Proof.
  assert (Hq : ∀ n, quiet egress_world KNetworkPolicy n) by (intros n old Ho; discriminate Ho).
  refine (core_policies sample_r egress_cr egress_world _ (Hq _) (Hq _) (run_snd _ _ _ _)).
  vm_compute. reflexivity.
Defined.
