(* ===== verification/Services.v ===== *)
(** * Services, routes and ingresses

    [internal/controller/services.go], [routes.go] and [ingresses.go].  Configuring the
    core route or ingress writes the operator's labels into the CR in memory; the instance
    that results is returned. *)

From S2P Require Export Rbac Resources.
From S2P Require Import FakeClient.
Open Scope Z_scope.

Section services.
Context `{Kube W}.
Implicit Types (r : Reconciler) (cr : CryostatInstance) (specs : ServiceSpecs).

Definition NewService (name namespace : string) : Service := {|
  svc_meta := NewObjectMeta name namespace;
  svc_Spec := {| svs_Ports := []; svs_Selector := None; svs_Type := ""; svs_ClusterIP := ""; svs_rest := [] |} |}.
Definition NewServicePort (name : string) (port target : Z) (appProtocol : option string) : ServicePort := {|
  sp_Name := name; sp_Port := port; sp_TargetPort := IntVal target; sp_AppProtocol := appProtocol; sp_rest := [] |}.

(** ** Configuration *)
Definition configureMetadata (config : V2.ResourceMetadata) (appLabel componentLabel : string)
  : V2.ResourceMetadata := {|
  V2.md_Labels := Some (gm_of_list
    [("app", appLabel); ("component", componentLabel); ("app.kubernetes.io/name", LabelAppName);
     ("app.kubernetes.io/instance", appLabel); ("app.kubernetes.io/component", componentLabel);
     ("app.kubernetes.io/part-of", LabelAppName)] ∪ gm_make (V2.md_Labels config));
  V2.md_Annotations := Some (gm_make (V2.md_Annotations config)) |}.
Definition configureService (config : V2.ServiceConfig) (appLabel componentLabel : string) : V2.ServiceConfig := {|
  V2.svc_ServiceType := Some (default "ClusterIP" (V2.svc_ServiceType config));
  V2.svc_Metadata := configureMetadata (V2.svc_Metadata config) appLabel componentLabel |}.

(** The port (after its default) and the configuration of each service. *)
Definition configureCoreService cr : Z * V2.ServiceConfig :=
  let config := default {| V2.csc_HTTPPort := None; V2.csc_Service := V2.zero_ServiceConfig |}
                  (V2.spec_ServiceOptions (ci_Spec cr) ≫= V2.scl_CoreConfig) in
  (default AuthProxyHttpContainerPort (V2.csc_HTTPPort config),
   configureService (V2.csc_Service config) (ci_Name cr) "cryostat").
Definition configureReportsService cr : Z * V2.ServiceConfig :=
  let config := default {| V2.rsc_HTTPPort := None; V2.rsc_Service := V2.zero_ServiceConfig |}
                  (V2.spec_ServiceOptions (ci_Spec cr) ≫= V2.scl_ReportsConfig) in
  (default ReportsContainerPort (V2.rsc_HTTPPort config),
   configureService (V2.rsc_Service config) (ci_Name cr) "reports").
Definition configureDatabaseService cr : Z * V2.ServiceConfig :=
  let config := default {| V2.dsc_DatabasePort := None; V2.dsc_Service := V2.zero_ServiceConfig |}
                  (V2.spec_ServiceOptions (ci_Spec cr) ≫= V2.scl_DatabaseConfig) in
  (default DatabasePort (V2.dsc_DatabasePort config),
   configureService (V2.dsc_Service config) (ci_Name cr) "database").
Definition configureStorageService cr : Z * V2.ServiceConfig :=
  let config := default {| V2.ssc_HTTPPort := None; V2.ssc_Service := V2.zero_ServiceConfig |}
                  (V2.spec_ServiceOptions (ci_Spec cr) ≫= V2.scl_StorageConfig) in
  (default StoragePort (V2.ssc_HTTPPort config),
   configureService (V2.ssc_Service config) (ci_Name cr) "storage").
Definition configureAgentGatewayService cr : Z * V2.ServiceConfig :=
  let config := default {| V2.agc_HTTPPort := None; V2.agc_Service := V2.zero_ServiceConfig |}
                  (V2.spec_ServiceOptions (ci_Spec cr) ≫= V2.scl_AgentGatewayConfig) in
  (default AgentProxyContainerPort (V2.agc_HTTPPort config),
   configureService (V2.agc_Service config) (ci_Name cr) "cryostat-agent-gateway").
Definition configureAgentCallbackService cr : V2.ResourceMetadata :=
  let config := default {| V2.acc_Metadata := V2.zero_ResourceMetadata |}
                  (V2.spec_ServiceOptions (ci_Spec cr) ≫= V2.scl_AgentCallbackConfig) in
  let metadata := configureMetadata (V2.acc_Metadata config) (ci_Name cr) "cryostat-agent-callback" in
  (* maps.Copy: the labels of the controller's watches win *)
  metadata <| V2.md_Labels ::= λ l, merge_map l (LabelsForTargetNamespaceObject cr) |>.

(** ** Creation and deletion *)
Definition createOrUpdateService (svc : Service) (owner : V2.Cryostat) (config : V2.ServiceConfig)
    (delegate : Service → Service) : M W (Service * res ()) :=
  let* ' (svc, op) := controllerutil_CreateOrUpdate KService svc (λ svc, mretM (
    let svc : Service := svc <| svc_meta ::= λ m, MergeLabelsAndAnnotations m
                 (V2.md_Labels (V2.svc_Metadata config)) (V2.md_Annotations (V2.svc_Metadata config)) |> in
    match controllerutil_SetControllerReference (V2.cr_meta owner) (svc_meta svc) with
    | Err e => (svc, Err e)
    | Ok meta =>
        let svc : Service := svc <| svc_meta := meta |> in
        let svc : Service := svc <| svc_Spec ::= λ s, s <| svs_Type := default "" (V2.svc_ServiceType config) |> |> in
        (delegate svc, Ok ())
    end)) in
  mretM (svc, ok? _ := op in Ok ()).

Definition deleteService (svc : Service) : E W () :=
  let* err := client_Delete KService svc in
  match err with
  | Err e => if kerrors_IsNotFound e then mretM (Ok ()) else mretM (Err e)
  | Ok _ => mretM (Ok ())
  end.

(** The error names the HTTP port whatever port was asked for. *)
Definition GetNamedPort (portName : string) (svc : Service) : res ServicePort :=
  match List.find (λ p, bool_decide (sp_Name p = portName)) (svs_Ports (svc_Spec svc)) with
  | Some port => Ok port
  | None => Err (Errorf ("no " +:+ quoted +:+ " port in %s service in %s namespace")
                   [HttpPortName; om_Name (svc_meta svc); om_Namespace (svc_meta svc)])
  end.
Definition GetHTTPPort (svc : Service) : res ServicePort := GetNamedPort "http" svc.

(** [svc.Spec.Selector] and [svc.Spec.Ports] of the services of one component. *)
Definition select_component cr (component : string) (ports : list ServicePort) (svc : Service) : Service :=
  svc <| svc_Spec ::= λ s,
    s <| svs_Selector := Some (gm_of_list [("app", ci_Name cr); ("component", component)]) |>
      <| svs_Ports := ports |> |>.

(** ** Routes *)
Definition ErrIngressNotReady : error :=
  Sentinel "ErrIngressNotReady" "ingress configuration not yet available".

(** [config.Labels["app"] = ...] on the configuration of the CR itself. *)
Definition configureRoute (config : V2.NetworkConfiguration) (appLabel componentLabel : string)
  : V2.NetworkConfiguration :=
  config <| V2.nwc_Metadata := {|
    V2.md_Labels := Some (gm_of_list [("app", appLabel); ("component", componentLabel)]
                          ∪ gm_make (V2.md_Labels (V2.nwc_Metadata config)));
    V2.md_Annotations := Some (gm_make (V2.md_Annotations (V2.nwc_Metadata config))) |} |>.
Definition configureIngress (config : V2.NetworkConfiguration) (appLabel componentLabel : string)
  : V2.NetworkConfiguration :=
  configureRoute config appLabel componentLabel.

Definition zero_NetworkConfiguration : V2.NetworkConfiguration := {|
  V2.nwc_ExternalHost := None; V2.nwc_IngressSpec := None; V2.nwc_Metadata := V2.zero_ResourceMetadata |}.
Definition core_network cr : option V2.NetworkConfiguration :=
  V2.spec_NetworkOptions (ci_Spec cr) ≫= V2.nwl_CoreConfig.
(** [*cr.Spec.NetworkOptions.CoreConfig = config], when there is one. *)
Definition write_core_network cr (config : V2.NetworkConfiguration) : CryostatInstance :=
  cr <| ci_Object ::= λ o, o <| V2.cr_Spec ::= λ s, s <| V2.spec_NetworkOptions ::= option_map
    (λ n, n <| V2.nwl_CoreConfig ::= option_map (λ _, config) |>) |> |> |>.
(** The configuration, and the instance whose CR shares it. *)
Definition configureCoreRoute cr : CryostatInstance * V2.NetworkConfiguration :=
  let config := configureRoute (default zero_NetworkConfiguration (core_network cr)) (ci_Name cr) "cryostat" in
  (write_core_network cr config, config).
Definition configureCoreIngress cr : CryostatInstance * V2.NetworkConfiguration :=
  let config := configureIngress (default zero_NetworkConfiguration (core_network cr)) (ci_Name cr) "cryostat" in
  (write_core_network cr config, config).

Definition getProtocol (route : Route) : string :=
  match rts_TLS (rt_Spec route) with None => "http" | Some _ => "https" end.

Definition createOrUpdateRoute (route : Route) (owner : V2.Cryostat) (svc : Service)
    (exposePort : ServicePort) (tlsConfig : option TLSConfig) (config : V2.NetworkConfiguration) : E W Route :=
  let routeTLS := match tlsConfig with
    | None => {| rtls_Termination := "edge"; rtls_DestinationCACertificate := "";
                 rtls_InsecureEdgeTerminationPolicy := "Redirect" |}
    | Some tls => {| rtls_Termination := "reencrypt";
                     rtls_DestinationCACertificate := default "" (tls_CACert tls);
                     rtls_InsecureEdgeTerminationPolicy := "Redirect" |}
    end in
  let* ' (route, op) := controllerutil_CreateOrUpdate KRoute route (λ route, mretM (
    let route : Route := route <| rt_meta ::= λ m, MergeLabelsAndAnnotations m
                   (V2.md_Labels (V2.nwc_Metadata config)) (V2.md_Annotations (V2.nwc_Metadata config)) |> in
    match controllerutil_SetControllerReference (V2.cr_meta owner) (rt_meta route) with
    | Err e => (route, Err e)
    | Ok meta =>
        let route : Route := route <| rt_meta := meta |> in
        let route : Route := route <| rt_Spec ::= λ s,
          s <| rts_To_Kind := "Service" |> <| rts_To_Name := om_Name (svc_meta svc) |>
            <| rts_Port := Some (sp_TargetPort exposePort) |> <| rts_TLS := Some routeTLS |> |> in
        let route := match V2.nwc_ExternalHost config with
          | Some host => if CreationTimestamp_IsZero (rt_meta route)
                         then route <| rt_Spec ::= λ s, s <| rts_Host := host |> |> else route
          | None => route
          end in
        (route, Ok ())
    end)) in
  mretM (ok? _ := op in Ok route).

Definition reconcileRoute (route : Route) (svc : Service) cr (tls : option TLSConfig)
    (config : V2.NetworkConfiguration) : E W URL :=
  let? port := mretM (GetHTTPPort svc) in
  let? route := createOrUpdateRoute route (ci_Object cr) svc port tls config in
  mretM (match rt_Status_Ingress route with
         | [] => Err ErrIngressNotReady
         | host :: _ => Ok (URL_of (getProtocol route) host "")
         end).

Definition set_core_url specs (url : option URL) : ServiceSpecs :=
  specs <| sps_AuthProxyURL := url |> <| sps_CoreURL := url |>.

Definition reconcileCoreRoute (svc : Service) cr (tls : option TLSConfig) specs : CrE ServiceSpecs :=
  let route := newCoreRoute cr in
  let '(cr, coreConfig) := configureCoreRoute cr in
  let^ cr, routeURL := cr_call cr (reconcileRoute route svc cr tls coreConfig) in
  cr_ret cr (set_core_url specs (Some routeURL)).

(** ** Ingresses *)
Definition deleteIngress (ingress : Ingress) : E W () :=
  let* err := client_Delete KIngress ingress in
  match err with
  | Err e => if kerrors_IsNotFound e then mretM (Ok ()) else mretM (Err e)
  | Ok _ => mretM (Ok ())
  end.

Definition createOrUpdateIngress (ingress : Ingress) (owner : V2.Cryostat) (ingressSpec : IngressSpec)
    (metadata : V2.ResourceMetadata) : E W Ingress :=
  let* ' (ingress, op) := controllerutil_CreateOrUpdate KIngress ingress (λ ingress, mretM (
    let ingress : Ingress := ingress <| ing_meta ::= λ m, MergeLabelsAndAnnotations m
                     (V2.md_Labels metadata) (V2.md_Annotations metadata) |> in
    match controllerutil_SetControllerReference (V2.cr_meta owner) (ing_meta ingress) with
    | Err e => (ingress, Err e)
    | Ok meta => ((ingress : Ingress) <| ing_meta := meta |> <| ing_Spec := ingressSpec |>, Ok ())
    end)) in
  mretM (ok? _ := op in Ok ingress).

(** No URL without a rule or a host. *)
Definition reconcileIngress (ingress : Ingress) cr (ingressSpec : IngressSpec)
    (metadata : V2.ResourceMetadata) : E W (option URL) :=
  let? ingress := createOrUpdateIngress ingress (ci_Object cr) ingressSpec metadata in
  mretM (match igs_Rules (ing_Spec ingress) with
         | None => Ok None
         | Some [] => Err (Panic "index out of range")
         | Some (rule :: _) =>
             if bool_decide (igr_Host rule = "") then Ok None
             else Ok (Some (URL_of (match igs_TLS (ing_Spec ingress) with
                                      | Some _ => "https" | None => "http" end) (igr_Host rule) ""))
         end).

Definition core_ingress cr : Ingress := {|
  ing_meta := NewObjectMeta (ci_Name cr) (ci_InstallNamespace cr);
  ing_Spec := {| igs_Rules := None; igs_TLS := None; igs_rest := [] |} |}.

Definition reconcileCoreIngress cr specs : CrE ServiceSpecs :=
  match core_network cr ≫= V2.nwc_IngressSpec with
  | None => do^ cr := cr_call cr (deleteIngress (core_ingress cr)) in cr_ret cr specs
  | Some ingressSpec =>
      let ingress := core_ingress cr in
      let '(cr, coreConfig) := configureCoreIngress cr in
      let^ cr, ingressURL := cr_call cr (reconcileIngress ingress cr ingressSpec (V2.nwc_Metadata coreConfig)) in
      cr_ret cr (set_core_url specs ingressURL)
  end.

(** ** The services *)
Definition core_service cr : Service := NewService (ci_Name cr) (ci_InstallNamespace cr).
Definition reconcileCoreService r cr (tls : option TLSConfig) specs : CrE ServiceSpecs :=
  let '(port, config) := configureCoreService cr in
  let appProtocol := match tls with Some _ => HttpsPortName | None => HttpPortName end in
  let* ' (svc, err) := createOrUpdateService (core_service cr) (ci_Object cr) config
    (select_component cr "cryostat"
       [NewServicePort HttpPortName port AuthProxyHttpContainerPort (Some appProtocol)]) in
  match err with
  | Err e => mretM (cr, Err e)
  | Ok _ => if r_IsOpenShift r then reconcileCoreRoute svc cr tls specs else reconcileCoreIngress cr specs
  end.

Definition reports_service cr : Service := NewService (ci_Name cr +:+ "-reports") (ci_InstallNamespace cr).
Definition host_port (host : string) (port : Z) : string := host +:+ ":" +:+ strconv.Itoa port.
Definition reconcileReportsService cr (tls : option TLSConfig) specs : E W ServiceSpecs :=
  let '(port, config) := configureReportsService cr in
  let svc := reports_service cr in
  match V2.spec_ReportOptions (ci_Spec cr) with
  | None => do? deleteService svc in mretM (Ok specs)
  | Some o =>
      if V2.rpc_Replicas o =? 0 then do? deleteService svc in mretM (Ok specs)
      else
        let* ' (svc, err) := createOrUpdateService svc (ci_Object cr) config
          (select_component cr "reports" [NewServicePort HttpPortName port ReportsContainerPort None]) in
        mretM (ok? _ := err in
          Ok (specs <| sps_ReportsURL := Some (URL_of
            (match tls with Some _ => "https" | None => "http" end)
            (host_port (om_Name (svc_meta svc)) port) "") |>))
  end.

Definition newAgentService cr : Service := NewService (ci_Name cr +:+ "-agent") (ci_InstallNamespace cr).
Definition reconcileAgentGatewayService cr : E W () :=
  let '(port, config) := configureAgentGatewayService cr in
  let* ' (_, err) := createOrUpdateService (newAgentService cr) (ci_Object cr) config
    (select_component cr "cryostat" [NewServicePort HttpPortName port AgentProxyContainerPort None]) in
  mretM err.

Definition database_service cr : Service := NewService (ci_Name cr +:+ "-database") (ci_InstallNamespace cr).
Definition reconcileDatabaseService cr specs : E W ServiceSpecs :=
  let '(port, config) := configureDatabaseService cr in
  let* ' (svc, err) := createOrUpdateService (database_service cr) (ci_Object cr) config
    (select_component cr "database" [NewServicePort "jdbc" port DatabasePort None]) in
  mretM (ok? _ := err in
    Ok (specs <| sps_DatabaseURL := Some (URL_of "jdbc:posgtresql"
      (host_port (om_Name (svc_meta svc)) port) DatabaseName) |>)).

Definition storage_service cr : Service := NewService (ci_Name cr +:+ "-storage") (ci_InstallNamespace cr).
Definition reconcileStorageService cr (tls : option TLSConfig) specs : E W ServiceSpecs :=
  let '(port, config) := configureStorageService cr in
  let svc := storage_service cr in
  if negb (DeployManagedStorage cr) then do? deleteService svc in mretM (Ok specs)
  else
    let* ' (svc, err) := createOrUpdateService svc (ci_Object cr) config
      (select_component cr "storage" [NewServicePort HttpPortName port StoragePort None]) in
    mretM (ok? _ := err in
      ok? namedPort := GetNamedPort HttpPortName svc in
      Ok (specs <| sps_StorageURL := Some (URL_of
        (match tls with Some _ => "https" | None => "http" end)
        (host_port (om_Name (svc_meta svc) +:+ "." +:+ om_Namespace (svc_meta svc) +:+ ".svc.cluster.local")
           (sp_Port namedPort)) "") |>)).

(** ** Callback services in the target namespaces *)
Definition newAgentCallbackService r cr (namespace : string) : Service :=
  NewService (AgentCallbackServiceName (r_Kind r) cr) namespace.

Definition callback_service_spec cr (s : ServiceSpec) : ServiceSpec :=
  s <| svs_Selector := Some (gm_of_list [(AgentLabelCryostatName, ci_Name cr);
                                         (AgentLabelCryostatNamespace, ci_InstallNamespace cr)]) |>
    <| svs_Ports := [] |> <| svs_Type := "ClusterIP" |> <| svs_ClusterIP := "None" |>.
Definition createCallbackService r cr (config : V2.ResourceMetadata) (ns : string) : E W () :=
  let* ' (_, op) := controllerutil_CreateOrUpdate KService (newAgentCallbackService r cr ns) (λ svc, mretM (
    (svc <| svc_meta ::= λ m, MergeLabelsAndAnnotations m (V2.md_Labels config) (V2.md_Annotations config) |>
         <| svc_Spec ::= callback_service_spec cr |> : Service, Ok ()))) in
  mretM (ok? _ := op in Ok ()).

Definition reconcileAgentCallbackServices r cr : E W () :=
  let config := configureAgentCallbackService cr in
  do? for_each (ci_TargetNamespaces cr) (createCallbackService r cr config) in
  for_each (toDelete cr) (λ ns, deleteService (newAgentCallbackService r cr ns)).

Definition finalizeAgentCallbackServices r cr : E W () :=
  for_each (ci_TargetNamespaces cr) (λ ns, deleteService (newAgentCallbackService r cr ns)).
End services.

(** ** Lemmas *)
Section service_lemmas.
Context `{KubeLaws W}.
Implicit Types (r : Reconciler) (cr : CryostatInstance) (specs : ServiceSpecs) (w : W).

Lemma touches_createOrUpdateService (S : Kind → NamespacedName → Prop) svc owner config delegate :
  S KService (key KService svc) → touches S (createOrUpdateService svc owner config delegate).
Proof. intros HS. unfold createOrUpdateService. touch. exact HS. Qed.
Lemma touches_deleteService (S : Kind → NamespacedName → Prop) svc :
  S KService (key KService svc) → touches S (deleteService svc).
Proof. intros HS. unfold deleteService. touch. exact HS. Qed.
Lemma deleteService_gone svc w w' :
  unheld w KService (key KService svc) → deleteService svc w = (Ok (), w') →
  stored w' KService (key KService svc) = None.
Proof.
  intros Hh (res & w1 & Hd & Hrun)%mbindM_inv.
  destruct res as [[]|e]; [|destruct (kerrors_IsNotFound e) eqn:He]; ret_inv Hrun;
    eapply (Delete_gone KService); eauto.
Qed.

(** The service [n] forwards [ports] to pods that all have [labels]. *)
Definition forwards w (n : NamespacedName) (labels : gomap string) (ports : list (string * Z)) : Prop :=
  ∃ got, stored w KService n = Some got ∧
    gm_make (svs_Selector (svc_Spec got)) ≠ ∅ ∧
    (∀ k v, gm_make (svs_Selector (svc_Spec got)) !! k = Some v → gm_lookup labels k = Some v) ∧
    map sp_Name (svs_Ports (svc_Spec got)) = ports.*1 ∧
    map sp_Port (svs_Ports (svc_Spec got)) = ports.*2.

(** What the callback wrote, as the server stores it and as the caller sees it. *)
Lemma createOrUpdateService_ok svc owner config delegate w svc' w' :
  (∀ old, stored w KService (key KService svc) = Some old → om_DeletionTimestamp (svc_meta old) = None) →
  createOrUpdateService svc owner config delegate w = ((svc', Ok ()), w') →
  ∃ base got, stored w' KService (key KService svc) = Some got ∧
    keeps_fields KService (delegate base) got ∧ keeps_fields KService (delegate base) svc' ∧
    key KService svc' = key KService svc.
Proof.
  intros Hd ([o [op|e]] & w1 & Hc & Hrun)%mbindM_inv; ret_inv Hrun.
  apply CreateOrUpdate_answer in Hc
    as (base & w2 & o1 & w3 & got & _ & _ & Hf & Hkey & Hgot & [_ Hk] & _ & Hans);
    [|by intros ???? [= _ <-]|exact Hd].
  assert (Hs : ∃ base', o1 = delegate base').
  { unfold mretM in Hf. injection Hf as Hf _.
    destruct (controllerutil_SetControllerReference _ _); [|done]. injection Hf as <-. eauto. }
  destruct Hs as [base' ->]. exists base', got. split_and!; [done..| |].
  - destruct Hans as [->| ->]; [exact Hk|]. simpl. split_and!; try done. apply keeps_target_refl.
  - destruct Hans as [->| ->]; [exact (stored_key _ _ _ _ Hgot)|exact Hkey].
Qed.

Lemma component_selector_labels cr component k v :
  gm_of_list [("app", ci_Name cr); ("component", component)] !! k = Some v →
  gm_lookup (Some (component_labels cr component)) k = Some v.
Proof.
  unfold gm_lookup, component_labels, gm_of_list. simpl.
  rewrite !lookup_insert_Some, lookup_empty. naive_solver.
Qed.

(** A component's service forwards its ports to the component's pods. *)
Lemma component_service_ok svc cr config component ports w svc' w' :
  quiet w KService (key KService svc) →
  createOrUpdateService svc (ci_Object cr) config (select_component cr component ports) w =
    ((svc', Ok ()), w') →
  forwards w' (key KService svc) (Some (component_labels cr component))
    (map (λ p, (sp_Name p, sp_Port p)) ports) ∧
  key KService svc' = key KService svc ∧
  map sp_Name (svs_Ports (svc_Spec svc')) = map sp_Name ports ∧
  map sp_Port (svs_Ports (svc_Spec svc')) = map sp_Port ports.
Proof.
  intros Hq Hrun. apply createOrUpdateService_ok in Hrun
    as (base & got & Hgot & (Hn & Hp & Hs & _) & (Hn' & Hp' & _) & Hkey);
    [|intros old Ho; by apply Hq in Ho as [_ ?]].
  split; [|done]. exists got. split; [done|].
  change (gm_make (svs_Selector (svc_Spec got)) =
    gm_of_list [("app", ci_Name cr); ("component", component)]) in Hs. rewrite Hs.
  change (map ?f ?l) with (f <$> l). rewrite <-!list_fmap_compose. split_and!; [| |done..].
  - intros He. assert (Ha : gm_of_list [("app", ci_Name cr); ("component", component)] !! "component" = Some component)
      by apply lookup_insert_eq. by rewrite He in Ha.
  - intros k v. apply component_selector_labels.
Qed.

(** The numbered ports of the pods it forwards to. *)
Lemma component_service_targets svc cr config component ports w svc' w' :
  quiet w KService (key KService svc) → Forall (λ p, ∃ z, sp_TargetPort p = IntVal z ∧ z ≠ 0) ports →
  createOrUpdateService svc (ci_Object cr) config (select_component cr component ports) w =
    ((svc', Ok ()), w') →
  ∃ got, stored w' KService (key KService svc) = Some got ∧
    map sp_TargetPort (svs_Ports (svc_Spec got)) = map sp_TargetPort ports.
Proof.
  intros Hq Hz Hrun. apply createOrUpdateService_ok in Hrun
    as (base & got & Hgot & (_ & _ & _ & _ & Ht) & _); [|intros old Ho; by apply Hq in Ho as [_ ?]].
  exists got. split; [done|]. change (Forall2 keeps_target ports (svs_Ports (svc_Spec got))) in Ht.
  revert Hz. induction Ht as [|p q ps qs Hpq _ IH]; [done|]. intros Hz.
  apply Forall_cons in Hz as [(z & Hp & Hz) Hzs]. simpl. rewrite IH by done. f_equal. apply Hpq; rewrite Hp; [|done].
  by intros [= ->].
Qed.

Lemma GetNamedPort_single name svc p port :
  map sp_Name (svs_Ports (svc_Spec svc)) = [name] → map sp_Port (svs_Ports (svc_Spec svc)) = [port] →
  GetNamedPort name svc = Ok p → sp_Port p = port.
Proof.
  unfold GetNamedPort. destruct (svs_Ports (svc_Spec svc)) as [|q [|]]; [done| |done].
  simpl. intros [= Hn] [= Hp]. rewrite bool_decide_true by done. by intros [= <-].
Qed.

Lemma svc_name svc n : key KService svc = n → om_Name (svc_meta svc) = nn_Name n.
Proof. by intros <-. Qed.
Lemma svc_namespace svc n : key KService svc = n → om_Namespace (svc_meta svc) = nn_Namespace n.
Proof. by intros <-. Qed.

(** *** Callback services *)
Definition callback_name r cr : string := AgentCallbackServiceName (r_Kind r) cr.
Definition callback_key r cr (ns : string) : NamespacedName := nn ns (callback_name r cr).
(** A headless service over the agents of this Cryostat. *)
Definition headless_for cr (got : Service) : Prop :=
  gm_make (svs_Selector (svc_Spec got)) =
    gm_of_list [(AgentLabelCryostatName, ci_Name cr); (AgentLabelCryostatNamespace, ci_InstallNamespace cr)] ∧
  svs_Ports (svc_Spec got) = [] ∧ svs_ClusterIP (svc_Spec got) = "None" ∧
  keeps_map (LabelsForTargetNamespaceObject cr) (om_Labels (svc_meta got)).

Lemma touches_createCallbackService r cr config ns :
  touches (only KService (callback_key r cr ns)) (createCallbackService r cr config ns).
Proof. unfold createCallbackService. touch. done. Qed.
Lemma touches_deleteCallbackService r cr ns :
  touches (only KService (callback_key r cr ns)) (deleteService (newAgentCallbackService r cr ns)).
Proof. by apply touches_deleteService. Qed.

Lemma configureAgentCallbackService_labels cr :
  keeps_map (LabelsForTargetNamespaceObject cr) (V2.md_Labels (configureAgentCallbackService cr)).
Proof.
  intros k v Hk. unfold configureAgentCallbackService. cbv zeta.
  by refine (merge_map_src _ (LabelsForTargetNamespaceObject cr) k v _).
Qed.
Lemma createCallbackService_ok r cr ns w w' :
  quiet w KService (callback_key r cr ns) →
  createCallbackService r cr (configureAgentCallbackService cr) ns w = (Ok (), w') →
  ∃ got, stored w' KService (callback_key r cr ns) = Some got ∧ headless_for cr got.
Proof.
  intros Hq ([o [op|e]] & w1 & Hc & Hrun)%mbindM_inv; ret_inv Hrun.
  apply CreateOrUpdate_ok in Hc
    as (base & w2 & o1 & w3 & got & _ & _ & Hf & _ & Hgot & [(Hl & _) (Hn & Hp & Hs & Hip & _)] & _);
    [|by intros ???? [= _ <-]|intros old Ho; by apply Hq in Ho as [_ ?]].
  exists got. split; [done|]. unfold mretM in Hf. injection Hf as <- _.
  split_and!; [exact Hs| |exact (Hip ltac:(done))|].
  - by destruct (svs_Ports (svc_Spec got)).
  - intros k v Hk. apply Hl. refine (merge_map_src _ _ k v _). by apply configureAgentCallbackService_labels.
Qed.
Lemma touches_reconcileAgentCallbackServices r cr :
  touches (λ k n, k = KService ∧ nn_Name n = callback_name r cr ∧
                  (nn_Namespace n ∈ ci_TargetNamespaces cr ∨ nn_Namespace n ∈ ci_TargetNamespaceStatus cr))
    (reconcileAgentCallbackServices r cr).
Proof.
  apply touches_try; [|intros _]; apply touches_for_each; intros ns Hns.
  - eapply touches_weaken; [|apply touches_createCallbackService]. intros k n [-> ->]. simpl. auto.
  - apply touches_deleteService. apply elem_of_toDelete in Hns as [? _]. simpl. auto.
Qed.
Lemma touches_finalizeAgentCallbackServices r cr :
  touches (λ k n, k = KService ∧ nn_Name n = callback_name r cr ∧ nn_Namespace n ∈ ci_TargetNamespaces cr)
    (finalizeAgentCallbackServices r cr).
Proof. apply touches_for_each; intros ns Hns. by apply touches_deleteService. Qed.
Lemma callback_key_inj r cr x y : callback_key r cr x = callback_key r cr y → x = y.
Proof. unfold callback_key. by injection 1. Qed.
Lemma finalizeAgentCallbackServices_ok r cr w w' :
  (∀ ns, ns ∈ ci_TargetNamespaces cr → unheld w KService (callback_key r cr ns)) →
  finalizeAgentCallbackServices r cr w = (Ok (), w') →
  ∀ ns, ns ∈ ci_TargetNamespaces cr → stored w' KService (callback_key r cr ns) = None.
Proof.
  apply (revoke_all KService (callback_key r cr) _ (callback_key_inj r cr) (touches_deleteCallbackService r cr)
    (λ ns u u', deleteService_gone (newAgentCallbackService r cr ns) u u')).
Qed.
End service_lemmas.

(** *** What the services, routes and ingresses touch *)
Section service_touches.
Context `{KubeLaws W}.
Implicit Types (S : Kind → NamespacedName → Prop).

Lemma touches_reconcileCoreRoute S cr svc tls specs :
  S KRoute (nn (ci_InstallNamespace cr) (ci_Name cr)) → touches S (reconcileCoreRoute svc cr tls specs).
Proof.
  intros HS. unfold reconcileCoreRoute, configureCoreRoute.
  apply touches_cr_try; [|intros; apply touches_ret]. apply touches_cr_call.
  unfold reconcileRoute, createOrUpdateRoute. touch. exact HS.
Qed.
Lemma touches_reconcileCoreIngress S cr specs :
  S KIngress (nn (ci_InstallNamespace cr) (ci_Name cr)) → touches S (reconcileCoreIngress cr specs).
Proof.
  intros HS. unfold reconcileCoreIngress.
  destruct (core_network cr ≫= V2.nwc_IngressSpec) as [spec|]; [unfold configureCoreIngress|];
    (apply touches_cr_try; [apply touches_cr_call|intros; apply touches_ret]).
  - unfold reconcileIngress, createOrUpdateIngress. touch. exact HS.
  - unfold deleteIngress. touch. exact HS.
Qed.
Lemma touches_reconcileCoreService S r cr tls specs :
  S KService (nn (ci_InstallNamespace cr) (ci_Name cr)) →
  S KRoute (nn (ci_InstallNamespace cr) (ci_Name cr)) →
  S KIngress (nn (ci_InstallNamespace cr) (ci_Name cr)) →
  touches S (reconcileCoreService r cr tls specs).
Proof.
  intros Hs Hr Hi. unfold reconcileCoreService. destruct (configureCoreService cr) as [port config].
  apply touches_bind; [by apply touches_createOrUpdateService|]. intros [svc [[]|e]]; [|apply touches_ret].
  destruct (r_IsOpenShift r); [by apply touches_reconcileCoreRoute|by apply touches_reconcileCoreIngress].
Qed.

(** A component's service, created or deleted. *)
Lemma touches_component_service {A} S svc owner config delegate (f : Service * res () → res A) :
  S KService (key KService svc) →
  touches S (let* p := createOrUpdateService svc owner config delegate in mretM (f p)).
Proof.
  intros HS. apply touches_bind; [by apply touches_createOrUpdateService|intros; apply touches_ret].
Qed.
Lemma touches_reconcileReportsService S cr tls specs :
  S KService (nn (ci_InstallNamespace cr) (ci_Name cr +:+ "-reports")) →
  touches S (reconcileReportsService cr tls specs).
Proof.
  intros HS. unfold reconcileReportsService. destruct (configureReportsService cr) as [port config].
  assert (Hdel : touches S (do? deleteService (reports_service cr) in mretM (Ok specs))).
  { apply touches_try; [by apply touches_deleteService|intros; apply touches_ret]. }
  destruct (V2.spec_ReportOptions (ci_Spec cr)) as [o|]; [|done]. destruct (_ =? 0); [done|].
  apply touches_bind; [by apply touches_createOrUpdateService|intros [? ?]; apply touches_ret].
Qed.
Lemma touches_reconcileAgentGatewayService S cr :
  S KService (nn (ci_InstallNamespace cr) (ci_Name cr +:+ "-agent")) →
  touches S (reconcileAgentGatewayService cr).
Proof.
  intros HS. unfold reconcileAgentGatewayService. destruct (configureAgentGatewayService cr) as [port config].
  apply touches_bind; [by apply touches_createOrUpdateService|intros [? ?]; apply touches_ret].
Qed.
Lemma touches_reconcileDatabaseService S cr specs :
  S KService (nn (ci_InstallNamespace cr) (ci_Name cr +:+ "-database")) →
  touches S (reconcileDatabaseService cr specs).
Proof.
  intros HS. unfold reconcileDatabaseService. destruct (configureDatabaseService cr) as [port config].
  apply touches_bind; [by apply touches_createOrUpdateService|intros [? ?]; apply touches_ret].
Qed.
Lemma touches_reconcileStorageService S cr tls specs :
  S KService (nn (ci_InstallNamespace cr) (ci_Name cr +:+ "-storage")) →
  touches S (reconcileStorageService cr tls specs).
Proof.
  intros HS. unfold reconcileStorageService. destruct (configureStorageService cr) as [port config].
  destruct (DeployManagedStorage cr); simpl.
  - apply touches_bind; [by apply touches_createOrUpdateService|intros [? ?]; apply touches_ret].
  - apply touches_try; [by apply touches_deleteService|intros; apply touches_ret].
Qed.
End service_touches.

(** ** Properties *)
Section service_properties.
Context `{KubeLaws W}.
Implicit Types (r : Reconciler) (cr : CryostatInstance) (specs : ServiceSpecs) (w : W).

(** The services of the database, of the managed storage and of the reports generator
    follow the spec: a service that is not wanted is gone and adds no address; one that is
    wanted forwards its configured port to that component's pods, and the address handed to
    the core names the service and that port. *)
Theorem component_services cr tls specs w1 s1 w1' w2 s2 w2' w3 s3 w3' :
  let at_ suffix := nn (ci_InstallNamespace cr) (ci_Name cr +:+ suffix) in
  let scheme := match tls with Some _ => "https" | None => "http" end in
  let wants_reports := match V2.spec_ReportOptions (ci_Spec cr) with
                       | Some o => negb (V2.rpc_Replicas o =? 0) | None => false end in
  let dbPort := (configureDatabaseService cr).1 in
  let storagePort := (configureStorageService cr).1 in
  let reportsPort := (configureReportsService cr).1 in
  quiet w1 KService (at_ "-database") → quiet w2 KService (at_ "-storage") → quiet w3 KService (at_ "-reports") →
  reconcileDatabaseService cr specs w1 = (Ok s1, w1') →
  reconcileStorageService cr tls specs w2 = (Ok s2, w2') →
  reconcileReportsService cr tls specs w3 = (Ok s3, w3') →
  (forwards w1' (at_ "-database") (DatabasePodLabels cr) [("jdbc", dbPort)] ∧
   s1 = specs <| sps_DatabaseURL := Some (URL_of "jdbc:posgtresql"
          (host_port (ci_Name cr +:+ "-database") dbPort) DatabaseName) |>) ∧
  (if DeployManagedStorage cr then
     forwards w2' (at_ "-storage") (StoragePodLabels cr) [("http", storagePort)] ∧
     s2 = specs <| sps_StorageURL := Some (URL_of scheme (host_port (ci_Name cr +:+ "-storage" +:+ "." +:+
            ci_InstallNamespace cr +:+ ".svc.cluster.local") storagePort) "") |>
   else stored w2' KService (at_ "-storage") = None ∧ s2 = specs) ∧
  (if wants_reports then
     forwards w3' (at_ "-reports") (ReportsPodLabels cr) [("http", reportsPort)] ∧
     s3 = specs <| sps_ReportsURL := Some (URL_of scheme (host_port (ci_Name cr +:+ "-reports") reportsPort) "") |>
   else stored w3' KService (at_ "-reports") = None ∧ s3 = specs).
Proof.
  intros at_ scheme wants dbPort storagePort reportsPort Q1 Q2 Q3 H1 H2 H3. split; [|split].
  - unfold reconcileDatabaseService, dbPort in *. destruct (configureDatabaseService cr) as [port config].
    apply mbindM_inv in H1 as ([svc [[]|e]] & w & Hc & Hrun); ret_inv Hrun.
    apply component_service_ok in Hc as (Hf & Hkey & _); [|exact Q1].
    split; [exact Hf|]. by rewrite (svc_name _ _ Hkey).
  - unfold reconcileStorageService, storagePort in *. destruct (configureStorageService cr) as [port config].
    destruct (DeployManagedStorage cr); simpl in H2.
    + apply mbindM_inv in H2 as ([svc [[]|e]] & w & Hc & Hrun); [|ret_inv Hrun].
      apply component_service_ok in Hc as (Hf & Hkey & Hn & Hp); [|exact Q2].
      unfold mretM, rbind in Hrun. destruct (GetNamedPort HttpPortName svc) as [p|] eqn:Eg; [|done].
      injection Hrun as <- ->. split; [exact Hf|].
      rewrite (svc_name _ _ Hkey), (svc_namespace _ _ Hkey), (GetNamedPort_single _ _ _ _ Hn Hp Eg).
      change (nn_Name (key KService (storage_service cr))) with (ci_Name cr +:+ "-storage").
      unfold host_port. by rewrite !append_assoc.
    + apply mtry_ok_inv in H2 as ([] & w & Hd & Hrun). ret_inv Hrun.
      split; [|done]. by apply deleteService_gone in Hd; [|by apply quiet_unheld].
  - unfold reconcileReportsService, wants, reportsPort in *.
    destruct (configureReportsService cr) as [port config].
    assert (Hdel : (do? deleteService (reports_service cr) in mretM (Ok specs)) w3 = (Ok s3, w3') →
      stored w3' KService (at_ "-reports") = None ∧ s3 = specs).
    { intros ([] & w & Hd & Hrun)%mtry_ok_inv. ret_inv Hrun.
      split; [|done]. by apply deleteService_gone in Hd; [|by apply quiet_unheld]. }
    destruct (V2.spec_ReportOptions (ci_Spec cr)) as [o|]; [|by apply Hdel].
    destruct (V2.rpc_Replicas o =? 0); [by apply Hdel|]. simpl.
    apply mbindM_inv in H3 as ([svc [[]|e]] & w & Hc & Hrun); ret_inv Hrun.
    apply component_service_ok in Hc as (Hf & Hkey & _); [|exact Q3].
    split; [exact Hf|]. by rewrite (svc_name _ _ Hkey).
Qed.

(** After a successful pass, every target namespace has the headless service over the
    agents of this Cryostat, with the labels that lead back to the CR, and the namespaces
    of the status that are no longer targets have none. *)
Theorem reconcileAgentCallbackServices_ok r cr w w' :
  NoDup (ci_TargetNamespaces cr) →
  (∀ ns, ns ∈ ci_TargetNamespaces cr ∨ ns ∈ ci_TargetNamespaceStatus cr →
     quiet w KService (callback_key r cr ns)) →
  reconcileAgentCallbackServices r cr w = (Ok (), w') →
  (∀ ns, ns ∈ ci_TargetNamespaces cr →
     ∃ got, stored w' KService (callback_key r cr ns) = Some got ∧ headless_for cr got) ∧
  (∀ ns, ns ∈ ci_TargetNamespaceStatus cr → ns ∉ ci_TargetNamespaces cr →
     stored w' KService (callback_key r cr ns) = None).
Proof.
  intros Hnd Hq Hrun.
  eapply (per_namespace_ok KService (callback_key r cr) _ _ (headless_for cr)) in Hrun as [Hg Hr].
  - split; [exact Hg|]. intros ns Hst Hnt. apply Hr. by apply elem_of_toDelete.
  - apply callback_key_inj.
  - intros ns. apply touches_createCallbackService.
  - intros ns. apply touches_deleteCallbackService.
  - intros ns u u'. apply createCallbackService_ok.
  - intros ns u u'. by apply (deleteService_gone (newAgentCallbackService r cr ns)).
  - done.
  - by intros ns [_ ?]%elem_of_toDelete.
  - intros ns [Hns|[Hns _]%elem_of_toDelete]; apply Hq; auto.
Qed.
End service_properties.

(** ** Witnesses *)
Lemma component_services_witness :
  forwards (reconcileDatabaseService sample_cr zero_ServiceSpecs fk_sample).2
    (nn "ns" "cryostat-database") (DatabasePodLabels sample_cr) [("jdbc", 5432)].
Proof.
  assert (Hq : ∀ n, quiet fk_sample KService n) by (intros n old Ho; discriminate Ho).
  refine (proj1 (proj1 (component_services sample_cr None zero_ServiceSpecs fk_sample _ _ fk_sample _ _
    fk_sample _ _ (Hq _) (Hq _) (Hq _) (run_snd _ _ _ _) (run_snd _ _ _ _) (run_snd _ _ _ _))));
    vm_compute; reflexivity.
Defined.
Lemma reconcileAgentCallbackServices_ok_witness :
  let w' := (reconcileAgentCallbackServices sample_r sample_cr fk_sample).2 in
  (∃ got, stored w' KService (callback_key sample_r sample_cr "a") = Some got ∧ headless_for sample_cr got) ∧
  stored w' KService (callback_key sample_r sample_cr "b") = None.
Proof.
  destruct (reconcileAgentCallbackServices_ok sample_r sample_cr fk_sample
    (reconcileAgentCallbackServices sample_r sample_cr fk_sample).2) as (Hg & Hr).
  - apply (bool_decide_unpack _). exact I.
  - intros ns _ old Ho. discriminate Ho.
  - apply run_snd. vm_compute. reflexivity.
  - split; [apply Hg|apply Hr]; apply (bool_decide_unpack _); exact I.
Defined.
