(* ===== verification/Pvc.v ===== *)
(** * Persistent volume claims

    [internal/controller/pvc.go]: the claims of the database and of the managed storage.
    The operator never deletes a claim; the theorems say that a bound claim stays bound to
    its volume. *)

From S2P Require Export Resources.
From S2P Require Import FakeClient.
Open Scope Z_scope.

Definition mib : Z := 1024 * 1024.
Definition gib : Z := 1024 * mib.
Definition DefaultDatabasePVCSize : Z := 500 * mib.
Definition DefaultStoragePVCSize : Z := 32 * gib.
Definition eventPersistentVolumeClaimInvalidType : string := "PersistentVolumeClaimInvalid".

Definition zero_PersistentVolumeClaimSpec : PersistentVolumeClaimSpec := {|
  pvs_AccessModes := None; pvs_Resources := {| vrr_Requests := None; vrr_Limits := None |};
  pvs_VolumeName := ""; pvs_StorageClassName := None; pvs_rest := [] |}.

Section pvc.
Context `{Kube W, QuantityOps}.
Implicit Types (cr : CryostatInstance).

(** The configuration of a claim; its spec is always set in the result. *)
Record pvc_config := {
  pvcfg_Labels : gmap string string; pvcfg_Annotations : gmap string string;
  pvcfg_Spec : PersistentVolumeClaimSpec }.
Definition configurePVC (name : string) (cfg : option V2.StorageConfiguration) (defaultSize : Quantity)
  : pvc_config :=
  let config := default {| V2.pcc_Spec := None; V2.pcc_Metadata := V2.zero_ResourceMetadata |}
                  (cfg ≫= V2.stc_PVC) in
  let spec := default zero_PersistentVolumeClaimSpec (V2.pcc_Spec config) in
  let spec := match vrr_Requests (pvs_Resources spec) with
              | None => spec <| pvs_Resources ::= λ rs,
                          rs <| vrr_Requests := Some {[ ResourceStorage := defaultSize ]} |> |>
              | Some _ => spec
              end in
  let spec := match pvs_AccessModes spec with
              | None => spec <| pvs_AccessModes := Some ["ReadWriteOnce"] |>
              | Some _ => spec
              end in
  {| pvcfg_Labels := <["app" := name]> (gm_make (V2.md_Labels (V2.pcc_Metadata config)));
     pvcfg_Annotations := gm_make (V2.md_Annotations (V2.pcc_Metadata config));
     pvcfg_Spec := spec |}.

(** Writing to the nil map of a stored claim without requests panics. *)
Definition mutatePVC (owner : V2.Cryostat) (config : pvc_config) (pvc : PersistentVolumeClaim)
  : PersistentVolumeClaim * res () :=
  let pvc : PersistentVolumeClaim := pvc <| pvc_meta ::= λ m,
    MergeLabelsAndAnnotations m (Some (pvcfg_Labels config)) (Some (pvcfg_Annotations config)) |> in
  match controllerutil_SetControllerReference (V2.cr_meta owner) (pvc_meta pvc) with
  | Err e => (pvc, Err e)
  | Ok meta =>
      let pvc : PersistentVolumeClaim := pvc <| pvc_meta := meta |> in
      if CreationTimestamp_IsZero (pvc_meta pvc) then (pvc <| pvc_Spec := pvcfg_Spec config |>, Ok ())
      else
        let requestedStorage :=
          ResourceList_Storage (gm_make (vrr_Requests (pvs_Resources (pvcfg_Spec config)))) in
        match vrr_Requests (pvs_Resources (pvc_Spec pvc)) with
        | None => (pvc, Err (Panic "assignment to entry in nil map"))
        | Some requests =>
            (pvc <| pvc_Spec ::= λ s, s <| pvs_Resources ::= λ rs,
               rs <| vrr_Requests := Some (<[ResourceStorage := requestedStorage]> requests) |> |> |>, Ok ())
        end
  end.

Definition createOrUpdatePVC (pvc : PersistentVolumeClaim) (owner : V2.Cryostat) (config : pvc_config) : E W () :=
  let* ' (_, op) := controllerutil_CreateOrUpdate KPVC pvc (λ pvc, mretM (mutatePVC owner config pvc)) in
  mretM (ok? _ := op in Ok ()).

Definition NewPVC (name namespace : string) : PersistentVolumeClaim :=
  {| pvc_meta := NewObjectMeta name namespace; pvc_Spec := zero_PersistentVolumeClaimSpec |}.

(** The user asked for an emptyDir volume. *)
Definition wants_emptyDir (cfg : option V2.StorageConfiguration) : bool :=
  match cfg ≫= V2.stc_EmptyDir with Some e => V2.edc_Enabled e | None => false end.

Definition reconcilePVC cr (storageConfiguration : option V2.StorageConfiguration)
    (defaultSize : Quantity) (nameSuffix : option string) : E W () :=
  if wants_emptyDir storageConfiguration then mretM (Ok ())
  else
    let name := match nameSuffix with None => ci_Name cr | Some s => ci_Name cr +:+ "-" +:+ s end in
    let config := configurePVC (ci_Name cr) storageConfiguration defaultSize in
    let* err := createOrUpdatePVC (NewPVC name (ci_InstallNamespace cr)) (ci_Object cr) config in
    match err with
    | Err e =>
        if kerrors_IsInvalid e then
          let* _ := EventRecorder_Event (ci_Object cr) "Warning" eventPersistentVolumeClaimInvalidType
                      (err_Error e) in
          mretM (Err e)
        else mretM (Err e)
    | Ok _ => mretM (Ok ())
    end.

(** [StorageConfiguration(cr.Spec.StorageOptions.LegacyStorageConfiguration)] *)
Definition of_legacy (l : V2.LegacyStorageConfiguration) : V2.StorageConfiguration :=
  {| V2.stc_PVC := V2.lst_PVC l; V2.stc_EmptyDir := V2.lst_EmptyDir l |}.
Definition storage_config cr (f : V2.StorageConfigurations → option V2.StorageConfiguration)
  : option V2.StorageConfiguration :=
  match V2.spec_StorageOptions (ci_Spec cr) with
  | None => None
  | Some o => match f o with Some c => Some c | None => Some (of_legacy (V2.sto_Legacy o)) end
  end.

Definition reconcileDatabasePVC cr : E W () :=
  reconcilePVC cr (storage_config cr V2.sto_Database)
    (resource_NewQuantity DefaultDatabasePVCSize BinarySI) (Some "database").
Definition reconcileStoragePVC cr : E W () :=
  let cfg := storage_config cr V2.sto_ObjectStorage in
  if negb (DeployManagedStorage cr) then mretM (Ok ())
  else reconcilePVC cr cfg (resource_NewQuantity DefaultStoragePVCSize BinarySI) (Some "storage").
End pvc.

(** ** Lemmas *)
Section pvc_lemmas.
Context `{KubeLaws W, QuantityOps}.
Implicit Types (cr : CryostatInstance) (w : W).

Lemma touches_reconcilePVC (S : Kind → NamespacedName → Prop) cr cfg size suffix :
  S KPVC (nn (ci_InstallNamespace cr) (ci_Name cr +:+ "-" +:+ suffix)) →
  touches S (reconcilePVC cr cfg size (Some suffix)).
Proof.
  intros HS. unfold reconcilePVC, createOrUpdatePVC. touch. exact HS.
Qed.

(** Every wanted entry is there, and so is every old one that is not overwritten. *)
Definition map_follows (wanted : gmap string string) (old got : gomap string) : Prop :=
  keeps_map (Some wanted) got ∧
  ∀ k v, wanted !! k = None → gm_lookup old k = Some v → gm_lookup got k = Some v.
Lemma map_follows_merge wanted old got : keeps_map (merge_map old (Some wanted)) got → map_follows wanted old got.
Proof.
  intros Hk. split; [intros k v Hv; by apply Hk, merge_map_src|].
  intros k v Hn Hv. apply Hk. by rewrite (merge_map_dest _ (Some wanted)).
Qed.
(** What a pass leaves of a claim that was there. *)
Definition claim_updated (size : Quantity) (labels annotations : gmap string string)
    (old got : PersistentVolumeClaim) : Prop :=
  pvs_AccessModes (pvc_Spec got) = pvs_AccessModes (pvc_Spec old) ∧
  (pvs_VolumeName (pvc_Spec old) ≠ "" → pvs_VolumeName (pvc_Spec got) = pvs_VolumeName (pvc_Spec old)) ∧
  (pvs_StorageClassName (pvc_Spec old) ≠ None →
   pvs_StorageClassName (pvc_Spec got) = pvs_StorageClassName (pvc_Spec old)) ∧
  gm_lookup (vrr_Requests (pvs_Resources (pvc_Spec got))) ResourceStorage = Some size ∧
  (∀ k, k ≠ ResourceStorage → gm_lookup (vrr_Requests (pvs_Resources (pvc_Spec got))) k =
                              gm_lookup (vrr_Requests (pvs_Resources (pvc_Spec old))) k) ∧
  map_follows labels (om_Labels (pvc_meta old)) (om_Labels (pvc_meta got)) ∧
  map_follows annotations (om_Annotations (pvc_meta old)) (om_Annotations (pvc_meta got)).

Definition requested (config : pvc_config) : Quantity :=
  ResourceList_Storage (gm_make (vrr_Requests (pvs_Resources (pvcfg_Spec config)))).

Lemma mutatePVC_existing owner config base o1 got :
  CreationTimestamp_IsZero (pvc_meta base) = false →
  mutatePVC owner config base = (o1, Ok ()) → kept KPVC o1 got →
  claim_updated (requested config) (pvcfg_Labels config) (pvcfg_Annotations config) base got.
Proof.
  intros Hc Hf [(Hl & Ha & _) (Hreq & Ham & Hvol & Hsc)]. unfold mutatePVC in Hf.
  destruct (controllerutil_SetControllerReference _ _) as [meta|] eqn:Er; [|done].
  apply SetControllerReference_Ok in Er as [E _].
  assert (Hz : CreationTimestamp_IsZero meta = CreationTimestamp_IsZero (pvc_meta base)) by by rewrite E.
  change (CreationTimestamp_IsZero (pvc_meta (base <| pvc_meta ::= _ |> <| pvc_meta := meta |>)))
    with (CreationTimestamp_IsZero meta) in Hf. rewrite Hz, Hc in Hf.
  change (vrr_Requests (pvs_Resources (pvc_Spec (base <| pvc_meta ::= _ |> <| pvc_meta := meta |>))))
    with (vrr_Requests (pvs_Resources (pvc_Spec base))) in Hf.
  destruct (vrr_Requests (pvs_Resources (pvc_Spec base))) as [reqs|] eqn:Eb; [|done].
  injection Hf as <-. unfold claim_updated. rewrite Hreq. split_and!; [exact Ham|exact Hvol|exact Hsc| | | |].
  - apply lookup_insert_eq.
  - intros k Hk. rewrite Eb. by apply lookup_insert_ne.
  - apply map_follows_merge. simpl in Hl. by rewrite E in Hl.
  - apply map_follows_merge. simpl in Ha. by rewrite E in Ha.
Qed.

Lemma reconcilePVC_existing cr cfg size suffix w w' old :
  stored w KPVC (nn (ci_InstallNamespace cr) (ci_Name cr +:+ "-" +:+ suffix)) = Some old →
  om_DeletionTimestamp (pvc_meta old) = None → wants_emptyDir cfg = false →
  reconcilePVC cr cfg size (Some suffix) w = (Ok (), w') →
  ∃ got, stored w' KPVC (nn (ci_InstallNamespace cr) (ci_Name cr +:+ "-" +:+ suffix)) = Some got ∧
    claim_updated (requested (configurePVC (ci_Name cr) cfg size))
      (pvcfg_Labels (configurePVC (ci_Name cr) cfg size)) (pvcfg_Annotations (configurePVC (ci_Name cr) cfg size)) old got.
Proof.
  intros Ho Hd He. unfold reconcilePVC. rewrite He.
  intros ([[]|e] & w1 & Hc & Hrun)%mbindM_inv.
  2:{ destruct (kerrors_IsInvalid e); [|ret_inv Hrun]. apply mbindM_inv in Hrun as (? & ? & _ & Hrun). ret_inv Hrun. }
  ret_inv Hrun. apply mbindM_inv in Hc as ([o [op|e]] & w2 & Hc & Hrun); ret_inv Hrun.
  apply CreateOrUpdate_ok in Hc as (base & w3 & o1 & w4 & got & _ & Hb & Hf & _ & Hgot & Hk & _);
    [|by intros ???? [= _ <-]|].
  2:{ intros old'. unfold NewPVC, key, key_of_meta. simpl. fold (nn (ci_InstallNamespace cr) (ci_Name cr +:+ "-" +:+ suffix)).
      rewrite Ho. by intros [= <-]. }
  change (key KPVC _) with (nn (ci_InstallNamespace cr) (ci_Name cr +:+ "-" +:+ suffix)) in *.
  exists got. split; [done|]. destruct Hb as [[Hb _]|Hb]; [by rewrite Ho in Hb|].
  rewrite Ho in Hb. injection Hb as <-. unfold mretM in Hf. injection Hf as Hf _.
  eapply mutatePVC_existing; [|exact Hf|exact Hk]. exact (stored_created _ KPVC _ _ Ho).
Qed.
End pvc_lemmas.

(** ** The specification *)
Section pvc_spec.
Context `{Kube W, QuantityOps}.
(** The storage options for a claim: its own, or else those for both claims. *)
Definition asked cr (own_options : V2.StorageConfigurations → option V2.StorageConfiguration)
  : option V2.StorageConfiguration :=
  match V2.spec_StorageOptions (ci_Spec cr) with
  | None => None
  | Some o => Some (default {| V2.stc_PVC := V2.lst_PVC (V2.sto_Legacy o); V2.stc_EmptyDir := V2.lst_EmptyDir (V2.sto_Legacy o) |}
                      (own_options o))
  end.
Definition no_claim (cfg : option V2.StorageConfiguration) : Prop :=
  ∃ e, cfg ≫= V2.stc_EmptyDir = Some e ∧ V2.edc_Enabled e = true.
(** The CR names the address of an object storage of the user's. *)
Definition external_storage cr : Prop :=
  ∃ o p, V2.spec_ObjectStorageOptions (ci_Spec cr) = Some o ∧ V2.oso_Provider o = Some p ∧ V2.osp_URL p ≠ None.
(** The storage that the options request, the default when they have no requests at all. *)
Definition asked_size (cfg : option V2.StorageConfiguration) (dflt : Quantity) : Quantity :=
  match (cfg ≫= V2.stc_PVC) ≫= V2.pcc_Spec with
  | Some s => match vrr_Requests (pvs_Resources s) with Some l => ResourceList_Storage l | None => dflt end
  | None => dflt
  end.
Definition asked_metadata (cfg : option V2.StorageConfiguration) : V2.ResourceMetadata :=
  match cfg ≫= V2.stc_PVC with Some c => V2.pcc_Metadata c | None => V2.zero_ResourceMetadata end.
(** A pass over the claim of that name, for a CR with these options for it. *)
Definition claim_kept cr (name : string) cfg (dflt : Quantity) (w w' : W) : Prop :=
  ∀ old, stored w KPVC (nn (ci_InstallNamespace cr) name) = Some old → om_DeletionTimestamp (pvc_meta old) = None →
  ∃ got, stored w' KPVC (nn (ci_InstallNamespace cr) name) = Some got ∧
    claim_updated (asked_size cfg dflt) (<["app" := ci_Name cr]> (gm_make (V2.md_Labels (asked_metadata cfg))))
      (gm_make (V2.md_Annotations (asked_metadata cfg))) old got.
End pvc_spec.

(** ** Properties *)
Section pvc_properties.
Context `{KubeLaws W, QuantityLaws}.
Implicit Types (cr : CryostatInstance) (w : W).

Lemma configurePVC_asked name cfg dflt :
  requested (configurePVC name cfg dflt) = asked_size cfg dflt ∧
  pvcfg_Labels (configurePVC name cfg dflt) = <["app" := name]> (gm_make (V2.md_Labels (asked_metadata cfg))) ∧
  pvcfg_Annotations (configurePVC name cfg dflt) = gm_make (V2.md_Annotations (asked_metadata cfg)).
Proof.
  assert (Hd : ResourceList_Storage {[ResourceStorage := dflt]} = dflt) by apply Storage_found, lookup_singleton_eq.
  unfold configurePVC, asked_size, asked_metadata, requested.
  destruct (cfg ≫= V2.stc_PVC) as [[[[modes [[reqs|] limits] vol sc rest]|] md]|]; simpl; split_and!; try done;
    by destruct modes.
Qed.
Lemma wants_emptyDir_no_claim cfg : wants_emptyDir cfg = true ↔ no_claim cfg.
Proof.
  unfold wants_emptyDir, no_claim. destruct (cfg ≫= V2.stc_EmptyDir) as [e|]; [|naive_solver].
  split; [intros He; by exists e|by intros (? & [= <-] & ?)].
Qed.
Lemma DeployManagedStorage_external cr : DeployManagedStorage cr = false ↔ external_storage cr.
Proof.
  unfold DeployManagedStorage, external_storage. destruct (V2.spec_ObjectStorageOptions _) as [o|]; [|naive_solver].
  destruct (V2.oso_Provider o) as [p|] eqn:Ep; [|naive_solver]. rewrite bool_decide_eq_false.
  split; [intros Hu; by exists o, p|intros (o' & p' & [= <-] & Hp & Hu); by simplify_eq].
Qed.
Lemma storage_config_asked cr f : storage_config cr f = asked cr f.
Proof. unfold storage_config, asked. destruct (V2.spec_StorageOptions _) as [o|]; [|done]. by destruct (f o). Qed.
Lemma reconcilePVC_kept cr f dflt suffix w q w' :
  reconcilePVC cr (storage_config cr f) dflt (Some suffix) w = (q, w') →
  (no_claim (asked cr f) → q = Ok () ∧ same_store w w') ∧
  (¬ no_claim (asked cr f) → q = Ok () → claim_kept cr (ci_Name cr +:+ "-" +:+ suffix) (asked cr f) dflt w w').
Proof.
  intros Hrun. rewrite <-wants_emptyDir_no_claim, storage_config_asked in *.
  split; [intros He|intros He -> old Ho Hd].
  - unfold reconcilePVC in Hrun. rewrite He in Hrun. by ret_inv Hrun.
  - apply not_true_is_false in He. destruct (configurePVC_asked (ci_Name cr) (asked cr f) dflt) as (<- & <- & <-).
    by eapply reconcilePVC_existing.
Qed.

(** C22. The data of a claim is safe: a successful pass over the database's or the managed
    storage's claim, if it is there and not under deletion, leaves it with its access modes
    and, once they are set, its volume and its class.  It requests the storage that the
    spec asks for (500Mi for the database and 32Gi for the storage when it has no requests)
    and its other requests are as they were; it has the labels and annotations of the spec,
    with the [app] label, and keeps its others.  When the spec asks for an emptyDir for
    either, or for external object storage, the pass over that claim succeeds and changes
    nothing at all in the cluster, whatever was there. *)
Theorem claims_keep_their_volume cr w q w' :
  (reconcileDatabasePVC cr w = (q, w') →
   let cfg := asked cr V2.sto_Database in
   (no_claim cfg → q = Ok () ∧ same_store w w') ∧
   (¬ no_claim cfg → q = Ok () →
    claim_kept cr (ci_Name cr +:+ "-database") cfg (resource_NewQuantity (500 * 1024 ^ 2) BinarySI) w w')) ∧
  (reconcileStoragePVC cr w = (q, w') →
   let cfg := asked cr V2.sto_ObjectStorage in
   (external_storage cr ∨ no_claim cfg → q = Ok () ∧ same_store w w') ∧
   (¬ external_storage cr → ¬ no_claim cfg → q = Ok () →
    claim_kept cr (ci_Name cr +:+ "-storage") cfg (resource_NewQuantity (32 * 1024 ^ 3) BinarySI) w w')).
Proof.
  split; intros Hrun cfg.
  - by apply (reconcilePVC_kept cr V2.sto_Database _ "database") in Hrun.
  - rewrite <-DeployManagedStorage_external. unfold reconcileStoragePVC in Hrun.
    destruct (DeployManagedStorage cr); simpl in Hrun.
    + apply (reconcilePVC_kept cr V2.sto_ObjectStorage _ "storage") in Hrun as [Hoff Hon].
      split; [by intros [|He]; [|apply Hoff]|]. intros _. exact Hon.
    + ret_inv Hrun. split; [by intros _|by intros []].
Qed.

(** The configuration of a claim: the user's spec, with the default size only when no
    request is given at all and [ReadWriteOnce] only when no access mode is, and the [app]
    label always the name of the Cryostat. *)
Theorem configurePVC_spec name (cfg : option V2.StorageConfiguration) size :
  let user := default zero_PersistentVolumeClaimSpec ((cfg ≫= V2.stc_PVC) ≫= V2.pcc_Spec) in
  let config := configurePVC name cfg size in
  pvcfg_Labels config !! "app" = Some name ∧
  vrr_Requests (pvs_Resources (pvcfg_Spec config)) =
    Some (default {[ResourceStorage := size]} (vrr_Requests (pvs_Resources user))) ∧
  pvs_AccessModes (pvcfg_Spec config) = Some (default ["ReadWriteOnce"] (pvs_AccessModes user)) ∧
  vrr_Limits (pvs_Resources (pvcfg_Spec config)) = vrr_Limits (pvs_Resources user) ∧
  pvs_VolumeName (pvcfg_Spec config) = pvs_VolumeName user ∧
  pvs_StorageClassName (pvcfg_Spec config) = pvs_StorageClassName user.
Proof.
  intros user config. split; [apply lookup_insert_eq|].
  assert (Hu : default zero_PersistentVolumeClaimSpec (V2.pcc_Spec
    (default {| V2.pcc_Spec := None; V2.pcc_Metadata := V2.zero_ResourceMetadata |} (cfg ≫= V2.stc_PVC))) = user).
  { unfold user. by destruct (cfg ≫= V2.stc_PVC). }
  unfold config, configurePVC. simpl pvcfg_Spec. rewrite Hu. clear Hu config.
  destruct user as [[modes|] [[reqs|] limits] vol sc rest]; by split_and!.
Qed.
End pvc_properties.

(** A bound claim in the cluster. *)
Definition bound_claim : PersistentVolumeClaim := {|
  pvc_meta := NewObjectMeta "cryostat-database" "ns";
  pvc_Spec := zero_PersistentVolumeClaimSpec <| pvs_VolumeName := "pv-1" |>
    <| pvs_Resources := {| vrr_Requests := Some ∅; vrr_Limits := None |} |> |}.
Definition bound_world : fake := fk_put KPVC (nn "ns" "cryostat-database") bound_claim fk_sample.
Lemma claims_keep_their_volume_witness :
  ∃ got, stored (reconcileDatabasePVC sample_cr bound_world).2 KPVC (nn "ns" "cryostat-database") = Some got ∧
    pvs_VolumeName (pvc_Spec got) = "pv-1".
Proof.
  destruct (claims_keep_their_volume sample_cr bound_world (Ok ()) (reconcileDatabasePVC sample_cr bound_world).2)
    as (Hdb & _).
  destruct (Hdb ltac:(apply run_snd; vm_compute; reflexivity)) as [_ Hkept].
  destruct (Hkept ltac:(intros (e & He & _); discriminate He) eq_refl (admitted KPVC (nn "ns" "cryostat-database") bound_claim))
    as (got & Hg & _ & Hv & _).
  - vm_compute. reflexivity.
  - reflexivity.
  - exists got. split; [exact Hg|]. apply Hv. discriminate.
Defined.
