(* ===== verification/Openshift.v ===== *)
(** * OpenShift integration

    [internal/controller/openshift.go]: the link in the web console, and the removal of the
    CORS origin that earlier versions of the operator added to the API server. *)

From S2P Require Export Common.
From S2P Require Import FakeClient.
Open Scope Z_scope.

Definition apiServerName : string := "cluster".

Section openshift.
Context `{Kube W}.
Implicit Types (r : Reconciler) (cr : CryostatInstance).

Definition newConsoleLink r cr : ConsoleLink := {|
  cl_meta := NewObjectMeta (ClusterUniqueName (r_Kind r) (ci_Name cr) (ci_InstallNamespace cr)) "";
  cl_Text := ""; cl_Href := ""; cl_Location := ""; cl_NamespaceDashboard := None |}.

Definition deleteConsoleLink (link : ConsoleLink) : E W () :=
  let* err := client_Delete KConsoleLink link in
  match err with
  | Err e => if kerrors_IsNotFound e then mretM (Ok ()) else mretM (Err e)
  | Ok _ => mretM (Ok ())
  end.

Definition AppName : string := "Cryostat".
Definition mutateConsoleLink cr (url : string) (link : ConsoleLink) : ConsoleLink :=
  link <| cl_Text := AppName |> <| cl_Href := url |> <| cl_Location := "NamespaceDashboard" |>
       <| cl_NamespaceDashboard := Some [ci_InstallNamespace cr] |>.

Definition reconcileConsoleLink r cr : E W () :=
  let link := newConsoleLink r cr in
  let url := V2.st_ApplicationURL (ci_Status cr) in
  if len url =? 0 then do? deleteConsoleLink link in mretM (Ok ())
  else
    let* ' (_, op) := controllerutil_CreateOrUpdate KConsoleLink link
                        (λ link, mretM (mutateConsoleLink cr url link, Ok ())) in
    mretM (ok? _ := op in Ok ()).

(** The loop stops at the first origin that matches. *)
Definition deleteCorsAllowedOrigins cr : E W () :=
  let allowedOrigin := V2.st_ApplicationURL (ci_Status cr) in
  if len allowedOrigin =? 0 then mretM (Ok ())
  else
    let? apiServer := client_Get KAPIServer (nn "" apiServerName) in
    let allowedOriginAsRegex := regexp.QuoteMeta allowedOrigin in
    let i := slices.Index (as_AdditionalCORSAllowedOrigins apiServer) allowedOriginAsRegex in
    if i <? 0 then mretM (Ok ())
    else
      let* ' (_, err) := client_Update KAPIServer
        ((apiServer : APIServer) <| as_AdditionalCORSAllowedOrigins ::= λ l, slices.DeleteAt l (Z.to_nat i) |>) in
      mretM err.

Definition reconcileOpenShift r cr : E W () :=
  if negb (r_IsOpenShift r) then mretM (Ok ())
  else do? reconcileConsoleLink r cr in deleteCorsAllowedOrigins cr.
Definition finalizeOpenShift r cr : E W () :=
  if negb (r_IsOpenShift r) then mretM (Ok ())
  else do? deleteConsoleLink (newConsoleLink r cr) in deleteCorsAllowedOrigins cr.
End openshift.

(** ** Lemmas *)
Section openshift_lemmas.
Context `{KubeLaws W}.
Implicit Types (r : Reconciler) (cr : CryostatInstance) (w : W).

Definition link_key r cr : NamespacedName := nn "" (ClusterUniqueName (r_Kind r) (ci_Name cr) (ci_InstallNamespace cr)).

Lemma touches_deleteConsoleLink (S : Kind → NamespacedName → Prop) r cr :
  S KConsoleLink (link_key r cr) → touches S (deleteConsoleLink (newConsoleLink r cr)).
Proof. intros HS. unfold deleteConsoleLink. touch. exact HS. Qed.
Lemma deleteConsoleLink_gone link w w' :
  unheld w KConsoleLink (key KConsoleLink link) → deleteConsoleLink link w = (Ok (), w') →
  stored w' KConsoleLink (key KConsoleLink link) = None.
Proof.
  intros Hh (res & w1 & Hd & Hrun)%mbindM_inv.
  destruct res as [[]|e]; [|destruct (kerrors_IsNotFound e) eqn:He]; ret_inv Hrun;
    eapply (Delete_gone KConsoleLink); eauto.
Qed.
Lemma touches_reconcileConsoleLink (S : Kind → NamespacedName → Prop) r cr :
  S KConsoleLink (link_key r cr) → touches S (reconcileConsoleLink r cr).
Proof.
  intros HS. unfold reconcileConsoleLink. destruct (_ =? 0).
  - apply touches_try; [by apply touches_deleteConsoleLink|intros; apply touches_ret].
  - touch. exact HS.
Qed.
Lemma touches_deleteCorsAllowedOrigins (S : Kind → NamespacedName → Prop) cr :
  S KAPIServer (nn "" apiServerName) → touches S (deleteCorsAllowedOrigins cr).
Proof.
  intros HS w q w'. unfold deleteCorsAllowedOrigins. destruct (_ =? 0); [apply touches_ret|].
  intros [(s & w1 & Hg & Hrun)|(e & Hg & ->)]%mtry_inv; [|by eapply touches_Get].
  transitivity w1; [by eapply touches_Get|]. apply Get_Ok in Hg.
  pose proof (stored_key _ _ _ _ Hg) as Hk. revert Hrun.
  destruct (_ <? 0); [apply touches_ret|].
  apply touches_bind; [|intros [? ?]; apply touches_ret]. apply touches_Update.
  change (S KAPIServer (key KAPIServer s)). by rewrite Hk.
Qed.
Lemma touches_reconcileOpenShift (S : Kind → NamespacedName → Prop) r cr :
  S KConsoleLink (link_key r cr) → S KAPIServer (nn "" apiServerName) → touches S (reconcileOpenShift r cr).
Proof.
  intros Hl Ha. unfold reconcileOpenShift. destruct (r_IsOpenShift r); simpl; [|apply touches_ret].
  apply touches_try; [by apply touches_reconcileConsoleLink|intros _; by apply touches_deleteCorsAllowedOrigins].
Qed.
Lemma touches_finalizeOpenShift (S : Kind → NamespacedName → Prop) r cr :
  S KConsoleLink (link_key r cr) → S KAPIServer (nn "" apiServerName) → touches S (finalizeOpenShift r cr).
Proof.
  intros Hl Ha. unfold finalizeOpenShift. destruct (r_IsOpenShift r); simpl; [|apply touches_ret].
  apply touches_try; [by apply touches_deleteConsoleLink|intros _; by apply touches_deleteCorsAllowedOrigins].
Qed.

(** The list without the first occurrence of [x], if there is one. *)
Definition first_removed (x : string) (old new : list string) : Prop :=
  (x ∉ old ∧ new = old) ∨
  ∃ before after, old = before ++ x :: after ∧ x ∉ before ∧ new = before ++ after.

Lemma deleteCorsAllowedOrigins_ok cr w w' s :
  V2.st_ApplicationURL (ci_Status cr) ≠ "" →
  stored w KAPIServer (nn "" apiServerName) = Some s → om_DeletionTimestamp (as_meta s) = None →
  deleteCorsAllowedOrigins cr w = (Ok (), w') →
  ∃ got, stored w' KAPIServer (nn "" apiServerName) = Some got ∧
    first_removed (regexp.QuoteMeta (V2.st_ApplicationURL (ci_Status cr)))
      (as_AdditionalCORSAllowedOrigins s) (as_AdditionalCORSAllowedOrigins got).
Proof.
  intros Hu Hs Hd. unfold deleteCorsAllowedOrigins.
  destruct (Z.eqb_spec (len (V2.st_ApplicationURL (ci_Status cr))) 0) as [E|_].
  { exfalso. apply Hu. destruct (V2.st_ApplicationURL _); [done|]. unfold len in E. simpl in E. lia. }
  intros (s' & w1 & Hg & Hrun)%mtry_ok_inv.
  pose proof (same_store_eq _ _ KAPIServer (nn "" apiServerName) (Get_reads _ _ _ _ _ Hg)) as E.
  apply Get_Ok in Hg. rewrite Hs in Hg. injection Hg as <-. rewrite Hs in E.
  destruct (slices.Index _ _ <? 0) eqn:Hi.
  - ret_inv Hrun. exists s. split; [done|]. left. split; [by apply slices.Index_absent|done].
  - apply slices.Index_split in Hi as (b & a & Hl & Hb & Hdel).
    apply mbindM_inv in Hrun as ([o [[]|e]] & w2 & Hup & Hrun); ret_inv Hrun.
    change (nn "" apiServerName) with (nn "" apiServerName) in *.
    pose proof (stored_key _ _ _ _ Hs) as Hk.
    eapply Update_Ok in Hup as [Hst [_ Hkept]]; [| |exact Hd].
    + exists o. split; [by rewrite <-Hst; f_equal|]. right. exists b, a.
      split_and!; [done..|]. rewrite <-Hdel. exact Hkept.
    + change (key KAPIServer _) with (key KAPIServer s). by rewrite Hk.
Qed.

(** The link a Cryostat with this address has. *)
Definition linked w r cr (url : string) : Prop :=
  ∃ got, stored w KConsoleLink (link_key r cr) = Some got ∧ cl_Text got = AppName ∧ cl_Href got = url ∧
    cl_Location got = "NamespaceDashboard" ∧ cl_NamespaceDashboard got = Some [ci_InstallNamespace cr].
Lemma reconcileConsoleLink_ok r cr w w' :
  quiet w KConsoleLink (link_key r cr) → reconcileConsoleLink r cr w = (Ok (), w') →
  let url := V2.st_ApplicationURL (ci_Status cr) in
  if bool_decide (url = "") then stored w' KConsoleLink (link_key r cr) = None else linked w' r cr url.
Proof.
  intros Hq. unfold reconcileConsoleLink.
  destruct (V2.st_ApplicationURL (ci_Status cr)) as [|c url] eqn:Hurl; simpl.
  - intros ([] & w1 & Hd & Hrun)%mtry_ok_inv. ret_inv Hrun.
    apply deleteConsoleLink_gone in Hd; [done|]. by apply quiet_unheld.
  - destruct (Z.eqb_spec (len (String c url)) 0) as [E|_]; [unfold len in E; simpl in E; lia|].
    intros ([o [op|e]] & w1 & Hc & Hrun)%mbindM_inv; ret_inv Hrun.
    apply (CreateOrUpdate_ok KConsoleLink) in Hc as (base & w2 & o1 & w3 & got & _ & _ & Hf & _ & Hgot & [_ Hk] & _);
      [|by intros ???? [= _ <-]|intros old Ho; by apply Hq in Ho as [_ ?]].
    unfold mretM in Hf. injection Hf as <- _. exists got. split; [done|]. exact Hk.
Qed.
End openshift_lemmas.

(** ** Properties *)
Section openshift_properties.
Context `{KubeLaws W}.
Implicit Types (r : Reconciler) (cr : CryostatInstance) (w : W).

(** On OpenShift, a successful pass leaves the console link exactly when Cryostat has
    an address, pointing to it from the dashboard of its namespace, and a successful
    cleanup leaves no link; when there is an address, both remove the first occurrence of
    its quoted form from the CORS origins of the API server, if any, and keep every other
    origin in order. *)
Theorem reconcileOpenShift_ok r cr w w1 w2 s :
  let url := V2.st_ApplicationURL (ci_Status cr) in
  let apiServer := nn "" apiServerName in
  r_IsOpenShift r = true → quiet w KConsoleLink (link_key r cr) →
  stored w KAPIServer apiServer = Some s → om_DeletionTimestamp (as_meta s) = None →
  reconcileOpenShift r cr w = (Ok (), w1) → finalizeOpenShift r cr w = (Ok (), w2) →
  (if bool_decide (url = "") then stored w1 KConsoleLink (link_key r cr) = None else linked w1 r cr url) ∧
  stored w2 KConsoleLink (link_key r cr) = None ∧
  (url ≠ "" → ∀ w', w' = w1 ∨ w' = w2 →
     ∃ got, stored w' KAPIServer apiServer = Some got ∧
       first_removed (regexp.QuoteMeta url) (as_AdditionalCORSAllowedOrigins s)
         (as_AdditionalCORSAllowedOrigins got)).
Proof.
  intros url apiServer Ho Hq Hs Hd. unfold reconcileOpenShift, finalizeOpenShift. rewrite Ho. simpl.
  intros ([] & u1 & Hl1 & Hc1)%mtry_ok_inv ([] & u2 & Hl2 & Hc2)%mtry_ok_inv.
  pose proof (touches_reconcileConsoleLink (only KConsoleLink (link_key r cr)) r cr ltac:(done) _ _ _ Hl1) as E1.
  pose proof (touches_deleteConsoleLink (only KConsoleLink (link_key r cr)) r cr ltac:(done) _ _ _ Hl2) as E2.
  pose proof (touches_deleteCorsAllowedOrigins (only KAPIServer apiServer) cr ltac:(done) _ _ _ Hc1) as F1.
  pose proof (touches_deleteCorsAllowedOrigins (only KAPIServer apiServer) cr ltac:(done) _ _ _ Hc2) as F2.
  assert (Ha : ∀ u u', same_except (only KAPIServer apiServer) u u' →
    stored u' KConsoleLink (link_key r cr) = stored u KConsoleLink (link_key r cr)).
  { intros u u' E. apply (same_except_out _ _ _ _ _ E). by intros []. }
  split; [|split].
  - apply reconcileConsoleLink_ok in Hl1; [|done]. unfold linked. by rewrite (Ha _ _ F1).
  - rewrite (Ha _ _ F2). apply deleteConsoleLink_gone in Hl2; [done|]. by apply quiet_unheld.
  - intros Hu w' Hw.
    assert (Hs' : stored u1 KAPIServer apiServer = Some s ∧ stored u2 KAPIServer apiServer = Some s).
    { rewrite <-Hs. split; [apply (same_except_out _ _ _ _ _ E1)|apply (same_except_out _ _ _ _ _ E2)]; by intros []. }
    destruct Hs' as [Hs1 Hs2].
    destruct Hw as [-> | ->]; [exact (deleteCorsAllowedOrigins_ok _ _ _ _ Hu Hs1 Hd Hc1)
                              |exact (deleteCorsAllowedOrigins_ok _ _ _ _ Hu Hs2 Hd Hc2)].
Qed.
End openshift_properties.

(** A Cryostat with an address that earlier versions added to the API server. *)
Definition openshift_r : Reconciler := sample_r <| r_IsOpenShift := true |>.
Definition linked_cr : CryostatInstance :=
  sample_cr <| ci_Object ::= λ o, o <| V2.cr_Status ::= λ s, s <| V2.st_ApplicationURL := "https://a.b" |> |> |>.
Definition cors_server : APIServer := {|
  as_meta := NewObjectMeta "cluster" ""; as_AdditionalCORSAllowedOrigins := ["x"; "https://a\.b"; "y"]; as_rest := [] |}.
Definition cors_world : fake := fk_put KAPIServer (nn "" "cluster") cors_server fk_sample.
Lemma reconcileOpenShift_ok_witness :
  linked (reconcileOpenShift openshift_r linked_cr cors_world).2 openshift_r linked_cr "https://a.b" ∧
  stored (finalizeOpenShift openshift_r linked_cr cors_world).2 KConsoleLink (link_key openshift_r linked_cr) = None.
Proof.
  destruct (reconcileOpenShift_ok openshift_r linked_cr cors_world
    (reconcileOpenShift openshift_r linked_cr cors_world).2 (finalizeOpenShift openshift_r linked_cr cors_world).2
    (admitted KAPIServer (nn "" "cluster") cors_server)) as (Hl & Hf & _).
  - reflexivity.
  - intros old Ho. discriminate Ho.
  - reflexivity.
  - reflexivity.
  - apply run_snd. vm_compute. reflexivity.
  - apply run_snd. vm_compute. reflexivity.
  - split; [exact Hl|exact Hf].
Defined.
