(* ===== verification/Console.v ===== *)
(** * The console plugin

    [internal/console/plugin.go]: the runnable that installs the plugin of the OpenShift web
    console when the version of the cluster is in the supported range, and removes it when
    it is not.  Versions, retries and the list of bindings are library code: they are
    parameters ([ConsoleLibs]) with their documented behaviour ([ConsoleLaws]). *)

From S2P Require Export Openshift.
From S2P Require Import FakeClient.
From Stdlib Require Import Ascii.
Open Scope Z_scope.

(** ** Libraries *)
Class Semver := {
  Version : Type;
  semver_Parse : string → res Version;
  semver_FinalizeVersion : string → res string;
  Version_LT : Version → Version → bool;
  Version_GT : Version → Version → bool }.
Class ConsoleLibs (W : Type) := {
  client_ListClusterRoleBindings : gmap string string → E W (list ClusterRoleBinding);
  controllerutil_SetOwnerReference : ObjectMeta → ObjectMeta → res ObjectMeta;
  kerrors_IsConflict : error → bool;
  (** [retry.RetryOnConflict] with the default backoff *)
  retry_RetryOnConflict : E W () → E W () }.

(** Attempts that end in a conflict, one after another. *)
Inductive conflicts `{ConsoleLibs W} (fn : E W ()) : W → W → Prop :=
| conflicts_none w : conflicts fn w w
| conflicts_more w e w1 w2 :
    fn w = (Err e, w1) → kerrors_IsConflict e = true → conflicts fn w1 w2 → conflicts fn w w2.

Class ConsoleLaws (W : Type) `{Kube W} `{Semver} `{ConsoleLibs W} := {
  ListBindings_reads s w r w' : client_ListClusterRoleBindings s w = (r, w') → same_store w w';
  SetOwnerReference_Ok owner m m' : controllerutil_SetOwnerReference owner m = Ok m' →
    m' = m <| om_OwnerReferences := om_OwnerReferences m' |> ∧
    ∃ ref, ref ∈ om_OwnerReferences m' ∧ ref_UID ref = om_UID owner;
  (** The answer is that of the last attempt; only conflicts are retried. *)
  Retry_last fn w r w' : retry_RetryOnConflict fn w = (r, w') → ∃ w1, conflicts fn w w1 ∧ fn w1 = (r, w');
  (** A write that meets a conflict is rejected as a whole. *)
  Update_conflict k o w o' e w' :
    client_Update k o w = ((o', Err e), w') → kerrors_IsConflict e = true → same_store w w';
  FinalizeVersion_Ok s t : semver_FinalizeVersion s = Ok t → ∃ v, semver_Parse t = Ok v;
  Parse_default_min : ∃ v, semver_Parse "0.0.0" = Ok v;
  Parse_default_max : ∃ v, semver_Parse "99.99.0" = Ok v;
  GT_LT v u : Version_GT v u = Version_LT u v }.

(** ** The installer *)
Record PluginInstaller := { pi_Namespace : string; pi_MinOpenShiftVersion : string; pi_MaxOpenShiftVersion : string }.

Definition defaultMinOpenShiftVersion : string := "0.0.0".
Definition defaultMaxOpenShiftVersion : string := "99.99.0".
Definition ConsolePluginName : string := "cryostat-plugin".
Definition ConsoleServiceAccountName : string := "cryostat-plugin".
Definition ConsoleServiceName : string := "cryostat-plugin".
Definition ConsoleServicePort : Z := 9443.
Definition ConsoleProxyName : string := "cryostat-plugin-proxy".
Definition ConsoleCRName : string := "cluster".
Definition ClusterVersionName : string := "version".

Section console.
Context `{Kube W} `{Semver} `{ConsoleLibs W}.
Implicit Types (p : PluginInstaller).

Definition semver_MustParse (s : string) : res Version :=
  match semver_Parse s with
  | Ok v => Ok v
  | Err _ => Err (Panic "semver: MustParse")
  end.
(** A version, or the default when it does not parse. *)
Definition version_or (s default : string) : res Version :=
  match semver_Parse s with Ok v => Ok v | Err _ => semver_MustParse default end.

Definition getOpenShiftVersion : E W Version :=
  let? clusterVersion := client_Get KClusterVersion (nn "" ClusterVersionName) in
  match semver_FinalizeVersion (cv_DesiredVersion clusterVersion) with
  | Err e => mretM (Err e)
  | Ok trimmedVer => mretM (semver_MustParse trimmedVer)
  end.

Definition isOpenShiftCompatible p : E W bool :=
  let minVersionStr := if bool_decide (pi_MinOpenShiftVersion p = "") then defaultMinOpenShiftVersion else pi_MinOpenShiftVersion p in
  let maxVersionStr := if bool_decide (pi_MaxOpenShiftVersion p = "") then defaultMaxOpenShiftVersion else pi_MaxOpenShiftVersion p in
  match version_or minVersionStr defaultMinOpenShiftVersion, version_or maxVersionStr defaultMaxOpenShiftVersion with
  | Err e, _ | _, Err e => mretM (Err e)
  | Ok minVersion, Ok maxVersion =>
      let? version := getOpenShiftVersion in
      if Version_LT version minVersion then mretM (Ok false)
      else if Version_GT version maxVersion then mretM (Ok false)
      else mretM (Ok true)
  end.

(** The labels that OLM puts on what it installs. *)
Definition olm_keys : list string := ["olm.owner"; "olm.owner.kind"; "olm.owner.namespace"].
Fixpoint olm_selector (labels : gomap string) (keys : list string) (selector : gmap string string)
  : res (gmap string string) :=
  match keys with
  | [] => Ok selector
  | key :: keys =>
      match gm_lookup labels key with
      | None => Err (Errorf ("could not find OLM label " +:+ quoted) [key])
      | Some value => olm_selector labels keys (<[key := value]> selector)
      end
  end.
Definition is_plugin_subject (subject : Subject) : bool :=
  bool_decide (sub_Name subject = ConsoleServiceAccountName) && bool_decide (sub_Kind subject = "ServiceAccount").
Definition findOwner p : E W ClusterRoleBinding :=
  let? deploy := client_Get KDeployment (nn (pi_Namespace p) OperatorDeploymentName) in
  match olm_selector (om_Labels (dep_meta deploy)) olm_keys ∅ with
  | Err e => mretM (Err e)
  | Ok selector =>
      let? bindings := client_ListClusterRoleBindings selector in
      match List.find (λ binding, existsb is_plugin_subject (crb_Subjects binding)) bindings with
      | Some binding => mretM (Ok binding)
      | None => mretM (Err (Errorf "could not find console plugin cluster role" []))
      end
  end.

Definition NewConsolePlugin (name : string) : ConsolePlugin := {|
  cpl_meta := NewObjectMeta name ""; cpl_DisplayName := "";
  cpl_Backend := {| cpb_Type := ""; cpb_Service := None |}; cpl_I18nLoadType := ""; cpl_Proxy := []; cpl_rest := [] |}.

Definition pluginLabels (m : ObjectMeta) : ObjectMeta :=
  let m := metav1_SetMetaDataLabel m "app" ConsolePluginName in
  let m := metav1_SetMetaDataLabel m "app" ConsolePluginName in
  let m := metav1_SetMetaDataLabel m "app.kubernetes.io/instance" ConsolePluginName in
  let m := metav1_SetMetaDataLabel m "app.kubernetes.io/name" ConsolePluginName in
  metav1_SetMetaDataLabel m "app.kubernetes.io/part-of" ConsolePluginName.
Definition pluginBackend p : ConsolePluginBackend := {|
  cpb_Type := "Service";
  cpb_Service := Some {| cps_BasePath := "/"; cps_Name := ConsoleServiceName;
                         cps_Namespace := pi_Namespace p; cps_Port := ConsoleServicePort |} |}.
Definition pluginProxy p : ConsolePluginProxy := {|
  cpp_Alias := ConsoleProxyName; cpp_Authorization := "UserToken"; cpp_EndpointType := "Service";
  cpp_EndpointService := Some {| cpps_Name := ConsoleServiceName; cpps_Namespace := pi_Namespace p;
                                 cpps_Port := ConsoleServicePort |}; cpp_rest := [] |}.
Definition mutatePlugin p (owner : option ClusterRoleBinding) (plugin : ConsolePlugin) : ConsolePlugin * res () :=
  let plugin : ConsolePlugin := plugin <| cpl_meta ::= pluginLabels |> in
  match match owner with
        | Some binding => controllerutil_SetOwnerReference (crb_meta binding) (cpl_meta plugin)
        | None => Ok (cpl_meta plugin)
        end with
  | Err e => (plugin, Err e)
  | Ok m =>
      (plugin <| cpl_meta := m |> <| cpl_DisplayName := AppName |> <| cpl_Backend := pluginBackend p |>
              <| cpl_I18nLoadType := "Preload" |> <| cpl_Proxy := [pluginProxy p] |>, Ok ())
  end.
(** An owner that cannot be found leaves the plugin without one. *)
Definition createConsolePlugin p : E W () :=
  let* owner := findOwner p in
  let owner := match owner with Ok binding => Some binding | Err _ => None end in
  let* ' (_, op) := controllerutil_CreateOrUpdate KConsolePlugin (NewConsolePlugin ConsolePluginName)
                      (λ plugin, mretM (mutatePlugin p owner plugin)) in
  mretM (ok? _ := op in Ok ()).

Definition register_once : E W () :=
  let? console := client_Get KConsole (nn "" ConsoleCRName) in
  if negb (slices.Contains (con_Plugins console) ConsolePluginName) then
    let* ' (_, err) := client_Update KConsole
      ((console : Console) <| con_Plugins ::= λ l, l ++ [ConsolePluginName] |>) in
    mretM err
  else mretM (Ok ()).
Definition registerConsolePlugin : E W () := retry_RetryOnConflict register_once.

Definition unregister_once : E W () :=
  let* console := client_Get KConsole (nn "" ConsoleCRName) in
  match console with
  | Err e => if kerrors_IsNotFound e then mretM (Ok ()) else mretM (Err e)
  | Ok console =>
      let idx := slices.Index (con_Plugins console) ConsolePluginName in
      if idx <? 0 then mretM (Ok ())
      else
        let* ' (_, err) := client_Update KConsole
          ((console : Console) <| con_Plugins ::= λ l, slices.DeleteAt l (Z.to_nat idx) |>) in
        mretM err
  end.
Definition unregisterConsolePlugin : E W () := retry_RetryOnConflict unregister_once.

Definition deleteConsolePlugin : E W () :=
  let* err := client_Delete KConsolePlugin (NewConsolePlugin ConsolePluginName) in
  match err with
  | Err e => if kerrors_IsNotFound e then mretM (Ok ()) else mretM (Err e)
  | Ok _ => mretM (Ok ())
  end.
Definition uninstallConsolePlugin : E W () := do? unregisterConsolePlugin in deleteConsolePlugin.

Definition installConsolePlugin p : E W () :=
  let? compat := isOpenShiftCompatible p in
  if negb compat then uninstallConsolePlugin
  else do? createConsolePlugin p in registerConsolePlugin.
(** [Start]; the runnable needs leader election. *)
Definition Start p : E W () := installConsolePlugin p.
Definition NeedLeaderElection : bool := true.
End console.

(** ** What a run leaves *)
Section outcomes.
Context `{KubeLaws W} `{ConsoleLibs W} `{Semver}.
Context `{!ConsoleLaws W}.
Implicit Types (p : PluginInstaller) (w : W).

Definition plugin_key : NamespacedName := nn "" ConsolePluginName.
Definition console_key : NamespacedName := nn "" ConsoleCRName.
(** The names registered with the console. *)
Definition registered w : option (list string) := con_Plugins <$> (stored w KConsole console_key : option Console).
Definition plugin_stored w p : Prop :=
  ∃ plugin, stored w KConsolePlugin plugin_key = Some plugin ∧ cpl_Backend plugin = pluginBackend p ∧
    cpl_Proxy plugin = [pluginProxy p] ∧ cpl_DisplayName plugin = AppName ∧ cpl_I18nLoadType plugin = "Preload".

Lemma conflicts_store fn w w' :
  (∀ u e u', fn u = (Err e, u') → kerrors_IsConflict e = true → same_store u u') →
  conflicts fn w w' → same_store w w'.
Proof. intros Hfn. induction 1 as [|w e w1 w2 R1 R2 _ IH]; [by intros ???|]. etransitivity; [by eapply Hfn|done]. Qed.
Lemma touches_retry S fn : touches S fn → touches S (retry_RetryOnConflict fn).
Proof.
  intros Hfn w r w' (w1 & Hc & Hl)%Retry_last. etransitivity; [|by eapply Hfn].
  clear Hl. induction Hc as [|w e w1 w2 R1 R2 _ IH]; [reflexivity|]. etransitivity; [by eapply Hfn|done].
Qed.
Lemma registered_eq w w' : stored w' KConsole console_key = stored w KConsole console_key → registered w' = registered w.
Proof. unfold registered. by intros ->. Qed.

Lemma update_console console f w o r w' :
  stored w KConsole console_key = Some console →
  client_Update KConsole ((console : Console) <| con_Plugins ::= f |>) w = ((o, r), w') →
  same_except (only KConsole console_key) w w' ∧
  (r = Ok () → om_DeletionTimestamp (con_meta console) = None → registered w' = Some (f (con_Plugins console))).
Proof.
  intros Hs Hu. assert (Hk : key KConsole ((console : Console) <| con_Plugins ::= f |>) = console_key) by exact (stored_key _ _ _ _ Hs).
  split; [rewrite <-Hk; by eapply Update_touches|]. intros -> Hd. unfold registered.
  eapply Update_Ok in Hu as [Hst [_ Hkept]]; [|rewrite Hk; exact Hs|exact Hd].
  rewrite Hk in Hst. rewrite Hst. simpl. by rewrite Hkept.
Qed.

(** *** One attempt *)
Definition add_plugin (old : list string) : list string :=
  if decide (ConsolePluginName ∈ old) then old else old ++ [ConsolePluginName].
Lemma register_once_run w r w' : register_once w = (r, w') →
  same_except (only KConsole console_key) w w' ∧
  (∀ e, r = Err e → kerrors_IsConflict e = true → same_store w w') ∧
  (r = Ok () → quiet w KConsole console_key → ∃ old, registered w = Some old ∧ registered w' = Some (add_plugin old)).
Proof.
  unfold register_once. intros (got & w1 & Hg & Hrun)%mbindM_inv. pose proof (Get_reads _ _ _ _ _ Hg) as Hs.
  assert (Hsame : same_store w1 w' → same_except (only KConsole console_key) w w').
  { intros Hs'. eapply same_except_weaken; [|by etransitivity; [exact Hs|exact Hs']]. done. }
  destruct got as [console|e]; [|ret_inv Hrun; by split_and!; [apply Hsame|..]].
  apply (Get_Ok KConsole) in Hg. change (nn "" ConsoleCRName) with console_key in Hg. unfold slices.Contains in Hrun. unfold add_plugin, registered. rewrite Hg.
  pose proof (same_store_eq _ _ KConsole console_key Hs) as Hw1. rewrite Hg in Hw1.
  case_bool_decide as Hin; cbn [negb] in Hrun.
  - ret_inv Hrun. split_and!; [by apply Hsame|done|]. intros _ _. rewrite Hw1. exists (con_Plugins console).
    by rewrite decide_True.
  - apply mbindM_inv in Hrun as ([o q] & w2 & Hu & Hrun). ret_inv Hrun.
    destruct (update_console _ _ _ _ _ _ Hw1 Hu) as [Ht Hok]. split_and!.
    + etransitivity; [|exact Ht]. eapply same_except_weaken; [|exact Hs]. done.
    + intros e -> Hc. etransitivity; [exact Hs|]. by eapply Update_conflict.
    + intros -> Hq. exists (con_Plugins console). split; [done|]. rewrite decide_False by done. apply Hok; [done|].
      by apply (Hq console).
Qed.
Lemma unregister_once_run w r w' : unregister_once w = (r, w') →
  same_except (only KConsole console_key) w w' ∧
  (∀ e, r = Err e → kerrors_IsConflict e = true → same_store w w') ∧
  (r = Ok () → quiet w KConsole console_key →
   (registered w = None ∧ registered w' = None) ∨
   ∃ old new, registered w = Some old ∧ registered w' = Some new ∧ first_removed ConsolePluginName old new).
Proof.
  unfold unregister_once. intros (got & w1 & Hg & Hrun)%mbindM_inv. pose proof (Get_reads _ _ _ _ _ Hg) as Hs.
  assert (Hsame : same_store w1 w' → same_except (only KConsole console_key) w w').
  { intros Hs'. eapply same_except_weaken; [|by etransitivity; [exact Hs|exact Hs']]. done. }
  pose proof (same_store_eq _ _ KConsole console_key Hs) as Hw1.
  destruct got as [console|e].
  - apply (Get_Ok KConsole) in Hg. change (nn "" ConsoleCRName) with console_key in Hg. unfold registered. rewrite Hg in *. destruct (_ <? 0) eqn:Hi.
    + ret_inv Hrun. split_and!; [by apply Hsame|done|]. intros _ _. right. exists (con_Plugins console), (con_Plugins console).
      rewrite Hw1. split_and!; [done..|]. left. split; [by apply slices.Index_absent|done].
    + apply slices.Index_split in Hi as (b & a & Hl & Hb & Hdel).
      apply mbindM_inv in Hrun as ([o q] & w2 & Hu & Hrun). ret_inv Hrun.
      destruct (update_console _ _ _ _ _ _ Hw1 Hu) as [Ht Hok]. split_and!.
      * etransitivity; [|exact Ht]. eapply same_except_weaken; [|exact Hs]. done.
      * intros e -> Hc. etransitivity; [exact Hs|]. by eapply Update_conflict.
      * intros -> Hq. right. exists (con_Plugins console), (b ++ a). split; [done|]. split.
        -- unfold registered in Hok. rewrite <-Hdel. apply Hok; [done|]. by apply (Hq console).
        -- right. by exists b, a.
  - destruct (kerrors_IsNotFound e) eqn:He; ret_inv Hrun; split_and!; try done; try (by apply Hsame).
    intros _ _. left. unfold registered. rewrite Hw1. by rewrite (Get_NotFound KConsole console_key _ _ _ Hg He).
Qed.

(** *** All the attempts *)
Lemma retry_run (fn : E W ()) w r w' :
  (∀ u q u', fn u = (q, u') → ∀ e, q = Err e → kerrors_IsConflict e = true → same_store u u') →
  retry_RetryOnConflict fn w = (r, w') → ∃ w1, same_store w w1 ∧ fn w1 = (r, w').
Proof.
  intros Hfn (w1 & Hc & Hl)%Retry_last. exists w1. split; [|done]. eapply conflicts_store; [|exact Hc].
  intros u e u' Hu. by eapply Hfn.
Qed.
Lemma quiet_same w w' k n : same_store w w' → quiet w k n → quiet w' k n.
Proof. intros Hs. apply quiet_eq. by apply same_store_eq. Qed.
Lemma register_run w r w' : registerConsolePlugin w = (r, w') →
  same_except (only KConsole console_key) w w' ∧
  (r = Ok () → quiet w KConsole console_key → ∃ old, registered w = Some old ∧ registered w' = Some (add_plugin old)).
Proof.
  intros (w1 & Hs & Hl)%retry_run; [|intros u q u' Hu; by apply register_once_run in Hu as (_ & ? & _)].
  apply register_once_run in Hl as (Ht & _ & Hok). split.
  - etransitivity; [|exact Ht]. eapply same_except_weaken; [|exact Hs]. done.
  - intros Hr Hq. rewrite <-(registered_eq w w1) by by apply same_store_eq. apply Hok; [done|]. by eapply quiet_same.
Qed.
Lemma unregister_run w r w' : unregisterConsolePlugin w = (r, w') →
  same_except (only KConsole console_key) w w' ∧
  (r = Ok () → quiet w KConsole console_key →
   (registered w = None ∧ registered w' = None) ∨
   ∃ old new, registered w = Some old ∧ registered w' = Some new ∧ first_removed ConsolePluginName old new).
Proof.
  intros (w1 & Hs & Hl)%retry_run; [|intros u q u' Hu; by apply unregister_once_run in Hu as (_ & ? & _)].
  apply unregister_once_run in Hl as (Ht & _ & Hok). split.
  - etransitivity; [|exact Ht]. eapply same_except_weaken; [|exact Hs]. done.
  - intros Hr Hq. rewrite <-(registered_eq w w1) by by apply same_store_eq. apply Hok; [done|]. by eapply quiet_same.
Qed.

(** *** The version *)
Lemma version_or_Ok s d : d = "0.0.0" ∨ d = "99.99.0" → ∃ v, version_or s d = Ok v.
Proof.
  intros Hd. unfold version_or, semver_MustParse. destruct (semver_Parse s) as [v|e]; [by exists v|].
  destruct (semver_Parse d) as [v|e'] eqn:E; [by exists v|].
  destruct Hd as [-> | ->]; [destruct Parse_default_min|destruct Parse_default_max]; congruence.
Qed.
(** The bounds in force: what the installer was given, if it is not empty and parses, or
    else 0.0.0 and 99.99.0. *)
Definition bound (given default : string) (v : Version) : Prop :=
  given ≠ "" ∧ semver_Parse given = Ok v ∨
  (given = "" ∨ ∃ e, semver_Parse given = Err e) ∧ semver_Parse default = Ok v.
Definition bounds p (lo hi : Version) : Prop :=
  bound (pi_MinOpenShiftVersion p) "0.0.0" lo ∧ bound (pi_MaxOpenShiftVersion p) "99.99.0" hi.
Lemma version_or_bound s d v : version_or (if bool_decide (s = "") then d else s) d = Ok v → bound s d v.
Proof.
  unfold version_or, semver_MustParse, bound. case_bool_decide as Hs.
  - destruct (semver_Parse d) as [x|e] eqn:E; [|done]. intros [= <-]. right. split; [by left|done].
  - destruct (semver_Parse s) as [x|e] eqn:E; [intros [= <-]; by left|].
    destruct (semver_Parse d) as [x|e'] eqn:E'; [|done]. intros [= <-]. right. split; [right; by exists e|done].
Qed.
(** The version of the cluster, without suffix. *)
Definition cluster_version w (v : Version) : Prop :=
  ∃ cv t, stored w KClusterVersion (nn "" ClusterVersionName) = Some cv ∧
    semver_FinalizeVersion (cv_DesiredVersion cv) = Ok t ∧ semver_Parse t = Ok v.
Definition in_range (lo hi v : Version) : bool := negb (Version_LT v lo) && negb (Version_LT hi v).

Lemma gate_run p w r w' :
  isOpenShiftCompatible p w = (r, w') →
  same_store w w' ∧ ∃ lo hi, bounds p lo hi ∧
  match r with
  | Ok b => ∃ v, cluster_version w v ∧ b = in_range lo hi v
  | Err e => client_Get KClusterVersion (nn "" ClusterVersionName) w = (Err e, w') ∨
             ∃ cv, stored w KClusterVersion (nn "" ClusterVersionName) = Some cv ∧
                   semver_FinalizeVersion (cv_DesiredVersion cv) = Err e
  end.
Proof.
  unfold isOpenShiftCompatible.
  destruct (version_or_Ok (if bool_decide (pi_MinOpenShiftVersion p = "") then defaultMinOpenShiftVersion else pi_MinOpenShiftVersion p)
    defaultMinOpenShiftVersion) as [lo Hlo]; [by left|].
  destruct (version_or_Ok (if bool_decide (pi_MaxOpenShiftVersion p = "") then defaultMaxOpenShiftVersion else pi_MaxOpenShiftVersion p)
    defaultMaxOpenShiftVersion) as [hi Hhi]; [by right|].
  rewrite Hlo, Hhi. assert (Hb : bounds p lo hi) by (split; by apply version_or_bound).
  intros (q & w1 & Hv & Hrun)%mbindM_inv.
  unfold getOpenShiftVersion in Hv. apply mbindM_inv in Hv as (got & w2 & Hg & Hv).
  pose proof (Get_reads _ _ _ _ _ Hg) as Hs. destruct got as [cv|e].
  - assert (w1 = w2 ∧ q = match semver_FinalizeVersion (cv_DesiredVersion cv) with
                          | Err e => Err e | Ok t => semver_MustParse t end) as [-> Hq]
      by (destruct (semver_FinalizeVersion _); by ret_inv Hv).
    clear Hv. apply (Get_Ok KClusterVersion) in Hg.
    destruct (semver_FinalizeVersion (cv_DesiredVersion cv)) as [t|e] eqn:Ef.
    + destruct (FinalizeVersion_Ok _ _ Ef) as [v Hv]. unfold semver_MustParse in Hq. rewrite Hv in Hq. subst q.
      assert (Hcv : cluster_version w v) by (by exists cv, t). rewrite GT_LT in Hrun.
      assert (r = Ok (in_range lo hi v) ∧ w' = w2) as [-> ->].
      { unfold in_range. destruct (Version_LT v lo), (Version_LT hi v); by ret_inv Hrun. }
      split; [done|]. exists lo, hi. split; [done|]. by exists v.
    + subst q. ret_inv Hrun. split; [done|]. exists lo, hi. split; [done|]. right. by exists cv.
  - ret_inv Hv. ret_inv Hrun. split; [done|]. exists lo, hi. split; [done|]. by left.
Qed.
(** The version gate answers yes exactly when the version of the cluster, without its
    suffix, is neither below the minimum nor above the maximum, where a bound that is unset
    or does not parse is the default; it writes nothing, and it fails only when the version
    of the cluster cannot be read: the parsers that panic are never reached with a bad
    version. *)
Theorem version_gate p w r w' :
  isOpenShiftCompatible p w = (r, w') →
  same_store w w' ∧ ∃ lo hi, bounds p lo hi ∧
  match r with
  | Ok b => ∃ v, cluster_version w v ∧ b = in_range lo hi v
  | Err e => client_Get KClusterVersion (nn "" ClusterVersionName) w = (Err e, w') ∨
             ∃ cv, stored w KClusterVersion (nn "" ClusterVersionName) = Some cv ∧
                   semver_FinalizeVersion (cv_DesiredVersion cv) = Err e
  end.
Proof. apply gate_run. Qed.

(** *** The plugin *)
Lemma touches_findOwner S p : touches S (findOwner p).
Proof.
  unfold findOwner. apply touches_try; [apply (touches_Get _ KDeployment)|]. intros deploy.
  destruct (olm_selector _ _ _) as [sel|e]; [|apply touches_ret].
  apply touches_try; [|intros l; destruct (List.find _ _); apply touches_ret].
  apply touches_reads. intros w r w' Hr. by eapply ListBindings_reads.
Qed.
Lemma pluginLabels_fields m : pluginLabels m = m <| om_Labels := om_Labels (pluginLabels m) |>.
Proof. unfold pluginLabels. rewrite !SetMetaDataLabel_spec. by destruct m. Qed.
Lemma mutatePlugin_ok p owner plugin plugin' : mutatePlugin p owner plugin = (plugin', Ok ()) →
  cpl_Backend plugin' = pluginBackend p ∧ cpl_Proxy plugin' = [pluginProxy p] ∧ cpl_DisplayName plugin' = AppName ∧
  cpl_I18nLoadType plugin' = "Preload".
Proof. unfold mutatePlugin. destruct (match owner with Some _ => _ | None => _ end); [|done]. by intros [= <-]. Qed.
Lemma touches_create p : touches (only KConsolePlugin plugin_key) (createConsolePlugin p).
Proof.
  unfold createConsolePlugin. apply touches_bind; [apply touches_findOwner|]. intros owner.
  apply touches_bind; [apply touches_CreateOrUpdate; [intros base; apply touches_ret|done]|].
  intros [o op]. apply touches_ret.
Qed.
Lemma create_ok p w w' : quiet w KConsolePlugin plugin_key → createConsolePlugin p w = (Ok (), w') → plugin_stored w' p.
Proof.
  intros Hq. unfold createConsolePlugin. intros (owner & w1 & Hf & Hrun)%mbindM_inv.
  pose proof (touches_findOwner (λ _ _, False) p _ _ _ Hf) as Hs.
  apply mbindM_inv in Hrun as ([o [op|e]] & w2 & Hc & Hrun); ret_inv Hrun.
  apply (CreateOrUpdate_ok KConsolePlugin) in Hc as (base & w3 & o1 & w4 & got & _ & _ & Hm & _ & Hgot & [_ Hk] & _).
  - injection Hm as Hm _. apply mutatePlugin_ok in Hm as (M1 & M2 & M3 & M4). destruct Hk as (K1 & K2 & K3 & K4).
    exists got. split; [exact Hgot|]. by rewrite K2, K4, K1, K3.
  - intros b u r u' [= _ ->]. done.
  - intros old Hold. by apply (quiet_same _ _ _ _ Hs Hq old).
Qed.
Lemma touches_deletePlugin : touches (only KConsolePlugin plugin_key) deleteConsolePlugin.
Proof. unfold deleteConsolePlugin. touch. done. Qed.
Lemma deletePlugin_gone w w' : unheld w KConsolePlugin plugin_key → deleteConsolePlugin w = (Ok (), w') →
  stored w' KConsolePlugin plugin_key = None.
Proof.
  intros Hu. unfold deleteConsolePlugin. intros (r & w1 & Hd & Hrun)%mbindM_inv.
  assert (Hr : r = Ok () ∨ ∃ e, r = Err e ∧ kerrors_IsNotFound e = true).
  { destruct r as [[]|e]; [by left|]. right. exists e. split; [done|]. by destruct (kerrors_IsNotFound e); ret_inv Hrun. }
  pose proof (Delete_gone KConsolePlugin (NewConsolePlugin ConsolePluginName) w r w1 Hu Hd Hr) as Hg.
  destruct r as [[]|e]; [by ret_inv Hrun|]. by destruct (kerrors_IsNotFound e); ret_inv Hrun.
Qed.
Lemma plugin_stored_eq w w' p : stored w' KConsolePlugin plugin_key = stored w KConsolePlugin plugin_key →
  plugin_stored w p → plugin_stored w' p.
Proof. intros Hs (plugin & Hst & Hp). exists plugin. by rewrite Hs. Qed.

Definition console_footprint : Kind → NamespacedName → Prop :=
  λ k n, (k = KConsolePlugin ∧ n = plugin_key) ∨ (k = KConsole ∧ n = console_key).
(** However the installer ends, it touches nothing but the plugin and the console's
    configuration; and it registers the plugin only once the plugin is stored: on a cluster
    of a supported version, a console whose list has changed points to a plugin that is
    there, and a failure to write the plugin leaves the list alone. *)
Theorem console_registration_safe p w r w' :
  installConsolePlugin p w = (r, w') →
  same_except console_footprint w w' ∧
  (quiet w KConsolePlugin plugin_key → (isOpenShiftCompatible p w).1 = Ok true → registered w' ≠ registered w →
   plugin_stored w' p).
Proof.
  unfold installConsolePlugin. intros (compat & w1 & Hv & Hrun)%mbindM_inv.
  rewrite Hv. apply gate_run in Hv as [Hs _].
  assert (Hw : ∀ S (u : W), same_except S w1 u → (∀ k n, S k n → console_footprint k n) → same_except console_footprint w u).
  { intros S u Hu HS. etransitivity; (eapply same_except_weaken; [|eassumption]); [done|exact HS]. }
  assert (Hplug : ∀ k n, only KConsolePlugin plugin_key k n → console_footprint k n) by (intros k n [-> ->]; by left).
  assert (Hcon : ∀ k n, only KConsole console_key k n → console_footprint k n) by (intros k n [-> ->]; by right).
  destruct compat as [b|e]; [|ret_inv Hrun; split; [by eapply Hw|done]].
  destruct b; simpl negb in Hrun.
  - apply mbindM_inv in Hrun as (q & w2 & Hc & Hrun). pose proof (touches_create p _ _ _ Hc) as Ht.
    destruct q as [[]|e].
    + apply register_run in Hrun as [Ht2 _]. split.
      { etransitivity; [by eapply Hw|]. eapply same_except_weaken; [|exact Ht2]. exact Hcon. }
      intros Hq _ _. eapply plugin_stored_eq; [|eapply create_ok; [|exact Hc]; by eapply quiet_same].
      apply Ht2. by intros [? _].
    + ret_inv Hrun. split; [by eapply Hw|]. intros _ _ Hne. destruct Hne. apply registered_eq.
      rewrite (Ht KConsole console_key) by (by intros [? _]). by apply same_store_eq.
  - split; [|done]. unfold uninstallConsolePlugin in Hrun. apply mbindM_inv in Hrun as (q & w2 & Hu & Hrun).
    apply unregister_run in Hu as [Ht _]. destruct q as [[]|e]; [|ret_inv Hrun; by eapply Hw].
    etransitivity; [by eapply Hw|]. eapply same_except_weaken; [exact Hplug|]. by eapply touches_deletePlugin.
Qed.

Lemma add_plugin_in old : ConsolePluginName ∈ add_plugin old.
Proof. unfold add_plugin. destruct (decide _); [done|]. apply elem_of_app. right. by left. Qed.
Lemma add_plugin_again old : add_plugin (add_plugin old) = add_plugin old.
Proof. unfold add_plugin at 1. by rewrite decide_True by apply add_plugin_in. Qed.
Lemma first_removed_NoDup x old new : NoDup old → first_removed x old new → x ∉ new.
Proof.
  intros Hn [[Hx ->]|(b & a & -> & _ & ->)]; [done|]. apply NoDup_app in Hn as (_ & Hb & Ha).
  apply NoDup_cons in Ha as [Ha _]. rewrite elem_of_app. intros [Hin|Hin]; [|done]. apply (Hb x Hin). by left.
Qed.
(** C20. When it succeeds, the installer leaves what the version of the cluster asks for.
    The version is that of the cluster without its suffix, and it is in range when it is
    neither below the minimum nor above the maximum, where a bound that is unset or does not
    parse is the default.  In range: the plugin is stored and serves from the console
    service of the operator's namespace, and its name is in the console's list, where it is
    appended at most once (running it again changes nothing).  Out of range: the plugin is
    gone and, when the list had no duplicates, its name is too, the others keeping their
    order; with no console configuration there is nothing to do.  The plugin and the
    console's configuration must not be held by finalizers or under deletion when the
    installer starts. *)
Theorem plugin_follows_version p w w' :
  quiet w KConsolePlugin plugin_key → quiet w KConsole console_key →
  installConsolePlugin p w = (Ok (), w') →
  ∃ lo hi v, bounds p lo hi ∧ cluster_version w v ∧
  if in_range lo hi v then
    plugin_stored w' p ∧ ∃ old, registered w = Some old ∧ registered w' = Some (add_plugin old) ∧
      ConsolePluginName ∈ add_plugin old ∧ add_plugin (add_plugin old) = add_plugin old
  else
    stored w' KConsolePlugin plugin_key = None ∧
    (registered w = None ∧ registered w' = None ∨
     ∃ old new, registered w = Some old ∧ registered w' = Some new ∧ first_removed ConsolePluginName old new ∧
       (NoDup old → ConsolePluginName ∉ new)).
Proof.
  intros Hqp Hqc. unfold installConsolePlugin. intros (b & w1 & Hv & Hrun)%mtry_ok_inv.
  apply gate_run in Hv as (Hs & lo & hi & Hb & v & Hcv & ->). exists lo, hi, v. split; [done|]. split; [done|].
  destruct (in_range lo hi v); simpl negb in Hrun.
  - apply mtry_ok_inv in Hrun as ([] & w2 & Hc & Hrun). pose proof (touches_create p _ _ _ Hc) as Ht.
    apply create_ok in Hc; [|by eapply quiet_same]. apply register_run in Hrun as [Ht2 Hreg].
    assert (Hsc : stored w2 KConsole console_key = stored w KConsole console_key).
    { rewrite (Ht KConsole console_key) by (by intros [? _]). by apply same_store_eq. }
    split; [eapply plugin_stored_eq; [|exact Hc]; apply Ht2; by intros [? _]|].
    destruct Hreg as (old & Ho & Hn); [done|by eapply quiet_eq|]. exists old.
    rewrite <-(registered_eq w w2 Hsc). split_and!; [done..|apply add_plugin_in|apply add_plugin_again].
  - unfold uninstallConsolePlugin in Hrun. apply mtry_ok_inv in Hrun as ([] & w2 & Hu & Hrun).
    apply unregister_run in Hu as [Ht Hun]. pose proof (touches_deletePlugin _ _ _ Hrun) as Ht2.
    assert (Hsp : stored w2 KConsolePlugin plugin_key = stored w KConsolePlugin plugin_key).
    { rewrite (Ht KConsolePlugin plugin_key) by (by intros [? _]). by apply same_store_eq. }
    split; [apply deletePlugin_gone in Hrun; [done|]; apply quiet_unheld; by eapply quiet_eq|].
    rewrite (registered_eq w2 w') by (apply Ht2; by intros [? _]).
    rewrite <-(registered_eq w w1) by by apply same_store_eq.
    destruct Hun as [?|(old & new & Ho & Hn & Hf)]; [done|by eapply quiet_same|by left|].
    right. exists old, new. split_and!; [done..|]. intros Hnd. by eapply first_removed_NoDup.
Qed.
End outcomes.

(** ** Witnesses

    Versions are three numbers; a conflict is retried once. *)
Definition fake_Parse (s : string) : res (Z * Z * Z) :=
  match map (λ t, strconv.ParseUint10 64 (bytes t)) (strings.Split s "."%char) with
  | [Ok a; Ok b; Ok c] => Ok (a, b, c)
  | _ => Err (Errorf "invalid version" [s])
  end.
Definition fake_LT (v u : Z * Z * Z) : bool :=
  let '(a, b, c) := v in let '(a', b', c') := u in
  (a <? a') || ((a =? a') && ((b <? b') || ((b =? b') && (c <? c')))).
#[export] Instance fake_semver : Semver := {|
  Version := Z * Z * Z; semver_Parse := fake_Parse;
  semver_FinalizeVersion := λ s,
    let t := default "" (head (strings.Split s "-"%char)) in
    match fake_Parse t with Ok _ => Ok t | Err e => Err e end;
  Version_LT := fake_LT; Version_GT := λ v u, fake_LT u v |}.
#[export] Instance fake_console : ConsoleLibs fake := {|
  client_ListClusterRoleBindings := λ selector w,
    (Ok (filter (λ b, map_Forall (λ k v, gm_lookup (om_Labels (crb_meta b)) k = Some v) selector)
           (map snd (map_to_list (fk_objs w KClusterRoleBinding : gmap NamespacedName ClusterRoleBinding)))), w);
  controllerutil_SetOwnerReference := λ owner m, Ok (m <| om_OwnerReferences ::= λ l, l ++ [controller_ref owner] |>);
  kerrors_IsConflict := has_reason "Conflict";
  retry_RetryOnConflict := λ fn w,
    match fn w with
    | (Err e, w1) => if has_reason "Conflict" e then fn w1 else (Err e, w1)
    | r => r
    end |}.
#[export] Instance fake_console_laws : ConsoleLaws fake.
Proof.
  split.
  - intros s w r w' Hr. injection Hr as <- <-. by intros ???.
  - intros owner m m' Hr. injection Hr as <-. split; [by destruct m|]. exists (controller_ref owner). split; [|done].
    apply elem_of_app. right. by left.
  - intros fn w r w' Hr. simpl in Hr. destruct (fn w) as [[a|e] w1] eqn:Hf.
    + injection Hr as <- <-. exists w. split; [constructor|done].
    + destruct (has_reason "Conflict" e) eqn:He.
      * exists w1. split; [|done]. eapply conflicts_more; [done|exact He|constructor].
      * injection Hr as <- <-. exists w. split; [constructor|done].
  - intros k o w o' e w' Hr. simpl in Hr. unfold fk_Update in Hr.
    intros Hc. destruct (fk_stored w k (key k o)); [destruct (_ && _); discriminate Hr|]. by injection Hr as <- <- <-.
  - intros s t Hr. simpl in *. destruct (fake_Parse _) as [v|] eqn:E; [|done]. injection Hr as <-. by exists v.
  - eexists. vm_compute. reflexivity.
  - eexists. vm_compute. reflexivity.
  - done.
Qed.

Definition console_world (version : string) : fake :=
  fk_put KClusterVersion (nn "" "version") {| cv_meta := NewObjectMeta "version" ""; cv_DesiredVersion := version; cv_rest := [] |}
    (fk_put KConsole (nn "" "cluster") {| con_meta := NewObjectMeta "cluster" ""; con_Plugins := ["monitoring-plugin"]; con_rest := [] |}
      fk_sample).
Definition sample_installer : PluginInstaller := {|
  pi_Namespace := "ns"; pi_MinOpenShiftVersion := "4.15.0"; pi_MaxOpenShiftVersion := "latest" |}.
Lemma console_world_quiet v k n : k = KConsolePlugin ∨ k = KConsole → quiet (console_world v) k n.
Proof. intros [-> | ->]; apply fk_quiet; apply (bool_decide_unpack _); vm_compute; exact I. Qed.

(** A bound that does not parse is the default, and a suffix of the version is dropped. *)
Lemma version_gate_witness : ∃ v, cluster_version (console_world "4.16.3-rc.1") v ∧
  (isOpenShiftCompatible sample_installer (console_world "4.16.3-rc.1")).1 = Ok true.
Proof.
  assert (Hok : (isOpenShiftCompatible sample_installer (console_world "4.16.3-rc.1")).1 = Ok true) by (vm_compute; reflexivity).
  pose proof (run_snd _ _ _ Hok) as Hrun.
  destruct (version_gate _ _ _ _ Hrun) as (_ & lo & hi & _ & v & Hv & _). exists v. split; [exact Hv|exact Hok].
Defined.
(** On a supported version. *)
Definition install_world : fake := console_world "4.16.3".
Lemma install_compatible : (isOpenShiftCompatible sample_installer install_world).1 = Ok true.
Proof. vm_compute. reflexivity. Qed.
Lemma install_runs : installConsolePlugin sample_installer install_world =
  (Ok (), (installConsolePlugin sample_installer install_world).2).
Proof. apply run_snd. vm_compute. reflexivity. Qed.
Lemma console_registration_safe_witness :
  plugin_stored (installConsolePlugin sample_installer install_world).2 sample_installer.
Proof.
  refine (proj2 (console_registration_safe _ _ _ _ install_runs) _ install_compatible _).
  - apply console_world_quiet. by left.
  - vm_compute. discriminate.
Defined.
Lemma plugin_follows_version_witness :
  let w' := (installConsolePlugin sample_installer install_world).2 in
  plugin_stored w' sample_installer ∧ registered w' = Some ["monitoring-plugin"; "cryostat-plugin"].
Proof.
  destruct (plugin_follows_version sample_installer install_world _
    (console_world_quiet _ _ _ (or_introl eq_refl)) (console_world_quiet _ _ _ (or_intror eq_refl))
    install_runs) as (lo & hi & v & _ & _ & Hif).
  destruct (in_range lo hi v).
  - destruct Hif as [Hp _]. split; [exact Hp|]. vm_compute. reflexivity.
  - destruct Hif as [Hgone _]. vm_compute in Hgone. discriminate Hgone.
Defined.
