(* ===== verification/CryostatWebhook.v ===== *)
(** * The webhooks of the Cryostat resource

    [internal/webhook/v1beta2]: the defaulter and the validator that asks the API server
    whether the user who made the request may create a Cryostat in every target namespace.
    The object and the request are decoded by the webhook server: the validator takes a
    typed object and what [admission.RequestFromContext] returned. *)

From S2P Require Export Common.
From S2P Require Import FakeClient.
Open Scope Z_scope.

(** ** The request and the review *)
Record UserInfo := { ui_Username : string; ui_UID : string; ui_Groups : list string; ui_Extra : gomap (list string) }.
Record SubjectAccessReviewSpec := {
  sar_User : string; sar_Groups : list string; sar_UID : string; sar_Extra : gomap (list string);
  sar_ResourceAttributes : option ResourceAttributes }.
Record SubjectAccessReview := { sar_Spec : SubjectAccessReviewSpec; sar_Allowed : bool }.

(** [Create] of a review fills in its status; [permitted] is what the cluster's authorizer
    decides, which a request or a write of this operator does not change. *)
Class Reviews (W : Type) := {
  permitted : W → SubjectAccessReviewSpec → bool;
  client_CreateReview : SubjectAccessReview → M W (SubjectAccessReview * res ()) }.
Class ReviewLaws (W : Type) `{Kube W} `{Reviews W} := {
  CreateReview_reads sar w r w' : client_CreateReview sar w = (r, w') →
    same_store w w' ∧ ∀ spec, permitted w' spec = permitted w spec;
  CreateReview_Ok sar w sar' w' : client_CreateReview sar w = ((sar', Ok ()), w') →
    sar_Allowed sar' = permitted w (sar_Spec sar);
  range_permits A (l : list A) w l' w' : go_range l w = (l', w') → ∀ spec, permitted w' spec = permitted w spec }.

(** ** The validator *)
Definition GroupVersion_Group : string := "operator.cryostat.io".
Definition GroupVersion_Version : string := "v1beta2".

Definition NewErrNotPermitted (operation namespace : string) : error :=
  Errorf "unable to %s Cryostat: user is not permitted to create a Cryostat in namespace %s" [operation; namespace].

Section validator.
Context `{Kube W} `{Reviews W}.

Definition translateExtra (extra : gomap (list string)) : M W (gomap (list string)) :=
  match extra with
  | None => mretM None
  | Some m =>
      let* entries := go_range (map_to_list m) in
      mretM (Some (foldl (λ result kv, <[kv.1 := kv.2]> result) ∅ entries))
  end.

Definition review_attributes (namespace : string) : ResourceAttributes := {|
  ra_Namespace := namespace; ra_Verb := "create"; ra_Group := GroupVersion_Group; ra_Version := GroupVersion_Version;
  ra_Resource := "cryostats"; ra_Subresource := ""; ra_Name := ""; ra_FieldSelector := None; ra_LabelSelector := None |}.
Definition review_of (userInfo : UserInfo) (extra : gomap (list string)) (namespace : string) : SubjectAccessReviewSpec := {|
  sar_User := ui_Username userInfo; sar_Groups := ui_Groups userInfo; sar_UID := ui_UID userInfo;
  sar_Extra := extra; sar_ResourceAttributes := Some (review_attributes namespace) |}.

(** One pass of the loop over the target namespaces. *)
Definition review_namespace (userInfo : UserInfo) (op namespace : string) : E W () :=
  let* extra := translateExtra (ui_Extra userInfo) in
  let* ' (sar, err) := client_CreateReview {| sar_Spec := review_of userInfo extra namespace; sar_Allowed := false |} in
  match err with
  | Err e => mretM (Err (Wrapf "failed to check permissions: %w" e))
  | Ok _ => if negb (sar_Allowed sar) then mretM (Err (NewErrNotPermitted op namespace)) else mretM (Ok ())
  end.
Definition validate (req : res UserInfo) (cr : V2.Cryostat) (op : string) : E W () :=
  match req with
  | Err e => mretM (Err (Wrapf "no admission request found in context: %w" e))
  | Ok userInfo =>
      for_each (default [] (V2.spec_TargetNamespaces (V2.cr_Spec cr))) (review_namespace userInfo op)
  end.
Definition ValidateCreate (req : res UserInfo) (obj : V2.Cryostat) : E W () := validate req obj "create".
Definition ValidateUpdate (req : res UserInfo) (oldObj newObj : V2.Cryostat) : E W () := validate req newObj "update".
Definition ValidateDelete (req : res UserInfo) (obj : V2.Cryostat) : E W () := mretM (Ok ()).
End validator.

(** ** The defaulter *)
Definition Default (cr : V2.Cryostat) : V2.Cryostat :=
  let cr := match V2.spec_TargetNamespaces (V2.cr_Spec cr) with
            | None => cr <| V2.cr_Spec ::= λ s, s <| V2.spec_TargetNamespaces := Some [om_Namespace (V2.cr_meta cr)] |> |>
            | Some _ => cr
            end in
  if bool_decide (V2.spec_EnableAudit (V2.cr_Spec cr) = None) && CreationTimestamp_IsZero (V2.cr_meta cr) &&
     bool_decide (om_ResourceVersion (V2.cr_meta cr) = "")
  then cr <| V2.cr_Spec ::= λ s, s <| V2.spec_EnableAudit := Some true |> |>
  else cr.

(** ** Lemmas *)
Section lemmas.
Context `{KubeLaws W} `{Reviews W} `{!ReviewLaws W}.

(** The stored objects and the decisions are the same. *)
Definition same_cluster (w w' : W) : Prop := same_store w w' ∧ ∀ spec, permitted w' spec = permitted w spec.
#[export] Instance same_cluster_preorder : PreOrder same_cluster.
Proof. split; [by intros w; split|]. intros w1 w2 w3 [S1 P1] [S2 P2]. split; [by etransitivity|]. intros spec. by rewrite P2, P1. Qed.

(** The order of the entries does not matter: the extra is passed on as it is. *)
Lemma translateExtra_run extra w out w' : translateExtra extra w = (out, w') → out = extra ∧ same_cluster w w'.
Proof.
  unfold translateExtra. destruct extra as [m|]; [|by intros Hr; ret_inv Hr].
  intros (entries & w1 & Hr & Hrun)%mbindM_inv. pose proof (range_reads _ _ _ _ _ Hr) as Hs.
  pose proof (range_permits _ _ _ _ _ Hr) as Hp. apply range_perm in Hr. ret_inv Hrun. split; [|done]. f_equal.
  assert (Hnd : NoDup (entries.*1)) by (rewrite Hr; apply NoDup_fst_map_to_list).
  rewrite foldl_insert, (right_id_L ∅ (∪)) by (done || (intros; apply lookup_empty)).
  rewrite <-(list_to_map_to_list m). by apply list_to_map_proper.
Qed.
(** The question that has to be asked: may the user of the request, under the name, the
    identifier, the groups and the extra it came with, create the resource [cryostats] of
    the operator's API group in the namespace, whatever its name. *)
Definition create_cryostats (u : UserInfo) (namespace : string) : SubjectAccessReviewSpec := {|
  sar_User := ui_Username u; sar_Groups := ui_Groups u; sar_UID := ui_UID u; sar_Extra := ui_Extra u;
  sar_ResourceAttributes := Some {|
    ra_Namespace := namespace; ra_Verb := "create"; ra_Group := "operator.cryostat.io"; ra_Version := "v1beta2";
    ra_Resource := "cryostats"; ra_Subresource := ""; ra_Name := "";
    ra_FieldSelector := None; ra_LabelSelector := None |} |}.
Definition may_create (w : W) (userInfo : UserInfo) (namespace : string) : bool :=
  permitted w (create_cryostats userInfo namespace).
Lemma may_create_eq w w' u ns : same_cluster w w' → may_create w' u ns = may_create w u ns.
Proof. intros [_ Hp]. apply Hp. Qed.
Lemma review_namespace_run u op ns w r w' : review_namespace u op ns w = (r, w') →
  same_cluster w w' ∧
  match r with
  | Ok _ => may_create w u ns = true
  | Err e => (may_create w u ns = false ∧ e = NewErrNotPermitted op ns) ∨ ∃ e', e = Wrapf "failed to check permissions: %w" e'
  end.
Proof.
  unfold review_namespace. intros (extra & w1 & Ht & Hrun)%mbindM_inv. apply translateExtra_run in Ht as [-> Hs].
  apply mbindM_inv in Hrun as ([sar err] & w2 & Hc & Hrun). pose proof (CreateReview_reads _ _ _ _ Hc) as Hs2.
  assert (Hs' : same_cluster w w2) by by etransitivity.
  destruct err as [[]|e]; [|ret_inv Hrun; split; [done|right; by eexists]].
  apply CreateReview_Ok in Hc. simpl in Hc. rewrite (proj2 Hs) in Hc.
  change (sar_Allowed sar = may_create w u ns) in Hc. rewrite Hc in Hrun.
  destruct (may_create w u ns); ret_inv Hrun; split; [done..|]. by left.
Qed.
Lemma reviews_run u op l w r w' : for_each l (review_namespace u op) w = (r, w') →
  same_cluster w w' ∧
  match r with
  | Ok _ => Forall (λ ns, may_create w u ns = true) l
  | Err e => ∃ before ns after, l = before ++ ns :: after ∧ Forall (λ ns, may_create w u ns = true) before ∧
      ((may_create w u ns = false ∧ e = NewErrNotPermitted op ns) ∨ ∃ e', e = Wrapf "failed to check permissions: %w" e')
  end.
Proof.
  revert w. induction l as [|ns l IH]; intros w; simpl; [by intros Hr; ret_inv Hr|].
  intros (q & w1 & Hn & Hrun)%mbindM_inv. apply review_namespace_run in Hn as [Hs Hn].
  destruct q as [[]|e]; [|ret_inv Hrun; split; [done|]; exists [], ns, l; by split_and!].
  apply IH in Hrun as [Hs2 Hrest]. split; [by etransitivity|].
  assert (Hall : ∀ k, Forall (λ ns, may_create w1 u ns = true) k → Forall (λ ns, may_create w u ns = true) k).
  { intros k Hk. eapply Forall_impl; [exact Hk|]. intros x. cbn beta. by rewrite (may_create_eq w w1). }
  destruct r as [[]|e]; [constructor; auto|]. destruct Hrest as (b & ns' & a & -> & Hb & He). exists (ns :: b), ns', a.
  split; [done|]. split; [constructor; auto|]. by rewrite (may_create_eq w w1) in He.
Qed.

Definition targets (cr : V2.Cryostat) : list string := default [] (V2.spec_TargetNamespaces (V2.cr_Spec cr)).

(** C14. The validator writes nothing, and it accepts a Cryostat only when the cluster
    permits the user, with the name, the identifier, the groups and the extra of the
    request, to create Cryostats in every one of its target namespaces, which is the
    question [create_cryostats] spells out; when it refuses, every namespace before the one
    it names was permitted and that one was not, unless the review itself failed.  A
    deletion is always accepted. *)
Theorem validate_decides u cr op w r w' :
  validate (Ok u) cr op w = (r, w') →
  same_cluster w w' ∧
  (r = Ok () → ∀ ns, ns ∈ targets cr → may_create w u ns = true) ∧
  (∀ e, r = Err e → ∃ before ns after, targets cr = before ++ ns :: after ∧
     (∀ x, x ∈ before → may_create w u x = true) ∧
     ((may_create w u ns = false ∧ e = NewErrNotPermitted op ns) ∨ ∃ e', e = Wrapf "failed to check permissions: %w" e')) ∧
  (∀ req (v : W), ValidateDelete req cr v = (Ok (), v)).
Proof.
  intros [Hs Hr]%reviews_run. split; [done|]. split.
  { intros Hok ns. rewrite Hok in Hr. rewrite Forall_forall in Hr. apply Hr. }
  split; [|done]. intros e He. rewrite He in Hr. destruct Hr as (b & ns & a & Hl & Hb & Hx). exists b, ns, a.
  split; [done|]. split; [|done]. rewrite Forall_forall in Hb. exact Hb.
Qed.
End lemmas.

(** The defaulter is idempotent; what it leaves always has target namespaces: those
    that were given, even none, or else the namespace of the object alone; it never changes
    the audit setting of an object that exists already, and nothing else. *)
Theorem Default_spec cr :
  Default (Default cr) = Default cr ∧
  V2.spec_TargetNamespaces (V2.cr_Spec (Default cr)) =
    Some (default [om_Namespace (V2.cr_meta cr)] (V2.spec_TargetNamespaces (V2.cr_Spec cr))) ∧
  (CreationTimestamp_IsZero (V2.cr_meta cr) = false →
   V2.spec_EnableAudit (V2.cr_Spec (Default cr)) = V2.spec_EnableAudit (V2.cr_Spec cr)) ∧
  (Default cr) <| V2.cr_Spec ::= λ s, s <| V2.spec_TargetNamespaces := None |> <| V2.spec_EnableAudit := None |> |> =
    cr <| V2.cr_Spec ::= λ s, s <| V2.spec_TargetNamespaces := None |> <| V2.spec_EnableAudit := None |> |>.
Proof.
  destruct cr as [m [] st]. unfold Default, field_update. simpl.
  destruct spec_TargetNamespaces, spec_EnableAudit, (CreationTimestamp_IsZero m) eqn:Ez; simpl; rewrite ?Ez; simpl;
    try (by split_and!); destruct (bool_decide (om_ResourceVersion m = "")) eqn:Er; simpl; rewrite ?Ez, ?Er; simpl; by split_and!.
Qed.

(** ** Witnesses

    Alice may create Cryostats in three namespaces, and the administrator everywhere. *)
Definition fake_permitted (spec : SubjectAccessReviewSpec) : bool :=
  match sar_ResourceAttributes spec with
  | Some a => bool_decide (sar_User spec = "admin") ||
              (bool_decide (sar_User spec = "alice") && bool_decide (ra_Namespace a ∈ ["ns"; "a"; "b"]))
  | None => false
  end.
#[export] Instance fake_reviews : Reviews fake := {|
  permitted := λ _, fake_permitted;
  client_CreateReview := λ sar w, (({| sar_Spec := sar_Spec sar; sar_Allowed := fake_permitted (sar_Spec sar) |}, Ok ()), w) |}.
#[export] Instance fake_review_laws : ReviewLaws fake.
Proof.
  split.
  - intros sar w r w' Hr. injection Hr as _ <-. split; [by intros ???|done].
  - intros sar w sar' w' Hr. by injection Hr as <- _.
  - done.
Qed.
Definition alice : UserInfo := {|
  ui_Username := "alice"; ui_UID := "1"; ui_Groups := ["dev"]; ui_Extra := Some {[ "scopes" := ["s1"; "s2"] ]} |}.
Definition greedy_Cryostat : V2.Cryostat :=
  sample_Cryostat <| V2.cr_Spec ::= λ s, s <| V2.spec_TargetNamespaces := Some ["ns"; "other"; "a"] |> |>.
(** The refused namespace is named. *)
Lemma validate_decides_witness : ∃ before ns after, targets greedy_Cryostat = before ++ ns :: after ∧
  (∀ x, x ∈ before → may_create fk_sample alice x = true).
Proof.
  destruct (validate_decides alice greedy_Cryostat "create" fk_sample (Err (NewErrNotPermitted "create" "other"))
    (validate (Ok alice) greedy_Cryostat "create" fk_sample).2) as (_ & _ & Herr & _); [apply run_snd; vm_compute; reflexivity|].
  destruct (Herr _ eq_refl) as (b & ns & a & Hl & Hb & _). exists b, ns, a. split; [exact Hl|exact Hb].
Defined.
