(* ===== verification/ConfigMaps.v ===== *)
(** * Config maps

    [internal/controller/configmaps.go]: the lock that keeps two custom resources off the
    same names, the configuration of the OAuth2 proxy (JSON) and that of the agent proxy
    (nginx).  The nginx template is translated as it renders: the white space next to a
    trimmed action is gone from the texts below. *)

From S2P Require Export Recreate Resources.
From S2P Require Import Json TextLemmas FakeClient.
Open Scope Z_scope.

(** ** The OAuth2 proxy *)
Record tlsSecretSource := { ts_FromFile : string }.
Record proxyTLS := { pt_Key : tlsSecretSource; pt_Cert : tlsSecretSource }.
Record alphaConfigServer := {
  acs_BindAddress : string; acs_SecureBindAddress : string; acs_TLS : option proxyTLS }.
Record alphaConfigUpstream := {
  acu_Id : string; acu_Path : string; acu_RewriteTarget : string; acu_Uri : string;
  acu_PassHostHeader : option bool; acu_ProxyWebSockets : option bool }.
Record alphaConfigUpstreamConfig := {
  auc_ProxyRawPath : bool; auc_Upstreams : list alphaConfigUpstream }.
Record alphaConfigProvider := {
  acp_Id : string; acp_Name : string; acp_ClientId : string; acp_ClientSecret : string; acp_Provider : string }.
Record oauth2ProxyAlphaConfig := {
  oac_Server : alphaConfigServer; oac_UpstreamConfig : alphaConfigUpstreamConfig;
  oac_Providers : list alphaConfigProvider }.

(** Their JSON, from the tags of the fields; [omitempty] never omits a struct. *)
Import json.
Definition json_tlsSecretSource (s : tlsSecretSource) : value := Obj (str_field "fromFile" (ts_FromFile s)).
Definition json_proxyTLS (t : proxyTLS) : value :=
  Obj [("Key", json_tlsSecretSource (pt_Key t)); ("Cert", json_tlsSecretSource (pt_Cert t))].
Definition json_server (s : alphaConfigServer) : value :=
  Obj (str_field "BindAddress" (acs_BindAddress s) ++ str_field "SecureBindAddress" (acs_SecureBindAddress s) ++
       match acs_TLS s with Some t => [("TLS", json_proxyTLS t)] | None => [] end).
Definition json_upstream (u : alphaConfigUpstream) : value :=
  Obj (str_field "id" (acu_Id u) ++ str_field "path" (acu_Path u) ++
       str_field "rewriteTarget" (acu_RewriteTarget u) ++ str_field "uri" (acu_Uri u) ++
       bool_ptr_field "passHostHeader" (acu_PassHostHeader u) ++
       bool_ptr_field "proxyWebSockets" (acu_ProxyWebSockets u)).
Definition json_upstreamConfig (c : alphaConfigUpstreamConfig) : value :=
  Obj (bool_field "proxyRawPath" (auc_ProxyRawPath c) ++ arr_field "upstreams" (map json_upstream (auc_Upstreams c))).
Definition json_provider (p : alphaConfigProvider) : value :=
  Obj (str_field "id" (acp_Id p) ++ str_field "name" (acp_Name p) ++ str_field "clientId" (acp_ClientId p) ++
       str_field "clientSecret" (acp_ClientSecret p) ++ str_field "provider" (acp_Provider p)).
Definition json_alphaConfig (c : oauth2ProxyAlphaConfig) : value :=
  Obj ([("server", json_server (oac_Server c)); ("upstreamConfig", json_upstreamConfig (oac_UpstreamConfig c))] ++
       arr_field "providers" (map json_provider (oac_Providers c))).

Definition localhost (port : Z) : string := "http://localhost:" +:+ strconv.Itoa port.
Definition alphaConfig (tls : option TLSConfig) : oauth2ProxyAlphaConfig :=
  let bindHost := "0.0.0.0" in
  let secret_file s key := {| ts_FromFile := path.Join [SecretMountPrefix; s; key] |} in
  {| oac_Server :=
       match tls with
       | Some tls => {|
           acs_BindAddress := "";
           acs_SecureBindAddress := "https://" +:+ bindHost +:+ ":" +:+ strconv.Itoa AuthProxyHttpContainerPort;
           acs_TLS := Some {| pt_Key := secret_file (tls_CryostatSecret tls) TLSPrivateKeyKey;
                              pt_Cert := secret_file (tls_CryostatSecret tls) TLSCertKey |} |}
       | None => {|
           acs_BindAddress := "http://" +:+ bindHost +:+ ":" +:+ strconv.Itoa AuthProxyHttpContainerPort;
           acs_SecureBindAddress := ""; acs_TLS := None |}
       end;
     oac_UpstreamConfig := {| auc_ProxyRawPath := true; auc_Upstreams := [
       {| acu_Id := "cryostat"; acu_Path := "/"; acu_RewriteTarget := "";
          acu_Uri := localhost CryostatHTTPContainerPort; acu_PassHostHeader := None; acu_ProxyWebSockets := None |};
       {| acu_Id := "grafana"; acu_Path := "/grafana/"; acu_RewriteTarget := "";
          acu_Uri := localhost GrafanaContainerPort; acu_PassHostHeader := None; acu_ProxyWebSockets := None |};
       {| acu_Id := "storage"; acu_Path := "^/storage/(.*)$"; acu_RewriteTarget := "/$1";
          acu_Uri := localhost StoragePort; acu_PassHostHeader := Some false; acu_ProxyWebSockets := Some false |}] |};
     oac_Providers := [{| acp_Id := "dummy"; acp_Name := "Unused - Sign In Below"; acp_ClientId := "CLIENT_ID";
                          acp_ClientSecret := "CLIENT_SECRET"; acp_Provider := "google" |}] |}.

(** ** The agent proxy *)
Record nginxConfParams := {
  ng_ServerName : string; ng_TLSEnabled : bool; ng_TLSCertFile : string; ng_TLSKeyFile : string;
  ng_CACertFile : string; ng_DHParamFile : string; ng_ContainerPort : Z; ng_HealthPort : Z;
  ng_CryostatPort : Z; ng_AllowedPathPrefixes : list string }.

Definition lines (l : list string) : string := strings.Join l newline.

(** Up to the name of the server. *)
Definition nginx_head (p : nginxConfParams) : string :=
  lines [
    "worker_processes auto;";
    "error_log stderr notice;";
    "pid /run/nginx.pid;";
    "";
    "# Load dynamic modules. See /usr/share/doc/nginx/README.dynamic.";
    "include /usr/share/nginx/modules/*.conf;";
    "";
    "events {";
    "	worker_connections 1024;";
    "}";
    "";
    "http {";
    "	log_format  main  '$remote_addr - $remote_user [$time_local] " +:+ dquote +:+ "$request" +:+ dquote +:+ " '";
    "	                  '$status $body_bytes_sent " +:+ dquote +:+ "$http_referer" +:+ dquote +:+ " '";
    "	                  '" +:+ dquote +:+ "$http_user_agent" +:+ dquote +:+ " " +:+ dquote +:+ "$http_x_forwarded_for" +:+ dquote +:+ "';";
    "";
    "	access_log  /dev/stdout  main;";
    "";
    "	sendfile            on;";
    "	tcp_nopush          on;";
    "	keepalive_timeout   65;";
    "	types_hash_max_size 4096;";
    "	client_max_body_size 0;";
    "";
    "	include             /etc/nginx/mime.types;";
    "	default_type        application/octet-stream;";
    "";
    "	server {";
    "		server_name "] +:+
  ng_ServerName p +:+
  lines [
    ";";
    "";
    "		"].
(** With TLS: a client certificate signed by the CA is required. *)
Definition nginx_tls (p : nginxConfParams) : string :=
  "listen " +:+
  strconv.Itoa (ng_ContainerPort p) +:+
  lines [
    " ssl;";
    "		listen [::]:"] +:+
  strconv.Itoa (ng_ContainerPort p) +:+
  lines [
    " ssl;";
    "";
    "		ssl_certificate "] +:+
  ng_TLSCertFile p +:+
  lines [
    ";";
    "		ssl_certificate_key "] +:+
  ng_TLSKeyFile p +:+
  lines [
    ";";
    "";
    "		ssl_session_timeout 5m;";
    "		ssl_session_cache shared:SSL:20m;";
    "		ssl_session_tickets off;";
    "";
    "		ssl_dhparam "] +:+
  ng_DHParamFile p +:+
  lines [
    ";";
    "";
    "		# intermediate configuration";
    "		ssl_protocols TLSv1.2 TLSv1.3;";
    "		ssl_ciphers ECDHE-ECDSA-AES128-GCM-SHA256:ECDHE-RSA-AES128-GCM-SHA256:ECDHE-ECDSA-AES256-GCM-SHA384:ECDHE-RSA-AES256-GCM-SHA384:ECDHE-ECDSA-CHACHA20-POLY1305:ECDHE-RSA-CHACHA20-POLY1305:DHE-RSA-AES128-GCM-SHA256:DHE-RSA-AES256-GCM-SHA384:DHE-RSA-CHACHA20-POLY1305;";
    "		ssl_prefer_server_ciphers off;";
    "";
    "		# HSTS (ngx_http_headers_module is required) (63072000 seconds)";
    "		add_header Strict-Transport-Security " +:+ dquote +:+ "max-age=63072000" +:+ dquote +:+ " always;";
    "";
    "		# OCSP stapling";
    "		ssl_stapling on;";
    "		ssl_stapling_verify on;";
    "";
    "		ssl_trusted_certificate "] +:+
  ng_CACertFile p +:+
  lines [
    ";";
    "";
    "		# Client certificate authentication";
    "		ssl_client_certificate "] +:+
  ng_CACertFile p +:+
  lines [
    ";";
    "		ssl_verify_client on;"].
(** Without TLS. *)
Definition nginx_plain (p : nginxConfParams) : string :=
  "listen " +:+
  strconv.Itoa (ng_ContainerPort p) +:+
  lines [
    ";";
    "		listen [::]:"] +:+
  strconv.Itoa (ng_ContainerPort p) +:+
  ";".
(** Between the listening ports and the locations. *)
Definition nginx_mid : string :=
  lines [
    "";
    "";
    "		"].
(** One allowed path prefix. *)
Definition nginx_location (p : nginxConfParams) (prefix : string) : string :=
  "location " +:+
  prefix +:+
  lines [
    "/ {";
    "			proxy_pass http://127.0.0.1:"] +:+
  strconv.Itoa (ng_CryostatPort p) +:+
  lines [
    "$request_uri;";
    "		}";
    "";
    "		location = "] +:+
  prefix +:+
  lines [
    " {";
    "			proxy_pass http://127.0.0.1:"] +:+
  strconv.Itoa (ng_CryostatPort p) +:+
  lines [
    "$request_uri;";
    "		}";
    "";
    "		"].
(** Everything else is not found; and the health server. *)
Definition nginx_tail (p : nginxConfParams) : string :=
  lines [
    "location / {";
    "			return 404;";
    "		}";
    "	}";
    "";
    "	# Heatlh Check";
    "	server {";
    "		listen "] +:+
  strconv.Itoa (ng_HealthPort p) +:+
  lines [
    ";";
    "		listen [::]:"] +:+
  strconv.Itoa (ng_HealthPort p) +:+
  lines [
    ";";
    "";
    "		location = /healthz {";
    "			return 200;";
    "		}";
    "";
    "		location / {";
    "			return 404;";
    "		}";
    "	}";
    "}"].
(** [nginxConfTemplate.Execute] *)
Definition nginxConf (p : nginxConfParams) : string :=
  nginx_head p +:+ (if ng_TLSEnabled p then nginx_tls p else nginx_plain p) +:+ nginx_mid +:+
  foldr (λ prefix s, nginx_location p prefix +:+ s) "" (ng_AllowedPathPrefixes p) +:+ nginx_tail p.

Definition dhFileName : string := "dhparam.pem".
Definition dhParams : string := lines [
  "-----BEGIN DH PARAMETERS-----";
  "MIIBCAKCAQEA//////////+t+FRYortKmq/cViAnPTzx2LnFg84tNpWp4TZBFGQz";
  "+8yTnc4kmz75fS/jY2MMddj2gbICrsRhetPfHtXV/WVhJDP1H18GbtCFY2VVPe0a";
  "87VXE15/V8k1mE8McODmi3fipona8+/och3xWKE2rec1MKzKT0g6eXq8CrGCsyT7";
  "YdEIqUuyyOP7uWrat2DX9GgdT0Kj3jlN9K5W7edjcrsZCwenyO4KbXCeAvzhzffi";
  "7MA0BM0oNC9hkXL+nOmFg/+OTxIy7vKBg8P+OxtMb61zO7X8vC7CIAXFjvGDfRaD";
  "ssbzSibBsu/6iGtCOGEoXJf//////////wIBAg==";
  "-----END DH PARAMETERS-----"].

Section configmaps.
Context `{Kube W}.
Implicit Types (r : Reconciler) (cr : CryostatInstance).

(** ** Creation and deletion *)
Definition NewConfigMap (name namespace : string) : ConfigMap :=
  {| cm_meta := NewObjectMeta name namespace; cm_Immutable := None; cm_Data := None |}.
Definition errConfigMapImmutableModified : error :=
  Sentinel "errConfigMapImmutableModified" "config map is immutable and should not be".
Definition isImmutable (cm : ConfigMap) : bool := default false (cm_Immutable cm).

Definition deleteConfigMap (cm : ConfigMap) : E W () :=
  let* err := client_Delete KConfigMap cm in
  match err with
  | Err e => if negb (kerrors_IsNotFound e) then mretM (Err e) else mretM (Ok ())
  | Ok _ => mretM (Ok ())
  end.

Definition mutateConfigMap (cmCopy : ConfigMap) (owner : V2.Cryostat) (data : gomap string)
    (cm : ConfigMap) : ConfigMap * res () :=
  if isImmutable cm && negb (isImmutable cmCopy) then (cm, Err errConfigMapImmutableModified)
  else
    match controllerutil_SetControllerReference (V2.cr_meta owner) (cm_meta cm) with
    | Err e => (cm, Err e)
    | Ok meta => (cm <| cm_meta := meta |> <| cm_Data := data |>, Ok ())
    end.

Definition recreateConfigMap
    (createOrUpdateConfigMap : ConfigMap → V2.Cryostat → gomap string → E W ())
    (cm : ConfigMap) (owner : V2.Cryostat) (data : gomap string) : E W () :=
  do? deleteConfigMap cm in createOrUpdateConfigMap cm owner data.

Fixpoint createOrUpdateConfigMap (fuel : nat) (cm : ConfigMap) (owner : V2.Cryostat) (data : gomap string)
  : E W () :=
  match fuel with
  | O => mretM (Err out_of_fuel)
  | S fuel =>
      let cmCopy := cm in
      let* ' (_, op) := controllerutil_CreateOrUpdate KConfigMap cm
                          (λ cm, mretM (mutateConfigMap cmCopy owner data cm)) in
      match op with
      | Err e =>
          if decide (e = errConfigMapImmutableModified)
          then recreateConfigMap (createOrUpdateConfigMap fuel) cmCopy owner data
          else mretM (Err e)
      | Ok _ => mretM (Ok ())
      end
  end.

(** ** The config maps *)
Definition lock_configMap cr : ConfigMap := NewConfigMap (ci_Name cr +:+ "-lock") (ci_InstallNamespace cr).
Definition reconcileLockConfigMap cr : E W () :=
  createOrUpdateConfigMap recreate_fuel (lock_configMap cr) (ci_Object cr) None.

Definition oauth2_configMap cr : ConfigMap :=
  NewConfigMap (ci_Name cr +:+ "-oauth2-proxy-cfg") (ci_InstallNamespace cr).
Definition oauth2_data (tls : option TLSConfig) : gomap string :=
  Some {[ OAuth2ConfigFileName := MarshalIndent (json_alphaConfig (alphaConfig tls)) ]}.
Definition reconcileOAuth2ProxyConfig r cr (tls : option TLSConfig) : E W () :=
  if r_IsOpenShift r then deleteConfigMap (oauth2_configMap cr)
  else createOrUpdateConfigMap recreate_fuel (oauth2_configMap cr) (ci_Object cr) (oauth2_data tls).

Definition agent_proxy_configMap cr : ConfigMap :=
  NewConfigMap (ci_Name cr +:+ "-agent-proxy") (ci_InstallNamespace cr).
Definition agent_proxy_params cr (tls : option TLSConfig) : nginxConfParams :=
  let file s key := path.Join [SecretMountPrefix; s; key] in
  {| ng_ServerName := ci_Name cr +:+ "-agent." +:+ ci_InstallNamespace cr +:+ ".svc";
     ng_TLSEnabled := match tls with Some _ => true | None => false end;
     ng_TLSCertFile := match tls with Some t => file (tls_AgentProxySecret t) TLSCertKey | None => "" end;
     ng_TLSKeyFile := match tls with Some t => file (tls_AgentProxySecret t) TLSPrivateKeyKey | None => "" end;
     ng_CACertFile := match tls with Some t => file (tls_AgentProxySecret t) CAKey | None => "" end;
     ng_DHParamFile := match tls with Some _ => path.Join [AgentProxyConfigFilePath; dhFileName] | None => "" end;
     ng_ContainerPort := AgentProxyContainerPort; ng_HealthPort := AgentProxyHealthPort;
     ng_CryostatPort := CryostatHTTPContainerPort;
     ng_AllowedPathPrefixes := ["/health"; "/api/v4/discovery"; "/api/v4.2/discovery"; "/api/v4.3/discovery";
       "/api/beta/diagnostics"; "/api/beta/recordings"; "/api/beta/targets"] |}.
Definition agent_proxy_data cr (tls : option TLSConfig) : gomap string :=
  let data := match tls with Some _ => {[ dhFileName := dhParams ]} | None => ∅ end in
  Some (<[AgentProxyConfigFileName := nginxConf (agent_proxy_params cr tls)]> data).
Definition reconcileAgentProxyConfig cr (tls : option TLSConfig) : E W () :=
  createOrUpdateConfigMap recreate_fuel (agent_proxy_configMap cr) (ci_Object cr) (agent_proxy_data cr tls).
End configmaps.

(** ** Lemmas *)
Section configmap_lemmas.
Context `{KubeLaws W}.
Implicit Types (r : Reconciler) (cr : CryostatInstance) (w : W).

Lemma touches_deleteConfigMap (S : Kind → NamespacedName → Prop) cm :
  S KConfigMap (key KConfigMap cm) → touches S (deleteConfigMap cm).
Proof. intros HS. unfold deleteConfigMap. touch. exact HS. Qed.
Lemma deleteConfigMap_gone cm w w' :
  unheld w KConfigMap (key KConfigMap cm) → deleteConfigMap cm w = (Ok (), w') →
  stored w' KConfigMap (key KConfigMap cm) = None.
Proof.
  intros Hh (res & w1 & Hd & Hrun)%mbindM_inv.
  destruct res as [[]|e]; [|destruct (kerrors_IsNotFound e) eqn:He]; ret_inv Hrun;
    eapply (Delete_gone KConfigMap); eauto.
Qed.

(** The config map [n] holds [data] and belongs to [owner]. *)
Definition holds w (n : NamespacedName) (owner : V2.Cryostat) (data : gomap string) : Prop :=
  ∃ got, stored w KConfigMap n = Some got ∧ gm_make (cm_Data got) = gm_make data ∧
         metav1_IsControlledBy (cm_meta got) (V2.cr_meta owner) = true.

Section one.
Context (cm : ConfigMap) (owner : V2.Cryostat) (data : gomap string) (Hcm : cm_Immutable cm = None).
#[local] Abbreviation n := (key KConfigMap cm).
#[local] Abbreviation run := (λ m (_ : ()), createOrUpdateConfigMap m cm owner data).

Lemma createOrUpdateConfigMap_step m a w : run (S m) a w =
  managed_step KConfigMap (λ _, mretM (Ok ())) (λ _, cm) (λ _, mutateConfigMap cm owner data)
    errConfigMapImmutableModified (λ _, deleteConfigMap cm) (λ b, b) (run m) a w.
Proof.
  simpl. unfold managed_step, managed_apply, mtry, mbindM, mretM.
  destruct (controllerutil_CreateOrUpdate KConfigMap cm _ w) as [[o [op|e]] w1]; [done|].
  simpl. by destruct (decide (e = errConfigMapImmutableModified)).
Qed.
Lemma mutateConfigMap_fresh :
  (mutateConfigMap cm owner data cm).2 ≠ Err errConfigMapImmutableModified.
Proof.
  unfold mutateConfigMap, isImmutable. rewrite Hcm. simpl.
  destruct (controllerutil_SetControllerReference _ _) as [m|e] eqn:E; [done|].
  apply SetControllerReference_foreign in E. simpl. by intros [= ->].
Qed.
Lemma createOrUpdateConfigMap_enough m w :
  unheld w KConfigMap n → run (S (S m)) () w = run recreate_fuel () w.
Proof.
  apply (managed_enough KConfigMap n (λ _, True) (λ _, True) _ _ _ _ _ _ run createOrUpdateConfigMap_step);
    try done; first [by intros ? ? ? ? _ [= <- <-] | by intros []
          | intros; apply mutateConfigMap_fresh | intros ??? _; apply deleteConfigMap_gone].
Qed.
Lemma createOrUpdateConfigMap_ok w w' :
  quiet w KConfigMap n → run recreate_fuel () w = (Ok (), w') → holds w' n owner data.
Proof.
  intros Hq Hrun.
  apply (managed_ok KConfigMap n (λ _, True) (λ _, True) _ _ _ _ _ _ run (λ _, eq_refl) createOrUpdateConfigMap_step)
    in Hrun as (b & base & o1 & got & _ & Hf & _ & Hgot & [(_ & _ & Hrefs) Hdata]);
    [|first [done | by intros ? ? ? ? _ [= <- <-] | by intros [] | intros ??? _; apply deleteConfigMap_gone]..].
  exists got. split; [done|]. unfold mutateConfigMap in Hf. destruct (_ && _); [done|].
  destruct (controllerutil_SetControllerReference _ _) as [m|] eqn:E; [|done]. injection Hf as <-.
  split; [exact Hdata|]. apply SetControllerReference_Ok in E as [_ E].
  rewrite <-E. by apply IsControlledBy_refs.
Qed.
Lemma touches_createOrUpdateConfigMap (S : Kind → NamespacedName → Prop) m :
  S KConfigMap n → touches S (run m ()).
Proof.
  intros HS. apply (touches_managed KConfigMap n (λ _, True) (λ _, True) _ _ _ _ _ _ run (λ _, eq_refl)
    createOrUpdateConfigMap_step); try done; [by intros ? ? ? ? _ [= <- <-]|].
  intros _ _. by apply touches_deleteConfigMap.
Qed.

(** A config map that cannot be owned stops the call, which changes nothing. *)
Lemma createOrUpdateConfigMap_refused old m w q w' :
  stored w KConfigMap n = Some old → isImmutable old = false →
  (∀ meta, controllerutil_SetControllerReference (V2.cr_meta owner) (cm_meta old) ≠ Ok meta) →
  run (S m) () w = (q, w') → (∃ e, q = Err e ∧ foreign e) ∧ same_store w w'.
Proof.
  intros Ho Hi Hs Hrun. simpl in Hrun. apply mbindM_inv in Hrun as ([o op] & w1 & Hc & Hrun).
  destruct (controllerutil_SetControllerReference (V2.cr_meta owner) (cm_meta old)) as [meta|e] eqn:E;
    [by destruct (Hs meta)|]. apply SetControllerReference_foreign in E as He.
  apply (CreateOrUpdate_refused _ _ _ _ old old e) in Hc as (Hw & e' & -> & Hf); [|done|].
  - assert (Hf' : foreign e') by by destruct Hf as [?| ->].
    destruct (decide (e' = errConfigMapImmutableModified)) as [->|]; [by destruct Hf'|]. ret_inv Hrun. eauto.
  - intros u. unfold mutateConfigMap. rewrite Hi. simpl. by rewrite E.
Qed.
End one.
End configmap_lemmas.

(** *** What they touch *)
Section configmap_touches.
Context `{KubeLaws W}.
Implicit Types (S : Kind → NamespacedName → Prop).
Lemma touches_reconcileLockConfigMap S cr :
  S KConfigMap (nn (ci_InstallNamespace cr) (ci_Name cr +:+ "-lock")) → touches S (reconcileLockConfigMap cr).
Proof. apply (touches_createOrUpdateConfigMap (lock_configMap cr)). Qed.
Lemma touches_reconcileOAuth2ProxyConfig S r cr tls :
  S KConfigMap (nn (ci_InstallNamespace cr) (ci_Name cr +:+ "-oauth2-proxy-cfg")) →
  touches S (reconcileOAuth2ProxyConfig r cr tls).
Proof.
  intros HS. unfold reconcileOAuth2ProxyConfig. destruct (r_IsOpenShift r);
    [by apply touches_deleteConfigMap | by apply (touches_createOrUpdateConfigMap (oauth2_configMap cr))].
Qed.
Lemma touches_reconcileAgentProxyConfig S cr tls :
  S KConfigMap (nn (ci_InstallNamespace cr) (ci_Name cr +:+ "-agent-proxy")) →
  touches S (reconcileAgentProxyConfig cr tls).
Proof. apply (touches_createOrUpdateConfigMap (agent_proxy_configMap cr)). Qed.
End configmap_touches.

(** ** What the configurations must say *)

(** The directives of a configuration of nginx: its lines without indentation, but for blank
    lines and comments. *)
Fixpoint unindented (s : string) : string :=
  match s with
  | String c s' => if bool_decide (c = byte_of 9) || bool_decide (c = byte_of 32) then unindented s' else s
  | EmptyString => s
  end.
Definition directive (s : string) : bool :=
  match s with EmptyString => false | String c _ => negb (bool_decide (c = byte_of 35)) end.
Definition directives (conf : string) : list string :=
  List.filter directive (map unindented (strings.Split conf newline_byte)).

(** *** The OAuth2 proxy *)
Definition proxy_file (secret file : string) : string :=
  path.Join ["/var/run/secrets/operator.cryostat.io"; secret; file].
Definition from_file (secret file : string) : json.value := json.Obj (json.str_field "fromFile" (proxy_file secret file)).
(** It listens on port 4180 of every address, with Cryostat's certificate if there is TLS,
    and leads to Cryostat, to Grafana and to the storage in the same pod. *)
Definition oauth2_reference (tls : option TLSConfig) : json.value := json.Obj [
  ("server", json.Obj (match tls with
     | Some t => [("SecureBindAddress", json.Str "https://0.0.0.0:4180");
                  ("TLS", json.Obj [("Key", from_file (tls_CryostatSecret t) "tls.key");
                                    ("Cert", from_file (tls_CryostatSecret t) "tls.crt")])]
     | None => [("BindAddress", json.Str "http://0.0.0.0:4180")]
     end));
  ("upstreamConfig", json.Obj [("proxyRawPath", json.Bool true); ("upstreams", json.Arr [
     json.Obj [("id", json.Str "cryostat"); ("path", json.Str "/"); ("uri", json.Str "http://localhost:8181")];
     json.Obj [("id", json.Str "grafana"); ("path", json.Str "/grafana/"); ("uri", json.Str "http://localhost:3000")];
     json.Obj [("id", json.Str "storage"); ("path", json.Str "^/storage/(.*)$"); ("rewriteTarget", json.Str "/$1");
               ("uri", json.Str "http://localhost:8333"); ("passHostHeader", json.Bool false);
               ("proxyWebSockets", json.Bool false)]])]);
  ("providers", json.Arr [json.Obj [("id", json.Str "dummy"); ("name", json.Str "Unused - Sign In Below");
     ("clientId", json.Str "CLIENT_ID"); ("clientSecret", json.Str "CLIENT_SECRET"); ("provider", json.Str "google")]])].
Lemma oauth2_json tls : json_alphaConfig (alphaConfig tls) = oauth2_reference tls.
Proof. by destruct tls. Qed.

(** *** The agent proxy *)
Definition agent_proxy_file (t : TLSConfig) (file : string) : string := proxy_file (tls_AgentProxySecret t) file.
Definition server_name (cr : CryostatInstance) : string :=
  ci_Name cr +:+ "-agent." +:+ ci_InstallNamespace cr +:+ ".svc".
Definition passed_to_cryostat (prefix : string) : list string := [
  "location " +:+ prefix +:+ "/ {"; "proxy_pass http://127.0.0.1:8181$request_uri;"; "}";
  "location = " +:+ prefix +:+ " {"; "proxy_pass http://127.0.0.1:8181$request_uri;"; "}"].
(** Given the name of the server and, with TLS, the paths of its files. *)
Definition nginx_reference (name : string) (tls : option (string → string)) : list string := [
    "worker_processes auto;"; "error_log stderr notice;"; "pid /run/nginx.pid;";
    "include /usr/share/nginx/modules/*.conf;"; "events {"; "worker_connections 1024;"; "}"; "http {";
    "log_format  main  '$remote_addr - $remote_user [$time_local] " +:+ dquote +:+ "$request" +:+ dquote +:+ " '";
    "'$status $body_bytes_sent " +:+ dquote +:+ "$http_referer" +:+ dquote +:+ " '";
    "'" +:+ dquote +:+ "$http_user_agent" +:+ dquote +:+ " " +:+ dquote +:+ "$http_x_forwarded_for" +:+ dquote +:+ "';";
    "access_log  /dev/stdout  main;"; "sendfile            on;"; "tcp_nopush          on;"; "keepalive_timeout   65;";
    "types_hash_max_size 4096;"; "client_max_body_size 0;"; "include             /etc/nginx/mime.types;";
    "default_type        application/octet-stream;";
    "server {"; "server_name " +:+ name +:+ ";"] ++
  match tls with
  | Some file => [
      "listen 8282 ssl;"; "listen [::]:8282 ssl;";
      "ssl_certificate " +:+ file "tls.crt" +:+ ";";
      "ssl_certificate_key " +:+ file "tls.key" +:+ ";";
      "ssl_session_timeout 5m;"; "ssl_session_cache shared:SSL:20m;"; "ssl_session_tickets off;";
      "ssl_dhparam /etc/nginx-cryostat/dhparam.pem;"; "ssl_protocols TLSv1.2 TLSv1.3;";
      "ssl_ciphers ECDHE-ECDSA-AES128-GCM-SHA256:ECDHE-RSA-AES128-GCM-SHA256:ECDHE-ECDSA-AES256-GCM-SHA384:ECDHE-RSA-AES256-GCM-SHA384:ECDHE-ECDSA-CHACHA20-POLY1305:ECDHE-RSA-CHACHA20-POLY1305:DHE-RSA-AES128-GCM-SHA256:DHE-RSA-AES256-GCM-SHA384:DHE-RSA-CHACHA20-POLY1305;";
      "ssl_prefer_server_ciphers off;";
      "add_header Strict-Transport-Security " +:+ dquote +:+ "max-age=63072000" +:+ dquote +:+ " always;";
      "ssl_stapling on;"; "ssl_stapling_verify on;";
      "ssl_trusted_certificate " +:+ file "ca.crt" +:+ ";";
      "ssl_client_certificate " +:+ file "ca.crt" +:+ ";"; "ssl_verify_client on;"]
  | None => ["listen 8282;"; "listen [::]:8282;"]
  end ++
  List.concat (map passed_to_cryostat ["/health"; "/api/v4/discovery"; "/api/v4.2/discovery"; "/api/v4.3/discovery";
    "/api/beta/diagnostics"; "/api/beta/recordings"; "/api/beta/targets"]) ++ [
    "location / {"; "return 404;"; "}"; "}";
    "server {"; "listen 8281;"; "listen [::]:8281;"; "location = /healthz {"; "return 200;"; "}";
    "location / {"; "return 404;"; "}"; "}"; "}"].

(** The text is made of pieces: lists of lines, and values that are one line. *)
Ltac text := repeat lazymatch goal with
  | |- text_of (_ +:+ _) _ => eapply text_app
  | |- text_of (lines _) _ => apply text_lines; [vm_compute; reflexivity|discriminate]
  | |- text_of _ _ => apply text_one; first [assumption | by apply number_not | by apply (bool_decide_unpack _)]
  end.
(** The parameters of the template, [file] being ignored without TLS. *)
Definition proxy_params (name : string) (tls : bool) (file : string → string) : nginxConfParams := {|
  ng_ServerName := name; ng_TLSEnabled := tls; ng_TLSCertFile := file "tls.crt"; ng_TLSKeyFile := file "tls.key";
  ng_CACertFile := file "ca.crt"; ng_DHParamFile := if tls then "/etc/nginx-cryostat/dhparam.pem" else "";
  ng_ContainerPort := 8282; ng_HealthPort := 8281; ng_CryostatPort := 8181;
  ng_AllowedPathPrefixes := ["/health"; "/api/v4/discovery"; "/api/v4.2/discovery"; "/api/v4.3/discovery";
    "/api/beta/diagnostics"; "/api/beta/recordings"; "/api/beta/targets"] |}.
Lemma agent_proxy_params_eq cr tls : agent_proxy_params cr tls =
  match tls with Some t => proxy_params (server_name cr) true (agent_proxy_file t)
               | None => proxy_params (server_name cr) false (λ _, "") end.
Proof. by destruct tls. Qed.
Section nginx_text.
Context (name : string) (Hname : one_line name) (file : string → string).
Ltac directives_of_text :=
  intros; unfold directives; erewrite text_split;
  [|unfold nginxConf, nginx_head, nginx_tls, nginx_plain, nginx_mid, nginx_location, nginx_tail;
    cbv beta iota delta [foldr proxy_params ng_ServerName ng_TLSEnabled ng_TLSCertFile ng_TLSKeyFile ng_CACertFile
      ng_DHParamFile ng_ContainerPort ng_HealthPort ng_CryostatPort ng_AllowedPathPrefixes]; text];
  vm_compute; reflexivity.
Lemma nginxConf_plain : directives (nginxConf (proxy_params name false file)) = nginx_reference name None.
Proof. directives_of_text. Qed.
Lemma nginxConf_tls : one_line (file "tls.crt") → one_line (file "tls.key") → one_line (file "ca.crt") →
  directives (nginxConf (proxy_params name true file)) = nginx_reference name (Some file).
Proof. directives_of_text. Qed.
End nginx_text.
Lemma nginxConf_directives cr tls : one_line (server_name cr) →
  (∀ t, tls = Some t → ∀ f, f ∈ ["tls.crt"; "tls.key"; "ca.crt"] → one_line (agent_proxy_file t f)) →
  directives (nginxConf (agent_proxy_params cr tls)) = nginx_reference (server_name cr) (agent_proxy_file <$> tls).
Proof.
  intros Hn Hf. rewrite agent_proxy_params_eq. destruct tls as [t|]; [|by apply nginxConf_plain].
  apply nginxConf_tls; [done|apply (Hf t eq_refl); repeat first [left | right]..].
Qed.

(** ** Properties *)
Section configmap_properties.
Context `{KubeLaws W}.
Implicit Types (r : Reconciler) (cr : CryostatInstance) (w : W).

(** C35. The config maps after successful passes.  The lock belongs to this Cryostat and is
    empty.  The OAuth2 proxy's configuration is gone on OpenShift; elsewhere it holds one
    file, the JSON of [oauth2_reference].  The agent proxy's holds [nginx.conf], whose
    directives are exactly those of [nginx_reference]: with TLS it listens with the
    certificate of the agent proxy and requires a client certificate that its CA signed,
    without TLS it listens in plain text; only the listed paths are passed to Cryostat, and
    every other path is not found.  With TLS, and only then, it also holds the
    Diffie-Hellman parameters.  The config maps must not be held by finalizers or under
    deletion when the passes start, and the names (and the paths made from them) must not
    contain line breaks. *)
Theorem configMaps_hold r cr tls w1 w1' w2 w2' w3 w3' :
  let at_ suffix := nn (ci_InstallNamespace cr) (ci_Name cr +:+ suffix) in
  quiet w1 KConfigMap (at_ "-lock") → quiet w2 KConfigMap (at_ "-oauth2-proxy-cfg") →
  quiet w3 KConfigMap (at_ "-agent-proxy") →
  one_line (server_name cr) → (∀ t, tls = Some t → ∀ f, f ∈ ["tls.crt"; "tls.key"; "ca.crt"] → one_line (agent_proxy_file t f)) →
  reconcileLockConfigMap cr w1 = (Ok (), w1') →
  reconcileOAuth2ProxyConfig r cr tls w2 = (Ok (), w2') →
  reconcileAgentProxyConfig cr tls w3 = (Ok (), w3') →
  holds w1' (at_ "-lock") (ci_Object cr) None ∧
  (if r_IsOpenShift r then stored w2' KConfigMap (at_ "-oauth2-proxy-cfg") = None
   else holds w2' (at_ "-oauth2-proxy-cfg") (ci_Object cr) (Some
          {[ "alpha_config.json" := json.MarshalIndent (oauth2_reference tls) ]})) ∧
  ∃ conf, directives conf = nginx_reference (server_name cr) (agent_proxy_file <$> tls) ∧
    holds w3' (at_ "-agent-proxy") (ci_Object cr) (Some (match tls with
      | Some _ => {[ "nginx.conf" := conf; "dhparam.pem" := dhParams ]}
      | None => {[ "nginx.conf" := conf ]} end)).
Proof.
  intros at_ Q1 Q2 Q3 L1 L2 H1 H2 H3. split; [|split].
  - by apply (createOrUpdateConfigMap_ok (lock_configMap cr)) in H1.
  - unfold reconcileOAuth2ProxyConfig in H2. destruct (r_IsOpenShift r).
    + apply deleteConfigMap_gone in H2; [done|]. by apply quiet_unheld.
    + apply (createOrUpdateConfigMap_ok (oauth2_configMap cr)) in H2; [|done..].
      unfold oauth2_data in H2. rewrite oauth2_json in H2. exact H2.
  - apply (createOrUpdateConfigMap_ok (agent_proxy_configMap cr)) in H3; [|done..].
    exists (nginxConf (agent_proxy_params cr tls)). split; [by apply nginxConf_directives|].
    destruct tls; exact H3.
Qed.

(** A lock that cannot be taken, because another object already controls it, stops the
    pass over it with an error of the API machinery, and nothing at all changes in the
    cluster (a lock that was made immutable is the exception: it is deleted and taken). *)
Theorem lock_refused cr w old q w' :
  stored w KConfigMap (nn (ci_InstallNamespace cr) (ci_Name cr +:+ "-lock")) = Some old →
  isImmutable old = false →
  (∀ meta, controllerutil_SetControllerReference (ci_meta cr) (cm_meta old) ≠ Ok meta) →
  reconcileLockConfigMap cr w = (q, w') → (∃ e, q = Err e ∧ foreign e) ∧ same_store w w'.
Proof. intros Ho Hi Hs. by apply (createOrUpdateConfigMap_refused (lock_configMap cr) _ _ old). Qed.
End configmap_properties.

(** ** Witnesses *)
Definition no_tls : option TLSConfig := None.
Lemma configMaps_hold_witness :
  holds (reconcileLockConfigMap sample_cr fk_sample).2 (nn "ns" "cryostat-lock") sample_Cryostat None.
Proof.
  assert (Hq : ∀ n, quiet fk_sample KConfigMap n) by (intros n old Ho; discriminate Ho).
  refine (proj1 (configMaps_hold sample_r sample_cr no_tls fk_sample _ fk_sample _ fk_sample _
    (Hq _) (Hq _) (Hq _) _ _ (run_snd _ _ _ _) (run_snd _ _ _ _) (run_snd _ _ _ _)));
    [|discriminate|vm_compute; reflexivity..].
  apply (bool_decide_unpack _). vm_compute. exact I.
Defined.

(** A lock that another object holds. *)
Definition foreign_lock : ConfigMap := {|
  cm_meta := (NewObjectMeta "cryostat-lock" "ns") <| om_OwnerReferences := [
    {| ref_APIVersion := "operator.cryostat.io/v1beta1"; ref_Kind := "ClusterCryostat"; ref_Name := "cryostat";
       ref_UID := "uid-2"; ref_Controller := Some true; ref_BlockOwnerDeletion := Some true |}] |>;
  cm_Immutable := None; cm_Data := None |}.
Definition locked_world : fake := fk_put KConfigMap (nn "ns" "cryostat-lock") foreign_lock fk_sample.
Lemma lock_refused_witness :
  (∃ e, (reconcileLockConfigMap sample_cr locked_world).1 = Err e ∧ foreign e) ∧
  same_store locked_world (reconcileLockConfigMap sample_cr locked_world).2.
Proof.
  apply (lock_refused sample_cr locked_world (admitted KConfigMap (nn "ns" "cryostat-lock") foreign_lock)).
  - reflexivity.
  - reflexivity.
  - intros meta. vm_compute. discriminate.
  - apply surjective_pairing.
Defined.
