(* ===== verification/Certmanager.v ===== *)
(** * TLS with cert-manager

    [internal/controller/certmanager.go]: the issuers and certificates, the copies of the
    CA and agent secrets in the target namespaces, and their removal.  A certificate that
    was changed is deleted with its secret and created again; when the CA of an issuer
    changes, so are all the certificates it issued.

    [createOrUpdateCertificate] writes the server's answer into the caller's certificate:
    it is returned.  When the certificate is recreated, that is still what the first call
    read, the deleted certificate. *)

From S2P Require Export Rbac Resources Secrets.
From S2P Require Import FakeClient.
Open Scope Z_scope.

Section certmanager.
Context `{Kube W}.
Implicit Types (r : Reconciler) (cr : CryostatInstance).

Definition reasonCertManagerUnavailable : string := "CertManagerUnavailable".
Definition eventCertManagerUnavailableType : string := reasonCertManagerUnavailable.
Definition errCertManagerMissing : error :=
  Sentinel "errCertManagerMissing" "cert-manager integration is enabled, but cert-manager is unavailable".
Definition eventCertManagerUnavailableMsg : string :=
  "cert-manager is not detected in the cluster, please install cert-manager or disable it by setting " +:+
  dquote +:+ "enableCertManager" +:+ dquote +:+ " in this Cryostat custom resource to false.".

Definition certManagerAvailable : E W bool :=
  let* r := RESTMapping_Issuer in
  match r with
  | Err e => if meta_IsNoMatchError e then mretM (Ok false) else mretM (Err e)
  | Ok _ => mretM (Ok true)
  end.

(** ** Deletion *)
Definition deleteCertificate (cert : Certificate) : E W () :=
  let* err := client_Delete KCertificate cert in
  match err with
  | Err e => if kerrors_IsNotFound e then mretM (Ok ()) else mretM (Err e)
  | Ok _ => mretM (Ok ())
  end.
(** The certificate first, so that its secret is not issued again. *)
Definition deleteCertWithSecret (cert : Certificate) : E W () :=
  let secret := NewSecret (cs_SecretName (cert_Spec cert)) (om_Namespace (cert_meta cert)) in
  do? deleteCertificate cert in
  deleteSecret secret.

(** Every certificate of the owner in the namespace, except the CA's own. *)
Definition in_chain (owner : V2.Cryostat) (caSecretName : string) (cert : Certificate) : bool :=
  metav1_IsControlledBy (cert_meta cert) (V2.cr_meta owner) &&
  negb (bool_decide (cs_SecretName (cert_Spec cert) = caSecretName)).
Definition deleteCertChain (namespace caSecretName : string) (owner : V2.Cryostat) : E W () :=
  let? certs := client_ListCertificates namespace in
  for_each certs (λ cert,
    if in_chain owner caSecretName cert then deleteCertWithSecret cert else mretM (Ok ())).

(** ** Issuers *)
Definition issuerCAChanged (current updated : option string) : bool :=
  match current with
  | None => false
  | Some currentSecret => negb (bool_decide (currentSecret = default "" updated))
  end.

(** The name of the wanted CA is read without checking that there is one. *)
Definition mutateIssuer (issuerSpec : IssuerSpec) (owner : V2.Cryostat) (issuer : Issuer) : M W (Issuer * res ()) :=
  match controllerutil_SetControllerReference (V2.cr_meta owner) (issu_meta issuer) with
  | Err e => mretM (issuer, Err e)
  | Ok meta =>
      let issuer : Issuer := issuer <| issu_meta := meta |> in
      let* err :=
        if negb (CreationTimestamp_IsZero (issu_meta issuer)) &&
           issuerCAChanged (iss_CA (issu_Spec issuer)) (iss_CA issuerSpec)
        then match iss_CA issuerSpec with
             | None => mretM (Err (Panic "nil pointer dereference"))
             | Some caSecretName => deleteCertChain (om_Namespace (issu_meta issuer)) caSecretName owner
             end
        else mretM (Ok ()) in
      match err with
      | Err e => mretM (issuer, Err e)
      | Ok _ => mretM (issuer <| issu_Spec := issuerSpec |>, Ok ())
      end
  end.
Definition createOrUpdateIssuer (issuer : Issuer) (owner : V2.Cryostat) : E W () :=
  let issuerSpec := issu_Spec issuer in
  let* ' (_, op) := controllerutil_CreateOrUpdate KIssuer issuer (mutateIssuer issuerSpec owner) in
  mretM (ok? _ := op in Ok ()).

(** ** Certificates *)
Definition errCertificateModified : error :=
  Sentinel "errCertificateModified" "certificate has been modified".

(** A dry run under a generated name tells whether the server knows all the fields. *)
Definition supportsPKCS12Profile (cert : Certificate) : E W bool :=
  let certCopy : Certificate := cert <| cert_meta ::= λ m,
    m <| om_GenerateName := om_Name m |> <| om_Name := "" |> |> in
  let* err := client_DryRunStrictCreate certCopy in
  match err with
  | Err e => if kerrors_IsBadRequest e then mretM (Ok false) else mretM (Err e)
  | Ok _ => mretM (Ok true)
  end.
Definition legacyCertificate (cert : Certificate) : Certificate :=
  cert <| cert_Spec ::= λ s, s <| cs_Keystores ::= option_map (λ ks,
    ks <| cks_PKCS12 ::= option_map (λ p, p <| pk_Profile := "" |>) |>) |> |>.
(** The certificate the server can take. *)
Definition supportedCertificate (cert : Certificate) : E W Certificate :=
  let? supportsFields := supportsPKCS12Profile cert in
  mretM (Ok (if supportsFields : bool then cert else legacyCertificate cert)).

Definition mutateCertificate (certCopy : Certificate) (owner : option V2.Cryostat) (cert : Certificate)
  : Certificate * res () :=
  let cert : Certificate := cert <| cert_meta ::= λ m,
    MergeLabelsAndAnnotations m (om_Labels (cert_meta certCopy)) (om_Annotations (cert_meta certCopy)) |> in
  let owned : res Certificate :=
    match owner with
    | None => Ok cert
    | Some owner =>
        ok? meta := controllerutil_SetControllerReference (V2.cr_meta owner) (cert_meta cert) in
        Ok (cert <| cert_meta := meta |>)
    end in
  match owned with
  | Err e => (cert, Err e)
  | Ok cert =>
      if CreationTimestamp_IsZero (cert_meta cert) then (cert <| cert_Spec := cert_Spec certCopy |>, Ok ())
      else if negb (cmp_Equal (cert_Spec cert) (cert_Spec certCopy)) then (cert, Err errCertificateModified)
      else (cert, Ok ())
  end.

Definition recreateCertificate
    (createOrUpdateCertificate : Certificate → option V2.Cryostat → M W (Certificate * res ()))
    (cert : Certificate) (owner : option V2.Cryostat) : E W () :=
  do? deleteCertWithSecret cert in
  let* ' (_, err) := createOrUpdateCertificate cert owner in
  mretM err.

Fixpoint createOrUpdateCertificate (fuel : nat) (cert : Certificate) (owner : option V2.Cryostat)
  : M W (Certificate * res ()) :=
  match fuel with
  | O => mretM (cert, Err out_of_fuel)
  | S fuel =>
      let* supported := supportedCertificate cert in
      match supported with
      | Err e => mretM (cert, Err e)
      | Ok cert =>
          let certCopy := cert in
          let* ' (cert, op) := controllerutil_CreateOrUpdate KCertificate cert
                                 (λ cert, mretM (mutateCertificate certCopy owner cert)) in
          match op with
          | Err e =>
              if decide (e = errCertificateModified) then
                let* err := recreateCertificate (createOrUpdateCertificate fuel) certCopy owner in
                mretM (cert, err)
              else mretM (cert, Err e)
          | Ok _ => mretM (cert, Ok ())
          end
      end
  end.

(** ** Secrets *)
Definition newKeystoreSecret cr : Secret := NewSecret (ci_Name cr +:+ "-keystore") (ci_InstallNamespace cr).
Definition mutateKeystoreSecret (owner : V2.Cryostat) (secret : Secret) : M W (Secret * res ()) :=
  match controllerutil_SetControllerReference (V2.cr_meta owner) (sec_meta secret) with
  | Err e => mretM (secret, Err e)
  | Ok meta =>
      let secret : Secret := secret <| sec_meta := meta |> in
      if CreationTimestamp_IsZero (sec_meta secret) then
        let* p := GenPasswd 20 in
        mretM (secret <| sec_StringData := Some {[ KeystorePassSecretKey := p ]} |>, Ok ())
      else mretM (secret, Ok ())
  end.
Definition createOrUpdateKeystoreSecret (secret : Secret) (owner : V2.Cryostat) : E W () :=
  let* ' (_, op) := controllerutil_CreateOrUpdate KSecret secret (mutateKeystoreSecret owner) in
  mretM (ok? _ := op in Ok ()).

Definition mutateCertSecret (cert : option string) (labels : gomap string) (secret : Secret) : Secret :=
  secret <| sec_meta ::= λ m, MergeLabelsAndAnnotations m labels (Some ∅) |>
         <| sec_Data ::= λ d, Some (<[TLSCertKey := default "" cert]> (gm_make d)) |>.
Definition createOrUpdateCertSecret (secret : Secret) (cert : option string) (labels : gomap string) : E W () :=
  let* ' (_, op) := controllerutil_CreateOrUpdate KSecret secret
                      (λ secret, mretM (mutateCertSecret cert labels secret, Ok ())) in
  mretM (ok? _ := op in Ok ()).

Definition getCertficateBytes (cert : Certificate) : E W (option string) :=
  let? secret := GetCertificateSecret cert in
  mretM (Ok (gm_lookup (sec_Data secret) TLSCertKey)).

(** ** Owners of the secrets *)
Fixpoint deleteControllerRefrerence (refs : list OwnerReference) : list OwnerReference :=
  match refs with
  | [] => []
  | ref :: refs' =>
      if bool_decide (ref_Controller ref = Some true) then refs' else ref :: deleteControllerRefrerence refs'
  end.
Definition removeCRFromOwnerReferences r cr (secret : Secret) : Secret :=
  match metav1_GetControllerOf (sec_meta secret) with
  | Some ref =>
      if bool_decide (ref_Kind ref = r_Kind r) && bool_decide (ref_Name ref = ci_Name cr)
      then secret <| sec_meta ::= λ m, m <| om_OwnerReferences ::= deleteControllerRefrerence |> |>
      else secret
  | None => secret
  end.
Definition setOneCertSecretOwner r cr (cert : Certificate) : E W () :=
  let? secret := GetCertificateSecret cert in
  if negb (metav1_IsControlledBy (sec_meta secret) (cert_meta cert)) then
    let secret := removeCRFromOwnerReferences r cr secret in
    match controllerutil_SetControllerReference (cert_meta cert) (sec_meta secret) with
    | Err e => mretM (Err e)
    | Ok meta =>
        let* ' (_, err) := client_Update KSecret ((secret : Secret) <| sec_meta := meta |>) in
        mretM err
    end
  else mretM (Ok ()).
Definition setCertSecretOwner r cr (certs : list Certificate) : E W () :=
  for_each certs (setOneCertSecretOwner r cr).

(** ** The agents' certificates *)
Definition reconcileAgentCertificate (cert : Certificate) cr (namespace : string) : M W (Certificate * res ()) :=
  let* ' (cert, err) := createOrUpdateCertificate recreate_fuel cert (Some (ci_Object cr)) in
  match err with
  | Err e => mretM (cert, Err e)
  | Ok _ =>
      if negb (bool_decide (namespace = ci_InstallNamespace cr)) then
        let* secret := GetCertificateSecret cert in
        match secret with
        | Err e => mretM (cert, Err e)
        | Ok secret =>
            let targetSecret := NewSecret (om_Name (sec_meta secret)) namespace in
            let* ' (_, err) := createOrUpdateSecret targetSecret None (λ targetSecret, mretM (
              targetSecret <| sec_meta ::= λ m,
                                MergeLabelsAndAnnotations m (LabelsForTargetNamespaceObject cr) (Some ∅) |>
                           <| sec_Data := sec_Data secret |>, Ok ())) in
            mretM (cert, err)
        end
      else mretM (cert, Ok ())
  end.

(** One target namespace: the copy of the CA, then the agents' certificate; a certificate
    that is not ready is noted and the loop goes on. *)
Definition setupNamespace r cr (caSecretName : string) (caBytes : option string) (ns : string)
  : M W (res (Certificate * bool)) :=
  do? (if negb (bool_decide (ns = ci_InstallNamespace cr)) then
         createOrUpdateCertSecret ((NewSecret caSecretName ns) <| sec_Type := "Opaque" |>) caBytes
           (LabelsForTargetNamespaceObject cr)
       else mretM (Ok ())) in
  let* ' (agentCert, err) := reconcileAgentCertificate (NewAgentCert cr ns (r_Kind r)) cr ns in
  match err with
  | Err e => if decide (e = ErrCertNotReady) then mretM (Ok (agentCert, false)) else mretM (Err e)
  | Ok _ => mretM (Ok (agentCert, true))
  end.
(** The certificates, and whether all were ready. *)
Fixpoint setupNamespaces r cr (caSecretName : string) (caBytes : option string) (nss : list string)
    (certificates : list Certificate) (ready : bool) : E W (list Certificate * bool) :=
  match nss with
  | [] => mretM (Ok (certificates, ready))
  | ns :: nss =>
      let? ' (agentCert, ok) := setupNamespace r cr caSecretName caBytes ns in
      setupNamespaces r cr caSecretName caBytes nss (certificates ++ [agentCert]) (ready && ok)
  end.

(** What is left in a namespace that is no longer a target. *)
Definition cleanNamespace r cr (caSecretName ns : string) : E W () :=
  do? (if negb (bool_decide (ns = ci_InstallNamespace cr)) then deleteSecret (NewSecret caSecretName ns)
       else mretM (Ok ())) in
  let agentCert := NewAgentCert cr ns (r_Kind r) in
  do? (if negb (bool_decide (ns = ci_InstallNamespace cr)) then
         deleteSecret (NewSecret (cs_SecretName (cert_Spec agentCert)) ns)
       else mretM (Ok ())) in
  deleteCertWithSecret agentCert.

(** ** Setup *)

(** A call on a certificate of the installation, with the certificate it leaves. *)
Definition installCert (cert : Certificate) cr : E W Certificate :=
  let* ' (cert, err) := createOrUpdateCertificate recreate_fuel cert (Some (ci_Object cr)) in
  mretM (ok? _ := err in Ok cert).

(** The configuration the deployments get; the name of the keystore's secret is read
    without checking that the certificate has a keystore. *)
Definition certTLSConfig (cryostatCert databaseCert storageCert reportsCert agentProxyCert : Certificate)
    (caBytes : option string) : res TLSConfig :=
  match cs_Keystores (cert_Spec cryostatCert) ≫= cks_PKCS12 with
  | None => Err (Panic "nil pointer dereference")
  | Some p => Ok {|
      tls_CryostatSecret := cs_SecretName (cert_Spec cryostatCert);
      tls_DatabaseSecret := cs_SecretName (cert_Spec databaseCert);
      tls_StorageSecret := cs_SecretName (cert_Spec storageCert);
      tls_ReportsSecret := cs_SecretName (cert_Spec reportsCert);
      tls_AgentProxySecret := cs_SecretName (cert_Spec agentProxyCert);
      tls_KeystorePassSecret := pk_PasswordSecretName p;
      tls_CACert := caBytes |}
  end.

Definition setupTLS r cr : E W TLSConfig :=
  let? available := certManagerAvailable in
  if negb available then
    let* _ := EventRecorder_Event (ci_Object cr) "Warning" eventCertManagerUnavailableType
                eventCertManagerUnavailableMsg in
    mretM (Err errCertManagerMissing)
  else
    do? createOrUpdateIssuer (NewSelfSignedIssuer cr) (ci_Object cr) in
    let? caCert := installCert (NewCryostatCACert (r_Kind r) cr) cr in
    do? createOrUpdateIssuer (NewCryostatCAIssuer (r_Kind r) cr) (ci_Object cr) in
    let keystoreSecret := newKeystoreSecret cr in
    do? createOrUpdateKeystoreSecret keystoreSecret (ci_Object cr) in
    let? cryostatCert := installCert (NewCryostatCert cr (om_Name (sec_meta keystoreSecret))) cr in
    let? reportsCert := installCert (NewReportsCert cr) cr in
    let? databaseCert := installCert (NewDatabaseCert cr) cr in
    let? storageCert := installCert (NewStorageCert cr) cr in
    let? agentProxyCert := installCert (NewAgentProxyCert cr) cr in
    let? caBytes := getCertficateBytes caCert in
    let? tlsConfig := mretM (certTLSConfig cryostatCert databaseCert storageCert reportsCert agentProxyCert caBytes) in
    let caSecretName := cs_SecretName (cert_Spec caCert) in
    let? ' (certificates, ready) := setupNamespaces r cr caSecretName caBytes (ci_TargetNamespaces cr)
      [caCert; cryostatCert; reportsCert; databaseCert; storageCert; agentProxyCert] true in
    if negb ready then mretM (Err ErrCertNotReady)
    else
      do? setCertSecretOwner r cr certificates in
      do? for_each (toDelete cr) (cleanNamespace r cr caSecretName) in
      mretM (Ok tlsConfig).

(** ** Removal *)
Definition finalizeTLS r cr : E W () :=
  let caCert := NewCryostatCACert (r_Kind r) cr in
  for_each (ci_TargetNamespaces cr) (λ ns,
    if negb (bool_decide (ns = ci_InstallNamespace cr)) then
      do? deleteSecret (NewSecret (cs_SecretName (cert_Spec caCert)) ns) in
      let agentCert := NewAgentCert cr ns (r_Kind r) in
      deleteSecret (NewSecret (cs_SecretName (cert_Spec agentCert)) ns)
    else mretM (Ok ())).
End certmanager.

(** ** Lemmas *)
Section certmanager_lemmas.
Context `{KubeLaws W}.
Implicit Types (r : Reconciler) (cr : CryostatInstance) (w : W) (S : Kind → NamespacedName → Prop).

(** *** Deletion *)
Definition cert_secret (c : Certificate) : NamespacedName :=
  nn (om_Namespace (cert_meta c)) (cs_SecretName (cert_Spec c)).

Lemma touches_deleteCertificate S c :
  S KCertificate (key KCertificate c) → touches S (deleteCertificate c).
Proof. intros HS. unfold deleteCertificate. touch. exact HS. Qed.
Lemma deleteCertificate_gone c w w' :
  unheld w KCertificate (key KCertificate c) → deleteCertificate c w = (Ok (), w') →
  stored w' KCertificate (key KCertificate c) = None.
Proof.
  intros Hh (res & w1 & Hd & Hrun)%mbindM_inv.
  destruct res as [[]|e]; [|destruct (kerrors_IsNotFound e) eqn:He]; ret_inv Hrun;
    eapply (Delete_gone KCertificate); eauto.
Qed.
Lemma touches_deleteCertWithSecret S c :
  S KCertificate (key KCertificate c) → S KSecret (cert_secret c) → touches S (deleteCertWithSecret c).
Proof.
  intros Hc Hs. apply touches_try; [by apply touches_deleteCertificate|].
  intros _. by apply touches_deleteSecret.
Qed.
Lemma deleteCertWithSecret_cert c w w' :
  unheld w KCertificate (key KCertificate c) → deleteCertWithSecret c w = (Ok (), w') →
  stored w' KCertificate (key KCertificate c) = None.
Proof.
  intros Hh Hrun. apply mtry_ok_inv in Hrun as ([] & w1 & Hc & Hs).
  apply deleteCertificate_gone in Hc; [|done]. rewrite <-Hc.
  eapply (same_except_out (only KSecret (cert_secret c))); [|by intros []].
  eapply touches_deleteSecret; [|exact Hs]. done.
Qed.
(** Both are gone, and nothing else changed. *)
Lemma deleteCertWithSecret_gone c w w' :
  unheld w KCertificate (key KCertificate c) → unheld w KSecret (cert_secret c) →
  deleteCertWithSecret c w = (Ok (), w') →
  stored w' KCertificate (key KCertificate c) = None ∧ stored w' KSecret (cert_secret c) = None ∧
  ∀ k n, stored w' k n = stored w k n ∨ stored w' k n = None.
Proof.
  intros Hc Hs Hrun. pose proof Hrun as Hcert. apply deleteCertWithSecret_cert in Hcert; [|done].
  assert (Hsec : stored w' KSecret (cert_secret c) = None).
  { apply mtry_ok_inv in Hrun as ([] & w1 & H1 & H2).
    apply (deleteSecret_gone (NewSecret _ _)) in H2; [exact H2|].
    intros old Ho. apply Hs. rewrite <-Ho. symmetry.
    eapply (same_except_out (only KCertificate (key KCertificate c))); [|by intros []].
    by eapply touches_deleteCertificate. }
  split; [done|]. split; [done|]. intros k n.
  destruct (decide (k = KCertificate ∧ n = key KCertificate c)) as [[-> ->]|Hn1]; [by right|].
  destruct (decide (k = KSecret ∧ n = cert_secret c)) as [[-> ->]|Hn2]; [by right|]. left.
  eapply (same_except_out (λ k n, k = KCertificate ∧ n = key KCertificate c ∨ k = KSecret ∧ n = cert_secret c));
    [|tauto].
  eapply touches_deleteCertWithSecret; [| |exact Hrun]; auto.
Qed.
Lemma unheld_shrinks w w' k n :
  stored w' k n = stored w k n ∨ stored w' k n = None → unheld w k n → unheld w' k n.
Proof. intros [E|E] Hu old; rewrite E; [apply Hu | done]. Qed.

(** *** The chain of an issuer *)

(** A certificate and its secret. *)
Definition cert_objects (c : Certificate) : Kind → NamespacedName → Prop := λ k n,
  k = KCertificate ∧ n = key KCertificate c ∨ k = KSecret ∧ n = cert_secret c.
Definition chain_footprint w (namespace caSecretName : string) (owner : V2.Cryostat)
  : Kind → NamespacedName → Prop := λ k n,
  ∃ c, om_Namespace (cert_meta c) = namespace ∧ stored w KCertificate (key KCertificate c) = Some c ∧
       (metav1_IsControlledBy (cert_meta c) (V2.cr_meta owner) = true ∧ cs_SecretName (cert_Spec c) ≠ caSecretName) ∧
       cert_objects c k n.
Lemma in_chain_spec owner ca c : in_chain owner ca c = true ↔
  metav1_IsControlledBy (cert_meta c) (V2.cr_meta owner) = true ∧ cs_SecretName (cert_Spec c) ≠ ca.
Proof. unfold in_chain. by rewrite andb_true_iff, negb_true_iff, bool_decide_eq_false. Qed.

Lemma deleteCertChain_footprint namespace ca owner w q w' : namespace ≠ "" →
  deleteCertChain namespace ca owner w = (q, w') →
  same_except (chain_footprint w namespace ca owner) w w'.
Proof.
  intros Hns Hrun. apply mtry_inv in Hrun as [(certs & w1 & Hl & Hrun)|(e & Hl & _)].
  2:{ by eapply touches_List. }
  transitivity w1; [by eapply touches_List|].
  eapply touches_for_each; [|exact Hrun]. intros c Hc. cbn beta.
  pose proof (proj1 (List_Ok _ _ _ _ Hns Hl c) Hc) as [Hn Hst].
  destruct (in_chain owner ca c) eqn:Hin; [|apply touches_ret].
  apply in_chain_spec in Hin as [Ho Hs].
  apply touches_deleteCertWithSecret; exists c; unfold cert_objects; split_and!; auto.
Qed.
Lemma touches_deleteCertChain S namespace ca owner : namespace ≠ "" →
  (∀ n, nn_Namespace n = namespace → S KCertificate n ∧ S KSecret n) →
  touches S (deleteCertChain namespace ca owner).
Proof.
  intros Hns HS w q w' Hrun. eapply same_except_weaken; [|by eapply deleteCertChain_footprint].
  intros k n (c & Hn & _ & _ & [[-> ->]|[-> ->]]); by apply HS.
Qed.

(** Every certificate of the owner in the namespace but the CA's own is deleted, with its
    secret, and nothing else. *)
Lemma deleteCertChain_ok namespace caSecretName owner w w' :
  let chain := chain_footprint w namespace caSecretName owner in
  namespace ≠ "" → (∀ k n, chain k n → unheld w k n) →
  deleteCertChain namespace caSecretName owner w = (Ok (), w') →
  ∀ k n, (chain k n → stored w' k n = None) ∧ (¬ chain k n → stored w' k n = stored w k n).
Proof.
  intros chain Hns Hu Hrun k n. split.
  2:{ apply same_except_out. by eapply deleteCertChain_footprint. }
  intros (c & En & Est & Hin%in_chain_spec & Hkn). apply mtry_ok_inv in Hrun as (certs & w1 & Hl & Hrun).
  pose proof (List_reads _ _ _ _ Hl) as Es. pose proof (List_Ok _ _ _ _ Hns Hl) as Hc.
  refine (for_each_all
    (λ c u, in_chain owner caSecretName c = true → ∀ k n, cert_objects c k n → unheld u k n)
    (λ c u, in_chain owner caSecretName c = true → ∀ k n, cert_objects c k n → stored u k n = None)
    _ certs w1 w' _ _ Hrun c (proj2 (Hc c) (conj En Est)) Hin k n Hkn).
  - intros x [Enx Estx]%Hc Hinx k' n' Hx old. rewrite (same_store_eq _ _ _ _ Es). apply Hu. exists x.
    by apply in_chain_spec in Hinx.
  - intros y u u' _ Hy Hf. destruct (in_chain owner caSecretName y) eqn:Ey; [|ret_inv Hf; by split].
    apply deleteCertWithSecret_gone in Hf as (G1 & G2 & Hs); [|by apply Hy; [|left]|by apply Hy; [|right]].
    split; [by intros _ k' n' [[-> ->]|[-> ->]]|]. intros x. split; intros Hx Hinx k' n' Hk.
    + eapply unheld_shrinks; [apply Hs|by apply Hx].
    + destruct (Hs k' n') as [-> | ->]; [by apply Hx|done].
Qed.

Lemma deleteCertChain_issuers namespace ca owner w q w' n :
  deleteCertChain namespace ca owner w = (q, w') → stored w' KIssuer n = stored w KIssuer n.
Proof.
  intros Hrun. assert (Ht : touches (λ k _, k = KCertificate ∨ k = KSecret) (deleteCertChain namespace ca owner)).
  { unfold deleteCertChain. apply touches_try; [apply touches_weaken with (λ _ _, False); [done|apply touches_List]|].
    intros certs. apply touches_for_each. intros c _. destruct (in_chain owner ca c); [|apply touches_ret].
    apply touches_deleteCertWithSecret; auto. }
  apply (same_except_out _ _ _ _ _ (Ht _ _ _ Hrun)). by intros [].
Qed.
Lemma mutateIssuer_issuers spec owner b u q u' n :
  mutateIssuer spec owner b u = (q, u') → stored u' KIssuer n = stored u KIssuer n.
Proof.
  unfold mutateIssuer. destruct (controllerutil_SetControllerReference _ _) as [meta|e]; [|by intros Hr; ret_inv Hr].
  intros (err & w1 & Hc & Hrun)%mbindM_inv. assert (u' = w1) as -> by (destruct err; by ret_inv Hrun).
  destruct (_ && _); [|by ret_inv Hc]. destruct (iss_CA spec); [|by ret_inv Hc]. by eapply deleteCertChain_issuers.
Qed.
(** What the callback does to an issuer that was stored. *)
Lemma mutateIssuer_Ok spec owner old w o1 w' : CreationTimestamp_IsZero (issu_meta old) = false →
  mutateIssuer spec owner old w = ((o1, Ok ()), w') →
  if issuerCAChanged (iss_CA (issu_Spec old)) (iss_CA spec) then
    ∃ ca, iss_CA spec = Some ca ∧ deleteCertChain (om_Namespace (issu_meta old)) ca owner w = (Ok (), w')
  else w' = w.
Proof.
  intros Hz. unfold mutateIssuer. destruct (controllerutil_SetControllerReference _ _) as [meta|e] eqn:E; [|done].
  apply SetControllerReference_fields in E as (_ & _ & Ez & Ek). apply (f_equal nn_Namespace) in Ek. simpl in Ek.
  change (CreationTimestamp_IsZero (issu_meta (old <| issu_meta := meta |>))) with (CreationTimestamp_IsZero meta).
  change (iss_CA (issu_Spec (old <| issu_meta := meta |>))) with (iss_CA (issu_Spec old)).
  rewrite Ez, Hz. simpl. intros (err & w1 & Hc & Hrun)%mbindM_inv. destruct err as [[]|e]; ret_inv Hrun.
  destruct (issuerCAChanged _ _); [|by ret_inv Hc]. destruct (iss_CA spec) as [ca|]; [|ret_inv Hc].
  exists ca. split; [done|]. by rewrite <-Ek.
Qed.

(** *** Issuers *)
Lemma touches_createOrUpdateIssuer S issuer owner :
  om_Namespace (issu_meta issuer) ≠ "" → S KIssuer (key KIssuer issuer) →
  (∀ n, nn_Namespace n = om_Namespace (issu_meta issuer) → S KCertificate n ∧ S KSecret n) →
  touches S (createOrUpdateIssuer issuer owner).
Proof.
  intros Hns HI HS. apply touches_bind; [|intros [? ?]; apply touches_ret].
  apply touches_CreateOrUpdate_at; [|exact HI]. intros o Ho. unfold mutateIssuer.
  destruct (controllerutil_SetControllerReference _ _) as [meta|e] eqn:E; [|apply touches_ret].
  apply SetControllerReference_fields in E as (_ & _ & _ & E).
  assert (En : om_Namespace meta = om_Namespace (issu_meta issuer)).
  { apply (f_equal nn_Namespace) in E, Ho. simpl in E, Ho. congruence. }
  apply touches_bind; [|intros []; apply touches_ret].
  destruct (_ && _); [|apply touches_ret].
  destruct (iss_CA (issu_Spec issuer)); [|apply touches_ret].
  apply touches_deleteCertChain; simpl; by rewrite En.
Qed.

(** *** One certificate *)
Lemma touches_supportedCertificate S c : touches S (supportedCertificate c).
Proof. unfold supportedCertificate, supportsPKCS12Profile. touch. Qed.

(** What the operator asks of a certificate, but for the keystore's profile. *)
Definition same_request (s s' : CertificateSpec) : Prop :=
  cs_SecretName s' = cs_SecretName s ∧ cs_CommonName s' = cs_CommonName s ∧
  cs_DNSNames s' = cs_DNSNames s ∧ cs_IssuerRef s' = cs_IssuerRef s ∧
  cs_IsCA s' = cs_IsCA s ∧ cs_Usages s' = cs_Usages s ∧
  sans_profile (cs_Keystores s') = sans_profile (cs_Keystores s).
Lemma same_request_trans s1 s2 s3 : same_request s1 s2 → same_request s2 s3 → same_request s1 s3.
Proof. intros (?&?&?&?&?&?&?) (?&?&?&?&?&?&?). unfold same_request. split_and!; congruence. Qed.

Lemma supportedCertificate_ran c w q w' :
  supportedCertificate c w = (q, w') →
  same_store w w' ∧ (∀ e, q = Err e → foreign e) ∧
  (∀ b, q = Ok b → cert_meta b = cert_meta c ∧ same_request (cert_Spec c) (cert_Spec b)).
Proof.
  intros Hrun. split; [by eapply (touches_supportedCertificate (λ _ _, False))|].
  apply mtry_inv in Hrun as [(b & w1 & Hp & Hrun)|(e & Hp & ->)].
  - ret_inv Hrun. split; [done|]. intros b' [= <-].
    destruct b, c as [m [cn dns sn [[[[]|]]|] ir ca us rest] cs]; by split_and!.
  - split; [|done]. intros e' [= <-]. apply mbindM_inv in Hp as ([[]|e1] & w1 & Hd & Hp); [by ret_inv Hp|].
    apply DryRun_foreign in Hd. destruct (kerrors_IsBadRequest e1); by ret_inv Hp.
Qed.

Section certificate.
Context (n : NamespacedName) (owner : option V2.Cryostat) (want : CertificateSpec).
#[local] Abbreviation run := (λ m cert, let* ' (_, err) := createOrUpdateCertificate m cert owner in mretM err).

(** A certificate not yet created, that asks for [want]. *)
Definition fresh_certificate (c : Certificate) : Prop :=
  key KCertificate c = n ∧ CreationTimestamp_IsZero (cert_meta c) = true ∧ same_request want (cert_Spec c).

Lemma createOrUpdateCertificate_step m a w : run (Datatypes.S m) a w =
  managed_step KCertificate supportedCertificate (λ b, b) (λ b, mutateCertificate b owner)
    errCertificateModified deleteCertWithSecret (λ b, b) (run m) a w.
Proof.
  simpl. unfold managed_step, managed_apply, recreateCertificate, mtry, mbindM.
  destruct (supportedCertificate a w) as [[b|e] w1]; [|done].
  destruct (controllerutil_CreateOrUpdate KCertificate b _ w1) as [[o [op|e]] w2]; [done|].
  unfold mretM, mbindM. simpl. destruct (decide (e = errCertificateModified)); [|done].
  destruct (deleteCertWithSecret b w2) as [[[]|e'] w3]; [|done].
  by destruct (createOrUpdateCertificate m b owner w3) as [[? ?] ?].
Qed.

Lemma supportedCertificate_fresh a w q w' :
  fresh_certificate a → supportedCertificate a w = (q, w') →
  same_store w w' ∧ q ≠ Err errCertificateModified ∧
  ∀ b, q = Ok b → fresh_certificate b ∧ fresh_certificate b.
Proof.
  intros (Hk & Hz & Hw) Hrun. apply supportedCertificate_ran in Hrun as (Hs & He & Hb).
  split; [done|]. split; [intros E; by apply He in E|].
  intros b [Em Hr]%Hb. unfold fresh_certificate, key. simpl. rewrite Em.
  pose proof (same_request_trans _ _ _ Hw Hr). auto.
Qed.

(** What the callback makes of a certificate. *)
Lemma mutateCertificate_Ok b base o1 :
  mutateCertificate b owner base = (o1, Ok ()) →
  cert_Spec o1 = cert_Spec b ∧
  (∀ ow, owner = Some ow → metav1_IsControlledBy (cert_meta o1) (V2.cr_meta ow) = true).
Proof.
  unfold mutateCertificate. intros Hf.
  match type of Hf with (match ?x with _ => _ end) = _ => destruct x as [c|e] eqn:Eo end; [|done].
  assert (Hc : ∀ ow, owner = Some ow → metav1_IsControlledBy (cert_meta c) (V2.cr_meta ow) = true).
  { intros ow ->. simpl in Eo.
    destruct (controllerutil_SetControllerReference _ _) as [m|] eqn:E; [|done].
    injection Eo as <-. by apply SetControllerReference_Ok in E as [_ ?]. }
  destruct (CreationTimestamp_IsZero (cert_meta c)).
  - injection Hf as <-. by split.
  - destruct (cmp_Equal (cert_Spec c) (cert_Spec b)) eqn:E; simpl in Hf; [|done].
    injection Hf as <-. split; [by eapply cmp_Equal_sound|done].
Qed.
Lemma mutateCertificate_fresh b :
  fresh_certificate b → (mutateCertificate b owner b).2 ≠ Err errCertificateModified.
Proof.
  intros (_ & Hz & _). unfold mutateCertificate.
  match goal with |- (match ?x with _ => _ end).2 ≠ _ =>
    assert (Hx : ∀ c, x = Ok c → CreationTimestamp_IsZero (cert_meta c) = true); [|destruct x as [c|e] eqn:Ex]
  end.
  - intros c Hc. destruct owner as [ow|]; [|by injection Hc as <-].
    destruct (controllerutil_SetControllerReference _ _) as [m|] eqn:E; [|done]. injection Hc as <-.
    apply SetControllerReference_fields in E as (_ & _ & Ez & _). simpl. by rewrite Ez.
  - by rewrite Hx.
  - destruct owner as [ow|]; [|done].
    destruct (controllerutil_SetControllerReference _ _) as [m|] eqn:E; [done|].
    apply SetControllerReference_foreign in E. injection Ex as <-. by intros [= ->].
Qed.

#[local] Ltac side := first [ done | intros ? ? ? ?; apply supportedCertificate_fresh | by intros ? []
  | apply mutateCertificate_fresh | by intros [] | intros b u u' (<- & _ & _); apply deleteCertWithSecret_cert ].

Lemma createOrUpdateCertificate_enough m a w :
  fresh_certificate a → unheld w KCertificate n →
  run (Datatypes.S (Datatypes.S m)) a w = run recreate_fuel a w.
Proof.
  apply (managed_enough KCertificate n fresh_certificate fresh_certificate _ _ _ _ _ _ run
    createOrUpdateCertificate_step); side.
Qed.

(** The certificate [n] asks for [want] and belongs to the owner. *)
Definition certificate_requested w : Prop :=
  ∃ got, stored w KCertificate n = Some got ∧ same_request want (cert_Spec got) ∧
    ∀ ow, owner = Some ow → metav1_IsControlledBy (cert_meta got) (V2.cr_meta ow) = true.
Lemma createOrUpdateCertificate_ok a w w' :
  fresh_certificate a → quiet w KCertificate n → run recreate_fuel a w = (Ok (), w') →
  certificate_requested w'.
Proof.
  intros Ha Hq Hrun.
  apply (managed_ok KCertificate n fresh_certificate fresh_certificate _ _ _ _ _ _ run (λ _, eq_refl)
    createOrUpdateCertificate_step)
    in Hrun as (b & base & o1 & got & (_ & _ & Hb) & Hf & _ & Hgot & [(_ & _ & Hrefs) Hk]); [|side..].
  apply mutateCertificate_Ok in Hf as [Es Hc]. exists got. split; [done|]. split.
  - eapply same_request_trans; [exact Hb|]. rewrite <-Es. exact Hk.
  - intros ow Ho. rewrite (IsControlledBy_refs _ (cert_meta o1)) by exact Hrefs. by apply Hc.
Qed.
Lemma touches_run_certificate S m a :
  fresh_certificate a → S KCertificate n → S KSecret (nn (nn_Namespace n) (cs_SecretName want)) →
  touches S (run m a).
Proof.
  intros Ha Hc Hs.
  apply (touches_managed KCertificate n fresh_certificate fresh_certificate _ _ _ _ _ _ run (λ _, eq_refl)
    createOrUpdateCertificate_step); try side.
  intros b (Hk & _ & Er & _). apply touches_deleteCertWithSecret; [by rewrite Hk|].
  unfold cert_secret. rewrite Er. apply (f_equal nn_Namespace) in Hk. simpl in Hk. by rewrite Hk.
Qed.

Lemma touches_createOrUpdateCertificate S m a :
  fresh_certificate a → S KCertificate n → S KSecret (nn (nn_Namespace n) (cs_SecretName want)) →
  touches S (createOrUpdateCertificate m a owner).
Proof.
  intros Ha Hc Hs w [c e] w' Hrun. eapply (touches_run_certificate S m a Ha Hc Hs w e).
  unfold mbindM. by rewrite Hrun.
Qed.

(** A failure leaves the key and the spec of the certificate in memory. *)
Lemma mutateCertificate_Err b base o1 e :
  mutateCertificate b owner base = (o1, Err e) →
  key KCertificate o1 = key KCertificate base ∧ cert_Spec o1 = cert_Spec base.
Proof.
  unfold mutateCertificate. intros Hf. destruct owner as [ow|].
  - destruct (controllerutil_SetControllerReference _ _) as [m|] eqn:E; simpl in Hf.
    + apply SetControllerReference_fields in E as (_ & _ & _ & E).
      repeat case_match; try done. by injection Hf as <- _.
    + by injection Hf as <- _.
  - simpl in Hf. repeat case_match; try done. by injection Hf as <- _.
Qed.

(** The certificate that is returned is that of the server, or the one that was deleted. *)
Lemma createOrUpdateCertificate_returns m a w c w' :
  fresh_certificate a → createOrUpdateCertificate m a owner w = ((c, Ok ()), w') →
  key KCertificate c = n ∧
  (quiet w KCertificate n →
   (∀ old, stored w KCertificate n = Some old → cs_SecretName (cert_Spec old) = cs_SecretName want) →
   cs_SecretName (cert_Spec c) = cs_SecretName want).
Proof.
  intros Ha Hrun. destruct m as [|m]; [done|]. simpl in Hrun.
  apply mbindM_inv in Hrun as ([b|e] & w1 & Hp & Hrun); [|ret_inv Hrun].
  apply supportedCertificate_fresh in Hp as (Hs & _ & Hb); [|done]. destruct (Hb b eq_refl) as [Hb1 _].
  pose proof Hb1 as (Hk & _ & Er & _). pose proof (same_store_eq _ _ KCertificate n Hs) as Es.
  apply mbindM_inv in Hrun as ([o [op|e]] & w2 & Hc & Hrun).
  - ret_inv Hrun. split; [by apply (CreateOrUpdate_key KCertificate) in Hc as ->|]. intros Hq Hold.
    apply (CreateOrUpdate_answer KCertificate) in Hc as (base & w3 & o1 & w4 & got & _ & _ & Hf & _ & _ & [_ [Hn _]] & _ & Ho).
    + injection Hf as Hf _. apply mutateCertificate_Ok in Hf as [Ef _].
      destruct Ho as [->| ->]; congruence.
    + intros ? ? ? ? [= _ <-]. done.
    + rewrite Hk, Es. intros old Ho. by apply Hq in Ho as [_ ?].
  - destruct (decide (e = errCertificateModified)) as [->|]; [|ret_inv Hrun].
    apply mbindM_inv in Hrun as (x & w3 & _ & Hrun). ret_inv Hrun.
    apply (CreateOrUpdate_err KCertificate) in Hc as [[]|(base & w4 & _ & Hbase & Hf)].
    injection Hf as Hf _. pose proof Hf as [Ek Ef]%mutateCertificate_Err. rewrite Ek, Ef.
    destruct Hbase as [[_ ->]|Hbase].
    + by destruct (mutateCertificate_fresh b Hb1); rewrite Hf.
    + rewrite Hk, Es in Hbase. split; [by eapply stored_key|]. intros _ Hold. by apply Hold.
Qed.
End certificate.

(** *** The whole of TLS *)

(** Only the issuers of the installation, the certificates of its namespace, and secrets
    there and in the target namespaces. *)
Definition tls_footprint cr : Kind → NamespacedName → Prop := λ k n,
  match k with
  | KIssuer => n = nn (ci_InstallNamespace cr) (ci_Name cr +:+ "-self-signed") ∨
               n = nn (ci_InstallNamespace cr) (ci_Name cr +:+ "-ca")
  | KCertificate => nn_Namespace n = ci_InstallNamespace cr
  | KSecret => nn_Namespace n = ci_InstallNamespace cr ∨ nn_Namespace n ∈ ci_TargetNamespaces cr ∨
               nn_Namespace n ∈ ci_TargetNamespaceStatus cr
  | _ => False
  end.

(** The certificate of the installation, as the constructors of [certificates.go] make it. *)
Definition install_cert cr (c : Certificate) : Prop :=
  om_Namespace (cert_meta c) = ci_InstallNamespace cr ∧ CreationTimestamp_IsZero (cert_meta c) = true.
Lemma install_cert_fresh cr c : install_cert cr c → fresh_certificate (key KCertificate c) (cert_Spec c) c.
Proof. by intros [_ Hz]. Qed.
Lemma touches_install cr c m : install_cert cr c →
  touches (tls_footprint cr) (createOrUpdateCertificate m c (Some (ci_Object cr))).
Proof.
  intros [Hn Hz]. eapply (touches_createOrUpdateCertificate (key KCertificate c)); [done|done|left; exact Hn].
Qed.
Lemma touches_installCert cr c : install_cert cr c → touches (tls_footprint cr) (installCert c cr).
Proof. intros Hc. apply touches_bind; [by apply touches_install|]. intros []; apply touches_ret. Qed.
Lemma installCert_namespace cr c c' w w' : install_cert cr c →
  installCert c cr w = (Ok c', w') → om_Namespace (cert_meta c') = ci_InstallNamespace cr.
Proof.
  intros Hc ([c1 [[]|e]] & w1 & Hrun & Hr)%mbindM_inv; ret_inv Hr.
  eapply createOrUpdateCertificate_returns in Hrun as [Hk _]; [|by eapply install_cert_fresh].
  apply (f_equal nn_Namespace) in Hk. simpl in Hk. rewrite Hk. apply Hc.
Qed.

Lemma GetCertificateSecret_key c s w w' :
  GetCertificateSecret c w = (Ok s, w') → key KSecret s = cert_secret c.
Proof.
  unfold GetCertificateSecret. destruct (isCertificateReady c); [|intros Hr; ret_inv Hr].
  intros Hg. apply (Get_Ok KSecret) in Hg. by apply (stored_key _ KSecret) in Hg.
Qed.
Lemma touches_GetCertificateSecret S c : touches S (GetCertificateSecret c).
Proof. unfold GetCertificateSecret. destruct (isCertificateReady c); [apply (touches_Get S KSecret)|apply touches_ret]. Qed.

Lemma touches_reconcileAgentCertificate cr c ns : install_cert cr c → ns ∈ ci_TargetNamespaces cr →
  touches (tls_footprint cr) (reconcileAgentCertificate c cr ns).
Proof.
  intros Hc Hns. apply touches_bind; [by apply touches_install|]. intros [c' [[]|e]]; [|apply touches_ret].
  destruct (negb _); [|apply touches_ret]. apply touches_bind; [apply touches_GetCertificateSecret|].
  intros [s|e]; [|apply touches_ret]. apply touches_bind; [|intros [? ?]; apply touches_ret].
  apply touches_createOrUpdateSecret; [intros; apply touches_ret|]. right. by left.
Qed.
Lemma agent_install_cert r cr ns : install_cert cr (NewAgentCert cr ns (r_Kind r)).
Proof. done. Qed.

Lemma touches_setupNamespace r cr ca bytes ns : ns ∈ ci_TargetNamespaces cr →
  touches (tls_footprint cr) (setupNamespace r cr ca bytes ns).
Proof.
  intros Hns. apply touches_try.
  - destruct (negb _); [|apply touches_ret]. apply touches_bind; [|intros [? ?]; apply touches_ret].
    apply touches_CreateOrUpdate; [intros; apply touches_ret|]. right. by left.
  - intros _. apply touches_bind; [by apply touches_reconcileAgentCertificate|].
    intros [c [[]|e]]; [apply touches_ret|]. destruct (decide _); apply touches_ret.
Qed.
Lemma setupNamespace_ready r cr ca bytes ns w c w' :
  setupNamespace r cr ca bytes ns w = (Ok (c, true), w') →
  om_Namespace (cert_meta c) = ci_InstallNamespace cr.
Proof.
  intros (_ & w1 & _ & Hrun)%mtry_ok_inv.
  apply mbindM_inv in Hrun as ([c1 [[]|e]] & w2 & Ha & Hrun); [|destruct (decide _); ret_inv Hrun].
  ret_inv Hrun. apply mbindM_inv in Ha as ([c2 [[]|e]] & w3 & Hc & Ha); [|ret_inv Ha].
  eapply createOrUpdateCertificate_returns in Hc as [Hk _]; [|apply (install_cert_fresh cr), agent_install_cert].
  apply (f_equal nn_Namespace) in Hk. simpl in Hk.
  destruct (negb _); [|by ret_inv Ha].
  apply mbindM_inv in Ha as ([s|e] & w4 & _ & Ha); [|ret_inv Ha].
  apply mbindM_inv in Ha as ([? ?] & w5 & _ & Ha). by ret_inv Ha.
Qed.
Lemma touches_setupNamespaces r cr ca bytes nss certs ready :
  (∀ ns, ns ∈ nss → ns ∈ ci_TargetNamespaces cr) →
  touches (tls_footprint cr) (setupNamespaces r cr ca bytes nss certs ready).
Proof.
  revert certs ready. induction nss as [|ns nss IH]; intros certs ready Hnss; [apply touches_ret|].
  apply touches_try; [apply touches_setupNamespace, Hnss; by left|].
  intros [c ok]. apply IH. intros x Hx. apply Hnss. by right.
Qed.
Lemma setupNamespaces_not_ready r cr ca bytes nss certs w certs' ready' w' :
  setupNamespaces r cr ca bytes nss certs false w = (Ok (certs', ready'), w') → ready' = false.
Proof.
  revert certs w. induction nss as [|ns nss IH]; intros certs w Hrun; [by ret_inv Hrun|].
  apply mtry_ok_inv in Hrun as ([c ok] & w1 & _ & Hrun). by apply IH in Hrun.
Qed.
Lemma setupNamespaces_ready r cr ca bytes nss certs ready w certs' w' :
  Forall (λ c, om_Namespace (cert_meta c) = ci_InstallNamespace cr) certs →
  setupNamespaces r cr ca bytes nss certs ready w = (Ok (certs', true), w') →
  ready = true ∧ Forall (λ c, om_Namespace (cert_meta c) = ci_InstallNamespace cr) certs'.
Proof.
  revert certs ready w. induction nss as [|ns nss IH]; intros certs ready w Hall Hrun; [by ret_inv Hrun|].
  apply mtry_ok_inv in Hrun as ([c ok] & w1 & Hs & Hrun). destruct (ready && ok) eqn:Eok.
  - apply andb_prop in Eok as [-> ->]. apply IH in Hrun as [_ ?]; [done|].
    apply Forall_app. split; [done|]. apply Forall_singleton. by eapply setupNamespace_ready.
  - by apply setupNamespaces_not_ready in Hrun.
Qed.

Lemma removeCRFromOwnerReferences_key r cr s :
  key KSecret (removeCRFromOwnerReferences r cr s) = key KSecret s.
Proof. unfold removeCRFromOwnerReferences. destruct (metav1_GetControllerOf _); [destruct (_ && _)|]; done. Qed.
Lemma touches_setCertSecretOwner r cr certs :
  Forall (λ c, om_Namespace (cert_meta c) = ci_InstallNamespace cr) certs →
  touches (tls_footprint cr) (setCertSecretOwner r cr certs).
Proof.
  intros Hall. apply touches_for_each. intros c Hc. eapply Forall_forall in Hall; [|exact Hc].
  apply touches_try_ran; [apply touches_GetCertificateSecret|]. intros s w w' Hs%GetCertificateSecret_key.
  destruct (negb (metav1_IsControlledBy (sec_meta s) (cert_meta c))); [|apply touches_ret]. cbv zeta.
  match goal with |- context [controllerutil_SetControllerReference ?o ?m] =>
    destruct (controllerutil_SetControllerReference o m) as [m'|] eqn:E end; [|apply touches_ret].
  apply SetControllerReference_fields in E as (_ & _ & _ & E).
  apply touches_bind; [|intros [? ?]; apply touches_ret]. apply (touches_Update _ KSecret). left.
  change (nn_Namespace (key_of_meta m') = ci_InstallNamespace cr). rewrite E.
  change (nn_Namespace (key KSecret (removeCRFromOwnerReferences r cr s)) = ci_InstallNamespace cr).
  by rewrite removeCRFromOwnerReferences_key, Hs.
Qed.
Lemma touches_cleanNamespace r cr ca ns : ns ∈ ci_TargetNamespaceStatus cr →
  touches (tls_footprint cr) (cleanNamespace r cr ca ns).
Proof.
  intros Hns. apply touches_try; [|intros _; apply touches_try; [|intros _]].
  - destruct (negb _); [|apply touches_ret]. apply touches_deleteSecret. right. by right.
  - destruct (negb _); [|apply touches_ret]. apply touches_deleteSecret. right. by right.
  - apply touches_deleteCertWithSecret; [done|by left].
Qed.
Lemma touches_createOrUpdateKeystoreSecret S s owner :
  S KSecret (key KSecret s) → touches S (createOrUpdateKeystoreSecret s owner).
Proof. intros HS. unfold createOrUpdateKeystoreSecret, mutateKeystoreSecret. touch. exact HS. Qed.
Lemma touches_tls_issuer cr issuer : ci_InstallNamespace cr ≠ "" →
  om_Namespace (issu_meta issuer) = ci_InstallNamespace cr → tls_footprint cr KIssuer (key KIssuer issuer) →
  touches (tls_footprint cr) (createOrUpdateIssuer issuer (ci_Object cr)).
Proof.
  intros Hne Hn HI. apply touches_createOrUpdateIssuer; [by rewrite Hn|done|].
  intros n En. rewrite Hn in En. split; [done|by left].
Qed.

Lemma touches_setupTLS r cr : ci_InstallNamespace cr ≠ "" → touches (tls_footprint cr) (setupTLS r cr).
Proof.
  intros Hne. unfold setupTLS. apply touches_try; [unfold certManagerAvailable; touch|].
  intros [|]; simpl; [|touch].
  apply touches_try; [apply touches_tls_issuer; auto; by left|intros _].
  do 1 (apply touches_try_ran; [by apply touches_installCert|intros caCert ? ? Eca]).
  apply touches_try; [apply touches_tls_issuer; auto; by right|intros _].
  apply touches_try; [apply touches_createOrUpdateKeystoreSecret; by left|intros _].
  apply touches_try_ran; [by apply touches_installCert|intros c1 ? ? E1].
  apply touches_try_ran; [by apply touches_installCert|intros c2 ? ? E2].
  apply touches_try_ran; [by apply touches_installCert|intros c3 ? ? E3].
  apply touches_try_ran; [by apply touches_installCert|intros c4 ? ? E4].
  apply touches_try_ran; [by apply touches_installCert|intros c5 ? ? E5].
  apply installCert_namespace in Eca, E1, E2, E3, E4, E5; [|done..].
  apply touches_try; [apply touches_try; [apply touches_GetCertificateSecret|intros; apply touches_ret]|intros bytes].
  apply touches_try; [apply touches_ret|intros cfg].
  apply touches_try_ran; [by apply touches_setupNamespaces|]. intros [certs ready] u u' Hn.
  destruct ready; [|apply touches_ret]. simpl.
  apply setupNamespaces_ready in Hn as [_ Hn]; [|repeat constructor; done].
  apply touches_try; [by apply touches_setCertSecretOwner|intros _].
  apply touches_try; [|intros _; apply touches_ret]. apply touches_for_each. intros ns Hns.
  apply touches_cleanNamespace. by apply elem_of_toDelete in Hns as [? _].
Qed.

(** *** Removal *)
Lemma touches_finalizeTLS r cr : touches (tls_footprint cr) (finalizeTLS r cr).
Proof.
  apply touches_for_each. intros ns Hns. destruct (negb _); [|apply touches_ret].
  apply touches_try; [|intros _]; apply touches_deleteSecret; right; by left.
Qed.
Lemma deleteSecret_shrinks s w w' :
  unheld w KSecret (key KSecret s) → deleteSecret s w = (Ok (), w') →
  stored w' KSecret (key KSecret s) = None ∧ ∀ k n, stored w' k n = stored w k n ∨ stored w' k n = None.
Proof.
  intros Hu Hrun. pose proof Hrun as Hg. apply deleteSecret_gone in Hg; [|done]. split; [done|]. intros k n.
  destruct (decide (k = KSecret ∧ n = key KSecret s)) as [[-> ->]|Hn]; [by right|]. left.
  eapply (same_except_out (only KSecret (key KSecret s))); [|exact Hn].
  eapply touches_deleteSecret; [|exact Hrun]. done.
Qed.

(** The names of the secrets that are copied to the target namespaces. *)
Definition ca_name r cr : string := cs_SecretName (cert_Spec (NewCryostatCACert (r_Kind r) cr)).
Definition agent_name r cr (ns : string) : string := AgentCertificateName (r_Kind r) cr ns.
Definition tls_copies r cr ns : list NamespacedName := [nn ns (ca_name r cr); nn ns (agent_name r cr ns)].

Lemma finalizeTLS_ok r cr w w' :
  (∀ ns n, ns ∈ ci_TargetNamespaces cr → ns ≠ ci_InstallNamespace cr → n ∈ tls_copies r cr ns → unheld w KSecret n) →
  finalizeTLS r cr w = (Ok (), w') →
  ∀ ns n, ns ∈ ci_TargetNamespaces cr → ns ≠ ci_InstallNamespace cr → n ∈ tls_copies r cr ns →
    stored w' KSecret n = None.
Proof.
  intros Hu Hrun ns n Hns Hne Hn. revert ns Hns Hne n Hn.
  refine (for_each_all
    (λ ns u, ns ≠ ci_InstallNamespace cr → ∀ n, n ∈ tls_copies r cr ns → unheld u KSecret n)
    (λ ns u, ns ≠ ci_InstallNamespace cr → ∀ n, n ∈ tls_copies r cr ns → stored u KSecret n = None)
    _ _ w w' (λ ns Hns Hne n Hn, Hu ns n Hns Hne Hn) _ Hrun).
  intros y u u' _ Hy Hf.
  assert (Hshrink : (y ≠ ci_InstallNamespace cr → ∀ n, n ∈ tls_copies r cr y → stored u' KSecret n = None) ∧
    ∀ k n, stored u' k n = stored u k n ∨ stored u' k n = None).
  2:{ destruct Hshrink as [Hpost Hs]. split; [exact Hpost|]. intros x. split; intros Hx Hne n Hn.
      - eapply unheld_shrinks; [apply Hs|by apply Hx].
      - destruct (Hs KSecret n) as [-> | ->]; [by apply Hx|done]. }
  destruct (decide (y = ci_InstallNamespace cr)) as [->|Hne].
  { rewrite bool_decide_true in Hf by done. ret_inv Hf. split; [done|]. auto. }
  rewrite bool_decide_false in Hf by done. simpl in Hf.
  apply mtry_ok_inv in Hf as ([] & u1 & H1 & H2).
  apply deleteSecret_shrinks in H1 as [G1 S1]; [|apply Hy; [done|by left]].
  apply deleteSecret_shrinks in H2 as [G2 S2].
  2:{ eapply unheld_shrinks; [apply S1|]. apply Hy; [done|]. right. by left. }
  split.
  - intros _ n. unfold tls_copies. rewrite !elem_of_cons, elem_of_nil. intros [-> | [-> | []]]; [|exact G2].
    destruct (S2 KSecret (nn y (ca_name r cr))) as [-> | ->]; [exact G1|done].
  - intros k n. destruct (S2 k n) as [-> | ->]; [apply S1|by right].
Qed.

(** *** The copies in the target namespaces *)

(** The agents' certificate of a namespace, if there is one yet, keeps its secret's name. *)
Definition agent_good r cr ns w : Prop :=
  let n := nn (ci_InstallNamespace cr) (agent_name r cr ns) in
  quiet w KCertificate n ∧
  ∀ old, stored w KCertificate n = Some old → cs_SecretName (cert_Spec old) = agent_name r cr ns.
(** A secret of a target namespace, with the labels that lead back to the CR. *)
Definition tls_copy cr w (n : NamespacedName) (P : gmap string string → Prop) : Prop :=
  ∃ s, stored w KSecret n = Some s ∧ P (gm_make (sec_Data s)) ∧
       keeps_map (LabelsForTargetNamespaceObject cr) (om_Labels (sec_meta s)).
Definition ca_copied cr ca (caBytes : option string) ns w : Prop :=
  tls_copy cr w (nn ns ca) (λ d, d !! TLSCertKey = Some (default "" caBytes)).
Definition agent_copied r cr ns w : Prop :=
  ∃ s, stored w KSecret (nn (ci_InstallNamespace cr) (agent_name r cr ns)) = Some s ∧
       tls_copy cr w (nn ns (agent_name r cr ns)) (λ d, d = gm_make (sec_Data s)).

Lemma keeps_map_merge {V} (src dest got : gomap V) :
  keeps_map (Some (gm_make src ∪ gm_make dest)) got → keeps_map src got.
Proof.
  intros Hk k v Hv. apply Hk. unfold gm_lookup in *. destruct src as [m|]; [|done]. simpl in *.
  by apply lookup_union_Some_l.
Qed.

Lemma createOrUpdateCertSecret_ok cr s caBytes w w' :
  sec_StringData s = None → quiet w KSecret (key KSecret s) →
  createOrUpdateCertSecret s caBytes (LabelsForTargetNamespaceObject cr) w = (Ok (), w') →
  tls_copy cr w' (key KSecret s) (λ d, d !! TLSCertKey = Some (default "" caBytes)).
Proof.
  intros Hs Hq Hrun. apply mbindM_inv in Hrun as ([o [op|e]] & w1 & Hc & Hrun); ret_inv Hrun.
  apply (CreateOrUpdate_ok KSecret)
    in Hc as (base & w2 & o1 & w3 & got & _ & Hb & Hf & _ & Hgot & [(Hl & _) Hd] & _).
  - unfold mretM in Hf. injection Hf as <- _. exists got. split; [done|]. split; [|exact (keeps_map_merge _ (om_Labels (sec_meta base)) _ Hl)].
    simpl in Hd. rewrite Hd, lookup_union_r; [exact (lookup_insert_eq (gm_make (sec_Data base)) _ _)|].
    change (gm_make (sec_StringData base) !! TLSCertKey = None).
    destruct Hb as [[_ ->]|Hb]; [rewrite Hs; apply lookup_empty|].
    apply stored_StringData in Hb. rewrite Hb. apply lookup_empty.
  - intros ? ? ? ? [= _ <-]. done.
  - intros old Ho. by apply Hq in Ho as [_ ?].
Qed.

Definition agent_scope r cr ns : Kind → NamespacedName → Prop := λ k n,
  k = KCertificate ∧ n = nn (ci_InstallNamespace cr) (agent_name r cr ns) ∨
  k = KSecret ∧ (n = nn (ci_InstallNamespace cr) (agent_name r cr ns) ∨
                 ns ≠ ci_InstallNamespace cr ∧ n = nn ns (agent_name r cr ns)).

Lemma reconcileAgentCertificate_ok r cr ns w c w' :
  agent_good r cr ns w →
  (ns ≠ ci_InstallNamespace cr → quiet w KSecret (nn ns (agent_name r cr ns))) →
  reconcileAgentCertificate (NewAgentCert cr ns (r_Kind r)) cr ns w = ((c, Ok ()), w') →
  same_except (agent_scope r cr ns) w w' ∧ (ns ≠ ci_InstallNamespace cr → agent_copied r cr ns w').
Proof.
  intros [Hq Hold] Hqs Hrun.
  apply mbindM_inv in Hrun as ([c1 [[]|e]] & w1 & Hc & Hrun); [|ret_inv Hrun].
  pose proof (install_cert_fresh _ _ (agent_install_cert r cr ns)) as Hfresh.
  assert (E1 : same_except (λ k n, k = KCertificate ∧ n = nn (ci_InstallNamespace cr) (agent_name r cr ns) ∨
    k = KSecret ∧ n = nn (ci_InstallNamespace cr) (agent_name r cr ns)) w w1).
  { eapply (touches_createOrUpdateCertificate _ _ _ _ _ _ Hfresh); [| |exact Hc]; auto. }
  destruct (createOrUpdateCertificate_returns _ _ _ _ _ _ _ _ Hfresh Hc) as [Hk Hn].
  specialize (Hn Hq Hold).
  assert (Hw1 : same_except (agent_scope r cr ns) w w1).
  { eapply same_except_weaken; [|exact E1]. unfold agent_scope. tauto. }
  destruct (decide (ns = ci_InstallNamespace cr)) as [Hns|Hns].
  { rewrite bool_decide_true in Hrun by done. ret_inv Hrun. by split. }
  rewrite bool_decide_false in Hrun by done. simpl in Hrun.
  apply mbindM_inv in Hrun as ([s|e] & w2 & Hg & Hrun); [|ret_inv Hrun].
  pose proof (touches_GetCertificateSecret (λ _ _, False) c1 _ _ _ Hg) as E2.
  pose proof (GetCertificateSecret_key _ _ _ _ Hg) as Hks.
  apply mbindM_inv in Hrun as ([t err] & w3 & Ht & Hrun). ret_inv Hrun.
  assert (Ekey : cert_secret c = nn (ci_InstallNamespace cr) (agent_name r cr ns)).
  { unfold cert_secret. rewrite Hn. apply (f_equal nn_Namespace) in Hk. simpl in Hk. by rewrite Hk. }
  assert (Ename : om_Name (sec_meta s) = agent_name r cr ns).
  { rewrite Ekey in Hks. by apply (f_equal nn_Name) in Hks. }
  assert (Hsrc : stored w2 KSecret (nn (ci_InstallNamespace cr) (agent_name r cr ns)) = Some s).
  { unfold GetCertificateSecret in Hg. destruct (isCertificateReady c); [|ret_inv Hg].
    pose proof (Get_reads KSecret _ _ _ _ Hg) as Hr. apply (Get_Ok KSecret) in Hg.
    rewrite (same_store_eq _ _ _ _ Hr), <-Ekey. exact Hg. }
  assert (Enn : key KSecret (NewSecret (om_Name (sec_meta s)) ns) = nn ns (agent_name r cr ns))
    by by rewrite Ename.
  eapply createOrUpdateSecret_ok in Ht as (base & meta & o1 & w4 & w5 & got & Hb & Hf & _ & _ & Hgot & [(Hl & _) Hd] & E3).
  - rewrite Enn in *. unfold mretM in Hf. injection Hf as <- _. split.
    + transitivity w1; [done|]. transitivity w2; [by eapply same_except_weaken; [|exact E2]|].
      eapply same_except_weaken; [|exact E3]. intros k n [-> ->]. right. auto.
    + intros _. exists s. split.
      { rewrite (same_except_out _ _ _ _ _ E3); [exact Hsrc|]. intros [_ En]. by injection En as En. }
      exists got. split; [done|]. split; [|exact (keeps_map_merge _ (om_Labels meta) _ Hl)].
      change (gm_make (sec_Data got) = gm_make (sec_StringData base) ∪ gm_make (sec_Data s)) in Hd.
      rewrite Hd. destruct Hb as [[_ ->]|Hb]; [|apply stored_StringData in Hb; rewrite Hb];
        apply (left_id_L ∅ (∪)).
  - intros ? ? ? ? [= _ <-]. reflexivity.
  - rewrite Enn. intros old Ho. apply (Hqs Hns old). rewrite <-Ho. symmetry.
    rewrite (same_store_eq _ _ _ _ E2). apply (same_except_out _ _ _ _ _ E1).
    intros [[? _]|[_ En]]; [done|]. by injection En as En.
Qed.

(** Setting up a namespace, when all goes well. *)
Definition ns_scope r cr ca ns : Kind → NamespacedName → Prop := λ k n,
  agent_scope r cr ns k n ∨ ns ≠ ci_InstallNamespace cr ∧ k = KSecret ∧ n = nn ns ca.
Lemma ns_scope_disjoint r cr ca x y k n :
  ns_scope r cr ca x k n → ns_scope r cr ca y k n → x = y ∨ agent_name r cr x = agent_name r cr y.
Proof.
  unfold ns_scope, agent_scope. intros Hx Hy.
  destruct Hx as [[[-> ->]|[-> [-> |[? ->]]]]|(? & -> & ->)];
    destruct Hy as [[[? E]|[? [E|[? E]]]]|(? & ? & E)]; try done;
    injection E; intros; subst; auto; congruence.
Qed.

Definition ns_ready r cr ca ns w : Prop :=
  agent_good r cr ns w ∧
  (ns ≠ ci_InstallNamespace cr →
     quiet w KSecret (nn ns ca) ∧ quiet w KSecret (nn ns (agent_name r cr ns))).
Definition ns_copied r cr ca caBytes ns w : Prop :=
  ns ≠ ci_InstallNamespace cr → ca_copied cr ca caBytes ns w ∧ agent_copied r cr ns w.

Lemma ns_ready_eq r cr ca ns w w' :
  (∀ k n, ns_scope r cr ca ns k n → stored w' k n = stored w k n) →
  ns_ready r cr ca ns w → ns_ready r cr ca ns w'.
Proof.
  intros E [[Hq Hold] Hs]. unfold ns_ready, agent_good, quiet.
  rewrite (E KCertificate) by (left; left; auto). split; [auto|]. intros Hne.
  destruct (Hs Hne) as [H1 H2].
  split; [rewrite (E KSecret (nn ns ca)) by (right; auto)|
          rewrite (E KSecret (nn ns (agent_name r cr ns))) by (left; right; auto)]; auto.
Qed.
Lemma ns_copied_eq r cr ca caBytes ns w w' :
  (∀ k n, ns_scope r cr ca ns k n → stored w' k n = stored w k n) →
  ns_copied r cr ca caBytes ns w → ns_copied r cr ca caBytes ns w'.
Proof.
  intros E Hc Hne. destruct (Hc Hne) as [H1 H2].
  unfold ca_copied, agent_copied, tls_copy.
  rewrite (E KSecret (nn ns ca)) by (right; auto).
  rewrite !(E KSecret (nn _ (agent_name r cr ns))) by (left; right; auto). by split.
Qed.

Lemma setupNamespace_ok r cr ca caBytes ns w c w' :
  ca ≠ agent_name r cr ns → ns_ready r cr ca ns w →
  setupNamespace r cr ca caBytes ns w = (Ok (c, true), w') →
  same_except (ns_scope r cr ca ns) w w' ∧ ns_copied r cr ca caBytes ns w'.
Proof.
  intros Hca Hr Hrun. apply mtry_ok_inv in Hrun as ([] & w1 & Hcopy & Hrun).
  apply mbindM_inv in Hrun as ([c1 [[]|e]] & w2 & Ha & Hrun); [|destruct (decide _); ret_inv Hrun].
  ret_inv Hrun.
  assert (H1 : same_except (λ k n, ns ≠ ci_InstallNamespace cr ∧ k = KSecret ∧ n = nn ns ca) w w1 ∧
               (ns ≠ ci_InstallNamespace cr → ca_copied cr ca caBytes ns w1)).
  { destruct (decide (ns = ci_InstallNamespace cr)) as [Hns|Hns].
    - rewrite bool_decide_true in Hcopy by done. ret_inv Hcopy. by split.
    - rewrite bool_decide_false in Hcopy by done. simpl in Hcopy. split.
      + revert Hcopy. apply touches_bind; [|intros [? ?]; apply touches_ret].
        apply (touches_CreateOrUpdate _ KSecret); [intros; apply touches_ret|done].
      + intros _. apply createOrUpdateCertSecret_ok in Hcopy; [exact Hcopy|done|].
        by apply (proj2 Hr). }
  destruct H1 as [E1 Hcopied]. destruct Hr as [Hgood Hqs].
  apply reconcileAgentCertificate_ok in Ha as [E2 Hagent].
  - split.
    + transitivity w1; [eapply same_except_weaken; [|exact E1]|eapply same_except_weaken; [|exact E2]];
        unfold ns_scope; tauto.
    + intros Hne. split; [|by apply Hagent]. unfold ca_copied, tls_copy.
      rewrite (same_except_out _ _ _ _ _ E2); [by apply Hcopied|].
      intros [[? _]|[_ [En|[_ En]]]]; [done|by injection En|by injection En].
  - destruct Hgood as [Hq Hold]. unfold agent_good, quiet.
    rewrite (same_except_out _ _ _ _ _ E1) by (by intros (_ & ? & _)). by split.
  - intros Hne. eapply quiet_eq; [|by apply Hqs].
    apply (same_except_out _ _ _ _ _ E1). intros (_ & _ & En). by injection En.
Qed.

Lemma setupNamespaces_ok r cr ca caBytes nss certs w certs' w' :
  NoDup (map (agent_name r cr) nss) →
  (∀ ns, ns ∈ nss → ca ≠ agent_name r cr ns ∧ ns_ready r cr ca ns w) →
  setupNamespaces r cr ca caBytes nss certs true w = (Ok (certs', true), w') →
  same_except (λ k n, ∃ ns, ns ∈ nss ∧ ns_scope r cr ca ns k n) w w' ∧
  ∀ ns, ns ∈ nss → ns_copied r cr ca caBytes ns w'.
Proof.
  revert certs w. induction nss as [|y nss IH]; intros certs w Hnd Hr Hrun.
  { ret_inv Hrun. split; [done|]. by intros ns ?%elem_of_nil. }
  apply mtry_ok_inv in Hrun as ([c ok] & w1 & Hy & Hrun).
  simpl in Hnd. apply NoDup_cons in Hnd as [Hyn Hnd].
  assert (Hdis : ∀ x k n, x ∈ nss → ns_scope r cr ca x k n → ¬ ns_scope r cr ca y k n).
  { intros x k n Hx Sx Sy. apply Hyn. destruct (ns_scope_disjoint _ _ _ _ _ _ _ Sx Sy) as [<-|<-];
      by apply (list_elem_of_fmap_2 (agent_name r cr)). }
  destruct ok.
  2:{ by apply setupNamespaces_not_ready in Hrun. }
  apply setupNamespace_ok in Hy as [Ey Hcy]; [|by apply Hr; left..].
  apply IH in Hrun as [El Hl]; [|done|].
  - split.
    + transitivity w1; eapply same_except_weaken; [|exact Ey| |exact El].
      * intros k n Hs. exists y. split; [by left|done].
      * intros k n (x & Hx & Hs). exists x. split; [by right|done].
    + intros x [->|Hx]%elem_of_cons; [|by apply Hl]. eapply ns_copied_eq; [|exact Hcy].
      intros k n Hs. apply (same_except_out _ _ _ _ _ El). intros (x & Hx & Hxs). by apply (Hdis x k n).
  - intros x Hx. destruct (Hr x ltac:(by right)) as [Hca Hrx]. split; [done|].
    eapply ns_ready_eq; [|exact Hrx]. intros k n Hs. apply (same_except_out _ _ _ _ _ Ey). by apply (Hdis x).
Qed.
End certmanager_lemmas.

(** ** Properties *)
Section certmanager_properties.
Context `{KubeLaws W}.

(** C25. When the CA of an issuer changes, the certificates it issued are done with: a
    successful call for an issuer that is stored with another CA deletes every certificate
    of the owner in the issuer's namespace, except those that are kept in the new CA's own
    secret, together with their secrets, and touches nothing else but the issuer.  When the
    CA is the same, or the stored issuer had none, only the issuer may change.  The issuer
    must not be under deletion, and no finalizer may hold what is to be deleted. *)
Theorem issuer_change_reissues issuer owner old w w' :
  let n := key KIssuer issuer in
  let ca := default "" (iss_CA (issu_Spec issuer)) in
  let chain := chain_footprint w (nn_Namespace n) ca owner in
  let changed := ∃ current, iss_CA (issu_Spec old) = Some current ∧ current ≠ ca in
  nn_Namespace n ≠ "" → stored w KIssuer n = Some old → om_DeletionTimestamp (issu_meta old) = None →
  (∀ k m, chain k m → unheld w k m) →
  createOrUpdateIssuer issuer owner w = (Ok (), w') →
  (changed → ∀ k m, k ≠ KIssuer → (chain k m → stored w' k m = None) ∧ (¬ chain k m → stored w' k m = stored w k m)) ∧
  (changed ∨ same_except (only KIssuer n) w w') ∧
  ∀ m, m ≠ n → stored w' KIssuer m = stored w KIssuer m.
Proof.
  intros n ca chain changed Hns Ho Hd Hu Hrun.
  apply mbindM_inv in Hrun as ([o [op|e]] & w4 & Hc & Hrun); ret_inv Hrun.
  apply (CreateOrUpdate_ok KIssuer) in Hc as (base & w1 & o1 & w2 & got & Hs & Hb & Hf & _ & _ & _ & Hw).
  2:{ intros b u [? ?] u' Hm. eapply mutateIssuer_issuers, Hm. }
  2:{ intros x. fold n. rewrite Ho. by intros [= <-]. }
  fold n in Hb, Hw. destruct Hb as [[Hb _]|Hb]; [congruence|]. rewrite Ho in Hb. injection Hb as <-.
  assert (Hiss : ∀ m, stored w2 KIssuer m = stored w1 KIssuer m) by (intros m; by eapply mutateIssuer_issuers).
  pose proof (stored_key _ KIssuer _ _ Ho) as Hk. apply mutateIssuer_Ok in Hf; [|exact (stored_created _ KIssuer _ _ Ho)].
  assert (Hrest : ∀ m, m ≠ n → stored w' KIssuer m = stored w KIssuer m).
  { intros m Hm. rewrite (same_except_out _ _ _ _ _ Hw) by (by intros []). by rewrite Hiss, (same_store_eq _ _ _ _ Hs). }
  assert (Hch : issuerCAChanged (iss_CA (issu_Spec old)) (iss_CA (issu_Spec issuer)) = true ↔ changed).
  { unfold issuerCAChanged, changed, ca. destruct (iss_CA (issu_Spec old)) as [cur|]; [|naive_solver].
    rewrite negb_true_iff, bool_decide_eq_false. naive_solver. }
  destruct (issuerCAChanged _ _).
  - destruct Hf as (ca' & Eca & Hdel). split; [|split; [left; by apply Hch|done]].
    assert (En : om_Namespace (issu_meta old) = nn_Namespace n) by by rewrite <-Hk.
    rewrite En in Hdel. assert (Ec : ca' = ca) by (unfold ca; by rewrite Eca). rewrite Ec in Hdel.
    assert (Hsame : ∀ k m, chain_footprint w1 (nn_Namespace n) ca owner k m ↔ chain k m).
    { intros k m. unfold chain, chain_footprint. by setoid_rewrite (same_store_eq _ _ _ _ Hs). }
    assert (Hu1 : ∀ k m, chain_footprint w1 (nn_Namespace n) ca owner k m → unheld w1 k m).
    { intros k m Hkm%Hsame x. rewrite (same_store_eq _ _ _ _ Hs). by apply Hu. }
    intros _ k m Hkm. destruct (deleteCertChain_ok _ _ _ _ _ Hns Hu1 Hdel k m) as [H1 H2]. rewrite Hsame in H1, H2.
    rewrite (same_except_out _ _ _ k m Hw) by (by intros []).
    rewrite <-(same_store_eq _ _ _ _ Hs). by split.
  - split; [intros Hx%Hch; done|]. split; [right|done]. subst w2.
    transitivity w1; [by eapply same_except_weaken; [|exact Hs]|exact Hw].
Qed.

(** C26. After a successful call the stored certificate asks for what the operator wants
    (the secret, the common name, the DNS names, the issuer, whether it is a CA, the usages
    and the keystores, up to their profile, which an old cert-manager does not know) and
    belongs to the CR; and a certificate is recreated at most once: two attempts give the
    outcome of any larger number.  The certificate that is passed is one that was not read
    from the cluster, and the stored one must not be held by a finalizer or under deletion
    when the call starts. *)
Theorem createOrUpdateCertificate_spec cert owner w q c w' m :
  let n := key KCertificate cert in
  CreationTimestamp_IsZero (cert_meta cert) = true → quiet w KCertificate n →
  createOrUpdateCertificate recreate_fuel cert (Some owner) w = ((c, q), w') →
  (q = Ok () → certificate_requested n (Some owner) (cert_Spec cert) w') ∧
  (let* ' (_, err) := createOrUpdateCertificate (2 + m) cert (Some owner) in mretM err) w = (q, w').
Proof.
  intros n Hz Hq Hrun.
  assert (Hf : fresh_certificate n (cert_Spec cert) cert) by done.
  assert (Hq' : (let* ' (_, err) := createOrUpdateCertificate recreate_fuel cert (Some owner) in mretM err) w = (q, w'))
    by (unfold mbindM; by rewrite Hrun).
  split.
  - intros ->. by eapply createOrUpdateCertificate_ok.
  - rewrite <-Hq'. eapply createOrUpdateCertificate_enough; [exact Hf|by apply quiet_unheld].
Qed.

(** C24. When every agent certificate was ready, each target namespace other than the
    install namespace holds a copy of the CA certificate the installation uses and a copy
    of its own agents' secret, both with the labels that lead back to the CR.  The names
    of the agents' certificates must differ, from each other and from the CA's secret
    (they contain a hash); what is already there must not be under deletion; and an agents'
    certificate that is already there must name the secret of its own name. *)
Theorem target_namespaces_get_copies r cr ca caBytes certs w certs' w' :
  NoDup (map (agent_name r cr) (ci_TargetNamespaces cr)) →
  (∀ ns, ns ∈ ci_TargetNamespaces cr → ca ≠ agent_name r cr ns ∧ ns_ready r cr ca ns w) →
  setupNamespaces r cr ca caBytes (ci_TargetNamespaces cr) certs true w = (Ok (certs', true), w') →
  ∀ ns, ns ∈ ci_TargetNamespaces cr → ns ≠ ci_InstallNamespace cr →
  ca_copied cr ca caBytes ns w' ∧ agent_copied r cr ns w'.
Proof.
  intros Hnd Hr Hrun ns Hns Hne. eapply setupNamespaces_ok in Hrun as [_ Hc]; [|done|exact Hr].
  by apply Hc.
Qed.
End certmanager_properties.

(** ** Witnesses *)

(** A certificate of the Cryostat next to its CA's. *)
Definition owned_certificate (c : Certificate) : Certificate :=
  c <| cert_meta ::= λ m, m <| om_OwnerReferences := [controller_ref (V2.cr_meta sample_Cryostat)] |> |>
    <| cert_Conditions := [{| cc_Type := "Ready"; cc_Status := "True" |}] |>.
Definition tls_world : fake :=
  fk_put KCertificate (nn "ns" "cryostat-ca") (owned_certificate (NewCryostatCACert "Cryostat" sample_cr))
    (fk_put KCertificate (nn "ns" "cryostat-reports") (owned_certificate (NewReportsCert sample_cr))
       (fk_put KSecret (nn "ns" "cryostat-reports-tls") (NewSecret "cryostat-reports-tls" "ns") fk_sample)).

Lemma tls_world_quiet : (∀ n, quiet tls_world KCertificate n) ∧ ∀ n, quiet tls_world KSecret n.
Proof. split; apply fk_quiet; apply (bool_decide_unpack _); exact I. Qed.

(** The issuer of the Cryostat's certificates, stored with the secret of an earlier CA. *)
Definition ca_issuer (secret : string) : Issuer := {|
  issu_meta := NewObjectMeta "cryostat-ca" "ns"; issu_Spec := {| iss_SelfSigned := false; iss_CA := Some secret |} |}.
Definition issuer_world : fake := fk_put KIssuer (nn "ns" "cryostat-ca") (ca_issuer "old-ca") tls_world.
Lemma issuer_world_quiet : (∀ n, quiet issuer_world KCertificate n) ∧ ∀ n, quiet issuer_world KSecret n.
Proof. split; apply fk_quiet; apply (bool_decide_unpack _); exact I. Qed.
Lemma issuer_changed : ∃ current,
  iss_CA (issu_Spec (admitted KIssuer (nn "ns" "cryostat-ca") (ca_issuer "old-ca"))) = Some current ∧
  current ≠ default "" (iss_CA (issu_Spec (ca_issuer (ca_name sample_r sample_cr)))).
Proof. exists "old-ca". split; [reflexivity|]. vm_compute. discriminate. Qed.
Lemma issuer_change_reissues_witness :
  let w' := (createOrUpdateIssuer (ca_issuer (ca_name sample_r sample_cr)) sample_Cryostat issuer_world).2 in
  stored w' KCertificate (nn "ns" "cryostat-reports") = None ∧
  stored w' KSecret (nn "ns" "cryostat-reports-tls") = None ∧
  stored w' KCryostat (nn "ns" "cryostat") = stored issuer_world KCryostat (nn "ns" "cryostat").
Proof.
  pose proof (issuer_change_reissues (ca_issuer (ca_name sample_r sample_cr)) sample_Cryostat
    (admitted KIssuer (nn "ns" "cryostat-ca") (ca_issuer "old-ca")) issuer_world
    (createOrUpdateIssuer (ca_issuer (ca_name sample_r sample_cr)) sample_Cryostat issuer_world).2) as Hok.
  cbv zeta in Hok. destruct Hok as (Hok & _).
  - discriminate.
  - reflexivity.
  - reflexivity.
  - intros k n (c & _ & _ & _ & [[-> ->]|[-> ->]]);
      apply quiet_unheld; [exact (proj1 issuer_world_quiet _)|exact (proj2 issuer_world_quiet _)].
  - apply run_snd. vm_compute. reflexivity.
  - assert (Hin : ∀ k n, cert_objects (owned_certificate (NewReportsCert sample_cr)) k n →
      chain_footprint issuer_world "ns" (ca_name sample_r sample_cr) sample_Cryostat k n).
    { intros k n Hkn. exists (admitted KCertificate (nn "ns" "cryostat-reports")
        (owned_certificate (NewReportsCert sample_cr))). split; [reflexivity|].
      split; [vm_compute; reflexivity|]. split; [|exact Hkn]. split; [vm_compute; reflexivity|].
      vm_compute. discriminate. }
    split; [|split].
    + apply (Hok issuer_changed); [discriminate|]. apply Hin. by left.
    + apply (Hok issuer_changed); [discriminate|]. apply Hin. by right.
    + apply (Hok issuer_changed); [discriminate|]. by intros (c & _ & _ & _ & [[? _]|[? _]]).
Defined.

Lemma createOrUpdateCertificate_spec_witness :
  certificate_requested (nn "ns" "cryostat-reports") (Some sample_Cryostat) (cert_Spec (NewReportsCert sample_cr))
    (createOrUpdateCertificate recreate_fuel (NewReportsCert sample_cr) (Some sample_Cryostat) tls_world).2.
Proof.
  destruct (createOrUpdateCertificate_spec (NewReportsCert sample_cr) sample_Cryostat tls_world
    (Ok ()) (createOrUpdateCertificate recreate_fuel (NewReportsCert sample_cr) (Some sample_Cryostat) tls_world).1.1
    (createOrUpdateCertificate recreate_fuel (NewReportsCert sample_cr) (Some sample_Cryostat) tls_world).2 0)
    as [Hok _]; [reflexivity|apply tls_world_quiet| |exact (Hok eq_refl)].
  apply run_snd. vm_compute. reflexivity.
Defined.

(** The agents' certificate of the namespace [a], ready, with its secret. *)
Definition agents_world : fake :=
  fk_put KCertificate (nn "ns" (agent_name sample_r sample_cr "a"))
    (owned_certificate (NewAgentCert sample_cr "a" "Cryostat"))
    (fk_put KSecret (nn "ns" (agent_name sample_r sample_cr "a"))
       ((NewSecret (agent_name sample_r sample_cr "a") "ns") <| sec_Data := Some {[ "tls.key" := "key" ]} |>) fk_sample).
Definition agents_run : res (list Certificate * bool) * fake :=
  setupNamespaces sample_r sample_cr "the-ca" (Some "pem") (ci_TargetNamespaces sample_cr) [] true agents_world.
Definition certificates_of (q : res (list Certificate * bool)) : list Certificate :=
  match q with Ok (l, _) => l | Err _ => [] end.
Definition agents_certs : list Certificate := certificates_of agents_run.1.

Lemma target_namespaces_get_copies_witness :
  ca_copied sample_cr "the-ca" (Some "pem") "a" agents_run.2 ∧ agent_copied sample_r sample_cr "a" agents_run.2.
Proof.
  apply (target_namespaces_get_copies sample_r sample_cr "the-ca" (Some "pem") [] agents_world agents_certs).
  - apply (bool_decide_unpack _). vm_compute. exact I.
  - assert (Hq : (∀ n, quiet agents_world KCertificate n) ∧ ∀ n, quiet agents_world KSecret n)
      by (split; apply fk_quiet; apply (bool_decide_unpack _); vm_compute; exact I).
    intros ns Hns. split.
    + assert (Hall : Forall (λ ns, "the-ca" ≠ agent_name sample_r sample_cr ns) (ci_TargetNamespaces sample_cr))
        by (apply (bool_decide_unpack _); vm_compute; exact I).
      exact (proj1 (Forall_forall _ _) Hall ns Hns).
    + split; [|intros _; split; apply Hq]. split; [apply Hq|]. simpl in Hns.
      apply elem_of_cons in Hns as [->|Hns]; [intros old Ho; vm_compute in Ho; discriminate Ho|].
      apply list_elem_of_singleton in Hns as ->. intros old Ho. vm_compute in Ho. injection Ho as <-. vm_compute. reflexivity.
  - apply run_snd. vm_compute. reflexivity.
  - right. left.
  - discriminate.
Defined.
