(* ===== verification/PodProps.v ===== *)
(** * What the pods promise

    Properties of the pods that involve several components: the environment that tells
    Cryostat which applications to discover, the ports the services forward to, the secrets
    the containers read, and the security contexts. *)

From S2P Require Export Pods Services Secrets.
From S2P Require Import TextLemmas FakeClient.
From Stdlib Require Import Ascii.
Open Scope Z_scope.

(** An element of a list at a time. *)
Ltac each := repeat (apply Forall_cons; split); try (apply Forall_nil; exact I).

(** The value of a variable, when it is set once. *)
Definition env_value (name : string) (l : list EnvVar) : option string :=
  env_Value <?> List.find (λ v, bool_decide (env_Name v = name)) l.

(** ** Discovery *)
Lemma port_numbers_Join l : port_numbers l = strings.Join (map strconv.Itoa l) ",".
Proof.
  unfold port_numbers, strings.ReplaceAllByte, fmt_Sprint_ints.
  assert (Hl : ∀ P : string → Prop, (∀ z, P (strconv.Itoa z)) → Forall P (map strconv.Itoa l)).
  { intros P HP. induction l; constructor; auto. }
  rewrite !bytes_app, !map_app, (replace_Join _ " "%char ","%char) by (apply Hl; intros z; by apply number_not).
  change (bytes "[") with ["["%char]. change (bytes "]") with ["]"%char]. simpl map. simpl app.
  rewrite (Trim_brackets "[]" "[" "]"); [apply of_bytes_bytes|by left|by right; left|].
  apply Forall_Join; [by apply (bool_decide_unpack _)|]. apply Hl. intros z. eapply Forall_impl; [apply Itoa_chars|].
  intros c Hc Hin. change (bytes "[]") with ["["; "]"]%char in Hin.
  rewrite !elem_of_cons, elem_of_nil in Hin. destruct Hin as [->|[->|[]]]; discriminate Hc.
Qed.

Definition discovery_variable (cr : CryostatInstance) (name : string) : option string :=
  env_value ("CRYOSTAT_DISCOVERY_KUBERNETES_" +:+ name) (newK8SDiscoveryEnvForCoreContainer cr).
(** What Cryostat reads from a comma-separated variable: nothing, from an empty one. *)
Definition comma_list (v : option string) : option (list string) :=
  (λ s, if bool_decide (s = "") then [] else strings.Split s ",") <?> v.
Definition in_comma_list (x : string) : Prop := x ≠ "" ∧ ","%char ∉ bytes x.
Lemma Join_nonempty l : l ≠ [] → Forall in_comma_list l → strings.Join l "," ≠ "".
Proof. destruct l as [|[|c x] [|y l]]; [done|by intros _ [[] _]%Forall_cons..|done|done]. Qed.
Lemma comma_list_Join l : Forall in_comma_list l → comma_list (Some (strings.Join l ",")) = Some l.
Proof.
  intros Hl. destruct (decide (l = [])) as [->|Hne]; [done|]. simpl. rewrite bool_decide_false by by apply Join_nonempty.
  rewrite Split_Join; [done..|]. eapply Forall_impl; [exact Hl|]. by intros x [_ ?].
Qed.
(** What is asked for: the given values, or else the built-in ones unless they are off. *)
Definition given_or {A} (given : list A) (disabled : bool) (builtin : list A) : list A :=
  match given with [] => if disabled then [] else builtin | l => l end.
(** No options are the same as options that leave everything unset. *)
Definition discovery_options (cr : CryostatInstance) : V2.TargetDiscoveryOptions :=
  default {| V2.tdo_DisableBuiltInDiscovery := false; V2.tdo_DisableBuiltInPortNames := false; V2.tdo_DiscoveryPortNames := [];
             V2.tdo_DisableBuiltInPortNumbers := false; V2.tdo_DiscoveryPortNumbers := [] |}
    (V2.spec_TargetDiscoveryOptions (ci_Spec cr)).

(** C31. Cryostat discovers what the spec asks for: unless discovery is disabled, the
    environment, read as comma-separated lists, gives back the target namespaces, and the
    names and the numbers of the ports of the spec; when the spec lists no names (or no
    numbers), it gives the built-in name [jfr-jmx] (or number 9091), and none at all when
    the built-in ones are disabled.  A spec without discovery options is read as one with
    all of them unset.  When discovery is disabled, the environment says so and gives
    nothing else.  The names of the namespaces and of the ports must be non-empty and
    without commas, as Kubernetes requires. *)
Theorem discovery_roundtrip cr :
  let o := discovery_options cr in
  Forall in_comma_list (ci_TargetNamespaces cr) → Forall in_comma_list (V2.tdo_DiscoveryPortNames o) →
  if V2.tdo_DisableBuiltInDiscovery o then
    newK8SDiscoveryEnvForCoreContainer cr = [Env "CRYOSTAT_DISCOVERY_KUBERNETES_ENABLED" "false"]
  else
    discovery_variable cr "ENABLED" = Some "true" ∧
    comma_list (discovery_variable cr "NAMESPACES") = Some (ci_TargetNamespaces cr) ∧
    comma_list (discovery_variable cr "PORT_NAMES") =
      Some (given_or (V2.tdo_DiscoveryPortNames o) (V2.tdo_DisableBuiltInPortNames o) ["jfr-jmx"]) ∧
    comma_list (discovery_variable cr "PORT_NUMBERS") =
      Some (map strconv.Itoa (given_or (V2.tdo_DiscoveryPortNumbers o) (V2.tdo_DisableBuiltInPortNumbers o) [9091])).
Proof.
  intros o Hns Hnames. unfold discovery_variable, newK8SDiscoveryEnvForCoreContainer. subst o.
  unfold discovery_options in *. pose proof (comma_list_Join _ Hns) as Hn.
  destruct (V2.spec_TargetDiscoveryOptions (ci_Spec cr)) as [o|]; simpl default in *; [|by split_and!].
  destruct (V2.tdo_DisableBuiltInDiscovery o); [done|]. split; [done|]. split; [exact Hn|]. split.
  - pose proof (comma_list_Join _ Hnames) as Hp.
    destruct (V2.tdo_DiscoveryPortNames o) as [|p ps]; [by destruct (V2.tdo_DisableBuiltInPortNames o)|exact Hp].
  - destruct (V2.tdo_DiscoveryPortNumbers o) as [|p ps]; [by destruct (V2.tdo_DisableBuiltInPortNumbers o)|].
    change (comma_list (Some (port_numbers (p :: ps))) = Some (map strconv.Itoa (p :: ps))).
    rewrite port_numbers_Join. apply comma_list_Join, Forall_map, Forall_true.
    intros z. split; [apply Itoa_nonempty|by apply number_not].
Qed.

(** ** The secrets the containers read *)
Definition ref_of (v : EnvVar) : list (string * string) :=
  match env_ValueFrom v ≫= evs_SecretKeyRef with Some k => [(ks_Name k, ks_Key k)] | None => [] end.
Definition refs (l : list EnvVar) : list (string * string) := concat (map ref_of l).
Definition from_ref (e : EnvFromSource) : list string :=
  match ef_SecretRef e with Some (name, _) => [name] | None => [] end.
Lemma refs_app l l' : refs (l ++ l') = refs l ++ refs l'.
Proof. unfold refs. by rewrite map_app, concat_app. Qed.
Lemma refs_pointer name p : refs (env_of_pointer name p) = [].
Proof. by destruct p. Qed.
Lemma refs_bucket o : refs (bucket_env o) = [].
Proof. unfold bucket_env. by rewrite !refs_app, !refs_pointer. Qed.
Lemma refs_provider o p l : provider_env o p = Ok l → refs l = [].
Proof.
  unfold provider_env. destruct (V2.osp_URL p); [|done]. destruct (V2.osp_Region p); [|done].
  intros <-%Ok_inj. rewrite !refs_app, refs_pointer.
  destruct (V2.oso_StorageBucketNameOptions o); rewrite ?refs_bucket; by destruct (default false (V2.osp_TLSTrustAll p)).
Qed.
Lemma refs_managed specs l : managed_storage_env specs = Ok l → refs l = [].
Proof. unfold managed_storage_env. destruct (sps_StorageURL specs); [|done]. by intros <-%Ok_inj. Qed.
Definition storage_refs (secretName : string) : list (string * string) := map (pair secretName) storage_keys.
Definition database_refs (secretName : string) : list (string * string) := map (pair secretName) database_keys.
Lemma refs_storage cr specs l : newStorageEnvForCoreContainer cr specs = Ok l →
  refs l = storage_refs (getStorageSecret cr).
Proof.
  unfold newStorageEnvForCoreContainer. set (more := if DeployManagedStorage cr then _ else _).
  assert (Hm : ∀ l, more = Ok l → refs l = []).
  { intros l'. unfold more. destruct (DeployManagedStorage cr); [apply refs_managed|].
    destruct (V2.spec_ObjectStorageOptions _) as [o|]; [|done]. destruct (V2.oso_Provider o); [|done]. apply refs_provider. }
  destruct more as [l'|]; [|done]. intros <-%Ok_inj. change (?a :: ?b :: ?c :: ?d :: l') with ([a; b; c; d] ++ l').
  rewrite refs_app, (Hm l') by done. done.
Qed.
Lemma refs_discovery cr : refs (newK8SDiscoveryEnvForCoreContainer cr) = [].
Proof.
  unfold newK8SDiscoveryEnvForCoreContainer. destruct (V2.spec_TargetDiscoveryOptions _) as [o|]; [|done].
  by destruct (V2.tdo_DisableBuiltInDiscovery o).
Qed.
Lemma refs_core cr specs tls l : newEnvForCoreContainer cr specs tls = Ok l →
  refs l = (getDatabaseSecret cr, DatabaseSecretConnectionKey) :: storage_refs (getStorageSecret cr).
Proof.
  unfold newEnvForCoreContainer. destruct (newStorageEnvForCoreContainer cr specs) as [st|] eqn:E; [|done].
  apply refs_storage in E. intros <-%Ok_inj.
  rewrite !refs_app, E, refs_discovery, !refs_pointer. unfold newReportsEnvForCoreContainer, newInsightsEnvForCoreContainer.
  rewrite !refs_pointer.
  replace (refs (newDatabaseEnvForCoreContainer cr tls)) with [(getDatabaseSecret cr, DatabaseSecretConnectionKey)]
    by by destruct tls.
  replace (refs (newTargetConnectionCacheEnvForCoreContainer cr)) with (@nil (string * string))
    by (unfold newTargetConnectionCacheEnvForCoreContainer; by destruct (V2.spec_TargetConnectionCacheOptions _)).
  replace (refs (newGrafanaEnvForCoreContainer specs)) with (@nil (string * string))
    by (unfold newGrafanaEnvForCoreContainer; by destruct (sps_AuthProxyURL specs)).
  replace (refs (newAgentEnvForCoreContainer cr)) with (@nil (string * string))
    by (unfold newAgentEnvForCoreContainer; destruct (V2.spec_AgentOptions _) as [o|]; [|done];
        by destruct (V2.ago_DisableHostnameVerification o), (V2.ago_AllowInsecure o)).
  by destruct tls.
Qed.

(** The secret keys that the containers of the pod read, and the secrets whose keys all
    become variables. *)
Definition pod_refs (p : PodSpec) : list (string * string) := concat (map (λ c, refs (ct_Env c)) (ps_Containers p)).
Definition pod_from (p : PodSpec) : list string :=
  concat (map (λ c, concat (map from_ref (ct_EnvFrom c))) (ps_Containers p)).
Lemma core_pod_refs `{QuantityOps} cr specs tags tls fsGroup openshift core :
  NewPodForCR cr specs tags tls fsGroup openshift = Ok core →
  pod_refs core = (getDatabaseSecret cr, DatabaseSecretConnectionKey) :: storage_refs (getStorageSecret cr) ∧
  pod_from core = [ci_Name cr +:+ "-oauth2-cookie"].
Proof.
  intros (auth & c & Ha & Hc & _ & _ & Hp)%core_pod. apply core_container in Hc as (He & _ & _ & _ & Hfrom).
  unfold pod_refs, pod_from. rewrite Hp. cbn [map concat]. apply refs_core in He. rewrite He.
  assert (Hauth : refs (ct_Env auth) = [] ∧ concat (map from_ref (ct_EnvFrom auth)) = [ci_Name cr +:+ "-oauth2-cookie"]).
  { unfold NewAuthProxyContainer, NewOpenShiftAuthProxyContainer, NewOAuth2ProxyContainer in Ha.
    destruct openshift; apply Ok_inj in Ha as <-; [done|]. cbn. unfold oauth2_proxy_env.
    by destruct (isBasicAuthEnabled cr). }
  destruct Hauth as [-> Hauth]. rewrite Hauth, Hfrom. split; [|done].
  replace (refs (ct_Env (NewJfrDatasourceContainer cr (it_DatasourceImageTag tags) specs tls))) with (@nil (string * string)).
  - done.
  - unfold NewJfrDatasourceContainer. destruct tls; [|done]. cbn. by destruct (DeployManagedStorage cr).
Qed.
Lemma database_pod_refs `{QuantityOps} cr tags tls openshift g :
  pod_refs (NewPodForDatabase cr tags tls openshift g) = database_refs (getDatabaseSecret cr) ∧
  pod_from (NewPodForDatabase cr tags tls openshift g) = [].
Proof. done. Qed.
Lemma storage_pod_refs `{QuantityOps} cr tags tls openshift g :
  pod_refs (NewPodForStorage cr tags tls openshift g) = [(ci_Name cr +:+ "-storage", storageSecretPassKey)] ∧
  pod_from (NewPodForStorage cr tags tls openshift g) = [].
Proof. done. Qed.
Lemma reports_pod_refs `{QuantityOps} cr tags specs tls openshift :
  pod_refs (NewPodForReports cr tags specs tls openshift) = [] ∧
  pod_from (NewPodForReports cr tags specs tls openshift) = [].
Proof. split; [|done]. unfold pod_refs. simpl. destruct tls, (DeployManagedStorage cr) eqn:E; unfold report_env; by rewrite ?E. Qed.

(** *** The secrets are there *)
Section secrets_there.
Context `{KubeLaws W} `{QuantityOps}.


Definition user_secrets_hold (cr : CryostatInstance) (w : W) : Prop :=
  (∀ name, providedDatabaseSecret cr = Some name → holds w (nn (ci_InstallNamespace cr) name) database_keys) ∧
  (∀ name, V2.spec_ObjectStorageOptions (ci_Spec cr) ≫= V2.oso_SecretName = Some name →
     holds w (nn (ci_InstallNamespace cr) name) storage_keys).
(** The generated secrets that already exist were generated whole. *)
Definition generated_whole (cr : CryostatInstance) (w : W) : Prop :=
  (∀ old, stored w KSecret (secret_key cr "-oauth2-cookie") = Some old → has_keys old cookie_keys) ∧
  (providedDatabaseSecret cr = None →
   ∀ old, stored w KSecret (secret_key cr "-db") = Some old → has_keys old database_keys).

(** C8. Once the secrets are reconciled, every key of a secret that a container of the four
    pods reads into its environment is there, and so is the secret whose keys all become
    variables, whether the secrets are generated or the user's.  The conditions: no
    generated secret is under deletion; the secrets that the user names hold the documented
    keys; and a cookie or database secret that was there before the pass already had its
    keys ([generated_whole]: the code writes them when it creates such a secret and never
    repairs one).  The last holds when there is no such secret yet, and again after every
    successful pass. *)
Theorem secret_keys_exist cr w cr' w' specs tags tls fsGroup openshift core :
  secrets_live cr w → generated_whole cr w → user_secrets_hold cr w →
  reconcileSecrets cr w = ((cr', Ok ()), w') →
  NewPodForCR cr specs tags tls fsGroup openshift = Ok core →
  Forall (λ p,
      Forall (λ r, holds w' (nn (ci_InstallNamespace cr) r.1) [r.2]) (pod_refs p) ∧
      Forall (λ name, holds w' (nn (ci_InstallNamespace cr) name) cookie_keys) (pod_from p))
    [core; NewPodForDatabase cr tags tls openshift fsGroup; NewPodForStorage cr tags tls openshift fsGroup;
     NewPodForReports cr tags specs tls openshift] ∧
  generated_whole cr w'.
Proof.
  intros Hl [Hc Hdb] [Hudb Hust] Hrun Hcore.
  apply reconcileSecrets_holds in Hrun as (Rc & Rdb & Rst & Rk); [|done..].
  split; [|by split; [|intros Hp]; apply holds_has_keys; [|apply Rdb]].
  assert (Hd : holds w' (nn (ci_InstallNamespace cr) (getDatabaseSecret cr)) database_keys).
  { unfold getDatabaseSecret. unfold providedDatabaseSecret in *.
    destruct (V2.spec_DatabaseOptions (ci_Spec cr) ≫= V2.dbo_SecretName) as [name|] eqn:E; [|by apply Rdb].
    apply Rk. by apply Hudb. }
  assert (Hs : holds w' (nn (ci_InstallNamespace cr) (getStorageSecret cr)) storage_keys).
  { unfold getStorageSecret. destruct (V2.spec_ObjectStorageOptions (ci_Spec cr) ≫= V2.oso_SecretName) as [name|] eqn:E;
      [|exact Rst]. apply Rk. by apply Hust. }
  assert (Hkey : ∀ n keys key, holds w' n keys → key ∈ keys → holds w' n [key]).
  { intros n keys key (s & Hst & Hk) Hin. exists s. split; [done|]. intros k ->%list_elem_of_singleton. by apply Hk. }
  apply core_pod_refs in Hcore as [Er Ef]. each.
  - rewrite Er, Ef. split; each; [..|exact Rc];
      (eapply Hkey; [eassumption|]); repeat first [left | right].
  - split; each;
      (eapply Hkey; [eassumption|]); repeat first [left | right].
  - destruct (storage_pod_refs cr tags tls openshift fsGroup) as [-> ->].
    split; each;
      (eapply Hkey; [exact Rst|]); repeat first [left | right].
  - destruct (reports_pod_refs cr tags specs tls openshift) as [-> ->]. split; apply Forall_nil; exact I.
Qed.
End secrets_there.

(** ** The services *)
Definition pod_ports (p : PodSpec) : list Z := concat (map (λ c, map cp_ContainerPort (ct_Ports c)) (ps_Containers p)).
(** The service [n] forwards every one of its ports to a port that a container of the pods
    of [d] listens on, and it selects those pods. *)
Definition reaches `{Kube W} (w : W) (n : NamespacedName) (d : Deployment) : Prop :=
  ∃ got, stored w KService n = Some got ∧
    gm_make (svs_Selector (svc_Spec got)) ≠ ∅ ∧
    (∀ k v, gm_make (svs_Selector (svc_Spec got)) !! k = Some v →
       gm_lookup (om_Labels (pts_meta (ds_Template (dep_Spec d)))) k = Some v) ∧
    svs_Ports (svc_Spec got) ≠ [] ∧
    Forall (λ p, sp_TargetPort p ∈ map IntVal (pod_ports (pts_Spec (ds_Template (dep_Spec d)))))
      (svs_Ports (svc_Spec got)).

Section services_reach.
Context `{KubeLaws W} `{QuantityOps}.
Lemma component_service_reaches svc cr config component port name target protocol w svc' w' d :
  quiet w KService (key KService svc) → target ≠ 0 →
  createOrUpdateService svc (ci_Object cr) config
    (select_component cr component [NewServicePort name port target protocol]) w = ((svc', Ok ()), w') →
  (∀ k v, gm_lookup (Some (component_labels cr component)) k = Some v →
     gm_lookup (om_Labels (pts_meta (ds_Template (dep_Spec d)))) k = Some v) →
  target ∈ pod_ports (pts_Spec (ds_Template (dep_Spec d))) →
  reaches w' (key KService svc) d.
Proof.
  intros Hq Hz Hrun Hd Hp.
  pose proof (component_service_ok _ _ _ _ _ _ _ _ Hq Hrun) as ((got & Hgot & Hs & Hl & _) & _).
  apply component_service_targets in Hrun as (got' & Hgot' & Ht); [|done|each; by eexists].
  rewrite Hgot in Hgot'. injection Hgot' as <-. exists got. split; [done|]. split; [done|].
  split; [intros k v Hk; by apply Hd, Hl|].
  destruct (svs_Ports (svc_Spec got)) as [|p [|]]; try done. injection Ht as Ht. split; [done|]. each.
  rewrite Ht. apply list_elem_of_fmap. by exists target.
Qed.
Lemma core_pod_ports cr specs tags tls fsGroup openshift core :
  NewPodForCR cr specs tags tls fsGroup openshift = Ok core →
  pod_ports core = [CryostatHTTPContainerPort; GrafanaContainerPort; DatasourceContainerPort;
                    AuthProxyHttpContainerPort; AgentProxyContainerPort; AgentProxyHealthPort].
Proof.
  intros (auth & c & (_ & _ & Ha)%auth_container & (_ & _ & _ & Hc & _)%core_container & _ & _ & Hp)%core_pod.
  unfold pod_ports. rewrite Hp. cbn [map concat]. by rewrite Ha, Hc.
Qed.
Lemma side_pod_ports cr specs tags tls fsGroup openshift :
  pod_ports (NewPodForDatabase cr tags tls openshift fsGroup) = [DatabasePort] ∧
  pod_ports (NewPodForStorage cr tags tls openshift fsGroup) = [StoragePort] ∧
  pod_ports (NewPodForReports cr tags specs tls openshift) = [ReportsContainerPort].
Proof. done. Qed.
(** The route or the ingress leaves the service alone. *)
Lemma reconcileCoreService_service r cr tls specs w cr' q w' :
  reconcileCoreService r cr tls specs w = ((cr', Ok q), w') →
  ∃ svc w1, createOrUpdateService (core_service cr) (ci_Object cr) (configureCoreService cr).2
      (select_component cr "cryostat" [NewServicePort HttpPortName (configureCoreService cr).1 AuthProxyHttpContainerPort
        (Some (match tls with Some _ => HttpsPortName | None => HttpPortName end))]) w = ((svc, Ok ()), w1) ∧
    ∀ n, stored w' KService n = stored w1 KService n.
Proof.
  unfold reconcileCoreService. destruct (configureCoreService cr) as [port config].
  intros ([svc [[]|e]] & w1 & Hc & Hrun)%mbindM_inv; [|ret_inv Hrun]. exists svc, w1. split; [done|]. intros n.
  assert (Ht : touches (λ k _, k = KRoute ∨ k = KIngress)
    (if r_IsOpenShift r then reconcileCoreRoute svc cr tls specs else reconcileCoreIngress cr specs)).
  { destruct (r_IsOpenShift r); [apply touches_reconcileCoreRoute|apply touches_reconcileCoreIngress]; auto. }
  apply (same_except_out _ _ _ _ _ (Ht _ _ _ Hrun)). by intros [[=]|[=]].
Qed.

(** C9. The services lead to the applications: after a successful pass, each service the
    operator keeps for a Cryostat (the main one, the agents' gateway, the database, the
    managed storage, the reports generator) selects the pods of the deployment that the same
    CR gives for that component, and forwards every one of its ports to a port that one of
    their containers listens on, whatever port numbers the user asked for.  The services
    were not held by finalizers or under deletion when the pass started. *)
Theorem services_reach_pods r cr specs tags tls fsGroup openshift core
    w1 cr1 q1 w1' w2 w2' w3 q3 w3' w4 q4 w4' w5 q5 w5' :
  let at_ suffix := nn (ci_InstallNamespace cr) (ci_Name cr +:+ suffix) in
  NewDeploymentForCR cr specs tags tls fsGroup openshift = Ok core →
  quiet w1 KService (nn (ci_InstallNamespace cr) (ci_Name cr)) → quiet w2 KService (at_ "-agent") →
  quiet w3 KService (at_ "-database") → quiet w4 KService (at_ "-storage") → quiet w5 KService (at_ "-reports") →
  reconcileCoreService r cr tls specs w1 = ((cr1, Ok q1), w1') →
  reconcileAgentGatewayService cr w2 = (Ok (), w2') →
  reconcileDatabaseService cr specs w3 = (Ok q3, w3') →
  reconcileStorageService cr tls specs w4 = (Ok q4, w4') →
  reconcileReportsService cr tls specs w5 = (Ok q5, w5') →
  reaches w1' (nn (ci_InstallNamespace cr) (ci_Name cr)) core ∧
  reaches w2' (at_ "-agent") core ∧
  reaches w3' (at_ "-database") (NewDeploymentForDatabase cr tags tls openshift fsGroup) ∧
  (DeployManagedStorage cr = true → reaches w4' (at_ "-storage") (NewDeploymentForStorage cr tags tls openshift fsGroup)) ∧
  (∀ o, V2.spec_ReportOptions (ci_Spec cr) = Some o → V2.rpc_Replicas o ≠ 0 →
     reaches w5' (at_ "-reports") (NewDeploymentForReports cr tags specs tls openshift)).
Proof.
  intros at_ Hcore Q1 Q2 Q3 Q4 Q5 R1 R2 R3 R4 R5.
  unfold NewDeploymentForCR in Hcore. destruct (NewPodForCR _ _ _ _ _ _) as [pod|e] eqn:Ep; [|done].
  apply core_pod_ports in Ep. cbn [rbind] in Hcore. apply Ok_inj in Hcore as <-.
  assert (Hlabels : ∀ name component a b p rep st k v, gm_lookup (Some (component_labels cr component)) k = Some v →
    gm_lookup (om_Labels (pts_meta (ds_Template (dep_Spec
      (deployment_around cr name component a b (Some (component_labels cr component)) p rep st))))) k = Some v).
  { intros. by apply (deployment_around_selected cr name component a b p rep st). }
  destruct (side_pod_ports cr specs tags tls fsGroup openshift) as (Pd & Ps & Pr).
  unfold NewDeploymentForDatabase, NewDeploymentForStorage, NewDeploymentForReports.
  split_and!.
  - apply reconcileCoreService_service in R1 as (svc & w & R1 & E).
    eapply (component_service_reaches (core_service cr)) in R1; [|exact Q1|done|by apply Hlabels|].
    + destruct R1 as (got & Hgot & Hrest). exists got. split; [|exact Hrest]. rewrite E. exact Hgot.
    + simpl. rewrite Ep. by do 3 right; left.
  - unfold reconcileAgentGatewayService in R2. destruct (configureAgentGatewayService cr) as [port config].
    apply mbindM_inv in R2 as ([svc q] & w & R2 & Hrun). ret_inv Hrun.
    eapply (component_service_reaches (newAgentService cr)) in R2; [exact R2|exact Q2|done|by apply Hlabels|].
    simpl. rewrite Ep. by do 4 right; left.
  - unfold reconcileDatabaseService in R3. destruct (configureDatabaseService cr) as [port config].
    apply mbindM_inv in R3 as ([svc [[]|e]] & w & R3 & Hrun); ret_inv Hrun.
    eapply (component_service_reaches (database_service cr)) in R3; [exact R3|exact Q3|done|by apply Hlabels|].
    change (pod_ports (pts_Spec _)) with (pod_ports (NewPodForDatabase cr tags tls openshift fsGroup)). rewrite Pd. by left.
  - intros Hm. unfold reconcileStorageService in R4. destruct (configureStorageService cr) as [port config].
    rewrite Hm in R4. simpl in R4. apply mbindM_inv in R4 as ([svc [[]|e]] & w & R4 & Hrun); [|ret_inv Hrun].
    assert (w4' = w) as -> by (destruct (rbind _ _) in Hrun; by inversion Hrun).
    eapply (component_service_reaches (storage_service cr)) in R4; [exact R4|exact Q4|done|by apply Hlabels|].
    change (pod_ports (pts_Spec _)) with (pod_ports (NewPodForStorage cr tags tls openshift fsGroup)). rewrite Ps. by left.
  - intros o Ho Hr. unfold reconcileReportsService in R5. destruct (configureReportsService cr) as [port config].
    rewrite Ho in R5. rewrite (proj2 (Z.eqb_neq _ _) Hr) in R5.
    apply mbindM_inv in R5 as ([svc [[]|e]] & w & R5 & Hrun); ret_inv Hrun.
    eapply (component_service_reaches (reports_service cr)) in R5; [exact R5|exact Q5|done|by apply Hlabels|].
    change (pod_ports (pts_Spec _)) with (pod_ports (NewPodForReports cr tags specs tls openshift)). rewrite Pr. by left.
Qed.
End services_reach.

(** ** Security *)

(** C39. Restricted by default: when the user sets no security context, the four pods run
    as non-root with the runtime's seccomp profile (left to the platform on OpenShift), and
    every one of their containers drops all capabilities and cannot escalate privileges. *)
Theorem pods_restricted `{QuantityOps} cr specs tags tls fsGroup openshift core :
  V2.spec_SecurityOptions (ci_Spec cr) = None → report_security cr = None →
  NewPodForCR cr specs tags tls fsGroup openshift = Ok core →
  Forall (λ p,
      (∃ sc, ps_SecurityContext p = Some sc ∧ psc_RunAsNonRoot sc = Some true ∧
             psc_SeccompProfile sc = if openshift then None else Some "RuntimeDefault") ∧
      Forall (λ c, ∃ sc, ct_SecurityContext c = Some sc ∧ sc_AllowPrivilegeEscalation sc = Some false ∧
                         sc_Drop sc = Some ["ALL"]) (ps_Containers p))
    [core; NewPodForDatabase cr tags tls openshift fsGroup; NewPodForStorage cr tags tls openshift fsGroup;
     NewPodForReports cr tags specs tls openshift].
Proof.
  intros Hs Hr Hcore.
  assert (Hc : ∀ field, ∃ sc, container_SecurityContext field cr = Some sc ∧ sc_AllowPrivilegeEscalation sc = Some false ∧
    sc_Drop sc = Some ["ALL"]) by (intros field; unfold container_SecurityContext; rewrite Hs; by eexists).
  assert (Hp : ∃ sc, pod_SecurityContext cr openshift fsGroup = Some sc ∧ psc_RunAsNonRoot sc = Some true ∧
    psc_SeccompProfile sc = if openshift then None else Some "RuntimeDefault")
    by (unfold pod_SecurityContext; rewrite Hs; by eexists).
  apply core_pod in Hcore as (auth & c & (_ & Ha & _)%auth_container & (_ & _ & Hk & _)%core_container & _ & Hsc & Hcs).
  each.
  - rewrite Hsc, Hcs. split; [exact Hp|]. each; rewrite ?Ha, ?Hk; apply Hc.
  - split; [exact Hp|]. each. apply Hc.
  - split; [exact Hp|]. each. apply Hc.
  - unfold NewPodForReports, scheduled_pod, reports_container. simpl. rewrite Hr.
    split; [|each]; eexists; (split; [reflexivity|]); split; reflexivity.
Qed.

(** ** Where two parts disagree *)

(** The sample with other options. *)
Definition sample_with (f : V2.CryostatSpec → V2.CryostatSpec) : CryostatInstance :=
  sample_cr <| ci_Object ::= λ o, o <| V2.cr_Spec ::= f |> |>.

(** The port of the database service is the user's, the address the core connects to always
    names port 5432. *)
Definition other_port_cr : CryostatInstance := sample_with (λ s, s <| V2.spec_ServiceOptions := Some {|
  V2.scl_CoreConfig := None; V2.scl_ReportsConfig := None;
  V2.scl_DatabaseConfig := Some {| V2.dsc_DatabasePort := Some 5433; V2.dsc_Service := V2.zero_ServiceConfig |};
  V2.scl_StorageConfig := None; V2.scl_AgentGatewayConfig := None; V2.scl_AgentCallbackConfig := None |} |>).
Lemma database_url_ignores_port :
  (configureDatabaseService other_port_cr).1 = 5433 ∧
  env_value "QUARKUS_DATASOURCE_JDBC_URL" (newDatabaseEnvForCoreContainer other_port_cr None) =
    Some "jdbc:postgresql://cryostat-database.ns.svc.cluster.local:5432/cryostat".
Proof. vm_compute. split; reflexivity. Qed.
(** With a secret of the user's and the managed storage, the core signs its requests with
    the user's key, the storage checks them with the generated one. *)
Definition own_secret_cr : CryostatInstance := sample_with (λ s, s <| V2.spec_ObjectStorageOptions := Some {|
  V2.oso_SecretName := Some "mine"; V2.oso_Provider := None; V2.oso_StorageBucketNameOptions := None |} |>).
Lemma managed_storage_keys_differ :
  DeployManagedStorage own_secret_cr = true ∧
  (ok? p := NewPodForCR own_secret_cr sample_specs sample_ImageTags None 1 false in Ok (pod_refs p)) =
    Ok (("cryostat-db", "CONNECTION_KEY") :: storage_refs "mine") ∧
  pod_refs (NewPodForStorage own_secret_cr sample_ImageTags None false 1) = [("cryostat-storage", "SECRET_KEY")].
Proof. vm_compute. repeat split; reflexivity. Qed.
(** Two event templates of one config map give two volumes of the same name. *)
Definition two_templates_cr : CryostatInstance := sample_with (λ s, s <| V2.spec_EventTemplates := Some
  [{| V2.tcm_ConfigMapName := "t"; V2.tcm_Filename := "a.jfc" |};
   {| V2.tcm_ConfigMapName := "t"; V2.tcm_Filename := "b.jfc" |}] |>).
Lemma volume_names_collide : ¬ NoDup (map vol_Name (core_volumes two_templates_cr None false)).
Proof. apply (bool_decide_unpack _). vm_compute. exact I. Qed.
(** A limit on memory alone leaves the reports generator with no processor. *)
Definition memory_limit_cr : CryostatInstance := sample_with (λ s, s <| V2.spec_ReportOptions := Some {|
  V2.rpc_Replicas := 1; V2.rpc_SubProcessMaxHeapSize := 0; V2.rpc_SecurityOptions := None; V2.rpc_SchedulingOptions := None;
  V2.rpc_Resources := {| rr_Limits := Some (gm_of_list [(ResourceMemory, resource_MustParse "1Gi")]);
                         rr_Requests := None; rr_rest := [] |} |} |>).
Lemma no_processor_without_limit : report_cpus memory_limit_cr = 0.
Proof. vm_compute. reflexivity. Qed.

(** ** Witnesses *)
Definition discovery_cr : CryostatInstance := sample_with (λ s, s <| V2.spec_TargetDiscoveryOptions := Some {|
  V2.tdo_DisableBuiltInDiscovery := false; V2.tdo_DisableBuiltInPortNames := true; V2.tdo_DiscoveryPortNames := ["jmx"; "rmi"];
  V2.tdo_DisableBuiltInPortNumbers := false; V2.tdo_DiscoveryPortNumbers := [9091; 9999] |} |>).
Lemma discovery_roundtrip_witness :
  comma_list (discovery_variable discovery_cr "PORT_NUMBERS") = Some ["9091"; "9999"].
Proof.
  destruct (discovery_roundtrip discovery_cr) as (_ & _ & _ & Hn).
  - repeat (apply Forall_cons; split); try apply Forall_nil; try exact I;
      (split; [discriminate|apply (bool_decide_unpack _); vm_compute; exact I]).
  - repeat (apply Forall_cons; split); try apply Forall_nil; try exact I;
      (split; [discriminate|apply (bool_decide_unpack _); vm_compute; exact I]).
  - rewrite Hn. vm_compute. reflexivity.
Defined.
(** The sample's pod. *)
Definition sample_pod : PodSpec :=
  match NewPodForCR sample_cr sample_specs sample_ImageTags None 1 false with
  | Ok p => p | Err _ => NewPodForDatabase sample_cr sample_ImageTags None false 1 end.
Lemma sample_pod_Ok : NewPodForCR sample_cr sample_specs sample_ImageTags None 1 false = Ok sample_pod.
Proof. reflexivity. Qed.
Lemma secret_keys_exist_witness :
  let w' := (reconcileSecrets sample_cr fk_sample).2 in
  holds w' (nn "ns" "cryostat-db") ["CONNECTION_KEY"] ∧ holds w' (nn "ns" "cryostat-oauth2-cookie") cookie_keys.
Proof.
  intros w'. assert (Hw : (reconcileSecrets sample_cr fk_sample).1.2 = Ok ()) by (vm_compute; reflexivity).
  pose proof (secret_keys_exist sample_cr fk_sample (reconcileSecrets sample_cr fk_sample).1.1 w' sample_specs sample_ImageTags None 1 false sample_pod) as Hall.
  destruct (Forall_inv (proj1 (Hall ltac:(intros s old _ Ho; discriminate Ho)
    ltac:(split; [intros old Ho; discriminate Ho|intros _ old Ho; discriminate Ho])
    ltac:(split; intros name Ho; discriminate Ho) (run_snd_snd _ _ _ Hw) sample_pod_Ok))) as [Hr Hf].
  split; [exact (Forall_inv Hr)|exact (Forall_inv Hf)].
Defined.
Lemma services_reach_pods_witness :
  reaches (reconcileDatabaseService sample_cr sample_specs fk_sample).2 (nn "ns" "cryostat-database")
    (NewDeploymentForDatabase sample_cr sample_ImageTags None false 1).
Proof.
  assert (Hq : ∀ n, quiet fk_sample KService n) by (intros n old Ho; discriminate Ho).
  refine (proj1 (proj2 (proj2 (services_reach_pods sample_r sample_cr sample_specs sample_ImageTags None 1 false _
    fk_sample _ _ _ fk_sample _ fk_sample _ _ fk_sample _ _ fk_sample _ _ _ (Hq _) (Hq _) (Hq _) (Hq _) (Hq _)
    (run_snd_snd _ _ _ _) (run_snd _ _ _ _) (run_snd _ _ _ _) (run_snd _ _ _ _) (run_snd _ _ _ _)))));
    vm_compute; reflexivity.
Defined.
Lemma pods_restricted_witness :
  Forall (λ c, ∃ sc, ct_SecurityContext c = Some sc ∧ sc_AllowPrivilegeEscalation sc = Some false ∧
                     sc_Drop sc = Some ["ALL"]) (ps_Containers sample_pod).
Proof.
  exact (proj2 (Forall_inv (pods_restricted sample_cr sample_specs sample_ImageTags None 1 false sample_pod
    eq_refl eq_refl sample_pod_Ok))).
Defined.
