(* ===== verification/AgentWebhook.v ===== *)
(** * The agent webhooks

    [internal/webhook/agent]: the mutation of a labelled pod that injects the Cryostat
    agent ([pod_defaulter.go], [webhook_utils.go]), the one of a deployment that hands its
    labels to its pods ([deployment_defaulter.go]), and the wrapper that admits everything
    ([webhooks.go]).  A pointer into a slice of the pod is an index of that slice; a
    function that changes the pod returns the changed pod next to its error. *)

From S2P Require Export Containers Duration.
From S2P Require Import FakeClient.
From Stdlib Require Import Ascii.
Open Scope Z_scope.

Class AdmissionLibs := { metav1_HasLabel : ObjectMeta → string → bool }.
Class AdmissionLaws `{AdmissionLibs} := {
  HasLabel_spec m k : metav1_HasLabel m k = bool_decide (is_Some (gm_lookup (om_Labels m) k)) }.

(** ** Constants *)
Definition agentArg : string := "-javaagent:" +:+ AgentJarPath.
Definition agentLogLevelProp : string := "io.cryostat.agent.shaded.org.slf4j.simpleLogger.defaultLogLevel".
Definition podNameEnvVar : string := "CRYOSTAT_AGENT_POD_NAME".
Definition podIPEnvVar : string := "CRYOSTAT_AGENT_POD_IP".
Definition agentMaxSizeBytes : string := "50Mi".
Definition agentInitCpuRequest : string := "10m".
Definition agentInitMemoryRequest : string := "32Mi".
Definition agentInitCpuLimit : string := "20m".
Definition agentInitMemoryLimit : string := "64Mi".
Definition defaultLogLevel : string := "off".
Definition defaultJavaOptsVar : string := "JAVA_TOOL_OPTIONS".
Definition defaultSmartTriggersMount : string := AgentEmptyDirBasePath +:+ "/smart-triggers".
Definition defaultHarvesterExitMaxAge : Z := 30000.
Definition kib : Z := 1024.
Definition mib : Z := 1024 * kib.
Definition defaultHarvesterExitMaxSize : Z := 20 * mib.
Definition agentInitImageTagEnv : string := "RELATED_IMAGE_AGENT_INIT".
Definition DefaultAgentInitImageTag : string := "quay.io/cryostat/cryostat-agent-init:latest".

(** ** Labels *)

Definition invalid_label {A} (label : string) (r : res A) : res A :=
  match r with
  | Ok a => Ok a
  | Err e => Err (Errorf ("invalid label value for " +:+ quoted +:+ ": %s") [label; err_Error e])
  end.

Definition getAgentGatewayHTTPPort (cr : CryostatInstance) : Z :=
  default AgentProxyContainerPort
    ((V2.spec_ServiceOptions (ci_Spec cr) ≫= V2.scl_AgentGatewayConfig) ≫= V2.agc_HTTPPort).
Definition cryostatURL (cr : CryostatInstance) (tls : bool) : string :=
  (if tls then "https" else "http") +:+ "://" +:+ AgentGatewayServiceName cr +:+ "." +:+ ci_InstallNamespace cr +:+
  ".svc:" +:+ strconv.Itoa (getAgentGatewayHTTPPort cr).

Definition getAgentCallbackPort (labels : gomap string) : res Z :=
  match gm_lookup labels AgentLabelCallbackPort with
  | None => Ok AgentCallbackContainerPort
  | Some port => ok? parsed := invalid_label AgentLabelCallbackPort (strconv.ParseInt10 32 port) in Ok (to_int32 parsed)
  end.
Definition hasWriteAccess (labels : gomap string) : res bool :=
  match gm_lookup labels AgentLabelReadOnly with
  | None => Ok true
  | Some value => ok? parsed := invalid_label AgentLabelReadOnly (strconv.ParseBool value) in Ok (negb parsed)
  end.
Definition getLogLevel (labels : gomap string) : string := default defaultLogLevel (gm_lookup labels AgentLabelLogLevel).
Definition getJavaOptionsVar (labels : gomap string) : string :=
  default defaultJavaOptsVar (gm_lookup labels AgentLabelJavaOptionsVar).
Definition getHarvesterTemplate (labels : gomap string) : string := default "" (gm_lookup labels AgentLabelHarvesterTemplate).
Definition getSmartTriggersConfigMapNames (labels : gomap string) : list string :=
  strings.Split (default "" (gm_lookup labels AgentLabelSmartTriggersConfigMaps)) ",".
(** [int32(parsed.Milliseconds())] *)
Definition millis (d : Z) : Z := to_int32 (time.Milliseconds d).
Definition getHarvesterExitMaxAge (labels : gomap string) : res Z :=
  match gm_lookup labels AgentLabelHarvesterExitMaxAge with
  | None => Ok defaultHarvesterExitMaxAge
  | Some age => ok? parsed := invalid_label AgentLabelHarvesterExitMaxAge (time.ParseDuration age) in Ok (millis parsed)
  end.
Definition getHarvesterExitMaxSize `{QuantityOps} (labels : gomap string) : res Z :=
  match gm_lookup labels AgentLabelHarvesterExitMaxSize with
  | None => Ok defaultHarvesterExitMaxSize
  | Some size =>
      ok? parsed := invalid_label AgentLabelHarvesterExitMaxSize (resource_ParseQuantity size) in
      Ok (to_int32 (Quantity_Value parsed))
  end.
Definition getHarvesterPeriod (labels : gomap string) : res (option Z) :=
  match gm_lookup labels AgentLabelHarvesterPeriod with
  | None => Ok None
  | Some period => ok? parsed := invalid_label AgentLabelHarvesterPeriod (time.ParseDuration period) in Ok (Some (millis parsed))
  end.
Definition getHarvesterMaxFiles (labels : gomap string) : res (option Z) :=
  match gm_lookup labels AgentLabelHarvesterMaxFiles with
  | None => Ok None
  | Some maxFiles =>
      ok? parsed := invalid_label AgentLabelHarvesterMaxFiles (strconv.ParseInt10 32 maxFiles) in
      if parsed <=? 0
      then Err (Errorf ("invalid label value for " +:+ quoted +:+ ": must be positive") [AgentLabelHarvesterMaxFiles])
      else Ok (Some (to_int32 parsed))
  end.

(** ** Containers and variables *)
Definition getResourceRequirements `{QuantityOps} (cr : CryostatInstance) : ResourceRequirements :=
  PopulateResourceRequest
    (match V2.spec_AgentOptions (ci_Spec cr) with Some o => V2.ago_Resources o | None => zero_ResourceRequirements end)
    agentInitCpuRequest agentInitMemoryRequest agentInitCpuLimit agentInitMemoryLimit.

(** The index of the container. *)
Fixpoint findNamedContainer (containers : list Container) (name : string) : res nat :=
  match containers with
  | [] => Err (Errorf ("no container found with name " +:+ quoted) [name])
  | c :: cs => if bool_decide (ct_Name c = name) then Ok O
               else ok? i := findNamedContainer cs name in Ok (S i)
  end.
Definition getTargetContainer (pod : Pod) : res nat :=
  match ps_Containers (pod_Spec pod) with
  | [] => Err (Errorf "pod has no containers" [])
  | containers =>
      match gm_lookup (om_Labels (pod_meta pod)) AgentLabelContainer with
      | None => Ok O
      | Some label => findNamedContainer containers label
      end
  end.

(** The index of the variable, if there is one. *)
Fixpoint findJavaOptsVar (envs : list EnvVar) (javaOptsVar : string) : res (option nat) :=
  match envs with
  | [] => Ok None
  | env :: envs =>
      if bool_decide (env_Name env = javaOptsVar) then
        if bool_decide (env_ValueFrom env = None) then Ok (Some O)
        else Err (Errorf ("environment variable %s uses " +:+ dquote +:+ "valueFrom" +:+ dquote +:+ " and cannot be extended") [javaOptsVar])
      else ok? i := findJavaOptsVar envs javaOptsVar in Ok (S <?> i)
  end.
Definition agentArgLine (logLevel : string) : string := agentArg +:+ "=" +:+ agentLogLevelProp +:+ "=" +:+ logLevel.
Definition extendJavaOptsVar (envs : list EnvVar) (javaOptsVar logLevel : string) : res (list EnvVar) :=
  ok? existing := findJavaOptsVar envs javaOptsVar in
  Ok (match existing with
      | Some i => alter (λ v, v <| env_Value ::= λ s, s +:+ " " +:+ agentArgLine logLevel |>) i envs
      | None => envs ++ [Env javaOptsVar (agentArgLine logLevel)]
      end).

(** ** The pod mutator *)
Record AgentWebhookConfig := { awc_InitImageTag : option string; awc_FIPSEnabled : bool }.

(** A change of the target container. *)
Definition on_container (i : nat) (f : Container → Container) (pod : Pod) : Pod :=
  pod <| pod_Spec ::= λ s, s <| ps_Containers ::= alter f i |> |>.
Definition add_env (l : list EnvVar) (c : Container) : Container := c <| ct_Env ::= λ e, e ++ l |>.
Definition add_mounts (l : list VolumeMount) (c : Container) : Container := c <| ct_VolumeMounts ::= λ m, m ++ l |>.
Definition add_volumes (l : list Volume) (pod : Pod) : Pod :=
  pod <| pod_Spec ::= λ s, s <| ps_Volumes ::= λ v, v ++ l |> |>.

(** What the labels of the pod ask for. *)
Record AgentOptions := {
  ao_port : Z; ao_write : bool; ao_harvesterTemplate : string; ao_harvesterPeriod : option Z;
  ao_harvesterMaxFiles : option Z; ao_harvesterExitMaxAge : Z; ao_harvesterExitMaxSize : Z }.

Definition agentTLSPath : string := "/var/run/secrets/io.cryostat/cryostat-agent".

Section mutators.
Context `{Kube W} `{QuantityOps} `{AdmissionLibs}.

Definition agentOptions (labels : gomap string) : res AgentOptions :=
  ok? port := getAgentCallbackPort labels in
  ok? write := hasWriteAccess labels in
  ok? period := getHarvesterPeriod labels in
  ok? maxFiles := getHarvesterMaxFiles labels in
  ok? maxAge := getHarvesterExitMaxAge labels in
  ok? maxSize := getHarvesterExitMaxSize labels in
  Ok {| ao_port := port; ao_write := write; ao_harvesterTemplate := getHarvesterTemplate labels;
        ao_harvesterPeriod := period; ao_harvesterMaxFiles := maxFiles;
        ao_harvesterExitMaxAge := maxAge; ao_harvesterExitMaxSize := maxSize |}.

(** The image is looked up once and kept in the shared configuration. *)
Definition getImageTag (config : AgentWebhookConfig) : AgentWebhookConfig * string :=
  match awc_InitImageTag config with
  | Some tag => (config, tag)
  | None =>
      let agentInitImage := GetEnvOrDefault agentInitImageTagEnv DefaultAgentInitImageTag in
      (config <| awc_InitImageTag := Some agentInitImage |>, agentInitImage)
  end.

Definition init_container (cr : CryostatInstance) (imageTag : string) : Container :=
  (NewContainer "cryostat-agent-init" imageTag (GetPullPolicy imageTag))
    <| ct_Command := ["cp"; "-v"; "/cryostat/agent/cryostat-agent-shaded.jar"; AgentJarPath] |>
    <| ct_VolumeMounts := [{| vm_Name := "cryostat-agent-init"; vm_MountPath := AgentEmptyDirBasePath;
                              vm_SubPath := ""; vm_ReadOnly := false |}] |>
    <| ct_SecurityContext := Some {| sc_AllowPrivilegeEscalation := None; sc_RunAsNonRoot := Some true;
                                     sc_Drop := Some [CapabilityAll]; sc_rest := [] |} |>
    <| ct_Resources := getResourceRequirements cr |>.
Definition init_volume : Volume :=
  (NewVolume "cryostat-agent-init") <| vol_EmptyDir := Some {|
    ed_Medium := ""; ed_SizeLimit := Some (resource_MustParse agentMaxSizeBytes) |} |>.
Definition trigger_volume (triggerMap : string) : Volume :=
  (NewVolume ("trigger-" +:+ triggerMap)) <| vol_ConfigMap := Some {|
    cvo_Name := triggerMap; cvo_Items := []; cvo_DefaultMode := Some readOnlyMode |} |>.
Definition tls_volume (kind : string) (cr : CryostatInstance) (namespace : string) : Volume :=
  (NewVolume "cryostat-agent-tls") <| vol_Secret := Some {|
    svo_SecretName := AgentCertificateName kind cr namespace; svo_Items := [];
    svo_DefaultMode := Some readOnlyMode |} |>.

Definition callbackEnv (kind : string) (cr : CryostatInstance) (namespace : string) (tls : bool) (containerPort : Z)
  : list EnvVar :=
  let scheme := if tls then "https" else "http" in
  if match V2.spec_AgentOptions (ci_Spec cr) with Some o => V2.ago_DisableHostnameVerification o | None => false end then
    [Env "CRYOSTAT_AGENT_CALLBACK" (scheme +:+ "://$(" +:+ podIPEnvVar +:+ "):" +:+ strconv.Itoa containerPort)]
  else
    [Env "CRYOSTAT_AGENT_CALLBACK_SCHEME" scheme;
     Env "CRYOSTAT_AGENT_CALLBACK_HOST_NAME"
       ("$(" +:+ podNameEnvVar +:+ "), $(" +:+ podIPEnvVar +:+ ")[replace(" +:+ dquote +:+ "." +:+ dquote +:+ "\, " +:+
        dquote +:+ "-" +:+ dquote +:+ ")]");
     Env "CRYOSTAT_AGENT_CALLBACK_DOMAIN_NAME" (AgentCallbackServiceName kind cr +:+ "." +:+ namespace +:+ ".svc");
     Env "CRYOSTAT_AGENT_CALLBACK_PORT" (strconv.Itoa containerPort)].

Definition publish_env (cr : CryostatInstance) (namespace : string) (tlsEnabled : bool) (o : AgentOptions) : list EnvVar :=
  [Env "CRYOSTAT_AGENT_BASEURI" (cryostatURL cr tlsEnabled);
   EnvFromField podNameEnvVar "metadata.name";
   Env "CRYOSTAT_AGENT_APP_NAME" ("$(" +:+ podNameEnvVar +:+ ")");
   EnvFromField podIPEnvVar "status.podIP";
   Env "CRYOSTAT_AGENT_API_WRITES_ENABLED" (strconv.FormatBool (ao_write o));
   Env "CRYOSTAT_AGENT_WEBSERVER_PORT" (strconv.Itoa (ao_port o));
   Env "CRYOSTAT_AGENT_PUBLISH_FILL_STRATEGY" "KUBERNETES";
   Env "CRYOSTAT_AGENT_PUBLISH_CONTEXT_NAMESPACE" namespace;
   Env "CRYOSTAT_AGENT_PUBLISH_CONTEXT_NODETYPE" "Pod";
   Env "CRYOSTAT_AGENT_PUBLISH_CONTEXT_NAME" ("$(" +:+ podNameEnvVar +:+ ")")].
Definition harvester_env (o : AgentOptions) : list EnvVar :=
  if 0 <? len (ao_harvesterTemplate o) then
    [Env "CRYOSTAT_AGENT_HARVESTER_TEMPLATE" (ao_harvesterTemplate o)] ++
    env_of_pointer "CRYOSTAT_AGENT_HARVESTER_PERIOD_MS" (strconv.Itoa <?> ao_harvesterPeriod o) ++
    env_of_pointer "CRYOSTAT_AGENT_HARVESTER_MAX_FILES" (strconv.Itoa <?> ao_harvesterMaxFiles o) ++
    [Env "CRYOSTAT_AGENT_HARVESTER_EXIT_MAX_AGE_MS" (strconv.Itoa (ao_harvesterExitMaxAge o));
     Env "CRYOSTAT_AGENT_HARVESTER_EXIT_MAX_SIZE_B" (strconv.Itoa (ao_harvesterExitMaxSize o))]
  else [].
Definition tls_env : list EnvVar :=
  let file name := agentTLSPath +:+ "/" +:+ name in
  [Env "CRYOSTAT_AGENT_WEBCLIENT_TLS_CLIENT_AUTH_CERT_PATH" (file TLSCertKey);
   Env "CRYOSTAT_AGENT_WEBCLIENT_TLS_CLIENT_AUTH_KEY_PATH" (file TLSPrivateKeyKey);
   Env "CRYOSTAT_AGENT_WEBCLIENT_TLS_TRUSTSTORE_CERT_0__PATH" (file CAKey);
   Env "CRYOSTAT_AGENT_WEBCLIENT_TLS_TRUSTSTORE_CERT_0__TYPE" "X.509";
   Env "CRYOSTAT_AGENT_WEBCLIENT_TLS_TRUSTSTORE_CERT_0__ALIAS" "cryostat";
   Env "CRYOSTAT_AGENT_WEBSERVER_TLS_CERT_FILE" (file TLSCertKey);
   Env "CRYOSTAT_AGENT_WEBSERVER_TLS_CERT_TYPE" "X.509";
   Env "CRYOSTAT_AGENT_WEBSERVER_TLS_CERT_ALIAS" "cryostat";
   Env "CRYOSTAT_AGENT_WEBSERVER_TLS_KEY_PATH" (file TLSPrivateKeyKey);
   Env "CRYOSTAT_AGENT_WEBSERVER_TLS_KEY_TYPE" "RSA";
   Env "CRYOSTAT_AGENT_WEBSERVER_TLS_KEY_ALIAS" "cryostat"].
Definition fips_env (config : AgentWebhookConfig) : list EnvVar :=
  if awc_FIPSEnabled config then
    [Env "CRYOSTAT_AGENT_WEBCLIENT_TLS_VERSION" "TLSv1.3"; Env "CRYOSTAT_AGENT_WEBSERVER_TLS_VERSION" "TLSv1.3"]
  else [].

(** The volumes and the mounts of the smart triggers. *)
Definition add_triggers (i : nat) (pod : Pod) : Pod :=
  let labels := om_Labels (pod_meta pod) in
  if metav1_HasLabel (pod_meta pod) AgentLabelSmartTriggersConfigMaps then
    let pod := add_volumes (map trigger_volume (getSmartTriggersConfigMapNames labels)) pod in
    let pod := on_container i (add_mounts (map (λ triggerMap, ro_mount ("trigger-" +:+ triggerMap) defaultSmartTriggersMount)
                                              (getSmartTriggersConfigMapNames labels))) pod in
    on_container i (add_env [Env "CRYOSTAT_AGENT_SMART_TRIGGER_CONFIG_PATH" defaultSmartTriggersMount]) pod
  else pod.

(** Everything but the Java options. *)
Definition inject (kind : string) (config : AgentWebhookConfig) (imageTag : string) (cr : CryostatInstance)
    (tlsEnabled : bool) (i : nat) (o : AgentOptions) (pod : Pod) : Pod :=
  let namespace := om_Namespace (pod_meta pod) in
  let pod : Pod := pod <| pod_Spec ::= λ s, s <| ps_InitContainers ::= λ l, l ++ [init_container cr imageTag] |> |> in
  let pod := add_volumes [init_volume] pod in
  let pod := add_triggers i pod in
  let pod := on_container i (add_mounts [ro_mount "cryostat-agent-init" AgentEmptyDirBasePath]) pod in
  let pod := on_container i (add_env (publish_env cr namespace tlsEnabled o)) pod in
  let pod := on_container i (add_env (harvester_env o)) pod in
  let pod := on_container i (λ c, c <| ct_Ports ::= λ l, l ++
               [{| cp_Name := AgentCallbackPortName; cp_ContainerPort := ao_port o; cp_Protocol := "TCP" |}] |>) pod in
  let pod := on_container i (add_env (callbackEnv kind cr namespace tlsEnabled (ao_port o))) pod in
  let pod :=
    if tlsEnabled then
      let pod := add_volumes [tls_volume kind cr namespace] pod in
      let pod := on_container i (add_mounts [ro_mount "cryostat-agent-tls" agentTLSPath]) pod in
      on_container i (add_env tls_env) pod
    else on_container i (add_env [Env "CRYOSTAT_AGENT_WEBCLIENT_TLS_REQUIRED" "false"]) pod in
  on_container i (add_env (fips_env config)) pod.

(** The Java options of the container. *)
Definition extend_java_opts (i : nat) (pod : Pod) : Pod * res () :=
  let labels := om_Labels (pod_meta pod) in
  let envs := match ps_Containers (pod_Spec pod) !! i with Some c => ct_Env c | None => [] end in
  match extendJavaOptsVar envs (getJavaOptionsVar labels) (getLogLevel labels) with
  | Err e => (pod, Err e)
  | Ok extended => (on_container i (λ c, c <| ct_Env := extended |>) pod, Ok ())
  end.

(** [podMutator.Default]: the configuration, the pod and the error it leaves. *)
Definition podMutator_Default (kind : string) (config : AgentWebhookConfig) (pod : Pod)
  : M W (AgentWebhookConfig * Pod * res ()) :=
  let labels := om_Labels (pod_meta pod) in
  let namespace := om_Namespace (pod_meta pod) in
  let fail e := mretM (config, pod, Err e) in
  if negb (metav1_HasLabel (pod_meta pod) AgentLabelCryostatName) ||
     negb (metav1_HasLabel (pod_meta pod) AgentLabelCryostatNamespace) then mretM (config, pod, Ok ())
  else
    let* got := client_Get KCryostat (nn (default "" (gm_lookup labels AgentLabelCryostatNamespace))
                                         (default "" (gm_lookup labels AgentLabelCryostatName))) in
    match got with
    | Err e => fail e
    | Ok cr =>
        if negb (slices.Contains (V2.st_TargetNamespaces (V2.cr_Status cr)) namespace) then
          fail (Errorf ("pod's namespace " +:+ quoted +:+ " is not a target namespace of Cryostat " +:+ quoted +:+ " in " +:+ quoted)
                  [namespace; om_Name (V2.cr_meta cr); om_Namespace (V2.cr_meta cr)])
        else
          let crModel := FromCryostat cr in
          let tlsEnabled := IsCertManagerEnabled crModel in
          match getTargetContainer pod with
          | Err e => fail e
          | Ok i =>
              match agentOptions labels with
              | Err e => fail e
              | Ok o =>
                  let '(config, imageTag) := getImageTag config in
                  let pod := inject kind config imageTag crModel tlsEnabled i o pod in
                  let '(pod, err) := extend_java_opts i pod in
                  mretM (config, pod, err)
              end
          end
    end.

(** ** The deployment mutator *)

(** [spec.Labels[key] = deployment.Labels[key]]; a nil map panics. *)
Definition copyLabelIfExists (spec : PodTemplateSpec) (deployment : Deployment) (key : string) : res PodTemplateSpec :=
  match gm_lookup (om_Labels (dep_meta deployment)) key with
  | None => Ok spec
  | Some v =>
      match om_Labels (pts_meta spec) with
      | None => Err (Panic "assignment to entry in nil map")
      | Some l => Ok (spec <| pts_meta ::= λ m, m <| om_Labels := Some (<[key := v]> l) |> |>)
      end
  end.
Fixpoint propagate (keys : list string) (deployment : Deployment) : Deployment * res () :=
  match keys with
  | [] => (deployment, Ok ())
  | label :: keys =>
      if strings.HasPrefix label AgentLabelPrefix then
        match copyLabelIfExists (ds_Template (dep_Spec deployment)) deployment label with
        | Err e => (deployment, Err e)
        | Ok template =>
            propagate keys (deployment <| dep_Spec ::= λ s, s <| ds_Template := template |> |>)
        end
      else propagate keys deployment
  end.
Definition checkLabels (labels : gomap string) : res () :=
  ok? _ := getAgentCallbackPort labels in
  ok? _ := hasWriteAccess labels in
  ok? _ := getHarvesterExitMaxAge labels in
  ok? _ := getHarvesterExitMaxSize labels in
  Ok ().
Definition deploymentMutator_Default (deployment : Deployment) : M W (Deployment * res ()) :=
  let labels := om_Labels (dep_meta deployment) in
  let namespace := om_Namespace (dep_meta deployment) in
  let* got := client_Get KCryostat (nn (default "" (gm_lookup labels AgentLabelCryostatNamespace))
                                       (default "" (gm_lookup labels AgentLabelCryostatName))) in
  match got with
  | Err e => mretM (deployment, Err e)
  | Ok cr =>
      if negb (slices.Contains (V2.st_TargetNamespaces (V2.cr_Status cr)) namespace) then
        mretM (deployment, Err (Errorf ("deployment's namespace " +:+ quoted +:+ " is not a target namespace of Cryostat " +:+ quoted +:+ " in " +:+ quoted)
                  [namespace; om_Name (V2.cr_meta cr); om_Namespace (V2.cr_meta cr)]))
      else
        match checkLabels labels with
        | Err e => mretM (deployment, Err e)
        | Ok _ =>
            let* entries := go_range (map_to_list (gm_make labels)) in
            mretM (propagate (map fst entries) deployment)
        end
  end.
End mutators.

(** ** The handlers *)
Section handlers.
Context {W Request Response : Type}.
(** [allowAllRequests]: the response of the handler, with [Allowed] set. *)
Definition allowAllRequests (set_allowed : Response → Response) (impl : Request → M W Response) (req : Request)
  : M W Response :=
  let* result := impl req in mretM (set_allowed result).
End handlers.

(** ** Lemmas *)
Lemma findNamedContainer_spec l name i : findNamedContainer l name = Ok i →
  ∃ c, l !! i = Some c ∧ ct_Name c = name ∧ ∀ j c', (j < i)%nat → l !! j = Some c' → ct_Name c' ≠ name.
Proof.
  revert i. induction l as [|c l IH]; intros i; simpl; [done|].
  case_bool_decide as Hn; [intros [= <-]; exists c; split_and!; [done..|lia]|].
  destruct (findNamedContainer l name) as [i'|e]; [|done]. intros [= <-].
  destruct (IH i' eq_refl) as (c' & Hc & Hname & Hmin). exists c'. split_and!; [done..|].
  intros [|j] c'' Hj Hl; [by injection Hl as <-|]. eapply Hmin; [|exact Hl]. lia.
Qed.
(** The container the label names, or the first. *)
Lemma getTargetContainer_spec pod i : getTargetContainer pod = Ok i →
  ∃ c, ps_Containers (pod_Spec pod) !! i = Some c ∧
    match gm_lookup (om_Labels (pod_meta pod)) AgentLabelContainer with
    | Some name => ct_Name c = name | None => i = O end.
Proof.
  unfold getTargetContainer. destruct (ps_Containers (pod_Spec pod)) as [|c l] eqn:E; [done|].
  destruct (gm_lookup _ _) as [name|]; [|intros [= <-]; by exists c].
  intros (c' & Hc & Hn & _)%findNamedContainer_spec. by exists c'.
Qed.
Definition var_names (l : list EnvVar) : list string := map env_Name l.
Lemma findJavaOptsVar_spec l var r : findJavaOptsVar l var = Ok r →
  match r with
  | Some i => ∃ pre v post, l = pre ++ v :: post ∧ i = length pre ∧ env_Name v = var ∧ env_ValueFrom v = None ∧
                var ∉ var_names pre
  | None => var ∉ var_names l
  end.
Proof.
  revert r. induction l as [|v l IH]; intros r; simpl; [intros [= <-]; apply not_elem_of_nil|].
  case_bool_decide as Hn.
  - case_bool_decide as Hv; [|done]. intros [= <-]. exists [], v, l. split_and!; [done..|apply not_elem_of_nil].
  - destruct (findJavaOptsVar l var) as [r'|e]; [|done]. intros [= <-]. specialize (IH r' eq_refl).
    destruct r' as [i|]; simpl.
    + destruct IH as (pre & v' & post & -> & -> & Hname & Hfrom & Hpre). exists (v :: pre), v', post.
      split_and!; [done..|]. apply not_elem_of_cons. split; [congruence|done].
    + apply not_elem_of_cons. split; [congruence|done].
Qed.
(** The variable gets the agent's argument, after what it had; no other changes. *)
Lemma extendJavaOptsVar_spec l var level l' : extendJavaOptsVar l var level = Ok l' →
  (var ∉ var_names l ∧ l' = l ++ [Env var (agentArgLine level)]) ∨
  (∃ pre v post, l = pre ++ v :: post ∧ env_Name v = var ∧ env_ValueFrom v = None ∧ var ∉ var_names pre ∧
     l' = pre ++ (v <| env_Value := (env_Value v +:+ " " +:+ agentArgLine level)%string |>) :: post).
Proof.
  unfold extendJavaOptsVar. destruct (findJavaOptsVar l var) as [r|e] eqn:E; [|done]. intros <-%Ok_inj.
  apply findJavaOptsVar_spec in E. destruct r as [i|]; [right|by left].
  destruct E as (pre & v & post & -> & -> & Hn & Hv & Hpre). exists pre, v, post. split_and!; try done.
  rewrite <-(Nat.add_0_r (length pre)). by rewrite alter_app_r.
Qed.

(** *** The injection at once *)
Section inject.
Context `{Kube W} `{QuantityOps} `{AdmissionLibs}.
Definition trigger_maps (pod : Pod) : list string :=
  if metav1_HasLabel (pod_meta pod) AgentLabelSmartTriggersConfigMaps
  then getSmartTriggersConfigMapNames (om_Labels (pod_meta pod)) else [].
Definition agent_volumes (kind : string) (cr : CryostatInstance) (tls : bool) (pod : Pod) : list Volume :=
  [init_volume] ++ map trigger_volume (trigger_maps pod) ++
  (if tls then [tls_volume kind cr (om_Namespace (pod_meta pod))] else []).
Definition agent_mounts (tls : bool) (pod : Pod) : list VolumeMount :=
  map (λ m, ro_mount ("trigger-" +:+ m) defaultSmartTriggersMount) (trigger_maps pod) ++
  [ro_mount "cryostat-agent-init" AgentEmptyDirBasePath] ++
  (if tls then [ro_mount "cryostat-agent-tls" agentTLSPath] else []).
Definition agent_env (kind : string) (config : AgentWebhookConfig) (cr : CryostatInstance) (tls : bool) (o : AgentOptions)
    (pod : Pod) : list EnvVar :=
  let namespace := om_Namespace (pod_meta pod) in
  (if metav1_HasLabel (pod_meta pod) AgentLabelSmartTriggersConfigMaps
   then [Env "CRYOSTAT_AGENT_SMART_TRIGGER_CONFIG_PATH" defaultSmartTriggersMount] else []) ++
  publish_env cr namespace tls o ++ harvester_env o ++ callbackEnv kind cr namespace tls (ao_port o) ++
  (if tls then tls_env else [Env "CRYOSTAT_AGENT_WEBCLIENT_TLS_REQUIRED" "false"]) ++ fips_env config.
Definition callback_port (o : AgentOptions) : ContainerPort :=
  {| cp_Name := AgentCallbackPortName; cp_ContainerPort := ao_port o; cp_Protocol := "TCP" |}.
Definition with_agent (env : list EnvVar) (mounts : list VolumeMount) (port : ContainerPort) (c : Container) : Container :=
  c <| ct_Env := ct_Env c ++ env |> <| ct_VolumeMounts := ct_VolumeMounts c ++ mounts |> <| ct_Ports := ct_Ports c ++ [port] |>.

Lemma inject_at_once kind config tag cr tls i o pod :
  inject kind config tag cr tls i o pod =
  {| pod_meta := pod_meta pod;
     pod_Spec := (pod_Spec pod)
       <| ps_InitContainers := ps_InitContainers (pod_Spec pod) ++ [init_container cr tag] |>
       <| ps_Volumes := ps_Volumes (pod_Spec pod) ++ agent_volumes kind cr tls pod |>
       <| ps_Containers := alter (with_agent (agent_env kind config cr tls o pod) (agent_mounts tls pod) (callback_port o)) i
                             (ps_Containers (pod_Spec pod)) |> |}.
Proof.
  destruct pod as [m [sa au vols inits cs sc nsel aff tol rest]].
  unfold inject, add_triggers, agent_volumes, agent_env, agent_mounts, trigger_maps.
  cbn [pod_meta pod_Spec ps_Containers ps_Volumes ps_InitContainers].
  generalize (publish_env cr (om_Namespace m) tls o), (harvester_env o), (fips_env config), tls_env,
    (callbackEnv kind cr (om_Namespace m) tls (ao_port o)). intros e1 e2 e3 e4 e5.
  unfold on_container, add_volumes, field_update. simpl.
  destruct (metav1_HasLabel m _), tls; simpl; rewrite !list_alter_alter_eq, ?app_nil_r, <-?app_assoc; f_equal; f_equal;
    try done; apply list_alter_ext; try done; intros [] _; unfold compose, add_env, add_mounts, with_agent, callback_port; simpl;
    unfold field_update; simpl; by rewrite <-?app_assoc, ?app_nil_r.
Qed.
End inject.

(** ** What a request leaves *)
Section outcomes.
Context `{KubeLaws W} `{QuantityOps} `{AdmissionLibs}.
Definition labelled (pod : Pod) : bool :=
  metav1_HasLabel (pod_meta pod) AgentLabelCryostatName && metav1_HasLabel (pod_meta pod) AgentLabelCryostatNamespace.
(** The Cryostat that the labels name. *)
Definition cryostat_key (m : ObjectMeta) : NamespacedName :=
  nn (default "" (gm_lookup (om_Labels m) AgentLabelCryostatNamespace)) (default "" (gm_lookup (om_Labels m) AgentLabelCryostatName)).
Definition authorised (w : W) (m : ObjectMeta) (cr : V2.Cryostat) : Prop :=
  stored w KCryostat (cryostat_key m) = Some cr ∧ om_Namespace m ∈ V2.st_TargetNamespaces (V2.cr_Status cr).

(** Nothing, or the whole injection. *)
Lemma podMutator_Default_inv kind config pod w config' pod' r w' :
  podMutator_Default kind config pod w = ((config', pod', r), w') →
  same_store w w' ∧
  ((pod' = pod ∧ (r = Ok () → labelled pod = false)) ∨
   ∃ cr i o tag, labelled pod = true ∧ authorised w (pod_meta pod) cr ∧ getTargetContainer pod = Ok i ∧
     agentOptions (om_Labels (pod_meta pod)) = Ok o ∧ getImageTag config = (config', tag) ∧
     extend_java_opts i (inject kind config' tag (FromCryostat cr) (IsCertManagerEnabled (FromCryostat cr)) i o pod)
       = (pod', r)).
Proof.
  unfold podMutator_Default. rewrite <-negb_andb. fold (labelled pod). destruct (labelled pod); simpl negb.
  2:{ intros Hr. ret_inv Hr. split; [by intros ???|]. by left. }
  intros (got & w1 & Hg & Hrun)%mbindM_inv. pose proof (Get_reads _ _ _ _ _ Hg) as Hs.
  assert (Hfail : ∀ e, mretM (config, pod, Err e) w1 = ((config', pod', r), w') →
    same_store w w' ∧ ((pod' = pod ∧ (r = Ok () → true = false)) ∨ False)).
  { intros e He. ret_inv He. split; [done|]. by left. }
  destruct got as [cr|e]; [|by apply Hfail in Hrun as [? [?|[]]]; auto]. apply Get_Ok in Hg.
  destruct (slices.Contains _ _) eqn:Ec; cbn [negb] in Hrun; [|by apply Hfail in Hrun as [? [?|[]]]; auto].
  apply bool_decide_eq_true in Ec.
  destruct (getTargetContainer pod) as [i|e] eqn:Et; [|by apply Hfail in Hrun as [? [?|[]]]; auto].
  destruct (agentOptions _) as [o|e] eqn:Eo; [|by apply Hfail in Hrun as [? [?|[]]]; auto].
  destruct (getImageTag config) as [config1 tag] eqn:Ei.
  destruct (extend_java_opts _ _) as [pod1 r1] eqn:Ee. ret_inv Hrun. split; [done|]. right. by exists cr, i, o, tag.
Qed.

Lemma extend_java_opts_shape i pod pod' r : extend_java_opts i pod = (pod', r) →
  ∃ f, pod' = on_container i f pod ∧ (∀ c, (f c) <| ct_Env := [] |> = c <| ct_Env := [] |>) ∧ pod_meta pod' = pod_meta pod ∧
    (r = Ok () → ∀ c, ps_Containers (pod_Spec pod) !! i = Some c →
       extendJavaOptsVar (ct_Env c) (getJavaOptionsVar (om_Labels (pod_meta pod))) (getLogLevel (om_Labels (pod_meta pod)))
         = Ok (ct_Env (f c))).
Proof.
  unfold extend_java_opts. destruct (extendJavaOptsVar _ _ _) as [l|e] eqn:E; intros [= <- <-].
  - exists (λ c, c <| ct_Env := l |>). split; [done|]. split; [by intros []|]. split; [done|]. intros _ c Hc. by rewrite Hc in E.
  - exists id. split; [|done]. destruct pod as [m []]. unfold on_container, field_update. simpl. do 2 f_equal.
    apply list_eq. intros j. destruct (decide (i = j)) as [->|].
    + rewrite list_lookup_alter_eq. by destruct (_ !! j).
    + by rewrite list_lookup_alter_ne.
Qed.
End outcomes.
