(* ===== verification/Startup.v ===== *)
(** * Starting the operator

    [internal/fips/fips.go], and the decisions of [cmd/main.go]: what the cluster is
    (OpenShift, cert-manager, FIPS), what the environment asks for, and the configurations
    of the reconciler, of the console plugin and of the agent webhook that follow.  Flags,
    TLS options, certificate watchers, health checks and the manager itself are library
    set-up and are left out; [os.Exit(1)] is an error. *)

From S2P Require Export Console AgentWebhook Url.
From S2P Require Import FakeClient.
From Stdlib Require Import Ascii.
Open Scope Z_scope.

(** ** Regular expressions

    The fragment of [regexp] that the program's expression uses, in multi-line mode: text
    positions are a pair of what was read, last byte first, and what is left. *)
Module regex.
Inductive atom :=
| Bol                                  (* ^ *)
| Eol                                  (* $ *)
| Lit (c : ascii)
| Star (p : ascii → bool).             (* a class, repeated *)

Definition newline_byte : ascii := byte_of 10.
Definition at_bol (pre : list ascii) : bool := match pre with [] => true | c :: _ => Ascii.eqb c newline_byte end.
Definition at_eol (cs : list ascii) : bool := match cs with [] => true | c :: _ => Ascii.eqb c newline_byte end.
Fixpoint star (p : ascii → bool) (k : list ascii → list ascii → bool) (pre cs : list ascii) : bool :=
  k pre cs || match cs with
              | c :: cs' => p c && star p k (c :: pre) cs'
              | [] => false
              end.
Fixpoint match_here (re : list atom) (pre cs : list ascii) : bool :=
  match re with
  | [] => true
  | Bol :: re => at_bol pre && match_here re pre cs
  | Eol :: re => at_eol cs && match_here re pre cs
  | Lit a :: re => match cs with c :: cs' => Ascii.eqb a c && match_here re (c :: pre) cs' | [] => false end
  | Star p :: re => star p (match_here re) pre cs
  end.
Fixpoint search (re : list atom) (pre cs : list ascii) : bool :=
  match_here re pre cs || match cs with c :: cs' => search re (c :: pre) cs' | [] => false end.
Definition MatchString (re : list atom) (s : string) : bool := search re [] (bytes s).

(** [\s]: a tab, a newline, a form feed, a carriage return or a space. *)
Definition is_space (c : ascii) : bool :=
  (byte_val c =? 9) || (byte_val c =? 10) || (byte_val c =? 12) || (byte_val c =? 13) || (byte_val c =? 32).

(** What an expression matches, as a relation. *)
Inductive matches : list atom → list ascii → list ascii → list ascii → Prop :=
| matches_nil pre post : matches [] pre [] post
| matches_bol re pre mid post : at_bol pre = true → matches re pre mid post → matches (Bol :: re) pre mid post
| matches_eol re pre mid post : at_eol (mid ++ post) = true → matches re pre mid post → matches (Eol :: re) pre mid post
| matches_lit re c pre mid post : matches re (c :: pre) mid post → matches (Lit c :: re) pre (c :: mid) post
| matches_star_done re p pre mid post : matches re pre mid post → matches (Star p :: re) pre mid post
| matches_star_more re p c pre mid post :
    p c = true → matches (Star p :: re) (c :: pre) mid post → matches (Star p :: re) pre (c :: mid) post.

Lemma match_here_sound re pre cs : match_here re pre cs = true → ∃ mid post, cs = mid ++ post ∧ matches re pre mid post.
Proof.
  revert pre cs. induction re as [|[| |a|p] re IH]; intros pre cs; simpl.
  - intros _. exists [], cs. split; [done|constructor].
  - intros [Hb (mid & post & -> & Hm)%IH]%andb_prop. exists mid, post. split; [done|by constructor].
  - intros [Hb (mid & post & -> & Hm)%IH]%andb_prop. exists mid, post. split; [done|by constructor].
  - destruct cs as [|c cs]; [done|]. intros [Ha (mid & post & -> & Hm)%IH]%andb_prop. apply Ascii.eqb_eq in Ha as ->.
    exists (c :: mid), post. split; [done|by constructor].
  - revert pre. induction cs as [|c cs IHcs]; intros pre; simpl; rewrite orb_true_iff; intros [Hk|Hs]; try done.
    + apply IH in Hk as (mid & post & Hl & Hm). exists mid, post. split; [done|by constructor].
    + apply IH in Hk as (mid & post & Hl & Hm). exists mid, post. split; [done|by constructor].
    + apply andb_prop in Hs as [Hp (mid & post & -> & Hm)%IHcs]. exists (c :: mid), post. split; [done|by constructor].
Qed.
Lemma match_here_complete re pre mid post : matches re pre mid post → match_here re pre (mid ++ post) = true.
Proof.
  induction 1 as [| | |re c pre mid post _ IH| |re p c pre mid post Hp _ IH]; simpl; [done|by apply andb_true_intro..| | |].
  - by rewrite Ascii.eqb_refl.
  - destruct (mid ++ post); simpl; by rewrite IHmatches.
  - simpl in IH. by rewrite Hp, IH, orb_true_r.
Qed.
Lemma search_spec re pre cs : search re pre cs = true ↔
  ∃ before mid post, cs = before ++ mid ++ post ∧ matches re (rev before ++ pre) mid post.
Proof.
  revert pre. induction cs as [|c cs IH]; intros pre; simpl; rewrite orb_true_iff.
  - split.
    + intros [(mid & post & Hl & Hm)%match_here_sound|]; [|done]. by exists [], mid, post.
    + intros (before & mid & post & Hl & Hm). left. symmetry in Hl.
      apply app_eq_nil in Hl as [-> Hl]. rewrite <-Hl. by apply match_here_complete.
  - rewrite IH. split.
    + intros [(mid & post & Hl & Hm)%match_here_sound|(before & mid & post & -> & Hm)]; [by exists [], mid, post|].
      exists (c :: before), mid, post. split; [done|]. simpl. by rewrite <-app_assoc.
    + intros ([|c' before] & mid & post & Hl & Hm); simpl in Hl, Hm.
      * left. rewrite Hl. by apply match_here_complete.
      * injection Hl as <- ->. right. exists before, mid, post. split; [done|]. by rewrite <-app_assoc in Hm.
Qed.

(** The words of an expression. *)
Definition word (s : string) : list atom := map Lit (bytes s).
Lemma matches_word s re pre mid post : matches (word s ++ re) pre mid post ↔
  ∃ rest, mid = bytes s ++ rest ∧ matches re (rev (bytes s) ++ pre) rest post.
Proof.
  unfold word. generalize (bytes s). intros l. revert pre mid. induction l as [|c l IH]; intros pre mid; simpl.
  - split; [intros Hm; by exists mid|]. by intros (rest & -> & Hm).
  - split.
    + inversion 1; subst. match goal with Hm : matches (map Lit l ++ re) _ _ _ |- _ => apply IH in Hm as (rest & -> & Hm) end.
      exists rest. split; [done|]. by rewrite <-app_assoc.
    + intros (rest & -> & Hm). simpl. constructor. apply IH. exists rest. split; [done|]. by rewrite <-app_assoc in Hm.
Qed.
Lemma matches_star p re pre mid post : matches (Star p :: re) pre mid post ↔
  ∃ ws rest, mid = ws ++ rest ∧ forallb p ws = true ∧ matches re (rev ws ++ pre) rest post.
Proof.
  split.
  - remember (Star p :: re) as re' eqn:E. intros Hm. revert E.
    induction Hm as [| | | |re' p' pre mid post Hm _|re' p' c pre mid post Hp Hm IH]; intros [= -> ->].
    + by exists [], mid.
    + destruct (IH eq_refl) as (ws & rest & -> & Hws & Hr). exists (c :: ws), rest. simpl. rewrite Hp.
      split_and!; [done..|]. by rewrite <-app_assoc.
  - intros (ws & rest & -> & Hws & Hm). revert pre Hws Hm. induction ws as [|c ws IH]; intros pre Hws Hm; simpl in *.
    + by constructor.
    + apply andb_prop in Hws as [Hc Hws]. constructor; [done|]. apply IH; [done|]. by rewrite <-app_assoc in Hm.
Qed.
Lemma matches_bol_iff re pre mid post : matches (Bol :: re) pre mid post ↔ at_bol pre = true ∧ matches re pre mid post.
Proof. split; [by inversion 1|intros [? ?]; by constructor]. Qed.
Lemma matches_eol_iff re pre mid post : matches (Eol :: re) pre mid post ↔ at_eol (mid ++ post) = true ∧ matches re pre mid post.
Proof. split; [by inversion 1|intros [? ?]; by constructor]. Qed.
Lemma matches_nil_iff pre mid post : matches [] pre mid post ↔ mid = [].
Proof. split; [by inversion 1|intros ->; constructor]. Qed.
Lemma at_bol_rev before : at_bol (rev before ++ []) = true ↔ before = [] ∨ ∃ l, before = l ++ [newline_byte].
Proof.
  rewrite app_nil_r. destruct before as [|c before _] using rev_ind; [simpl; split; [by left|done]|].
  rewrite rev_app_distr. simpl. rewrite Ascii.eqb_eq. split.
  - intros ->. right. by exists before.
  - intros [Hn|[l Hl]]; [by apply app_eq_nil in Hn as [_ ?]|]. by apply app_inj_tail in Hl as [_ ?].
Qed.
Lemma at_eol_spec after : at_eol after = true ↔ after = [] ∨ ∃ l, after = newline_byte :: l.
Proof.
  destruct after as [|c after]; simpl; [split; [by left|done]|]. rewrite Ascii.eqb_eq. split.
  - intros ->. right. by exists after.
  - by intros [?|[l [= ? _]]].
Qed.
End regex.

(** ** FIPS mode *)
Definition fipsInstallConfigRegex : list regex.atom :=
  [regex.Bol; regex.Star regex.is_space] ++ regex.word "fips:" ++ [regex.Star regex.is_space] ++
  regex.word "true" ++ [regex.Star regex.is_space; regex.Eol].

(** ** The environment and the cluster *)
Class Discovery (W : Type) := {
  (** [discovery.IsResourceEnabled] of a group, a version and a resource *)
  discovery_IsResourceEnabled : string → string → string → E W bool }.
Class DiscoveryLaws (W : Type) `{Kube W} `{Discovery W} := {
  IsResourceEnabled_reads g v s w r w' : discovery_IsResourceEnabled g v s w = (r, w') → same_store w w' }.

Record Flags := { fl_forceOpenShift : bool; fl_consolePlugin : bool }.
(** What [main] hands to the manager; a component that is not installed is [None]. *)
Record Operator := {
  op_reconciler : Reconciler; op_console : option PluginInstaller; op_agentWebhook : option AgentWebhookConfig }.

Section startup.
Context `{Kube W} `{Discovery W}.

Definition IsFIPS : E W bool :=
  let? cm := client_Get KConfigMap (nn "kube-system" "cluster-config-v1") in
  match gm_lookup (cm_Data cm) "install-config" with
  | None => mretM (Err (Errorf ("%s config map has no " +:+ dquote +:+ "install-config" +:+ dquote +:+ " key")
                          [om_Name (cm_meta cm)]))
  | Some config => mretM (Ok (regex.MatchString fipsInstallConfigRegex config))
  end.

Definition isOpenShift (forceOpenShift : bool) : E W bool :=
  if forceOpenShift then mretM (Ok true)
  else discovery_IsResourceEnabled "route.openshift.io" "v1" "routes".
Definition isCertManagerInstalled : E W bool :=
  discovery_IsResourceEnabled "cert-manager.io" "v1" "issuers".

(** [FIPSEnabled] of the reconciler is left unset. *)
Definition newReconcilerConfig (openShift certManager : bool) (insightsURL : option string) : Reconciler := {|
  r_IsOpenShift := openShift; r_IsCertManagerInstalled := certManager; r_FIPSEnabled := false;
  r_InsightsProxy := insightsURL; r_Kind := "Cryostat" |}.

(** A FIPS mode that cannot be read is taken to be off. *)
Definition detectFIPS (openShift : bool) : M W bool :=
  if openShift then
    let* result := IsFIPS in
    mretM (match result with Ok fips => fips | Err _ => false end)
  else mretM false.
Definition consoleInstaller (consolePlugin : bool) : res (option PluginInstaller) :=
  if consolePlugin then
    let namespace := os_Getenv "OPERATOR_NAMESPACE" in
    if len namespace =? 0 then Err (Errorf "could not determine operator's namespace" [])
    else Ok (Some {| pi_Namespace := namespace;
                     pi_MinOpenShiftVersion := os_Getenv "MIN_OPENSHIFT_VERSION";
                     pi_MaxOpenShiftVersion := os_Getenv "MAX_OPENSHIFT_VERSION" |})
  else Ok None.
Definition insightsProxy (openShift : bool) : res (option string) :=
  if openShift then
    if bool_decide (strings.ToLower (os_Getenv "INSIGHTS_ENABLED") = "true") then
      let insightsURLEnv := os_Getenv "INSIGHTS_URL" in
      if 0 <? len insightsURLEnv then ok? u := url.Parse insightsURLEnv in Ok (Some (url.String u))
      else Ok None
    else Ok None
  else Ok None.
Definition main (flags : Flags) : E W Operator :=
  let? openShift := isOpenShift (fl_forceOpenShift flags) in
  let? certManager := isCertManagerInstalled in
  let* fipsEnabled := detectFIPS openShift in
  match consoleInstaller (fl_consolePlugin flags) with
  | Err e => mretM (Err e)
  | Ok installer =>
      match insightsProxy openShift with
      | Err e => mretM (Err e)
      | Ok insightsURL =>
          mretM (Ok {|
            op_reconciler := newReconcilerConfig openShift certManager insightsURL;
            op_console := installer;
            op_agentWebhook :=
              if bool_decide (os_Getenv "ENABLE_WEBHOOKS" = "false") then None
              else Some {| awc_InitImageTag := None; awc_FIPSEnabled := fipsEnabled |} |})
      end
  end.
End startup.

(** ** What it decides *)

(** C37. The expression finds FIPS mode exactly when the text of the install
    configuration has [fips:] at the start of a line, after white space at most, then [true]
    after white space at most, and only white space up to the end of a line; line breaks
    count as white space. *)
Theorem fips_expression config :
  regex.MatchString fipsInstallConfigRegex config = true ↔
  ∃ before s1 s2 s3 after,
    bytes config = before ++ s1 ++ bytes "fips:" ++ s2 ++ bytes "true" ++ s3 ++ after ∧
    (before = [] ∨ ∃ l, before = l ++ [regex.newline_byte]) ∧
    forallb regex.is_space s1 = true ∧ forallb regex.is_space s2 = true ∧ forallb regex.is_space s3 = true ∧
    (after = [] ∨ ∃ l, after = regex.newline_byte :: l).
Proof.
  unfold regex.MatchString. rewrite regex.search_spec. unfold fipsInstallConfigRegex. simpl app.
  split.
  - intros (before & mid & after & Hl & Hm). rewrite regex.matches_bol_iff, regex.at_bol_rev in Hm.
    destruct Hm as [Hb Hm]. apply regex.matches_star in Hm as (s1 & r1 & -> & H1 & Hm).
    apply (regex.matches_word "fips:") in Hm as (r2 & -> & Hm). apply regex.matches_star in Hm as (s2 & r3 & -> & H2 & Hm).
    apply (regex.matches_word "true") in Hm as (r4 & -> & Hm). apply regex.matches_star in Hm as (s3 & r5 & -> & H3 & Hm).
    apply regex.matches_eol_iff in Hm as [He Hm]. apply regex.matches_nil_iff in Hm as ->.
    exists before, s1, s2, s3, after. rewrite <-regex.at_eol_spec, Hl. split; [|done].
    rewrite app_nil_r. by rewrite <-!app_assoc.
  - intros (before & s1 & s2 & s3 & after & Hl & Hb & H1 & H2 & H3 & He).
    exists before, (s1 ++ bytes "fips:" ++ s2 ++ bytes "true" ++ s3), after. split; [by rewrite Hl, <-!app_assoc|].
    rewrite regex.matches_bol_iff, regex.at_bol_rev. split; [done|].
    apply regex.matches_star. exists s1, (bytes "fips:" ++ s2 ++ bytes "true" ++ s3). split; [done|]. split; [done|].
    apply (regex.matches_word "fips:"). exists (s2 ++ bytes "true" ++ s3). split; [done|].
    apply regex.matches_star. exists s2, (bytes "true" ++ s3). split; [done|]. split; [done|].
    apply (regex.matches_word "true"). exists s3. split; [done|].
    apply regex.matches_star. exists s3, []. split; [by rewrite app_nil_r|]. split; [done|].
    apply regex.matches_eol_iff. split; [by apply regex.at_eol_spec|constructor].
Qed.

Section outcomes.
Context `{KubeLaws W} `{Discovery W} `{!DiscoveryLaws W}.

Lemma detectFIPS_run openShift w fips w' : detectFIPS openShift w = (fips, w') →
  same_store w w' ∧ (fips = true → openShift = true ∧
    ∃ cm text, stored w KConfigMap (nn "kube-system" "cluster-config-v1") = Some cm ∧
      gm_lookup (cm_Data cm) "install-config" = Some text ∧ regex.MatchString fipsInstallConfigRegex text = true).
Proof.
  unfold detectFIPS. destruct openShift; [|by intros Hr; ret_inv Hr].
  intros (q & w1 & Hf & Hrun)%mbindM_inv. ret_inv Hrun.
  unfold IsFIPS in Hf. apply mbindM_inv in Hf as (got & w2 & Hg & Hf). pose proof (Get_reads _ _ _ _ _ Hg) as Hs.
  destruct got as [cm|e]; [|by ret_inv Hf]. apply (Get_Ok KConfigMap) in Hg.
  destruct (gm_lookup _ _) as [text|] eqn:Et; [|by ret_inv Hf]. injection Hf as <- <-. split; [done|].
  intros Hm. split; [done|]. by exists cm, text.
Qed.
Lemma consoleInstaller_spec plugin p : consoleInstaller plugin = Ok p →
  (is_Some p ↔ plugin = true) ∧
  ∀ i, p = Some i → pi_Namespace i = os_Getenv "OPERATOR_NAMESPACE" ∧ pi_Namespace i ≠ "".
Proof.
  unfold consoleInstaller. destruct plugin.
  - destruct (Z.eqb_spec (len (os_Getenv "OPERATOR_NAMESPACE")) 0) as [|Hne]; [done|]. intros <-%Ok_inj. split; [by eauto|].
    intros i [= <-]. simpl. split; [done|]. intros Hn. rewrite Hn in Hne. done.
  - intros <-%Ok_inj. split; [|done]. split; [by intros [??]|done].
Qed.

(** Starting the operator reads the cluster and writes nothing; the reconciler takes
    the cluster for OpenShift when it is forced to or when routes are served, and only then
    are FIPS mode and the Insights proxy considered; FIPS mode, as the install configuration
    tells it, reaches the agent webhook and a cluster where it cannot be read starts
    without it; the console plugin is installed only on request, for a namespace that is
    set. *)
Theorem main_decides flags w r w' :
  main flags w = (r, w') →
  same_store w w' ∧
  ∀ op, r = Ok op →
    (fl_forceOpenShift flags = true → r_IsOpenShift (op_reconciler op) = true) ∧
    (r_IsOpenShift (op_reconciler op) = false → r_InsightsProxy (op_reconciler op) = None) ∧
    (∀ config, op_agentWebhook op = Some config → awc_FIPSEnabled config = true →
       r_IsOpenShift (op_reconciler op) = true ∧
       ∃ cm text, stored w KConfigMap (nn "kube-system" "cluster-config-v1") = Some cm ∧
         gm_lookup (cm_Data cm) "install-config" = Some text ∧
         regex.MatchString fipsInstallConfigRegex text = true) ∧
    (is_Some (op_console op) ↔ fl_consolePlugin flags = true) ∧
    (∀ p, op_console op = Some p → pi_Namespace p = os_Getenv "OPERATOR_NAMESPACE" ∧ pi_Namespace p ≠ "").
Proof.
  unfold main. intros (q & w1 & Ho & Hrun)%mbindM_inv.
  assert (Hs1 : same_store w w1).
  { unfold isOpenShift in Ho. destruct (fl_forceOpenShift flags); [by ret_inv Ho|by eapply IsResourceEnabled_reads]. }
  destruct q as [openShift|e]; [|by ret_inv Hrun]. apply mbindM_inv in Hrun as (q2 & w2 & Hc & Hrun).
  pose proof (IsResourceEnabled_reads _ _ _ _ _ _ Hc) as Hs2. assert (Hs : same_store w w2) by by etransitivity.
  destruct q2 as [certManager|e]; [|by ret_inv Hrun]. apply mbindM_inv in Hrun as (fips & w3 & Hf & Hrun).
  apply detectFIPS_run in Hf as [Hs3 Hfips]. assert (Hs' : same_store w w3) by by etransitivity.
  destruct (consoleInstaller _) as [installer|e] eqn:Ei; [|by ret_inv Hrun].
  destruct (insightsProxy openShift) as [proxy|e] eqn:Ep; [|by ret_inv Hrun]. ret_inv Hrun. split; [done|].
  intros op <-%Ok_inj. simpl. apply consoleInstaller_spec in Ei as [Ei1 Ei2]. split_and!; try done.
  - intros Hforce. unfold isOpenShift in Ho. rewrite Hforce in Ho. by ret_inv Ho.
  - intros ->. by injection Ep as <-.
  - intros config Hconfig Hfc. destruct (bool_decide _); [done|]. injection Hconfig as <-. simpl in Hfc.
    destruct (Hfips Hfc) as (-> & cm & text & Hcm & Htext). split; [done|]. exists cm, text.
    by rewrite (same_store_eq _ _ KConfigMap _ Hs) in Hcm.
Qed.
End outcomes.

(** ** Witnesses *)
#[export] Instance fake_discovery : Discovery fake := {|
  discovery_IsResourceEnabled := λ group _ _ w, (Ok (bool_decide (group = "route.openshift.io")), w) |}.
#[export] Instance fake_discovery_laws : DiscoveryLaws fake.
Proof. split. intros g v s w r w' Hr. injection Hr as _ <-. by intros ???. Qed.

Definition install_config : string :=
  "apiVersion: v1" +:+ newline +:+ "fips: true " +:+ newline +:+ "networking:" +:+ newline.
Example fips_on : regex.MatchString fipsInstallConfigRegex install_config = true.
Proof. vm_compute. reflexivity. Qed.
(** The value may be on the next line; a comment at the end of the line hides it. *)
Example fips_next_line : regex.MatchString fipsInstallConfigRegex ("fips:" +:+ newline +:+ "true") = true.
Proof. vm_compute. reflexivity. Qed.
Example fips_comment : regex.MatchString fipsInstallConfigRegex "fips: true # on" = false.
Proof. vm_compute. reflexivity. Qed.

Definition openshift_world : fake :=
  fk_put KConfigMap (nn "kube-system" "cluster-config-v1")
    {| cm_meta := NewObjectMeta "cluster-config-v1" "kube-system"; cm_Immutable := None;
       cm_Data := Some {[ "install-config" := install_config ]} |} fk_sample.
Definition no_flags : Flags := {| fl_forceOpenShift := false; fl_consolePlugin := false |}.
Definition started : Operator := {|
  op_reconciler := newReconcilerConfig true false None; op_console := None;
  op_agentWebhook := Some {| awc_InitImageTag := None; awc_FIPSEnabled := true |} |}.
Lemma main_decides_witness : ∃ cm text,
  stored openshift_world KConfigMap (nn "kube-system" "cluster-config-v1") = Some cm ∧
  gm_lookup (cm_Data cm) "install-config" = Some text.
Proof.
  destruct (main_decides no_flags openshift_world (Ok started) (main no_flags openshift_world).2) as [_ Hop];
    [apply run_snd; vm_compute; reflexivity|].
  destruct (Hop started eq_refl) as (_ & _ & Hf & _).
  destruct (Hf {| awc_InitImageTag := None; awc_FIPSEnabled := true |} eq_refl eq_refl) as (_ & cm & text & Hcm & Ht & _).
  exists cm, text. split; [exact Hcm|exact Ht].
Defined.
