(* ===== verification/ServerOptions.v ===== *)
(** * The servers of the manager

    The first half of [main] in [cmd/main.go]: the flags, the TLS options of the webhook and
    metrics servers with their certificate watchers, and the end of [main], which adds the
    watchers and the health checks to the manager and starts it.

    Both servers' options start from the same slice, to which [append] adds one option for
    each: slices are modelled with their arrays and capacities, and the theorem says when
    the two [append]s stay apart. *)

From S2P Require Export Startup.
Open Scope Z_scope.

(** ** Slices with a capacity *)
Module slice.
Record t := { array : positive; length : nat; capacity : nat }.
Section slice.
Context {A : Type}.
Abbreviation arrays := (gmap positive (list (option A))).
(** The capacity that the run-time gives to an array that has to hold [n] elements. *)
Variable growth : nat → nat.

(** [nil] has no array, and no capacity. *)
Definition nil : t := {| array := 1; length := 0; capacity := 0 |}.
(** In place while there is room, and into a new array otherwise. *)
Definition append (s : t) (x : A) : M arrays t := λ h,
  let old := default [] (h !! array s) in
  if (length s <? capacity s)%nat then
    ({| array := array s; length := S (length s); capacity := capacity s |}, <[array s := <[length s := Some x]> old]> h)
  else
    let cap := growth (S (length s)) in
    let a := fresh (dom h) in
    ({| array := a; length := S (length s); capacity := cap |},
     <[a := take (length s) old ++ Some x :: replicate (cap - S (length s)) None]> h).
Definition elements (h : arrays) (s : t) : list A :=
  omap id (take (length s) (default [] (h !! array s))).
End slice.
End slice.

(** ** Flags *)
Record ServerFlags := {
  sf_metricsAddr : string; sf_probeAddr : string; sf_enableLeaderElection : bool; sf_secureMetrics : bool;
  sf_webhookCertPath : string; sf_webhookCertName : string; sf_webhookCertKey : string;
  sf_metricsCertPath : string; sf_metricsCertName : string; sf_metricsCertKey : string;
  sf_enableHTTP2 : bool }.
Definition defaultServerFlags : ServerFlags := {|
  sf_metricsAddr := "0"; sf_probeAddr := ":8081"; sf_enableLeaderElection := false; sf_secureMetrics := true;
  sf_webhookCertPath := ""; sf_webhookCertName := "tls.crt"; sf_webhookCertKey := "tls.key";
  sf_metricsCertPath := ""; sf_metricsCertName := "tls.crt"; sf_metricsCertKey := "tls.key";
  sf_enableHTTP2 := false |}.

(** ** TLS options

    [certwatcher.New] is library code: it loads a pair of files, or fails. *)
Class CertWatchers := {
  CertWatcher : Type;
  certwatcher_New : string → string → res CertWatcher }.

Section servers.
Context `{CertWatchers}.
Variable growth : nat → nat.

(** The fields of [tls.Config] that the options set. *)
Record tls_Config := { tls_NextProtos : list string; tls_GetCertificate : option CertWatcher }.
Inductive tls_option :=
| disableHTTP2
| useCertificate (watcher : CertWatcher).
Definition apply_option (c : tls_Config) (o : tls_option) : tls_Config :=
  match o with
  | disableHTTP2 => {| tls_NextProtos := ["http/1.1"]; tls_GetCertificate := tls_GetCertificate c |}
  | useCertificate w => {| tls_NextProtos := tls_NextProtos c; tls_GetCertificate := Some w |}
  end.
Abbreviation arrays := (gmap positive (list (option tls_option))).

Record metricsserver_Options := {
  ms_BindAddress : string; ms_SecureServing : bool; ms_TLSOpts : slice.t; ms_FilterProvider : bool }.
(** What [main] has built when it makes the manager. *)
Record ServerOptions := {
  so_webhookTLSOpts : slice.t; so_metrics : metricsserver_Options;
  so_webhookCertWatcher : option CertWatcher; so_metricsCertWatcher : option CertWatcher;
  so_HealthProbeBindAddress : string; so_LeaderElection : bool; so_LeaderElectionID : string }.

(** A watcher for the files at [path], and its option; no path, no watcher. *)
Definition certificateOption (path_ name key : string) (opts : slice.t) : E arrays (slice.t * option CertWatcher) :=
  if 0 <? len path_ then
    match certwatcher_New (path.Join [path_; name]) (path.Join [path_; key]) with
    | Err e => mretM (Err e)
    | Ok watcher =>
        let* opts := slice.append growth opts (useCertificate watcher) in
        mretM (Ok (opts, Some watcher))
    end
  else mretM (Ok (opts, None)).

Definition serverOptions (fl : ServerFlags) : E arrays ServerOptions :=
  let* tlsOpts := if negb (sf_enableHTTP2 fl) then slice.append growth slice.nil disableHTTP2 else mretM slice.nil in
  let? '(webhookTLSOpts, webhookCertWatcher) :=
    certificateOption (sf_webhookCertPath fl) (sf_webhookCertName fl) (sf_webhookCertKey fl) tlsOpts in
  let metricsServerOptions := {|
    ms_BindAddress := sf_metricsAddr fl; ms_SecureServing := sf_secureMetrics fl; ms_TLSOpts := tlsOpts;
    ms_FilterProvider := sf_secureMetrics fl |} in
  let? '(metricsTLSOpts, metricsCertWatcher) :=
    certificateOption (sf_metricsCertPath fl) (sf_metricsCertName fl) (sf_metricsCertKey fl) tlsOpts in
  mretM (Ok {|
    so_webhookTLSOpts := webhookTLSOpts; so_metrics := metricsServerOptions <| ms_TLSOpts := metricsTLSOpts |>;
    so_webhookCertWatcher := webhookCertWatcher; so_metricsCertWatcher := metricsCertWatcher;
    so_HealthProbeBindAddress := sf_probeAddr fl; so_LeaderElection := sf_enableLeaderElection fl;
    so_LeaderElectionID := "d696d7ab.redhat.com" |}).

(** The configuration that a server ends up with: its options in order, over that of the library. *)
Definition tls_config (h : arrays) (opts : slice.t) (c : tls_Config) : tls_Config :=
  foldl apply_option c (slice.elements h opts).
End servers.

(** ** The end of [main] *)
Class Manager (W : Type) `{CertWatchers} := {
  mgr_Add : CertWatcher → E W ();
  mgr_AddHealthzCheck : string → E W ();
  mgr_AddReadyzCheck : string → E W ();
  mgr_Start : E W () }.
Section manager.
Context `{Manager W}.
Definition addWatcher (watcher : option CertWatcher) : E W () :=
  match watcher with Some w => mgr_Add w | None => mretM (Ok ()) end.
Definition startManager (so : ServerOptions) : E W () :=
  do? addWatcher (so_metricsCertWatcher so) in
  do? addWatcher (so_webhookCertWatcher so) in
  do? mgr_AddHealthzCheck "healthz" in
  do? mgr_AddReadyzCheck "readyz" in
  mgr_Start.
End manager.

(** ** What the options hold *)
Section slices.
Context {A : Type}.
Abbreviation arrays := (gmap positive (list (option A))).
Variable growth : nat → nat.
Hypothesis growth_holds : ∀ n, (n ≤ growth n)%nat.

Definition holds (h : arrays) (s : slice.t) (xs : list A) : Prop :=
  slice.length s = length xs ∧
  ((xs = [] ∧ slice.capacity s = O) ∨
   ∃ l, h !! slice.array s = Some l ∧ length l = slice.capacity s ∧ (length xs ≤ length l)%nat ∧ take (length xs) l = Some <$> xs).
Lemma omap_id_Some (xs : list A) : omap id (Some <$> xs) = xs.
Proof. induction xs as [|x xs IH]; [done|]. csimpl. by rewrite IH. Qed.
Lemma holds_elements h s xs : holds h s xs → slice.elements h s = xs.
Proof.
  unfold slice.elements. intros [-> [[-> _]|(l & -> & _ & _ & Ht)]]; simpl; [done|].
  by rewrite Ht, omap_id_Some.
Qed.
Lemma holds_nil h : holds h slice.nil [].
Proof. split; [done|by left]. Qed.

(** [append] extends its slice; a slice of the same array is disturbed only where it is
    longer and the new element is written in place. *)
Lemma append_spec h s xs x : holds h s xs →
  ∃ s' h', slice.append growth s x h = (s', h') ∧ holds h' s' (xs ++ [x]) ∧
    ((slice.length s < slice.capacity s)%nat → slice.array s' = slice.array s ∧ slice.capacity s' = slice.capacity s) ∧
    (∀ s2 ys, holds h s2 ys →
      slice.array s2 ≠ slice.array s ∨ (length ys ≤ length xs)%nat ∨ (slice.capacity s ≤ slice.length s)%nat →
      holds h' s2 ys).
Proof.
  intros [Hlen Hs]. unfold slice.append. destruct (Nat.ltb_spec (slice.length s) (slice.capacity s)) as [Hlt|Hge].
  - destruct Hs as [[-> Hcap]|(l & Hl & Hcap & Hle & Ht)]; [simpl in Hlen; lia|]. rewrite Hl. simpl.
    do 2 eexists. split_and!; [done| |done|].
    + split; simpl; [rewrite Hlen, length_app; simpl; lia|]. right. exists (<[slice.length s:=Some x]> l).
      rewrite length_insert, length_app, lookup_insert_eq. split_and!; [done|done|simpl; lia|].
      rewrite Hlen, Nat.add_1_r, (take_S_r _ _ (Some x)) by (apply list_lookup_insert_eq; lia).
      by rewrite take_insert_ge, Ht, fmap_app by lia.
    + intros s2 ys [Hlen2 Hs2] Hor. split; [done|]. destruct Hs2 as [?|(l2 & Hl2 & Hcap2 & Hle2 & Ht2)]; [by left|right].
      destruct (decide (slice.array s2 = slice.array s)) as [He|Hne].
      * rewrite He in *. rewrite Hl in Hl2. injection Hl2 as <-. exists (<[slice.length s:=Some x]> l).
        rewrite length_insert, lookup_insert_eq. split_and!; [done|done|done|]. rewrite take_insert_ge; [done|].
        destruct Hor as [?|[?|?]]; [done|lia|lia].
      * exists l2. by rewrite lookup_insert_ne.
  - set (a := fresh (dom h)). assert (h !! a = None) as Ha by apply not_elem_of_dom, is_fresh.
    assert (take (slice.length s) (default [] (h !! slice.array s)) = Some <$> xs) as Htake.
    { destruct Hs as [[-> _]|(l & -> & _ & _ & Ht)]; simpl; rewrite Hlen; [done|exact Ht]. }
    do 2 eexists. split_and!; [done| |lia|].
    + pose proof (growth_holds (S (slice.length s))). split; simpl; [rewrite Hlen, length_app; simpl; lia|]. right.
      eexists. rewrite lookup_insert_eq, Htake. split; [done|].
      rewrite !length_app, !length_fmap. simpl. rewrite length_replicate. split_and!; [lia|lia|].
      rewrite Nat.add_1_r, fmap_app. simpl. change (Some x :: ?l) with ([Some x] ++ l). rewrite app_assoc.
      apply take_app_length'. rewrite length_app, length_fmap. simpl. lia.
    + intros s2 ys [Hlen2 Hs2] _. split; [done|]. destruct Hs2 as [?|(l2 & Hl2 & Hr)]; [by left|right].
      exists l2. split; [|done]. rewrite lookup_insert_ne by congruence. exact Hl2.
Qed.
End slices.

Section servers_laws.
Context `{CertWatchers}.
Variable growth : nat → nat.
Hypothesis growth_holds : ∀ n, (n ≤ growth n)%nat.

Definition certificate_options (w : option CertWatcher) : list tls_option :=
  match w with Some w => [useCertificate w] | None => [] end.
Definition http2_options (fl : ServerFlags) : list tls_option := if sf_enableHTTP2 fl then [] else [disableHTTP2].

(** The watcher is there exactly when a path is; its option is added to what the slice had. *)
Lemma certificateOption_run path_ name key opts xs h opts' w h' : holds h opts xs →
  certificateOption growth path_ name key opts h = (Ok (opts', w), h') →
  holds h' opts' (xs ++ certificate_options w) ∧
  (if 0 <? len path_ then ∃ x, w = Some x ∧ certwatcher_New (path.Join [path_; name]) (path.Join [path_; key]) = Ok x ∧
     ((slice.length opts < slice.capacity opts)%nat →
        slice.array opts' = slice.array opts ∧ slice.capacity opts' = slice.capacity opts)
   else w = None ∧ opts' = opts) ∧
  ∀ s2 ys, holds h s2 ys →
    slice.array s2 ≠ slice.array opts ∨ (length ys ≤ length xs)%nat ∨ (slice.capacity opts ≤ slice.length opts)%nat ∨ w = None →
    holds h' s2 ys.
Proof.
  intros Hs. unfold certificateOption. destruct (0 <? len path_).
  - destruct (certwatcher_New _ _) as [x|e] eqn:Hnew; [|by intros [= ]].
    destruct (append_spec growth growth_holds h opts xs (useCertificate x) Hs) as (s' & h1 & Hrun & Hs' & Hin & Hkeep).
    unfold mbindM. rewrite Hrun. unfold mretM. intros [= <- <- <-]. split; [done|]. split; [by exists x|].
    intros s2 ys H2 Hor. apply (Hkeep s2 ys H2). destruct Hor as [?|[?|[?|?]]]; [by left|right; by left|right; by right|done].
  - unfold mretM. intros [= <- <- <-]. split_and!; [by rewrite app_nil_r|done|done|done].
Qed.

(** The watcher of the files of that name and key under the path, if a path is given. *)
Definition own_certificate (path_ name key : string) (w : option CertWatcher) : Prop :=
  match w with
  | Some w => path_ ≠ "" ∧ certwatcher_New (path.Join [path_; name]) (path.Join [path_; key]) = Ok w
  | None => path_ = ""
  end.
Lemma watcher_own (path_ name key : string) (w : option CertWatcher) (P : CertWatcher → Prop) (Q : Prop) :
  (if 0 <? len path_ then
     ∃ x, w = Some x ∧ certwatcher_New (path.Join [path_; name]) (path.Join [path_; key]) = Ok x ∧ P x
   else w = None ∧ Q) → own_certificate path_ name key w.
Proof.
  unfold len, own_certificate. destruct path_; simpl; [by intros [-> _]|].
  destruct (Z.ltb_spec 0 (Z.of_nat (S (String.length path_)))) as [_|?]; [|lia]. by intros (x & -> & Hx & _).
Qed.
(** The configuration of a server whose own options these are. *)
Definition configured (fl : ServerFlags) (w : option CertWatcher) (c : tls_Config) : tls_Config := {|
  tls_NextProtos := if sf_enableHTTP2 fl then tls_NextProtos c else ["http/1.1"];
  tls_GetCertificate := match w with Some w => Some w | None => tls_GetCertificate c end |}.
Lemma holds_configured h s fl w c : holds h s (http2_options fl ++ certificate_options w) →
  tls_config h s c = configured fl w c.
Proof.
  intros Hs%holds_elements. unfold tls_config, configured. rewrite Hs. unfold http2_options.
  by destruct (sf_enableHTTP2 fl), w, c.
Qed.
(** The two options land in the same place of the same array. *)
Definition overwritten (fl : ServerFlags) : bool :=
  negb (sf_enableHTTP2 fl) && (1 <? growth 1)%nat && (0 <? len (sf_webhookCertPath fl)) && (0 <? len (sf_metricsCertPath fl)).

(** C36. Neither the webhook server nor the metrics server offers HTTP/2 unless it was
    enabled, and each presents its own certificate, that of the files
    whose directory, name and key its flags give, if they give a directory.  There is one
    exception: with HTTP/2 disabled and a certificate for both, the webhook server presents
    the certificate of the metrics server when the run-time gives an array that has to hold
    one element room for another; with a run-time that gives it none ([growth 1 = 1]) that
    does not happen.  All that is asked of the run-time is that an array has room for what
    it has to hold. *)
Theorem servers_configured fl so h c : serverOptions growth fl ∅ = (Ok so, h) →
  let webhook := so_webhookCertWatcher so in
  let metrics := so_metricsCertWatcher so in
  own_certificate (sf_webhookCertPath fl) (sf_webhookCertName fl) (sf_webhookCertKey fl) webhook ∧
  own_certificate (sf_metricsCertPath fl) (sf_metricsCertName fl) (sf_metricsCertKey fl) metrics ∧
  tls_config h (ms_TLSOpts (so_metrics so)) c = configured fl metrics c ∧
  tls_config h (so_webhookTLSOpts so) c = configured fl (if overwritten fl then metrics else webhook) c ∧
  (growth 1 = 1%nat → overwritten fl = false).
Proof.
  unfold serverOptions. intros (tlsOpts & h0 & Hbase & Hrun)%mbindM_inv.
  assert (holds h0 tlsOpts (http2_options fl) ∧ if sf_enableHTTP2 fl then slice.capacity tlsOpts = O
          else slice.length tlsOpts = 1%nat ∧ slice.capacity tlsOpts = growth 1) as [Hbs Hcap].
  { unfold http2_options. destruct (sf_enableHTTP2 fl); simpl in Hbase.
    - injection Hbase as <- <-. split; [apply holds_nil|done].
    - destruct (append_spec growth growth_holds ∅ slice.nil [] disableHTTP2 (holds_nil _)) as (s' & h1 & Ha & Hs & _).
      rewrite Ha in Hbase. injection Hbase as <- <-. split; [done|]. unfold slice.append in Ha. simpl in Ha. by injection Ha as <- _. }
  apply mtry_ok_inv in Hrun as ([webhookOpts w1] & h1 & Hweb & Hrun). apply mtry_ok_inv in Hrun as ([metricsOpts w2] & h2 & Hmet & Hrun).
  ret_inv Hrun. simpl.
  destruct (certificateOption_run _ _ _ _ _ _ _ _ _ Hbs Hweb) as (Hw1 & Hp1 & Hk1).
  destruct (certificateOption_run _ _ _ _ _ _ _ _ _ (Hk1 _ _ Hbs (or_intror (or_introl (le_n _)))) Hmet) as (Hw2 & Hp2 & Hk2).
  split_and!; [exact (watcher_own _ _ _ _ _ _ Hp1)|exact (watcher_own _ _ _ _ _ _ Hp2)|by apply holds_configured| |].
  2:{ unfold overwritten. intros ->. by rewrite andb_false_r. }
  apply (holds_configured _ _ fl).
  destruct (overwritten fl) eqn:Ho.
  - unfold overwritten in Ho. rewrite !andb_true_iff in Ho. destruct Ho as (((Hh & Hg%Nat.ltb_lt) & Hl1) & Hl2).
    rewrite negb_true_iff in Hh. rewrite Hh in Hcap. destruct Hcap as [Hl Hc]. rewrite Hl1 in Hp1. rewrite Hl2 in Hp2.
    destruct Hp1 as (x1 & -> & _ & Ha1), Hp2 as (x2 & -> & _ & Ha2). destruct Ha1 as [Ha1 Hc1], Ha2 as [Ha2 Hc2]; [lia..|].
    replace webhookOpts with metricsOpts; [done|]. destruct Hw1 as [Hlen1 _], Hw2 as [Hlen2 _].
    rewrite length_app in Hlen1, Hlen2. destruct metricsOpts, webhookOpts. simpl in *. congruence.
  - apply Hk2; [done|]. unfold overwritten in Ho. unfold http2_options in *. destruct (sf_enableHTTP2 fl); [right; right; left; lia|].
    destruct Hcap as [Hl Hc], (Nat.ltb_spec 1 (growth 1)) as [Hg|Hg]; [|right; right; left; lia]. simpl in Ho.
    destruct (0 <? len (sf_webhookCertPath fl)); [|destruct Hp1 as [-> _]; right; left; simpl; lia].
    simpl in Ho. rewrite Ho in Hp2. destruct Hp2 as [-> _]. right. right. by right.
Qed.
End servers_laws.

(** ** Both servers with a certificate *)
#[local] Instance sample_watchers : CertWatchers := {|
  CertWatcher := string * string; certwatcher_New crt key := Ok (crt, key) |}.
Definition sample_server_flags : ServerFlags := {|
  sf_metricsAddr := ":8443"; sf_probeAddr := ":8081"; sf_enableLeaderElection := true; sf_secureMetrics := true;
  sf_webhookCertPath := "/webhook"; sf_webhookCertName := "tls.crt"; sf_webhookCertKey := "tls.key";
  sf_metricsCertPath := "/metrics"; sf_metricsCertName := "tls.crt"; sf_metricsCertKey := "tls.key";
  sf_enableHTTP2 := false |}.
Definition sample_config : tls_Config := {| tls_NextProtos := ["h2"]; tls_GetCertificate := None |}.
(** As in Go: one element fills the array that was made for it. *)
Lemma servers_configured_witness :
  (sf_webhookCertPath sample_server_flags ≠ "") ∧ ∃ so h, serverOptions id sample_server_flags ∅ = (Ok so, h) ∧
    tls_config h (so_webhookTLSOpts so) sample_config =
      {| tls_NextProtos := ["http/1.1"]; tls_GetCertificate := Some ("/webhook/tls.crt", "/webhook/tls.key") |}.
Proof.
  split; [discriminate|]. do 2 eexists. split; [vm_compute; reflexivity|].
  refine (eq_trans (proj1 (proj2 (proj2 (proj2 (servers_configured id (λ n, le_n n) sample_server_flags _ _ sample_config _))))) _);
    vm_compute; reflexivity.
Defined.
(** With room for another element, the webhook server would present the wrong certificate. *)
Example servers_overwritten :
  let '(so, h) := serverOptions (λ n, 2 * n)%nat sample_server_flags ∅ in
  (λ so, tls_GetCertificate (tls_config h (so_webhookTLSOpts so) sample_config)) <$> match so with Ok so => Some so | _ => None end =
    Some (Some ("/metrics/tls.crt", "/metrics/tls.key")).
Proof. vm_compute. reflexivity. Qed.
