(* ===== verification/Scorecard.v ===== *)
(** * The scorecard image

    [internal/images/custom-scorecard-tests/main.go]: the entry point of the image that runs
    the operator's scorecard tests, from its arguments to the results it prints. The tests
    themselves drive a live cluster; they are parameters, as is the reading of the bundle. *)

From S2P Require Export ClientRules.
From S2P Require Import FakeClient.
Open Scope Z_scope.

(** The results of operator-framework's scorecard. *)
Inductive State := PassState | FailState | ErrorState.
Record TestResult := {
  tr_Name : string; tr_Log : string; tr_State : State; tr_Errors : list string; tr_Suggestions : list string }.

Definition OperatorInstallTestName : string := "operator-install".
Definition CryostatCRTestName : string := "cryostat-cr".
Definition CryostatMultiNamespaceTestName : string := "cryostat-multi-namespace".
Definition CryostatRecordingTestName : string := "cryostat-recording".
Definition CryostatConfigChangeTestName : string := "cryostat-config-change".
Definition CryostatReportTestName : string := "cryostat-report".

Class ScorecardTests (W : Type) := {
  Bundle : Type;
  (** the environment of the image's process *)
  test_Getenv : string → string;
  apimanifests_GetBundleFromDir : string → E W Bundle;
  OperatorInstallTest : Bundle → string → bool → M W TestResult;
  CryostatCRTest : Bundle → string → bool → M W TestResult;
  CryostatMultiNamespaceTest : Bundle → string → bool → M W TestResult;
  CryostatRecordingTest : Bundle → string → bool → M W TestResult;
  CryostatConfigChangeTest : Bundle → string → bool → M W TestResult;
  CryostatReportTest : Bundle → string → bool → M W TestResult }.

Definition podBundleRoot : string := "/bundle".

Section main.
Context `{Kube W} `{ScorecardTests W}.
Definition testFn : Type := Bundle → string → bool → M W TestResult.

Definition testLookup : gmap string testFn :=
  let m := ∅ in
  let m := <[OperatorInstallTestName := OperatorInstallTest]> m in
  let m := <[CryostatCRTestName := CryostatCRTest]> m in
  let m := <[CryostatMultiNamespaceTestName := CryostatMultiNamespaceTest]> m in
  let m := <[CryostatRecordingTestName := CryostatRecordingTest]> m in
  let m := <[CryostatConfigChangeTestName := CryostatConfigChangeTest]> m in
  let m := <[CryostatReportTestName := CryostatReportTest]> m in
  m.
(** The keys, in the order of this visit of the map. *)
Definition validTests : M W (list string) :=
  let* entries := go_range (map_to_list testLookup) in
  mretM (foldl (λ keys kv, keys ++ [kv.1]) [] entries).

Definition printValidTests (requests : list string) : M W (list TestResult) :=
  let* valid := validTests in
  let str := "invalid tests requested: " +:+ strings.Join requests "," +:+
             ". valid tests for this image include: " +:+ strings.Join valid "," in
  mretM [{| tr_Name := ""; tr_Log := ""; tr_State := FailState; tr_Errors := [] ++ [str]; tr_Suggestions := [] |}].

Fixpoint validateTests (testNames : list string) : M W bool :=
  match testNames with
  | [] => mretM true
  | testName :: testNames =>
      let* valid := validTests in
      if negb (slices.Contains valid testName) then mretM false else validateTests testNames
  end.

Definition testNamed (testName : string) : res testFn :=
  match testLookup !! testName with
  | Some fn => Ok fn
  | None => Err (Panic ("test name " +:+ dquote +:+ testName +:+ dquote +:+ " could not be resolved"))
  end.

Fixpoint runTests_from (results : list TestResult) (testNames : list string) (bundle : Bundle) (namespace : string)
    (openShiftCertManager : bool) : E W (list TestResult) :=
  match testNames with
  | [] => mretM (Ok results)
  | testName :: testNames =>
      match testNamed testName with
      | Err e => mretM (Err e)
      | Ok test =>
          let* result := test bundle namespace openShiftCertManager in
          runTests_from (results ++ [result]) testNames bundle namespace openShiftCertManager
      end
  end.
Definition runTests := runTests_from [].

(** [log.Fatal] is an error. *)
Definition main_tests (openShiftCertManager listTests : bool) (args : list string) : E W (list TestResult) :=
  let* _ := if listTests then validTests else mretM [] in
  if bool_decide (args = []) then
    mretM (Err (Errorf "specify one or more test name arguments (separated by whitespace), or '*' or 'ALL' to select all" []))
  else
    let* entrypoint := if bool_decide (args = ["*"]) || bool_decide (args = ["ALL"]) then validTests else mretM args in
    let namespace := test_Getenv "SCORECARD_NAMESPACE" in
    if len namespace =? 0 then mretM (Err (Errorf "SCORECARD_NAMESPACE environment variable not set" []))
    else
      let bundleDir := if len (test_Getenv "BUNDLE_DIR") =? 0 then podBundleRoot else test_Getenv "BUNDLE_DIR" in
      let* bundle := apimanifests_GetBundleFromDir bundleDir in
      match bundle with
      | Err e => mretM (Err (Wrapf "failed to read bundle manifest: %s" e))
      | Ok bundle =>
          let* valid := validateTests entrypoint in
          if negb valid then let* results := printValidTests entrypoint in mretM (Ok results)
          else runTests entrypoint bundle namespace openShiftCertManager
      end.
End main.

(** ** Which tests run *)
Section laws.
Context `{KubeLaws W} `{!ScorecardTests W}.

Definition all_tests : list string :=
  [OperatorInstallTestName; CryostatCRTestName; CryostatMultiNamespaceTestName; CryostatRecordingTestName;
   CryostatConfigChangeTestName; CryostatReportTestName].

Lemma testLookup_keys name : is_Some (testLookup !! name) ↔ name ∈ all_tests.
Proof.
  unfold testLookup, all_tests. cbv zeta. rewrite !lookup_insert_is_Some'. rewrite lookup_empty. split.
  - intros Hn. repeat (destruct Hn as [<-|Hn]; [by repeat (left + right)|]). by destruct Hn.
  - intros Hn. repeat (apply elem_of_cons in Hn as [->|Hn]; [tauto|]). by apply elem_of_nil in Hn.
Qed.
Lemma foldl_keys {V} (entries : list (string * V)) acc : foldl (λ keys kv, keys ++ [kv.1]) acc entries = acc ++ entries.*1.
Proof.
  revert acc. induction entries as [|[k v] entries IH]; intros acc; simpl; [by rewrite app_nil_r|].
  by rewrite IH, <-(assoc_L (++)).
Qed.
Lemma validTests_run w l w' : validTests w = (l, w') → l ≡ₚ all_tests ∧ same_store w w'.
Proof.
  intros (entries & w1 & Hr & Hrun)%mbindM_inv. ret_inv Hrun. rewrite foldl_keys. simpl.
  split; [|by eapply range_reads]. apply range_perm in Hr. rewrite Hr. apply NoDup_Permutation.
  - apply NoDup_fst_map_to_list.
  - apply (bool_decide_unpack _). vm_compute. exact I.
  - intros name. rewrite <-testLookup_keys, list_elem_of_fmap. split.
    + intros ([n f] & -> & Hin%elem_of_map_to_list). by eexists.
    + intros [f Hf]. exists (name, f). split; [done|]. by apply elem_of_map_to_list.
Qed.

Definition known (name : string) : bool := bool_decide (name ∈ all_tests).
Lemma validateTests_run names w r w' : validateTests names w = (r, w') → r = forallb known names ∧ same_store w w'.
Proof.
  revert w. induction names as [|name names IH]; intros w Hrun; [ret_inv Hrun; done|].
  apply mbindM_inv in Hrun as (valid & w1 & Hv & Hrun). apply validTests_run in Hv as [Hperm Hs].
  unfold slices.Contains in Hrun. simpl.
  replace (bool_decide (name ∈ valid)) with (known name) in Hrun by (apply bool_decide_ext; by rewrite Hperm).
  destruct (known name); simpl in *; [|by ret_inv Hrun]. apply IH in Hrun as [-> Hs']. split; [done|by trans w1].
Qed.

(** The tests of these names ran one after the other, with these results. *)
Inductive ran (bundle : Bundle) (namespace : string) (certManager : bool) : list string → W → list TestResult → W → Prop :=
| ran_none w : ran bundle namespace certManager [] w [] w
| ran_test name names test w result w1 results w2 :
    testLookup !! name = Some test → test bundle namespace certManager w = (result, w1) →
    ran bundle namespace certManager names w1 results w2 →
    ran bundle namespace certManager (name :: names) w (result :: results) w2.
Lemma runTests_run bundle namespace certManager names acc w r w' : forallb known names = true →
  runTests_from acc names bundle namespace certManager w = (r, w') →
  ∃ results, r = Ok (acc ++ results) ∧ ran bundle namespace certManager names w results w'.
Proof.
  revert acc w. induction names as [|name names IH]; intros acc w Hk Hrun.
  { ret_inv Hrun. exists []. split; [by rewrite app_nil_r|constructor]. }
  simpl in Hk. apply andb_prop in Hk as [Hk Hks]. apply bool_decide_eq_true, testLookup_keys in Hk as [test Ht].
  simpl in Hrun. unfold testNamed in Hrun. rewrite Ht in Hrun. apply mbindM_inv in Hrun as (result & w1 & Hr & Hrun).
  apply IH in Hrun as (results & -> & Hran); [|done]. exists (result :: results).
  split; [by rewrite <-(assoc_L (++))|by econstructor].
Qed.

(** The image runs what it is asked for and nothing else. It never panics on an unknown
    name: one unknown name, and no test runs; the single result is a failure that says so.
    Otherwise every test that was named runs, in the order of the arguments (or each of the
    six once, in some order, for [*] and [ALL]), and there is a result for each. *)
Theorem runs_what_is_asked certManager listTests args w r w' :
  main_tests certManager listTests args w = (r, w') →
  (∀ what, r ≠ Err (Panic what)) ∧
  ∀ results, r = Ok results →
    ∃ names dir bundle w0 w1 w2,
      (if bool_decide (args = ["*"]) || bool_decide (args = ["ALL"]) then names ≡ₚ all_tests else names = args) ∧
      same_store w w0 ∧ apimanifests_GetBundleFromDir dir w0 = (Ok bundle, w1) ∧ same_store w1 w2 ∧
      if forallb known names then ran bundle (test_Getenv "SCORECARD_NAMESPACE") certManager names w2 results w'
      else same_store w2 w' ∧ ∃ result text, results = [result] ∧ tr_State result = FailState ∧ tr_Errors result = [text].
Proof.
  unfold main_tests. intros (l0 & wa & Hlist & Hrun)%mbindM_inv.
  assert (same_store w wa) as Hsa by (destruct listTests; [by apply validTests_run in Hlist as [_ ?]|by ret_inv Hlist]).
  case_bool_decide as Hargs; [by ret_inv Hrun|]. apply mbindM_inv in Hrun as (names & wb & Hnames & Hrun).
  assert ((if bool_decide (args = ["*"]) || bool_decide (args = ["ALL"]) then names ≡ₚ all_tests else names = args) ∧
          same_store wa wb) as [Hn Hsb] by (destruct (_ || _); [by apply validTests_run|by ret_inv Hnames]).
  destruct (_ =? 0); [by ret_inv Hrun|]. apply mbindM_inv in Hrun as ([bundle|e] & wc & Hbundle & Hrun); [|by ret_inv Hrun].
  apply mbindM_inv in Hrun as (valid & wd & Hvalid & Hrun). apply validateTests_run in Hvalid as [-> Hsd].
  destruct (forallb known names) eqn:Hk; cbn [negb] in Hrun.
  - apply runTests_run in Hrun as (results & -> & Hran); [|done]. split; [done|]. intros results' <-%Ok_inj.
    exists names. do 5 eexists. rewrite Hk. refine (conj Hn (conj _ (conj Hbundle (conj Hsd Hran)))). by trans wa.
  - apply mbindM_inv in Hrun as (results & we & Hp & Hrun). ret_inv Hrun. split; [done|]. intros results' <-%Ok_inj.
    exists names. do 5 eexists. rewrite Hk. refine (conj Hn (conj _ (conj Hbundle (conj Hsd _)))); [by trans wa|].
    apply mbindM_inv in Hp as (l & wf & Hv & Hp). ret_inv Hp. apply validTests_run in Hv as [_ Hs]. split; [done|]. by do 2 eexists.
Qed.
End laws.

(** ** Running it: tests that always pass *)
#[local] Instance sample_tests : ScorecardTests fake :=
  let pass (name : string) (b : unit) (ns : string) (c : bool) : M fake TestResult :=
    mretM {| tr_Name := name; tr_Log := ""; tr_State := PassState; tr_Errors := []; tr_Suggestions := [] |} in
  {| Bundle := unit; test_Getenv _ := "test"; apimanifests_GetBundleFromDir _ := mretM (Ok ());
     OperatorInstallTest := pass OperatorInstallTestName; CryostatCRTest := pass CryostatCRTestName;
     CryostatMultiNamespaceTest := pass CryostatMultiNamespaceTestName; CryostatRecordingTest := pass CryostatRecordingTestName;
     CryostatConfigChangeTest := pass CryostatConfigChangeTestName; CryostatReportTest := pass CryostatReportTestName |}.
Definition sample_args : list string := ["cryostat-cr"; "operator-install"].
Definition sample_results : list TestResult :=
  map (λ name, {| tr_Name := name; tr_Log := ""; tr_State := PassState; tr_Errors := []; tr_Suggestions := [] |}) sample_args.
Lemma runs_what_is_asked_witness :
  (main_tests false false sample_args fk_sample).1 = Ok sample_results ∧
  ∃ names w2 w', ran (W := fake) () "test" false names w2 sample_results w'.
Proof.
  split; [vm_compute; reflexivity|].
  destruct (proj2 (runs_what_is_asked (W := fake) false false sample_args fk_sample (Ok sample_results)
    (main_tests false false sample_args fk_sample).2 ltac:(apply run_snd; vm_compute; reflexivity)) _ eq_refl)
    as (names & dir & [] & w0 & w1 & w2 & Hn & _ & _ & _ & Hran).
  simpl in Hn. subst names. exists sample_args, w2. eexists. exact Hran.
Defined.
