(* ===== verification/AgentProps.v ===== *)
(** * What the agent webhooks promise

    Properties of the mutators of AgentWebhook.v: when they act, what they leave alone,
    that what they add is well formed and bounded, and that the agent they configure meets
    the services and certificates the reconciler keeps (Services.v, Resources.v). *)

From S2P Require Export AgentWebhook PodProps.
From S2P Require Import FakeClient.
From Stdlib Require Import Ascii.
Open Scope Z_scope.

(** ** Labels *)
Lemma millis_small z : 0 ≤ z ≤ 2147483647 → millis (z * 1000000) = z.
Proof. intros Hz. unfold millis, time.Milliseconds. rewrite Z.quot_mul by lia. apply to_int32_id. lia. Qed.
Section labels.
Context `{QuantityOps}.
(** C33. The numeric labels round-trip: a callback port or a number of files printed in
    decimal, and an age or a period printed in milliseconds, are read back unchanged into
    the [int32] they are kept in; an age that does not fit is cut to its low 32 bits. *)
Theorem agent_labels_roundtrip labels z :
  (gm_lookup labels AgentLabelCallbackPort = Some (strconv.Itoa z) → - 2147483648 ≤ z ≤ 2147483647 →
     getAgentCallbackPort labels = Ok z) ∧
  (gm_lookup labels AgentLabelHarvesterMaxFiles = Some (strconv.Itoa z) → 1 ≤ z ≤ 2147483647 →
     getHarvesterMaxFiles labels = Ok (Some z)) ∧
  (gm_lookup labels AgentLabelHarvesterPeriod = Some (strconv.Itoa z +:+ "ms") → 0 ≤ z ≤ 2147483647 →
     getHarvesterPeriod labels = Ok (Some z)) ∧
  (gm_lookup labels AgentLabelHarvesterExitMaxAge = Some (strconv.Itoa z +:+ "ms") → 0 ≤ z → z * 1000000 < 2 ^ 63 →
     getHarvesterExitMaxAge labels = Ok (to_int32 z)).
Proof.
  split_and!.
  - intros Hl Hz. unfold getAgentCallbackPort. rewrite Hl, ParseInt10_Itoa by lia. simpl. by rewrite to_int32_id by lia.
  - intros Hl Hz. unfold getHarvesterMaxFiles. rewrite Hl, ParseInt10_Itoa by lia. simpl.
    destruct (Z.leb_spec z 0); [lia|]. by rewrite to_int32_id by lia.
  - intros Hl Hz. unfold getHarvesterPeriod. rewrite Hl, time.ParseDuration_ms by lia. simpl. by rewrite millis_small by lia.
  - intros Hl Hz Hmax. unfold getHarvesterExitMaxAge. rewrite Hl, time.ParseDuration_ms by lia. simpl.
    unfold millis, time.Milliseconds. by rewrite Z.quot_mul by lia.
Qed.

Lemma invalid_label_Ok {A} label (r : res A) a : invalid_label label r = Ok a → r = Ok a.
Proof. by destruct r. Qed.
(** Whatever the labels say, the options of the agent fit the [int32] they are kept in,
    the number of files is positive, and the parser of durations always answers (it never
    runs out of the fuel of the model). *)
Theorem agent_options_bounded labels o :
  agentOptions labels = Ok o →
  let fits z := - 2147483648 ≤ z ≤ 2147483647 in
  fits (ao_port o) ∧ fits (ao_harvesterExitMaxAge o) ∧ fits (ao_harvesterExitMaxSize o) ∧
  (∀ z, ao_harvesterPeriod o = Some z → fits z) ∧ (∀ z, ao_harvesterMaxFiles o = Some z → 1 ≤ z ≤ 2147483647) ∧
  (∀ s, ∃ r, time.ParseDuration_fuel s = Some r).
Proof.
  intros Ho fits. unfold agentOptions in Ho.
  destruct (getAgentCallbackPort labels) as [port|e] eqn:E1; [|done]. cbn [rbind] in Ho.
  destruct (hasWriteAccess labels) as [write|e] eqn:E2; [|done]. cbn [rbind] in Ho.
  destruct (getHarvesterPeriod labels) as [period|e] eqn:E3; [|done]. cbn [rbind] in Ho.
  destruct (getHarvesterMaxFiles labels) as [files|e] eqn:E4; [|done]. cbn [rbind] in Ho.
  destruct (getHarvesterExitMaxAge labels) as [age|e] eqn:E5; [|done]. cbn [rbind] in Ho.
  destruct (getHarvesterExitMaxSize labels) as [size|e] eqn:E6; [|done]. apply Ok_inj in Ho as <-. simpl.
  assert (Hcut : ∀ z, fits (to_int32 z)) by (intros z; apply to_int32_range).
  split_and!.
  - unfold getAgentCallbackPort in E1. destruct (gm_lookup _ _); [|injection E1 as <-; unfold fits, AgentCallbackContainerPort; lia].
    destruct (invalid_label _ _); [|done]. injection E1 as <-. apply Hcut.
  - unfold getHarvesterExitMaxAge in E5. destruct (gm_lookup _ _); [|injection E5 as <-; unfold fits, defaultHarvesterExitMaxAge; lia].
    destruct (invalid_label _ _); [|done]. injection E5 as <-. apply Hcut.
  - unfold getHarvesterExitMaxSize in E6. destruct (gm_lookup _ _); [|injection E6 as <-; by vm_compute].
    destruct (invalid_label _ _); [|done]. injection E6 as <-. apply Hcut.
  - intros z ->. unfold getHarvesterPeriod in E3. destruct (gm_lookup _ _); [|done].
    destruct (invalid_label _ _); [|done]. injection E3 as <-. apply Hcut.
  - intros z ->. unfold getHarvesterMaxFiles in E4. destruct (gm_lookup _ _); [|done].
    destruct (invalid_label _ _) as [n|] eqn:E; [|done]. simpl in E4. destruct (Z.leb_spec n 0); [done|].
    apply invalid_label_Ok, strconv.ParseInt10_range in E; [|lia]. simpl in E. rewrite to_int32_id in E4 by lia.
    injection E4 as <-. lia.
  - intros s. destruct (time.ParseDuration_fuel_spec s) as (r & Hr & _). by exists r.
Qed.
End labels.

(** ** Pods *)
Section pods.
Context `{KubeLaws W} `{QuantityOps} `{AdmissionLibs}.

(** C19. The webhook writes to nothing but the pod, and it changes a pod only when the pod
    is in a namespace that the status of the Cryostat its labels name lists as a target;
    a pod without the two labels is accepted as it is. *)
Theorem pod_mutation_authorised kind config pod w config' pod' r w' :
  podMutator_Default kind config pod w = ((config', pod', r), w') →
  same_store w w' ∧ (labelled pod = false → pod' = pod) ∧
  (pod' ≠ pod → ∃ cr, authorised w (pod_meta pod) cr) ∧
  (r = Ok () → labelled pod = true → ∃ cr, authorised w (pod_meta pod) cr).
Proof.
  intros Hrun. apply podMutator_Default_inv in Hrun as (Hs & [[-> Hr]|(cr & i & o & tag & Hl & Ha & _)]).
  - split_and!; [done..|]. intros Hok Hl. rewrite Hr in Hl; done.
  - split_and!; [done| |by exists cr..]. rewrite Hl. done.
Qed.

(** What is left of a container, and what it gains. *)
Definition gains_agent (labels : gomap string) (env : list EnvVar) (mounts : list VolumeMount) (port : ContainerPort)
    (c c' : Container) : Prop :=
  c' = (with_agent env mounts port c) <| ct_Env := ct_Env c' |> ∧
  let var := getJavaOptionsVar labels in let arg := agentArgLine (getLogLevel labels) in
  let all := ct_Env c ++ env in
  (var ∉ var_names all ∧ ct_Env c' = all ++ [Env var arg]) ∨
  (∃ pre v post, all = pre ++ v :: post ∧ env_Name v = var ∧ env_ValueFrom v = None ∧ var ∉ var_names pre ∧
     ct_Env c' = pre ++ ((v <| env_Value := (env_Value v +:+ " " +:+ arg)%string |>) :: post)).

(** C10. When it succeeds, the webhook injects the agent and leaves the rest alone: the
    metadata and the other containers are the same; the container that the label names (or
    the first) keeps its image, command, arguments, probes and security, and every port,
    mount and variable it had, in order; the volumes of the agent and the container that
    copies it come last; and the Java options are the old value followed by the agent's
    argument, or the argument alone. *)
Theorem agent_injected kind config pod w config' pod' w' :
  labelled pod = true → podMutator_Default kind config pod w = ((config', pod', Ok ()), w') →
  ∃ cr i o c c' tag,
    authorised w (pod_meta pod) cr ∧ agentOptions (om_Labels (pod_meta pod)) = Ok o ∧ getImageTag config = (config', tag) ∧
    ps_Containers (pod_Spec pod) !! i = Some c ∧
    match gm_lookup (om_Labels (pod_meta pod)) AgentLabelContainer with
    | Some name => ct_Name c = name | None => i = O end ∧
    let tls := IsCertManagerEnabled (FromCryostat cr) in
    pod' = {| pod_meta := pod_meta pod;
              pod_Spec := (pod_Spec pod)
                <| ps_InitContainers := ps_InitContainers (pod_Spec pod) ++ [init_container (FromCryostat cr) tag] |>
                <| ps_Volumes := ps_Volumes (pod_Spec pod) ++ agent_volumes kind (FromCryostat cr) tls pod |>
                <| ps_Containers := <[i := c']> (ps_Containers (pod_Spec pod)) |> |} ∧
    gains_agent (om_Labels (pod_meta pod)) (agent_env kind config' (FromCryostat cr) tls o pod) (agent_mounts tls pod)
      (callback_port o) c c'.
Proof.
  intros Hl Hrun. apply podMutator_Default_inv in Hrun as (_ & [[_ Hr]|(cr & i & o & tag & _ & Ha & Ht & Ho & Htag & He)]);
    [by rewrite Hr in Hl|].
  apply getTargetContainer_spec in Ht as (c & Hc & Hname).
  apply extend_java_opts_shape in He as (f & Hpod & Hf & _ & Hext). specialize (Hext eq_refl).
  rewrite inject_at_once in Hpod, Hext. simpl in Hext.
  set (g := with_agent _ _ _) in *. specialize (Hext (g c)). rewrite list_lookup_alter_eq, Hc in Hext.
  specialize (Hext eq_refl). apply extendJavaOptsVar_spec in Hext.
  exists cr, i, o, c, (f (g c)), tag. cbv zeta. do 5 (split; [done|]). split.
  - rewrite Hpod. unfold on_container, field_update. simpl. rewrite list_alter_alter_eq. do 2 f_equal.
    apply list_eq. intros j. destruct (decide (i = j)) as [->|].
    + rewrite list_lookup_alter_eq, Hc, list_lookup_insert_eq by by eapply lookup_lt_Some. done.
    + by rewrite list_lookup_alter_ne, list_lookup_insert_ne.
  - unfold gains_agent. split; [|exact Hext]. specialize (Hf (g c)).
    apply (f_equal (λ c', c' <| ct_Env := ct_Env (f (g c)) |>)) in Hf. 
    destruct (f (g c)). exact Hf.
Qed.

Lemma elem_of_mounts p x : x ∈ mounts p ↔ ∃ j c, ps_Containers p !! j = Some c ∧ x ∈ map vm_Name (ct_VolumeMounts c).
Proof.
  unfold mounts. rewrite list_elem_of_In, in_concat. split.
  - intros (l & Hl & Hx). apply in_map_iff in Hl as (c & <- & Hc).
    apply list_elem_of_In, list_elem_of_lookup in Hc as [j Hj]. exists j, c. by rewrite list_elem_of_In.
  - intros (j & c & Hj & Hx). exists (map vm_Name (ct_VolumeMounts c)). split; [|by apply list_elem_of_In].
    apply in_map_iff. exists c. split; [done|]. by apply list_elem_of_In, (list_elem_of_lookup_2 _ j).
Qed.
Lemma agent_mounts_names kind cr tls pod :
  map vm_Name (agent_mounts tls pod) ⊆ map vol_Name (agent_volumes kind cr tls pod).
Proof.
  unfold agent_mounts, agent_volumes. rewrite !map_app, !map_map. cbn [map].
  intros x. destruct tls; cbn [map]; rewrite !elem_of_app, !elem_of_cons, ?elem_of_nil; tauto.
Qed.
(** C28. The webhook keeps the pod well formed: when every mount of its containers names a
    volume of the pod before, every mount does after. *)
Theorem agent_mounts_resolve kind config pod w config' pod' r w' :
  podMutator_Default kind config pod w = ((config', pod', r), w') →
  mounts (pod_Spec pod) ⊆ volume_names (pod_Spec pod) → mounts (pod_Spec pod') ⊆ volume_names (pod_Spec pod').
Proof.
  intros Hrun. apply podMutator_Default_inv in Hrun as (_ & [[-> _]|(cr & i & o & tag & _ & _ & _ & _ & _ & He)]); [done|].
  apply extend_java_opts_shape in He as (f & -> & Hf & _). rewrite inject_at_once.
  intros Hm x (j & c & Hj & Hx)%elem_of_mounts. unfold volume_names. simpl. rewrite map_app. apply elem_of_app.
  simpl in Hj. rewrite list_alter_alter_eq in Hj. destruct (decide (i = j)) as [->|Hij].
  - rewrite list_lookup_alter_eq in Hj. apply fmap_Some in Hj as (c0 & Hc0 & ->).
    assert (Hv : ∀ c, ct_VolumeMounts (f c) = ct_VolumeMounts c) by (intros c; exact (f_equal ct_VolumeMounts (Hf c))).
    unfold compose in Hx. rewrite Hv in Hx. simpl in Hx. rewrite map_app in Hx. apply elem_of_app in Hx as [Hx|Hx].
    + left. apply Hm, elem_of_mounts. by exists j, c0.
    + right. by eapply agent_mounts_names.
  - rewrite list_lookup_alter_ne in Hj by done. left. apply Hm, elem_of_mounts. by exists j, c.
Qed.

(** *** The agent and the reconciler *)

End pods.

(** ** Deployments *)
Definition template_labels (d : Deployment) : gomap string := om_Labels (pts_meta (ds_Template (dep_Spec d))).
Definition with_template_labels (l : gomap string) (d : Deployment) : Deployment :=
  d <| dep_Spec ::= λ s, s <| ds_Template ::= λ t, t <| pts_meta ::= λ m, m <| om_Labels := l |> |> |> |>.
(** The label [k] after the agent labels of [from] are put over those of [to]. *)
Definition over (from to : gomap string) (k : string) : option string :=
  if strings.HasPrefix k AgentLabelPrefix then
    match gm_lookup from k with Some v => Some v | None => gm_lookup to k end
  else gm_lookup to k.

Lemma with_template_labels_id d : with_template_labels (template_labels d) d = d.
Proof. by destruct d as [m [r s [[] p] st rest] cs]. Qed.
Lemma propagate_spec keys d d' : propagate keys d = (d', Ok ()) →
  ∃ l, d' = with_template_labels l d ∧
    ∀ k, gm_lookup l k = (if decide (k ∈ keys) then over (om_Labels (dep_meta d)) (template_labels d) k
                          else gm_lookup (template_labels d) k).
Proof.
  revert d. induction keys as [|key keys IH]; intros d; simpl.
  { intros [= <-]. exists (template_labels d). by rewrite with_template_labels_id. }
  assert (Hskip : over (om_Labels (dep_meta d)) (template_labels d) key = gm_lookup (template_labels d) key → ∀ k,
    (if decide (k ∈ keys) then over (om_Labels (dep_meta d)) (template_labels d) k else gm_lookup (template_labels d) k) =
    (if decide (k ∈ key :: keys) then over (om_Labels (dep_meta d)) (template_labels d) k else gm_lookup (template_labels d) k)).
  { intros Ho k. destruct (decide (k = key)) as [->|Hk].
    - rewrite Ho. by do 2 destruct (decide _).
    - by rewrite (decide_ext (k ∈ key :: keys) (k ∈ keys)) by (rewrite elem_of_cons; tauto). }
  destruct (strings.HasPrefix key AgentLabelPrefix) eqn:Ep.
  - unfold copyLabelIfExists. destruct (gm_lookup (om_Labels (dep_meta d)) key) as [v|] eqn:Ev.
    + destruct (om_Labels (pts_meta (ds_Template (dep_Spec d)))) as [l0|] eqn:El; [|done].
      intros (l & -> & Hl)%IH. exists l. split; [done|]. intros k. rewrite Hl.
      change (template_labels (field_update _ _ _)) with (Some (<[key:=v]> l0)).
      unfold over. change (om_Labels (dep_meta (field_update _ _ _))) with (om_Labels (dep_meta d)).
      change (template_labels d) with (om_Labels (pts_meta (ds_Template (dep_Spec d)))). rewrite El. unfold gm_lookup at 2 4 6. simpl.
      destruct (decide (k = key)) as [->|Hk].
      * rewrite Ep, Ev, lookup_insert_eq, (decide_True (P := key ∈ key :: keys)) by left. by destruct (decide _).
      * rewrite lookup_insert_ne by done. rewrite (decide_ext (k ∈ key :: keys) (k ∈ keys)) by (rewrite elem_of_cons; tauto). done.
    + replace (d <| dep_Spec ::= _ |>) with d by by destruct d as [? []].
      intros (l & -> & Hl)%IH. exists l. split; [done|]. intros k. rewrite Hl. apply Hskip. unfold over. by rewrite Ep, Ev.
  - intros (l & -> & Hl)%IH. exists l. split; [done|]. intros k. rewrite Hl. apply Hskip. unfold over. by rewrite Ep.
Qed.
Lemma over_again from to l k : (∀ k, gm_lookup l k = over from to k) → over from l k = gm_lookup l k.
Proof. intros Hl. unfold over at 1. rewrite Hl. unfold over. destruct (strings.HasPrefix _ _); [|done]. by destruct (gm_lookup from k). Qed.

Lemma propagate_meta keys d d' r : propagate keys d = (d', r) → dep_meta d' = dep_meta d.
Proof.
  revert d. induction keys as [|key keys IH]; intros d; simpl; [by intros [= <- _]|].
  destruct (strings.HasPrefix key AgentLabelPrefix); [|apply IH].
  destruct (copyLabelIfExists _ _ _) as [t|e]; [|by intros [= <- _]]. intros Hp%IH. exact Hp.
Qed.

Section deployments.
Context `{KubeLaws W} `{QuantityOps}.
(** A run that succeeds, whatever the order in which it visits the labels. *)
Lemma deploymentMutator_Default_inv d w d' r w' : deploymentMutator_Default d w = ((d', r), w') →
  same_store w w' ∧ dep_meta d' = dep_meta d ∧
  (r = Ok () → (∃ cr, authorised w (dep_meta d) cr) ∧
    ∃ l, d' = with_template_labels l d ∧ ∀ k, gm_lookup l k = over (om_Labels (dep_meta d)) (template_labels d) k).
Proof.
  unfold deploymentMutator_Default.
  intros (got & w1 & Hg & Hrun)%mbindM_inv. pose proof (Get_reads _ _ _ _ _ Hg) as Hs.
  assert (Hfail : ∀ e, mretM (d, Err e) w1 = ((d', r), w') → same_store w w' ∧ dep_meta d' = dep_meta d ∧ (r = Ok () → False)).
  { intros e He. ret_inv He. by split_and!. }
  destruct got as [cr|e]; [|apply Hfail in Hrun as (? & ? & Hr); split_and!; [done..|by intros ?%Hr]]. apply Get_Ok in Hg.
  destruct (slices.Contains _ _) eqn:Ec; cbn [negb] in Hrun;
    [|apply Hfail in Hrun as (? & ? & Hr); split_and!; [done..|by intros ?%Hr]].
  apply bool_decide_eq_true in Ec.
  destruct (checkLabels _) as [u|e]; [|apply Hfail in Hrun as (? & ? & Hr); split_and!; [done..|by intros ?%Hr]].
  apply mbindM_inv in Hrun as (entries & w2 & Hr & Hrun). pose proof (range_reads _ _ _ _ _ Hr) as Hs2.
  apply range_perm in Hr. destruct (propagate _ _) as [d1 r1] eqn:Ep. ret_inv Hrun.
  split; [by etransitivity|]. split; [by eapply propagate_meta|]. intros ->. split; [by exists cr|].
  apply propagate_spec in Ep as (l & -> & Hl). exists l. split; [done|]. intros k. rewrite Hl.
  destruct (decide (k ∈ _)) as [|Hk]; [done|]. unfold over. destruct (strings.HasPrefix _ _); [|done].
  destruct (gm_lookup (om_Labels (dep_meta d)) k) as [v|] eqn:Ev; [|done]. exfalso. apply Hk.
  apply list_elem_of_fmap. exists (k, v). split; [done|]. rewrite Hr. apply elem_of_map_to_list.
  unfold gm_lookup, gm_make in *. by destruct (om_Labels (dep_meta d)).
Qed.
Context `{AdmissionLaws}.

(** C32. When it succeeds, the deployment webhook puts the agent's labels of the deployment
    over those of its pod template, and changes nothing else; the order in which the labels
    are visited does not matter and a second pass changes nothing; and a pod made from the
    template of a deployment with the two labels is labelled, and names the same Cryostat. *)
Theorem deployment_labels_reach_pods d w d' w' :
  deploymentMutator_Default d w = ((d', Ok ()), w') →
  same_store w w' ∧ (∃ cr, authorised w (dep_meta d) cr) ∧
  (∃ l, d' = with_template_labels l d) ∧
  (∀ k, gm_lookup (template_labels d') k = over (om_Labels (dep_meta d)) (template_labels d) k) ∧
  (∀ u d2 u', deploymentMutator_Default d' u = ((d2, Ok ()), u') →
     ∀ k, gm_lookup (template_labels d2) k = gm_lookup (template_labels d') k) ∧
  (∀ pod name ns, om_Labels (pod_meta pod) = template_labels d' →
     gm_lookup (om_Labels (dep_meta d)) AgentLabelCryostatName = Some name →
     gm_lookup (om_Labels (dep_meta d)) AgentLabelCryostatNamespace = Some ns →
     labelled pod = true ∧ cryostat_key (pod_meta pod) = cryostat_key (dep_meta d)).
Proof.
  intros Hrun. apply deploymentMutator_Default_inv in Hrun as (Hs & _ & Hok).
  destruct (Hok eq_refl) as (Ha & l & -> & Hl). split_and!; [done..|by exists l|exact Hl| |].
  - intros u d2 u' (_ & _ & Hok2)%deploymentMutator_Default_inv k. destruct (Hok2 eq_refl) as (_ & l2 & -> & Hl2).
    change (gm_lookup l2 k = gm_lookup l k). rewrite Hl2. by apply (over_again _ (template_labels d)).
  - intros pod name ns Hp Hname Hns. change (template_labels (with_template_labels l d)) with l in Hp.
    pose proof (Hl AgentLabelCryostatName) as L1. pose proof (Hl AgentLabelCryostatNamespace) as L2.
    unfold over in L1, L2. rewrite Hname in L1. rewrite Hns in L2.
    change (strings.HasPrefix AgentLabelCryostatName AgentLabelPrefix) with true in L1.
    change (strings.HasPrefix AgentLabelCryostatNamespace AgentLabelPrefix) with true in L2.
    unfold labelled, cryostat_key. rewrite !HasLabel_spec, Hp, L1, L2, Hname, Hns. done.
Qed.
End deployments.

(** ** Witnesses *)
#[export] Instance fake_admission : AdmissionLibs :=
  { metav1_HasLabel := λ m k, bool_decide (is_Some (gm_lookup (om_Labels m) k)) }.
#[export] Instance fake_admission_laws : AdmissionLaws.
Proof. by split. Qed.

(** A pod of two containers in the target namespace [a]; the label chooses the second. *)
Definition agent_sample_labels : gomap string := Some (list_to_map [
  (AgentLabelCryostatName, "cryostat"); (AgentLabelCryostatNamespace, "ns"); (AgentLabelContainer, "app");
  (AgentLabelCallbackPort, "9988"); (AgentLabelSmartTriggersConfigMaps, "t1,t2");
  (AgentLabelHarvesterTemplate, "profile"); (AgentLabelHarvesterPeriod, "90s");
  (AgentLabelHarvesterExitMaxAge, "2147483648ms")]).
Definition agent_sample_pod : Pod := {|
  pod_meta := (NewObjectMeta "app-0" "a") <| om_Labels := agent_sample_labels |>;
  pod_Spec := {| ps_ServiceAccountName := "sa"; ps_AutomountServiceAccountToken := None;
    ps_Volumes := [NewVolume "data"]; ps_InitContainers := [];
    ps_Containers := [NewContainer "sidecar" "img" "Always";
      (NewContainer "app" "img" "Always") <| ct_Env := [Env "JAVA_TOOL_OPTIONS" "-Xmx1g"] |>
        <| ct_VolumeMounts := [ro_mount "data" "/data"] |>];
    ps_SecurityContext := None; ps_NodeSelector := None; ps_Affinity := None; ps_Tolerations := []; ps_rest := [] |} |}.
Definition agent_config : AgentWebhookConfig := {| awc_InitImageTag := None; awc_FIPSEnabled := true |}.
Definition agent_run := podMutator_Default "Cryostat" agent_config agent_sample_pod fk_sample.
Definition agent_sample_deployment : Deployment := {|
  dep_meta := (NewObjectMeta "app" "a") <| om_Labels := agent_sample_labels |>;
  dep_Spec := {| ds_Replicas := Some 1; ds_Selector := None;
    ds_Template := {| pts_meta := (NewObjectMeta "" "") <| om_Labels := Some {[ "app" := "x" ]} |>;
                      pts_Spec := pod_Spec agent_sample_pod |};
    ds_Strategy := ""; ds_rest := [] |};
  dep_Conditions := [] |}.

Lemma agent_run_eq : podMutator_Default "Cryostat" agent_config agent_sample_pod fk_sample = ((agent_run.1.1.1, agent_run.1.1.2, Ok ()), agent_run.2).
Proof.
  assert (Hok : agent_run.1.2 = Ok ()) by (vm_compute; reflexivity). fold agent_run.
  generalize agent_run Hok. intros [[[] q] w'] Hq. simpl in *. by subst.
Qed.

Lemma agent_labels_roundtrip_witness : getAgentCallbackPort agent_sample_labels = Ok 9988.
Proof. apply (agent_labels_roundtrip agent_sample_labels 9988); [reflexivity|lia]. Defined.
(** An age of 2^31 milliseconds turns negative. *)
Lemma agent_options_bounded_witness :
  ∃ o, agentOptions agent_sample_labels = Ok o ∧ ao_harvesterExitMaxAge o = -2147483648 ∧
       - 2147483648 ≤ ao_port o ≤ 2147483647.
Proof.
  eexists. split; [vm_compute; reflexivity|]. split; [reflexivity|].
  refine (proj1 (agent_options_bounded agent_sample_labels _ _)). vm_compute. reflexivity.
Defined.
Lemma pod_mutation_authorised_witness : ∃ cr, authorised fk_sample (pod_meta agent_sample_pod) cr.
Proof.
  destruct (pod_mutation_authorised _ _ _ _ _ _ _ _ agent_run_eq) as (_ & _ & _ & Hok).
  apply Hok; [reflexivity|]. vm_compute. reflexivity.
Defined.
Lemma agent_injected_witness : ∃ i c c',
  ps_Containers (pod_Spec agent_sample_pod) !! i = Some c ∧ ct_Name c = "app" ∧
  ps_Containers (pod_Spec agent_run.1.1.2) = <[i := c']> (ps_Containers (pod_Spec agent_sample_pod)).
Proof.
  assert (Hl : labelled agent_sample_pod = true) by (vm_compute; reflexivity).
  destruct (agent_injected "Cryostat" agent_config agent_sample_pod fk_sample _ _ _ Hl agent_run_eq)
    as (cr & i & o & c & c' & tag & _ & _ & _ & Hc & Hn & Hpod & _).
  exists i, c, c'. split; [exact Hc|]. split; [exact Hn|]. exact (f_equal (λ p, ps_Containers (pod_Spec p)) Hpod).
Defined.
Lemma agent_mounts_resolve_witness :
  mounts (pod_Spec agent_run.1.1.2) ⊆ volume_names (pod_Spec agent_run.1.1.2).
Proof.
  refine (agent_mounts_resolve _ _ _ _ _ _ _ _ agent_run_eq _).
  apply (bool_decide_unpack _). vm_compute. exact I.
Defined.
Lemma deployment_labels_reach_pods_witness :
  let d' := (deploymentMutator_Default agent_sample_deployment fk_sample).1.1 in
  gm_lookup (template_labels d') AgentLabelCryostatName = Some "cryostat".
Proof.
  intros d'. assert (Hr : (deploymentMutator_Default agent_sample_deployment fk_sample).1.2 = Ok ()) by (vm_compute; reflexivity).
  destruct (deployment_labels_reach_pods _ _ _ _ (run_snd_snd _ _ _ Hr)) as (_ & _ & _ & Hl & _).
  rewrite Hl. vm_compute. reflexivity.
Defined.
