(* ===== verification/Deployments.v ===== *)
(** * Deployments

    The part of [internal/controller/reconciler.go] that creates, updates and recreates a
    deployment.  A deployment is first annotated with the hashes of what its pods use; its
    selector cannot change, so a deployment with another selector is deleted and created
    again. *)

From S2P Require Export Recreate Hashing Resources.
From S2P Require Import FakeClient Hash Secrets.
Open Scope Z_scope.

Section deployments.
Context `{Kube W}.

Definition errSelectorModified : error :=
  Sentinel "errSelectorModified" "deployment selector has been modified".

Definition with_template (deploy : Deployment) (t : PodTemplateSpec) : Deployment :=
  deploy <| dep_Spec ::= λ s, s <| ds_Template := t |> |>.

(** The template is annotated in place. *)
Definition annotatedDeployment (deploy : Deployment) : E W Deployment :=
  let? t := AnnotateWithObjRefHashes (om_Namespace (dep_meta deploy)) (ds_Template (dep_Spec deploy)) in
  mretM (Ok (with_template deploy t)).

Definition mutateDeployment (deployCopy : Deployment) (owner : V2.Cryostat) (deploy : Deployment)
  : Deployment * res () :=
  let wanted := dep_Spec deployCopy in
  let deploy : Deployment := deploy <| dep_meta ::= λ m,
    MergeLabelsAndAnnotations m (om_Labels (dep_meta deployCopy)) (om_Annotations (dep_meta deployCopy)) |> in
  match controllerutil_SetControllerReference (V2.cr_meta owner) (dep_meta deploy) with
  | Err e => (deploy, Err e)
  | Ok meta =>
      let deploy : Deployment := deploy <| dep_meta := meta |> in
      let update (deploy : Deployment) : Deployment :=
        deploy <| dep_Spec ::= λ s,
          s <| ds_Replicas := ds_Replicas wanted |>
            <| ds_Strategy := ds_Strategy wanted |>
            <| ds_Template ::= λ t,
                 t <| pts_Spec := pts_Spec (ds_Template wanted) |>
                   <| pts_meta ::= λ m, MergeLabelsAndAnnotations m (om_Labels (pts_meta (ds_Template wanted)))
                                          (om_Annotations (pts_meta (ds_Template wanted))) |> |> |> in
      if CreationTimestamp_IsZero (dep_meta deploy) then
        (update (deploy <| dep_Spec ::= λ s, s <| ds_Selector := ds_Selector wanted |> |>), Ok ())
      else if negb (cmp_Equal (ds_Selector (dep_Spec deploy)) (ds_Selector wanted))
      then (deploy, Err errSelectorModified)
      else (update deploy, Ok ())
  end.

Definition deleteDeployment (deploy : Deployment) : E W () :=
  let* err := client_Delete KDeployment deploy in
  match err with
  | Err e => if kerrors_IsNotFound e then mretM (Ok ()) else mretM (Err e)
  | Ok _ => mretM (Ok ())
  end.
Definition recreateDeployment (createOrUpdateDeployment : Deployment → V2.Cryostat → E W ())
    (deploy : Deployment) (owner : V2.Cryostat) : E W () :=
  do? deleteDeployment deploy in
  createOrUpdateDeployment deploy owner.

Fixpoint createOrUpdateDeployment (fuel : nat) (deploy : Deployment) (owner : V2.Cryostat) : E W () :=
  match fuel with
  | O => mretM (Err out_of_fuel)
  | S fuel =>
      let? deploy := annotatedDeployment deploy in
      let deployCopy := deploy in
      let* ' (_, op) := controllerutil_CreateOrUpdate KDeployment deploy
                          (λ deploy, mretM (mutateDeployment deployCopy owner deploy)) in
      match op with
      | Err e =>
          if decide (e = errSelectorModified)
          then recreateDeployment (createOrUpdateDeployment fuel) deployCopy owner
          else mretM (Err e)
      | Ok _ => mretM (Ok ())
      end
  end.
End deployments.

(** ** Lemmas *)
Section deployment_lemmas.
Context `{KubeLaws W}.
Implicit Types (d : Deployment) (w : W).

Lemma deleteDeployment_gone d w w' :
  unheld w KDeployment (key KDeployment d) → deleteDeployment d w = (Ok (), w') →
  stored w' KDeployment (key KDeployment d) = None.
Proof.
  intros Hh (res & w1 & Hd & Hrun)%mbindM_inv.
  destruct res as [[]|e]; [|destruct (kerrors_IsNotFound e) eqn:He]; ret_inv Hrun;
    eapply (Delete_gone KDeployment); eauto.
Qed.
Lemma touches_deleteDeployment (S : Kind → NamespacedName → Prop) d :
  S KDeployment (key KDeployment d) → touches S (deleteDeployment d).
Proof. intros HS. unfold deleteDeployment. touch. exact HS. Qed.

Lemma keeps_map_merged (dest src : gomap string) : keeps_map src (merge_map dest src).
Proof. intros k v Hv. by apply merge_map_src. Qed.

(** The deployment that is wanted, annotated or not. *)
Section deployment.
Context (want : Deployment) (owner : V2.Cryostat).
Context (Hnew : CreationTimestamp_IsZero (dep_meta want) = true).
#[local] Abbreviation n := (key KDeployment want).
#[local] Abbreviation run := (λ m d, createOrUpdateDeployment m d owner).

Definition annotates (d : Deployment) : Prop :=
  dep_meta d = dep_meta want ∧ ds_Selector (dep_Spec d) = ds_Selector (dep_Spec want) ∧
  ds_Replicas (dep_Spec d) = ds_Replicas (dep_Spec want) ∧
  om_Labels (pts_meta (ds_Template (dep_Spec d))) = om_Labels (pts_meta (ds_Template (dep_Spec want))) ∧
  pts_Spec (ds_Template (dep_Spec d)) = pts_Spec (ds_Template (dep_Spec want)).

(** The hashes of what is stored in [w]. *)
Definition carries_hashes w (annotations : gomap string) : Prop :=
  ∃ ss cs,
    all_stored w KSecret (om_Namespace (dep_meta want))
      (toSortedSlice (used_secrets (pts_Spec (ds_Template (dep_Spec want))))) ss ∧
    all_stored w KConfigMap (om_Namespace (dep_meta want))
      (toSortedSlice (used_configMaps (pts_Spec (ds_Template (dep_Spec want))))) cs ∧
    gm_lookup annotations annotationSecretHash =
      Some (hex_of (sha256.Sum256 (data_text KSecret secret_json ss))) ∧
    gm_lookup annotations annotationConfigMapHash =
      Some (hex_of (fnv.Sum128 (data_text KConfigMap configMap_json cs))).

Lemma annotatedDeployment_ran d w q w' :
  annotates d → annotatedDeployment d w = (q, w') →
  same_store w w' ∧ (∀ e, q = Err e → foreign e) ∧
  ∀ b, q = Ok b → annotates b ∧ carries_hashes w (om_Annotations (pts_meta (ds_Template (dep_Spec b)))).
Proof.
  intros (Em & Es & Er & El & Ep) Hrun.
  apply mtry_inv in Hrun as [(t & w1 & Ht & Hrun)|(e & Ht & ->)];
    apply AnnotateWithObjRefHashes_spec in Ht as [Hs Ht].
  2:{ split; [done|]. split; [by intros e' [= <-]|done]. }
  ret_inv Hrun. split; [done|]. split; [done|]. intros b [= <-].
  destruct Ht as (ss & cs & Hss & Hcs & ->). rewrite Em, Ep in Hss. rewrite Em, Ep in Hcs. split.
  - by split_and!.
  - exists ss, cs. split; [done|]. split; [done|]. split; [apply annotated_hash|].
    exact (lookup_insert_eq (<[annotationSecretHash := _]> (gm_make _)) _ _).
Qed.
Lemma annotatedDeployment_ready d w q w' :
  annotates d → annotatedDeployment d w = (q, w') →
  same_store w w' ∧ q ≠ Err errSelectorModified ∧ ∀ b, q = Ok b → annotates b ∧ annotates b.
Proof.
  intros Hd Hrun. apply annotatedDeployment_ran in Hrun as (Hs & He & Hb); [|done].
  split; [done|]. split; [intros E; by apply He in E|]. intros b [? _]%Hb. done.
Qed.

Lemma createOrUpdateDeployment_step m a w : run (S m) a w =
  managed_step KDeployment annotatedDeployment (λ b, b) (λ b, mutateDeployment b owner)
    errSelectorModified deleteDeployment (λ b, b) (run m) a w.
Proof.
  simpl. unfold managed_step, managed_apply, mtry, mbindM, mretM.
  destruct (annotatedDeployment a w) as [[b|e] w1]; [|done].
  destruct (controllerutil_CreateOrUpdate KDeployment b _ w1) as [[o [op|e]] w2]; [done|].
  simpl. by destruct (decide (e = errSelectorModified)).
Qed.

Lemma mutateDeployment_fresh b :
  annotates b → (mutateDeployment b owner b).2 ≠ Err errSelectorModified.
Proof.
  intros (Em & _). unfold mutateDeployment.
  destruct (controllerutil_SetControllerReference _ _) as [m|e] eqn:E.
  - apply SetControllerReference_fields in E as (_ & _ & Ez & _).
    assert (Hz : CreationTimestamp_IsZero m = true) by (rewrite Ez; transitivity (CreationTimestamp_IsZero (dep_meta b)); [reflexivity|by rewrite Em]).
    cbv zeta. change (CreationTimestamp_IsZero (dep_meta (_ <| dep_meta := m |>))) with (CreationTimestamp_IsZero m).
    by rewrite Hz.
  - apply SetControllerReference_foreign in E. by intros [= ->].
Qed.

(** What the callback makes of a deployment. *)
Lemma mutateDeployment_Ok b base o1 :
  mutateDeployment b owner base = (o1, Ok ()) →
  ds_Selector (dep_Spec o1) = ds_Selector (dep_Spec b) ∧ ds_Replicas (dep_Spec o1) = ds_Replicas (dep_Spec b) ∧
  keeps_map (om_Labels (pts_meta (ds_Template (dep_Spec b)))) (om_Labels (pts_meta (ds_Template (dep_Spec o1)))) ∧
  keeps_map (om_Annotations (pts_meta (ds_Template (dep_Spec b))))
            (om_Annotations (pts_meta (ds_Template (dep_Spec o1)))) ∧
  metav1_IsControlledBy (dep_meta o1) (V2.cr_meta owner) = true.
Proof.
  unfold mutateDeployment. intros Hf.
  destruct (controllerutil_SetControllerReference _ _) as [m|e] eqn:E in Hf; [|done].
  apply SetControllerReference_Ok in E as [_ Hc]. cbv zeta in Hf.
  assert (Hkept : ∀ t t' : gomap string, keeps_map t (merge_map t' t)) by (intros; apply keeps_map_merged).
  destruct (CreationTimestamp_IsZero _) in Hf.
  - injection Hf as <-. split_and!; try done; apply Hkept.
  - match type of Hf with (if negb ?x then _ else _) = _ => destruct x eqn:Eq end; [|done].
    apply cmp_Equal_sound in Eq. injection Hf as <-. split_and!; try done; apply Hkept.
Qed.

Lemma annotates_key b : annotates b → key KDeployment b = n.
Proof. intros [Em _]. unfold key. simpl. by rewrite Em. Qed.

#[local] Ltac side := first [ done | intros ? ? ? ?; apply annotatedDeployment_ready
  | apply annotates_key | apply mutateDeployment_fresh | by intros []
  | intros b u u' Hb; rewrite <-(annotates_key b Hb); apply deleteDeployment_gone
  | intros b Hb; rewrite <-(annotates_key b Hb); by apply touches_deleteDeployment ].

Lemma createOrUpdateDeployment_enough m w :
  unheld w KDeployment n → run (S (S m)) want w = run recreate_fuel want w.
Proof.
  apply (managed_enough KDeployment n annotates annotates _ _ _ _ _ _ run createOrUpdateDeployment_step); side.
Qed.
Lemma createOrUpdateDeployment_ok w w' :
  quiet w KDeployment n → run recreate_fuel want w = (Ok (), w') →
  ∃ b base o1 got a1 u u', annotates b ∧ mutateDeployment b owner base = (o1, Ok ()) ∧
    stored w' KDeployment n = Some got ∧ kept KDeployment o1 got ∧ annotates a1 ∧
    annotatedDeployment a1 u = (Ok b, u') ∧ same_except (only KDeployment n) w u.
Proof.
  intros Hq Hrun.
  apply (managed_ok_ran KDeployment n annotates annotates _ _ _ _ _ _ run (λ _, eq_refl)
    createOrUpdateDeployment_step) with (T := only KDeployment n)
    in Hrun as (b & base & o1 & got & a1 & u & u' & Hb & Hf & _ & Hg & Hk & Ha & Hp & Hu); [|side..].
  by exists b, base, o1, got, a1, u, u'.
Qed.
Lemma touches_createOrUpdateDeployment (S : Kind → NamespacedName → Prop) m :
  S KDeployment n → touches S (run m want).
Proof.
  intros HS. apply (touches_managed KDeployment n annotates annotates _ _ _ _ _ _ run (λ _, eq_refl)
    createOrUpdateDeployment_step); try side.
  intros b Hb. apply touches_deleteDeployment. by rewrite (annotates_key b Hb).
Qed.
End deployment.

Lemma all_stored_eq w w' k ns names os :
  (∀ n, stored w' k n = stored w k n) → all_stored w' k ns names os → all_stored w k ns names os.
Proof. intros E Hos. eapply Forall2_impl; [exact Hos|]. intros name o Ho. by rewrite <-E. Qed.
End deployment_lemmas.

(** ** Properties *)
Section deployment_properties.
Context `{KubeLaws W}.

(** C21. After a successful call the stored deployment has the wanted selector and replica
    count and belongs to the CR; it selects its own pods if the wanted one does; and its
    pods carry the hashes of the data that the secrets and config maps they use had when
    the call started.  The deployment must not be held by a finalizer or under deletion when
    the call starts. *)
Theorem createOrUpdateDeployment_spec want owner w w' :
  CreationTimestamp_IsZero (dep_meta want) = true → quiet w KDeployment (key KDeployment want) →
  createOrUpdateDeployment recreate_fuel want owner w = (Ok (), w') →
  ∃ got, stored w' KDeployment (key KDeployment want) = Some got ∧
    ds_Selector (dep_Spec got) = ds_Selector (dep_Spec want) ∧
    ds_Replicas (dep_Spec got) = ds_Replicas (dep_Spec want) ∧
    metav1_IsControlledBy (dep_meta got) (V2.cr_meta owner) = true ∧
    (selected want → selected got) ∧
    carries_hashes want w (om_Annotations (pts_meta (ds_Template (dep_Spec got)))).
Proof.
  intros Hnew Hq Hrun.
  apply createOrUpdateDeployment_ok in Hrun
    as (b & base & o1 & got & a1 & u & u' & (_ & Es & Er & El & _) & Hf & Hgot & [(_ & _ & Hrefs) Hk] & Ha & Hb & Hu);
    [|done..].
  apply mutateDeployment_Ok in Hf as (Ms & Mr & Ml & Ma & Mc). destruct Hk as (Ks & Kr & Kl & Ka).
  exists got. split; [done|]. split; [by rewrite Ks, Ms, Es|]. split; [by rewrite Kr, Mr, Er|]. split; [|split].
  - rewrite (IsControlledBy_refs _ (dep_meta o1)); [exact Mc|exact Hrefs].
  - intros Hsel k v. rewrite Ks, Ms, Es. intros Hkv%Hsel. apply Kl, Ml. by rewrite El.
  - apply (annotatedDeployment_ran want) in Hb as (_ & _ & Hb); [|done].
    destruct (Hb b eq_refl) as [_ (ss & cs & Hss & Hcs & H1 & H2)].
    exists ss, cs. split_and!; [| |by apply Ka, Ma..].
    + eapply all_stored_eq; [|exact Hss]. intros n. apply (same_except_out _ _ _ _ _ Hu). by intros [].
    + eapply all_stored_eq; [|exact Hcs]. intros n. apply (same_except_out _ _ _ _ _ Hu). by intros [].
Qed.

(** C38. A deployment is recreated at most once: as long as no finalizer holds it back,
    two attempts give the outcome of any larger number. *)
Theorem createOrUpdateDeployment_terminates want owner m w :
  CreationTimestamp_IsZero (dep_meta want) = true → unheld w KDeployment (key KDeployment want) →
  createOrUpdateDeployment (2 + m) want owner w = createOrUpdateDeployment recreate_fuel want owner w.
Proof. intros Hnew. by apply (createOrUpdateDeployment_enough want owner Hnew). Qed.
End deployment_properties.

(** ** Witnesses *)

(** A deployment whose pods mount a secret, over one with another selector. *)
Definition sample_deployment : Deployment :=
  deployment_around sample_cr "cryostat" "cryostat" "cryostat" "cryostat-operator-controller" (CorePodLabels sample_cr)
    {| ps_ServiceAccountName := "sa"; ps_AutomountServiceAccountToken := None;
       ps_Volumes := [(NewVolume "v") <| vol_Secret := Some {| svo_SecretName := "s"; svo_Items := []; svo_DefaultMode := None |} |>];
       ps_InitContainers := []; ps_Containers := []; ps_SecurityContext := None;
       ps_NodeSelector := None; ps_Affinity := None; ps_Tolerations := []; ps_rest := [] |} 1 "Recreate".
Definition deployed_world : fake :=
  fk_put KSecret (nn "ns" "s") ((NewSecret "s" "ns") <| sec_Data := Some {[ "k" := "v" ]} |>)
    (fk_put KDeployment (nn "ns" "cryostat")
       (sample_deployment <| dep_Spec ::= λ s, s <| ds_Selector := None |> |>) fk_sample).
Lemma deployed_world_quiet n : quiet deployed_world KDeployment n.
Proof. apply fk_quiet. apply (bool_decide_unpack _). exact I. Qed.

Lemma createOrUpdateDeployment_spec_witness :
  ∃ got, stored (createOrUpdateDeployment recreate_fuel sample_deployment sample_Cryostat deployed_world).2
           KDeployment (nn "ns" "cryostat") = Some got ∧
    selected got ∧ carries_hashes sample_deployment deployed_world (om_Annotations (pts_meta (ds_Template (dep_Spec got)))).
Proof.
  destruct (createOrUpdateDeployment_spec sample_deployment sample_Cryostat deployed_world
    (createOrUpdateDeployment recreate_fuel sample_deployment sample_Cryostat deployed_world).2)
    as (got & Hgot & _ & _ & _ & Hsel & Hh).
  - reflexivity.
  - apply deployed_world_quiet.
  - apply run_snd. vm_compute. reflexivity.
  - exists got. split; [exact Hgot|]. split; [apply Hsel, deployment_around_selected|exact Hh].
Defined.

Lemma createOrUpdateDeployment_terminates_witness :
  createOrUpdateDeployment 7 sample_deployment sample_Cryostat deployed_world =
  createOrUpdateDeployment recreate_fuel sample_deployment sample_Cryostat deployed_world.
Proof.
  apply (createOrUpdateDeployment_terminates sample_deployment sample_Cryostat 5);
    [reflexivity | apply quiet_unheld, deployed_world_quiet].
Defined.
