(* ===== verification/Conditions.v ===== *)
(** * Conditions of the CR

    The helpers of [internal/controller/reconciler.go] that write conditions to the CR's
    status: directly, and from the conditions of a deployment.  The mapping from the CR's
    condition types to a deployment's is a Go map, visited in an unspecified order. *)

From S2P Require Export Secrets.
From S2P Require Import FakeClient.
Open Scope Z_scope.

Section conditions.
Context `{Kube W}.
Implicit Types (cr : CryostatInstance).

Definition deploymentConditionTypeMap : Type := list (string * string).
Definition DeploymentAvailable : string := "Available".
Definition DeploymentProgressing : string := "Progressing".
Definition DeploymentReplicaFailure : string := "ReplicaFailure".

Definition mainDeploymentConditions : deploymentConditionTypeMap :=
  [(V2.ConditionTypeMainDeploymentAvailable, DeploymentAvailable);
   (V2.ConditionTypeMainDeploymentProgressing, DeploymentProgressing);
   (V2.ConditionTypeMainDeploymentReplicaFailure, DeploymentReplicaFailure)].
Definition databaseDeploymentConditions : deploymentConditionTypeMap :=
  [(V2.ConditionTypeDatabaseDeploymentAvailable, DeploymentAvailable);
   (V2.ConditionTypeDatabaseDeploymentProgressing, DeploymentProgressing);
   (V2.ConditionTypeDatabaseDeploymentReplicaFailure, DeploymentReplicaFailure)].
Definition storageDeploymentConditions : deploymentConditionTypeMap :=
  [(V2.ConditionTypeStorageDeploymentAvailable, DeploymentAvailable);
   (V2.ConditionTypeStorageDeploymentProgressing, DeploymentProgressing);
   (V2.ConditionTypeStorageDeploymentReplicaFailure, DeploymentReplicaFailure)].
Definition reportsDeploymentConditions : deploymentConditionTypeMap :=
  [(V2.ConditionTypeReportsDeploymentAvailable, DeploymentAvailable);
   (V2.ConditionTypeReportsDeploymentProgressing, DeploymentProgressing);
   (V2.ConditionTypeReportsDeploymentReplicaFailure, DeploymentReplicaFailure)].

Definition set_conditions cr (f : list Condition → list Condition) : CryostatInstance :=
  set_status cr (λ st, st <| V2.st_Conditions ::= f |>).

Definition updateCondition cr (condType status reason message : string) : CrE () :=
  Status_Update (set_conditions cr (λ l, meta_SetStatusCondition l
    {| cond_Type := condType; cond_Status := status; cond_Reason := reason; cond_Message := message |})).

Definition removeConditionIfPresent cr (condTypes : list string) : CryostatInstance :=
  foldl (λ cr ct,
    match meta_FindStatusCondition (V2.st_Conditions (ci_Status cr)) ct with
    | Some _ => set_conditions cr (λ l, meta_RemoveStatusCondition l ct)
    | None => cr
    end) cr condTypes.

Fixpoint findDeployCondition (conditions : list DeploymentCondition) (condType : string)
  : option DeploymentCondition :=
  match conditions with
  | [] => None
  | condition :: conditions =>
      if bool_decide (dc_Type condition = condType) then Some condition
      else findDeployCondition conditions condType
  end.

(** One entry of the mapping. *)
Definition associateCondition (conditions : list DeploymentCondition) cr (entry : string * string)
  : CryostatInstance :=
  match findDeployCondition conditions entry.2 with
  | None => removeConditionIfPresent cr [entry.1]
  | Some condition =>
      set_conditions cr (λ l, meta_SetStatusCondition l
        {| cond_Type := entry.1; cond_Status := dc_Status condition;
           cond_Reason := dc_Reason condition; cond_Message := dc_Message condition |})
  end.
Definition updateConditionsFromDeployment cr (deployKey : NamespacedName)
    (mapping : deploymentConditionTypeMap) : CrE () :=
  let* deploy := client_Get KDeployment deployKey in
  match deploy with
  | Err e => mretM (cr, Err e)
  | Ok deploy =>
      let* entries := go_range mapping in
      Status_Update (foldl (associateCondition (dep_Conditions deploy)) cr entries)
  end.
End conditions.

(** ** Lemmas *)
Section condition_lemmas.
Context `{KubeLaws W}.
Implicit Types (cr : CryostatInstance) (w : W).

Lemma touches_updateCondition (S : Kind → NamespacedName → Prop) cr t s r m :
  S KCryostat (key KCryostat (ci_Object cr)) → touches S (updateCondition cr t s r m).
Proof. apply (touches_Status_Update _ (set_conditions cr _)). Qed.

(** Only the conditions of the CR in memory change. *)
Definition same_but_conditions cr cr' : Prop := ∃ f, cr' = set_conditions cr f.
#[export] Instance same_but_conditions_preorder : PreOrder same_but_conditions.
Proof.
  split.
  - intros cr. exists (λ l, l). by destruct cr as [? ? ? [? ? []]].
  - intros a b c [f ->] [g ->]. exists (g ∘ f). by destruct a as [? ? ? [? ? []]].
Qed.
Lemma removeConditionIfPresent_same cr l : same_but_conditions cr (removeConditionIfPresent cr l).
Proof.
  unfold removeConditionIfPresent. revert cr. induction l as [|t l IH]; intros cr; [reflexivity|]. simpl.
  destruct (meta_FindStatusCondition _ t); [|apply IH].
  transitivity (set_conditions cr (λ l, meta_RemoveStatusCondition l t)); [by eexists|apply IH].
Qed.
Lemma associateCondition_same l entries cr : same_but_conditions cr (foldl (associateCondition l) cr entries).
Proof.
  revert cr. induction entries as [|e entries IH]; intros cr; [reflexivity|]. simpl.
  transitivity (associateCondition l cr e); [|apply IH]. unfold associateCondition.
  destruct (findDeployCondition l e.2); [by eexists|apply removeConditionIfPresent_same].
Qed.
Lemma same_but_conditions_key cr cr' : same_but_conditions cr cr' →
  key KCryostat (ci_Object cr') = key KCryostat (ci_Object cr).
Proof. by intros [f ->]. Qed.

Lemma touches_updateConditionsFromDeployment (S : Kind → NamespacedName → Prop) cr n mapping :
  S KCryostat (key KCryostat (ci_Object cr)) → touches S (updateConditionsFromDeployment cr n mapping).
Proof.
  intros HS. apply touches_bind; [apply touches_Get|]. intros [d|e]; [|apply touches_ret].
  apply touches_bind; [apply touches_range|]. intros entries. apply touches_Status_Update.
  by rewrite (same_but_conditions_key _ _ (associateCondition_same _ _ cr)).
Qed.

(** *** What a fold over the mapping leaves *)
Definition find_condition cr (t : string) : option Condition :=
  meta_FindStatusCondition (V2.st_Conditions (ci_Status cr)) t.
Definition condition_of (t : string) (c : DeploymentCondition) : Condition :=
  {| cond_Type := t; cond_Status := dc_Status c; cond_Reason := dc_Reason c; cond_Message := dc_Message c |}.

Lemma associateCondition_find l cr e t :
  find_condition (associateCondition l cr e) t =
  if bool_decide (t = e.1) then condition_of e.1 <$> findDeployCondition l e.2 else find_condition cr t.
Proof.
  unfold associateCondition, find_condition, removeConditionIfPresent. cbn [foldl].
  destruct (findDeployCondition l e.2) as [c|]; [apply SetStatusCondition_find|].
  destruct (meta_FindStatusCondition (V2.st_Conditions (ci_Status cr)) e.1) eqn:E.
  - apply RemoveStatusCondition_find.
  - case_bool_decide; by subst.
Qed.
Lemma associate_find l entries cr t : NoDup (map fst entries) →
  find_condition (foldl (associateCondition l) cr entries) t =
  match list_find (λ e, e.1 = t) entries with
  | Some (_, e) => condition_of t <$> findDeployCondition l e.2
  | None => find_condition cr t
  end.
Proof.
  revert cr. induction entries as [|e entries IH]; intros cr Hnd; [done|].
  simpl in Hnd. apply NoDup_cons in Hnd as [Hn Hnd]. simpl. rewrite IH by done.
  destruct (decide (e.1 = t)) as [<-|Hne].
  - destruct (list_find (λ e0, e0.1 = e.1) entries) as [[i e']|] eqn:E.
    + apply list_find_Some in E as (Hi & He & _). destruct Hn. rewrite <-He.
      apply (list_elem_of_fmap_2 fst). by eapply list_elem_of_lookup_2.
    + rewrite associateCondition_find. by rewrite bool_decide_true.
  - destruct (list_find (λ e0, e0.1 = t) entries) as [[i e']|]; [done|].
    rewrite associateCondition_find. by rewrite bool_decide_false.
Qed.
(** Every entry of the mapping is mirrored, in whatever order the map is visited. *)
Lemma associate_mirrors l mapping entries cr t : NoDup (map fst mapping) → entries ≡ₚ mapping →
  let cr1 := foldl (associateCondition l) cr entries in
  (∀ dt, (t, dt) ∈ mapping → find_condition cr1 t = condition_of t <$> findDeployCondition l dt) ∧
  (t ∉ map fst mapping → find_condition cr1 t = find_condition cr t).
Proof.
  intros Hnd Hp cr1. rewrite <-(Permutation_map fst Hp) in *.
  assert (E : find_condition cr1 t = _) by by apply associate_find. rewrite E.
  destruct (list_find (λ e, e.1 = t) entries) as [[i [t' d]]|] eqn:F; split; try done.
  - intros dt Hin. rewrite <-Hp in Hin. apply list_find_Some in F as (Hi & <- & _).
    apply list_elem_of_lookup_2 in Hi. by rewrite (NoDup_fst_functional entries t' d dt).
  - intros Ht. apply list_find_Some in F as (Hi & <- & _). destruct Ht.
    apply (list_elem_of_fmap_2 fst). by eapply list_elem_of_lookup_2.
  - intros dt Hin. apply list_find_None in F. rewrite Forall_forall in F. rewrite <-Hp in Hin. by destruct (F (t, dt)).
Qed.
Lemma updateConditionsFromDeployment_run cr n mapping w cr' w' :
  updateConditionsFromDeployment cr n mapping w = ((cr', Ok ()), w') →
  ∃ deploy entries got, stored w KDeployment n = Some deploy ∧ entries ≡ₚ mapping ∧
    same_except (only KCryostat (key KCryostat (ci_Object cr))) w w' ∧
    stored w' KCryostat (key KCryostat (ci_Object cr)) = Some got ∧ ci_Object cr' = got ∧
    V2.cr_Status got = ci_Status (foldl (associateCondition (dep_Conditions deploy)) cr entries).
Proof.
  intros Hall. pose proof (touches_updateConditionsFromDeployment
    (only KCryostat (key KCryostat (ci_Object cr))) cr n mapping ltac:(done) _ _ _ Hall) as Hw.
  apply mbindM_inv in Hall as ([deploy|e] & w1 & Hg & Hrun); [|ret_inv Hrun]. apply (Get_Ok KDeployment) in Hg.
  apply mbindM_inv in Hrun as (entries & w2 & Hr & Hrun). apply range_perm in Hr.
  apply mbindM_inv in Hrun as ([got err] & w3 & Hu & Hrun). ret_inv Hrun.
  apply StatusUpdate_Ok in Hu as (Hst & Hs & _).
  rewrite (same_but_conditions_key cr _ (associateCondition_same _ _ cr)) in Hst.
  exists deploy, entries, got. by split_and!.
Qed.
End condition_lemmas.

(** ** Properties *)
Section condition_properties.
Context `{KubeLaws W}.

(** After a successful call the stored CR mirrors the deployment: each condition of
    the mapping is the deployment's condition of the associated type, or absent when the
    deployment has none; every other condition is as it was; and this does not depend on
    the order in which the map is visited. *)
Theorem updateConditionsFromDeployment_spec cr deployKey mapping w cr' w' :
  NoDup (map fst mapping) →
  updateConditionsFromDeployment cr deployKey mapping w = ((cr', Ok ()), w') →
  ∃ deploy got,
    stored w KDeployment deployKey = Some deploy ∧
    stored w' KCryostat (key KCryostat (ci_Object cr)) = Some got ∧ ci_Object cr' = got ∧
    (∀ t dt, (t, dt) ∈ mapping →
       find_condition cr' t = condition_of t <$> findDeployCondition (dep_Conditions deploy) dt) ∧
    ∀ t, t ∉ map fst mapping → find_condition cr' t = find_condition cr t.
Proof.
  intros Hnd (deploy & entries & got & Hd & Hp & _ & Hst & Ho & Hs)%updateConditionsFromDeployment_run.
  assert (Hfind : ∀ t, find_condition cr' t = find_condition (foldl (associateCondition (dep_Conditions deploy)) cr entries) t)
    by (intros t; unfold find_condition, ci_Status; by rewrite Ho, Hs).
  exists deploy, got. repeat split; try done; intros t; rewrite Hfind; by apply associate_mirrors.
Qed.
End condition_properties.

(** ** Witness *)
Definition conditions_world : fake :=
  fk_put KDeployment (nn "ns" "cryostat")
    {| dep_meta := NewObjectMeta "cryostat" "ns";
       dep_Spec := {| ds_Replicas := None; ds_Selector := None; ds_Strategy := ""; ds_rest := [];
         ds_Template := {| pts_meta := NewObjectMeta "" ""; pts_Spec := {|
           ps_ServiceAccountName := ""; ps_AutomountServiceAccountToken := None; ps_Volumes := [];
           ps_InitContainers := []; ps_Containers := []; ps_SecurityContext := None; ps_NodeSelector := None;
           ps_Affinity := None; ps_Tolerations := []; ps_rest := [] |} |} |};
       dep_Conditions := [{| dc_Type := "Progressing"; dc_Status := "True"; dc_Reason := "r"; dc_Message := "m" |}] |}
    fk_sample.
Definition conditions_run := updateConditionsFromDeployment sample_cr (nn "ns" "cryostat") mainDeploymentConditions conditions_world.
Lemma updateConditionsFromDeployment_spec_witness :
  find_condition conditions_run.1.1 "MainDeploymentProgressing" =
    Some {| cond_Type := "MainDeploymentProgressing"; cond_Status := "True"; cond_Reason := "r"; cond_Message := "m" |} ∧
  find_condition conditions_run.1.1 "MainDeploymentAvailable" = None.
Proof.
  destruct (updateConditionsFromDeployment_spec sample_cr (nn "ns" "cryostat") mainDeploymentConditions
    conditions_world conditions_run.1.1 conditions_run.2) as (d & got & Hd & _ & _ & Hin & _).
  - apply (bool_decide_unpack _). vm_compute. exact I.
  - apply run_snd_snd. vm_compute. reflexivity.
  - injection Hd as <-. split.
    + rewrite (Hin _ DeploymentProgressing); [reflexivity|]. right. left.
    + rewrite (Hin _ DeploymentAvailable); [reflexivity|]. left.
Defined.
