(* ===== verification/Reconciler.v ===== *)
(** * The reconciler

    [internal/controller/reconciler.go] and [cryostat_controller.go]: a pass over a Cryostat
    custom resource, its finalization, the TLS condition, the database, the storage and the
    reports, and the requests made for the objects of the target namespaces.

    The CR in memory goes through the pass: every update answers with the server's object,
    and the functions that read or write it return the instance they leave. *)

From S2P Require Export Pods Certmanager ConfigMaps Services NetworkPolicies Pvc Openshift Deployments Conditions Url.
From S2P Require Import FakeClient.
From Stdlib Require Import Ascii.
Open Scope Z_scope.

(** [reconcile.Result]; a delay in seconds, zero for none. *)
Record Result := { RequeueAfter : Z }.
Definition zero_Result : Result := {| RequeueAfter := 0 |}.

Definition cryostatFinalizer : string := "operator.cryostat.io/cryostat.finalizer".
Definition reasonWaitingForCert : string := "WaitingForCertificate".
Definition reasonAllCertsReady : string := "AllCertificatesReady".
Definition reasonCertManagerDisabled : string := "CertManagerDisabled".

(** ** The kinds of objects that are watched *)
Definition ownedKinds (r : Reconciler) : list Kind :=
  [KDeployment; KService; KConfigMap; KSecret; KPVC; KServiceAccount; KRole; KRoleBinding; KIngress] ++
  (if r_IsOpenShift r then [KRoute] else []) ++
  (if r_IsCertManagerInstalled r then [KIssuer; KCertificate] else []).
Definition targetNamespaceKinds : list Kind := [KRoleBinding; KSecret; KService].

(** ** Requests for the objects of the target namespaces *)
Definition LabelSelectorOpExists : string := "Exists".
Definition targetNamespaceSelector : LabelSelector := {|
  ls_MatchLabels := None;
  ls_MatchExpressions := map (λ label, {| lsr_Key := label; lsr_Operator := LabelSelectorOpExists; lsr_Values := [] |})
    [TargetNamespaceCRNameLabel; TargetNamespaceCRNamespaceLabel] |}.
(** What such a selector accepts: every key is there. *)
Definition selector_exists (s : LabelSelector) (labels : gomap string) : bool :=
  forallb (λ e, bool_decide (lsr_Operator e = LabelSelectorOpExists) &&
                bool_decide (is_Some (gm_lookup labels (lsr_Key e)))) (ls_MatchExpressions s).
Definition targetNamespacePredicate (m : ObjectMeta) : bool := selector_exists targetNamespaceSelector (om_Labels m).

Definition mapFromTargetNamespace (m : ObjectMeta) : list NamespacedName :=
  match gm_lookup (om_Labels m) TargetNamespaceCRNameLabel with
  | None => []
  | Some name =>
      match gm_lookup (om_Labels m) TargetNamespaceCRNamespaceLabel with
      | None => []
      | Some namespace => [nn namespace name]
      end
  end.

(** ** Images and groups *)
Definition SupplementalGroupsAnnotation : string := "openshift.io/sa.scc.supplemental-groups".
Definition defaultFSGroup : Z := 18500.
Definition parseSupGroups (supGroups : string) : res Z :=
  let match_ := of_bytes (regexp.leading_digits (bytes supGroups)) in
  if len match_ =? 0 then Err (Errorf "no group ID found in %s annotation" [SupplementalGroupsAnnotation])
  else strconv.ParseInt10 64 match_.

Section reconciler.
Context `{Kube W} `{QuantityOps}.
Implicit Types (r : Reconciler) (cr : CryostatInstance).

Definition getImageTags : ImageTags := {|
  it_OAuth2ProxyImageTag := GetEnvOrDefault "RELATED_IMAGE_OAUTH2_PROXY" "quay.io/oauth2-proxy/oauth2-proxy:latest";
  it_OpenShiftOAuthProxyImageTag :=
    GetEnvOrDefault "RELATED_IMAGE_OPENSHIFT_OAUTH_PROXY" "quay.io/openshift/origin-oauth-proxy:latest";
  it_CoreImageTag := GetEnvOrDefault "RELATED_IMAGE_CORE" "quay.io/cryostat/cryostat:latest";
  it_DatasourceImageTag := GetEnvOrDefault "RELATED_IMAGE_DATASOURCE" "quay.io/cryostat/jfr-datasource:latest";
  it_GrafanaImageTag :=
    GetEnvOrDefault "RELATED_IMAGE_GRAFANA" "quay.io/cryostat/cryostat-grafana-dashboard:latest";
  it_ReportsImageTag := GetEnvOrDefault "RELATED_IMAGE_REPORTS" "quay.io/cryostat/cryostat-reports:latest";
  it_StorageImageTag := GetEnvOrDefault "RELATED_IMAGE_STORAGE" "quay.io/cryostat/cryostat-storage:latest";
  it_DatabaseImageTag := GetEnvOrDefault "RELATED_IMAGE_DATABASE" "quay.io/cryostat/cryostat-db:latest";
  it_AgentProxyImageTag :=
    GetEnvOrDefault "RELATED_IMAGE_AGENT_PROXY" "registry.access.redhat.com/ubi9/nginx-124:latest" |}.

Definition getFSGroup r (namespace : string) : E W Z :=
  if r_IsOpenShift r then
    let? ns := client_Get KNamespace (nn "" namespace) in
    match gm_lookup (om_Annotations (ns_meta ns)) SupplementalGroupsAnnotation with
    | Some supGroups => mretM (parseSupGroups supGroups)
    | None => mretM (Ok defaultFSGroup)
    end
  else mretM (Ok defaultFSGroup).

(** ** TLS *)
Definition configureTLS r cr : CrE (option TLSConfig) :=
  if IsCertManagerEnabled cr then
    let* tls := setupTLS r cr in
    match tls with
    | Err err =>
        let* ' (cr, condErr) :=
          if decide (err = ErrCertNotReady) then
            updateCondition cr V2.ConditionTypeTLSSetupComplete "False" reasonWaitingForCert
              "Waiting for certificates to become ready."
          else cr_ret cr () in
        match condErr with
        | Err _ => mretM (cr, Err err)
        | Ok _ =>
            let* ' (cr, condErr) :=
              if decide (err = errCertManagerMissing) then
                updateCondition cr V2.ConditionTypeTLSSetupComplete "False" reasonCertManagerUnavailable
                  eventCertManagerUnavailableMsg
              else cr_ret cr () in
            match condErr with
            | Err condErr => mretM (cr, Err condErr)
            | Ok _ => mretM (cr, Err err)
            end
        end
    | Ok tlsConfig =>
        do^ cr := updateCondition cr V2.ConditionTypeTLSSetupComplete "True" reasonAllCertsReady
                    "All certificates for Cryostat components are ready." in
        cr_ret cr (Some tlsConfig)
    end
  else
    do^ cr := updateCondition cr V2.ConditionTypeTLSSetupComplete "True" reasonCertManagerDisabled
                "TLS setup has been disabled." in
    cr_ret cr None.

(** ** The components *)

(** [r.Delete], an absent deployment being no error. *)
Definition deleteIfFound (deployment : Deployment) : E W () :=
  let* err := client_Delete KDeployment deployment in
  match err with
  | Err e => if negb (kerrors_IsNotFound e) then mretM (Err e) else mretM (Ok ())
  | Ok _ => mretM (Ok ())
  end.
Definition deployed (deployment : Deployment) cr (mapping : deploymentConditionTypeMap) : CrE () :=
  do^ cr := cr_call cr (createOrUpdateDeployment recreate_fuel deployment (ci_Object cr)) in
  updateConditionsFromDeployment cr (key KDeployment deployment) mapping.

Definition reconcileReports r cr (tls : option TLSConfig) (imageTags : ImageTags) specs : CrE ServiceSpecs :=
  let desired := match V2.spec_ReportOptions (ci_Spec cr) with Some o => V2.rpc_Replicas o | None => 0 end in
  let^ cr, specs := cr_call cr (reconcileReportsService cr tls specs) in
  do^ cr := cr_call cr (reconcileReportsNetworkPolicy cr) in
  let deployment := NewDeploymentForReports cr imageTags specs tls (r_IsOpenShift r) in
  if desired =? 0 then
    do^ cr := cr_call cr (deleteIfFound deployment) in
    do^ cr := Status_Update (removeConditionIfPresent cr
      [V2.ConditionTypeReportsDeploymentAvailable; V2.ConditionTypeReportsDeploymentProgressing;
       V2.ConditionTypeReportsDeploymentReplicaFailure]) in
    cr_ret cr specs
  else if 0 <? desired then
    do^ cr := deployed deployment cr reportsDeploymentConditions in cr_ret cr specs
  else cr_ret cr specs.

Definition reconcileDatabase r cr (tls : option TLSConfig) (imageTags : ImageTags) specs (fsGroup : Z)
  : CrE ServiceSpecs :=
  do^ cr := cr_call cr (reconcileDatabasePVC cr) in
  let^ cr, specs := cr_call cr (reconcileDatabaseService cr specs) in
  do^ cr := cr_call cr (reconcileDatabaseNetworkPolicy cr) in
  let deployment := NewDeploymentForDatabase cr imageTags tls (r_IsOpenShift r) fsGroup in
  do^ cr := deployed deployment cr databaseDeploymentConditions in
  cr_ret cr specs.

(** The URL of the external storage; [DeployManagedStorage] has checked that there is one. *)
Definition providedStorageURL cr : option string :=
  (V2.spec_ObjectStorageOptions (ci_Spec cr) ≫= V2.oso_Provider) ≫= V2.osp_URL.

Definition reconcileStorage r cr (tls : option TLSConfig) (imageTags : ImageTags) specs (fsGroup : Z)
  : CrE ServiceSpecs :=
  do^ cr := cr_call cr (reconcileStoragePVC cr) in
  let^ cr, specs := cr_call cr (reconcileStorageService cr tls specs) in
  do^ cr := cr_call cr (reconcileStorageNetworkPolicy cr) in
  let deployment := NewDeploymentForStorage cr imageTags tls (r_IsOpenShift r) fsGroup in
  if negb (DeployManagedStorage cr) then
    let^ cr, storageURL := cr_call cr (mretM (
      match providedStorageURL cr with
      | Some u => url.Parse u
      | None => Err (Panic "nil pointer dereference")
      end)) in
    let specs : ServiceSpecs := specs <| sps_StorageURL := Some storageURL |> in
    do^ cr := cr_call cr (deleteIfFound deployment) in
    do^ cr := Status_Update (removeConditionIfPresent cr
      [V2.ConditionTypeStorageDeploymentAvailable; V2.ConditionTypeStorageDeploymentProgressing;
       V2.ConditionTypeStorageDeploymentReplicaFailure]) in
    cr_ret cr specs
  else
    do^ cr := deployed deployment cr storageDeploymentConditions in cr_ret cr specs.

(** ** Finalization *)
Definition RemoveCRFinalizer cr : CrE () :=
  let* ' (o, err) := RemoveFinalizer KCryostat (ci_Object cr) cryostatFinalizer in
  mretM (cr <| ci_Object := o |>, err).
Definition AddCRFinalizer cr : CrE () :=
  let* ' (o, err) := AddFinalizer KCryostat (ci_Object cr) cryostatFinalizer in
  mretM (cr <| ci_Object := o |>, err).

(** What is cleaned up before the finalizer goes. *)
Definition cleanupCryostat r cr : E W () :=
  do? finalizeRBAC r cr in
  do? finalizeOpenShift r cr in
  do? finalizeAgentCallbackServices r cr in
  if IsCertManagerEnabled cr then finalizeTLS r cr else mretM (Ok ()).
Definition finalizeCryostat r cr : CrE () :=
  do^ cr := cr_call cr (cleanupCryostat r cr) in
  RemoveCRFinalizer cr.

(** ** A pass *)
Definition requeueIfIngressNotReady (err : error) : res Result :=
  if decide (err = ErrIngressNotReady) then Ok {| RequeueAfter := 5 |} else Err err.

(** The pass from the core service on. *)
Definition reconcileComponents r cr (tlsConfig : option TLSConfig) specs : CrE Result :=
  do^ cr := cr_call cr (reconcileCoreNetworkPolicy r cr) in
  do^ cr := cr_call cr (reconcileAgentGatewayService cr) in
  do^ cr := cr_call cr (reconcileAgentCallbackServices r cr) in
  let imageTags := getImageTags in
  let^ cr, fsGroup := cr_call cr (getFSGroup r (ci_InstallNamespace cr)) in
  let^ cr, specs := reconcileDatabase r cr tlsConfig imageTags specs fsGroup in
  let^ cr, specs := reconcileStorage r cr tlsConfig imageTags specs fsGroup in
  let^ cr, specs := reconcileReports r cr tlsConfig imageTags specs in
  let^ cr, deployment := cr_call cr (mretM
    (NewDeploymentForCR cr specs imageTags tlsConfig fsGroup (r_IsOpenShift r))) in
  do^ cr := cr_call cr (createOrUpdateDeployment recreate_fuel deployment (ci_Object cr)) in
  let cr := match sps_CoreURL specs with
            | Some u => set_status cr (λ st, st <| V2.st_ApplicationURL := url.String u |>)
            | None => cr
            end in
  do^ cr := Status_Update (set_status cr (λ st, st <| V2.st_TargetNamespaces := ci_TargetNamespaces cr |>)) in
  do^ cr := cr_call cr (reconcileOpenShift r cr) in
  do^ cr := updateConditionsFromDeployment cr (key KDeployment deployment) mainDeploymentConditions in
  cr_ret cr zero_Result.

(** The pass from the TLS configuration on. *)
Definition reconcileAfterRBAC r cr : CrE Result :=
  let* ' (cr, tls) := configureTLS r cr in
  match tls with
  | Err err => if decide (err = ErrCertNotReady) then mretM (cr, Ok {| RequeueAfter := 5 |}) else mretM (cr, Err err)
  | Ok tlsConfig =>
      do^ cr := cr_call cr (reconcileOAuth2ProxyConfig r cr tlsConfig) in
      do^ cr := cr_call cr (reconcileAgentProxyConfig cr tlsConfig) in
      let specs : ServiceSpecs := zero_ServiceSpecs <| sps_InsightsURL := r_InsightsProxy r |> in
      let* ' (cr, core) := reconcileCoreService r cr tlsConfig specs in
      match core with
      | Err err => mretM (cr, requeueIfIngressNotReady err)
      | Ok specs => reconcileComponents r cr tlsConfig specs
      end
  end.
(** The pass after the finalizer is set. *)
Definition reconcileInstance r cr : CrE Result :=
  do^ cr := cr_call cr (reconcileLockConfigMap cr) in
  do^ cr := reconcileSecrets cr in
  do^ cr := cr_call cr (reconcileRBAC r cr) in
  reconcileAfterRBAC r cr.

Definition reconcileCryostat r cr : CrE Result :=
  if bool_decide (om_DeletionTimestamp (ci_meta cr) ≠ None) then
    do^ cr := (if controllerutil_ContainsFinalizer (ci_meta cr) cryostatFinalizer
               then finalizeCryostat r cr else cr_ret cr ()) in
    cr_ret cr zero_Result
  else
    do^ cr := (if negb (controllerutil_ContainsFinalizer (ci_meta cr) cryostatFinalizer)
               then AddCRFinalizer cr else cr_ret cr ()) in
    reconcileInstance r cr.

Definition Reconcile r (request : NamespacedName) : E W Result :=
  let* cr := client_Get KCryostat request in
  match cr with
  | Err e => if kerrors_IsNotFound e then mretM (Ok zero_Result) else mretM (Err e)
  | Ok cr =>
      let* ' (_, result) := reconcileCryostat r (FromCryostat cr) in
      mretM result
  end.
End reconciler.
