(* ===== verification/Footprint.v ===== *)
(** * What a pass touches

    The objects a pass over a Cryostat may change, and the proof that every step stays
    within them.  The CR in memory changes along the pass; [identity] is what stays of it,
    and [pass] is a step that touches nothing else and, when it succeeds, keeps it. *)

From S2P Require Export Reconciler.
From S2P Require Import FakeClient.
Open Scope Z_scope.

(** What the steps of a pass keep of the CR in memory. *)
Record identity (cr0 cr : CryostatInstance) : Prop := {
  id_Name : ci_Name cr = ci_Name cr0;
  id_Install : ci_InstallNamespace cr = ci_InstallNamespace cr0;
  id_Targets : ci_TargetNamespaces cr = ci_TargetNamespaces cr0;
  id_key : key KCryostat (ci_Object cr) = key KCryostat (ci_Object cr0);
  id_status : ci_TargetNamespaceStatus cr = ci_TargetNamespaceStatus cr0 }.

#[export] Instance identity_refl : Reflexive identity.
Proof. by intros cr. Qed.
(** A change of the CR that keeps its key and the namespaces of its status. *)
Lemma identity_object cr0 cr o :
  identity cr0 cr → key KCryostat o = key KCryostat (ci_Object cr) →
  V2.st_TargetNamespaces (V2.cr_Status o) = ci_TargetNamespaceStatus cr →
  identity cr0 (cr <| ci_Object := o |>).
Proof. intros [] Hk Hs. split; try done; simpl; [congruence|]. rewrite <-id_status0. exact Hs. Qed.

Definition own cr (suffix : string) : NamespacedName := nn (ci_InstallNamespace cr) (ci_Name cr +:+ suffix).
Definition named cr : NamespacedName := nn (ci_InstallNamespace cr) (ci_Name cr).
Definition watched_namespace cr (ns : string) : Prop :=
  ns ∈ ci_TargetNamespaces cr ∨ ns ∈ ci_TargetNamespaceStatus cr.

(** The CR itself; the objects named after it in its namespace; in the target namespaces,
    of the spec and of the status, its role binding, its callback service and secrets; its
    cluster role binding and console link; OpenShift's API server configuration. *)
Definition cryostat_footprint (r : Reconciler) cr : Kind → NamespacedName → Prop := λ k n,
  match k with
  | KCryostat => n = key KCryostat (ci_Object cr)
  | KConfigMap => n ∈ [own cr "-lock"; own cr "-oauth2-proxy-cfg"; own cr "-agent-proxy"]
  | KServiceAccount | KRole | KRoleBinding | KClusterRoleBinding => rbac_footprint r cr k n
  | KSecret | KIssuer | KCertificate => tls_footprint cr k n
  | KService => n ∈ [named cr; own cr "-reports"; own cr "-agent"; own cr "-database"; own cr "-storage"] ∨
                nn_Name n = callback_name r cr ∧ watched_namespace cr (nn_Namespace n)
  | KRoute | KIngress => n = named cr
  | KNetworkPolicy => n ∈ [own cr "-internal-ingress"; own cr "-internal-egress"; own cr "-db-internal-ingress";
                           own cr "-storage-internal-ingress"; own cr "-reports-internal-ingress"]
  | KPVC => n ∈ [own cr "-database"; own cr "-storage"]
  | KDeployment => n ∈ [named cr; own cr "-database"; own cr "-storage"; own cr "-reports"]
  | KConsoleLink => n = link_key r cr
  | KAPIServer => n = nn "" apiServerName
  | KNamespace | KEndpointSlice | KConsolePlugin | KConsole | KClusterVersion => False
  end.

Lemma footprint_identity r cr0 cr : identity cr0 cr →
  ∀ k n, cryostat_footprint r cr k n → cryostat_footprint r cr0 k n.
Proof.
  intros [Hn Hi Ht Hk Hs]. destruct cr as [name ns targets o], cr0 as [name0 ns0 targets0 o0]. simpl in *. subst.
  intros k n. destruct k; try done; simpl; unfold watched_namespace; simpl; by rewrite ?Hk, ?Hs.
Qed.
(** Once the status has the target namespaces of the spec. *)
Lemma footprint_targets_recorded r cr :
  ∀ k n, cryostat_footprint r (set_status cr (λ st, st <| V2.st_TargetNamespaces := ci_TargetNamespaces cr |>)) k n →
  cryostat_footprint r cr k n.
Proof. intros k n. destruct k; try done; simpl; unfold watched_namespace; simpl; tauto. Qed.

(** The objects made in a target namespace lead back to the CR. *)
Lemma leads_back (cr : CryostatInstance) (m : ObjectMeta) : keeps_map (LabelsForTargetNamespaceObject cr) (om_Labels m) →
  targetNamespacePredicate m = true ∧ mapFromTargetNamespace m = [nn (ci_InstallNamespace cr) (ci_Name cr)].
Proof.
  intros Hk. unfold targetNamespacePredicate, mapFromTargetNamespace, selector_exists. simpl.
  by rewrite (Hk TargetNamespaceCRNameLabel (ci_Name cr)), (Hk TargetNamespaceCRNamespaceLabel (ci_InstallNamespace cr)).
Qed.

(** ** Steps *)
Section pass.
Context `{KubeLaws W}.
Implicit Types (S : Kind → NamespacedName → Prop) (cr : CryostatInstance).

Definition pass {A} S cr0 (m : CrE A) : Prop :=
  touches S m ∧ ∀ w cr a w', m w = ((cr, Ok a), w') → identity cr0 cr.

Lemma pass_ret {A} S cr0 cr (a : A) : identity cr0 cr → pass S cr0 (cr_ret cr a).
Proof. intros Hi. split; [apply touches_ret|]. intros w cr' a' w' [= <- _ _]. done. Qed.
Lemma pass_err {A} S cr0 cr e : pass S cr0 (mretM (cr, Err e) : CrE A).
Proof. split; [apply touches_ret|]. by intros w cr' a' w' [= ]. Qed.
Lemma pass_call {A} S cr0 cr (m : E W A) : identity cr0 cr → touches S m → pass S cr0 (cr_call cr m).
Proof.
  intros Hi Hm. split; [by apply touches_cr_call|]. intros w cr' a w' Hrun.
  by apply cr_call_inv in Hrun as [-> _].
Qed.
(** The second step may use that the first one ran. *)
Lemma pass_try_ran {A B} S cr0 (m : CrE A) (k : CryostatInstance → A → CrE B) :
  pass S cr0 m →
  (∀ cr a w w', m w = ((cr, Ok a), w') → identity cr0 cr → pass S cr0 (k cr a)) → pass S cr0 (cr_try m k).
Proof.
  intros [Hm Hi] Hk. split.
  - apply touches_bind_ran; [done|]. intros [cr [a|e]] w w' Hrun; simpl; [|apply touches_ret].
    eapply Hk; [exact Hrun|by eapply Hi].
  - intros w cr' b w' [(cr1 & a & w1 & Ha & Hb)|(e & _ & [=])]%cr_try_inv.
    eapply Hk; [exact Ha|by eapply Hi|exact Hb].
Qed.
Lemma pass_try {A B} S cr0 (m : CrE A) (k : CryostatInstance → A → CrE B) :
  pass S cr0 m → (∀ cr a, identity cr0 cr → pass S cr0 (k cr a)) → pass S cr0 (cr_try m k).
Proof. intros Hm Hk. apply pass_try_ran; [done|]. intros cr a w w' _. apply Hk. Qed.

Lemma touches_cr_try_pass {A B} S cr0 (m : CrE A) (k : CryostatInstance → A → CrE B) :
  pass S cr0 m → (∀ cr a, identity cr0 cr → touches S (k cr a)) → touches S (cr_try m k).
Proof.
  intros [Hm Hi] Hk. apply touches_bind_ran; [done|]. intros [cr [a|e]] w w' Hrun; simpl; [|apply touches_ret].
  apply Hk. by eapply Hi.
Qed.

Lemma StatusUpdate_identity cr0 cr o w w' :
  identity cr0 cr → client_StatusUpdate (ci_Object cr) w = ((o, Ok ()), w') → identity cr0 (cr <| ci_Object := o |>).
Proof.
  intros Hi Hu. apply StatusUpdate_Ok in Hu as (Hst & Hs & _).
  apply identity_object; [done| |]; [by apply (stored_key _ KCryostat) in Hst|]. by rewrite Hs.
Qed.
Lemma pass_Status_Update S cr0 cr :
  identity cr0 cr → S KCryostat (key KCryostat (ci_Object cr0)) → pass S cr0 (Status_Update cr).
Proof.
  intros Hi HS. split; [apply touches_Status_Update; by rewrite (id_key _ _ Hi)|].
  intros w cr' [] w' ([o q] & w1 & Hu & Hrun)%mbindM_inv. ret_inv Hrun. by eapply StatusUpdate_identity.
Qed.
(** A write to the status in memory that leaves the target namespaces. *)
Lemma identity_set_status cr0 cr f : identity cr0 cr →
  (∀ st, V2.st_TargetNamespaces (f st) = V2.st_TargetNamespaces st) → identity cr0 (set_status cr f).
Proof. intros Hi Hf. apply (identity_object _ cr); [done|done|]. apply Hf. Qed.
Lemma identity_set_conditions cr0 cr f : identity cr0 cr → identity cr0 (set_conditions cr f).
Proof. intros Hi. by apply identity_set_status. Qed.
Lemma identity_same_but_conditions cr0 cr cr' : identity cr0 cr → same_but_conditions cr cr' → identity cr0 cr'.
Proof. intros Hi [f ->]. by apply identity_set_conditions. Qed.
End pass.

(** ** The steps of the components *)
Section steps.
Context `{KubeLaws W} `{QuantityOps}.
Implicit Types (S : Kind → NamespacedName → Prop) (r : Reconciler) (cr : CryostatInstance).

(** Secrets. *)
Lemma pass_reconcileSecrets S cr0 cr : identity cr0 cr →
  S KCryostat (key KCryostat (ci_Object cr0)) →
  (∀ suffix, S KSecret (own cr0 suffix)) → pass S cr0 (reconcileSecrets cr).
Proof.
  intros Hi HC HS.
  assert (Hsec : ∀ cr suffix, identity cr0 cr → S KSecret (nn (ci_InstallNamespace cr) (ci_Name cr +:+ suffix))).
  { intros c suffix [-> -> _ _ _]. apply HS. }
  apply pass_try.
  { apply pass_call; [done|]. apply touches_bind; [|intros [? ?]; apply touches_ret].
    apply touches_createOrUpdateSecret; [intros; apply touches_mutate_cookie|by apply Hsec]. }
  clear cr Hi. intros cr _ Hi. apply pass_try.
  - unfold reconcileDatabaseConnectionSecret. destruct (_ && _).
    + split; [apply touches_bind; [apply touches_Event|intros; apply touches_ret]|].
      intros w cr' a w' (x & w1 & _ & Hr)%mbindM_inv. ret_inv Hr.
    + apply pass_try.
      * apply pass_call; [done|]. destruct (providedDatabaseSecret cr); [apply touches_ret|].
        apply touches_bind; [|intros [? ?]; apply touches_ret].
        apply touches_createOrUpdateSecret; [intros; apply touches_mutate_database|by apply Hsec].
      * intros cr1 _ Hi1. apply pass_Status_Update; [|done]. by apply identity_set_status.
  - clear cr Hi. intros cr _ Hi. split.
    + apply touches_bind.
      * apply touches_createOrUpdateSecret; [intros; apply touches_mutate_storage|by apply Hsec].
      * intros [s [[]|e]]; [|apply touches_ret]. apply (pass_Status_Update S cr0); [|done]. by apply identity_set_status.
    + intros w cr' [] w' ([s [[]|e]] & w1 & _ & Hrun)%mbindM_inv; [|ret_inv Hrun].
      eapply (pass_Status_Update S cr0); [|done|exact Hrun]. by apply identity_set_status.
Qed.

(** Network policies. *)
Lemma touches_reconcileCoreNetworkPolicy S r cr :
  S KNetworkPolicy (own cr "-internal-ingress") → S KNetworkPolicy (own cr "-internal-egress") →
  touches S (reconcileCoreNetworkPolicy r cr).
Proof.
  intros HI HE. unfold reconcileCoreNetworkPolicy.
  apply touches_try; [destruct (core_ingressDisabled cr); [by apply touches_deletePolicy|apply touches_ret]|intros _].
  apply touches_try; [destruct (negb _); [by apply touches_deletePolicy|apply touches_ret]|intros _].
  apply touches_try; [destruct (negb _); [by apply touches_createOrUpdatePolicy|apply touches_ret]|intros _].
  destruct (core_egressEnabled cr); [|apply touches_ret].
  eapply touches_weaken; [|apply touches_createEgressPolicy]. by intros k n [-> ->].
Qed.
Lemma touches_policy_switch S (b : bool) np owner f :
  S KNetworkPolicy (key KNetworkPolicy np) → touches S (if b then deletePolicy np else createOrUpdatePolicy np owner f).
Proof. intros HS. destruct b; [by apply touches_deletePolicy|by apply touches_createOrUpdatePolicy]. Qed.

(** Deployments. *)
Lemma touches_deleteIfFound S d : S KDeployment (key KDeployment d) → touches S (deleteIfFound d).
Proof. intros HS. unfold deleteIfFound. touch. exact HS. Qed.
Lemma pass_updateConditionsFromDeployment S cr0 cr n mapping : identity cr0 cr →
  S KCryostat (key KCryostat (ci_Object cr0)) → pass S cr0 (updateConditionsFromDeployment cr n mapping).
Proof.
  intros Hi HS. split; [apply touches_updateConditionsFromDeployment; by rewrite (id_key _ _ Hi)|].
  intros w cr' [] w' ([d|e] & w1 & _ & Hrun)%mbindM_inv; [|ret_inv Hrun].
  apply mbindM_inv in Hrun as (entries & w2 & _ & Hrun).
  eapply (pass_Status_Update S cr0); [|done|exact Hrun].
  eapply identity_same_but_conditions; [exact Hi|]. apply associateCondition_same.
Qed.
Lemma pass_deployed S cr0 cr d mapping : identity cr0 cr →
  CreationTimestamp_IsZero (dep_meta d) = true →
  S KCryostat (key KCryostat (ci_Object cr0)) → S KDeployment (key KDeployment d) → pass S cr0 (deployed d cr mapping).
Proof.
  intros Hi Hz HC HD. apply pass_try.
  - apply pass_call; [done|]. by apply touches_createOrUpdateDeployment.
  - intros cr1 _ Hi1. by apply pass_updateConditionsFromDeployment.
Qed.
Lemma pass_drop_conditions S cr0 cr l : identity cr0 cr →
  S KCryostat (key KCryostat (ci_Object cr0)) → pass S cr0 (Status_Update (removeConditionIfPresent cr l)).
Proof.
  intros Hi HC. apply pass_Status_Update; [|done].
  eapply identity_same_but_conditions; [exact Hi|]. apply removeConditionIfPresent_same.
Qed.

(** The core service: the configuration of the route is written back to the CR. *)
Lemma identity_write_core_network cr0 cr config : identity cr0 cr → identity cr0 (write_core_network cr config).
Proof. intros Hi. by apply (identity_object _ cr). Qed.
Lemma pass_reconcileCoreService S r cr0 cr tls specs : identity cr0 cr →
  S KService (named cr0) → S KRoute (named cr0) → S KIngress (named cr0) →
  pass S cr0 (reconcileCoreService r cr tls specs).
Proof.
  intros Hi Hs Hr Hg.
  assert (En : named cr = named cr0) by (unfold named; by rewrite (id_Name _ _ Hi), (id_Install _ _ Hi)).
  split; [apply touches_reconcileCoreService; unfold named in *; by rewrite En|].
  intros w cr' a w' Hrun. unfold reconcileCoreService in Hrun. destruct (configureCoreService cr) as [port config].
  apply mbindM_inv in Hrun as ([svc [[]|e]] & w1 & _ & Hrun); [|ret_inv Hrun].
  destruct (r_IsOpenShift r).
  - apply cr_try_inv in Hrun as [(cr1 & u & w2 & Hc & Hrun)|(e & _ & [=])].
    apply cr_call_inv in Hc as [-> _]. ret_inv Hrun. by apply identity_write_core_network.
  - unfold reconcileCoreIngress in Hrun. destruct (core_network cr ≫= V2.nwc_IngressSpec).
    + apply cr_try_inv in Hrun as [(cr1 & u & w2 & Hc & Hrun)|(e & _ & [=])].
      apply cr_call_inv in Hc as [-> _]. ret_inv Hrun. by apply identity_write_core_network.
    + apply cr_try_inv in Hrun as [(cr1 & u & w2 & Hc & Hrun)|(e & _ & [=])].
      apply cr_call_inv in Hc as [-> _]. by ret_inv Hrun.
Qed.

(** The TLS condition. *)
Lemma pass_updateCondition S cr0 cr t s reason m : identity cr0 cr →
  S KCryostat (key KCryostat (ci_Object cr0)) → pass S cr0 (updateCondition cr t s reason m).
Proof. intros Hi HC. apply pass_Status_Update; [|done]. by apply identity_set_conditions. Qed.
Lemma pass_configureTLS S r cr0 cr : identity cr0 cr → ci_InstallNamespace cr0 ≠ "" →
  S KCryostat (key KCryostat (ci_Object cr0)) → (∀ k n, tls_footprint cr k n → S k n) →
  pass S cr0 (configureTLS r cr).
Proof.
  intros Hi Hne HC HS. unfold configureTLS. destruct (IsCertManagerEnabled cr).
  2:{ apply pass_try; [by apply pass_updateCondition|]. intros cr1 _ Hi1. by apply pass_ret. }
  assert (HT : touches S (setupTLS r cr)).
  { eapply touches_weaken; [exact HS|]. apply touches_setupTLS. by rewrite (id_Install _ _ Hi). }
  split.
  - apply touches_bind; [exact HT|]. intros [cfg|e].
    + apply (pass_try S cr0); [by apply pass_updateCondition|]. intros cr1 _ Hi1. by apply pass_ret.
    + apply touches_bind_ran.
      { destruct (decide _); [by apply (pass_updateCondition S cr0)|apply touches_ret]. }
      intros [cr1 [[]|c1]] w w' Hrun; [|apply touches_ret].
      assert (Hi1 : identity cr0 cr1).
      { destruct (decide _) in Hrun; [eapply (pass_updateCondition S cr0); [exact Hi|exact HC|exact Hrun]|by ret_inv Hrun]. }
      apply touches_bind; [destruct (decide (e = errCertManagerMissing)); [by apply (pass_updateCondition S cr0)|apply touches_ret]|].
      intros [cr2 [[]|c2]]; apply touches_ret.
  - intros w cr' a w' Hrun. apply mbindM_inv in Hrun as ([cfg|e] & w1 & _ & Hrun).
    + eapply (pass_try S cr0); [by apply pass_updateCondition| |exact Hrun]. intros cr1 u Hi1. by apply pass_ret.
    + apply mbindM_inv in Hrun as ([cr1 [[]|c1]] & w2 & _ & Hrun); [|ret_inv Hrun].
      apply mbindM_inv in Hrun as ([cr2 [[]|c2]] & w3 & _ & Hrun); ret_inv Hrun.
Qed.
End steps.
