(* ===== verification/Reconciled.v ===== *)
(** * What a pass guarantees

    The theorems about [Reconcile]: what it may touch, that the finalizer waits for the
    cleanup, that a second Cryostat of the same name does not take over, and what a
    complete pass leaves. *)

From S2P Require Export Footprint.
From S2P Require Import FakeClient.
Open Scope Z_scope.

Lemma new_core_deployment `{Kube W} `{QuantityOps} cr specs tags tls g o d (w w' : W) :
  mretM (NewDeploymentForCR cr specs tags tls g o) w = (Ok d, w') →
  key KDeployment d = named cr ∧ CreationTimestamp_IsZero (dep_meta d) = true.
Proof.
  intros [= Hd _]. unfold NewDeploymentForCR in Hd. destruct (NewPodForCR _ _ _ _ _ _); [|done].
  by injection Hd as <-.
Qed.

(** The CR in memory with the application's URL and the target namespaces in its status. *)
Definition published cr (specs : ServiceSpecs) : CryostatInstance :=
  let cr := match sps_CoreURL specs with
            | Some u => set_status cr (λ st, st <| V2.st_ApplicationURL := url.String u |>)
            | None => cr
            end in
  set_status cr (λ st, st <| V2.st_TargetNamespaces := ci_TargetNamespaces cr |>).

(** ** The pass stays within the footprint *)
Definition rbac_kind (k : Kind) : bool :=
  match k with KServiceAccount | KRole | KRoleBinding | KClusterRoleBinding => true | _ => false end.

Section footprint.
Context `{KubeLaws W} `{QuantityOps}.
Implicit Types (r : Reconciler) (cr : CryostatInstance) (w : W).

Section later.
(** [S] allows what the steps after the RBAC objects need. *)
Context (S : Kind → NamespacedName → Prop) (r : Reconciler) (cr0 : CryostatInstance).
Context (HS : ∀ k n, rbac_kind k = false → cryostat_footprint r cr0 k n → S k n).

Lemma later_S cr k n : identity cr0 cr → rbac_kind k = false → cryostat_footprint r cr k n → S k n.
Proof. intros Hi Hk Hn. apply HS; [done|]. by eapply footprint_identity. Qed.
#[local] Ltac foot Hi := eapply (later_S _ _ _ Hi); [reflexivity|]; simpl; unfold named, own;
  rewrite ?elem_of_cons; tauto.
#[local] Ltac self := apply HS; reflexivity.

Lemma pass_reconcileDatabase cr tls tags specs g : identity cr0 cr → pass S cr0 (reconcileDatabase r cr tls tags specs g).
Proof.
  intros Hi. apply pass_try; [apply pass_call; [done|]; apply touches_reconcilePVC; foot Hi|].
  clear cr Hi; intros cr _ Hi.
  apply pass_try; [apply pass_call; [done|]; apply touches_reconcileDatabaseService; foot Hi|].
  clear cr Hi; intros cr specs' Hi.
  apply pass_try; [apply pass_call; [done|]; apply touches_policy_switch; foot Hi|].
  clear cr Hi; intros cr _ Hi.
  apply pass_try; [apply pass_deployed; [done|done|self|foot Hi]|].
  clear cr Hi; intros cr _ Hi. by apply pass_ret.
Qed.
Lemma pass_reconcileStorage cr tls tags specs g : identity cr0 cr → pass S cr0 (reconcileStorage r cr tls tags specs g).
Proof.
  intros Hi. apply pass_try.
  { apply pass_call; [done|]. unfold reconcileStoragePVC. destruct (negb _); [apply touches_ret|].
    apply touches_reconcilePVC. foot Hi. }
  clear cr Hi; intros cr _ Hi.
  apply pass_try; [apply pass_call; [done|]; apply touches_reconcileStorageService; foot Hi|].
  clear cr Hi; intros cr specs' Hi.
  apply pass_try; [apply pass_call; [done|]; apply touches_policy_switch; foot Hi|].
  clear cr Hi; intros cr _ Hi. cbv zeta. destruct (negb _).
  - apply pass_try; [apply pass_call; [done|]; apply touches_ret|].
    intros cr1 u Hi1. apply pass_try; [apply pass_call; [done|]; apply touches_deleteIfFound; foot Hi|].
    intros cr2 _ Hi2. apply pass_try; [apply pass_drop_conditions; [done|self]|].
    intros cr3 _ Hi3. by apply pass_ret.
  - apply pass_try; [apply pass_deployed; [done|done|self|foot Hi]|]. intros cr1 _ Hi1. by apply pass_ret.
Qed.
Lemma pass_reconcileReports cr tls tags specs : identity cr0 cr → pass S cr0 (reconcileReports r cr tls tags specs).
Proof.
  intros Hi. unfold reconcileReports. cbv zeta.
  set (desired := match V2.spec_ReportOptions _ with Some o => _ | None => _ end). clearbody desired.
  apply pass_try; [apply pass_call; [done|]; apply touches_reconcileReportsService; foot Hi|].
  clear cr Hi; intros cr specs' Hi.
  apply pass_try; [apply pass_call; [done|]; apply touches_policy_switch; foot Hi|].
  clear cr Hi; intros cr _ Hi. destruct (desired =? 0); [|destruct (0 <? desired)].
  - apply pass_try; [apply pass_call; [done|]; apply touches_deleteIfFound; foot Hi|].
    intros cr2 _ Hi2. apply pass_try; [apply pass_drop_conditions; [done|self]|].
    intros cr3 _ Hi3. by apply pass_ret.
  - apply pass_try; [apply pass_deployed; [done|done|self|foot Hi]|]. intros cr1 _ Hi1. by apply pass_ret.
  - by apply pass_ret.
Qed.

Lemma touches_getFSGroup S' ns : touches S' (getFSGroup r ns).
Proof.
  unfold getFSGroup. destruct (r_IsOpenShift r); [|apply touches_ret].
  apply touches_try; [apply (touches_Get S' KNamespace)|]. intros x. destruct (gm_lookup _ _); apply touches_ret.
Qed.
Lemma published_S cr specs cr2 k n : identity cr0 cr → identity (published cr specs) cr2 →
  rbac_kind k = false → cryostat_footprint r cr2 k n → S k n.
Proof.
  intros Hi Hi2 Hk Hn. apply (footprint_identity _ _ _ Hi2) in Hn. unfold published in Hn.
  set (cr1 := match sps_CoreURL specs with Some u => _ | None => _ end) in Hn.
  assert (Hi1 : identity cr0 cr1) by (unfold cr1; destruct (sps_CoreURL specs); [by apply identity_set_status|done]).
  eapply (later_S _ _ _ Hi1); [done|]. by apply footprint_targets_recorded.
Qed.
Lemma touches_publish cr specs d : identity cr0 cr → touches S (
  do^ cr := Status_Update (published cr specs) in
  do^ cr := cr_call cr (reconcileOpenShift r cr) in
  do^ cr := updateConditionsFromDeployment cr (key KDeployment d) mainDeploymentConditions in
  cr_ret cr zero_Result).
Proof.
  intros Hi. set (cr1 := published cr specs).
  assert (HP : ∀ cr2 k n, identity cr1 cr2 → rbac_kind k = false → cryostat_footprint r cr2 k n → S k n)
    by (intros cr2 k n Hi2; by eapply published_S).
  assert (HC : S KCryostat (key KCryostat (ci_Object cr1))) by (by apply (HP cr1)).
  apply touches_cr_try_pass with cr1; [by apply pass_Status_Update|]. intros cr2 _ Hi2.
  apply touches_cr_try_pass with cr1.
  { apply pass_call; [done|]. apply touches_reconcileOpenShift; by apply (HP cr2). }
  clear cr2 Hi2; intros cr2 _ Hi2. apply touches_cr_try_pass with cr1.
  - by apply pass_updateConditionsFromDeployment.
  - intros. apply touches_ret.
Qed.
Lemma touches_reconcileComponents cr tls specs : identity cr0 cr → touches S (reconcileComponents r cr tls specs).
Proof.
  intros Hi. unfold reconcileComponents. cbv zeta.
  apply touches_cr_try_pass with cr0; [apply pass_call; [done|]; apply touches_reconcileCoreNetworkPolicy; foot Hi|].
  clear cr Hi; intros cr _ Hi.
  apply touches_cr_try_pass with cr0; [apply pass_call; [done|]; apply touches_reconcileAgentGatewayService; foot Hi|].
  clear cr Hi; intros cr _ Hi. apply touches_cr_try_pass with cr0.
  { apply pass_call; [done|]. eapply touches_weaken; [|apply touches_reconcileAgentCallbackServices].
    intros k n (-> & Hn & Hns). eapply (later_S _ _ _ Hi); [reflexivity|]. simpl. right. by split. }
  clear cr Hi; intros cr _ Hi.
  apply touches_cr_try_pass with cr0; [apply pass_call; [done|]; apply touches_getFSGroup|].
  clear cr Hi; intros cr g Hi. apply touches_cr_try_pass with cr0; [by apply pass_reconcileDatabase|].
  clear cr Hi; intros cr specs1 Hi. apply touches_cr_try_pass with cr0; [by apply pass_reconcileStorage|].
  clear cr Hi; intros cr specs2 Hi. apply touches_cr_try_pass with cr0; [by apply pass_reconcileReports|].
  clear cr Hi; intros cr specs3 Hi. apply touches_bind_ran; [apply touches_cr_call, touches_ret|].
  intros [cr1 [d|e]] u u' Hd; [|apply touches_ret]. apply cr_call_inv in Hd as [-> Hd].
  apply new_core_deployment in Hd as [Hk Hz].
  apply touches_cr_try_pass with cr0; [apply pass_call; [done|]; apply touches_createOrUpdateDeployment; rewrite Hk; foot Hi|].
  clear cr Hi Hk; intros cr _ Hi. by apply touches_publish.
Qed.

Lemma touches_reconcileAfterRBAC cr : identity cr0 cr → ci_InstallNamespace cr0 ≠ "" →
  touches S (reconcileAfterRBAC r cr).
Proof.
  intros Hi Hne.
  assert (HT : pass S cr0 (configureTLS r cr)).
  { apply pass_configureTLS; [done|done|self|]. intros k n Hn.
    assert (Hk : rbac_kind k = false ∧ cryostat_footprint r cr k n) by by destruct k.
    eapply (later_S _ _ _ Hi); apply Hk. }
  apply touches_bind_ran; [apply HT|]. intros [cr1 [cfg|e]] w w' Hrun; [|destruct (decide _); apply touches_ret].
  apply HT in Hrun. rename Hrun into Hi1.
  apply (touches_cr_try_pass S cr0); [apply pass_call; [done|]; apply touches_reconcileOAuth2ProxyConfig; foot Hi1|].
  clear cr Hi HT cr1 Hi1. intros cr _ Hi.
  apply (touches_cr_try_pass S cr0); [apply pass_call; [done|]; apply touches_reconcileAgentProxyConfig; foot Hi|].
  clear cr Hi. intros cr1 _ Hi1. cbv zeta. set (specs := _ <| sps_InsightsURL := _ |>).
  assert (HC : pass S cr0 (reconcileCoreService r cr1 cfg specs)).
  { apply pass_reconcileCoreService; [done|..]; (apply HS; [reflexivity|]); simpl; [|done|done].
    left. rewrite elem_of_cons. by left. }
  apply touches_bind_ran; [apply HC|]. intros [cr2 [specs'|e]] u u' Hrun; [|apply touches_ret].
  apply touches_reconcileComponents. by eapply HC.
Qed.
End later.

Lemma touches_reconcileInstance r cr0 cr : identity cr0 cr → ci_InstallNamespace cr0 ≠ "" →
  touches (cryostat_footprint r cr0) (reconcileInstance r cr).
Proof.
  intros Hi Hne.
  apply touches_cr_try_pass with cr0.
  { apply pass_call; [done|]. apply touches_reconcileLockConfigMap. apply (footprint_identity _ _ _ Hi).
    simpl. rewrite !elem_of_cons. tauto. }
  clear cr Hi. intros cr _ Hi. apply touches_cr_try_pass with cr0.
  { apply pass_reconcileSecrets; [done|reflexivity|]. intros suffix. by left. }
  clear cr Hi. intros cr _ Hi. apply touches_cr_try_pass with cr0.
  { apply pass_call; [done|]. eapply touches_weaken; [|apply touches_reconcileRBAC].
    intros k n Hn. apply (footprint_identity _ _ _ Hi). by destruct k. }
  clear cr Hi. intros cr _ Hi. apply (touches_reconcileAfterRBAC _ r cr0); auto.
Qed.
End footprint.

(** ** The finalizer *)
Section finalizer.
Context `{KubeLaws W} `{QuantityOps}.
Implicit Types (r : Reconciler) (cr : CryostatInstance) (w : W).

Lemma key_with_om k m o : key_of_meta m = key k o → key k (with_om k m o) = key k o.
Proof. intros Hm. unfold key at 1. by rewrite om_with_om. Qed.
Lemma AddFinalizer_key k o f : key k (with_om k (controllerutil_AddFinalizer (om k o) f) o) = key k o.
Proof. apply key_with_om. rewrite AddFinalizer_spec. by case_bool_decide. Qed.
Lemma RemoveFinalizer_key k o f : key k (with_om k (controllerutil_RemoveFinalizer (om k o) f) o) = key k o.
Proof. apply key_with_om. by rewrite RemoveFinalizer_spec. Qed.

(** A call that answers with the CR's new object touches what the call touches. *)
Lemma touches_answer S cr (m : M W (V2.Cryostat * res ())) :
  touches S m → touches S (let* ' (o, err) := m in mretM (cr <| ci_Object := o |>, err) : CrE ()).
Proof. intros Hm. apply touches_bind; [done|]. intros [o e]. apply touches_ret. Qed.

Lemma touches_AddCRFinalizer cr : touches (only KCryostat (key KCryostat (ci_Object cr))) (AddCRFinalizer cr).
Proof. apply touches_answer. apply (touches_Update _ KCryostat). split; [done|]. apply (AddFinalizer_key KCryostat). Qed.
Lemma touches_RemoveCRFinalizer cr : touches (only KCryostat (key KCryostat (ci_Object cr))) (RemoveCRFinalizer cr).
Proof. apply touches_answer. apply (touches_Update _ KCryostat). split; [done|]. apply (RemoveFinalizer_key KCryostat). Qed.

Lemma AddCRFinalizer_identity cr w cr' w' :
  stored w KCryostat (key KCryostat (ci_Object cr)) = Some (ci_Object cr) →
  AddCRFinalizer cr w = ((cr', Ok ()), w') → identity cr cr'.
Proof.
  intros Hst ([o e] & w1 & Hu & Hrun)%mbindM_inv. ret_inv Hrun.
  pose proof (Update_key _ _ _ _ _ Hu) as Hk. rewrite AddFinalizer_key in Hk.
  apply identity_object; [reflexivity|exact Hk|].
  unfold ci_TargetNamespaceStatus, ci_Status. f_equal.
  eapply Update_status; [exact Hu|]. by rewrite AddFinalizer_key.
Qed.

Lemma touches_cleanupCryostat r cr :
  touches (λ k n, k ≠ KCryostat ∧ cryostat_footprint r cr k n) (cleanupCryostat r cr).
Proof.
  apply touches_try; [|intros _; apply touches_try; [|intros _; apply touches_try; [|intros _]]].
  - eapply touches_weaken; [|apply touches_finalizeRBAC]. intros k n Hn. by destruct k.
  - by apply touches_finalizeOpenShift.
  - eapply touches_weaken; [|apply touches_finalizeAgentCallbackServices].
    intros k n (-> & Hn & Hns). split; [done|]. right. split; [done|]. by left.
  - destruct (IsCertManagerEnabled cr); [|apply touches_ret].
    eapply touches_weaken; [|apply touches_finalizeTLS]. intros k n Hn. by destruct k.
Qed.

Lemma reconcileCryostat_footprint r cr w q w' : ci_InstallNamespace cr ≠ "" →
  stored w KCryostat (key KCryostat (ci_Object cr)) = Some (ci_Object cr) →
  reconcileCryostat r cr w = (q, w') → same_except (cryostat_footprint r cr) w w'.
Proof.
  intros Hne Hst. unfold reconcileCryostat. case_bool_decide.
  - revert w q w' Hst. refine (λ w q w' _, (_ : touches (cryostat_footprint r cr) _) w q w').
    apply touches_cr_try; [|intros; apply touches_ret].
    destruct (controllerutil_ContainsFinalizer _ _); [|apply touches_ret]. apply touches_bind_ran.
    { apply touches_cr_call. eapply touches_weaken; [|apply touches_cleanupCryostat]. by intros k n [_ Hn]. }
    intros [cr1 [[]|err]] u u' Hrun; [|apply touches_ret]. apply cr_call_inv in Hrun as [-> _].
    eapply touches_weaken; [|apply touches_RemoveCRFinalizer]. by intros k n [-> ->].
  - intros ([cr1 [[]|e]] & w1 & Hf & Hrun)%mbindM_inv.
    + transitivity w1.
      * destruct (negb _) in Hf; [|ret_inv Hf; reflexivity].
        eapply same_except_weaken; [|by eapply touches_AddCRFinalizer]. by intros k n [-> ->].
      * eapply (touches_reconcileInstance r cr cr1); [|done|exact Hrun].
        destruct (negb _) in Hf; [by eapply AddCRFinalizer_identity|by ret_inv Hf].
    + ret_inv Hrun. destruct (negb _) in Hf; [|ret_inv Hf].
      eapply same_except_weaken; [|by eapply touches_AddCRFinalizer]. by intros k n [-> ->].
Qed.

(** The CR a request names, once it is read. *)
Lemma request_instance w request o : stored w KCryostat request = Some o →
  ci_InstallNamespace (FromCryostat o) = nn_Namespace request ∧
  key KCryostat (ci_Object (FromCryostat o)) = request.
Proof. intros Hk%stored_key. split; [by rewrite <-Hk|done]. Qed.
Lemma Reconcile_found r request w o q w' : stored w KCryostat request = Some o → Reconcile r request w = (q, w') →
  (∃ e, q = Err e ∧ same_store w w') ∨
  ∃ w1 cr, same_store w w1 ∧ stored w1 KCryostat request = Some o ∧
    reconcileCryostat r (FromCryostat o) w1 = ((cr, q), w').
Proof.
  intros Ho (got & w1 & Hget & Hrun)%mbindM_inv. pose proof (Get_reads _ _ _ _ _ Hget) as Hw1.
  destruct got as [o1|e].
  - apply Get_Ok in Hget. simplify_eq. right. apply mbindM_inv in Hrun as ([cr p] & w2 & Hr & Hrun). ret_inv Hrun.
    exists w1, cr. split; [done|]. split; [|done]. by rewrite (same_store_eq _ _ _ _ Hw1).
  - left. destruct (kerrors_IsNotFound e) eqn:E; [|ret_inv Hrun; eauto].
    apply Get_NotFound in Hget; [|done]. by simplify_eq.
Qed.
End finalizer.

(** ** What the cleanup leaves *)
Section cleanup.
Context `{KubeLaws W}.
Implicit Types (r : Reconciler) (cr : CryostatInstance) (w : W).

(** The objects without an owner that the cleanup removes: the cluster role binding; in each
    target namespace of the spec the role binding, the callback service and, with
    cert-manager and outside the install namespace, the copies of the TLS secrets; and on
    OpenShift the console link.  The API server of OpenShift, which was [w0]'s, has lost the
    first CORS origin that quotes the address of the CR, if there was one. *)
Definition cleaned r cr w0 w : Prop :=
  stored w KClusterRoleBinding (nn "" (rbac_name r cr)) = None ∧
  (∀ ns, ns ∈ ci_TargetNamespaces cr →
     stored w KRoleBinding (rb_key r cr ns) = None ∧ stored w KService (callback_key r cr ns) = None ∧
     (IsCertManagerEnabled cr = true → ns ≠ ci_InstallNamespace cr →
      ∀ n, n ∈ tls_copies r cr ns → stored w KSecret n = None)) ∧
  (r_IsOpenShift r = true → stored w KConsoleLink (link_key r cr) = None) ∧
  (r_IsOpenShift r = true → V2.st_ApplicationURL (ci_Status cr) ≠ "" →
   ∀ s, stored w0 KAPIServer (nn "" apiServerName) = Some s → om_DeletionTimestamp (as_meta s) = None →
   ∃ got, stored w KAPIServer (nn "" apiServerName) = Some got ∧
     first_removed (regexp.QuoteMeta (V2.st_ApplicationURL (ci_Status cr)))
       (as_AdditionalCORSAllowedOrigins s) (as_AdditionalCORSAllowedOrigins got)).

Lemma cleaned_eq r cr w0 w0' w w' : (∀ k n, stored w0' k n = stored w0 k n) →
  (∀ k n, k ≠ KCryostat → stored w' k n = stored w k n) → cleaned r cr w0 w → cleaned r cr w0' w'.
Proof.
  intros E0 E (H1 & H2 & H3 & H4). unfold cleaned. rewrite E by done. split; [done|]. split; [|split].
  - intros ns Hns. destruct (H2 ns Hns) as (G1 & G2 & G3). rewrite !E by done. split; [done|]. split; [done|].
    intros Hc Hne n Hn. rewrite E by done. by apply G3.
  - rewrite E by done. exact H3.
  - rewrite E0, E by done. exact H4.
Qed.

(** The kinds a computation may change. *)
Definition kinds (l : list Kind) : Kind → NamespacedName → Prop := λ k _, k ∈ l.
Lemma kinds_kept {A} l S (m : M W A) w a w' k n :
  touches S m → (∀ k n, S k n → kinds l k n) → m w = (a, w') → bool_decide (k ∈ l) = false →
  stored w' k n = stored w k n.
Proof.
  intros Hm HS Hrun Hk%bool_decide_eq_false. eapply same_except_out; [by eapply Hm|]. intros Hs. by apply HS in Hs.
Qed.
#[local] Ltac in_kinds := intros [] ?; simpl; unfold kinds; rewrite !elem_of_cons; tauto.

Lemma cleanupCryostat_kept r cr w w' : cleanupCryostat r cr w = (Ok (), w') → ∃ w1 w2 w3,
  finalizeRBAC r cr w = (Ok (), w1) ∧ finalizeOpenShift r cr w1 = (Ok (), w2) ∧
  finalizeAgentCallbackServices r cr w2 = (Ok (), w3) ∧
  (if IsCertManagerEnabled cr then finalizeTLS r cr else mretM (Ok ())) w3 = (Ok (), w') ∧
  (∀ k n, bool_decide (k ∈ [KServiceAccount; KRole; KRoleBinding; KClusterRoleBinding]) = false →
     stored w1 k n = stored w k n) ∧
  (∀ k n, bool_decide (k ∈ [KConsoleLink; KAPIServer]) = false → stored w2 k n = stored w1 k n) ∧
  (∀ k n, bool_decide (k ∈ [KService]) = false → stored w3 k n = stored w2 k n) ∧
  (∀ k n, bool_decide (k ∈ [KSecret; KIssuer; KCertificate]) = false → stored w' k n = stored w3 k n).
Proof.
  intros Hrun. apply mtry_ok_inv in Hrun as ([] & w1 & HR & Hrun).
  apply mtry_ok_inv in Hrun as ([] & w2 & HO & Hrun).
  apply mtry_ok_inv in Hrun as ([] & w3 & HA & HT).
  exists w1, w2, w3. split_and!; try done.
  - intros k n. eapply kinds_kept; [apply touches_finalizeRBAC| |exact HR]. in_kinds.
  - intros k n. eapply (kinds_kept _ (kinds [KConsoleLink; KAPIServer])); [|done|exact HO].
    apply touches_finalizeOpenShift; unfold kinds; rewrite !elem_of_cons; auto.
  - intros k n. eapply kinds_kept; [apply touches_finalizeAgentCallbackServices| |exact HA].
    intros k' n' [-> _]. by left.
  - intros k n. eapply (kinds_kept _ (tls_footprint cr)); [| |exact HT]; [|in_kinds].
    destruct (IsCertManagerEnabled cr); [apply touches_finalizeTLS|apply touches_ret].
Qed.

Lemma finalizeOpenShift_split r cr w w' : r_IsOpenShift r = true → finalizeOpenShift r cr w = (Ok (), w') →
  ∃ u, deleteConsoleLink (newConsoleLink r cr) w = (Ok (), u) ∧ deleteCorsAllowedOrigins cr u = (Ok (), w').
Proof. unfold finalizeOpenShift. intros ->. simpl. intros ([] & u & HL & HC)%mtry_ok_inv. by exists u. Qed.
Lemma cleanupCryostat_ok r cr w w' :
  (∀ k n, cryostat_footprint r cr k n → k ≠ KCryostat → unheld w k n) →
  cleanupCryostat r cr w = (Ok (), w') → cleaned r cr w w'.
Proof.
  intros Hu (w1 & w2 & w3 & HR & HO & HA & HT & E1 & E2 & E3 & E4)%cleanupCryostat_kept.
  apply finalizeRBAC_ok in HR as [R1 R2]; [|by apply Hu|intros ns Hns; apply Hu; [|done]; by split; [|left]].
  split; [by rewrite E4, E3, E2|split; [|split]].
  - intros ns Hns. split; [rewrite E4, E3, E2 by done; by apply R2|split].
    + rewrite E4 by done. refine (finalizeAgentCallbackServices_ok r cr _ _ _ HA ns Hns). clear ns Hns.
      intros ns Hns old. rewrite E2, E1 by done. apply Hu; [|done]. right. split; [done|]. by left.
    + intros Hc Hne n Hn. rewrite Hc in HT. refine (finalizeTLS_ok r cr _ _ _ HT ns n Hns Hne Hn). clear ns n Hns Hne Hn.
      intros ns n Hns Hne Hn old. rewrite E3, E2, E1 by done. apply Hu; [|done]. simpl.
      apply elem_of_cons in Hn as [->|[->|[]%elem_of_nil]%elem_of_cons]; right; by left.
  - intros Ho. rewrite E4, E3 by done. destruct (finalizeOpenShift_split _ _ _ _ Ho HO) as (u & HL & HC).
    assert (EC : stored w2 KConsoleLink (link_key r cr) = stored u KConsoleLink (link_key r cr)).
    { eapply (kinds_kept [KAPIServer]); [|done|exact HC|done]. apply touches_deleteCorsAllowedOrigins. by left. }
    rewrite EC. eapply (deleteConsoleLink_gone (newConsoleLink r cr)); [|exact HL].
    intros old. rewrite E1 by done. by apply Hu.
  - intros Ho Hurl s Hs Hd. rewrite E4, E3 by done. destruct (finalizeOpenShift_split _ _ _ _ Ho HO) as (u & HL & HC).
    refine (deleteCorsAllowedOrigins_ok _ _ _ _ Hurl _ Hd HC). rewrite <-Hs, <-E1 by done.
    eapply (kinds_kept [KConsoleLink]); [|done|exact HL|done]. apply touches_deleteConsoleLink. by left.
Qed.
End cleanup.

(** ** A complete pass *)
Section complete.
Context `{KubeLaws W} `{QuantityOps}.
Implicit Types (r : Reconciler) (cr : CryostatInstance) (w : W).
#[local] Abbreviation anything := (λ (_ : Kind) (_ : NamespacedName), True).

Lemma cr_try_ok_inv {A B} (m : CrE A) (k : CryostatInstance → A → CrE B) w cr b w' :
  cr_try m k w = ((cr, Ok b), w') → ∃ cr1 a w1, m w = ((cr1, Ok a), w1) ∧ k cr1 a w1 = ((cr, Ok b), w').
Proof. intros [?|(e & _ & [=])]%cr_try_inv. done. Qed.
Lemma pass_identity {A} cr0 (m : CrE A) w cr a w' : pass anything cr0 m → m w = ((cr, Ok a), w') → identity cr0 cr.
Proof. intros [_ Hi]. apply Hi. Qed.

(** The successful end of a step that is a [pass]. *)
#[local] Ltac next Hrun Hi :=
  let cr := fresh "cr" in let a := fresh "a" in let u := fresh "u" in let Hm := fresh "Hm" in
  apply cr_try_ok_inv in Hrun as (cr & a & u & Hm & Hrun);
  first [ apply cr_call_inv in Hm as [-> Hm]
        | let Hi' := fresh "Hi" in
          assert (Hi' : identity _ cr) by (eapply pass_identity; [|exact Hm]; eauto using
            pass_reconcileDatabase, pass_reconcileStorage, pass_reconcileReports, pass_reconcileSecrets, pass_configureTLS,
            pass_reconcileCoreService);
          clear Hi; rename Hi' into Hi ].

(** What the end of a pass publishes: the namespaces that are now watched, and the
    conditions of the main deployment. *)
Definition reported cr0 w : Prop :=
  ∃ o d, stored w KCryostat (key KCryostat (ci_Object cr0)) = Some o ∧
    V2.st_TargetNamespaces (V2.cr_Status o) = ci_TargetNamespaces cr0 ∧
    stored w KDeployment (named cr0) = Some d ∧
    ∀ t dt, (t, dt) ∈ mainDeploymentConditions →
      find_condition (FromCryostat o) t = condition_of t <$> findDeployCondition (dep_Conditions d) dt.

Lemma publish_ok r cr0 cr specs d w cr' res w' : identity cr0 cr → key KDeployment d = named cr0 →
  (do^ cr := Status_Update (published cr specs) in
   do^ cr := cr_call cr (reconcileOpenShift r cr) in
   do^ cr := updateConditionsFromDeployment cr (key KDeployment d) mainDeploymentConditions in
   cr_ret cr zero_Result) w = ((cr', Ok res), w') → reported cr0 w'.
Proof.
  intros Hi Hd Hrun. set (cr1 := published cr specs) in Hrun.
  assert (Hi1 : ci_TargetNamespaceStatus cr1 = ci_TargetNamespaces cr0 ∧ key KCryostat (ci_Object cr1) = key KCryostat (ci_Object cr0)).
  { destruct Hi as [_ _ Ht Hk _]. unfold cr1, published. by destruct (sps_CoreURL specs). }
  destruct Hi1 as [Hst1 Hk1]. clearbody cr1.
  apply cr_try_ok_inv in Hrun as (cr2 & [] & w1 & Hu & Hrun).
  assert (Hi2 : identity cr1 cr2) by (eapply (pass_identity cr1); [by apply pass_Status_Update|exact Hu]).
  apply cr_try_ok_inv in Hrun as (cr3 & [] & w2 & Ho & Hrun). apply cr_call_inv in Ho as [-> Ho].
  apply cr_try_ok_inv in Hrun as (cr3 & [] & w3 & Hc & Hrun). ret_inv Hrun.
  apply updateConditionsFromDeployment_run in Hc as (deploy & entries & got & Hg & Hp & Hw & Hst & Hob & Hs).
  rewrite (id_key _ _ Hi2), Hk1 in Hst, Hw. exists got, deploy. split; [done|]. split; [|split].
  - rewrite Hs. destruct (associateCondition_same (dep_Conditions deploy) entries cr2) as [f ->].
    etransitivity; [|exact Hst1]. exact (id_status _ _ Hi2).
  - rewrite <-Hd, <-Hg. apply (same_except_out _ _ _ _ _ Hw). by intros [].
  - intros t dt Hin. unfold find_condition, ci_Status. simpl. rewrite Hs.
    refine (proj1 (associate_mirrors _ mainDeploymentConditions entries cr2 t _ Hp) dt Hin).
    apply (bool_decide_unpack _). vm_compute. exact I.
Qed.

Lemma reconcileComponents_ok r cr0 cr tls specs w cr' res w' : identity cr0 cr →
  reconcileComponents r cr tls specs w = ((cr', Ok res), w') → reported cr0 w'.
Proof.
  intros Hi Hrun. unfold reconcileComponents in Hrun. do 9 next Hrun Hi. eapply publish_ok; [exact Hi| |exact Hrun].
  apply new_core_deployment in Hm6 as [-> _]. destruct Hi as [Hn Hin _ _ _]. unfold named. by rewrite Hn, Hin.
Qed.

Lemma reconcileAfterRBAC_ok r cr0 cr w cr' res w' : identity cr0 cr → ci_InstallNamespace cr0 ≠ "" →
  reconcileAfterRBAC r cr w = ((cr', Ok res), w') → RequeueAfter res = 0 → reported cr0 w'.
Proof.
  intros Hi Hne Hrun Hz. apply mbindM_inv in Hrun as ([cr1 [cfg|e]] & w1 & Ht & Hrun).
  2:{ destruct (decide _) in Hrun; by ret_inv Hrun. }
  assert (Hi1 : identity cr0 cr1) by (eapply (pass_identity cr0); [by apply pass_configureTLS|exact Ht]). clear Hi.
  do 2 next Hrun Hi1. cbv zeta in Hrun.
  apply mbindM_inv in Hrun as ([cr2 [specs|e]] & w2 & Hc & Hrun).
  - eapply reconcileComponents_ok; [|exact Hrun]. eapply (pass_identity cr0); [by apply pass_reconcileCoreService|exact Hc].
  - unfold requeueIfIngressNotReady in Hrun. destruct (decide _) in Hrun; by ret_inv Hrun.
Qed.

Lemma granted_eq r cr w w' : (∀ k n, rbac_kind k = true → stored w' k n = stored w k n) → granted r cr w → granted r cr w'.
Proof.
  intros E (G1 & G2 & G3). unfold granted, rb_granted, role_binding_granted, cluster_role_binding_granted. split; [|split].
  - intros ns Hns. rewrite E by done. by apply G1.
  - intros ns Hs Hn. rewrite E by done. by apply G2.
  - by rewrite E.
Qed.
Lemma granted_identity r cr0 cr w : identity cr0 cr → granted r cr w → granted r cr0 w.
Proof.
  intros [Hn Hi Ht Hk Hs]. destruct cr as [name ns targets o], cr0 as [name0 ns0 targets0 o0]. simpl in *. subst.
  unfold granted. by rewrite Hs.
Qed.

Lemma reconcileInstance_ok r cr0 cr w cr' res w' : identity cr0 cr → ci_InstallNamespace cr0 ≠ "" →
  NoDup (ci_TargetNamespaces cr0) → (∀ k n, rbac_footprint r cr0 k n → quiet w k n) →
  reconcileInstance r cr w = ((cr', Ok res), w') → RequeueAfter res = 0 → granted r cr0 w' ∧ reported cr0 w'.
Proof.
  intros Hi Hne Hnd Hq Hrun Hz. unfold reconcileInstance in Hrun.
  apply cr_try_ok_inv in Hrun as (cr1 & [] & w1 & Hl & Hrun). apply cr_call_inv in Hl as [-> Hl].
  apply (touches_reconcileLockConfigMap (kinds [KConfigMap])) in Hl; [|by left].
  apply cr_try_ok_inv in Hrun as (cr2 & [] & w2 & Hs & Hrun).
  assert (HP : pass (kinds [KCryostat; KSecret]) cr0 (reconcileSecrets cr)).
  { apply pass_reconcileSecrets; [done|by left|]. intros suffix. right. by left. }
  destruct HP as [HT HI]. apply HI in Hs as Hi2. apply HT in Hs.
  apply cr_try_ok_inv in Hrun as (cr3 & [] & w3 & HR & Hrun). apply cr_call_inv in HR as [-> HR].
  pose proof Hrun as Hout. eapply reconcileAfterRBAC_ok in Hrun; [|exact Hi2|done|done]. split; [|done].
  apply (touches_reconcileAfterRBAC (λ k n, rbac_kind k = false) r cr0 ltac:(done) cr2 Hi2 Hne) in Hout.
  apply (granted_eq r cr0 w3); [intros k n Hk; apply (same_except_out _ _ _ _ _ Hout); by rewrite Hk|].
  eapply granted_identity; [exact Hi2|]. apply reconcileRBAC_ok in HR; [done|by rewrite (id_Targets _ _ Hi2)|].
  intros k n Hn. assert (Hk : rbac_kind k = true ∧ rbac_footprint r cr0 k n).
  { pose proof (footprint_identity r _ _ Hi2 k n) as Hf. destruct k; try done; split; try done; by apply Hf. }
  destruct Hk as [Hk Hn0]. eapply quiet_eq; [|by apply Hq].
  rewrite (same_except_out _ _ _ _ _ Hs), (same_except_out _ _ _ _ _ Hl); [done|..]; unfold kinds; rewrite !elem_of_cons, elem_of_nil;
    intros Hin; destruct k; simpl in Hk; try discriminate Hk; intuition discriminate.
Qed.
End complete.

(** ** Properties *)
Section reconcile_properties.
Context `{KubeLaws W} `{QuantityOps}.
Implicit Types (r : Reconciler) (w : W).

Lemma Reconcile_confined r request w q w' :
  nn_Namespace request ≠ "" → Reconcile r request w = (q, w') →
  same_except (match stored w KCryostat request with
               | Some o => cryostat_footprint r (FromCryostat o)
               | None => λ _ _, False
               end) w w'.
Proof.
  intros Hns Hrun. destruct (stored w KCryostat request) as [o|] eqn:Ho.
  - destruct (request_instance _ _ _ Ho) as [Ei Ek].
    generalize (Reconcile_found _ _ _ _ _ _ Ho Hrun). clear Hrun. intros [(e & _ & Hw)|(w1 & cr & Hw & Ho1 & Hrun)].
    { by eapply same_except_weaken; [|exact Hw]. }
    transitivity w1; [by eapply same_except_weaken; [|exact Hw]|].
    eapply reconcileCryostat_footprint; [by rewrite Ei|by rewrite Ek|exact Hrun].
  - apply mbindM_inv in Hrun as ([o|e] & w1 & Hg & Hrun); pose proof (Get_reads _ _ _ _ _ Hg) as Hw.
    + apply (Get_Ok KCryostat) in Hg. by simplify_eq.
    + destruct (kerrors_IsNotFound e); by ret_inv Hrun.
Qed.


(** C5. The finalizer of a Cryostat that is being deleted waits for the cleanup: the stored
    CR is as it was until these are gone: the cluster role binding; in every target
    namespace of the spec the role binding, the callback service and, when the CR uses
    cert-manager, the copies of the TLS secrets outside the install namespace; on OpenShift
    the console link and, from the API server's list, the first CORS origin that quotes the
    address of the CR.  A pass that succeeds has done all this and taken the finalizer off,
    or completed the deletion.  Namespaces that only the status lists are not cleaned.  No
    finalizer may hold an object of the footprint other than the CR when the pass starts,
    and the API server's configuration must not be under deletion. *)
Theorem finalizer_waits_for_cleanup r request w o q w' :
  stored w KCryostat request = Some o → om_DeletionTimestamp (V2.cr_meta o) ≠ None →
  cryostatFinalizer ∈ om_Finalizers (V2.cr_meta o) →
  (∀ k n, cryostat_footprint r (FromCryostat o) k n → k ≠ KCryostat → unheld w k n) →
  Reconcile r request w = (q, w') →
  (stored w' KCryostat request = Some o ∨ cleaned r (FromCryostat o) w w') ∧
  ∀ res, q = Ok res → RequeueAfter res = 0 ∧ cleaned r (FromCryostat o) w w' ∧
    ∀ o', stored w' KCryostat request = Some o' → cryostatFinalizer ∉ om_Finalizers (V2.cr_meta o').
Proof.
  intros Ho Hdel Hfin Hu Hrun. destruct (request_instance _ _ _ Ho) as [_ Ek].
  generalize (Reconcile_found _ _ _ _ _ _ Ho Hrun). clear Hrun. intros [(e & -> & Hw)|(w1 & cr & Hw & Ho1 & Hrun)].
  { split; [|done]. left. by rewrite (same_store_eq _ _ _ _ Hw). }
  unfold reconcileCryostat in Hrun. rewrite bool_decide_true in Hrun by done.
  rewrite ContainsFinalizer_spec, bool_decide_true in Hrun by done.
  assert (Hclean : ∀ u, cleanupCryostat r (FromCryostat o) w1 = (Ok (), u) → cleaned r (FromCryostat o) w u).
  { intros u Hc. eapply cleaned_eq; [symmetry; by apply same_store_eq|done|]. revert Hc. apply cleanupCryostat_ok. intros k n Hf Hk old. rewrite (same_store_eq _ _ _ _ Hw). by apply Hu. }
  assert (Hkeep : ∀ p u, cleanupCryostat r (FromCryostat o) w1 = (p, u) → stored u KCryostat request = Some o).
  { intros p u Hc%touches_cleanupCryostat. rewrite <-Ho1. apply (same_except_out _ _ _ _ _ Hc). by intros []. }
  apply mbindM_inv in Hrun as ([cr1 p1] & w2 & Hf & Hrun). 
  apply cr_try_inv in Hf as [(cr2 & [] & w3 & Hc & Hr)|(e & Hc & ->)]; apply cr_call_inv in Hc as [-> Hc].
  2:{ ret_inv Hrun. split; [|done]. left. by eapply Hkeep. }
  assert (Hcl : cleaned r (FromCryostat o) w w2).
  { eapply cleaned_eq; [done| |by apply Hclean]. intros k n Hk. apply touches_RemoveCRFinalizer in Hr.
    apply (same_except_out _ _ _ _ _ Hr). by intros []. }
  assert (w' = w2 ∧ (∀ res, q = Ok res → res = zero_Result ∧ p1 = Ok ())) as [-> Hq] by
    (destruct p1 as [[]|e]; ret_inv Hrun; split; try done; by intros res [= <-]).
  split; [by right|]. intros res [-> ->]%Hq. split; [done|]. split; [done|].
  intros o' Ho'. apply mbindM_inv in Hr as ([o1 e] & w4 & Hup & Hr). ret_inv Hr.
  apply (Update_deleting KCryostat _ o) in Hup; [|..|done].
  2:{ rewrite (RemoveFinalizer_key KCryostat). by eapply Hkeep. }
  rewrite (RemoveFinalizer_key KCryostat) in Hup. destruct Hup as [?|[Hst Hfs]]; [congruence|].
  rewrite Ho' in Hst. injection Hst as ->. change (om KCryostat) with V2.cr_meta in Hfs. rewrite Hfs.
  intros Hin. rewrite RemoveFinalizer_spec in Hin. by apply list_elem_of_filter in Hin as [? _].
Qed.

(** C29. A pass for a Cryostat that has its finalizer and is not being deleted, and whose
    lock exists, is not marked immutable and refuses the CR as its controller because it
    belongs to another object, fails and changes nothing in the cluster.  Without its
    finalizer the CR gets it first, and an immutable lock is taken over
    ([immutable_lock_taken]). *)
Theorem Reconcile_locked_out r request w o old q w' :
  stored w KCryostat request = Some o → om_DeletionTimestamp (V2.cr_meta o) = None →
  cryostatFinalizer ∈ om_Finalizers (V2.cr_meta o) →
  stored w KConfigMap (own (FromCryostat o) "-lock") = Some old → isImmutable old = false →
  (∀ m, controllerutil_SetControllerReference (V2.cr_meta o) (cm_meta old) ≠ Ok m) →
  Reconcile r request w = (q, w') → same_store w w' ∧ ∃ e, q = Err e ∧ foreign e.
Proof.
  intros Ho Hdel Hfin Hl Him Href ([o1|e] & w1 & Hg & Hrun)%mbindM_inv; pose proof (Get_reads _ _ _ _ _ Hg) as Hw.
  2:{ apply Get_foreign in Hg as He. destruct (kerrors_IsNotFound e) eqn:En; [|ret_inv Hrun; eauto].
      apply (Get_NotFound KCryostat) in Hg; [congruence|done]. }
  apply (Get_Ok KCryostat) in Hg. rewrite Ho in Hg. injection Hg as <-.
  apply mbindM_inv in Hrun as ([cr p] & w2 & Hrun & Hr). ret_inv Hr.
  unfold reconcileCryostat in Hrun. rewrite bool_decide_false in Hrun by (intros Hn; by apply Hn).
  rewrite ContainsFinalizer_spec, bool_decide_true in Hrun by done. simpl in Hrun.
  apply mbindM_inv in Hrun as ([cr1 p1] & w3 & Hc & Hrun). ret_inv Hc.
  apply mbindM_inv in Hrun as ([cr1 p1] & w4 & Hc & Hrun). apply cr_call_inv in Hc as [-> Hc].
  change (createOrUpdateConfigMap 2 (lock_configMap (FromCryostat o)) o None w3 = (p1, w4)) in Hc.
  apply (createOrUpdateConfigMap_refused (lock_configMap (FromCryostat o)) o None old) in Hc as [(e & -> & He) Hs];
    [|by rewrite (same_store_eq _ _ _ _ Hw)|done..].
  ret_inv Hrun. split; [by transitivity w3|eauto].
Qed.

Lemma Reconcile_completes r request w o res w' :
  nn_Namespace request ≠ "" → stored w KCryostat request = Some o → om_DeletionTimestamp (V2.cr_meta o) = None →
  NoDup (ci_TargetNamespaces (FromCryostat o)) →
  (∀ k n, rbac_footprint r (FromCryostat o) k n → quiet w k n) →
  Reconcile r request w = (Ok res, w') → RequeueAfter res = 0 →
  granted r (FromCryostat o) w' ∧ reported (FromCryostat o) w'.
Proof.
  intros Hns Ho Hdel Hnd Hq Hrun Hz. destruct (request_instance _ _ _ Ho) as [Ei Ek].
  generalize (Reconcile_found _ _ _ _ _ _ Ho Hrun). clear Hrun. intros [(e & [=] & _)|(w1 & cr & Hw & Ho1 & Hrun)].
  unfold reconcileCryostat in Hrun. rewrite bool_decide_false in Hrun by (intros Hn; by apply Hn).
  apply cr_try_ok_inv in Hrun as (cr1 & [] & w2 & Hf & Hrun).
  assert (Hf' : identity (FromCryostat o) cr1 ∧ same_except (only KCryostat request) w1 w2).
  { destruct (negb _) in Hf.
    - split; [by eapply AddCRFinalizer_identity; [rewrite Ek|]|]. rewrite <-Ek. by eapply touches_AddCRFinalizer.
    - by ret_inv Hf. }
  destruct Hf' as [Hi Hw2]. eapply reconcileInstance_ok; [exact Hi|by rewrite Ei|done| |exact Hrun|done].
  intros k n Hn. eapply quiet_eq; [|by apply Hq].
  rewrite (same_except_out _ _ _ _ _ Hw2); [apply (same_store_eq _ _ _ _ Hw)|]. intros [-> _]. by simpl in Hn.
Qed.

(** C3. A pass that completes (no error, no requeue) over a Cryostat that is not being
    deleted, has each target namespace once, and whose RBAC objects were neither held by
    finalizers nor under deletion when the pass started, has done its work: every target
    namespace has its role binding, those that were dropped have none, the cluster role
    binding is in place, the status names the namespaces of the spec as the ones being
    watched, and its conditions are those of the main deployment, which is stored. *)
Theorem Reconcile_complete r request w o res w' :
  nn_Namespace request ≠ "" → stored w KCryostat request = Some o → om_DeletionTimestamp (V2.cr_meta o) = None →
  NoDup (ci_TargetNamespaces (FromCryostat o)) →
  (∀ k n, rbac_footprint r (FromCryostat o) k n → quiet w k n) →
  Reconcile r request w = (Ok res, w') → RequeueAfter res = 0 →
  granted r (FromCryostat o) w' ∧ reported (FromCryostat o) w'.
Proof. apply Reconcile_completes. Qed.
End reconcile_properties.

(** ** Witnesses *)
Definition sample_request : NamespacedName := nn "ns" "cryostat".

(** A Cryostat under deletion, with a role binding left in a target namespace. *)
Definition dying_Cryostat : V2.Cryostat := sample_Cryostat <| V2.cr_meta ::= λ m, m <| om_DeletionTimestamp := Some 1 |> |>.
Definition dying_world : fake :=
  fk_put KRoleBinding (rb_key sample_r sample_cr "a") (newRoleBinding sample_r sample_cr "a")
    (fk_put KCryostat sample_request dying_Cryostat fk_empty).
Lemma finalizer_waits_for_cleanup_witness :
  stored dying_world KRoleBinding (rb_key sample_r sample_cr "a") ≠ None ∧
  stored (Reconcile sample_r sample_request dying_world).2 KRoleBinding (rb_key sample_r sample_cr "a") = None.
Proof.
  split; [vm_compute; discriminate|].
  destruct (finalizer_waits_for_cleanup sample_r sample_request dying_world
    (admitted KCryostat sample_request dying_Cryostat) (Reconcile sample_r sample_request dying_world).1
    (Reconcile sample_r sample_request dying_world).2) as (_ & Hok).
  - reflexivity.
  - discriminate.
  - apply (bool_decide_unpack _). exact I.
  - intros k n _ Hk. apply quiet_unheld. destruct k; try done; apply fk_quiet; apply (bool_decide_unpack _); exact I.
  - apply surjective_pairing.
  - destruct (Hok zero_Result) as (_ & (_ & Hc & _) & _); [vm_compute; reflexivity|].
    apply (Hc "a"). apply (bool_decide_unpack _). exact I.
Defined.

Lemma Reconcile_locked_out_witness :
  same_store locked_world (Reconcile sample_r sample_request locked_world).2.
Proof.
  eapply (Reconcile_locked_out sample_r sample_request locked_world).
  - reflexivity.
  - reflexivity.
  - apply (bool_decide_unpack _). exact I.
  - reflexivity.
  - reflexivity.
  - intros m. vm_compute. discriminate.
  - apply surjective_pairing.
Defined.

(** The lock of another object that is marked immutable is deleted and created again, for
    this Cryostat: the check of the mark comes before that of the controller. *)
Definition immutable_lock_world : fake :=
  fk_put KConfigMap (nn "ns" "cryostat-lock") (foreign_lock <| cm_Immutable := Some true |>) fk_sample.
Example immutable_lock_taken :
  (match stored (Reconcile sample_r sample_request immutable_lock_world).2 KConfigMap (nn "ns" "cryostat-lock") with
   | Some l => metav1_IsControlledBy (cm_meta l) (V2.cr_meta sample_Cryostat)
   | None => false end) = true ∧
  metav1_IsControlledBy (cm_meta foreign_lock) (V2.cr_meta sample_Cryostat) = false.
Proof. split; vm_compute; reflexivity. Qed.

(** A Cryostat without cert-manager, whose pass completes at once. *)
Definition plain_Cryostat : V2.Cryostat :=
  sample_Cryostat <| V2.cr_Spec ::= λ s, s <| V2.spec_EnableCertManager := Some false |> |>.
Definition plain_world : fake := fk_put KCryostat sample_request plain_Cryostat fk_empty.
Lemma Reconcile_complete_witness :
  ∃ o, stored (Reconcile sample_r sample_request plain_world).2 KCryostat sample_request = Some o ∧
       V2.st_TargetNamespaces (V2.cr_Status o) = ["ns"; "a"].
Proof.
  destruct (Reconcile_complete sample_r sample_request plain_world (admitted KCryostat sample_request plain_Cryostat)
    zero_Result (Reconcile sample_r sample_request plain_world).2) as [_ (o & d & Hst & Ht & _)].
  - discriminate.
  - reflexivity.
  - reflexivity.
  - apply (bool_decide_unpack _). exact I.
  - intros k n Hn. destruct k; try destruct Hn; intros old Hold; discriminate Hold.
  - apply run_snd. vm_compute. reflexivity.
  - reflexivity.
  - exists o. split; [exact Hst|exact Ht].
Defined.
