(* ===== verification/Tenants.v ===== *)
(** * Several Cryostats

    The operator serves all the Cryostats of a cluster with the same rights.  What a pass for
    one of them may do to the objects of another: nothing, when they live in different
    namespaces, outside of what they share by design. *)

From S2P Require Export Reconciled.
From S2P Require Import FakeClient.
Open Scope Z_scope.

(** The namespaces of a Cryostat. *)
Definition in_reach cr (ns : string) : Prop := ns = ci_InstallNamespace cr ∨ watched_namespace cr ns.
(** The services of its own namespace. *)
Definition own_services cr : list NamespacedName :=
  [named cr; own cr "-reports"; own cr "-agent"; own cr "-database"; own cr "-storage"].
(** What two Cryostats may both write: OpenShift's API server configuration; secrets, in
    the namespaces that both reach; and a service, when one of them is named like the
    callback service that the other has in its namespace. *)
Definition may_share (r : Reconciler) cr1 cr2 (k : Kind) (n : NamespacedName) : Prop :=
  match k with
  | KAPIServer => True
  | KSecret => in_reach cr1 (nn_Namespace n) ∧ in_reach cr2 (nn_Namespace n)
  | KService => n ∈ own_services cr1 ∧ nn_Name n = callback_name r cr2 ∧ watched_namespace cr2 (nn_Namespace n) ∨
                n ∈ own_services cr2 ∧ nn_Name n = callback_name r cr1 ∧ watched_namespace cr1 (nn_Namespace n)
  | _ => False
  end.
(** The text whose hash makes the names of a Cryostat's objects unique in the cluster. *)
Definition identity_text cr : string := hashed_name (ci_Name cr) (ci_InstallNamespace cr) "".
Definition hashes_differ cr1 cr2 : Prop :=
  name_hash false (identity_text cr1) ≠ name_hash false (identity_text cr2) ∧
  name_hash true (identity_text cr1) ≠ name_hash true (identity_text cr2).

Lemma rbac_names_differ r cr1 cr2 : hashes_differ cr1 cr2 → rbac_name r cr1 ≠ rbac_name r cr2.
Proof. intros [Hh _] Hn. apply Hh. by apply clusterUniqueName_hash in Hn as [_ ?]. Qed.
Lemma callback_names_differ r cr1 cr2 : hashes_differ cr1 cr2 → callback_name r cr1 ≠ callback_name r cr2.
Proof. intros [_ Hh] Hn. apply Hh. by apply clusterUniqueName_hash in Hn as [_ ?]. Qed.
Lemma own_namespace cr n (suffixes : list string) : n ∈ map (own cr) suffixes → nn_Namespace n = ci_InstallNamespace cr.
Proof. intros (s & -> & _)%list_elem_of_fmap. done. Qed.
Lemma named_namespace suffixes cr n : n ∈ named cr :: map (own cr) suffixes → nn_Namespace n = ci_InstallNamespace cr.
Proof. intros [->|Hn]%elem_of_cons; [done|]. by eapply own_namespace. Qed.
Lemma own_services_namespace cr n : n ∈ own_services cr → nn_Namespace n = ci_InstallNamespace cr.
Proof. apply (named_namespace ["-reports"; "-agent"; "-database"; "-storage"]). Qed.

Lemma footprints_apart r o1 o2 k n : let cr1 := FromCryostat o1 in let cr2 := FromCryostat o2 in
  ci_InstallNamespace cr1 ≠ ci_InstallNamespace cr2 → hashes_differ cr1 cr2 → ¬ may_share r cr1 cr2 k n →
  cryostat_footprint r cr1 k n → cryostat_footprint r cr2 k n → False.
Proof.
  intros cr1 cr2 Hns Hh Hshare H1 H2.
  assert (∀ suffixes, n ∈ map (own cr1) suffixes → n ∈ map (own cr2) suffixes → False) as Hown.
  { intros l Hl1%own_namespace Hl2%own_namespace. congruence. }
  pose proof (rbac_names_differ r _ _ Hh) as Hrbac. pose proof (callback_names_differ r _ _ Hh) as Hcall.
  destruct k; simpl in H1, H2, Hshare; try done.
  - (* the CR *) apply Hns. by rewrite H1 in H2; injection H2.
  - (* secrets *) apply Hshare. unfold in_reach, watched_namespace. tauto.
  - (* config maps *) exact (Hown ["-lock"; "-oauth2-proxy-cfg"; "-agent-proxy"] H1 H2).
  - (* services *)
    fold (own_services cr1) in H1. fold (own_services cr2) in H2. destruct H1 as [H1|[H1 W1]], H2 as [H2|[H2 W2]].
    + apply own_services_namespace in H1, H2. exact (Hns (eq_trans (eq_sym H1) H2)).
    + apply Hshare. by left.
    + apply Hshare. by right.
    + exact (Hcall (eq_trans (eq_sym H1) H2)).
  - (* service account *) rewrite H1 in H2. by injection H2.
  - (* claims *) exact (Hown ["-database"; "-storage"] H1 H2).
  - (* deployments *) apply (named_namespace ["-database"; "-storage"; "-reports"]) in H1, H2. congruence.
  - (* role *) rewrite H1 in H2. by injection H2.
  - (* role bindings *) destruct H1 as [H1 _], H2 as [H2 _]. exact (Hrbac (eq_trans (eq_sym H1) H2)).
  - (* cluster role binding *) rewrite H1 in H2. by injection H2.
  - (* ingress *) rewrite H1 in H2. by injection H2.
  - (* network policies *) exact (Hown ["-internal-ingress"; "-internal-egress"; "-db-internal-ingress";
      "-storage-internal-ingress"; "-reports-internal-ingress"] H1 H2).
  - (* route *) rewrite H1 in H2. by injection H2.
  - (* console link *) rewrite H1 in H2. injection H2. exact Hrbac.
  - (* issuers *) destruct H1 as [-> | ->], H2 as [H2|H2]; injection H2; done.
  - (* certificates *) exact (Hns (eq_trans (eq_sym H1) H2)).
Qed.

Section isolation.
Context `{KubeLaws W} `{QuantityOps}.

(** C6. The Cryostats of different namespaces leave each other's objects alone: a pass for
    one of them, however it ends, does not change the objects that the operator keeps for
    the other, as long as the hashes of the texts that identify them differ, apart from
    OpenShift's API server configuration, the secrets of the namespaces that both reach, and
    a service that is named like the other's callback service. *)
Theorem tenants_isolated r request w q w' o1 o2 k n : let cr1 := FromCryostat o1 in let cr2 := FromCryostat o2 in
  nn_Namespace request ≠ "" → stored w KCryostat request = Some o1 → Reconcile r request w = (q, w') →
  ci_InstallNamespace cr1 ≠ ci_InstallNamespace cr2 → hashes_differ cr1 cr2 →
  cryostat_footprint r cr2 k n → ¬ may_share r cr1 cr2 k n → stored w' k n = stored w k n.
Proof.
  intros cr1 cr2 Hreq Ho Hrun Hns Hh H2 Hshare. pose proof (Reconcile_confined _ _ _ _ _ Hreq Hrun) as Hsame.
  rewrite Ho in Hsame. eapply same_except_out; [exact Hsame|]. intros Hfp. by eapply footprints_apart.
Qed.
End isolation.

(** ** Witness: the sample Cryostat, and one of another namespace that shares a target *)
Definition other_Cryostat : V2.Cryostat := sample_Cryostat <| V2.cr_meta := NewObjectMeta "other" "elsewhere" |>.
Lemma tenants_isolated_witness :
  stored (Reconcile sample_r sample_request fk_sample).2 KRoleBinding (nn "a" (rbac_name sample_r (FromCryostat other_Cryostat))) =
  stored fk_sample KRoleBinding (nn "a" (rbac_name sample_r (FromCryostat other_Cryostat))).
Proof.
  apply (tenants_isolated sample_r sample_request fk_sample (Reconcile sample_r sample_request fk_sample).1
    (Reconcile sample_r sample_request fk_sample).2 (admitted KCryostat sample_request sample_Cryostat) other_Cryostat).
  - discriminate.
  - reflexivity.
  - apply surjective_pairing.
  - discriminate.
  - split; apply (bool_decide_unpack _); vm_compute; exact I.
  - split; [reflexivity|]. left. apply (bool_decide_unpack _). vm_compute. exact I.
  - intros [].
Defined.

(** Within one namespace a name may end like the suffix of another's object: the database of
    [a] and the Cryostat [a-database] have the same service. *)
Definition in_ns (name : string) : CryostatInstance :=
  FromCryostat (sample_Cryostat <| V2.cr_meta := NewObjectMeta name "ns" |>).
Example names_overlap :
  cryostat_footprint sample_r (in_ns "a") KService (nn "ns" "a-database") ∧
  cryostat_footprint sample_r (in_ns "a-database") KService (nn "ns" "a-database").
Proof. split; left; apply (bool_decide_unpack _); vm_compute; exact I. Qed.
