(* ===== verification/Access.v ===== *)
(** * What the operator grants, over time

    An abstract machine for the namespaces that a Cryostat may reach, and a refinement: any
    history of edits of the CR, of complete passes over it, and of passes for Cryostats of
    other namespaces follows the machine.  So the role bindings in the cluster are those of
    the last pass, however often the list of target namespaces changed before. *)

From S2P Require Export Tenants.
From S2P Require Import FakeClient.
Open Scope Z_scope.

(** ** The specification *)
Module access.
(** The namespaces that are watched, and those where Cryostat's service account is bound. *)
Record state := { watched : list string; bound : gset string }.
Definition sync (s : state) (targets : list string) : state :=
  {| watched := targets; bound := (bound s ∖ list_to_set (watched s)) ∪ list_to_set targets |}.
(** Nothing is bound that is not watched. *)
Definition tight (s : state) : Prop := bound s ⊆ list_to_set (watched s).

Lemma sync_tight s targets : tight s → bound (sync s targets) = list_to_set targets.
Proof. unfold tight, sync. simpl. set_solver. Qed.
Lemma tight_run s l : tight s → tight (foldl sync s l).
Proof. revert s. induction l as [|t l IH]; intros s Hs; simpl; [done|]. apply IH. unfold tight. by rewrite sync_tight. Qed.
End access.

(** ** The implementation *)
Section refinement.
Context `{KubeLaws W} `{QuantityOps}.
Context (r : Reconciler) (request : NamespacedName) (Hns : nn_Namespace request ≠ "").
Implicit Types (w : W) (s : access.state).

(** The role binding of the Cryostat of the request in a namespace. *)
Definition binding_key (ns : string) : NamespacedName :=
  nn ns (ClusterUniqueName (r_Kind r) (nn_Name request) (nn_Namespace request)).

(** A history: someone edits the CR, whose status is the operator's own, a pass for it
    completes, or a pass for a Cryostat of another namespace ends in any way; the trace has
    the target namespaces of each pass for it.  A pass starts with a CR that is not being
    deleted and lists each namespace once, and with RBAC objects that no finalizer holds and
    that are not under deletion; the hashed names of another CR's objects are not this
    one's. *)
Inductive history : W → list (list string) → W → Prop :=
| history_none w : history w [] w
| history_edit w o w1 o1 l w2 :
    stored w KCryostat request = Some o → stored w1 KCryostat request = Some o1 →
    V2.cr_Status o1 = V2.cr_Status o → same_except (only KCryostat request) w w1 →
    history w1 l w2 → history w l w2
| history_pass w o res w1 l w2 :
    stored w KCryostat request = Some o → om_DeletionTimestamp (V2.cr_meta o) = None →
    NoDup (ci_TargetNamespaces (FromCryostat o)) →
    (∀ k n, rbac_footprint r (FromCryostat o) k n → quiet w k n) →
    Reconcile r request w = (Ok res, w1) → RequeueAfter res = 0 →
    history w1 l w2 → history w (ci_TargetNamespaces (FromCryostat o) :: l) w2
| history_other w o other o2 q w1 l w2 :
    stored w KCryostat request = Some o → stored w KCryostat other = Some o2 →
    nn_Namespace other ≠ "" → nn_Namespace other ≠ nn_Namespace request →
    hashes_differ (FromCryostat o2) (FromCryostat o) →
    Reconcile r other w = (q, w1) → history w1 l w2 → history w l w2.

Definition abstracts w s : Prop :=
  (∃ o, stored w KCryostat request = Some o ∧ V2.st_TargetNamespaces (V2.cr_Status o) = access.watched s) ∧
  ∀ ns, is_Some (stored w KRoleBinding (binding_key ns)) ↔ ns ∈ access.bound s.

Lemma binding_key_of w o ns : stored w KCryostat request = Some o → rb_key r (FromCryostat o) ns = binding_key ns.
Proof. intros Ho. apply stored_key in Ho. unfold binding_key. by rewrite <-Ho. Qed.

Lemma pass_refines w o res w' s :
  stored w KCryostat request = Some o → om_DeletionTimestamp (V2.cr_meta o) = None →
  NoDup (ci_TargetNamespaces (FromCryostat o)) →
  (∀ k n, rbac_footprint r (FromCryostat o) k n → quiet w k n) →
  Reconcile r request w = (Ok res, w') → RequeueAfter res = 0 →
  abstracts w s → abstracts w' (access.sync s (ci_TargetNamespaces (FromCryostat o))).
Proof.
  intros Ho Hdel Hnd Hq Hrun Hz [(o0 & Ho0 & Hwatched) Hbound]. rewrite Ho in Ho0. injection Ho0 as <-.
  pose proof (Reconcile_confined _ _ _ _ _ Hns Hrun) as Hfoot. rewrite Ho in Hfoot.
  pose proof (Reconcile_completes _ _ _ _ _ _ Hns Ho Hdel Hnd Hq Hrun Hz) as [(Hgrant & Hrevoke & _) (o' & d & Ho' & Hst & _)].
  destruct (request_instance _ _ _ Ho) as [_ Ek]. rewrite Ek in Ho'. split; [by exists o'|].
  intros ns. simpl. rewrite elem_of_union, elem_of_difference, !elem_of_list_to_set, <-Hwatched, <-Hbound.
  destruct (decide (ns ∈ ci_TargetNamespaces (FromCryostat o))) as [Hin|Hnin].
  { destruct (Hgrant ns Hin) as (got & Hgot & _). rewrite (binding_key_of _ _ _ Ho) in Hgot. rewrite Hgot. naive_solver. }
  destruct (decide (ns ∈ V2.st_TargetNamespaces (V2.cr_Status o))) as [Hw|Hw].
  { specialize (Hrevoke ns Hw Hnin). rewrite (binding_key_of _ _ _ Ho) in Hrevoke. rewrite Hrevoke.
    split; [by intros [? ?]|naive_solver]. }
  assert (E : stored w' KRoleBinding (binding_key ns) = stored w KRoleBinding (binding_key ns)).
  { apply (same_except_out _ _ _ _ _ Hfoot). simpl. intros [_ [Hn|Hn]]; [by apply Hnin|by apply Hw]. }
  rewrite E. naive_solver.
Qed.

(** A pass for another Cryostat is no step of the machine. *)
Lemma other_refines w o other o2 q w' s :
  stored w KCryostat request = Some o → stored w KCryostat other = Some o2 →
  nn_Namespace other ≠ "" → nn_Namespace other ≠ nn_Namespace request →
  hashes_differ (FromCryostat o2) (FromCryostat o) → Reconcile r other w = (q, w') →
  abstracts w s → abstracts w' s.
Proof.
  intros Ho Ho2 Hne Hdiff Hh Hrun [(o0 & Ho0 & Hwatched) Hbound].
  destruct (request_instance _ _ _ Ho) as [_ Ek], (request_instance _ _ _ Ho2) as [Ei2 Ek2].
  pose proof (Reconcile_confined _ _ _ _ _ Hne Hrun) as Hfoot. rewrite Ho2 in Hfoot. split.
  - exists o0. split; [|done]. rewrite <-Ho0. apply (same_except_out _ _ _ _ _ Hfoot). simpl.
    change (request ≠ key KCryostat (ci_Object (FromCryostat o2))). rewrite Ek2. congruence.
  - intros ns. rewrite <-Hbound. rewrite (same_except_out _ _ _ _ _ Hfoot); [done|].
    rewrite <-(binding_key_of _ _ ns Ho). intros [Hn _]. by apply (rbac_names_differ r _ _ Hh).
Qed.

(** C1. Refinement: along any history of edits of the CR, of complete passes for it,
    and of passes for Cryostats of other namespaces however they end, the cluster follows
    the machine, pass by pass; and from a state where nothing is bound that is not watched
    (such as a new CR), the namespaces with a role binding after a pass are exactly the
    target namespaces of that pass: access that is no longer asked for does not linger.
    The history's conditions: when a pass starts, the CR is not being deleted, each target
    namespace is listed once, and none of the CR's RBAC objects is held by a finalizer or
    under deletion (a binding that a finalizer holds outlives the pass that drops it); and
    the hashed names of the two CRs differ in a pass for another one. *)
Theorem access_refines w l w' s :
  history w l w' → abstracts w s →
  abstracts w' (foldl access.sync s l) ∧
  (access.tight s → ∀ l' targets, l = l' ++ [targets] →
     ∀ ns, is_Some (stored w' KRoleBinding (binding_key ns)) ↔ ns ∈ targets).
Proof.
  intros Hrun Hs. assert (Hsim : abstracts w' (foldl access.sync s l)).
  { revert s Hs. induction Hrun as [w|w o w1 o1 l w2 Ho Ho1 Hst Hw _ IH|w o res w1 l w2 Ho Hdel Hnd Hq Hr Hz _ IH
      |w o other o2 q w1 l w2 Ho Ho2 Hne Hdiff Hh Hr _ IH]; intros s Hs.
    - exact Hs.
    - apply IH. destruct Hs as [(o0 & Ho0 & Hwatched) Hbound]. rewrite Ho in Ho0. injection Ho0 as <-. split.
      + exists o1. by rewrite Hst.
      + intros ns. rewrite (same_except_out _ _ _ _ _ Hw) by (by intros []). apply Hbound.
    - simpl. apply IH. by eapply pass_refines.
    - apply IH. by eapply other_refines. }
  split; [done|]. intros Ht l' targets -> ns. destruct Hsim as [_ ->].
  rewrite foldl_app. simpl foldl. rewrite access.sync_tight by by apply access.tight_run. by rewrite elem_of_list_to_set.
Qed.
End refinement.

(** ** Witness

    A pass over a CR whose status lists [a] and [b] and whose spec lists [ns] and [a]. *)
Lemma one_pass : history sample_r sample_request plain_world [["ns"; "a"]] (Reconcile sample_r sample_request plain_world).2.
Proof.
  apply (history_pass sample_r sample_request plain_world (admitted KCryostat sample_request plain_Cryostat) zero_Result
    (Reconcile sample_r sample_request plain_world).2 []).
  - reflexivity.
  - reflexivity.
  - apply (bool_decide_unpack _). exact I.
  - intros k n Hn. destruct k; try destruct Hn; intros old Hold; discriminate Hold.
  - apply run_snd. vm_compute. reflexivity.
  - reflexivity.
  - apply history_none.
Qed.
Lemma access_refines_witness :
  ¬ is_Some (stored (Reconcile sample_r sample_request plain_world).2 KRoleBinding (binding_key sample_r sample_request "b")).
Proof.
  intros Hb. refine (_ (proj1 (proj2 (access_refines sample_r sample_request _ _ _ _
    {| access.watched := ["a"; "b"]; access.bound := ∅ |} one_pass _) _ [] ["ns"; "a"] eq_refl "b") Hb)).
  - intros Hin. repeat (apply elem_of_cons in Hin as [Hin|Hin]; [discriminate Hin|]). by apply elem_of_nil in Hin.
  - discriminate.
  - split; [by eexists|]. intros n. split; [intros [x Hx]; discriminate Hx|]. intros Hn. exfalso. exact (not_elem_of_empty _ Hn).
  - unfold access.tight. simpl. apply empty_subseteq.
Defined.

(** ** Unfinished passes

    The machine moves with passes that complete. A pass grants access first and records the
    namespaces at its end: when it stops in between, as it does while it waits for
    certificates, and the CR is edited then, a namespace that was dropped is in neither list,
    and its role binding stays. *)
Definition drop_ns (w : fake) : fake :=
  match stored w KCryostat sample_request with
  | Some o => fk_put KCryostat sample_request (o <| V2.cr_Spec ::= λ s, s
      <| V2.spec_TargetNamespaces := Some ["a"] |> <| V2.spec_EnableCertManager := Some false |> |>) w
  | None => w
  end.
Example unfinished_pass_lingers :
  (let first := Reconcile sample_r sample_request fk_sample in
   let second := Reconcile sample_r sample_request (drop_ns first.2) in
   (first.1, second.1, bool_decide (is_Some (stored second.2 KRoleBinding (binding_key sample_r sample_request "ns"))))) =
  (Ok {| RequeueAfter := 5 |}, Ok zero_Result, true).
Proof. vm_compute. reflexivity. Qed.
