(* ===== verification/Admission.v ===== *)
(** * Admission and reconciliation together

    What the webhooks of the Cryostat resource let in (CryostatWebhook.v) bounds what the
    reconciler may do with it (Reconciled.v): the operator acts with its own rights, and the
    reviews of the validator keep a user from borrowing them. *)

From S2P Require Export Reconciled CryostatWebhook.
From S2P Require Import FakeClient.
Open Scope Z_scope.

(** The API server calls the mutating webhook, then the validating one on its result. *)
Definition webhooks_accept `{Kube W} `{Reviews W} (req : res UserInfo) (op : string) (cr : V2.Cryostat) : E W V2.Cryostat :=
  let cr := Default cr in
  do? validate req cr op in mretM (Ok cr).

Section admission.
Context `{KubeLaws W} `{QuantityOps} `{Reviews W} `{!ReviewLaws W}.

Lemma webhooks_accept_Ok u op cr w cr' w' : webhooks_accept (Ok u) op cr w = (Ok cr', w') →
  cr' = Default cr ∧ ∀ ns, ns ∈ targets cr' → may_create w u ns = true.
Proof.
  unfold webhooks_accept. intros ([] & w1 & Hv & Hrun)%mtry_ok_inv. ret_inv Hrun. split; [done|].
  apply reviews_run in Hv as [_ Hv]. rewrite Forall_forall in Hv. exact Hv.
Qed.
(** Where a pass may write: the namespaces are those of the CR, of its spec and its status,
    or none for the cluster-scoped objects; role bindings need a watched namespace. *)
Lemma footprint_namespaces r o k n : cryostat_footprint r (FromCryostat o) k n →
  (k ≠ KRoleBinding ∧ (nn_Namespace n = om_Namespace (V2.cr_meta o) ∨ nn_Namespace n = "")) ∨
  nn_Namespace n ∈ targets o ∨ nn_Namespace n ∈ V2.st_TargetNamespaces (V2.cr_Status o).
Proof.
  destruct k; simpl; unfold watched_namespace; simpl; try done.
  all: try (intros ->; left; split; [done|auto]; fail).
  all: try (intros Hn; left; split; [done|left]; repeat (apply elem_of_cons in Hn as [->|Hn]; [done|]);
            by apply elem_of_nil in Hn).
  - intros [Hn|Hn]; [left; by auto|by right].
  - intros [Hn|[_ Hn]]; [|by right]. left. split; [done|left].
    repeat (apply elem_of_cons in Hn as [->|Hn]; [done|]). by apply elem_of_nil in Hn.
  - intros [_ Hn]. by right.
  - intros [-> | ->]; left; auto.
Qed.

(** C2. A user cannot reach through the operator into a namespace where they may not
    create Cryostats: when a CR is admitted for a user, and the namespaces its status
    already lists were permitted to them too, then whatever a pass over it changes in the
    cluster is cluster-scoped, or in the CR's own namespace, or in a namespace that the
    cluster permits the user; and it grants access (a role binding) only in the latter. *)
Theorem access_follows_permission u op cr cr' w0 w1 r request o w q w' :
  webhooks_accept (Ok u) op cr w0 = (Ok cr', w1) →
  stored w KCryostat request = Some o → V2.cr_Spec o = V2.cr_Spec cr' →
  (∀ ns, ns ∈ V2.st_TargetNamespaces (V2.cr_Status o) → may_create w0 u ns = true) →
  nn_Namespace request ≠ "" → Reconcile r request w = (q, w') →
  ∀ k n, stored w' k n ≠ stored w k n →
    may_create w0 u (nn_Namespace n) = true ∨
    (k ≠ KRoleBinding ∧ (nn_Namespace n = nn_Namespace request ∨ nn_Namespace n = "")).
Proof.
  intros [_ Hadm]%webhooks_accept_Ok Ho Hspec Hstatus Hns Hrun k n Hne.
  apply Reconcile_confined in Hrun; [|done]. rewrite Ho in Hrun.
  destruct (decide (may_create w0 u (nn_Namespace n) = true)) as [|Hno]; [by left|]. right.
  apply dec_stable. intros Hout. apply Hne, Hrun. intros Hf. apply Hout.
  apply footprint_namespaces in Hf as [[Hk Hf]|[Hf|Hf]].
  - split; [done|]. apply stored_key in Ho. subst request. exact Hf.
  - destruct Hno. apply Hadm. unfold targets in *. by rewrite <-Hspec.
  - by destruct Hno; apply Hstatus.
Qed.
End admission.

(** ** Witnesses *)
Definition admitted_world : fake := fk_put KCryostat (nn "ns" "cryostat") (Default sample_Cryostat) fk_empty.
Definition admitted_object : V2.Cryostat := admitted KCryostat (nn "ns" "cryostat") (Default sample_Cryostat).
Lemma access_follows_permission_witness :
  ¬ stored (Reconcile sample_r (nn "ns" "cryostat") admitted_world).2 KRoleBinding (nn "other" "x") ≠
    stored admitted_world KRoleBinding (nn "other" "x").
Proof.
  intros Hne.
  destruct (access_follows_permission alice "create" sample_Cryostat (Default sample_Cryostat) fk_empty fk_empty
    sample_r (nn "ns" "cryostat") admitted_object admitted_world
    (Reconcile sample_r (nn "ns" "cryostat") admitted_world).1 (Reconcile sample_r (nn "ns" "cryostat") admitted_world).2)
    with (k := KRoleBinding) (n := nn "other" "x") as [Hmay|[Hk _]].
  - vm_compute. reflexivity.
  - vm_compute. reflexivity.
  - reflexivity.
  - intros ns Hin. repeat (apply elem_of_cons in Hin as [->|Hin]; [vm_compute; reflexivity|]). by apply elem_of_nil in Hin.
  - discriminate.
  - apply surjective_pairing.
  - exact Hne.
  - vm_compute in Hmay. discriminate Hmay.
  - by apply Hk.
Defined.
