(* ===== verification/Steps.v ===== *)
(** * The steps of a pass

    Theorems about the smaller parts of [internal/controller/reconciler.go] and
    [cryostat_controller.go]: the requests made for the objects of the target namespaces, the
    group of the volumes, and the end of a pass whose TLS setup fails. *)

From S2P Require Export Footprint.
From S2P Require Import FakeClient.
From Stdlib Require Import Ascii.
Open Scope Z_scope.

(** ** Numbers in decimal *)
Definition decimal (ds : list ascii) : Z := foldl (λ n d, n * 10 + digit_val d) 0 ds.
Definition all_digits (ds : list ascii) : Prop := Forall (λ d, is_digit d = true) ds.

Lemma digit_val_range d : is_digit d = true → 0 ≤ digit_val d ≤ 9.
Proof. intros [?%Z.leb_le ?%Z.leb_le]%andb_prop. unfold digit_val. lia. Qed.
Lemma foldl_decimal_le n ds : all_digits ds → 0 ≤ n → n ≤ foldl (λ n d, n * 10 + digit_val d) n ds.
Proof.
  intros Hd. revert n. induction Hd as [|d ds Hd _ IH]; intros n Hn; simpl; [lia|].
  apply digit_val_range in Hd. specialize (IH (n * 10 + digit_val d)). lia.
Qed.
Lemma digits_loop_decimal max n ds : all_digits ds → 0 ≤ n ≤ max →
  strconv.digits_loop max n ds =
    let z := foldl (λ n d, n * 10 + digit_val d) n ds in if max <? z then Err true else Ok z.
Proof.
  intros Hd. revert n. induction Hd as [|d ds Hd Hds IH]; intros n Hn; simpl.
  { by destruct (Z.ltb_spec max n); [lia|]. }
  rewrite Hd. apply digit_val_range in Hd. destruct (Z.ltb_spec max (n * 10 + digit_val d)).
  - pose proof (foldl_decimal_le (n * 10 + digit_val d) ds Hds ltac:(lia)).
    destruct (Z.ltb_spec max (foldl (λ n d, n * 10 + digit_val d) (n * 10 + digit_val d) ds)); [done|lia].
  - apply IH. lia.
Qed.
Lemma leading_digits_digits cs : all_digits (regexp.leading_digits cs).
Proof. induction cs as [|c cs IH]; simpl; [constructor|]. destruct (is_digit c) eqn:E; by constructor. Qed.

Lemma digit_not_sign d : is_digit d = true → Ascii.eqb d "+" = false ∧ Ascii.eqb d "-" = false.
Proof. destruct d as [[] [] [] [] [] [] [] []]; done. Qed.
Lemma decimal_nonneg ds : all_digits ds → 0 ≤ decimal ds.
Proof. intros Hd. by apply (foldl_decimal_le 0). Qed.
Lemma ParseInt10_digits ds : ds ≠ [] → all_digits ds →
  strconv.ParseInt10 64 (of_bytes ds) =
    if decimal ds <? 2 ^ 63 then Ok (decimal ds) else Err (NumError "ParseInt" (of_bytes ds) true).
Proof.
  intros Hne Hd. unfold strconv.ParseInt10. rewrite bytes_of_bytes. destruct ds as [|d ds]; [done|].
  destruct (digit_not_sign d) as [-> ->]; [by inversion Hd|]. unfold strconv.ParseUint10.
  rewrite digits_loop_decimal by (done || lia). fold (decimal (d :: ds)). pose proof (decimal_nonneg _ Hd).
  cbv zeta. set (z := decimal (d :: ds)) in *. clearbody z. change (2 ^ (64 - 1)) with (2 ^ 63).
  destruct (Z.ltb_spec (2 ^ 64 - 1) z), (Z.ltb_spec z (2 ^ 63)); try lia; [done|..];
    destruct (Z.leb_spec (2 ^ 63) z); (lia || done).
Qed.

(** ** Properties *)

(** The group of an annotation that begins with digits is the number they write when
    it fits a signed 64-bit integer; it is an error when it does not, and when the
    annotation begins with anything else. *)
Theorem parseSupGroups_spec supGroups :
  let ds := regexp.leading_digits (bytes supGroups) in
  parseSupGroups supGroups =
    if bool_decide (ds = []) then Err (Errorf "no group ID found in %s annotation" [SupplementalGroupsAnnotation])
    else if decimal ds <? 2 ^ 63 then Ok (decimal ds) else Err (NumError "ParseInt" (of_bytes ds) true).
Proof.
  cbv zeta. unfold parseSupGroups. pose proof (leading_digits_digits (bytes supGroups)) as Hd.
  set (ds := regexp.leading_digits (bytes supGroups)) in *. clearbody ds. cbv zeta.
  unfold len. rewrite <-length_bytes, bytes_of_bytes. case_bool_decide as En; [by rewrite En|].
  destruct (Z.eqb_spec (Z.of_nat (length ds)) 0) as [Hl|_]; [by destruct ds|]. by apply ParseInt10_digits.
Qed.

(** The objects made for a Cryostat in a target namespace lead back to it: whatever
    other labels they have, the watch accepts them and asks for that Cryostat, and nothing
    else.  An object that the watch does not accept asks for nothing. *)
Theorem mapFromTargetNamespace_leads_back (m : ObjectMeta) :
  (∀ cr, keeps_map (LabelsForTargetNamespaceObject cr) (om_Labels m) →
     targetNamespacePredicate m = true ∧ mapFromTargetNamespace m = [nn (ci_InstallNamespace cr) (ci_Name cr)]) ∧
  (targetNamespacePredicate m = false ↔ mapFromTargetNamespace m = []).
Proof.
  split; [intros cr; apply leads_back|].
  unfold targetNamespacePredicate, mapFromTargetNamespace, selector_exists. simpl.
  destruct (gm_lookup _ _), (gm_lookup _ _); naive_solver.
Qed.

Section tls.
Context `{KubeLaws W} `{QuantityOps}.
Implicit Types (r : Reconciler) (cr : CryostatInstance) (w : W).

(** The condition that a failure of the TLS setup leads to. *)
Definition tls_condition (e : error) : option Condition :=
  if decide (e = ErrCertNotReady) then Some
    {| cond_Type := V2.ConditionTypeTLSSetupComplete; cond_Status := "False"; cond_Reason := reasonWaitingForCert;
       cond_Message := "Waiting for certificates to become ready." |}
  else if decide (e = errCertManagerMissing) then Some
    {| cond_Type := V2.ConditionTypeTLSSetupComplete; cond_Status := "False"; cond_Reason := reasonCertManagerUnavailable;
       cond_Message := eventCertManagerUnavailableMsg |}
  else None.

Definition with_condition cr (c : Condition) : CryostatInstance := set_conditions cr (λ l, meta_SetStatusCondition l c).
Lemma updateCondition_stored cr t s reason m w cr' w' :
  updateCondition cr t s reason m w = ((cr', Ok ()), w') →
  ∃ o, stored w' KCryostat (key KCryostat (ci_Object cr)) = Some o ∧
       find_condition (FromCryostat o) t = Some {| cond_Type := t; cond_Status := s; cond_Reason := reason; cond_Message := m |}.
Proof.
  intros ([o e] & w1 & Hu & Hr)%mbindM_inv. ret_inv Hr. apply StatusUpdate_Ok in Hu as (Hst & Hs & _).
  exists o. split; [exact Hst|]. unfold find_condition, ci_Status. simpl. rewrite Hs. simpl.
  rewrite SetStatusCondition_find. by rewrite bool_decide_true.
Qed.

(** The TLS step after a failed setup: the update of the condition, if there is one to
    write, and then an error, the setup's own when it was waiting for a certificate. *)
Lemma configureTLS_failed r cr w e u cr' q w' :
  IsCertManagerEnabled cr = true → setupTLS r cr w = (Err e, u) → configureTLS r cr w = ((cr', q), w') →
  match tls_condition e with
  | None => w' = u ∧ q = Err e
  | Some c => ∃ p, updateCondition cr (cond_Type c) (cond_Status c) (cond_Reason c) (cond_Message c) u = ((cr', p), w') ∧
                   if decide (e = ErrCertNotReady) then q = Err e else ∃ e', q = Err e' ∧ e' ≠ ErrCertNotReady
  end.
Proof.
  intros He Hs Hrun. unfold configureTLS in Hrun. rewrite He in Hrun.
  unfold mbindM in Hrun at 1. rewrite Hs in Hrun. unfold tls_condition.
  destruct (decide (e = ErrCertNotReady)) as [->|Hn]; [|destruct (decide (e = errCertManagerMissing)) as [->|Hm]].
  - apply mbindM_inv in Hrun as ([cr1 [[]|c1]] & w1 & Hu & Hrun).
    + apply mbindM_inv in Hrun as ([cr2 [[]|c2]] & w2 & Hr & Hrun); ret_inv Hr. ret_inv Hrun. by exists (Ok ()).
    + ret_inv Hrun. by exists (Err c1).
  - apply mbindM_inv in Hrun as ([cr1 [[]|c1]] & w1 & Hr & Hrun); ret_inv Hr.
    apply mbindM_inv in Hrun as ([cr2 [[]|c2]] & w2 & Hu & Hrun); ret_inv Hrun; eexists; (split; [exact Hu|]).
    + by eexists.
    + eexists. split; [done|]. apply mbindM_inv in Hu as ([o p] & w3 & Hu & Hr). ret_inv Hr.
      apply StatusUpdate_foreign in Hu. by intros ->.
  - apply mbindM_inv in Hrun as ([cr1 [[]|c1]] & w1 & Hr & Hrun); ret_inv Hr.
    apply mbindM_inv in Hrun as ([cr2 [[]|c2]] & w2 & Hr & Hrun); ret_inv Hr. by ret_inv Hrun.
Qed.

End tls.

(** ** Witnesses *)
(** Certificates that cert-manager has not issued yet. *)
Definition waiting_run := reconcileAfterRBAC sample_r sample_cr fk_sample.
