(* ===== verification/Setup.v ===== *)
(** * Setting up the controller

    What wakes the reconciler: [setupWithManager] and [watchTargetNamespaces] of
    [internal/controller/reconciler.go], the constructors and [SetupWithManager] of
    [cryostat_controller.go], over the wrapper of [internal/controller/common/builder.go].
    The builder and the controller it makes are controller-runtime's: a class, with the
    documented meaning of its three calls. *)

From S2P Require Export Footprint.
From S2P Require Import FakeClient.
Open Scope Z_scope.

(** ** controller-runtime *)
Class ControllerRuntime := {
  builder_Builder : Type;
  ctrl_NewControllerManagedBy : builder_Builder;
  builder_For : builder_Builder → Kind → builder_Builder;
  builder_Owns : builder_Builder → Kind → builder_Builder;
  builder_Watches : builder_Builder → Kind → (ObjectMeta → list NamespacedName) → (ObjectMeta → bool) → builder_Builder;
  builder_Complete : builder_Builder → res ();
  predicate_LabelSelectorPredicate : LabelSelector → res (ObjectMeta → bool);
  apiutil_GVKForObject : Kind → res string;
  (** the requests that a change of an object of some kind, with such metadata, makes *)
  requests : builder_Builder → Kind → ObjectMeta → list NamespacedName;
  (** the request for the Cryostat that controls an object *)
  owner_request : ObjectMeta → list NamespacedName }.

Class ControllerRuntimeLaws (W : Type) `{Kube W} `{ControllerRuntime} := {
  requests_New k m : requests ctrl_NewControllerManagedBy k m = [];
  requests_For b kind k m :
    requests (builder_For b kind) k m = requests b k m ++ if decide (k = kind) then [key_of_meta m] else [];
  requests_Owns b kind k m :
    requests (builder_Owns b kind) k m = requests b k m ++ if decide (k = kind) then owner_request m else [];
  requests_Watches b kind fn pred k m :
    requests (builder_Watches b kind fn pred) k m =
      requests b k m ++ if decide (k = kind) then if pred m then fn m else [] else [];
  owner_request_of (m : ObjectMeta) (ref : OwnerReference) :
    metav1_GetControllerOf m = Some ref → ref_APIVersion ref = "operator.cryostat.io/v1beta2" → ref_Kind ref = "Cryostat" →
    owner_request m = [nn (om_Namespace m) (ref_Name ref)];
  (** [Exists] needs no values, and both labels of the operator are valid keys. *)
  LabelSelectorPredicate_exists s :
    Forall (λ e, lsr_Operator e = LabelSelectorOpExists ∧ lsr_Values e = [] ∧
                 lsr_Key e ∈ [TargetNamespaceCRNameLabel; TargetNamespaceCRNamespaceLabel]) (ls_MatchExpressions s) →
    ls_MatchLabels s = None →
    predicate_LabelSelectorPredicate s = Ok (λ m, selector_exists s (om_Labels m)) }.

Section setup.
Context `{ControllerRuntime}.

(** ** [common.ControllerBuilder] *)
Definition ControllerBuilder : Type := builder_Builder.
Definition NewControllerBuilder : ControllerBuilder := ctrl_NewControllerManagedBy.
Definition For (b : ControllerBuilder) (object : Kind) : ControllerBuilder := builder_For b object.
Definition Owns (b : ControllerBuilder) (object : Kind) : ControllerBuilder := builder_Owns b object.
Definition Watches (b : ControllerBuilder) (object : Kind) (fn : ObjectMeta → list NamespacedName)
    (pred : ObjectMeta → bool) : ControllerBuilder := builder_Watches b object fn pred.
Definition Complete (b : ControllerBuilder) : res () := builder_Complete b.

(** ** The reconciler *)
Definition newReconciler (config : Reconciler) (objType : Kind) : res Reconciler :=
  ok? gvk := apiutil_GVKForObject objType in
  Ok (config <| r_Kind := gvk |>).
Definition NewCryostatReconciler (config : Reconciler) : res Reconciler := newReconciler config KCryostat.

Definition watchTargetNamespaces (c : ControllerBuilder) (objTypes : list Kind) : res ControllerBuilder :=
  ok? pred := predicate_LabelSelectorPredicate targetNamespaceSelector in
  Ok (foldl (λ c objType, Watches c objType mapFromTargetNamespace pred) c objTypes).

(** The builder as [Complete] finds it. *)
Definition setupWithManager (r : Reconciler) (c : ControllerBuilder) : res ControllerBuilder :=
  let c := For c KCryostat in
  let c := foldl Owns c (ownedKinds r) in
  ok? c := watchTargetNamespaces c targetNamespaceKinds in
  ok? _ := Complete c in
  Ok c.
Definition SetupWithManager (r : Reconciler) : res ControllerBuilder := setupWithManager r NewControllerBuilder.
End setup.

(** ** What wakes it *)
Section laws.
Context `{KubeLaws W} `{!ControllerRuntime} `{!ControllerRuntimeLaws W}.
Implicit Types (r : Reconciler) (cr : CryostatInstance).

Lemma requests_foldl_Owns kinds b k m : NoDup kinds →
  requests (foldl Owns b kinds) k m = requests b k m ++ if decide (k ∈ kinds) then owner_request m else [].
Proof.
  intros Hnd. revert b. induction Hnd as [|kind kinds Hk _ IH]; intros b; cbn [foldl].
  { rewrite decide_False by apply not_elem_of_nil. by rewrite app_nil_r. }
  rewrite IH. unfold Owns. rewrite requests_Owns, <-app_assoc. f_equal.
  destruct (decide (k = kind)) as [->|Hne].
  - rewrite (decide_False (P := kind ∈ kinds)) by done. rewrite decide_True by by left. by rewrite app_nil_r.
  - destruct (decide (k ∈ kinds)); [rewrite decide_True by by right|rewrite decide_False by (intros [?|?]%elem_of_cons; done)]; done.
Qed.
Lemma requests_foldl_Watches kinds fn pred b k m : NoDup kinds →
  requests (foldl (λ c kind, Watches c kind fn pred) b kinds) k m =
    requests b k m ++ if decide (k ∈ kinds) then if pred m then fn m else [] else [].
Proof.
  intros Hnd. revert b. induction Hnd as [|kind kinds Hk _ IH]; intros b; cbn [foldl].
  { rewrite decide_False by apply not_elem_of_nil. by rewrite app_nil_r. }
  rewrite IH. unfold Watches. rewrite requests_Watches, <-app_assoc. f_equal.
  destruct (decide (k = kind)) as [->|Hne].
  - rewrite (decide_False (P := kind ∈ kinds)) by done. rewrite decide_True by by left. by rewrite app_nil_r.
  - destruct (decide (k ∈ kinds)); [rewrite decide_True by by right|rewrite decide_False by (intros [?|?]%elem_of_cons; done)]; done.
Qed.
Lemma ownedKinds_NoDup r : NoDup (ownedKinds r).
Proof. apply (bool_decide_unpack _). unfold ownedKinds. by destruct (r_IsOpenShift r), (r_IsCertManagerInstalled r). Qed.

Lemma setup_requests r b k m : SetupWithManager r = Ok b →
  requests b k m =
    (if decide (k = KCryostat) then [key_of_meta m] else []) ++
    (if decide (k ∈ ownedKinds r) then owner_request m else []) ++
    (if decide (k ∈ targetNamespaceKinds) then mapFromTargetNamespace m else []).
Proof.
  unfold SetupWithManager, setupWithManager, watchTargetNamespaces.
  rewrite LabelSelectorPredicate_exists; [|repeat constructor; simpl; set_solver|done]. cbn [rbind].
  destruct (Complete _) as [[]|]; [|done]. intros Hb%Ok_inj. rewrite <-Hb.
  rewrite requests_foldl_Watches by (apply (bool_decide_unpack _); done).
  rewrite requests_foldl_Owns by apply ownedKinds_NoDup. unfold For, NewControllerBuilder.
  rewrite requests_For, requests_New, <-app_assoc. f_equal. f_equal.
  case_decide; [|done]. fold (targetNamespacePredicate m). unfold mapFromTargetNamespace, targetNamespacePredicate, selector_exists. simpl.
  by destruct (gm_lookup _ _), (gm_lookup _ _).
Qed.

(** The object belongs to the Cryostat. *)
Definition controlled_by (m : ObjectMeta) (o : V2.Cryostat) : Prop :=
  ∃ ref, metav1_GetControllerOf m = Some ref ∧ ref_APIVersion ref = "operator.cryostat.io/v1beta2" ∧
         ref_Kind ref = "Cryostat" ∧ ref_Name ref = om_Name (V2.cr_meta o).
(** A kind with a watch; network policies never have one. *)
Definition has_watch r (k : Kind) : Prop :=
  k ≠ KNetworkPolicy ∧ (k = KRoute → r_IsOpenShift r = true) ∧
  (k = KIssuer ∨ k = KCertificate → r_IsCertManagerInstalled r = true).

Definition kind_watched r (k : Kind) : bool :=
  match k with
  | KDeployment | KService | KConfigMap | KSecret | KPVC | KServiceAccount | KRole | KRoleBinding | KIngress => true
  | KRoute => r_IsOpenShift r
  | KIssuer | KCertificate => r_IsCertManagerInstalled r
  | _ => false
  end.
Lemma ownedKinds_spec r k : k ∈ ownedKinds r ↔ kind_watched r k = true.
Proof.
  transitivity (bool_decide (k ∈ ownedKinds r) = true); [symmetry; apply bool_decide_eq_true|].
  unfold ownedKinds, kind_watched. by destruct k, (r_IsOpenShift r), (r_IsCertManagerInstalled r).
Qed.
Lemma footprint_owned r cr k n : cryostat_footprint r cr k n → nn_Namespace n = ci_InstallNamespace cr →
  ci_InstallNamespace cr ≠ "" → k ≠ KCryostat → k ∈ ownedKinds r ↔ has_watch r k.
Proof.
  intros Hn Hns Hne Hk. rewrite ownedKinds_spec. unfold has_watch.
  destruct k; try done; simpl in Hn |- *; try (rewrite Hn in Hns; simpl in Hns; congruence) ; clear Hn Hns;
    (split; [intros Hw|intros (? & Hr & Hc)]; [split_and!; [done|by intros|by intros [?|?]]|auto]).
Qed.
Lemma elsewhere_one n cr (l : list NamespacedName) : nn_Namespace n ≠ ci_InstallNamespace cr →
  Forall (λ x, nn_Namespace x = ci_InstallNamespace cr) l → n ∉ l.
Proof. intros Hne Hl Hin. rewrite Forall_forall in Hl. by apply Hne, Hl. Qed.
Lemma footprint_elsewhere r o k n : cryostat_footprint r (FromCryostat o) k n →
  nn_Namespace n ≠ ci_InstallNamespace (FromCryostat o) → nn_Namespace n ≠ "" → k ∈ targetNamespaceKinds.
Proof.
  intros Hn Hns Hne. destruct k; simpl in Hn; try done;
    try (exfalso; first [by destruct Hn as [-> | ->] | by rewrite Hn in Hns | by rewrite Hn in Hne | revert Hn; apply (elsewhere_one _ _ _ Hns); repeat constructor]);
    try (by repeat (left + right)).
Qed.

(** C7. What the operator keeps for a Cryostat wakes it up when it changes. A change of an
    object that a pass may write, and that lies in the Cryostat's namespace under its
    control, asks for another pass exactly when its kind has a watch; network policies have
    none, so one that was edited or deleted stays so until something else changes. In the
    other namespaces a change of any object of the pass with the operator's labels does. *)
Theorem footprint_wakes r b o k m : let cr := FromCryostat o in
  SetupWithManager r = Ok b → cryostat_footprint r cr k (key_of_meta m) →
  ci_InstallNamespace cr ≠ "" → om_Namespace m ≠ "" →
  (om_Namespace m = ci_InstallNamespace cr → k ≠ KCryostat → controlled_by m o →
     named cr ∈ requests b k m ↔ has_watch r k) ∧
  (om_Namespace m ≠ ci_InstallNamespace cr → keeps_map (LabelsForTargetNamespaceObject cr) (om_Labels m) →
     named cr ∈ requests b k m).
Proof.
  intros cr Hb Hn Hne Hm. rewrite (setup_requests _ _ k m Hb). split.
  - intros Hns Hk (ref & Href & Hv & Hkind & Hname). rewrite <-(footprint_owned r cr k _ Hn Hns Hne Hk).
    rewrite decide_False by done. rewrite (owner_request_of m ref) by done. rewrite Hns, Hname. split; intros Hin.
    + destruct (decide (k ∈ ownedKinds r)) as [|Hno]; [done|]. rewrite decide_False in Hin; [by apply elem_of_nil in Hin|].
      intros Ht. apply Hno, ownedKinds_spec. unfold targetNamespaceKinds in Ht.
      repeat (apply elem_of_cons in Ht as [->|Ht]; [done|]). by apply elem_of_nil in Ht.
    + rewrite decide_True by done. rewrite !elem_of_app. right. left. by left.
  - intros Hns Hl. rewrite (decide_True (P := k ∈ targetNamespaceKinds)) by by eapply footprint_elsewhere.
    destruct (leads_back cr m Hl) as [_ ->]. rewrite !elem_of_app. right. right. by left.
Qed.
End laws.

(** ** A builder to run it on: the calls that were made *)
Inductive builder_call :=
| CallFor (kind : Kind)
| CallOwns (kind : Kind)
| CallWatches (kind : Kind) (fn : ObjectMeta → list NamespacedName) (pred : ObjectMeta → bool).
Definition sample_owner_request (m : ObjectMeta) : list NamespacedName :=
  match fk_GetControllerOf m with
  | Some ref => if bool_decide (ref_Kind ref = "Cryostat") then [nn (om_Namespace m) (ref_Name ref)] else []
  | None => []
  end.
Definition call_requests (k : Kind) (m : ObjectMeta) (c : builder_call) : list NamespacedName :=
  match c with
  | CallFor kind => if decide (k = kind) then [key_of_meta m] else []
  | CallOwns kind => if decide (k = kind) then sample_owner_request m else []
  | CallWatches kind fn pred => if decide (k = kind) then if pred m then fn m else [] else []
  end.
#[local] Instance sample_runtime : ControllerRuntime := {|
  builder_Builder := list builder_call; ctrl_NewControllerManagedBy := [];
  builder_For b kind := b ++ [CallFor kind]; builder_Owns b kind := b ++ [CallOwns kind];
  builder_Watches b kind fn pred := b ++ [CallWatches kind fn pred];
  builder_Complete _ := Ok ();
  predicate_LabelSelectorPredicate s := Ok (λ m, selector_exists s (om_Labels m));
  apiutil_GVKForObject _ := Ok "Cryostat";
  requests b k m := b ≫= call_requests k m; owner_request := sample_owner_request |}.
#[local] Instance sample_runtime_laws : ControllerRuntimeLaws fake.
Proof.
  split; try done; try (intros; cbn; by rewrite bind_app; cbn; rewrite app_nil_r).
  intros m ref Href _ Hkind. cbn. unfold sample_owner_request. cbn in Href. by rewrite Href, bool_decide_true.
Defined.

(** The main deployment of the sample Cryostat. *)
Definition sample_dep_meta : ObjectMeta :=
  (NewObjectMeta "cryostat" "ns") <| om_OwnerReferences := [controller_ref (V2.cr_meta sample_Cryostat)] |>.
Lemma footprint_wakes_witness :
  ∃ b, SetupWithManager sample_r = Ok b ∧ nn "ns" "cryostat" ∈ requests b KDeployment sample_dep_meta.
Proof.
  eexists. split; [reflexivity|].
  refine (proj2 (proj1 (footprint_wakes (W := fake) sample_r _ sample_Cryostat KDeployment sample_dep_meta eq_refl _ _ _) _ _ _) _).
  - by left.
  - done.
  - done.
  - done.
  - done.
  - exists (controller_ref (V2.cr_meta sample_Cryostat)). by split_and!.
  - split_and!; [done|done|]. by intros [?|?].
Defined.
