(* ===== verification/GoHeap.v ===== *)
(** * Memory and deep copies

    Go values as they lie in memory: a pointer, a slice and a map are references to a cell
    of the heap, so that two values may share one.  The statements that deepcopy-gen emits
    are operations on this heap; a type describes what a value of it may refer to, and
    [deep T c] says that [c] copies a value of type [T] with everything it refers to: the
    copy reads the same and shares no cell with what was there before. *)

From S2P Require Export GoStd.
Open Scope Z_scope.
Create HintDb deepcopy discriminated.

(** ** The heap *)
Abbreviation addr := positive.
#[local] Unset Elimination Schemes.
Inductive scalar := SString (s : string) | SInt (z : Z) | SBool (b : bool).
Inductive gval :=
| GScalar (s : scalar)
| GStruct (fields : list (string * gval))
| GNil
| GPtr (a : addr)
| GSlice (a : addr) (offset len : nat)      (* a window of an array *)
| GMap (a : addr).
Inductive cell :=
| CPtr (v : gval)
| CArray (l : list gval)
| CMap (m : gmap string scalar).
Abbreviation heap := (gmap addr cell).
Abbreviation copier := (gval → E heap gval).

Definition invalid_address : error := Panic "invalid memory address or nil pointer dereference".
Definition index_out_of_range : error := Panic "index out of range".

Definition alloc (c : cell) : M heap addr := λ h, let a := fresh (dom h) in (a, <[a := c]> h).
Definition load (a : addr) : E heap cell := λ h,
  (match h !! a with Some c => Ok c | None => Err invalid_address end, h).
Definition store (a : addr) (c : cell) : M heap () := λ h, ((), <[a := c]> h).
Definition load_ptr (a : addr) : E heap gval :=
  let? c := load a in
  match c with CPtr v => mretM (Ok v) | _ => mretM (Err invalid_address) end.
Definition load_elem (a : addr) (i : nat) : E heap gval :=
  let? c := load a in
  match c with
  | CArray l => match l !! i with Some v => mretM (Ok v) | None => mretM (Err index_out_of_range) end
  | _ => mretM (Err invalid_address)
  end.
Definition store_elem (a : addr) (i : nat) (v : gval) : E heap () :=
  let? c := load a in
  match c with
  | CArray l => if decide (i < length l)%nat then let* _ := store a (CArray (<[i := v]> l)) in mretM (Ok ())
                else mretM (Err index_out_of_range)
  | _ => mretM (Err invalid_address)
  end.

(** ** The statements of a generated function

    Memory that [new] and [make] provide is written before it is read: what it holds until
    then is of no consequence. *)

(** [*out = new(T); ( *in).DeepCopyInto( *out)], or [*out = nil] when [in] is nil *)
Definition new_into (c : copier) : copier := λ p,
  match p with
  | GPtr a =>
      let* b := alloc (CPtr GNil) in
      let? v := load_ptr a in
      let? v' := c v in
      let* _ := store b (CPtr v') in
      mretM (Ok (GPtr b))
  | GNil => mretM (Ok GNil)
  | _ => mretM (Err invalid_address)
  end.
(** [if in == nil { return nil }; out := new(T); in.DeepCopyInto(out); return out] *)
Definition new_copy (c : copier) : copier := new_into c.
(** [if c := in.DeepCopy(); c != nil { return c }; return nil], as an interface: [None] is
    the nil interface, and not an interface that holds a nil pointer *)
Definition as_object (c : copier) : gval → E heap (option gval) := λ p,
  let? q := c p in
  match q with GNil => mretM (Ok None) | _ => mretM (Ok (Some q)) end.
(** [out.F = in.F] *)
Definition same_value : copier := λ v, mretM (Ok v).
(** [*out = new(T); **out = **in] *)
Definition new_value : copier := new_into same_value.

(** [for i := range *in { ( *in)[i].DeepCopyInto(&( *out)[i]) }] *)
Fixpoint each_elem (c : copier) (src : addr) (offset : nat) (dst : addr) (i n : nat) : E heap () :=
  match n with
  | O => mretM (Ok ())
  | S n =>
      let? v := load_elem src (offset + i) in
      let? v' := c v in
      do? store_elem dst i v' in
      each_elem c src offset dst (S i) n
  end.
(** [*out = make([]T, len( *in))] and the loop *)
Definition slice_into (c : copier) : copier := λ s,
  match s with
  | GSlice a offset n =>
      let* b := alloc (CArray (replicate n GNil)) in
      do? each_elem c a offset b O n in
      mretM (Ok (GSlice b O n))
  | GNil => mretM (Ok GNil)
  | _ => mretM (Err invalid_address)
  end.
(** [*out = make([]T, len( *in)); copy( *out, *in)] *)
Definition slice_copy : copier := λ s,
  match s with
  | GSlice a offset n =>
      let* b := alloc (CArray (replicate n GNil)) in
      let? c := load a in
      match c with
      | CArray l => let* _ := store b (CArray (take n (drop offset l))) in mretM (Ok (GSlice b O n))
      | _ => mretM (Err invalid_address)
      end
  | GNil => mretM (Ok GNil)
  | _ => mretM (Err invalid_address)
  end.
(** [*out = make(map[string]string, len( *in)); for key, val := range *in { ( *out)[key] = val }] *)
Definition map_copy : copier := λ s,
  match s with
  | GMap a =>
      let* b := alloc (CMap ∅) in
      let? c := load a in
      match c with
      | CMap m =>
          let* _ := store b (CMap (foldl (λ out kv, <[kv.1 := kv.2]> out) ∅ (map_to_list m))) in
          mretM (Ok (GMap b))
      | _ => mretM (Err invalid_address)
      end
  | GNil => mretM (Ok GNil)
  | _ => mretM (Err invalid_address)
  end.

(** A field of a struct, by name. *)
Fixpoint get_field (fields : list (string * gval)) (name : string) : option gval :=
  match fields with
  | [] => None
  | (n, v) :: fields => if bool_decide (n = name) then Some v else get_field fields name
  end.
Definition set_field (fields : list (string * gval)) (name : string) (v : gval) : list (string * gval) :=
  map (λ nv, if bool_decide (nv.1 = name) then (nv.1, v) else nv) fields.
(** The statements after [*out = *in]: each reads one field of [in] and writes that of [out]. *)
Fixpoint copy_fields (steps : list (string * copier)) (inp out : list (string * gval)) : E heap (list (string * gval)) :=
  match steps with
  | [] => mretM (Ok out)
  | (name, c) :: steps =>
      match get_field inp name with
      | None => mretM (Err invalid_address)
      | Some v => let? v' := c v in copy_fields steps inp (set_field out name v')
      end
  end.
(** [*out = *in] and the statements that follow *)
Definition copy_struct (steps : list (string * copier)) : copier := λ v,
  match v with
  | GStruct fields => let? out := copy_fields steps fields fields in mretM (Ok (GStruct out))
  | _ => mretM (Err invalid_address)
  end.

(** ** Types and what values of them represent *)
Inductive ty :=
| Scalar
| Struct (fields : list (string * ty))
| Ptr (T : ty)
| Slice (T : ty)
| Map
| Lib (name : string).                       (* a type of another module *)

(** Of k8s.io/apimachinery: two strings, embedded in every object. *)
Definition TypeMeta_ty : ty := Struct [("Kind", Scalar); ("APIVersion", Scalar)].

(** A value without its addresses. *)
Inductive tree :=
| TScalar (s : scalar)
| TStruct (fields : list (string * tree))
| TNil
| TPtr (t : tree)
| TSlice (l : list tree)
| TMap (m : gmap string scalar)
| TLib (name : string) (v : list tree).

#[local] Set Elimination Schemes.

(** The types of other modules: their [DeepCopyInto], and what their values represent. *)
Class LibTypes := {
  lib_DeepCopyInto : string → copier;
  lib_repr : (addr → Prop) → heap → string → gval → tree → Prop }.

Section repr.
Context `{LibTypes}.
(** [v], of type [T], represents [t] in the heap [h], through cells whose addresses
    satisfy [P] alone. *)
Fixpoint repr (P : addr → Prop) (h : heap) (T : ty) (v : gval) (t : tree) {struct T} : Prop :=
  match T with
  | Scalar => ∃ s, v = GScalar s ∧ t = TScalar s
  | Struct fs =>
      ∃ vs ts, v = GStruct vs ∧ t = TStruct ts ∧
      (fix go (fs : list (string * ty)) (vs : list (string * gval)) (ts : list (string * tree)) : Prop :=
         match fs, vs, ts with
         | [], [], [] => True
         | (n, T) :: fs, (n1, v) :: vs, (n2, t) :: ts => n1 = n ∧ n2 = n ∧ repr P h T v t ∧ go fs vs ts
         | _, _, _ => False
         end) fs vs ts
  | Ptr T =>
      (v = GNil ∧ t = TNil) ∨
      ∃ a u t', v = GPtr a ∧ t = TPtr t' ∧ P a ∧ h !! a = Some (CPtr u) ∧ repr P h T u t'
  | Slice T =>
      (v = GNil ∧ t = TNil) ∨
      ∃ a offset n l ts, v = GSlice a offset n ∧ t = TSlice ts ∧ P a ∧ h !! a = Some (CArray l) ∧
        (offset + n ≤ length l)%nat ∧ Forall2 (repr P h T) (take n (drop offset l)) ts
  | Map =>
      (v = GNil ∧ t = TNil) ∨
      ∃ a m, v = GMap a ∧ t = TMap m ∧ P a ∧ h !! a = Some (CMap m)
  | Lib name => lib_repr P h name v t
  end.
Fixpoint fields_repr (P : addr → Prop) (h : heap) (fs : list (string * ty)) (vs : list (string * gval))
    (ts : list (string * tree)) : Prop :=
  match fs, vs, ts with
  | [], [], [] => True
  | (n, T) :: fs, (n1, v) :: vs, (n2, t) :: ts => n1 = n ∧ n2 = n ∧ repr P h T v t ∧ fields_repr P h fs vs ts
  | _, _, _ => False
  end.
Lemma repr_struct P h fs v t :
  repr P h (Struct fs) v t ↔ ∃ vs ts, v = GStruct vs ∧ t = TStruct ts ∧ fields_repr P h fs vs ts.
Proof.
  simpl. assert (E : ∀ vs ts, (fix go (fs : list (string * ty)) (vs : list (string * gval)) (ts : list (string * tree)) : Prop :=
         match fs, vs, ts with
         | [], [], [] => True
         | (n, T) :: fs, (n1, v) :: vs, (n2, t) :: ts => n1 = n ∧ n2 = n ∧ repr P h T v t ∧ go fs vs ts
         | _, _, _ => False
         end) fs vs ts ↔ fields_repr P h fs vs ts).
  { induction fs as [|[n T] fs IH]; intros [|[n1 u] vs] [|[n2 x] ts]; simpl; try done. by rewrite IH. }
  by setoid_rewrite E.
Qed.

(** Values of such a type refer to nothing. *)
Fixpoint flat (T : ty) : bool :=
  match T with
  | Scalar => true
  | Struct fs => forallb (λ nT, flat nT.2) fs
  | _ => false
  end.

(** [c] copies values of type [T] with all they refer to: the heap only grows, and the
    copy represents the same, through new cells alone. *)
Definition deep (T : ty) (c : copier) : Prop := ∀ P h v t, repr P h T v t →
  ∃ v' h', c v h = (Ok v', h') ∧ h ⊆ h' ∧ repr (λ a, a ∉ dom h) h' T v' t.
End repr.

(** Documented of the other modules' types: what a value represents depends on the cells it
    refers to, and their [DeepCopyInto] is deep. *)
Class LibTypesLaws `{LibTypes} := {
  lib_frame (P Q : addr → Prop) (h h' : heap) name v t :
    (∀ a c, P a → h !! a = Some c → Q a ∧ h' !! a = Some c) →
    lib_repr P h name v t → lib_repr Q h' name v t;
  lib_deep name : deep (Lib name) (lib_DeepCopyInto name) }.

(** What is generated for one type of a package; [DeepCopyObject] for the kinds of the API alone. *)
Record generated := {
  g_type : ty; g_DeepCopy : copier; g_DeepCopyObject : option (gval → E heap (option gval)) }.

Section laws.
Context `{LibTypesLaws}.

Lemma ty_induction (Q : ty → Prop) :
  Q Scalar → (∀ fs, Forall (λ nT, Q nT.2) fs → Q (Struct fs)) → (∀ T, Q T → Q (Ptr T)) →
  (∀ T, Q T → Q (Slice T)) → Q Map → (∀ name, Q (Lib name)) → ∀ T, Q T.
Proof.
  intros Q1 Q2 Q3 Q4 Q5 Q6. fix IH 1.
  intros [|fs|T|T| |name]; [exact Q1|apply Q2|apply Q3, IH|apply Q4, IH|exact Q5|apply Q6].
  induction fs as [|[n T] fs IHfs]; [constructor|constructor; [apply IH|exact IHfs]].
Qed.

(** What is represented depends on the cells in use only. *)
Lemma repr_frame T : ∀ (P Q : addr → Prop) (h h' : heap) v t,
  (∀ a c, P a → h !! a = Some c → Q a ∧ h' !! a = Some c) → repr P h T v t → repr Q h' T v t.
Proof.
  induction T as [|fs IH|T IH|T IH| |name] using ty_induction; intros P Q h h' v t Hf.
  - done.
  - rewrite !repr_struct. intros (vs & ts & -> & -> & Hr). exists vs, ts. split_and!; [done..|].
    revert vs ts Hr. induction IH as [|[n T] fs HT _ IHfs]; intros [|[n1 u] vs] [|[n2 x] ts]; simpl; try done.
    intros (-> & -> & Hu & Hr). split_and!; eauto.
  - intros [[-> ->]|(a & u & t' & -> & -> & Ha & Hu & Hr)]; [by left|]. right. apply Hf in Hu as [? Hu]; [|done].
    exists a, u, t'. split_and!; [done..|]. by eapply IH.
  - intros [[-> ->]|(a & off & n & l & ts & -> & -> & Ha & Hu & Hlen & Hr)]; [by left|]. right.
    apply Hf in Hu as [? Hu]; [|done]. exists a, off, n, l, ts. split_and!; [done..|].
    eapply Forall2_impl; [exact Hr|]. intros u x. by apply IH.
  - intros [[-> ->]|(a & m & -> & -> & Ha & Hu)]; [by left|]. right. apply Hf in Hu as [? Hu]; [|done]. by exists a, m.
  - by apply lib_frame.
Qed.
Lemma repr_flat T : flat T = true → ∀ (P Q : addr → Prop) h h' v t, repr P h T v t → repr Q h' T v t.
Proof.
  induction T as [|fs IH|T IH|T IH| |name] using ty_induction; intros Hf P Q h h' v t; try done.
  rewrite !repr_struct. intros (vs & ts & -> & -> & Hr). exists vs, ts. split_and!; [done..|].
  simpl in Hf. revert vs ts Hr Hf. induction IH as [|[n T] fs HT _ IHfs]; intros [|[n1 u] vs] [|[n2 x] ts]; simpl; try done.
  intros (-> & -> & Hu & Hr) [Hf1 Hf2]%andb_prop. split_and!; eauto.
Qed.

(** What lies in fresh cells stays there as the heap grows. *)
Lemma repr_fresh T (h h1 h2 h3 : heap) v t : h ⊆ h1 → h2 ⊆ h3 →
  repr (λ a, a ∉ dom h1) h2 T v t → repr (λ a, a ∉ dom h) h3 T v t.
Proof.
  intros H1 H2. apply repr_frame. intros a c Ha Hc. split; [|by eapply lookup_weaken].
  intros Hin. by apply Ha, (subseteq_dom h h1).
Qed.
Lemma repr_grows T (P : addr → Prop) (h h' : heap) v t : h ⊆ h' → repr P h T v t → repr P h' T v t.
Proof. intros Hh. apply repr_frame. intros a c Ha Hc. split; [done|by eapply lookup_weaken]. Qed.

(** ** The generated statements are deep *)
Lemma deep_lib name : deep (Lib name) (lib_DeepCopyInto name).
Proof. apply lib_deep. Qed.
Lemma deep_flat T : flat T = true → deep T same_value.
Proof. intros Hf P h v t Hr. exists v, h. split_and!; [done|done|by eapply repr_flat]. Qed.

Lemma fresh_cell (h : heap) : h !! fresh (dom h) = None.
Proof. apply not_elem_of_dom, is_fresh. Qed.
Lemma deep_new T c : deep T c → deep (Ptr T) (new_into c).
Proof.
  intros Hc P h v t [[-> ->]|(a & u & t' & -> & -> & Ha & Hu & Hr)].
  { exists GNil, h. split_and!; [done..|by left]. }
  pose proof (fresh_cell h) as Hb. set (b := fresh (dom h)) in *. set (h1 := <[b := CPtr GNil]> h).
  assert (h ⊆ h1) as Hh1 by by apply insert_subseteq.
  destruct (Hc P h1 u t') as (v' & h2 & Hrun & Hh2 & Hr'); [by eapply repr_grows|].
  exists (GPtr b), (<[b := CPtr v']> h2). split_and!.
  - unfold new_into, alloc, load_ptr, load, store, mtry, mbindM, mretM. fold b h1.
    rewrite (lookup_weaken _ _ _ _ Hu Hh1). cbn. by rewrite Hrun.
  - apply insert_subseteq_r; [done|]. by trans h1.
  - right. exists b, v', t'. split_and!; [done..|by apply not_elem_of_dom|by apply lookup_insert_eq|].
    eapply repr_frame; [|exact Hr']. intros x cx Hx Hcx. subst h1. rewrite dom_insert_L in Hx.
    rewrite lookup_insert_ne by set_solver. set_solver.
Qed.
Lemma deep_new_copy T c : deep T c → deep (Ptr T) (new_copy c).
Proof. apply deep_new. Qed.
Lemma deep_new_value T : flat T = true → deep (Ptr T) new_value.
Proof. intros Hf. by apply deep_new, deep_flat. Qed.

Lemma mtry_step {A B} (m : E heap A) (k : A → E heap B) h a h1 : m h = (Ok a, h1) → mtry m k h = k a h1.
Proof. intros Hm. unfold mtry, mbindM. by rewrite Hm. Qed.
Lemma load_elem_run (h : heap) a l i v : h !! a = Some (CArray l) → l !! i = Some v → load_elem a i h = (Ok v, h).
Proof. intros Ha Hi. unfold load_elem, load, mtry, mbindM. by rewrite Ha, Hi. Qed.
Lemma store_elem_run (h : heap) a l v i : h !! a = Some (CArray l) → (i < length l)%nat →
  store_elem a i v h = (Ok (), <[a := CArray (<[i := v]> l)]> h).
Proof. intros Ha Hi. unfold store_elem, load, mtry, mbindM. rewrite Ha. by rewrite decide_True. Qed.

(** The loop fills the new array from the left: [done] has been copied, [n] elements remain. *)
Lemma each_elem_deep T c (P : addr → Prop) (h : heap) a off l b : deep T c →
  h !! a = Some (CArray l) → h !! b = None → ∀ n filled h1 ts, h ⊆ h1 →
  h1 !! b = Some (CArray (filled ++ replicate n GNil)) → (off + length filled + n ≤ length l)%nat →
  Forall2 (repr P h T) (take n (drop (off + length filled) l)) ts →
  ∃ vs h2, each_elem c a off b (length filled) n h1 = (Ok (), h2) ∧
    h2 !! b = Some (CArray (filled ++ vs)) ∧ length vs = n ∧
    (∀ x cx, x ≠ b → h1 !! x = Some cx → h2 !! x = Some cx) ∧
    Forall2 (repr (λ x, x ∉ dom h1) h2 T) vs ts.
Proof.
  intros Hc Hal Hb. induction n as [|n IH]; intros filled h1 ts Hh1 Hdst Hlen Hr.
  { apply Forall2_nil_inv_l in Hr as ->. exists [], h1. by split_and!. }
  destruct (lookup_lt_is_Some_2 l (off + length filled)) as [u Hu]; [lia|].
  rewrite (drop_S _ _ _ Hu) in Hr. apply Forall2_cons_inv_l in Hr as (t & ts' & Hr & Hrs & ->).
  destruct (Hc P h1 u t) as (v & h2 & Hrun & Hh2 & Hv); [by eapply repr_grows|].
  assert (h2 !! b = Some (CArray (filled ++ GNil :: replicate n GNil))) as Hb2 by by eapply lookup_weaken.
  set (h3 := <[b := CArray ((filled ++ [v]) ++ replicate n GNil)]> h2).
  assert (∀ x cx, x ≠ b → h1 !! x = Some cx → h3 !! x = Some cx) as Hkeep.
  { intros x cx Hx Hcx. unfold h3. rewrite lookup_insert_ne by done. by eapply lookup_weaken. }
  destruct (IH (filled ++ [v]) h3 ts') as (vs & h4 & Hrun' & Hb4 & Hvs & Hkeep' & Hr').
  - apply map_subseteq_spec. intros x cx Hx. apply Hkeep; [congruence|by eapply lookup_weaken].
  - apply lookup_insert_eq.
  - rewrite length_app. simpl. lia.
  - rewrite length_app. simpl. by rewrite Nat.add_assoc, Nat.add_1_r.
  - exists (v :: vs), h4. split_and!.
    + assert (length filled < length (filled ++ GNil :: replicate n GNil))%nat as Hlt by (rewrite length_app; simpl; lia).
      simpl. rewrite (mtry_step _ _ _ _ _ (load_elem_run _ _ _ _ _ (lookup_weaken _ _ _ _ Hal Hh1) Hu)).
      rewrite (mtry_step _ _ _ _ _ Hrun), (mtry_step _ _ _ _ _ (store_elem_run _ _ _ v _ Hb2 Hlt)).
      rewrite insert_app_r_alt, Nat.sub_diag by done. simpl.
      revert Hrun'. unfold h3. rewrite <-(assoc_L (++)), length_app, Nat.add_1_r. done.
    + rewrite Hb4. by rewrite <-(assoc_L (++)).
    + simpl. by rewrite Hvs.
    + intros x cx Hx Hcx. by apply Hkeep', Hkeep.
    + assert (dom h1 ⊆ dom h3) as Hdom.
      { unfold h3. rewrite dom_insert_L. apply subseteq_dom in Hh2. set_solver. }
      constructor.
      * eapply repr_frame; [|exact Hv]. intros x cx Hx Hcx. split; [done|].
        assert (x ≠ b) by (intros ->; apply Hx, elem_of_dom; eauto).
        apply Hkeep'; [done|]. unfold h3. by rewrite lookup_insert_ne by done.
      * eapply Forall2_impl; [exact Hr'|]. intros w x. apply repr_frame. set_solver.
Qed.
Lemma deep_slice T c : deep T c → deep (Slice T) (slice_into c).
Proof.
  intros Hc P h v t [[-> ->]|(a & off & n & l & ts & -> & -> & Ha & Hu & Hlen & Hr)].
  { exists GNil, h. split_and!; [done..|by left]. }
  pose proof (fresh_cell h) as Hb. set (b := fresh (dom h)) in *. set (h1 := <[b := CArray (replicate n GNil)]> h).
  assert (h ⊆ h1) as Hh1 by by apply insert_subseteq.
  destruct (each_elem_deep T c P h a off l b Hc Hu Hb n [] h1 ts) as (vs & h2 & Hrun & Hb2 & Hvs & Hkeep & Hr');
    [done|apply lookup_insert_eq|simpl; lia|by rewrite Nat.add_0_r|].
  exists (GSlice b O n), h2. split_and!.
  - unfold slice_into, alloc, mtry, mbindM, mretM. fold b h1. simpl in Hrun. by rewrite Hrun.
  - apply map_subseteq_spec. intros x cx Hx. apply Hkeep; [congruence|by eapply lookup_weaken].
  - right. exists b, O, n, vs, ts. rewrite Nat.add_0_l, drop_0, take_ge by lia.
    split_and!; [done..|by apply not_elem_of_dom|done|lia|].
    eapply Forall2_impl; [exact Hr'|]. intros w x. apply repr_frame. subst h1. set_solver.
Qed.
Lemma deep_slice_copy T : flat T = true → deep (Slice T) slice_copy.
Proof.
  intros Hf P h v t [[-> ->]|(a & off & n & l & ts & -> & -> & Ha & Hu & Hlen & Hr)].
  { exists GNil, h. split_and!; [done..|by left]. }
  pose proof (fresh_cell h) as Hb. set (b := fresh (dom h)) in *. set (h1 := <[b := CArray (replicate n GNil)]> h).
  assert (h ⊆ h1) as Hh1 by by apply insert_subseteq.
  exists (GSlice b O n), (<[b := CArray (take n (drop off l))]> h1). split_and!.
  - unfold slice_copy, alloc, load, store, mtry, mbindM, mretM. fold b h1. by rewrite (lookup_weaken _ _ _ _ Hu Hh1).
  - by apply insert_subseteq_r.
  - right. exists b, O, n, (take n (drop off l)), ts.
    split_and!; [done..|by apply not_elem_of_dom|apply lookup_insert_eq|rewrite length_take, length_drop; lia|].
    rewrite drop_0, take_take, Nat.min_id. eapply Forall2_impl; [exact Hr|]. intros w x. by apply repr_flat.
Qed.
Lemma deep_map : deep Map map_copy.
Proof.
  intros P h v t [[-> ->]|(a & m & -> & -> & Ha & Hu)].
  { exists GNil, h. split_and!; [done..|by left]. }
  pose proof (fresh_cell h) as Hb. set (b := fresh (dom h)) in *. set (h1 := <[b := CMap ∅]> h).
  assert (h ⊆ h1) as Hh1 by by apply insert_subseteq.
  exists (GMap b), (<[b := CMap m]> h1). split_and!.
  - unfold map_copy, alloc, load, store, mtry, mbindM, mretM. fold b h1. rewrite (lookup_weaken _ _ _ _ Hu Hh1).
    by rewrite foldl_map_to_list.
  - by apply insert_subseteq_r.
  - right. exists b, m. split_and!; [done..|by apply not_elem_of_dom|apply lookup_insert_eq].
Qed.

(** The statements of a struct follow its fields: a field that refers to nothing may be
    left to the assignment [*out = *in], every other one has its statement. *)
Inductive covers : list (string * ty) → list (string * copier) → Prop :=
| covers_nil : covers [] []
| covers_copied name T c fs steps : deep T c → covers fs steps → covers ((name, T) :: fs) ((name, c) :: steps)
| covers_assigned name T fs steps : flat T = true → covers fs steps → covers ((name, T) :: fs) steps.

Lemma fields_repr_names (P : addr → Prop) h fs : ∀ vs ts, fields_repr P h fs vs ts → vs.*1 = fs.*1.
Proof.
  induction fs as [|[n T] fs IH]; intros [|[n1 v] vs] [|[n2 t] ts]; simpl; try done.
  intros (-> & -> & _ & Hr). exact (f_equal (cons n) (IH _ _ Hr)).
Qed.
Lemma fields_repr_frame (P Q : addr → Prop) (h h' : heap) fs :
  (∀ a c, P a → h !! a = Some c → Q a ∧ h' !! a = Some c) →
  ∀ vs ts, fields_repr P h fs vs ts → fields_repr Q h' fs vs ts.
Proof.
  intros Hf. induction fs as [|[n T] fs IH]; intros [|[n1 v] vs] [|[n2 t] ts]; simpl; try done.
  intros (-> & -> & Hv & Hr). split_and!; eauto using repr_frame.
Qed.
Lemma get_field_app pre name v vs : name ∉ pre.*1 → get_field (pre ++ (name, v) :: vs) name = Some v.
Proof.
  induction pre as [|[n u] pre IH]; simpl; intros Hn; [by rewrite bool_decide_true|].
  apply not_elem_of_cons in Hn as [Hn Hpre]. rewrite bool_decide_false by done. by apply IH.
Qed.
Lemma set_field_absent fields name v : name ∉ fields.*1 → set_field fields name v = fields.
Proof.
  unfold set_field. induction fields as [|[n u] fields IH]; simpl; intros Hn; [done|].
  apply not_elem_of_cons in Hn as [Hn Hfs]. by rewrite bool_decide_false, (IH Hfs).
Qed.
Lemma set_field_app pre name u v vs : name ∉ pre.*1 → name ∉ vs.*1 →
  set_field (pre ++ (name, u) :: vs) name v = (pre ++ [(name, v)]) ++ vs.
Proof.
  intros Hp Hv. unfold set_field. rewrite map_app. simpl. rewrite bool_decide_true by done.
  pose proof (set_field_absent pre name v Hp) as Hpre. pose proof (set_field_absent vs name v Hv) as Hvs.
  unfold set_field in Hpre, Hvs. rewrite Hpre, Hvs. by rewrite <-(assoc_L (++)).
Qed.

Lemma copy_fields_deep (P : addr → Prop) (h : heap) fs steps : covers fs steps → NoDup fs.*1 →
  ∀ ipre opre vs ts h1, h ⊆ h1 → opre.*1 = ipre.*1 → (∀ n, n ∈ fs.*1 → n ∉ ipre.*1) → fields_repr P h fs vs ts →
  ∃ vs' h2, copy_fields steps (ipre ++ vs) (opre ++ vs) h1 = (Ok (opre ++ vs'), h2) ∧ h1 ⊆ h2 ∧
    fields_repr (λ a, a ∉ dom h) h2 fs vs' ts.
Proof.
  intros Hc. induction Hc as [|name T c fs steps HT Hc IH|name T fs steps HT Hc IH];
    intros Hnd ipre opre vs ts h1 Hh1 Hpre Hfs Hr.
  - exists vs, h1. by destruct vs, ts.
  - destruct vs as [|[n1 v] vs], ts as [|[n2 t] ts]; simpl in Hr; try done. destruct Hr as (-> & -> & Hv & Hr).
    apply NoDup_cons in Hnd as [Hn Hnd]. pose proof (fields_repr_names _ _ _ _ _ Hr) as Hnames. simpl in Hn.
    assert (name ∉ ipre.*1) as Hi by (apply Hfs; by left).
    destruct (HT P h1 v t) as (v' & h2 & Hrun & Hh2 & Hv'); [by eapply repr_grows|].
    destruct (IH Hnd (ipre ++ [(name, v)]) (opre ++ [(name, v')]) vs ts h2) as (vs' & h3 & Hrun' & Hh3 & Hr'); [by trans h1|..|done|].
    { rewrite !fmap_app. simpl. by rewrite Hpre. }
    { intros n Hin. rewrite fmap_app, not_elem_of_app. split; [apply Hfs; by right|]. simpl. rewrite list_elem_of_singleton.
      intros ->. by apply Hn. }
    exists ((name, v') :: vs'), h3. split_and!; [|by trans h2|].
    + simpl. rewrite (get_field_app _ _ _ _ Hi), (mtry_step _ _ _ _ _ Hrun).
      rewrite set_field_app by (by rewrite ?Hpre, ?Hnames).
      rewrite <-!(assoc_L (++)) in *. exact Hrun'.
    + simpl. split_and!; [done..| |done]. by eapply repr_fresh.
  - destruct vs as [|[n1 v] vs], ts as [|[n2 t] ts]; simpl in Hr; try done. destruct Hr as (-> & -> & Hv & Hr).
    apply NoDup_cons in Hnd as [Hn Hnd]. simpl in Hn.
    destruct (IH Hnd (ipre ++ [(name, v)]) (opre ++ [(name, v)]) vs ts h1) as (vs' & h3 & Hrun' & Hh3 & Hr'); [done|..|done|].
    { rewrite !fmap_app. simpl. by rewrite Hpre. }
    { intros n Hin. rewrite fmap_app, not_elem_of_app. split; [apply Hfs; by right|]. simpl. rewrite list_elem_of_singleton.
      intros ->. by apply Hn. }
    exists ((name, v) :: vs'), h3. split_and!; [|done|].
    + rewrite <-!(assoc_L (++)) in *. exact Hrun'.
    + simpl. split_and!; [done..| |done]. by eapply repr_flat.
Qed.
Lemma deep_struct fs steps : covers fs steps → NoDup fs.*1 → deep (Struct fs) (copy_struct steps).
Proof.
  intros Hc Hnd P h v t (vs & ts & -> & -> & Hr)%repr_struct.
  destruct (copy_fields_deep P h fs steps Hc Hnd [] [] vs ts h) as (vs' & h' & Hrun & Hh & Hr');
    [done|done|set_solver|done|].
  exists (GStruct vs'), h'. split_and!; [|done|apply repr_struct; eauto 6].
  simpl in Hrun. unfold copy_struct. by rewrite (mtry_step _ _ _ _ _ Hrun).
Qed.

(** What a deep copy is for: after it, no write through either value shows in the other. *)
Lemma deep_independent T c (h : heap) v t : deep T c → repr (λ a, a ∈ dom h) h T v t →
  ∃ v' h', c v h = (Ok v', h') ∧
    (∀ h'', (∀ a, a ∉ dom h → h'' !! a = h' !! a) → repr (λ a, a ∉ dom h) h'' T v' t) ∧
    (∀ h'', (∀ a, a ∈ dom h → h'' !! a = h' !! a) → repr (λ a, a ∈ dom h) h'' T v t).
Proof.
  intros Hc Hr. destruct (Hc _ _ _ _ Hr) as (v' & h' & Hrun & Hh & Hr'). exists v', h'. split_and!; [done|..].
  - intros h'' Hsame. eapply repr_frame; [|exact Hr']. intros a x Ha Hx. by rewrite Hsame.
  - intros h'' Hsame. eapply repr_frame; [|exact Hr]. intros a x Ha Hx. split; [done|].
    rewrite Hsame by done. by eapply lookup_weaken.
Qed.
Definition deep_generated (g : generated) : Prop :=
  deep (Ptr (g_type g)) (g_DeepCopy g) ∧
  (g_DeepCopyObject g = None ∨ g_DeepCopyObject g = Some (as_object (g_DeepCopy g))).
Lemma repr_ptr_nil (P Q : addr → Prop) (h h' : heap) T v v' t : repr P h (Ptr T) v t → repr Q h' (Ptr T) v' t →
  v = GNil → v' = GNil.
Proof. intros [[-> ->]|(? & ? & ? & -> & _)]; [|done]. intros [[-> _]|(? & ? & ? & _ & ? & _)]; done. Qed.
End laws.

#[export] Hint Resolve deep_lib deep_new deep_new_value deep_slice deep_slice_copy deep_map deep_flat : deepcopy.
#[export] Hint Extern 1 (flat _ = true) => reflexivity : deepcopy.
(** A struct: each of its fields is covered by its statement, or needs none. *)
Ltac deep_struct := apply deep_struct; [|by apply (bool_decide_unpack _); vm_compute];
  repeat (first [ apply covers_nil | apply covers_copied; [solve [eauto with deepcopy]|]
                | apply covers_assigned; [reflexivity|] ]).
