(* ===== verification/DeepCopyV1beta1.v ===== *)
(** * Deep copies of the v1beta1 API types

    The functions of api/v1beta1/zz_generated.deepcopy.go, as operations on the heap of GoHeap.v: the
    layout of every struct of cryostat_types.go ([X_ty]), its [DeepCopyInto] and [DeepCopy], and
    that each of them is deep. *)

From S2P Require Import GoHeap.
Open Scope Z_scope.

(** ** The structs *)
Definition Affinity_ty : ty := Struct [
  ("NodeAffinity", Ptr (Lib "corev1.NodeAffinity"));
  ("PodAffinity", Ptr (Lib "corev1.PodAffinity"));
  ("PodAntiAffinity", Ptr (Lib "corev1.PodAntiAffinity"))].
Definition AuthorizationProperties_ty : ty := Struct [
  ("ClusterRoleName", Scalar); ("ConfigMapName", Scalar); ("Filename", Scalar)].
Definition CertificateSecret_ty : ty := Struct [
  ("SecretName", Scalar); ("CertificateKey", Ptr Scalar)].
Definition ServiceConfig_ty : ty := Struct [
  ("ServiceType", Ptr Scalar); ("Annotations", Map); ("Labels", Map)].
Definition CoreServiceConfig_ty : ty := Struct [
  ("HTTPPort", Ptr Scalar); ("JMXPort", Ptr Scalar); ("ServiceConfig", ServiceConfig_ty)].
Definition TemplateConfigMap_ty : ty := Struct [("ConfigMapName", Scalar); ("Filename", Scalar)].
Definition PersistentVolumeClaimConfig_ty : ty := Struct [
  ("Annotations", Map); ("Labels", Map); ("Spec", Ptr (Lib "corev1.PersistentVolumeClaimSpec"))].
Definition EmptyDirConfig_ty : ty := Struct [
  ("Enabled", Scalar); ("Medium", Scalar); ("SizeLimit", Scalar)].
Definition StorageConfiguration_ty : ty := Struct [
  ("PVC", Ptr PersistentVolumeClaimConfig_ty); ("EmptyDir", Ptr EmptyDirConfig_ty)].
Definition GrafanaServiceConfig_ty : ty := Struct [
  ("HTTPPort", Ptr Scalar); ("ServiceConfig", ServiceConfig_ty)].
Definition ReportsServiceConfig_ty : ty := Struct [
  ("HTTPPort", Ptr Scalar); ("ServiceConfig", ServiceConfig_ty)].
Definition StorageServiceConfig_ty : ty := Struct [
  ("HTTPPort", Ptr Scalar); ("ServiceConfig", ServiceConfig_ty)].
Definition ServiceConfigList_ty : ty := Struct [
  ("CoreConfig", Ptr CoreServiceConfig_ty); ("GrafanaConfig", Ptr GrafanaServiceConfig_ty);
  ("ReportsConfig", Ptr ReportsServiceConfig_ty); ("StorageConfig", Ptr StorageServiceConfig_ty)].
Definition NetworkConfiguration_ty : ty := Struct [
  ("IngressSpec", Ptr (Lib "netv1.IngressSpec")); ("Annotations", Map); ("Labels", Map)].
Definition NetworkConfigurationList_ty : ty := Struct [
  ("CoreConfig", Ptr NetworkConfiguration_ty); ("CommandConfig", Ptr NetworkConfiguration_ty);
  ("GrafanaConfig", Ptr NetworkConfiguration_ty)].
Definition ReportsSecurityOptions_ty : ty := Struct [
  ("PodSecurityContext", Ptr (Lib "corev1.PodSecurityContext"));
  ("ReportsSecurityContext", Ptr (Lib "corev1.SecurityContext"))].
Definition SchedulingConfiguration_ty : ty := Struct [
  ("NodeSelector", Map); ("Affinity", Ptr Affinity_ty);
  ("Tolerations", Slice (Lib "corev1.Toleration"))].
Definition ReportConfiguration_ty : ty := Struct [
  ("Replicas", Scalar); ("Resources", Lib "corev1.ResourceRequirements");
  ("SubProcessMaxHeapSize", Scalar); ("SecurityOptions", Ptr ReportsSecurityOptions_ty);
  ("SchedulingOptions", Ptr SchedulingConfiguration_ty)].
Definition JmxCacheOptions_ty : ty := Struct [
  ("TargetCacheSize", Scalar); ("TargetCacheTTL", Scalar)].
Definition ResourceConfigList_ty : ty := Struct [
  ("CoreResources", Lib "corev1.ResourceRequirements");
  ("DataSourceResources", Lib "corev1.ResourceRequirements");
  ("GrafanaResources", Lib "corev1.ResourceRequirements")].
Definition SecurityOptions_ty : ty := Struct [
  ("PodSecurityContext", Ptr (Lib "corev1.PodSecurityContext"));
  ("CoreSecurityContext", Ptr (Lib "corev1.SecurityContext"));
  ("DataSourceSecurityContext", Ptr (Lib "corev1.SecurityContext"));
  ("GrafanaSecurityContext", Ptr (Lib "corev1.SecurityContext"));
  ("StorageSecurityContext", Ptr (Lib "corev1.SecurityContext"));
  ("DatabaseSecurityContext", Ptr (Lib "corev1.SecurityContext"))].
Definition TargetDiscoveryOptions_ty : ty := Struct [
  ("BuiltInDiscoveryDisabled", Scalar); ("DisableBuiltInPortNames", Scalar);
  ("DiscoveryPortNames", Slice Scalar); ("DisableBuiltInPortNumbers", Scalar);
  ("DiscoveryPortNumbers", Slice Scalar)].
Definition JmxCredentialsDatabaseOptions_ty : ty := Struct [("DatabaseSecretName", Ptr Scalar)].
Definition ResourceMetadata_ty : ty := Struct [("Annotations", Map); ("Labels", Map)].
Definition OperandMetadata_ty : ty := Struct [
  ("DeploymentMetadata", Ptr ResourceMetadata_ty); ("PodMetadata", Ptr ResourceMetadata_ty)].
Definition CryostatSpec_ty : ty := Struct [
  ("Minimal", Scalar); ("TrustedCertSecrets", Slice CertificateSecret_ty);
  ("EventTemplates", Slice TemplateConfigMap_ty); ("EnableCertManager", Ptr Scalar);
  ("StorageOptions", Ptr StorageConfiguration_ty); ("ServiceOptions", Ptr ServiceConfigList_ty);
  ("NetworkOptions", Ptr NetworkConfigurationList_ty);
  ("ReportOptions", Ptr ReportConfiguration_ty); ("MaxWsConnections", Scalar);
  ("JmxCacheOptions", Ptr JmxCacheOptions_ty); ("Resources", Ptr ResourceConfigList_ty);
  ("AuthProperties", Ptr AuthorizationProperties_ty); ("SecurityOptions", Ptr SecurityOptions_ty);
  ("SchedulingOptions", Ptr SchedulingConfiguration_ty);
  ("TargetDiscoveryOptions", Ptr TargetDiscoveryOptions_ty);
  ("JmxCredentialsDatabaseOptions", Ptr JmxCredentialsDatabaseOptions_ty);
  ("OperandMetadata", Ptr OperandMetadata_ty)].
Definition CryostatStatus_ty : ty := Struct [
  ("Conditions", Slice (Lib "metav1.Condition")); ("GrafanaSecret", Scalar);
  ("ApplicationURL", Scalar)].
Definition Cryostat_ty : ty := Struct [
  ("TypeMeta", TypeMeta_ty); ("ObjectMeta", Lib "metav1.ObjectMeta"); ("Spec", CryostatSpec_ty);
  ("Status", CryostatStatus_ty)].
Definition CryostatList_ty : ty := Struct [
  ("TypeMeta", TypeMeta_ty); ("ListMeta", Lib "metav1.ListMeta"); ("Items", Slice Cryostat_ty)].

(** ** The generated functions *)
Section deepcopy.
Context `{LibTypes}.

Definition Affinity_DeepCopyInto : copier := copy_struct [
  ("NodeAffinity", new_into (lib_DeepCopyInto "corev1.NodeAffinity"));
  ("PodAffinity", new_into (lib_DeepCopyInto "corev1.PodAffinity"));
  ("PodAntiAffinity", new_into (lib_DeepCopyInto "corev1.PodAntiAffinity"))].
Definition Affinity_DeepCopy : copier := new_copy Affinity_DeepCopyInto.
Definition AuthorizationProperties_DeepCopyInto : copier := copy_struct [].
Definition AuthorizationProperties_DeepCopy : copier := new_copy AuthorizationProperties_DeepCopyInto.
Definition CertificateSecret_DeepCopyInto : copier := copy_struct [("CertificateKey", new_value)].
Definition CertificateSecret_DeepCopy : copier := new_copy CertificateSecret_DeepCopyInto.
Definition ServiceConfig_DeepCopyInto : copier := copy_struct [
  ("ServiceType", new_value); ("Annotations", map_copy); ("Labels", map_copy)].
Definition ServiceConfig_DeepCopy : copier := new_copy ServiceConfig_DeepCopyInto.
Definition CoreServiceConfig_DeepCopyInto : copier := copy_struct [
  ("HTTPPort", new_value); ("JMXPort", new_value); ("ServiceConfig", ServiceConfig_DeepCopyInto)].
Definition CoreServiceConfig_DeepCopy : copier := new_copy CoreServiceConfig_DeepCopyInto.
Definition TemplateConfigMap_DeepCopyInto : copier := copy_struct [].
Definition TemplateConfigMap_DeepCopy : copier := new_copy TemplateConfigMap_DeepCopyInto.
Definition PersistentVolumeClaimConfig_DeepCopyInto : copier := copy_struct [
  ("Annotations", map_copy); ("Labels", map_copy);
  ("Spec", new_into (lib_DeepCopyInto "corev1.PersistentVolumeClaimSpec"))].
Definition PersistentVolumeClaimConfig_DeepCopy : copier := new_copy PersistentVolumeClaimConfig_DeepCopyInto.
Definition EmptyDirConfig_DeepCopyInto : copier := copy_struct [].
Definition EmptyDirConfig_DeepCopy : copier := new_copy EmptyDirConfig_DeepCopyInto.
Definition StorageConfiguration_DeepCopyInto : copier := copy_struct [
  ("PVC", new_into PersistentVolumeClaimConfig_DeepCopyInto); ("EmptyDir", new_value)].
Definition StorageConfiguration_DeepCopy : copier := new_copy StorageConfiguration_DeepCopyInto.
Definition GrafanaServiceConfig_DeepCopyInto : copier := copy_struct [
  ("HTTPPort", new_value); ("ServiceConfig", ServiceConfig_DeepCopyInto)].
Definition GrafanaServiceConfig_DeepCopy : copier := new_copy GrafanaServiceConfig_DeepCopyInto.
Definition ReportsServiceConfig_DeepCopyInto : copier := copy_struct [
  ("HTTPPort", new_value); ("ServiceConfig", ServiceConfig_DeepCopyInto)].
Definition ReportsServiceConfig_DeepCopy : copier := new_copy ReportsServiceConfig_DeepCopyInto.
Definition StorageServiceConfig_DeepCopyInto : copier := copy_struct [
  ("HTTPPort", new_value); ("ServiceConfig", ServiceConfig_DeepCopyInto)].
Definition StorageServiceConfig_DeepCopy : copier := new_copy StorageServiceConfig_DeepCopyInto.
Definition ServiceConfigList_DeepCopyInto : copier := copy_struct [
  ("CoreConfig", new_into CoreServiceConfig_DeepCopyInto);
  ("GrafanaConfig", new_into GrafanaServiceConfig_DeepCopyInto);
  ("ReportsConfig", new_into ReportsServiceConfig_DeepCopyInto);
  ("StorageConfig", new_into StorageServiceConfig_DeepCopyInto)].
Definition ServiceConfigList_DeepCopy : copier := new_copy ServiceConfigList_DeepCopyInto.
Definition NetworkConfiguration_DeepCopyInto : copier := copy_struct [
  ("IngressSpec", new_into (lib_DeepCopyInto "netv1.IngressSpec")); ("Annotations", map_copy);
  ("Labels", map_copy)].
Definition NetworkConfiguration_DeepCopy : copier := new_copy NetworkConfiguration_DeepCopyInto.
Definition NetworkConfigurationList_DeepCopyInto : copier := copy_struct [
  ("CoreConfig", new_into NetworkConfiguration_DeepCopyInto);
  ("CommandConfig", new_into NetworkConfiguration_DeepCopyInto);
  ("GrafanaConfig", new_into NetworkConfiguration_DeepCopyInto)].
Definition NetworkConfigurationList_DeepCopy : copier := new_copy NetworkConfigurationList_DeepCopyInto.
Definition ReportsSecurityOptions_DeepCopyInto : copier := copy_struct [
  ("PodSecurityContext", new_into (lib_DeepCopyInto "corev1.PodSecurityContext"));
  ("ReportsSecurityContext", new_into (lib_DeepCopyInto "corev1.SecurityContext"))].
Definition ReportsSecurityOptions_DeepCopy : copier := new_copy ReportsSecurityOptions_DeepCopyInto.
Definition SchedulingConfiguration_DeepCopyInto : copier := copy_struct [
  ("NodeSelector", map_copy); ("Affinity", new_into Affinity_DeepCopyInto);
  ("Tolerations", slice_into (lib_DeepCopyInto "corev1.Toleration"))].
Definition SchedulingConfiguration_DeepCopy : copier := new_copy SchedulingConfiguration_DeepCopyInto.
Definition ReportConfiguration_DeepCopyInto : copier := copy_struct [
  ("Resources", lib_DeepCopyInto "corev1.ResourceRequirements");
  ("SecurityOptions", new_into ReportsSecurityOptions_DeepCopyInto);
  ("SchedulingOptions", new_into SchedulingConfiguration_DeepCopyInto)].
Definition ReportConfiguration_DeepCopy : copier := new_copy ReportConfiguration_DeepCopyInto.
Definition JmxCacheOptions_DeepCopyInto : copier := copy_struct [].
Definition JmxCacheOptions_DeepCopy : copier := new_copy JmxCacheOptions_DeepCopyInto.
Definition ResourceConfigList_DeepCopyInto : copier := copy_struct [
  ("CoreResources", lib_DeepCopyInto "corev1.ResourceRequirements");
  ("DataSourceResources", lib_DeepCopyInto "corev1.ResourceRequirements");
  ("GrafanaResources", lib_DeepCopyInto "corev1.ResourceRequirements")].
Definition ResourceConfigList_DeepCopy : copier := new_copy ResourceConfigList_DeepCopyInto.
Definition SecurityOptions_DeepCopyInto : copier := copy_struct [
  ("PodSecurityContext", new_into (lib_DeepCopyInto "corev1.PodSecurityContext"));
  ("CoreSecurityContext", new_into (lib_DeepCopyInto "corev1.SecurityContext"));
  ("DataSourceSecurityContext", new_into (lib_DeepCopyInto "corev1.SecurityContext"));
  ("GrafanaSecurityContext", new_into (lib_DeepCopyInto "corev1.SecurityContext"));
  ("StorageSecurityContext", new_into (lib_DeepCopyInto "corev1.SecurityContext"));
  ("DatabaseSecurityContext", new_into (lib_DeepCopyInto "corev1.SecurityContext"))].
Definition SecurityOptions_DeepCopy : copier := new_copy SecurityOptions_DeepCopyInto.
Definition TargetDiscoveryOptions_DeepCopyInto : copier := copy_struct [
  ("DiscoveryPortNames", slice_copy); ("DiscoveryPortNumbers", slice_copy)].
Definition TargetDiscoveryOptions_DeepCopy : copier := new_copy TargetDiscoveryOptions_DeepCopyInto.
Definition JmxCredentialsDatabaseOptions_DeepCopyInto : copier := copy_struct [
  ("DatabaseSecretName", new_value)].
Definition JmxCredentialsDatabaseOptions_DeepCopy : copier := new_copy JmxCredentialsDatabaseOptions_DeepCopyInto.
Definition ResourceMetadata_DeepCopyInto : copier := copy_struct [
  ("Annotations", map_copy); ("Labels", map_copy)].
Definition ResourceMetadata_DeepCopy : copier := new_copy ResourceMetadata_DeepCopyInto.
Definition OperandMetadata_DeepCopyInto : copier := copy_struct [
  ("DeploymentMetadata", new_into ResourceMetadata_DeepCopyInto);
  ("PodMetadata", new_into ResourceMetadata_DeepCopyInto)].
Definition OperandMetadata_DeepCopy : copier := new_copy OperandMetadata_DeepCopyInto.
Definition CryostatSpec_DeepCopyInto : copier := copy_struct [
  ("TrustedCertSecrets", slice_into CertificateSecret_DeepCopyInto);
  ("EventTemplates", slice_copy); ("EnableCertManager", new_value);
  ("StorageOptions", new_into StorageConfiguration_DeepCopyInto);
  ("ServiceOptions", new_into ServiceConfigList_DeepCopyInto);
  ("NetworkOptions", new_into NetworkConfigurationList_DeepCopyInto);
  ("ReportOptions", new_into ReportConfiguration_DeepCopyInto); ("JmxCacheOptions", new_value);
  ("Resources", new_into ResourceConfigList_DeepCopyInto); ("AuthProperties", new_value);
  ("SecurityOptions", new_into SecurityOptions_DeepCopyInto);
  ("SchedulingOptions", new_into SchedulingConfiguration_DeepCopyInto);
  ("TargetDiscoveryOptions", new_into TargetDiscoveryOptions_DeepCopyInto);
  ("JmxCredentialsDatabaseOptions", new_into JmxCredentialsDatabaseOptions_DeepCopyInto);
  ("OperandMetadata", new_into OperandMetadata_DeepCopyInto)].
Definition CryostatSpec_DeepCopy : copier := new_copy CryostatSpec_DeepCopyInto.
Definition CryostatStatus_DeepCopyInto : copier := copy_struct [
  ("Conditions", slice_into (lib_DeepCopyInto "metav1.Condition"))].
Definition CryostatStatus_DeepCopy : copier := new_copy CryostatStatus_DeepCopyInto.
Definition Cryostat_DeepCopyInto : copier := copy_struct [
  ("TypeMeta", same_value); ("ObjectMeta", lib_DeepCopyInto "metav1.ObjectMeta");
  ("Spec", CryostatSpec_DeepCopyInto); ("Status", CryostatStatus_DeepCopyInto)].
Definition Cryostat_DeepCopy : copier := new_copy Cryostat_DeepCopyInto.
Definition Cryostat_DeepCopyObject : gval → E heap (option gval) := as_object Cryostat_DeepCopy.
Definition CryostatList_DeepCopyInto : copier := copy_struct [
  ("TypeMeta", same_value); ("ListMeta", lib_DeepCopyInto "metav1.ListMeta");
  ("Items", slice_into Cryostat_DeepCopyInto)].
Definition CryostatList_DeepCopy : copier := new_copy CryostatList_DeepCopyInto.
Definition CryostatList_DeepCopyObject : gval → E heap (option gval) := as_object CryostatList_DeepCopy.

(** Every type of the package with its [DeepCopy]. *)
Definition deep_copies : list (string * generated) := [
  ("Affinity", Build_generated Affinity_ty Affinity_DeepCopy None);
  ("AuthorizationProperties", Build_generated AuthorizationProperties_ty AuthorizationProperties_DeepCopy None);
  ("CertificateSecret", Build_generated CertificateSecret_ty CertificateSecret_DeepCopy None);
  ("CoreServiceConfig", Build_generated CoreServiceConfig_ty CoreServiceConfig_DeepCopy None);
  ("Cryostat", Build_generated Cryostat_ty Cryostat_DeepCopy (Some Cryostat_DeepCopyObject));
  ("CryostatList", Build_generated CryostatList_ty CryostatList_DeepCopy (Some CryostatList_DeepCopyObject));
  ("CryostatSpec", Build_generated CryostatSpec_ty CryostatSpec_DeepCopy None);
  ("CryostatStatus", Build_generated CryostatStatus_ty CryostatStatus_DeepCopy None);
  ("EmptyDirConfig", Build_generated EmptyDirConfig_ty EmptyDirConfig_DeepCopy None);
  ("GrafanaServiceConfig", Build_generated GrafanaServiceConfig_ty GrafanaServiceConfig_DeepCopy None);
  ("JmxCacheOptions", Build_generated JmxCacheOptions_ty JmxCacheOptions_DeepCopy None);
  ("JmxCredentialsDatabaseOptions", Build_generated JmxCredentialsDatabaseOptions_ty JmxCredentialsDatabaseOptions_DeepCopy None);
  ("NetworkConfiguration", Build_generated NetworkConfiguration_ty NetworkConfiguration_DeepCopy None);
  ("NetworkConfigurationList", Build_generated NetworkConfigurationList_ty NetworkConfigurationList_DeepCopy None);
  ("OperandMetadata", Build_generated OperandMetadata_ty OperandMetadata_DeepCopy None);
  ("PersistentVolumeClaimConfig", Build_generated PersistentVolumeClaimConfig_ty PersistentVolumeClaimConfig_DeepCopy None);
  ("ReportConfiguration", Build_generated ReportConfiguration_ty ReportConfiguration_DeepCopy None);
  ("ReportsSecurityOptions", Build_generated ReportsSecurityOptions_ty ReportsSecurityOptions_DeepCopy None);
  ("ReportsServiceConfig", Build_generated ReportsServiceConfig_ty ReportsServiceConfig_DeepCopy None);
  ("ResourceConfigList", Build_generated ResourceConfigList_ty ResourceConfigList_DeepCopy None);
  ("ResourceMetadata", Build_generated ResourceMetadata_ty ResourceMetadata_DeepCopy None);
  ("SchedulingConfiguration", Build_generated SchedulingConfiguration_ty SchedulingConfiguration_DeepCopy None);
  ("SecurityOptions", Build_generated SecurityOptions_ty SecurityOptions_DeepCopy None);
  ("ServiceConfig", Build_generated ServiceConfig_ty ServiceConfig_DeepCopy None);
  ("ServiceConfigList", Build_generated ServiceConfigList_ty ServiceConfigList_DeepCopy None);
  ("StorageConfiguration", Build_generated StorageConfiguration_ty StorageConfiguration_DeepCopy None);
  ("StorageServiceConfig", Build_generated StorageServiceConfig_ty StorageServiceConfig_DeepCopy None);
  ("TargetDiscoveryOptions", Build_generated TargetDiscoveryOptions_ty TargetDiscoveryOptions_DeepCopy None);
  ("TemplateConfigMap", Build_generated TemplateConfigMap_ty TemplateConfigMap_DeepCopy None)].
End deepcopy.

(** ** Each of them is deep *)
Section laws.
Context `{LibTypesLaws}.

Lemma Affinity_deep_v1beta1 : deep Affinity_ty Affinity_DeepCopyInto.
Proof. deep_struct. Qed.
#[local] Hint Resolve Affinity_deep_v1beta1 : deepcopy.
Lemma AuthorizationProperties_deep_v1beta1 : deep AuthorizationProperties_ty AuthorizationProperties_DeepCopyInto.
Proof. deep_struct. Qed.
#[local] Hint Resolve AuthorizationProperties_deep_v1beta1 : deepcopy.
Lemma CertificateSecret_deep_v1beta1 : deep CertificateSecret_ty CertificateSecret_DeepCopyInto.
Proof. deep_struct. Qed.
#[local] Hint Resolve CertificateSecret_deep_v1beta1 : deepcopy.
Lemma ServiceConfig_deep_v1beta1 : deep ServiceConfig_ty ServiceConfig_DeepCopyInto.
Proof. deep_struct. Qed.
#[local] Hint Resolve ServiceConfig_deep_v1beta1 : deepcopy.
Lemma CoreServiceConfig_deep_v1beta1 : deep CoreServiceConfig_ty CoreServiceConfig_DeepCopyInto.
Proof. deep_struct. Qed.
#[local] Hint Resolve CoreServiceConfig_deep_v1beta1 : deepcopy.
Lemma TemplateConfigMap_deep_v1beta1 : deep TemplateConfigMap_ty TemplateConfigMap_DeepCopyInto.
Proof. deep_struct. Qed.
#[local] Hint Resolve TemplateConfigMap_deep_v1beta1 : deepcopy.
Lemma PersistentVolumeClaimConfig_deep_v1beta1 : deep PersistentVolumeClaimConfig_ty PersistentVolumeClaimConfig_DeepCopyInto.
Proof. deep_struct. Qed.
#[local] Hint Resolve PersistentVolumeClaimConfig_deep_v1beta1 : deepcopy.
Lemma EmptyDirConfig_deep_v1beta1 : deep EmptyDirConfig_ty EmptyDirConfig_DeepCopyInto.
Proof. deep_struct. Qed.
#[local] Hint Resolve EmptyDirConfig_deep_v1beta1 : deepcopy.
Lemma StorageConfiguration_deep_v1beta1 : deep StorageConfiguration_ty StorageConfiguration_DeepCopyInto.
Proof. deep_struct. Qed.
#[local] Hint Resolve StorageConfiguration_deep_v1beta1 : deepcopy.
Lemma GrafanaServiceConfig_deep_v1beta1 : deep GrafanaServiceConfig_ty GrafanaServiceConfig_DeepCopyInto.
Proof. deep_struct. Qed.
#[local] Hint Resolve GrafanaServiceConfig_deep_v1beta1 : deepcopy.
Lemma ReportsServiceConfig_deep_v1beta1 : deep ReportsServiceConfig_ty ReportsServiceConfig_DeepCopyInto.
Proof. deep_struct. Qed.
#[local] Hint Resolve ReportsServiceConfig_deep_v1beta1 : deepcopy.
Lemma StorageServiceConfig_deep_v1beta1 : deep StorageServiceConfig_ty StorageServiceConfig_DeepCopyInto.
Proof. deep_struct. Qed.
#[local] Hint Resolve StorageServiceConfig_deep_v1beta1 : deepcopy.
Lemma ServiceConfigList_deep_v1beta1 : deep ServiceConfigList_ty ServiceConfigList_DeepCopyInto.
Proof. deep_struct. Qed.
#[local] Hint Resolve ServiceConfigList_deep_v1beta1 : deepcopy.
Lemma NetworkConfiguration_deep_v1beta1 : deep NetworkConfiguration_ty NetworkConfiguration_DeepCopyInto.
Proof. deep_struct. Qed.
#[local] Hint Resolve NetworkConfiguration_deep_v1beta1 : deepcopy.
Lemma NetworkConfigurationList_deep_v1beta1 : deep NetworkConfigurationList_ty NetworkConfigurationList_DeepCopyInto.
Proof. deep_struct. Qed.
#[local] Hint Resolve NetworkConfigurationList_deep_v1beta1 : deepcopy.
Lemma ReportsSecurityOptions_deep_v1beta1 : deep ReportsSecurityOptions_ty ReportsSecurityOptions_DeepCopyInto.
Proof. deep_struct. Qed.
#[local] Hint Resolve ReportsSecurityOptions_deep_v1beta1 : deepcopy.
Lemma SchedulingConfiguration_deep_v1beta1 : deep SchedulingConfiguration_ty SchedulingConfiguration_DeepCopyInto.
Proof. deep_struct. Qed.
#[local] Hint Resolve SchedulingConfiguration_deep_v1beta1 : deepcopy.
Lemma ReportConfiguration_deep_v1beta1 : deep ReportConfiguration_ty ReportConfiguration_DeepCopyInto.
Proof. deep_struct. Qed.
#[local] Hint Resolve ReportConfiguration_deep_v1beta1 : deepcopy.
Lemma JmxCacheOptions_deep_v1beta1 : deep JmxCacheOptions_ty JmxCacheOptions_DeepCopyInto.
Proof. deep_struct. Qed.
#[local] Hint Resolve JmxCacheOptions_deep_v1beta1 : deepcopy.
Lemma ResourceConfigList_deep_v1beta1 : deep ResourceConfigList_ty ResourceConfigList_DeepCopyInto.
Proof. deep_struct. Qed.
#[local] Hint Resolve ResourceConfigList_deep_v1beta1 : deepcopy.
Lemma SecurityOptions_deep_v1beta1 : deep SecurityOptions_ty SecurityOptions_DeepCopyInto.
Proof. deep_struct. Qed.
#[local] Hint Resolve SecurityOptions_deep_v1beta1 : deepcopy.
Lemma TargetDiscoveryOptions_deep_v1beta1 : deep TargetDiscoveryOptions_ty TargetDiscoveryOptions_DeepCopyInto.
Proof. deep_struct. Qed.
#[local] Hint Resolve TargetDiscoveryOptions_deep_v1beta1 : deepcopy.
Lemma JmxCredentialsDatabaseOptions_deep_v1beta1 : deep JmxCredentialsDatabaseOptions_ty JmxCredentialsDatabaseOptions_DeepCopyInto.
Proof. deep_struct. Qed.
#[local] Hint Resolve JmxCredentialsDatabaseOptions_deep_v1beta1 : deepcopy.
Lemma ResourceMetadata_deep_v1beta1 : deep ResourceMetadata_ty ResourceMetadata_DeepCopyInto.
Proof. deep_struct. Qed.
#[local] Hint Resolve ResourceMetadata_deep_v1beta1 : deepcopy.
Lemma OperandMetadata_deep_v1beta1 : deep OperandMetadata_ty OperandMetadata_DeepCopyInto.
Proof. deep_struct. Qed.
#[local] Hint Resolve OperandMetadata_deep_v1beta1 : deepcopy.
Lemma CryostatSpec_deep_v1beta1 : deep CryostatSpec_ty CryostatSpec_DeepCopyInto.
Proof. deep_struct. Qed.
#[local] Hint Resolve CryostatSpec_deep_v1beta1 : deepcopy.
Lemma CryostatStatus_deep_v1beta1 : deep CryostatStatus_ty CryostatStatus_DeepCopyInto.
Proof. deep_struct. Qed.
#[local] Hint Resolve CryostatStatus_deep_v1beta1 : deepcopy.
Lemma Cryostat_deep_v1beta1 : deep Cryostat_ty Cryostat_DeepCopyInto.
Proof. deep_struct. Qed.
#[local] Hint Resolve Cryostat_deep_v1beta1 : deepcopy.
Lemma CryostatList_deep_v1beta1 : deep CryostatList_ty CryostatList_DeepCopyInto.
Proof. deep_struct. Qed.
#[local] Hint Resolve CryostatList_deep_v1beta1 : deepcopy.

Lemma deep_copies_deep_v1beta1 : Forall (λ e, deep_generated e.2) deep_copies.
Proof.
  unfold deep_copies. repeat (constructor; [split; [apply deep_new_copy; auto with deepcopy|by (left + right)]|]).
  constructor.
Qed.
End laws.
