(* ===== verification/DeepCopyV1beta2.v ===== *)
(** * Deep copies of the v1beta2 API types

    The functions of api/v1beta2/zz_generated.deepcopy.go, as operations on the heap of GoHeap.v: the
    layout of every struct of cryostat_types.go ([X_ty]), its [DeepCopyInto] and [DeepCopy], and
    that each of them is deep. *)

From S2P Require Import GoHeap.
Open Scope Z_scope.

(** ** The structs *)
Definition Affinity_ty : ty := Struct [
  ("NodeAffinity", Ptr (Lib "corev1.NodeAffinity"));
  ("PodAffinity", Ptr (Lib "corev1.PodAffinity"));
  ("PodAntiAffinity", Ptr (Lib "corev1.PodAntiAffinity"))].
Definition ResourceMetadata_ty : ty := Struct [("Annotations", Map); ("Labels", Map)].
Definition AgentCallbackServiceConfig_ty : ty := Struct [("ResourceMetadata", ResourceMetadata_ty)].
Definition ServiceConfig_ty : ty := Struct [
  ("ServiceType", Ptr Scalar); ("ResourceMetadata", ResourceMetadata_ty)].
Definition AgentGatewayServiceConfig_ty : ty := Struct [
  ("HTTPPort", Ptr Scalar); ("ServiceConfig", ServiceConfig_ty)].
Definition AgentOptions_ty : ty := Struct [
  ("DisableHostnameVerification", Scalar); ("AllowInsecure", Scalar);
  ("Resources", Lib "corev1.ResourceRequirements")].
Definition OpenShiftSSOConfig_ty : ty := Struct [
  ("Disable", Ptr Scalar); ("AccessReview", Ptr (Lib "authzv1.ResourceAttributes"))].
Definition SecretFile_ty : ty := Struct [("SecretName", Ptr Scalar); ("Filename", Ptr Scalar)].
Definition AuthorizationOptions_ty : ty := Struct [
  ("OpenShiftSSO", Ptr OpenShiftSSOConfig_ty); ("BasicAuth", Ptr SecretFile_ty)].
Definition AuthorizationProperties_ty : ty := Struct [
  ("ClusterRoleName", Scalar); ("ConfigMapName", Scalar); ("Filename", Scalar)].
Definition AutomatedRuleConfigMap_ty : ty := Struct [
  ("ConfigMapName", Scalar); ("Filename", Scalar)].
Definition CertificateSecret_ty : ty := Struct [
  ("SecretName", Scalar); ("ConfigMapName", Scalar); ("CertificateKey", Ptr Scalar)].
Definition CoreServiceConfig_ty : ty := Struct [
  ("HTTPPort", Ptr Scalar); ("ServiceConfig", ServiceConfig_ty)].
Definition TemplateConfigMap_ty : ty := Struct [("ConfigMapName", Scalar); ("Filename", Scalar)].
Definition ProbeTemplateConfigMap_ty : ty := Struct [
  ("ConfigMapName", Scalar); ("Filename", Scalar)].
Definition DeclarativeCredential_ty : ty := Struct [("SecretName", Scalar)].
Definition PersistentVolumeClaimConfig_ty : ty := Struct [
  ("Spec", Ptr (Lib "corev1.PersistentVolumeClaimSpec")); ("ResourceMetadata", ResourceMetadata_ty)].
Definition EmptyDirConfig_ty : ty := Struct [
  ("Enabled", Scalar); ("Medium", Scalar); ("SizeLimit", Scalar)].
Definition StorageConfiguration_ty : ty := Struct [
  ("PVC", Ptr PersistentVolumeClaimConfig_ty); ("EmptyDir", Ptr EmptyDirConfig_ty)].
Definition LegacyStorageConfiguration_ty : ty := Struct [
  ("PVC", Ptr PersistentVolumeClaimConfig_ty); ("EmptyDir", Ptr EmptyDirConfig_ty)].
Definition StorageConfigurations_ty : ty := Struct [
  ("Database", Ptr StorageConfiguration_ty); ("ObjectStorage", Ptr StorageConfiguration_ty);
  ("LegacyStorageConfiguration", LegacyStorageConfiguration_ty)].
Definition ReportsServiceConfig_ty : ty := Struct [
  ("HTTPPort", Ptr Scalar); ("ServiceConfig", ServiceConfig_ty)].
Definition DatabaseServiceConfig_ty : ty := Struct [
  ("DatabasePort", Ptr Scalar); ("ServiceConfig", ServiceConfig_ty)].
Definition StorageServiceConfig_ty : ty := Struct [
  ("HTTPPort", Ptr Scalar); ("ServiceConfig", ServiceConfig_ty)].
Definition ServiceConfigList_ty : ty := Struct [
  ("CoreConfig", Ptr CoreServiceConfig_ty); ("ReportsConfig", Ptr ReportsServiceConfig_ty);
  ("DatabaseConfig", Ptr DatabaseServiceConfig_ty); ("StorageConfig", Ptr StorageServiceConfig_ty);
  ("AgentGatewayConfig", Ptr AgentGatewayServiceConfig_ty);
  ("AgentCallbackConfig", Ptr AgentCallbackServiceConfig_ty)].
Definition NetworkPolicyConfig_ty : ty := Struct [
  ("Disabled", Ptr Scalar); ("IngressDisabled", Ptr Scalar); ("EgressEnabled", Ptr Scalar)].
Definition NetworkPoliciesList_ty : ty := Struct [
  ("CoreConfig", Ptr NetworkPolicyConfig_ty); ("ReportsConfig", Ptr NetworkPolicyConfig_ty);
  ("DatabaseConfig", Ptr NetworkPolicyConfig_ty); ("StorageConfig", Ptr NetworkPolicyConfig_ty)].
Definition NetworkConfiguration_ty : ty := Struct [
  ("ExternalHost", Ptr Scalar); ("IngressSpec", Ptr (Lib "netv1.IngressSpec"));
  ("ResourceMetadata", ResourceMetadata_ty)].
Definition NetworkConfigurationList_ty : ty := Struct [("CoreConfig", Ptr NetworkConfiguration_ty)].
Definition ReportsSecurityOptions_ty : ty := Struct [
  ("PodSecurityContext", Ptr (Lib "corev1.PodSecurityContext"));
  ("ReportsSecurityContext", Ptr (Lib "corev1.SecurityContext"))].
Definition SchedulingConfiguration_ty : ty := Struct [
  ("NodeSelector", Map); ("Affinity", Ptr Affinity_ty);
  ("Tolerations", Slice (Lib "corev1.Toleration"))].
Definition ReportConfiguration_ty : ty := Struct [
  ("Replicas", Scalar); ("Resources", Lib "corev1.ResourceRequirements");
  ("SubProcessMaxHeapSize", Scalar); ("SecurityOptions", Ptr ReportsSecurityOptions_ty);
  ("SchedulingOptions", Ptr SchedulingConfiguration_ty)].
Definition TargetConnectionCacheOptions_ty : ty := Struct [
  ("TargetCacheSize", Scalar); ("TargetCacheTTL", Scalar)].
Definition ResourceConfigList_ty : ty := Struct [
  ("AuthProxyResources", Lib "corev1.ResourceRequirements");
  ("CoreResources", Lib "corev1.ResourceRequirements");
  ("DataSourceResources", Lib "corev1.ResourceRequirements");
  ("GrafanaResources", Lib "corev1.ResourceRequirements");
  ("DatabaseResources", Lib "corev1.ResourceRequirements");
  ("ObjectStorageResources", Lib "corev1.ResourceRequirements");
  ("AgentProxyResources", Lib "corev1.ResourceRequirements")].
Definition SecurityOptions_ty : ty := Struct [
  ("PodSecurityContext", Ptr (Lib "corev1.PodSecurityContext"));
  ("AuthProxySecurityContext", Ptr (Lib "corev1.SecurityContext"));
  ("CoreSecurityContext", Ptr (Lib "corev1.SecurityContext"));
  ("DataSourceSecurityContext", Ptr (Lib "corev1.SecurityContext"));
  ("GrafanaSecurityContext", Ptr (Lib "corev1.SecurityContext"));
  ("StorageSecurityContext", Ptr (Lib "corev1.SecurityContext"));
  ("DatabaseSecurityContext", Ptr (Lib "corev1.SecurityContext"));
  ("AgentProxySecurityContext", Ptr (Lib "corev1.SecurityContext"))].
Definition TargetDiscoveryOptions_ty : ty := Struct [
  ("DisableBuiltInDiscovery", Scalar); ("DisableBuiltInPortNames", Scalar);
  ("DiscoveryPortNames", Slice Scalar); ("DisableBuiltInPortNumbers", Scalar);
  ("DiscoveryPortNumbers", Slice Scalar)].
Definition DatabaseOptions_ty : ty := Struct [("SecretName", Ptr Scalar)].
Definition ObjectStorageProviderOptions_ty : ty := Struct [
  ("URL", Ptr Scalar); ("UseVirtualHostAccess", Ptr Scalar);
  ("DisablePresignedFileTransfers", Ptr Scalar); ("DisablePresignedDownloads", Ptr Scalar);
  ("Region", Ptr Scalar); ("TLSTrustAll", Ptr Scalar); ("MetadataMode", Ptr Scalar)].
Definition StorageBucketNameOptions_ty : ty := Struct [
  ("ArchivedRecordings", Ptr Scalar); ("ArchivedReports", Ptr Scalar);
  ("EventTemplates", Ptr Scalar); ("JMCAgentProbeTemplates", Ptr Scalar);
  ("HeapDumps", Ptr Scalar); ("ThreadDumps", Ptr Scalar); ("Metadata", Ptr Scalar)].
Definition ObjectStorageOptions_ty : ty := Struct [
  ("SecretName", Ptr Scalar); ("Provider", Ptr ObjectStorageProviderOptions_ty);
  ("StorageBucketNameOptions", Ptr StorageBucketNameOptions_ty)].
Definition OperandMetadata_ty : ty := Struct [
  ("DeploymentMetadata", Ptr ResourceMetadata_ty); ("PodMetadata", Ptr ResourceMetadata_ty)].
Definition LoggingOptions_ty : ty := Struct [("CoreLogLevel", Ptr Scalar)].
Definition CryostatSpec_ty : ty := Struct [
  ("TargetNamespaces", Slice Scalar); ("TrustedCertSecrets", Slice CertificateSecret_ty);
  ("AutomatedRules", Slice AutomatedRuleConfigMap_ty);
  ("EventTemplates", Slice TemplateConfigMap_ty);
  ("ProbeTemplates", Slice ProbeTemplateConfigMap_ty);
  ("DeclarativeCredentials", Slice DeclarativeCredential_ty); ("EnableCertManager", Ptr Scalar);
  ("StorageOptions", Ptr StorageConfigurations_ty); ("ServiceOptions", Ptr ServiceConfigList_ty);
  ("NetworkPolicies", Ptr NetworkPoliciesList_ty);
  ("NetworkOptions", Ptr NetworkConfigurationList_ty);
  ("ReportOptions", Ptr ReportConfiguration_ty); ("EnableAudit", Ptr Scalar);
  ("TargetConnectionCacheOptions", Ptr TargetConnectionCacheOptions_ty);
  ("Resources", Ptr ResourceConfigList_ty); ("AuthorizationOptions", Ptr AuthorizationOptions_ty);
  ("SecurityOptions", Ptr SecurityOptions_ty);
  ("SchedulingOptions", Ptr SchedulingConfiguration_ty);
  ("TargetDiscoveryOptions", Ptr TargetDiscoveryOptions_ty);
  ("DatabaseOptions", Ptr DatabaseOptions_ty);
  ("ObjectStorageOptions", Ptr ObjectStorageOptions_ty);
  ("OperandMetadata", Ptr OperandMetadata_ty); ("AgentOptions", Ptr AgentOptions_ty);
  ("LoggingOptions", Ptr LoggingOptions_ty)].
Definition CryostatStatus_ty : ty := Struct [
  ("TargetNamespaces", Slice Scalar); ("Conditions", Slice (Lib "metav1.Condition"));
  ("ApplicationURL", Scalar); ("StorageSecret", Scalar); ("DatabaseSecret", Scalar)].
Definition Cryostat_ty : ty := Struct [
  ("TypeMeta", TypeMeta_ty); ("ObjectMeta", Lib "metav1.ObjectMeta"); ("Spec", CryostatSpec_ty);
  ("Status", CryostatStatus_ty)].
Definition CryostatList_ty : ty := Struct [
  ("TypeMeta", TypeMeta_ty); ("ListMeta", Lib "metav1.ListMeta"); ("Items", Slice Cryostat_ty)].

(** ** The generated functions *)
Section deepcopy.
Context `{LibTypes}.

Definition Affinity_DeepCopyInto : copier := copy_struct [
  ("NodeAffinity", new_into (lib_DeepCopyInto "corev1.NodeAffinity"));
  ("PodAffinity", new_into (lib_DeepCopyInto "corev1.PodAffinity"));
  ("PodAntiAffinity", new_into (lib_DeepCopyInto "corev1.PodAntiAffinity"))].
Definition Affinity_DeepCopy : copier := new_copy Affinity_DeepCopyInto.
Definition ResourceMetadata_DeepCopyInto : copier := copy_struct [
  ("Annotations", map_copy); ("Labels", map_copy)].
Definition ResourceMetadata_DeepCopy : copier := new_copy ResourceMetadata_DeepCopyInto.
Definition AgentCallbackServiceConfig_DeepCopyInto : copier := copy_struct [
  ("ResourceMetadata", ResourceMetadata_DeepCopyInto)].
Definition AgentCallbackServiceConfig_DeepCopy : copier := new_copy AgentCallbackServiceConfig_DeepCopyInto.
Definition ServiceConfig_DeepCopyInto : copier := copy_struct [
  ("ServiceType", new_value); ("ResourceMetadata", ResourceMetadata_DeepCopyInto)].
Definition ServiceConfig_DeepCopy : copier := new_copy ServiceConfig_DeepCopyInto.
Definition AgentGatewayServiceConfig_DeepCopyInto : copier := copy_struct [
  ("HTTPPort", new_value); ("ServiceConfig", ServiceConfig_DeepCopyInto)].
Definition AgentGatewayServiceConfig_DeepCopy : copier := new_copy AgentGatewayServiceConfig_DeepCopyInto.
Definition AgentOptions_DeepCopyInto : copier := copy_struct [
  ("Resources", lib_DeepCopyInto "corev1.ResourceRequirements")].
Definition AgentOptions_DeepCopy : copier := new_copy AgentOptions_DeepCopyInto.
Definition OpenShiftSSOConfig_DeepCopyInto : copier := copy_struct [
  ("Disable", new_value);
  ("AccessReview", new_into (lib_DeepCopyInto "authzv1.ResourceAttributes"))].
Definition OpenShiftSSOConfig_DeepCopy : copier := new_copy OpenShiftSSOConfig_DeepCopyInto.
Definition SecretFile_DeepCopyInto : copier := copy_struct [
  ("SecretName", new_value); ("Filename", new_value)].
Definition SecretFile_DeepCopy : copier := new_copy SecretFile_DeepCopyInto.
Definition AuthorizationOptions_DeepCopyInto : copier := copy_struct [
  ("OpenShiftSSO", new_into OpenShiftSSOConfig_DeepCopyInto);
  ("BasicAuth", new_into SecretFile_DeepCopyInto)].
Definition AuthorizationOptions_DeepCopy : copier := new_copy AuthorizationOptions_DeepCopyInto.
Definition AuthorizationProperties_DeepCopyInto : copier := copy_struct [].
Definition AuthorizationProperties_DeepCopy : copier := new_copy AuthorizationProperties_DeepCopyInto.
Definition AutomatedRuleConfigMap_DeepCopyInto : copier := copy_struct [].
Definition AutomatedRuleConfigMap_DeepCopy : copier := new_copy AutomatedRuleConfigMap_DeepCopyInto.
Definition CertificateSecret_DeepCopyInto : copier := copy_struct [("CertificateKey", new_value)].
Definition CertificateSecret_DeepCopy : copier := new_copy CertificateSecret_DeepCopyInto.
Definition CoreServiceConfig_DeepCopyInto : copier := copy_struct [
  ("HTTPPort", new_value); ("ServiceConfig", ServiceConfig_DeepCopyInto)].
Definition CoreServiceConfig_DeepCopy : copier := new_copy CoreServiceConfig_DeepCopyInto.
Definition TemplateConfigMap_DeepCopyInto : copier := copy_struct [].
Definition TemplateConfigMap_DeepCopy : copier := new_copy TemplateConfigMap_DeepCopyInto.
Definition ProbeTemplateConfigMap_DeepCopyInto : copier := copy_struct [].
Definition ProbeTemplateConfigMap_DeepCopy : copier := new_copy ProbeTemplateConfigMap_DeepCopyInto.
Definition DeclarativeCredential_DeepCopyInto : copier := copy_struct [].
Definition DeclarativeCredential_DeepCopy : copier := new_copy DeclarativeCredential_DeepCopyInto.
Definition PersistentVolumeClaimConfig_DeepCopyInto : copier := copy_struct [
  ("Spec", new_into (lib_DeepCopyInto "corev1.PersistentVolumeClaimSpec"));
  ("ResourceMetadata", ResourceMetadata_DeepCopyInto)].
Definition PersistentVolumeClaimConfig_DeepCopy : copier := new_copy PersistentVolumeClaimConfig_DeepCopyInto.
Definition EmptyDirConfig_DeepCopyInto : copier := copy_struct [].
Definition EmptyDirConfig_DeepCopy : copier := new_copy EmptyDirConfig_DeepCopyInto.
Definition StorageConfiguration_DeepCopyInto : copier := copy_struct [
  ("PVC", new_into PersistentVolumeClaimConfig_DeepCopyInto); ("EmptyDir", new_value)].
Definition StorageConfiguration_DeepCopy : copier := new_copy StorageConfiguration_DeepCopyInto.
Definition LegacyStorageConfiguration_DeepCopyInto : copier := copy_struct [
  ("PVC", new_into PersistentVolumeClaimConfig_DeepCopyInto); ("EmptyDir", new_value)].
Definition LegacyStorageConfiguration_DeepCopy : copier := new_copy LegacyStorageConfiguration_DeepCopyInto.
Definition StorageConfigurations_DeepCopyInto : copier := copy_struct [
  ("Database", new_into StorageConfiguration_DeepCopyInto);
  ("ObjectStorage", new_into StorageConfiguration_DeepCopyInto);
  ("LegacyStorageConfiguration", LegacyStorageConfiguration_DeepCopyInto)].
Definition StorageConfigurations_DeepCopy : copier := new_copy StorageConfigurations_DeepCopyInto.
Definition ReportsServiceConfig_DeepCopyInto : copier := copy_struct [
  ("HTTPPort", new_value); ("ServiceConfig", ServiceConfig_DeepCopyInto)].
Definition ReportsServiceConfig_DeepCopy : copier := new_copy ReportsServiceConfig_DeepCopyInto.
Definition DatabaseServiceConfig_DeepCopyInto : copier := copy_struct [
  ("DatabasePort", new_value); ("ServiceConfig", ServiceConfig_DeepCopyInto)].
Definition DatabaseServiceConfig_DeepCopy : copier := new_copy DatabaseServiceConfig_DeepCopyInto.
Definition StorageServiceConfig_DeepCopyInto : copier := copy_struct [
  ("HTTPPort", new_value); ("ServiceConfig", ServiceConfig_DeepCopyInto)].
Definition StorageServiceConfig_DeepCopy : copier := new_copy StorageServiceConfig_DeepCopyInto.
Definition ServiceConfigList_DeepCopyInto : copier := copy_struct [
  ("CoreConfig", new_into CoreServiceConfig_DeepCopyInto);
  ("ReportsConfig", new_into ReportsServiceConfig_DeepCopyInto);
  ("DatabaseConfig", new_into DatabaseServiceConfig_DeepCopyInto);
  ("StorageConfig", new_into StorageServiceConfig_DeepCopyInto);
  ("AgentGatewayConfig", new_into AgentGatewayServiceConfig_DeepCopyInto);
  ("AgentCallbackConfig", new_into AgentCallbackServiceConfig_DeepCopyInto)].
Definition ServiceConfigList_DeepCopy : copier := new_copy ServiceConfigList_DeepCopyInto.
Definition NetworkPolicyConfig_DeepCopyInto : copier := copy_struct [
  ("Disabled", new_value); ("IngressDisabled", new_value); ("EgressEnabled", new_value)].
Definition NetworkPolicyConfig_DeepCopy : copier := new_copy NetworkPolicyConfig_DeepCopyInto.
Definition NetworkPoliciesList_DeepCopyInto : copier := copy_struct [
  ("CoreConfig", new_into NetworkPolicyConfig_DeepCopyInto);
  ("ReportsConfig", new_into NetworkPolicyConfig_DeepCopyInto);
  ("DatabaseConfig", new_into NetworkPolicyConfig_DeepCopyInto);
  ("StorageConfig", new_into NetworkPolicyConfig_DeepCopyInto)].
Definition NetworkPoliciesList_DeepCopy : copier := new_copy NetworkPoliciesList_DeepCopyInto.
Definition NetworkConfiguration_DeepCopyInto : copier := copy_struct [
  ("ExternalHost", new_value); ("IngressSpec", new_into (lib_DeepCopyInto "netv1.IngressSpec"));
  ("ResourceMetadata", ResourceMetadata_DeepCopyInto)].
Definition NetworkConfiguration_DeepCopy : copier := new_copy NetworkConfiguration_DeepCopyInto.
Definition NetworkConfigurationList_DeepCopyInto : copier := copy_struct [
  ("CoreConfig", new_into NetworkConfiguration_DeepCopyInto)].
Definition NetworkConfigurationList_DeepCopy : copier := new_copy NetworkConfigurationList_DeepCopyInto.
Definition ReportsSecurityOptions_DeepCopyInto : copier := copy_struct [
  ("PodSecurityContext", new_into (lib_DeepCopyInto "corev1.PodSecurityContext"));
  ("ReportsSecurityContext", new_into (lib_DeepCopyInto "corev1.SecurityContext"))].
Definition ReportsSecurityOptions_DeepCopy : copier := new_copy ReportsSecurityOptions_DeepCopyInto.
Definition SchedulingConfiguration_DeepCopyInto : copier := copy_struct [
  ("NodeSelector", map_copy); ("Affinity", new_into Affinity_DeepCopyInto);
  ("Tolerations", slice_into (lib_DeepCopyInto "corev1.Toleration"))].
Definition SchedulingConfiguration_DeepCopy : copier := new_copy SchedulingConfiguration_DeepCopyInto.
Definition ReportConfiguration_DeepCopyInto : copier := copy_struct [
  ("Resources", lib_DeepCopyInto "corev1.ResourceRequirements");
  ("SecurityOptions", new_into ReportsSecurityOptions_DeepCopyInto);
  ("SchedulingOptions", new_into SchedulingConfiguration_DeepCopyInto)].
Definition ReportConfiguration_DeepCopy : copier := new_copy ReportConfiguration_DeepCopyInto.
Definition TargetConnectionCacheOptions_DeepCopyInto : copier := copy_struct [].
Definition TargetConnectionCacheOptions_DeepCopy : copier := new_copy TargetConnectionCacheOptions_DeepCopyInto.
Definition ResourceConfigList_DeepCopyInto : copier := copy_struct [
  ("AuthProxyResources", lib_DeepCopyInto "corev1.ResourceRequirements");
  ("CoreResources", lib_DeepCopyInto "corev1.ResourceRequirements");
  ("DataSourceResources", lib_DeepCopyInto "corev1.ResourceRequirements");
  ("GrafanaResources", lib_DeepCopyInto "corev1.ResourceRequirements");
  ("DatabaseResources", lib_DeepCopyInto "corev1.ResourceRequirements");
  ("ObjectStorageResources", lib_DeepCopyInto "corev1.ResourceRequirements");
  ("AgentProxyResources", lib_DeepCopyInto "corev1.ResourceRequirements")].
Definition ResourceConfigList_DeepCopy : copier := new_copy ResourceConfigList_DeepCopyInto.
Definition SecurityOptions_DeepCopyInto : copier := copy_struct [
  ("PodSecurityContext", new_into (lib_DeepCopyInto "corev1.PodSecurityContext"));
  ("AuthProxySecurityContext", new_into (lib_DeepCopyInto "corev1.SecurityContext"));
  ("CoreSecurityContext", new_into (lib_DeepCopyInto "corev1.SecurityContext"));
  ("DataSourceSecurityContext", new_into (lib_DeepCopyInto "corev1.SecurityContext"));
  ("GrafanaSecurityContext", new_into (lib_DeepCopyInto "corev1.SecurityContext"));
  ("StorageSecurityContext", new_into (lib_DeepCopyInto "corev1.SecurityContext"));
  ("DatabaseSecurityContext", new_into (lib_DeepCopyInto "corev1.SecurityContext"));
  ("AgentProxySecurityContext", new_into (lib_DeepCopyInto "corev1.SecurityContext"))].
Definition SecurityOptions_DeepCopy : copier := new_copy SecurityOptions_DeepCopyInto.
Definition TargetDiscoveryOptions_DeepCopyInto : copier := copy_struct [
  ("DiscoveryPortNames", slice_copy); ("DiscoveryPortNumbers", slice_copy)].
Definition TargetDiscoveryOptions_DeepCopy : copier := new_copy TargetDiscoveryOptions_DeepCopyInto.
Definition DatabaseOptions_DeepCopyInto : copier := copy_struct [("SecretName", new_value)].
Definition DatabaseOptions_DeepCopy : copier := new_copy DatabaseOptions_DeepCopyInto.
Definition ObjectStorageProviderOptions_DeepCopyInto : copier := copy_struct [
  ("URL", new_value); ("UseVirtualHostAccess", new_value);
  ("DisablePresignedFileTransfers", new_value); ("DisablePresignedDownloads", new_value);
  ("Region", new_value); ("TLSTrustAll", new_value); ("MetadataMode", new_value)].
Definition ObjectStorageProviderOptions_DeepCopy : copier := new_copy ObjectStorageProviderOptions_DeepCopyInto.
Definition StorageBucketNameOptions_DeepCopyInto : copier := copy_struct [
  ("ArchivedRecordings", new_value); ("ArchivedReports", new_value); ("EventTemplates", new_value);
  ("JMCAgentProbeTemplates", new_value); ("HeapDumps", new_value); ("ThreadDumps", new_value);
  ("Metadata", new_value)].
Definition StorageBucketNameOptions_DeepCopy : copier := new_copy StorageBucketNameOptions_DeepCopyInto.
Definition ObjectStorageOptions_DeepCopyInto : copier := copy_struct [
  ("SecretName", new_value); ("Provider", new_into ObjectStorageProviderOptions_DeepCopyInto);
  ("StorageBucketNameOptions", new_into StorageBucketNameOptions_DeepCopyInto)].
Definition ObjectStorageOptions_DeepCopy : copier := new_copy ObjectStorageOptions_DeepCopyInto.
Definition OperandMetadata_DeepCopyInto : copier := copy_struct [
  ("DeploymentMetadata", new_into ResourceMetadata_DeepCopyInto);
  ("PodMetadata", new_into ResourceMetadata_DeepCopyInto)].
Definition OperandMetadata_DeepCopy : copier := new_copy OperandMetadata_DeepCopyInto.
Definition LoggingOptions_DeepCopyInto : copier := copy_struct [("CoreLogLevel", new_value)].
Definition LoggingOptions_DeepCopy : copier := new_copy LoggingOptions_DeepCopyInto.
Definition CryostatSpec_DeepCopyInto : copier := copy_struct [
  ("TargetNamespaces", slice_copy);
  ("TrustedCertSecrets", slice_into CertificateSecret_DeepCopyInto);
  ("AutomatedRules", slice_copy); ("EventTemplates", slice_copy); ("ProbeTemplates", slice_copy);
  ("DeclarativeCredentials", slice_copy); ("EnableCertManager", new_value);
  ("StorageOptions", new_into StorageConfigurations_DeepCopyInto);
  ("ServiceOptions", new_into ServiceConfigList_DeepCopyInto);
  ("NetworkPolicies", new_into NetworkPoliciesList_DeepCopyInto);
  ("NetworkOptions", new_into NetworkConfigurationList_DeepCopyInto);
  ("ReportOptions", new_into ReportConfiguration_DeepCopyInto); ("EnableAudit", new_value);
  ("TargetConnectionCacheOptions", new_value);
  ("Resources", new_into ResourceConfigList_DeepCopyInto);
  ("AuthorizationOptions", new_into AuthorizationOptions_DeepCopyInto);
  ("SecurityOptions", new_into SecurityOptions_DeepCopyInto);
  ("SchedulingOptions", new_into SchedulingConfiguration_DeepCopyInto);
  ("TargetDiscoveryOptions", new_into TargetDiscoveryOptions_DeepCopyInto);
  ("DatabaseOptions", new_into DatabaseOptions_DeepCopyInto);
  ("ObjectStorageOptions", new_into ObjectStorageOptions_DeepCopyInto);
  ("OperandMetadata", new_into OperandMetadata_DeepCopyInto);
  ("AgentOptions", new_into AgentOptions_DeepCopyInto);
  ("LoggingOptions", new_into LoggingOptions_DeepCopyInto)].
Definition CryostatSpec_DeepCopy : copier := new_copy CryostatSpec_DeepCopyInto.
Definition CryostatStatus_DeepCopyInto : copier := copy_struct [
  ("TargetNamespaces", slice_copy);
  ("Conditions", slice_into (lib_DeepCopyInto "metav1.Condition"))].
Definition CryostatStatus_DeepCopy : copier := new_copy CryostatStatus_DeepCopyInto.
Definition Cryostat_DeepCopyInto : copier := copy_struct [
  ("TypeMeta", same_value); ("ObjectMeta", lib_DeepCopyInto "metav1.ObjectMeta");
  ("Spec", CryostatSpec_DeepCopyInto); ("Status", CryostatStatus_DeepCopyInto)].
Definition Cryostat_DeepCopy : copier := new_copy Cryostat_DeepCopyInto.
Definition Cryostat_DeepCopyObject : gval → E heap (option gval) := as_object Cryostat_DeepCopy.
Definition CryostatList_DeepCopyInto : copier := copy_struct [
  ("TypeMeta", same_value); ("ListMeta", lib_DeepCopyInto "metav1.ListMeta");
  ("Items", slice_into Cryostat_DeepCopyInto)].
Definition CryostatList_DeepCopy : copier := new_copy CryostatList_DeepCopyInto.
Definition CryostatList_DeepCopyObject : gval → E heap (option gval) := as_object CryostatList_DeepCopy.

(** Every type of the package with its [DeepCopy]. *)
Definition deep_copies : list (string * generated) := [
  ("Affinity", Build_generated Affinity_ty Affinity_DeepCopy None);
  ("AgentCallbackServiceConfig", Build_generated AgentCallbackServiceConfig_ty AgentCallbackServiceConfig_DeepCopy None);
  ("AgentGatewayServiceConfig", Build_generated AgentGatewayServiceConfig_ty AgentGatewayServiceConfig_DeepCopy None);
  ("AgentOptions", Build_generated AgentOptions_ty AgentOptions_DeepCopy None);
  ("AuthorizationOptions", Build_generated AuthorizationOptions_ty AuthorizationOptions_DeepCopy None);
  ("AuthorizationProperties", Build_generated AuthorizationProperties_ty AuthorizationProperties_DeepCopy None);
  ("AutomatedRuleConfigMap", Build_generated AutomatedRuleConfigMap_ty AutomatedRuleConfigMap_DeepCopy None);
  ("CertificateSecret", Build_generated CertificateSecret_ty CertificateSecret_DeepCopy None);
  ("CoreServiceConfig", Build_generated CoreServiceConfig_ty CoreServiceConfig_DeepCopy None);
  ("Cryostat", Build_generated Cryostat_ty Cryostat_DeepCopy (Some Cryostat_DeepCopyObject));
  ("CryostatList", Build_generated CryostatList_ty CryostatList_DeepCopy (Some CryostatList_DeepCopyObject));
  ("CryostatSpec", Build_generated CryostatSpec_ty CryostatSpec_DeepCopy None);
  ("CryostatStatus", Build_generated CryostatStatus_ty CryostatStatus_DeepCopy None);
  ("DatabaseOptions", Build_generated DatabaseOptions_ty DatabaseOptions_DeepCopy None);
  ("DatabaseServiceConfig", Build_generated DatabaseServiceConfig_ty DatabaseServiceConfig_DeepCopy None);
  ("DeclarativeCredential", Build_generated DeclarativeCredential_ty DeclarativeCredential_DeepCopy None);
  ("EmptyDirConfig", Build_generated EmptyDirConfig_ty EmptyDirConfig_DeepCopy None);
  ("LegacyStorageConfiguration", Build_generated LegacyStorageConfiguration_ty LegacyStorageConfiguration_DeepCopy None);
  ("LoggingOptions", Build_generated LoggingOptions_ty LoggingOptions_DeepCopy None);
  ("NetworkConfiguration", Build_generated NetworkConfiguration_ty NetworkConfiguration_DeepCopy None);
  ("NetworkConfigurationList", Build_generated NetworkConfigurationList_ty NetworkConfigurationList_DeepCopy None);
  ("NetworkPoliciesList", Build_generated NetworkPoliciesList_ty NetworkPoliciesList_DeepCopy None);
  ("NetworkPolicyConfig", Build_generated NetworkPolicyConfig_ty NetworkPolicyConfig_DeepCopy None);
  ("ObjectStorageOptions", Build_generated ObjectStorageOptions_ty ObjectStorageOptions_DeepCopy None);
  ("ObjectStorageProviderOptions", Build_generated ObjectStorageProviderOptions_ty ObjectStorageProviderOptions_DeepCopy None);
  ("OpenShiftSSOConfig", Build_generated OpenShiftSSOConfig_ty OpenShiftSSOConfig_DeepCopy None);
  ("OperandMetadata", Build_generated OperandMetadata_ty OperandMetadata_DeepCopy None);
  ("PersistentVolumeClaimConfig", Build_generated PersistentVolumeClaimConfig_ty PersistentVolumeClaimConfig_DeepCopy None);
  ("ProbeTemplateConfigMap", Build_generated ProbeTemplateConfigMap_ty ProbeTemplateConfigMap_DeepCopy None);
  ("ReportConfiguration", Build_generated ReportConfiguration_ty ReportConfiguration_DeepCopy None);
  ("ReportsSecurityOptions", Build_generated ReportsSecurityOptions_ty ReportsSecurityOptions_DeepCopy None);
  ("ReportsServiceConfig", Build_generated ReportsServiceConfig_ty ReportsServiceConfig_DeepCopy None);
  ("ResourceConfigList", Build_generated ResourceConfigList_ty ResourceConfigList_DeepCopy None);
  ("ResourceMetadata", Build_generated ResourceMetadata_ty ResourceMetadata_DeepCopy None);
  ("SchedulingConfiguration", Build_generated SchedulingConfiguration_ty SchedulingConfiguration_DeepCopy None);
  ("SecretFile", Build_generated SecretFile_ty SecretFile_DeepCopy None);
  ("SecurityOptions", Build_generated SecurityOptions_ty SecurityOptions_DeepCopy None);
  ("ServiceConfig", Build_generated ServiceConfig_ty ServiceConfig_DeepCopy None);
  ("ServiceConfigList", Build_generated ServiceConfigList_ty ServiceConfigList_DeepCopy None);
  ("StorageBucketNameOptions", Build_generated StorageBucketNameOptions_ty StorageBucketNameOptions_DeepCopy None);
  ("StorageConfiguration", Build_generated StorageConfiguration_ty StorageConfiguration_DeepCopy None);
  ("StorageConfigurations", Build_generated StorageConfigurations_ty StorageConfigurations_DeepCopy None);
  ("StorageServiceConfig", Build_generated StorageServiceConfig_ty StorageServiceConfig_DeepCopy None);
  ("TargetConnectionCacheOptions", Build_generated TargetConnectionCacheOptions_ty TargetConnectionCacheOptions_DeepCopy None);
  ("TargetDiscoveryOptions", Build_generated TargetDiscoveryOptions_ty TargetDiscoveryOptions_DeepCopy None);
  ("TemplateConfigMap", Build_generated TemplateConfigMap_ty TemplateConfigMap_DeepCopy None)].
End deepcopy.

(** ** Each of them is deep *)
Section laws.
Context `{LibTypesLaws}.

Lemma Affinity_deep_v1beta2 : deep Affinity_ty Affinity_DeepCopyInto.
Proof. deep_struct. Qed.
#[local] Hint Resolve Affinity_deep_v1beta2 : deepcopy.
Lemma ResourceMetadata_deep_v1beta2 : deep ResourceMetadata_ty ResourceMetadata_DeepCopyInto.
Proof. deep_struct. Qed.
#[local] Hint Resolve ResourceMetadata_deep_v1beta2 : deepcopy.
Lemma AgentCallbackServiceConfig_deep_v1beta2 : deep AgentCallbackServiceConfig_ty AgentCallbackServiceConfig_DeepCopyInto.
Proof. deep_struct. Qed.
#[local] Hint Resolve AgentCallbackServiceConfig_deep_v1beta2 : deepcopy.
Lemma ServiceConfig_deep_v1beta2 : deep ServiceConfig_ty ServiceConfig_DeepCopyInto.
Proof. deep_struct. Qed.
#[local] Hint Resolve ServiceConfig_deep_v1beta2 : deepcopy.
Lemma AgentGatewayServiceConfig_deep_v1beta2 : deep AgentGatewayServiceConfig_ty AgentGatewayServiceConfig_DeepCopyInto.
Proof. deep_struct. Qed.
#[local] Hint Resolve AgentGatewayServiceConfig_deep_v1beta2 : deepcopy.
Lemma AgentOptions_deep_v1beta2 : deep AgentOptions_ty AgentOptions_DeepCopyInto.
Proof. deep_struct. Qed.
#[local] Hint Resolve AgentOptions_deep_v1beta2 : deepcopy.
Lemma OpenShiftSSOConfig_deep_v1beta2 : deep OpenShiftSSOConfig_ty OpenShiftSSOConfig_DeepCopyInto.
Proof. deep_struct. Qed.
#[local] Hint Resolve OpenShiftSSOConfig_deep_v1beta2 : deepcopy.
Lemma SecretFile_deep_v1beta2 : deep SecretFile_ty SecretFile_DeepCopyInto.
Proof. deep_struct. Qed.
#[local] Hint Resolve SecretFile_deep_v1beta2 : deepcopy.
Lemma AuthorizationOptions_deep_v1beta2 : deep AuthorizationOptions_ty AuthorizationOptions_DeepCopyInto.
Proof. deep_struct. Qed.
#[local] Hint Resolve AuthorizationOptions_deep_v1beta2 : deepcopy.
Lemma AuthorizationProperties_deep_v1beta2 : deep AuthorizationProperties_ty AuthorizationProperties_DeepCopyInto.
Proof. deep_struct. Qed.
#[local] Hint Resolve AuthorizationProperties_deep_v1beta2 : deepcopy.
Lemma AutomatedRuleConfigMap_deep_v1beta2 : deep AutomatedRuleConfigMap_ty AutomatedRuleConfigMap_DeepCopyInto.
Proof. deep_struct. Qed.
#[local] Hint Resolve AutomatedRuleConfigMap_deep_v1beta2 : deepcopy.
Lemma CertificateSecret_deep_v1beta2 : deep CertificateSecret_ty CertificateSecret_DeepCopyInto.
Proof. deep_struct. Qed.
#[local] Hint Resolve CertificateSecret_deep_v1beta2 : deepcopy.
Lemma CoreServiceConfig_deep_v1beta2 : deep CoreServiceConfig_ty CoreServiceConfig_DeepCopyInto.
Proof. deep_struct. Qed.
#[local] Hint Resolve CoreServiceConfig_deep_v1beta2 : deepcopy.
Lemma TemplateConfigMap_deep_v1beta2 : deep TemplateConfigMap_ty TemplateConfigMap_DeepCopyInto.
Proof. deep_struct. Qed.
#[local] Hint Resolve TemplateConfigMap_deep_v1beta2 : deepcopy.
Lemma ProbeTemplateConfigMap_deep_v1beta2 : deep ProbeTemplateConfigMap_ty ProbeTemplateConfigMap_DeepCopyInto.
Proof. deep_struct. Qed.
#[local] Hint Resolve ProbeTemplateConfigMap_deep_v1beta2 : deepcopy.
Lemma DeclarativeCredential_deep_v1beta2 : deep DeclarativeCredential_ty DeclarativeCredential_DeepCopyInto.
Proof. deep_struct. Qed.
#[local] Hint Resolve DeclarativeCredential_deep_v1beta2 : deepcopy.
Lemma PersistentVolumeClaimConfig_deep_v1beta2 : deep PersistentVolumeClaimConfig_ty PersistentVolumeClaimConfig_DeepCopyInto.
Proof. deep_struct. Qed.
#[local] Hint Resolve PersistentVolumeClaimConfig_deep_v1beta2 : deepcopy.
Lemma EmptyDirConfig_deep_v1beta2 : deep EmptyDirConfig_ty EmptyDirConfig_DeepCopyInto.
Proof. deep_struct. Qed.
#[local] Hint Resolve EmptyDirConfig_deep_v1beta2 : deepcopy.
Lemma StorageConfiguration_deep_v1beta2 : deep StorageConfiguration_ty StorageConfiguration_DeepCopyInto.
Proof. deep_struct. Qed.
#[local] Hint Resolve StorageConfiguration_deep_v1beta2 : deepcopy.
Lemma LegacyStorageConfiguration_deep_v1beta2 : deep LegacyStorageConfiguration_ty LegacyStorageConfiguration_DeepCopyInto.
Proof. deep_struct. Qed.
#[local] Hint Resolve LegacyStorageConfiguration_deep_v1beta2 : deepcopy.
Lemma StorageConfigurations_deep_v1beta2 : deep StorageConfigurations_ty StorageConfigurations_DeepCopyInto.
Proof. deep_struct. Qed.
#[local] Hint Resolve StorageConfigurations_deep_v1beta2 : deepcopy.
Lemma ReportsServiceConfig_deep_v1beta2 : deep ReportsServiceConfig_ty ReportsServiceConfig_DeepCopyInto.
Proof. deep_struct. Qed.
#[local] Hint Resolve ReportsServiceConfig_deep_v1beta2 : deepcopy.
Lemma DatabaseServiceConfig_deep_v1beta2 : deep DatabaseServiceConfig_ty DatabaseServiceConfig_DeepCopyInto.
Proof. deep_struct. Qed.
#[local] Hint Resolve DatabaseServiceConfig_deep_v1beta2 : deepcopy.
Lemma StorageServiceConfig_deep_v1beta2 : deep StorageServiceConfig_ty StorageServiceConfig_DeepCopyInto.
Proof. deep_struct. Qed.
#[local] Hint Resolve StorageServiceConfig_deep_v1beta2 : deepcopy.
Lemma ServiceConfigList_deep_v1beta2 : deep ServiceConfigList_ty ServiceConfigList_DeepCopyInto.
Proof. deep_struct. Qed.
#[local] Hint Resolve ServiceConfigList_deep_v1beta2 : deepcopy.
Lemma NetworkPolicyConfig_deep_v1beta2 : deep NetworkPolicyConfig_ty NetworkPolicyConfig_DeepCopyInto.
Proof. deep_struct. Qed.
#[local] Hint Resolve NetworkPolicyConfig_deep_v1beta2 : deepcopy.
Lemma NetworkPoliciesList_deep_v1beta2 : deep NetworkPoliciesList_ty NetworkPoliciesList_DeepCopyInto.
Proof. deep_struct. Qed.
#[local] Hint Resolve NetworkPoliciesList_deep_v1beta2 : deepcopy.
Lemma NetworkConfiguration_deep_v1beta2 : deep NetworkConfiguration_ty NetworkConfiguration_DeepCopyInto.
Proof. deep_struct. Qed.
#[local] Hint Resolve NetworkConfiguration_deep_v1beta2 : deepcopy.
Lemma NetworkConfigurationList_deep_v1beta2 : deep NetworkConfigurationList_ty NetworkConfigurationList_DeepCopyInto.
Proof. deep_struct. Qed.
#[local] Hint Resolve NetworkConfigurationList_deep_v1beta2 : deepcopy.
Lemma ReportsSecurityOptions_deep_v1beta2 : deep ReportsSecurityOptions_ty ReportsSecurityOptions_DeepCopyInto.
Proof. deep_struct. Qed.
#[local] Hint Resolve ReportsSecurityOptions_deep_v1beta2 : deepcopy.
Lemma SchedulingConfiguration_deep_v1beta2 : deep SchedulingConfiguration_ty SchedulingConfiguration_DeepCopyInto.
Proof. deep_struct. Qed.
#[local] Hint Resolve SchedulingConfiguration_deep_v1beta2 : deepcopy.
Lemma ReportConfiguration_deep_v1beta2 : deep ReportConfiguration_ty ReportConfiguration_DeepCopyInto.
Proof. deep_struct. Qed.
#[local] Hint Resolve ReportConfiguration_deep_v1beta2 : deepcopy.
Lemma TargetConnectionCacheOptions_deep_v1beta2 : deep TargetConnectionCacheOptions_ty TargetConnectionCacheOptions_DeepCopyInto.
Proof. deep_struct. Qed.
#[local] Hint Resolve TargetConnectionCacheOptions_deep_v1beta2 : deepcopy.
Lemma ResourceConfigList_deep_v1beta2 : deep ResourceConfigList_ty ResourceConfigList_DeepCopyInto.
Proof. deep_struct. Qed.
#[local] Hint Resolve ResourceConfigList_deep_v1beta2 : deepcopy.
Lemma SecurityOptions_deep_v1beta2 : deep SecurityOptions_ty SecurityOptions_DeepCopyInto.
Proof. deep_struct. Qed.
#[local] Hint Resolve SecurityOptions_deep_v1beta2 : deepcopy.
Lemma TargetDiscoveryOptions_deep_v1beta2 : deep TargetDiscoveryOptions_ty TargetDiscoveryOptions_DeepCopyInto.
Proof. deep_struct. Qed.
#[local] Hint Resolve TargetDiscoveryOptions_deep_v1beta2 : deepcopy.
Lemma DatabaseOptions_deep_v1beta2 : deep DatabaseOptions_ty DatabaseOptions_DeepCopyInto.
Proof. deep_struct. Qed.
#[local] Hint Resolve DatabaseOptions_deep_v1beta2 : deepcopy.
Lemma ObjectStorageProviderOptions_deep_v1beta2 : deep ObjectStorageProviderOptions_ty ObjectStorageProviderOptions_DeepCopyInto.
Proof. deep_struct. Qed.
#[local] Hint Resolve ObjectStorageProviderOptions_deep_v1beta2 : deepcopy.
Lemma StorageBucketNameOptions_deep_v1beta2 : deep StorageBucketNameOptions_ty StorageBucketNameOptions_DeepCopyInto.
Proof. deep_struct. Qed.
#[local] Hint Resolve StorageBucketNameOptions_deep_v1beta2 : deepcopy.
Lemma ObjectStorageOptions_deep_v1beta2 : deep ObjectStorageOptions_ty ObjectStorageOptions_DeepCopyInto.
Proof. deep_struct. Qed.
#[local] Hint Resolve ObjectStorageOptions_deep_v1beta2 : deepcopy.
Lemma OperandMetadata_deep_v1beta2 : deep OperandMetadata_ty OperandMetadata_DeepCopyInto.
Proof. deep_struct. Qed.
#[local] Hint Resolve OperandMetadata_deep_v1beta2 : deepcopy.
Lemma LoggingOptions_deep_v1beta2 : deep LoggingOptions_ty LoggingOptions_DeepCopyInto.
Proof. deep_struct. Qed.
#[local] Hint Resolve LoggingOptions_deep_v1beta2 : deepcopy.
Lemma CryostatSpec_deep_v1beta2 : deep CryostatSpec_ty CryostatSpec_DeepCopyInto.
Proof. deep_struct. Qed.
#[local] Hint Resolve CryostatSpec_deep_v1beta2 : deepcopy.
Lemma CryostatStatus_deep_v1beta2 : deep CryostatStatus_ty CryostatStatus_DeepCopyInto.
Proof. deep_struct. Qed.
#[local] Hint Resolve CryostatStatus_deep_v1beta2 : deepcopy.
Lemma Cryostat_deep_v1beta2 : deep Cryostat_ty Cryostat_DeepCopyInto.
Proof. deep_struct. Qed.
#[local] Hint Resolve Cryostat_deep_v1beta2 : deepcopy.
Lemma CryostatList_deep_v1beta2 : deep CryostatList_ty CryostatList_DeepCopyInto.
Proof. deep_struct. Qed.
#[local] Hint Resolve CryostatList_deep_v1beta2 : deepcopy.

Lemma deep_copies_deep_v1beta2 : Forall (λ e, deep_generated e.2) deep_copies.
Proof.
  unfold deep_copies. repeat (constructor; [split; [apply deep_new_copy; auto with deepcopy|by (left + right)]|]).
  constructor.
Qed.
End laws.
