(* ===== verification/DeepCopies.v ===== *)
(** * What the generated deep copies promise

    The controllers and the webhooks change objects that came out of a shared cache only after
    a [DeepCopy]; this file states why that is enough, for both versions of the API at once,
    and runs one copy on a small heap. *)

From S2P Require Import GoHeap.
From S2P Require DeepCopyV1beta1 DeepCopyV1beta2.
Open Scope Z_scope.

Section deepcopy.
Context `{LibTypesLaws}.
(** Every type that api/v1beta1 and api/v1beta2 declare. *)
Definition all_deep_copies : list (string * generated) :=
  DeepCopyV1beta1.deep_copies ++ DeepCopyV1beta2.deep_copies.

Lemma all_deep name g : (name, g) ∈ all_deep_copies → deep_generated g.
Proof.
  intros Hin. pose proof (Forall_app_2 _ _ _ DeepCopyV1beta1.deep_copies_deep_v1beta1 DeepCopyV1beta2.deep_copies_deep_v1beta2) as Hall.
  rewrite Forall_forall in Hall. by apply (Hall (name, g)).
Qed.

(** C17. The copy of any pointer to a value of these types succeeds, is nil exactly when the
    original is, and afterwards no write to memory that existed before shows in the copy,
    and no write to memory of the copy shows in the original; [DeepCopyObject] gives the
    same pointer, as the nil interface when it is nil. *)
Theorem DeepCopy_independent name g (h : heap) v t :
  (name, g) ∈ all_deep_copies → repr (λ a, a ∈ dom h) h (Ptr (g_type g)) v t →
  ∃ v' h', g_DeepCopy g v h = (Ok v', h') ∧ (v = GNil ↔ v' = GNil) ∧
    (∀ h'', (∀ a, a ∉ dom h → h'' !! a = h' !! a) → repr (λ a, a ∉ dom h) h'' (Ptr (g_type g)) v' t) ∧
    (∀ h'', (∀ a, a ∈ dom h → h'' !! a = h' !! a) → repr (λ a, a ∈ dom h) h'' (Ptr (g_type g)) v t) ∧
    (∀ DeepCopyObject, g_DeepCopyObject g = Some DeepCopyObject →
       DeepCopyObject v h = (Ok (match v' with GNil => None | _ => Some v' end), h')).
Proof.
  intros [Hdeep Hobj]%all_deep Hr.
  destruct (deep_independent _ _ h v t Hdeep Hr) as (v' & h' & Hrun & Hcopy & Horig). exists v', h'.
  pose proof (Hcopy h' (λ a _, eq_refl)) as Hr'. split_and!; [done| |done|done|].
  - split; eapply repr_ptr_nil; done.
  - intros o Ho. destruct Hobj as [Hobj|Hobj]; rewrite Hobj in Ho; [done|]. injection Ho as <-.
    unfold as_object. rewrite (mtry_step _ _ _ _ _ Hrun). by destruct v'.
Qed.
End deepcopy.

(** ** A heap to run it on

    Types of other modules that hold a map of strings, as [resource.Quantity] maps do. *)
Definition sample_lib_repr (P : addr → Prop) (h : heap) (name : string) (v : gval) (t : tree) : Prop :=
  (v = GNil ∧ t = TLib name []) ∨
  ∃ a m, v = GMap a ∧ t = TLib name [TMap m] ∧ P a ∧ h !! a = Some (CMap m).
#[local] Instance sample_lib : LibTypes := { lib_DeepCopyInto _ := map_copy; lib_repr := sample_lib_repr }.
#[local] Instance sample_lib_laws : LibTypesLaws.
Proof.
  split.
  - intros P Q h h' name v t Hf [[-> ->]|(a & m & -> & -> & Ha & Hm)]; [by left|].
    right. apply Hf in Hm as [? Hm]; [|done]. by exists a, m.
  - intros name P h v t [[-> ->]|(a & m & -> & -> & Ha & Hm)].
    + exists GNil, h. split_and!; [done..|by left].
    + destruct (deep_map P h (GMap a) (TMap m)) as (v' & h' & Hrun & Hh & Hr); [by right; exists a, m|].
      exists v', h'. split_and!; [done..|]. right.
      destruct Hr as [[_ ?]|(b & m' & -> & Hm' & Hb & Hcell)]; [done|].
      injection Hm' as <-. by exists b, m.
Defined.

(** A pod template's metadata: a map of annotations, and no labels. *)
Definition sample_metadata : gval := GStruct [("Annotations", GMap 1); ("Labels", GNil)].
Definition sample_options : gval := GStruct [("DeploymentMetadata", GNil); ("PodMetadata", GPtr 2)].
Definition sample_heap : heap :=
  <[1%positive := CMap {["sidecar" := SString "false"]}]> (<[2%positive := CPtr sample_metadata]>
    (<[3%positive := CPtr sample_options]> ∅)).
Definition sample_tree : tree :=
  TPtr (TStruct [("DeploymentMetadata", TNil);
    ("PodMetadata", TPtr (TStruct [("Annotations", TMap {["sidecar" := SString "false"]}); ("Labels", TNil)]))]).
Definition sample_generated : generated :=
  Build_generated DeepCopyV1beta2.OperandMetadata_ty DeepCopyV1beta2.OperandMetadata_DeepCopy None.
Lemma sample_known : ("OperandMetadata", sample_generated) ∈ all_deep_copies.
Proof. unfold all_deep_copies. rewrite elem_of_app. right. unfold DeepCopyV1beta2.deep_copies. repeat (left + right). Qed.
Lemma sample_repr : repr (λ a, a ∈ dom sample_heap) sample_heap (Ptr (g_type sample_generated)) (GPtr 3) sample_tree.
Proof.
  assert (∀ a : addr, a ∈ [1; 2; 3]%positive → a ∈ dom sample_heap) as Hdom.
  { intros a Ha. repeat (apply elem_of_cons in Ha as [->|Ha]; [apply elem_of_dom; eexists; vm_compute; reflexivity|]). by apply elem_of_nil in Ha. }
  right. exists 3%positive, sample_options. eexists. split_and!; [done|done|apply Hdom; set_solver|done|].
  do 2 eexists. split_and!; [done|done|]. split_and!; [done|done|by left|done|done| |done].
  right. exists 2%positive, sample_metadata. eexists. split_and!; [done|done|apply Hdom; set_solver|done|].
  do 2 eexists. split_and!; [done|done|]. split_and!; [done|done| |done|done|by left|done].
  right. exists 1%positive. eexists. split_and!; [done|done|apply Hdom; set_solver|done].
Qed.
(** Clearing the annotations of the original leaves those of the copy. *)
Lemma DeepCopy_independent_witness :
  ∃ v' h', DeepCopyV1beta2.OperandMetadata_DeepCopy (GPtr 3) sample_heap = (Ok v', h') ∧ v' ≠ GNil ∧
    repr (λ a, a ∉ dom sample_heap) (<[1%positive := CMap ∅]> h') (Ptr DeepCopyV1beta2.OperandMetadata_ty) v' sample_tree.
Proof.
  destruct (DeepCopy_independent _ _ sample_heap (GPtr 3) sample_tree sample_known sample_repr)
    as (v' & h' & Hrun & Hnil & Hcopy & _).
  exists v', h'. split_and!; [exact Hrun|intros Hv; by apply Hnil in Hv|].
  apply Hcopy. intros a Ha. apply lookup_insert_ne. intros <-. apply Ha, elem_of_dom. eexists. vm_compute. reflexivity.
Defined.
